(* ===== verification/_CoqProject ===== *)
-Q . S2P
Prelude.v
GoBytes.v
Utf8.v
Json.v
Gjson.v
Types.v
Wire.v
Conn.v
Config.v
Flags.v
Redis.v
Database.v
SaraDb.v
DbLife.v
NodeChannel.v
World.v
External.v
Session.v
SessionProps.v
Login.v
Offline.v
Kept.v
Rpc.v
Channels.v
Node.v
Sound.v
Service.v
Group.v
Ghost.v
Loss.v
Relogin.v
Clean.v
Deadline.v
Client.v
Bench.v
ClientThreads.v
Witnesses.v
Cluster.v
Bounce.v
Server.v
Main.v
App.v
Stop.v
Scenarios.v
ClientRun.v
