(* ===== verification/Prelude.v ===== *)
(** * Verification of the sara instant-messaging server

    ** The program

    A process of sara is one _node_.  Clients connect by TCP, TLS or websocket and
    send packets: JSON documents with an envelope (id, type, sender, recipient).  A
    _session_ ([src/core/session.go]) is the life of one connection: the client logs
    in with its first packet, the session is recorded in redis under its channel and
    session id, messages stored for the user are fetched, packets of the client are
    routed to the recipient's session, to the recipients of a group or to the
    offline store, and packets sent to the client stay in a buffer until they are
    acknowledged.  Routing goes through a queue with workers
    ([src/node/router.go]): a packet to this node's channel is given to the session,
    a packet to another channel is published to that node by thrift
    ([src/sararpc]), whose data channel handler ([src/node/node.go]) routes it
    again.  All of them share a database on redis ([src/saradb/database.go]) whose
    writes go, except for session records, through two queues emptied by worker
    goroutines.  Authentication, members of a group and the notification of offline
    messages are http callbacks to the user's own server ([src/external]); an
    http-rpc service ([src/service]) lets that server ask who is online and send
    messages.

    ** Files

    - [Prelude]: byte strings, the outcome of Go code ([Ret] or a panic) and the
      state monad of handlers, notations, tactics, hint databases, list lemmas.
    - [GoBytes], [Utf8], [Json]: what the program uses of Go's [strings], [bytes],
      [strconv], [unicode/utf8] and [encoding/json].
    - [Gjson]: [Get] and the accessors of results of the vendored gjson, for the
      plain dotted paths the program uses.
    - [Types]: [src/core/types], constants, [Packet], [Envelope], [JID], the packets
      the server makes, and the database keys of a user.
    - [Wire]: whole packets as a client decodes them ([UnmarshalPacket] of
      [src/core/decoder.go]).
    - [Conn]: [src/core/decoder.go], [conn_tcp.go], [conn_ws.go]: [DecodePacket], the
      receive loop over the outcomes of reads, the adaptive buffer.
    - [Config]: [src/config/config.go], the map of settings and loading it.
    - [Flags]: [src/utils/flags.go], the command-line flags with the type assertions of
      their defaults, and [LoadFromCtx] of [src/config/config.go].
    - [Redis]: the redis service as a class [RedisServer] with its documented
      behaviour [RedisLaws], and the reply accessors of the vendored radix client.
    - [Database]: the class of [src/saradb/interface.go] with the laws sessions rely
      on ([DatabaseLaws]).
    - [SaraDb]: [src/saradb/database.go]; it is an instance of [Database] and of
      [DatabaseLaws] over every redis that satisfies [RedisLaws].
    - [DbLife]: opening the database ([initDb], [initClusterDb]) and [Close] as a step
      relation interleaved with the workers.
    - [NodeChannel]: [src/saradb/channel.go] and [GenDataChannel], the data channel on
      redis publish/subscribe, behind the class [PubSub].
    - [World]: what the sessions of a process share: the database, the router behind
      the class [MessageRouter] ([RouterLaws] is what it promises), settings, the
      cache of offline ids ([src/core/cache.go]), the clean-up channel; and
      the oracles for random ids, time, callback replies and map order.
    - [External]: [src/external] and [src/utils/httpclient.go], with the form encoding
      of [net/url].
    - [Session]: every handler of [src/core/session.go] as a computation on the state
      of the session and the world; [SessionProps] holds its theorems, [Offline] those
      on the whole way of an offline message through session and database; [Login] splits a
      login at its http call ([openSession_parts], [packetHandler_parts]) and holds the life
      of a session in which other steps happen in between.
    - [Kept]: the classes [WorldRel], [SessionRel] and [HandlerRel] of the relations that
      every effect of a handler keeps, and that the handlers of a session then keep; the
      bound of the router, the order of writes and deletions of session records and the
      reporting of closed sessions are instances.
    - [Rpc]: [src/sararpc]: the channel of a node, the pools of thrift clients, and the
      server that hands the texts of other nodes to the channel.
    - [Channels]: the interface [DataChannel] of [src/sararpc/interface.go] as a class with
      its laws, its two instances (the channels of [Rpc] and [NodeChannel]), [Subscribe].
    - [Node]: [src/node]: the router (instance of [MessageRouter]), its workers, the
      sessions of the process, accepting, cleaning, the handler of messages of
      other nodes, and one step of the node; the class [NodeInv] of invariants of its
      steps, whose instances are [node_ok], [node_sound], [swept] and [all_timed].
    - [Sound]: the invariant of the session objects of a node in every state it can
      reach from its start ([reachable]).
    - [Service]: [src/service] with the http server and the request dispatch of the vendored
      go-lightrpc, and what [http.ServeMux] and the cors handler in front of it answer
      themselves.
    - [Group]: group messages that are received from another node; [Bounce]: runs of two nodes
      between which one group message goes back and forth.
    - [Ghost]: the records an earlier run of a node left, and [Counter] of the service.
    - [Loss]: messages that no part of the system keeps.
    - [Relogin]: a second login of a user on one node: the kill signal from the login to the
      closed session, and the record of the user.
    - [Clean]: closed sessions and the loop [clean] of [src/node/node.go], also in the runs in
      which accepting a connection is split into creating its session, reading and
      registering ([fine_step], [dispatcher_parts]).
    - [Deadline]: the read deadlines of connections.
    - [Client]: [src/benchmark/makeconn.go], the client of the connection benchmark, as the
      other side of the protocol of the sessions; [Bench]: [MakeConn] with its goroutines,
      channels and wait group as a step relation; [ClientThreads]: the goroutines of one client.
    - [Witnesses]: the theorems on sessions, nodes, rpc and services at one concrete
      scenario.
    - [Cluster]: several nodes on one redis that call each other, as a step relation.
    - [Server]: the listening side of [src/node/node.go]: [New], [StartTCP], [StartWS],
      [StartTLS], [StartWSS], the accept loops, [closeListener] and [Wait] up to the closing
      of the database ([Wait_sessions]); the network
      and the certificate files are the class [Host].
    - [Main]: [src/main.go]: the commands, [sara] from the configuration to the waiting
      node, the pid file and the signals; the operating system is a map of files with
      what it refuses as the class [Machine].
    - [App]: the rest of [src/main.go]: the application around the commands, the profiles
      of the flag [debug], the version.
    - [Stop]: stopping a node, from [Stop] to the closed database ([Wait_close] is all of
      [Wait]).
    - [Scenarios]: the theorems of [Cluster], [Main], [Stop], [Relogin], [Clean] and [Deadline] at
      concrete inputs; [ClientRun]: those of [Client], [Bench], [ClientThreads], [Loss] and [Bounce]; the
      other files hold their own witnesses.

    ** How code is modelled

    Strings and byte slices are lists of [ascii]; integers are [Z], with the range
    checks and conversions of the code where they matter ([ParseInt], the buffer
    sizes, timestamps).  A nil pointer is [None], and using one is the outcome
    [Panic] with its message.  A handler is a function from a state to an outcome and
    a state; a [recover] in the code is a function on outcomes.  Goroutines are steps:
    a handler runs to its end, with arbitrary well-behaved steps of the rest of the
    process before and after it, except in the files that split one: [Login] (a login at its
    http call), [Clean] (accepting a connection), [Loss] (a delivery at its status test) and
    [DbLife] (closing the database); the database workers take a command in one step and
    carry it out in another, so that commands of different workers are reordered as
    they can be at run time.  A send on a full channel blocks; the model lets the item
    wait in the queue instead, so queues have no bound, except where the code tests
    their length ([Router_Route] and its load limit) and in [Bench], where a send on a full
    queue is not a step.  Byte slices are values, except in [cleanGhostSession], where two
    appends to the slice of the node id can write to one array: [registration] is the value the
    worker reads, with the capacity of the slice and the time of the read as oracles.

    ** Fuel

    The recursive parsers take fuel, and no theorem depends on running out of it:
    [parse_value] runs with [parse_fuel], one more than twice the length of the text,
    and [parse_fuel_irrelevant] shows that more fuel changes nothing, so [None] is
    a syntax error; every call of the gjson scanners consumes a byte and they run
    with the length of the text; printing a decimal number [z] runs with the bit
    length of [z].  [nc_receive] and [Subscribe] take the number of rounds of an endless loop;
    [channel_delivers_in_order] and [Subscribe_handles_every_message] hold for every number
    that is at least the number of messages.  All other definitions are structurally recursive.

    ** Theorems

    - Sessions: login records the session where others find it and routes to it
      ([login_makes_user_reachable], [login_records_session]); a session never goes back to the
      status before its login and, when no login is under way, a logged in one only becomes
      closed and a closed one stays so ([session_lifecycle]); closing a session closes its
      connection, and nothing is written to it afterwards ([closed_session_is_silent]); a
      message to an absent user is stored
      ([message_to_absent_user_is_stored]), a delivered one is kept until it is
      acknowledged ([delivered_packet_kept_until_ack]) and stored when the session
      closes first ([close_stores_unacknowledged]); a group message goes to every
      other member ([group_message_to_every_other_member]); a second login on one node
      replaces the first session ([relogin_replaces_session]).
    - Offline messages from end to end: what is sent to an absent user is in the answer
      to the user's next login ([offline_message_delivered_at_login]), and acknowledging
      that answer deletes exactly those messages ([ack_deletes_offline_messages]).
    - Database: what is stored for a user is fetched once the queues are drained
      ([stored_messages_are_fetched]); the workers carry out every command exactly
      once ([workers_execute_exactly_once]), can always drain the queues
      ([queues_always_drainable]) and, when the queued commands touch different
      keys, reach one final state whatever their order ([drained_state_unique]); deleting by
      an index removes exactly what it names ([delete_by_index_removes_all]).
      Closing a database with no pending command on a session record terminates without
      a panic ([close_terminates]) and loses nothing ([close_executes_everything]).
    - Node and cluster: [node_invariant] and [cluster_invariant] for every reachable
      state; sessions that are open when they are registered leave the session map once they are
      closed ([closed_sessions_leave_the_map]), and no
      session waits without a deadline ([every_session_has_a_deadline]);
      a packet in the router is delivered to the local session
      ([routed_packet_is_delivered]); a message to a user on another node reaches that
      user's client ([message_crosses_nodes]) or, when the node cannot be called, is
      queued for the offline index ([unreachable_node_stores_message]).
    - Restarts: a node that starts forgets the sessions of its earlier run and touches no
      other key ([restart_forgets_ghost_sessions]), but can lose a part of its start time
      ([restart_overwrites_start_time]); [Counter] counts the registered nodes
      ([Counter_counts_nodes]).
    - The protocol from both ends: the login text of a client logs it in when its password is
      accepted, and the answer puts the client into its state ok when it fits the client's one
      read ([client_login_succeeds]), its acknowledgement makes
      the server drop the message ([client_ack_clears_buffer]), its messages are routed
      ([client_message_is_routed]); a client decodes every packet of the server whole
      ([packet_roundtrip]).
    - The benchmark: its connecting phase ends with every connection dialled or waits for the
      server to answer a login ([MakeConn_terminates]), and a client ends with its connection
      ([client_ends_with_connection]).
    - Data channels: both implementations refine one first-in first-out log
      ([data_channel_is_fifo], [Subscribe_handles_every_message]).
    - Start and stop: the flags are well typed ([package_flags_typed]), the file of
      [sara setup] starts a server ([setup_then_start]), [sara stop] signals that server
      ([stop_signals_saved_process]); from every reachable state stopping closes all
      sessions of the map ([stop_closes_every_session]) and what was not acknowledged is in redis
      afterwards ([graceful_stop_keeps_messages]).
    - Data: the TCP decoder gives the pieces of the whole stream however it is cut
      into reads, unless a read starts with the flag; of a read with a zero byte only the
      bytes before it count ([tcp_stream_reassembled]);
      round trips of packets, user ids, session records and form fields;
      [session_keys_identify_users].
    - Rpc and services: the pools keep their invariant, the server queues every text
      ([server_queues_every_text]), a wrong token runs nothing.
    - What the code does against its intention is proved as well, each as a theorem
      with a concrete run: [stop_with_session_can_crash],
      [stop_while_accepting_can_crash], [no_database_panics],
      [packet_before_connection_dropped], [login_elsewhere_crashes_node],
      [group_copies_have_no_payload], [refused_login_kills_recorded_session],
      [message_id_overwrites_session_record], [close_with_backlog_can_crash],
      [queued_delete_erases_relogin], [relogin_ends_unreachable], [delete_can_overtake_store],
      [group_permission_by_substring], [malformed_recipient_panics],
      [decoder_drops_part_at_flag], [missing_key_panics],
      [group_copy_is_expanded_again], [group_message_bounces], [close_during_login_reopens],
      [queued_connection_survives_stop], [restart_overwrites_start_time],
      [acknowledged_message_can_vanish], [packet_of_a_gone_session_is_dropped],
      [delivery_during_close_is_lost], [early_close_leaks_session], [StartServer_drops_error],
      [restart_erases_session_elsewhere], [second_flush_keeps_cpu_file],
      [debug_command_empties_cpu_file], [flush_without_file_panics],
      [local_address_is_the_list].

    ** Not modelled

    Sockets, TLS, the headers of the cors filter and the wire protocols of redis and thrift,
    which are code of libraries (behind the classes above); the texts of the log; parsing the command line (the
    library; the getters of its context are arguments).  Timers, the results of dialling and
    of reading are chosen by the environment.  Data races on maps and counters that the code
    leaves unlocked: the model makes each handler atomic there, except in the files named above
    and in the accept loops.  The formatting of floating-point numbers and the texts of JSON errors are
    operations of the class [GoLib].  What is left of [src] beside vendored code is commented-out
    code, imports and declarations without behaviour.

    ** Possible extensions

    The closing of a node and of its database as one system with the router workers still
    running; the redis wire protocol of the vendored radix client. *)

From stdpp Require Export base gmap strings list sorting numbers.
From Stdlib Require Export Ascii ZArith Lia.

#[global] Open Scope Z_scope.
#[global] Open Scope list_scope.

#[export] Set Warnings "-level-tolerance,-clear-no-such-hyp,-register-all".

Declare Scope go_scope.
Delimit Scope go_scope with go.
Delimit Scope char_scope with char.
#[global] Open Scope go_scope.

(** ** Byte strings

    Go's [string] and [[]byte] are both sequences of 8-bit values; both are
    modelled by lists of [ascii], so that the list library applies to them. *)

Abbreviation bytes := (list ascii).

(** A Go string literal. *)
Definition lit (s : string) : bytes := String.list_ascii_of_string s.

Notation "'§' s" := (lit s%string) (at level 1, s at level 0, format "'§' s") : go_scope.

(** The value of a byte, and the byte of a value (modulo 256). *)
Definition zob (c : ascii) : Z := Z.of_nat (nat_of_ascii c).
Definition boz (z : Z) : ascii := ascii_of_nat (Z.to_nat (z mod 256)).

(** ** Outcomes of a Go call

    A call either returns or panics.  The state transformer keeps the state a
    panic leaves behind: effects done before a panic are not undone when the
    panic is recovered further up the stack. *)

Inductive outcome (A : Type) : Type :=
| Ret (a : A)
| Panic (msg : bytes).
Arguments Ret {A} _.
Arguments Panic {A} _.

Definition M (S A : Type) : Type := S → outcome A * S.

Definition ret {S A} (a : A) : M S A := λ s, (Ret a, s).

Definition bind {S A B} (m : M S A) (k : A → M S B) : M S B := λ s,
  match m s with
  | (Ret a, s') => k a s'
  | (Panic p, s') => (Panic p, s')
  end.

Definition panic {S A} (msg : bytes) : M S A := λ s, (Panic msg, s).

(** Reading and writing a component of the state. *)
Definition gets {S A} (f : S → A) : M S A := λ s, (Ret (f s), s).
Definition modify {S} (f : S → S) : M S unit := λ s, (Ret tt, f s).

(** [defer func() { if e := recover(); e != nil { h(e) } }()] around [m]. *)
Definition recover {S A} (m : M S A) (h : bytes → M S A) : M S A := λ s,
  match m s with
  | (Ret a, s') => (Ret a, s')
  | (Panic p, s') => h p s'
  end.

(** Running a computation on a component of a larger state. *)
Definition zoom {S T A} (get : S → T) (set : T → S → S) (m : M T A) : M S A := λ s,
  let '(r, t) := m (get s) in (r, set t s).

(** A Go loop [for _, x := range l { body }]. *)
Fixpoint for_range {S A} (l : list A) (body : A → M S unit) : M S unit :=
  match l with
  | [] => ret tt
  | x :: l' => bind (body x) (λ _, for_range l' body)
  end.

(** An outcome without state, run in any state. *)
Definition of_outcome {S A} (o : outcome A) : M S A := λ s, (o, s).

Notation "'let!' x ':=' m 'in' k" := (bind m (λ x, k))
  (at level 10, x pattern, m at level 100, k at level 200,
   format "'[v' 'let!'  x  ':='  m  'in' '/' k ']'") : go_scope.
Notation "m '>>>' k" := (bind m (λ _, k))
  (at level 102, k at level 102, right associativity) : go_scope.

(** Go's multiple results [(v, err)]. *)
Abbreviation result A := (sum bytes A) (only parsing).
Abbreviation OK := (@inr bytes _).
Abbreviation ERR := (@inl bytes _).

(** ** Machine integers

    [int], [int64] are 64 bits two's complement, [int32] 32 bits, [uint] 64
    bits unsigned (the amd64 targets of the program). *)
Definition wrap_s (w z : Z) : Z := (z + 2 ^ (w - 1)) mod 2 ^ w - 2 ^ (w - 1).
Definition wrap_u (w z : Z) : Z := z mod 2 ^ w.
Definition in_int64 (z : Z) : Prop := - 2 ^ 63 ≤ z < 2 ^ 63.
Definition in_uint64 (z : Z) : Prop := 0 ≤ z < 2 ^ 64.

(** ** Tactics and hint databases of the development *)

Create HintDb sara.
Create Rewrite HintDb go_lists.

(** Case analysis on the innermost [match] of the goal, keeping its equation. *)
Ltac case_match_eqn :=
  match goal with
  | |- context [match ?x with _ => _ end] =>
      lazymatch x with
      | context [match _ with _ => _ end] => fail
      | _ => destruct x eqn:?
      end
  end.

(** Unfolds the state monad down to its state function. *)
Ltac run_m := unfold bind, ret, gets, modify, panic, of_outcome, recover, zoom; simpl.
Tactic Notation "run_m" "in" hyp(H) :=
  unfold bind, ret, gets, modify, panic, of_outcome, recover, zoom in H; simpl in H.

(** ** Shared lemmas *)

Lemma zob_range c : 0 ≤ zob c < 256.
Proof. unfold zob. pose proof (nat_ascii_bounded c). lia. Qed.

Lemma boz_zob c : boz (zob c) = c.
Proof.
  unfold boz. rewrite Z.mod_small by apply zob_range.
  unfold zob. by rewrite Nat2Z.id, ascii_nat_embedding.
Qed.

Lemma zob_boz z : zob (boz z) = z mod 256.
Proof.
  pose proof (Z.mod_pos_bound z 256 ltac:(lia)).
  unfold zob, boz. rewrite nat_ascii_embedding by lia. lia.
Qed.

#[global] Instance zob_inj : Inj (=) (=) zob.
Proof. intros a b H. by rewrite <-(boz_zob a), <-(boz_zob b), H. Qed.

Lemma lit_app (a b : string) : lit (a +:+ b) = lit a ++ lit b.
Proof. induction a as [|c a IH]; simpl; [done|]. unfold lit in *. simpl. by f_equal. Qed.

Lemma wrap_s_id w z : 0 < w → - 2 ^ (w - 1) ≤ z < 2 ^ (w - 1) → wrap_s w z = z.
Proof.
  intros Hw Hz. unfold wrap_s.
  assert (2 ^ w = 2 * 2 ^ (w - 1)) as E.
  { rewrite <-Z.pow_succ_r by lia. f_equal. lia. }
  rewrite Z.mod_small; lia.
Qed.

Lemma bind_ret_l {S A B} (a : A) (k : A → M S B) s : bind (ret a) k s = k a s.
Proof. done. Qed.

Lemma bind_assoc {S A B C} (m : M S A) (f : A → M S B) (g : B → M S C) s :
  bind (bind m f) g s = bind m (λ a, bind (f a) g) s.
Proof. unfold bind. by destruct (m s) as [[a|p] s']. Qed.

Lemma bind_Ret {S A B} (m : M S A) (k : A → M S B) s a s' : m s = (Ret a, s') → bind m k s = k a s'.
Proof. unfold bind. by intros ->. Qed.

Lemma bind_Panic {S A B} (m : M S A) (k : A → M S B) s p s' :
  m s = (Panic p, s') → bind m k s = (Panic p, s').
Proof. unfold bind. by intros ->. Qed.

Lemma zoom_run {S T A} (get : S → T) (set : T → S → S) (m : M T A) s o t :
  m (get s) = (o, t) → zoom get set m s = (o, set t s).
Proof. unfold zoom. by intros ->. Qed.

(** The state a computation leaves, named by projection. *)
Lemma pair_det {A B} (p : A * B) a b b' : p = (a, b) → p = (a, b') → b = b'.
Proof. intros -> E. by injection E. Qed.
Lemma pair_fst {A B} (p : A * B) a : p.1 = a → p = (a, p.2).
Proof. destruct p. by intros <-. Qed.

Lemma for_range_app {S A} (l1 l2 : list A) (body : A → M S unit) s :
  for_range (l1 ++ l2) body s = bind (for_range l1 body) (λ _, for_range l2 body) s.
Proof.
  revert s. induction l1 as [|x l1 IH]; intros s; simpl; [done|].
  unfold bind in *. destruct (body x s) as [[[]|p] s']; [apply IH|done].
Qed.

(** An invariant kept by every iteration is kept by the loop, panics included. *)
Lemma for_range_inv {S A} (P : S → Prop) (l : list A) (body : A → M S unit) s :
  (∀ x s, x ∈ l → P s → P (snd (body x s))) → P s → P (snd (for_range l body s)).
Proof.
  revert s. induction l as [|x l IH]; intros s Hb Hs; simpl; [done|].
  unfold bind. pose proof (Hb x s ltac:(set_solver) Hs) as Hx.
  destruct (body x s) as [[[]|p] s']; simpl in *; [|done].
  apply IH; [|done]. intros y t Hy. apply Hb. set_solver.
Qed.

(** A loop whose body does not panic does not panic. *)
Lemma for_range_no_panic {S A} (l : list A) (body : A → M S unit) s :
  (∀ x s, x ∈ l → fst (body x s) = Ret tt) → fst (for_range l body s) = Ret tt.
Proof.
  revert s. induction l as [|x l IH]; intros s Hb; simpl; [done|].
  unfold bind. pose proof (Hb x s ltac:(set_solver)) as Hx.
  destruct (body x s) as [o s'] eqn:E. simpl in Hx. subst o.
  apply IH. intros y t Hy. apply Hb. set_solver.
Qed.

#[global] Hint Rewrite @length_app @app_nil_r : go_lists.
