(* ===== verification/GoBytes.v ===== *)
(** * GoBytes: the parts of Go's [strings], [bytes], [strconv] and [fmt] the
    program uses.

    [IndexByte], [Index], [Contains], [Split] (on a one-byte separator, the only
    separators the program has), [Join], the decimal verb ["%d"], [ParseUint] and
    [ParseInt]; then the lemmas that relate splitting and joining, searching and
    prefixes, printing and parsing. *)

From S2P Require Import Prelude.

(** ** Searching *)

(** [bytes.IndexByte(s, c)]: the first position of [c], or -1. *)
Fixpoint IndexByte_from (i : Z) (s : bytes) (c : ascii) : Z :=
  match s with
  | [] => -1
  | x :: s' => if decide (x = c) then i else IndexByte_from (i + 1) s' c
  end.
Definition IndexByte (s : bytes) (c : ascii) : Z := IndexByte_from 0 s c.

(** Whether [p] is a prefix of [s]. *)
Fixpoint is_prefix (p s : bytes) : bool :=
  match p, s with
  | [], _ => true
  | _ :: _, [] => false
  | x :: p', y :: s' => bool_decide (x = y) && is_prefix p' s'
  end.

(** [bytes.Index(s, sep)]: the first position at which [sep] occurs, or -1. *)
Fixpoint Index_from (i : Z) (s sep : bytes) : Z :=
  if is_prefix sep s then i
  else match s with
       | [] => -1
       | _ :: s' => Index_from (i + 1) s' sep
       end.
Definition Index (s sep : bytes) : Z := Index_from 0 s sep.

(** [bytes.Contains(b, sub)]. *)
Definition Contains (b sub : bytes) : bool := bool_decide (Index b sub ≠ -1).

(** ** Splitting and joining *)

(** [strings.Split(s, sep)] for a one-byte [sep]: always at least one piece. *)
Fixpoint Split (s : bytes) (sep : ascii) : list bytes :=
  match s with
  | [] => [[]]
  | x :: s' =>
      if decide (x = sep) then [] :: Split s' sep
      else match Split s' sep with
           | [] => [[x]]
           | p :: ps => (x :: p) :: ps
           end
  end.

(** [strings.Join(l, sep)]. *)
Fixpoint Join (l : list bytes) (sep : bytes) : bytes :=
  match l with
  | [] => []
  | [x] => x
  | x :: l' => x ++ sep ++ Join l' sep
  end.

(** ** Decimal numbers *)

Definition digit (z : Z) : ascii := boz (48 + z).

Fixpoint fmt_aux (fuel : nat) (z : Z) (acc : bytes) : bytes :=
  match fuel with
  | O => acc
  | S f =>
      let acc' := digit (z mod 10) :: acc in
      if z <? 10 then acc' else fmt_aux f (z / 10) acc'
  end.

(** [fmt.Sprintf("%d", z)] of a non-negative number; [log2 z + 1] is more than
    its number of decimal digits. *)
Definition fmt_u (z : Z) : bytes := fmt_aux (S (Z.to_nat (Z.log2 z))) z [].

(** [fmt.Sprintf("%d", z)]. *)
Definition fmt_d (z : Z) : bytes :=
  if z <? 0 then "-"%char :: fmt_u (- z) else fmt_u z.

Definition is_digit (c : ascii) : bool := (48 <=? zob c) && (zob c <=? 57).

Fixpoint parse_digits (acc : Z) (s : bytes) : option Z :=
  match s with
  | [] => Some acc
  | c :: s' => if is_digit c then parse_digits (acc * 10 + (zob c - 48)) s' else None
  end.

(** [strconv.ParseUint(s, 10, 64)]; [None] stands for its syntax and range errors. *)
Definition ParseUint (s : bytes) : option Z :=
  match s with
  | [] => None
  | _ => match parse_digits 0 s with
         | Some n => if n <? 2 ^ 64 then Some n else None
         | None => None
         end
  end.

(** [strconv.ParseInt(s, 10, 64)]. *)
Definition ParseInt (s : bytes) : option Z :=
  let '(neg, d) := match s with
                   | c :: s' => if decide (c = "-"%char) then (true, s')
                                else if decide (c = "+"%char) then (false, s')
                                else (false, s)
                   | [] => (false, [])
                   end in
  match d with
  | [] => None
  | _ => match parse_digits 0 d with
         | Some n => if neg then (if n <=? 2 ^ 63 then Some (- n) else None)
                     else (if n <? 2 ^ 63 then Some n else None)
         | None => None
         end
  end.

(** The number [strconv.ParseInt(s, 10, 64)] returns beside its error: 0 for a
    syntax error, the nearest bound for a range error. *)
Definition ParseInt_n (s : bytes) : Z :=
  match ParseInt s with
  | Some n => n
  | None =>
      let neg := match s with c :: _ => bool_decide (c = "-"%char) | [] => false end in
      let sign := match s with
                  | c :: _ => bool_decide (c = "-"%char) || bool_decide (c = "+"%char)
                  | [] => false
                  end in
      let d := if sign then drop 1 s else s in
      match d, parse_digits 0 d with
      | _ :: _, Some _ => if neg then - 2 ^ 63 else 2 ^ 63 - 1
      | _, _ => 0
      end
  end.

(** ** Lemmas on searching *)

Lemma IndexByte_from_spec i s c :
  (IndexByte_from i s c = -1 ∧ c ∉ s) ∨
  (∃ a b, s = a ++ (c :: b) ∧ c ∉ a ∧ IndexByte_from i s c = i + Z.of_nat (length a)) ∨ i < 0.
Proof.
  revert i. induction s as [|x s IH]; intros i; simpl.
  - left. split; [done|]. apply not_elem_of_nil.
  - destruct (decide (x = c)) as [->|Hne].
    + right. left. exists [], s. simpl. split_and!; [done|apply not_elem_of_nil|lia].
    + destruct (IH (i + 1)) as [[E Hn]|[(a & b & -> & Hn & E)|Hlt]].
      * left. split; [done|]. set_solver.
      * right. left. exists (x :: a), b. simpl. split_and!; [done|set_solver|lia].
      * right. right. lia.
Qed.

Lemma IndexByte_spec s c :
  (IndexByte s c = -1 ∧ c ∉ s) ∨
  (∃ a b, s = a ++ (c :: b) ∧ c ∉ a ∧ IndexByte s c = Z.of_nat (length a)).
Proof.
  unfold IndexByte. destruct (IndexByte_from_spec 0 s c) as [H|[(a & b & ?)|?]]; [by left| |lia].
  right. exists a, b. intuition lia.
Qed.

Lemma IndexByte_absent s c : c ∉ s → IndexByte s c = -1.
Proof. destruct (IndexByte_spec s c) as [[E _]|(a & b & -> & _)]; [done|set_solver]. Qed.

Lemma is_prefix_app p s : is_prefix p (p ++ s) = true.
Proof. induction p as [|x p IH]; simpl; [done|]. by rewrite bool_decide_true, IH. Qed.

Lemma is_prefix_spec p s : is_prefix p s = true ↔ ∃ t, s = p ++ t.
Proof.
  split; [|intros [t ->]; apply is_prefix_app].
  revert s. induction p as [|x p IH]; intros s H; simpl in *; [by exists s|].
  destruct s as [|y s]; [done|]. apply andb_true_iff in H as [Hx H].
  apply bool_decide_eq_true in Hx as ->. destruct (IH s H) as [t ->]. by exists t.
Qed.

Lemma Index_from_nonneg i s sep : 0 ≤ i → Index_from i s sep = -1 ∨ i ≤ Index_from i s sep.
Proof.
  revert i. induction s as [|x s IH]; intros i Hi; simpl; destruct (is_prefix sep _); try lia.
  destruct (IH (i + 1) ltac:(lia)); lia.
Qed.

(** [bytes.Index(key, p) == 0] is a prefix test. *)
Lemma Index_zero s sep : Index s sep = 0 ↔ is_prefix sep s = true.
Proof.
  unfold Index. destruct s as [|x s]; simpl; destruct (is_prefix sep _); try done.
  pose proof (Index_from_nonneg (0 + 1) s sep ltac:(lia)) as H.
  destruct H; split; intros; try done; lia.
Qed.

(** [bytes.Contains] is the substring relation. *)
Lemma Index_from_found i s sep :
  0 ≤ i → Index_from i s sep ≠ -1 ↔ ∃ a b, s = a ++ sep ++ b.
Proof.
  revert i. induction s as [|x s IH]; intros i Hi; simpl.
  - destruct sep as [|y sep]; simpl.
    + split; [|lia]. intros _. by exists [], [].
    + split; [done|]. intros (a & b & E). by destruct a.
  - destruct (is_prefix sep (x :: s)) eqn:Ep.
    + apply is_prefix_spec in Ep as [t E]. split; [|lia]. intros _. exists [], t. done.
    + rewrite (IH (i + 1)) by lia. split.
      * intros (a & b & ->). by exists (x :: a), b.
      * intros ([|y a] & b & E); simpl in *.
        { assert (is_prefix sep (x :: s) = true) as C; [|congruence].
          apply is_prefix_spec. by exists b. }
        simplify_eq. by exists a, b.
Qed.

Lemma Contains_spec b sub : Contains b sub = true ↔ ∃ x y, b = x ++ sub ++ y.
Proof. unfold Contains, Index. rewrite bool_decide_eq_true. by apply Index_from_found. Qed.

(** ** Lemmas on splitting *)

Lemma Split_not_nil s c : Split s c ≠ [].
Proof. destruct s as [|x s]; simpl; [done|]. destruct (decide _); [done|]. by destruct (Split s c). Qed.

Lemma Split_absent s c : c ∉ s → Split s c = [s].
Proof.
  induction s as [|x s IH]; simpl; [done|]. intros H. apply not_elem_of_cons in H as [Hx Hs].
  rewrite decide_False by done. by rewrite (IH Hs).
Qed.

Lemma Split_app_sep a b c : c ∉ a → Split (a ++ c :: b) c = a :: Split b c.
Proof.
  induction a as [|x a IH]; simpl; intros H.
  - by rewrite decide_True.
  - apply not_elem_of_cons in H as [Hx Ha]. rewrite decide_False by done. by rewrite (IH Ha).
Qed.

Lemma Split_pieces s c p : p ∈ Split s c → c ∉ p.
Proof.
  revert p. induction s as [|x s IH]; simpl; intros p Hp.
  - apply list_elem_of_singleton in Hp as ->. apply not_elem_of_nil.
  - destruct (decide (x = c)) as [->|Hne].
    + apply elem_of_cons in Hp as [->|Hp]; [apply not_elem_of_nil|by apply IH].
    + destruct (Split s c) as [|q qs] eqn:E; [by apply Split_not_nil in E|].
      apply elem_of_cons in Hp as [->|Hp]; [|apply IH; set_solver].
      apply not_elem_of_cons. split; [done|]. apply IH. set_solver.
Qed.

Lemma Join_cons x y l sep : Join (x :: y :: l) sep = x ++ sep ++ Join (y :: l) sep.
Proof. done. Qed.

Lemma Join_Split s c : Join (Split s c) [c] = s.
Proof.
  induction s as [|x s IH]; simpl; [done|].
  destruct (Split s c) as [|q qs] eqn:E; [by apply Split_not_nil in E|].
  destruct (decide (x = c)) as [->|Hne].
  - by rewrite Join_cons, IH.
  - destruct qs as [|q' qs]; simpl in *; by rewrite IH.
Qed.

Lemma Split_Join l c : l ≠ [] → Forall (λ p, c ∉ p) l → Split (Join l [c]) c = l.
Proof.
  intros Hne H. induction H as [|x l Hx Hl IH]; [done|].
  destruct l as [|y l]; [by apply Split_absent|].
  rewrite Join_cons. simpl. rewrite Split_app_sep by done. f_equal. by apply IH.
Qed.

(** ** Lemmas on decimal numbers *)

Lemma digit_value z : 0 ≤ z < 10 → is_digit (digit z) = true ∧ zob (digit z) - 48 = z.
Proof.
  intros Hz. unfold is_digit, digit. rewrite zob_boz, Z.mod_small by lia.
  split; [|lia]. apply andb_true_iff. split; apply Z.leb_le; lia.
Qed.

Lemma parse_digits_app acc s1 s2 :
  parse_digits acc (s1 ++ s2) = parse_digits acc s1 ≫= λ a, parse_digits a s2.
Proof.
  revert acc. induction s1 as [|c s1 IH]; intros acc; simpl; [done|].
  destruct (is_digit c); [apply IH|done].
Qed.

Lemma parse_digits_ge acc s n : 0 ≤ acc → parse_digits acc s = Some n → 0 ≤ n.
Proof.
  revert acc. induction s as [|c s IH]; intros acc Ha; simpl; [by intros [= <-]|].
  destruct (is_digit c) eqn:E; [|done]. unfold is_digit in E.
  apply andb_true_iff in E as [E1 E2]. apply Z.leb_le in E1, E2. apply IH. lia.
Qed.

(** The accumulator of [fmt_aux] ends up behind the digits of the number. *)
Lemma fmt_aux_parse fuel z tail a :
  0 ≤ z → z < 2 ^ Z.of_nat fuel →
  parse_digits 0 (fmt_aux fuel z tail) = Some a ↔ parse_digits z tail = Some a.
Proof.
  revert z tail. induction fuel as [|f IH]; intros z tail Hz Hlt.
  - assert (z = 0) as -> by (simpl in Hlt; lia). done.
  - cbn [fmt_aux]. destruct (digit_value (z mod 10)) as [Hd Hv].
    { by apply Z.mod_pos_bound. }
    destruct (Z.ltb_spec z 10) as [Hs|Hs].
    + cbn [parse_digits]. rewrite Hd. replace (0 * 10 + (zob (digit (z mod 10)) - 48)) with z; [done|].
      rewrite Hv, Z.mod_small; lia.
    + rewrite IH.
      * cbn [parse_digits]. rewrite Hd, Hv.
        replace (z / 10 * 10 + z mod 10) with z; [done|]. pose proof (Z.div_mod z 10). lia.
      * apply Z.div_pos; lia.
      * apply Z.div_lt_upper_bound; [lia|].
        rewrite Nat2Z.inj_succ, Z.pow_succ_r in Hlt by lia. lia.
Qed.

Lemma fmt_u_parse z : 0 ≤ z → parse_digits 0 (fmt_u z) = Some z.
Proof.
  intros Hz. unfold fmt_u. apply fmt_aux_parse; [done| |done].
  rewrite Nat2Z.inj_succ, Z2Nat.id by apply Z.log2_nonneg.
  destruct (Z.eq_dec z 0) as [->|Hn]; [done|]. apply Z.log2_spec. lia.
Qed.

Lemma fmt_aux_digits fuel z tail :
  Forall (λ c, is_digit c = true) tail → Forall (λ c, is_digit c = true) (fmt_aux fuel z tail).
Proof.
  revert z tail. induction fuel as [|f IH]; intros z tail H; cbn [fmt_aux]; [done|].
  assert (Forall (λ c, is_digit c = true) (digit (z mod 10) :: tail)).
  { constructor; [|done]. apply digit_value. by apply Z.mod_pos_bound. }
  destruct (z <? 10); [done|by apply IH].
Qed.

Lemma fmt_u_digits z : Forall (λ c, is_digit c = true) (fmt_u z).
Proof. apply fmt_aux_digits. constructor. Qed.

Lemma fmt_aux_cons fuel z x tail : ∃ d t, fmt_aux fuel z (x :: tail) = d :: t.
Proof.
  revert z x tail. induction fuel as [|f IH]; intros z x tail; cbn [fmt_aux]; [by eexists _, _|].
  destruct (z <? 10); [by eexists _, _|apply IH].
Qed.

(** The number of digits. *)
Lemma fmt_aux_length k fuel z acc :
  (k < fuel)%nat → 0 ≤ z → (k = O ∨ 10 ^ Z.of_nat k ≤ z) → z < 10 ^ (Z.of_nat k + 1) →
  length (fmt_aux fuel z acc) = (S k + length acc)%nat.
Proof.
  revert fuel z acc. induction k as [|k IH]; intros [|fuel] z acc Hf Hz Hlo Hhi; try lia; cbn [fmt_aux].
  - assert (z <? 10 = true) as -> by (apply Z.ltb_lt; lia). done.
  - destruct Hlo as [|Hlo]; [lia|]. rewrite Nat2Z.inj_succ, Z.pow_succ_r in Hlo by lia.
    rewrite Nat2Z.inj_succ, Z.add_succ_l, Z.pow_succ_r in Hhi by lia.
    assert (1 ≤ 10 ^ Z.of_nat k) by (apply (Z.pow_le_mono_r 10 0); lia).
    assert (z <? 10 = false) as -> by (apply Z.ltb_ge; lia).
    rewrite (IH fuel (z / 10)); [cbn; lia|lia|apply Z.div_pos; lia|right; apply Z.div_le_lower_bound; lia|
      apply Z.div_lt_upper_bound; lia].
Qed.

Lemma fmt_d_length k z :
  10 ^ Z.of_nat k ≤ z → z < 10 ^ (Z.of_nat k + 1) → length (fmt_d z) = S k.
Proof.
  intros Hlo Hhi. assert (1 ≤ 10 ^ Z.of_nat k) by (apply (Z.pow_le_mono_r 10 0); lia).
  unfold fmt_d. assert (z <? 0 = false) as -> by (apply Z.ltb_ge; lia). unfold fmt_u.
  assert (Z.of_nat k ≤ Z.log2 z) as Hk.
  { apply Z.log2_le_pow2; [lia|]. etrans; [|exact Hlo]. apply Z.pow_le_mono_l. lia. }
  rewrite (fmt_aux_length k); [cbn; lia|lia|lia|by right|done].
Qed.

Lemma fmt_u_cons z : ∃ d t, fmt_u z = d :: t.
Proof.
  unfold fmt_u. cbn [fmt_aux]. destruct (z <? 10); [by eexists _, _|apply fmt_aux_cons].
Qed.

Lemma ParseUint_fmt z : in_uint64 z → ParseUint (fmt_u z) = Some z.
Proof.
  intros Hz. unfold ParseUint. destruct (fmt_u_cons z) as (d & t & E).
  pose proof (fmt_u_parse z ltac:(unfold in_uint64 in Hz; lia)) as P. rewrite E in *.
  rewrite P. destruct (Z.ltb_spec z (2 ^ 64)); [done|unfold in_uint64 in Hz; lia].
Qed.

(** A digit is neither of the two sign characters. *)
Lemma digit_not_sign c : is_digit c = true → c ≠ "-"%char ∧ c ≠ "+"%char.
Proof. intros H. split; intros ->; discriminate. Qed.

Lemma ParseInt_fmt z : in_int64 z → ParseInt (fmt_d z) = Some z.
Proof.
  intros Hz. unfold in_int64 in Hz. unfold fmt_d, ParseInt.
  destruct (Z.ltb_spec z 0) as [Hn|Hn]; cbn iota beta.
  - rewrite decide_True by done. destruct (fmt_u_cons (- z)) as (d & t & E).
    pose proof (fmt_u_parse (- z) ltac:(lia)) as P. rewrite E in *. rewrite P.
    destruct (Z.leb_spec (- z) (2 ^ 63)); [f_equal; lia|lia].
  - destruct (fmt_u_cons z) as (d & t & E). pose proof (fmt_u_digits z) as F.
    pose proof (fmt_u_parse z ltac:(lia)) as P. rewrite E in *.
    apply Forall_inv in F. apply digit_not_sign in F as [F1 F2].
    rewrite !decide_False by done. rewrite P.
    destruct (Z.ltb_spec z (2 ^ 63)); [done|lia].
Qed.

#[export] Hint Resolve Split_not_nil IndexByte_absent fmt_u_digits : sara.
