(* ===== verification/Utf8.v ===== *)
(** * Utf8: Go's [unicode/utf8] and [unicode/utf16], as [encoding/json] uses them.

    [DecodeRune] and [EncodeRune] with Go's treatment of invalid input (the
    replacement rune, consuming one byte), the validity of a byte string, and
    that encoding a decoded rune gives the bytes back. *)

From S2P Require Import Prelude.

(** [utf8.RuneError], which is also [unicode.ReplacementChar]. *)
Definition RuneError : Z := 65533.

Definition in_range (lo hi z : Z) : bool := (lo <=? z) && (z <=? hi).

(** Continuation bytes 10xxxxxx. *)
Definition is_cont (z : Z) : bool := in_range 128 191 z.

(** The accepted second bytes after a leading byte: no overlong form, no
    surrogate, nothing above 0x10FFFF. *)
Definition second_ok (b0 b1 : Z) : bool :=
  if b0 =? 224 then in_range 160 191 b1
  else if b0 =? 237 then in_range 128 159 b1
  else if b0 =? 240 then in_range 144 191 b1
  else if b0 =? 244 then in_range 128 143 b1
  else is_cont b1.

(** [utf8.DecodeRune(p)]: the first rune and its width in bytes. *)
Definition DecodeRune (p : bytes) : Z * nat :=
  match p with
  | [] => (RuneError, 0%nat)
  | c0 :: p1 =>
      let b0 := zob c0 in
      if b0 <? 128 then (b0, 1%nat)
      else if b0 <? 194 then (RuneError, 1%nat)
      else match p1 with
      | [] => (RuneError, 1%nat)
      | c1 :: p2 =>
          let b1 := zob c1 in
          if negb (second_ok b0 b1) then (RuneError, 1%nat)
          else if b0 <? 224 then ((b0 - 192) * 64 + (b1 - 128), 2%nat)
          else match p2 with
          | [] => (RuneError, 1%nat)
          | c2 :: p3 =>
              let b2 := zob c2 in
              if negb (is_cont b2) then (RuneError, 1%nat)
              else if b0 <? 240 then
                ((b0 - 224) * 4096 + (b1 - 128) * 64 + (b2 - 128), 3%nat)
              else if b0 <? 245 then
                match p3 with
                | [] => (RuneError, 1%nat)
                | c3 :: _ =>
                    let b3 := zob c3 in
                    if negb (is_cont b3) then (RuneError, 1%nat)
                    else ((b0 - 240) * 262144 + (b1 - 128) * 4096
                          + (b2 - 128) * 64 + (b3 - 128), 4%nat)
                end
              else (RuneError, 1%nat)
          end
      end
  end.

(** [utf8.EncodeRune]: invalid runes are encoded as [RuneError]. *)
Definition EncodeRune (r : Z) : bytes :=
  if in_range 0 127 r then [boz r]
  else if in_range 128 2047 r then [boz (192 + r / 64); boz (128 + r mod 64)]
  else if negb (in_range 0 1114111 r) || in_range 55296 57343 r then
    [boz 239; boz 191; boz 189]
  else if r <=? 65535 then
    [boz (224 + r / 4096); boz (128 + r / 64 mod 64); boz (128 + r mod 64)]
  else [boz (240 + r / 262144); boz (128 + r / 4096 mod 64);
        boz (128 + r / 64 mod 64); boz (128 + r mod 64)].

(** [utf16.IsSurrogate] and [utf16.DecodeRune]. *)
Definition IsSurrogate (r : Z) : bool := in_range 55296 57343 r.
Definition utf16_DecodeRune (r1 r2 : Z) : Z :=
  if in_range 55296 56319 r1 && in_range 56320 57343 r2
  then (r1 - 55296) * 1024 + (r2 - 56320) + 65536
  else RuneError.

(** A decoding step that is not the error of width at most 1. *)
Definition good_rune (rn : Z * nat) : bool :=
  negb ((rn.1 =? RuneError) && (rn.2 <=? 1)%nat).

(** Valid UTF-8: every decoding step is good. *)
Inductive utf8_valid : bytes → Prop :=
| utf8_nil : utf8_valid []
| utf8_cons s r n :
    s ≠ [] → DecodeRune s = (r, n) → good_rune (r, n) = true →
    utf8_valid (drop n s) → utf8_valid s.

Fixpoint utf8_check (fuel : nat) (s : bytes) : bool :=
  match s, fuel with
  | [], _ => true
  | _, O => false
  | _, S f =>
      let rn := DecodeRune s in good_rune rn && utf8_check f (drop rn.2 s)
  end.

(** ** Lemmas *)

Ltac range_bool :=
  repeat match goal with
  | H : in_range _ _ _ = true |- _ =>
      unfold in_range in H; apply andb_true_iff in H as [?%Z.leb_le ?%Z.leb_le]
  | H : is_cont _ = true |- _ => unfold is_cont in H
  | H : negb _ = false |- _ => apply negb_false_iff in H
  | H : negb _ = true |- _ => apply negb_true_iff in H
  end.

Lemma in_range_true lo hi z : lo ≤ z ≤ hi → in_range lo hi z = true.
Proof. intros. unfold in_range. apply andb_true_iff. split; apply Z.leb_le; lia. Qed.

Lemma in_range_false lo hi z : z < lo ∨ hi < z → in_range lo hi z = false.
Proof. intros. unfold in_range. apply andb_false_iff. rewrite !Z.leb_gt. lia. Qed.

Lemma boz_eq z c : z = zob c → boz z = c.
Proof. intros ->. apply boz_zob. Qed.

(** Every decoding step of a non-empty string consumes at least one byte, and
    no more than there are. *)
Lemma DecodeRune_size s : s ≠ [] → (1 ≤ (DecodeRune s).2 ≤ length s)%nat.
Proof.
  destruct s as [|c0 [|c1 [|c2 [|c3 s]]]]; [done|..]; intros _; cbn -[second_ok Z.ltb];
    repeat case_match; simpl; lia.
Qed.

(** What a good step read: an ASCII byte or one of the three multi-byte forms. *)
Inductive rune_form : bytes → Z → nat → Prop :=
| form1 c0 s : zob c0 < 128 → rune_form (c0 :: s) (zob c0) 1
| form2 c0 c1 s : 194 ≤ zob c0 < 224 → 128 ≤ zob c1 ≤ 191 →
    rune_form (c0 :: c1 :: s) ((zob c0 - 192) * 64 + (zob c1 - 128)) 2
| form3 c0 c1 c2 s : 224 ≤ zob c0 < 240 → second_ok (zob c0) (zob c1) = true →
    128 ≤ zob c1 ≤ 191 → 128 ≤ zob c2 ≤ 191 →
    (zob c0 = 224 → 160 ≤ zob c1) → (zob c0 = 237 → zob c1 ≤ 159) →
    rune_form (c0 :: c1 :: c2 :: s)
      ((zob c0 - 224) * 4096 + (zob c1 - 128) * 64 + (zob c2 - 128)) 3
| form4 c0 c1 c2 c3 s : 240 ≤ zob c0 < 245 → second_ok (zob c0) (zob c1) = true →
    128 ≤ zob c1 ≤ 191 → 128 ≤ zob c2 ≤ 191 → 128 ≤ zob c3 ≤ 191 →
    (zob c0 = 240 → 144 ≤ zob c1) → (zob c0 = 244 → zob c1 ≤ 143) →
    rune_form (c0 :: c1 :: c2 :: c3 :: s)
      ((zob c0 - 240) * 262144 + (zob c1 - 128) * 4096 + (zob c2 - 128) * 64 + (zob c3 - 128)) 4.

Lemma second_ok_bounds b0 b1 :
  second_ok b0 b1 = true →
  128 ≤ b1 ≤ 191 ∧ (b0 = 224 → 160 ≤ b1) ∧ (b0 = 237 → b1 ≤ 159) ∧
  (b0 = 240 → 144 ≤ b1) ∧ (b0 = 244 → b1 ≤ 143).
Proof.
  unfold second_ok.
  destruct (Z.eqb_spec b0 224), (Z.eqb_spec b0 237), (Z.eqb_spec b0 240), (Z.eqb_spec b0 244);
    intros; range_bool; lia.
Qed.

Lemma DecodeRune_form s r n :
  s ≠ [] → DecodeRune s = (r, n) → good_rune (r, n) = true → rune_form s r n.
Proof.
  intros Hs. assert (∀ n, (n ≤ 1)%nat → good_rune (RuneError, n) = false) as Hbad.
  { intros m Hm. unfold good_rune. simpl. destruct m as [|[|m]]; try done; lia. }
  destruct s as [|c0 s1]; [done|]. unfold DecodeRune.
  destruct (Z.ltb_spec (zob c0) 128). { intros [= <- <-] _. by constructor. }
  destruct (Z.ltb_spec (zob c0) 194). { intros [= <- <-]. by rewrite Hbad by lia. }
  destruct s1 as [|c1 s2]. { intros [= <- <-]. by rewrite Hbad by lia. }
  destruct (second_ok (zob c0) (zob c1)) eqn:Hok; cbn [negb].
  2:{ intros [= <- <-]. by rewrite Hbad by lia. }
  pose proof (second_ok_bounds _ _ Hok) as (? & ? & ? & ? & ?).
  destruct (Z.ltb_spec (zob c0) 224). { intros [= <- <-] _. constructor; lia. }
  destruct s2 as [|c2 s3]. { intros [= <- <-]. by rewrite Hbad by lia. }
  destruct (is_cont (zob c2)) eqn:Hc2; cbn [negb]; [|intros [= <- <-]; by rewrite Hbad by lia].
  range_bool.
  destruct (Z.ltb_spec (zob c0) 240). { intros [= <- <-] _. constructor; auto; lia. }
  destruct (Z.ltb_spec (zob c0) 245). 2:{ intros [= <- <-]. by rewrite Hbad by lia. }
  destruct s3 as [|c3 s4]. { intros [= <- <-]. by rewrite Hbad by lia. }
  destruct (is_cont (zob c3)) eqn:Hc3; cbn [negb]; [|intros [= <- <-]; by rewrite Hbad by lia].
  range_bool. intros [= <- <-] _. constructor; auto; lia.
Qed.

(** The form determines the step, whatever follows it. *)
Lemma form_DecodeRune s r n t : rune_form s r n → DecodeRune (take n s ++ t) = (r, n).
Proof.
  intros H. destruct H; cbn [take app DecodeRune];
    rewrite ?(proj2 (Z.ltb_ge _ 128)), ?(proj2 (Z.ltb_lt _ 128)) by lia; try done;
    rewrite ?(proj2 (Z.ltb_ge _ 194)) by lia.
  - assert (second_ok (zob c0) (zob c1) = true) as ->.
    { unfold second_ok. rewrite !(proj2 (Z.eqb_neq _ _)) by lia. by apply in_range_true. }
    cbn [negb]. by rewrite (proj2 (Z.ltb_lt _ 224)) by lia.
  - rewrite H0. unfold is_cont. rewrite !in_range_true by lia. cbn [negb].
    by rewrite (proj2 (Z.ltb_ge _ 224)), (proj2 (Z.ltb_lt _ 240)) by lia.
  - rewrite H0. unfold is_cont. rewrite !in_range_true by lia. cbn [negb].
    by rewrite (proj2 (Z.ltb_ge _ 224)), (proj2 (Z.ltb_ge _ 240)),
      (proj2 (Z.ltb_lt _ 245)) by lia.
Qed.

Lemma mod_low a b : 0 ≤ b < 64 → (a * 64 + b) mod 64 = b.
Proof. intros. rewrite Z.add_comm, Z.mod_add by lia. apply Z.mod_small. lia. Qed.

(** Encoding the decoded rune gives the bytes that were read. *)
Lemma form_EncodeRune s r n : rune_form s r n → EncodeRune r = take n s.
Proof.
  intros H. destruct H; cbn [take]; unfold EncodeRune.
  - rewrite in_range_true by (pose proof (zob_range c0); lia). by rewrite boz_zob.
  - rewrite in_range_false, in_range_true by lia.
    f_equal; [|f_equal]; apply boz_eq.
    + rewrite Z.div_add_l by lia. rewrite (Z.div_small (zob c1 - 128)); lia.
    + rewrite mod_low; lia.
  - set (r := (zob c0 - 224) * 4096 + _ + _).
    assert (r / 64 = (zob c0 - 224) * 64 + (zob c1 - 128)) as E1.
    { symmetry. apply Z.div_unique with (zob c2 - 128); unfold r; lia. }
    assert (r / 4096 = zob c0 - 224) as E2.
    { symmetry. apply Z.div_unique with ((zob c1 - 128) * 64 + (zob c2 - 128)); unfold r; lia. }
    rewrite (in_range_false 0 127), (in_range_false 128 2047), (in_range_true 0 1114111),
      (in_range_false 55296 57343) by (unfold r; lia).
    cbn [negb orb]. rewrite (proj2 (Z.leb_le r 65535)) by (unfold r; lia).
    rewrite E1, E2. repeat f_equal; apply boz_eq; [lia|..].
    + rewrite mod_low; lia.
    + replace r with (((zob c0 - 224) * 64 + (zob c1 - 128)) * 64 + (zob c2 - 128)) by (unfold r; lia).
      rewrite mod_low; lia.
  - set (r := (zob c0 - 240) * 262144 + _ + _ + _).
    assert (r / 64 = ((zob c0 - 240) * 64 + (zob c1 - 128)) * 64 + (zob c2 - 128)) as E1.
    { symmetry. apply Z.div_unique with (zob c3 - 128); unfold r; lia. }
    assert (r / 4096 = (zob c0 - 240) * 64 + (zob c1 - 128)) as E2.
    { symmetry. apply Z.div_unique with ((zob c2 - 128) * 64 + (zob c3 - 128)); unfold r; lia. }
    assert (r / 262144 = zob c0 - 240) as E3.
    { symmetry. apply Z.div_unique with
        ((zob c1 - 128) * 4096 + (zob c2 - 128) * 64 + (zob c3 - 128)); unfold r; lia. }
    rewrite (in_range_false 0 127), (in_range_false 128 2047), (in_range_true 0 1114111),
      (in_range_false 55296 57343) by (unfold r; lia).
    cbn [negb orb]. rewrite (proj2 (Z.leb_gt r 65535)) by (unfold r; lia).
    rewrite E1, E2, E3. repeat f_equal; apply boz_eq; [lia|..].
    + rewrite mod_low; lia.
    + rewrite mod_low; lia.
    + replace r with ((((zob c0 - 240) * 64 + (zob c1 - 128)) * 64 + (zob c2 - 128)) * 64
        + (zob c3 - 128)) by (unfold r; lia).
      rewrite mod_low; lia.
Qed.

(** The checker decides validity. *)
Lemma utf8_check_sound fuel s : utf8_check fuel s = true → utf8_valid s.
Proof.
  revert s. induction fuel as [|f IH]; intros [|c s]; try (by constructor); [done|].
  cbn [utf8_check]. intros [H1 H2]%andb_true_iff.
  destruct (DecodeRune (c :: s)) as [r n] eqn:E.
  apply utf8_cons with r n; [done|done|done|]. by apply IH.
Qed.

(** An ASCII byte in front keeps a string valid. *)
Lemma utf8_valid_ascii c s : zob c < 128 → utf8_valid s → utf8_valid (c :: s).
Proof.
  intros Hc Hs. apply utf8_cons with (zob c) 1%nat; [done| | |done].
  - cbn [DecodeRune]. by rewrite (proj2 (Z.ltb_lt _ _)).
  - unfold good_rune. simpl. by rewrite (proj2 (Z.eqb_neq _ _)) by (unfold RuneError; lia).
Qed.

(** Valid strings can be concatenated. *)
Lemma utf8_valid_app s t : utf8_valid s → utf8_valid t → utf8_valid (s ++ t).
Proof.
  intros Hs Ht. induction Hs as [|s r n Hs E G Hd IH]; [done|].
  pose proof (DecodeRune_form _ _ _ Hs E G) as F.
  pose proof (DecodeRune_size s Hs) as Hn. rewrite E in Hn. simpl in Hn.
  apply utf8_cons with r n; [by destruct s| |done|].
  - rewrite <-(take_drop n s) at 1. rewrite <-app_assoc. by apply form_DecodeRune.
  - rewrite drop_app_le by lia. done.
Qed.

(** The bytes [EncodeRune] writes for a valid rune have the form of that rune. *)
Lemma zob_boz_id z : 0 ≤ z < 256 → zob (boz z) = z.
Proof. intros. rewrite zob_boz. by apply Z.mod_small. Qed.

Ltac divs := Z.to_euclidean_division_equations; lia.

Lemma encode_form2 r : 128 ≤ r ≤ 2047 →
  rune_form [boz (192 + r / 64); boz (128 + r mod 64)] r 2.
Proof.
  intros Hr. assert (2 ≤ r / 64 ≤ 31) by divs. assert (0 ≤ r mod 64 < 64) by divs.
  eassert (r = _) as E; [|rewrite E at 3; constructor]; rewrite ?zob_boz_id by lia; [divs|lia..].
Qed.

Lemma second_ok_3 b0 b1 :
  224 ≤ b0 < 240 → 128 ≤ b1 ≤ 191 → (b0 = 224 → 160 ≤ b1) → (b0 = 237 → b1 ≤ 159) →
  second_ok b0 b1 = true.
Proof.
  intros. unfold second_ok.
  destruct (Z.eqb_spec b0 224), (Z.eqb_spec b0 237), (Z.eqb_spec b0 240), (Z.eqb_spec b0 244);
    apply in_range_true; lia.
Qed.

Lemma second_ok_4 b0 b1 :
  240 ≤ b0 < 245 → 128 ≤ b1 ≤ 191 → (b0 = 240 → 144 ≤ b1) → (b0 = 244 → b1 ≤ 143) →
  second_ok b0 b1 = true.
Proof.
  intros. unfold second_ok.
  destruct (Z.eqb_spec b0 224), (Z.eqb_spec b0 237), (Z.eqb_spec b0 240), (Z.eqb_spec b0 244);
    apply in_range_true; lia.
Qed.

Lemma encode_form3 r : 2048 ≤ r ≤ 65535 → (r < 55296 ∨ 57343 < r) →
  rune_form [boz (224 + r / 4096); boz (128 + r / 64 mod 64); boz (128 + r mod 64)] r 3.
Proof.
  intros Hr Hs. assert (0 ≤ r / 4096 ≤ 15) by divs. assert (0 ≤ r mod 64 < 64) by divs.
  assert (0 ≤ r / 64 mod 64 < 64) by divs.
  eassert (r = _) as E; [|rewrite E at 4; constructor]; rewrite ?zob_boz_id by lia;
    try (apply second_ok_3); divs.
Qed.

Lemma encode_form4 r : 65536 ≤ r ≤ 1114111 →
  rune_form [boz (240 + r / 262144); boz (128 + r / 4096 mod 64);
             boz (128 + r / 64 mod 64); boz (128 + r mod 64)] r 4.
Proof.
  intros Hr. assert (0 ≤ r / 262144 ≤ 4) by divs. assert (0 ≤ r mod 64 < 64) by divs.
  assert (0 ≤ r / 64 mod 64 < 64) by divs. assert (0 ≤ r / 4096 mod 64 < 64) by divs.
  eassert (r = _) as E; [|rewrite E at 5; constructor]; rewrite ?zob_boz_id by lia;
    try (apply second_ok_4); divs.
Qed.

(** Whatever its argument, [EncodeRune] writes valid UTF-8. *)
Lemma EncodeRune_cases r :
  (0 ≤ r ≤ 127 ∧ EncodeRune r = [boz r]) ∨
  (∃ s n, rune_form s r n ∧ (2 ≤ n)%nat ∧ EncodeRune r = take n s) ∨
  EncodeRune r = [boz 239; boz 191; boz 189].
Proof.
  unfold EncodeRune. destruct (in_range 0 127 r) eqn:E1; [left; range_bool; split; [lia|done]|].
  destruct (in_range 128 2047 r) eqn:E2.
  { right. left. range_bool. eexists _, 2%nat. split_and!; [by apply encode_form2|lia|done]. }
  destruct (negb (in_range 0 1114111 r) || in_range 55296 57343 r) eqn:E3; [by right; right|].
  apply orb_false_iff in E3 as [E3 E4]. range_bool.
  unfold in_range in E1, E2, E4. rewrite andb_false_iff, !Z.leb_gt in E1, E2, E4.
  right. left. destruct (Z.leb_spec r 65535).
  - eexists _, 3%nat. split_and!; [apply encode_form3; lia|lia|done].
  - eexists _, 4%nat. split_and!; [apply encode_form4; lia|lia|done].
Qed.

Lemma EncodeRune_valid r : utf8_valid (EncodeRune r).
Proof.
  destruct (EncodeRune_cases r) as [[Hr E]|[(s & n & F & Hn & E)|E]]; rewrite E; clear E.
  - apply utf8_valid_ascii; [|constructor]. rewrite zob_boz, Z.mod_small; lia.
  - pose proof (form_DecodeRune _ _ _ [] F) as E. rewrite app_nil_r in E.
    apply utf8_cons with r n; [by destruct F| done | |].
    + unfold good_rune. cbn [fst snd].
      destruct (Nat.leb_spec n 1); [lia|]. by rewrite andb_false_r.
    + rewrite drop_ge; [constructor|]. rewrite length_take. lia.
  - by apply (utf8_check_sound 3).
Qed.

#[export] Hint Resolve EncodeRune_valid utf8_valid_app utf8_valid_ascii utf8_nil : sara.
