(* ===== verification/Json.v ===== *)
(** * Json: Go's [encoding/json], as the program uses it.

    The syntax tree of a JSON text, [Marshal]'s compact output of a tree (string
    escaping with the HTML-safe set, UTF-8 handling), the scanner and parser of
    [Unmarshal] (syntax errors are [None]), the lookup of a struct field by key
    (exact, then case-folded), and the normal form a value takes when it is
    decoded into an [interface{}].  The main result is that parsing the printed
    text of a well-formed tree gives the tree back; parsed strings are always
    valid UTF-8.

    The source the model follows is the encoder and decoder of Go 1.7 (the
    version the README asks for); the formatting of [float64] values, which
    differs between Go versions, and the text of error messages are the operations
    of the class [GoLib]. *)

From S2P Require Import Prelude GoBytes Utf8.

Inductive json : Type :=
| JNull
| JBool (b : bool)
| JNum (text : bytes)
| JStr (s : bytes)
| JArr (l : list json)
| JObj (l : list (bytes * json)).

(** ** Characters *)

Definition dq : ascii := "034"%char.
Definition backslash : ascii := "092"%char.
Abbreviation ceq := Ascii.eqb.

(** ** Marshal *)

Definition hex (z : Z) : ascii := if z <? 10 then boz (48 + z) else boz (87 + z).

(** [htmlSafeSet]. *)
Definition html_safe (b : Z) : bool :=
  in_range 32 127 b && negb ((b =? 34) || (b =? 92) || (b =? 60) || (b =? 62) || (b =? 38)).

Definition esc_u (r : Z) : bytes :=
  [backslash; "u"%char; hex (r / 4096 mod 16); hex (r / 256 mod 16); hex (r / 16 mod 16); hex (r mod 16)].

(** What [encodeState.string] writes for the rune at the front of [s], and how
    many bytes of [s] it stands for. *)
Definition enc_step (s : bytes) : bytes * nat :=
  match s with
  | [] => ([], 0%nat)
  | c :: _ =>
      let b := zob c in
      if b <? 128 then
        (if html_safe b then [c]
         else if (b =? 34) || (b =? 92) then [backslash; c]
         else if b =? 10 then [backslash; "n"%char]
         else if b =? 13 then [backslash; "r"%char]
         else if b =? 9 then [backslash; "t"%char]
         else esc_u b, 1%nat)
      else
        let '(r, n) := DecodeRune s in
        if negb (good_rune (r, n)) then (esc_u RuneError, n)
        else if (r =? 8232) || (r =? 8233) then (esc_u r, n)
        else (take n s, n)
  end.

Fixpoint enc_body (fuel : nat) (s : bytes) : bytes :=
  match fuel, s with
  | _, [] => []
  | O, _ => []
  | S f, _ => let '(o, n) := enc_step s in o ++ enc_body f (drop n s)
  end.

(** A Go string as a JSON string literal. *)
Definition json_string (s : bytes) : bytes := dq :: enc_body (length s) s ++ [dq].

(** The compact text of a tree, as [json.Marshal] writes it. *)
Fixpoint print (v : json) : bytes :=
  match v with
  | JNull => lit "null"
  | JBool true => lit "true"
  | JBool false => lit "false"
  | JNum t => t
  | JStr s => json_string s
  | JArr l => "["%char :: Join (map print l) [","%char] ++ ["]"%char]
  | JObj l =>
      "{"%char ::
      Join (map (λ kv, json_string kv.1 ++ ":"%char :: print kv.2) l) [","%char] ++ ["}"%char]
  end.

(** ** Scanner *)

Definition is_ws (c : ascii) : bool :=
  ceq c " "%char || ceq c "009"%char || ceq c "010"%char || ceq c "013"%char.

Fixpoint skip_ws (s : bytes) : bytes :=
  match s with
  | c :: s' => if is_ws c then skip_ws s' else s
  | [] => []
  end.

Fixpoint span_digits (s : bytes) : bytes * bytes :=
  match s with
  | c :: s' => if is_digit c then let '(d, r) := span_digits s' in (c :: d, r) else ([], s)
  | [] => ([], [])
  end.

Definition scan_frac (s : bytes) : option (bytes * bytes) :=
  match s with
  | c :: s' => if ceq c "."%char then
                 match span_digits s' with
                 | ([], _) => None
                 | (d, r) => Some (c :: d, r)
                 end
               else Some ([], s)
  | [] => Some ([], [])
  end.

Definition scan_exp (s : bytes) : option (bytes * bytes) :=
  match s with
  | c :: s' =>
      if ceq c "e"%char || ceq c "E"%char then
        let '(sg, s2) := match s' with
                         | d :: s2 => if ceq d "+"%char || ceq d "-"%char then ([d], s2) else ([], s')
                         | [] => ([], [])
                         end in
        match span_digits s2 with
        | ([], _) => None
        | (d, r) => Some (c :: sg ++ d, r)
        end
      else Some ([], s)
  | [] => Some ([], [])
  end.

Definition scan_int (s : bytes) : option (bytes * bytes) :=
  match s with
  | c :: s' => if ceq c "0"%char then Some ([c], s')
               else if is_digit c then let '(d, r) := span_digits s' in Some (c :: d, r)
               else None
  | [] => None
  end.

(** The number literal at the front of [s] and what follows it. *)
Definition scan_number (s : bytes) : option (bytes * bytes) :=
  let '(sg, s1) := match s with
                   | c :: s' => if ceq c "-"%char then ([c], s') else ([], s)
                   | [] => ([], [])
                   end in
  match scan_int s1 with
  | None => None
  | Some (i, s2) =>
      match scan_frac s2 with
      | None => None
      | Some (f, s3) =>
          match scan_exp s3 with
          | None => None
          | Some (e, s4) => Some (sg ++ i ++ f ++ e, s4)
          end
      end
  end.

Definition hex_val (c : ascii) : option Z :=
  let b := zob c in
  if in_range 48 57 b then Some (b - 48)
  else if in_range 97 102 b then Some (b - 87)
  else if in_range 65 70 b then Some (b - 55)
  else None.

(** Four hexadecimal digits. *)
Definition getu4 (s : bytes) : option (Z * bytes) :=
  match s with
  | a :: b :: c :: d :: s' =>
      match hex_val a, hex_val b, hex_val c, hex_val d with
      | Some w, Some x, Some y, Some z => Some (w * 4096 + x * 256 + y * 16 + z, s')
      | _, _, _, _ => None
      end
  | _ => None
  end.

(** The second half of a surrogate pair: [\uXXXX] right after the first. *)
Definition low_surrogate (s : bytes) : option (Z * bytes) :=
  match s with
  | c :: d :: s' => if ceq c backslash && ceq d "u"%char then getu4 s' else None
  | _ => None
  end.

(** What follows a backslash in a string literal. *)
Definition dec_escape (s : bytes) : option (bytes * bytes) :=
  match s with
  | [] => None
  | c :: s' =>
      if ceq c dq || ceq c backslash || ceq c "/"%char then Some ([c], s')
      else if ceq c "b"%char then Some (["008"%char], s')
      else if ceq c "f"%char then Some (["012"%char], s')
      else if ceq c "n"%char then Some (["010"%char], s')
      else if ceq c "r"%char then Some (["013"%char], s')
      else if ceq c "t"%char then Some (["009"%char], s')
      else if ceq c "u"%char then
        match getu4 s' with
        | None => None
        | Some (rr, s2) =>
            if IsSurrogate rr then
              match low_surrogate s2 with
              | Some (rr1, s3) =>
                  let dec := utf16_DecodeRune rr rr1 in
                  if dec =? RuneError then Some (EncodeRune RuneError, s2)
                  else Some (EncodeRune dec, s3)
              | None => Some (EncodeRune RuneError, s2)
              end
            else Some (EncodeRune rr, s2)
        end
      else None
  end.

(** The rest of a string literal after its opening quote: the string and what
    follows the closing quote. *)
Fixpoint dec_body (fuel : nat) (s : bytes) : option (bytes * bytes) :=
  match fuel, s with
  | O, _ => None
  | _, [] => None
  | S f, c :: s' =>
      if ceq c dq then Some ([], s')
      else if ceq c backslash then
        match dec_escape s' with
        | None => None
        | Some (o, s2) =>
            match dec_body f s2 with
            | None => None
            | Some (x, r) => Some (o ++ x, r)
            end
        end
      else if zob c <? 32 then None
      else
        let '(r, n) := DecodeRune s in
        match dec_body f (drop n s) with
        | None => None
        | Some (x, rest) => Some (EncodeRune r ++ x, rest)
        end
  end.

Definition dec_string (s : bytes) : option (bytes * bytes) := dec_body (S (length s)) s.

(** ** Parser *)

Definition expect (p s : bytes) (v : json) : option (json * bytes) :=
  if is_prefix p s then Some (v, drop (length p) s) else None.

Fixpoint parse_value (fuel : nat) (s : bytes) : option (json * bytes) :=
  match fuel with
  | O => None
  | S f =>
      match skip_ws s with
      | [] => None
      | c :: s' =>
          if ceq c dq then
            match dec_string s' with
            | Some (x, r) => Some (JStr x, r)
            | None => None
            end
          else if ceq c "["%char then
            match skip_ws s' with
            | d :: r => if ceq d "]"%char then Some (JArr [], r)
                        else match parse_elems f s' with
                             | Some (l, r) => Some (JArr l, r)
                             | None => None
                             end
            | [] => None
            end
          else if ceq c "{"%char then
            match skip_ws s' with
            | d :: r => if ceq d "}"%char then Some (JObj [], r)
                        else match parse_members f s' with
                             | Some (l, r) => Some (JObj l, r)
                             | None => None
                             end
            | [] => None
            end
          else if ceq c "n"%char then expect (lit "null") (c :: s') JNull
          else if ceq c "t"%char then expect (lit "true") (c :: s') (JBool true)
          else if ceq c "f"%char then expect (lit "false") (c :: s') (JBool false)
          else match scan_number (c :: s') with
               | Some (t, r) => Some (JNum t, r)
               | None => None
               end
      end
  end
with parse_elems (fuel : nat) (s : bytes) : option (list json * bytes) :=
  match fuel with
  | O => None
  | S f =>
      match parse_value f s with
      | None => None
      | Some (v, r) =>
          match skip_ws r with
          | c :: r' =>
              if ceq c ","%char then
                match parse_elems f r' with
                | Some (l, r2) => Some (v :: l, r2)
                | None => None
                end
              else if ceq c "]"%char then Some ([v], r')
              else None
          | [] => None
          end
      end
  end
with parse_members (fuel : nat) (s : bytes) : option (list (bytes * json) * bytes) :=
  match fuel with
  | O => None
  | S f =>
      match skip_ws s with
      | [] => None
      | q :: s1 =>
          if negb (ceq q dq) then None
          else match dec_string s1 with
          | None => None
          | Some (k, s2) =>
              match skip_ws s2 with
              | [] => None
              | col :: s3 =>
                  if negb (ceq col ":"%char) then None
                  else match parse_value f s3 with
                  | None => None
                  | Some (v, r) =>
                      match skip_ws r with
                      | c :: r' =>
                          if ceq c ","%char then
                            match parse_members f r' with
                            | Some (l, r2) => Some ((k, v) :: l, r2)
                            | None => None
                            end
                          else if ceq c "}"%char then Some ([(k, v)], r')
                          else None
                      | [] => None
                      end
                  end
              end
          end
      end
  end.

(** Fuel that is always enough: every level of nesting and every element consumes
    a byte and at most two calls ([parse_fuel_irrelevant]). *)
Definition parse_fuel (s : bytes) : nat := S (2 * length s).

(** The tree of a JSON text; [None] is the syntax error of [checkValid]. *)
Definition json_parse (s : bytes) : option json :=
  match parse_value (parse_fuel s) s with
  | Some (v, r) => match skip_ws r with [] => Some v | _ => None end
  | None => None
  end.

(** ** Struct fields *)

Definition upper (b : Z) : Z := if in_range 97 122 b then b - 32 else b.
Definition is_letter (b : Z) : bool := in_range 65 90 (upper b).

(** [equalFoldRight]: the field name on the left, the key on the right; besides
    ASCII case, U+017F folds to [s] and U+212A to [k]. *)
Fixpoint fold_eq (name key : bytes) : bool :=
  match name, key with
  | [], [] => true
  | [], _ :: _ => false
  | _ :: _, [] => false
  | a :: name', b :: key' =>
      if zob b <? 128 then
        if ceq a b then fold_eq name' key'
        else if is_letter (zob a) && (upper (zob a) =? upper (zob b)) then fold_eq name' key'
        else false
      else
        let r := (DecodeRune key).1 in
        if (upper (zob a) =? 83) && (r =? 383) then fold_eq name' (drop 2 key)
        else if (upper (zob a) =? 75) && (r =? 8490) then fold_eq name' (drop 3 key)
        else false
  end.

(** The field a key selects: the exactly named one, or the first folded match. *)
Definition find_field (names : list bytes) (key : bytes) : option bytes :=
  match find (λ n, bool_decide (n = key)) names with
  | Some n => Some n
  | None => find (λ n, fold_eq n key) names
  end.

(** A decoding target and whether an error has been saved: a member of the wrong
    type is skipped and reported after the rest has been decoded. *)
Definition dec (A : Type) : Type := A * bool.

Definition dec_err {A} (a : A) : dec A := (a, true).
Definition dec_ok {A} (a : A) : dec A := (a, false).

(** Decoding into a [string], [uint], [int64] or [bool] variable. *)
Definition set_string (v : json) (old : bytes) : dec bytes :=
  match v with
  | JStr s => dec_ok s
  | JNull => dec_ok old
  | _ => dec_err old
  end.
Definition set_uint (v : json) (old : Z) : dec Z :=
  match v with
  | JNum t => match ParseUint t with Some n => dec_ok n | None => dec_err old end
  | JNull => dec_ok old
  | _ => dec_err old
  end.
Definition set_int64 (v : json) (old : Z) : dec Z :=
  match v with
  | JNum t => match ParseInt t with Some n => dec_ok n | None => dec_err old end
  | JNull => dec_ok old
  | _ => dec_err old
  end.
Definition set_bool (v : json) (old : bool) : dec bool :=
  match v with
  | JBool b => dec_ok b
  | JNull => dec_ok old
  | _ => dec_err old
  end.

(** Decoding the members of an object into a struct, in order. *)
Fixpoint dec_members {A} (names : list bytes) (set : bytes → json → A → dec A)
    (l : list (bytes * json)) (a : A) : dec A :=
  match l with
  | [] => dec_ok a
  | (k, v) :: l' =>
      let '(a1, e1) := match find_field names k with
                       | Some n => set n v a
                       | None => dec_ok a
                       end in
      let '(a2, e2) := dec_members names set l' a1 in
      (a2, e1 || e2)
  end.

Definition dec_struct {A} (names : list bytes) (set : bytes → json → A → dec A)
    (v : json) (a : A) : dec A :=
  match v with
  | JObj l => dec_members names set l a
  | JNull => dec_ok a
  | _ => dec_err a
  end.

(** [json.Unmarshal(data, &a)] for a struct: a syntax error leaves [a] alone. *)
Definition unmarshal {A} (names : list bytes) (set : bytes → json → A → dec A)
    (data : bytes) (a : A) : dec A :=
  match json_parse data with
  | None => dec_err a
  | Some v => dec_struct names set v a
  end.

(** ** Values of type [interface{}] *)

(** Byte-wise order of keys, the order in which [Marshal] writes a map. *)
Fixpoint bytes_lt (a b : bytes) : bool :=
  match a, b with
  | _, [] => false
  | [], _ :: _ => true
  | x :: a', y :: b' => (zob x <? zob y) || ((zob x =? zob y) && bytes_lt a' b')
  end.

(** Assignment [m[k] = v] to a map kept as a key-sorted list. *)
Fixpoint map_put (k : bytes) (v : json) (m : list (bytes * json)) : list (bytes * json) :=
  match m with
  | [] => [(k, v)]
  | (k', v') :: m' =>
      if decide (k = k') then (k, v) :: m'
      else if bytes_lt k k' then (k, v) :: (k', v') :: m'
      else (k', v') :: map_put k v m'
  end.

(** What the program takes from Go's library without depending on its details.
    Conversions through [float64]: [fmt_float64 t] is the text [Marshal] writes for
    the number literal [t] decoded into an [interface{}] ([None]: out of range),
    [float_f t] is [strconv.FormatFloat(f, 'f', -1, 64)], [float_int t] is [int64(f)]
    and [float_nonzero t] is [f != 0], each of the [f] that [ParseFloat(t, 64)]
    returns.  [json_error t] is the text of the error [Unmarshal] reports for the
    input [t]; the program only logs it or sends it to the client. *)
Class GoLib := {
  fmt_float64 : bytes → option bytes;
  float_f : bytes → bytes;
  float_int : bytes → Z;
  float_nonzero : bytes → bool;
  json_error : bytes → bytes;
}.

Section Interface.
Context `{GoLib}.

(** The value decoded into an [interface{}], as the tree [Marshal] writes for it:
    maps have their keys sorted and the last of equal keys wins. *)
Fixpoint iface (v : json) : option json :=
  match v with
  | JNum t => JNum <$> fmt_float64 t
  | JArr l => JArr <$> (fix go l := match l with
                         | [] => Some []
                         | x :: l' => match iface x, go l' with
                                      | Some y, Some r => Some (y :: r)
                                      | _, _ => None
                                      end
                         end) l
  | JObj l => JObj <$> (fix go l acc := match l with
                         | [] => Some acc
                         | (k, x) :: l' => match iface x with
                                           | Some y => go l' (map_put k y acc)
                                           | None => None
                                           end
                         end) l []
  | _ => Some v
  end.
End Interface.

(** ** Induction on trees *)

Section Json_ind.
Context (P : json → Prop).
Context (Hnull : P JNull) (Hbool : ∀ b, P (JBool b)) (Hnum : ∀ t, P (JNum t))
  (Hstr : ∀ s, P (JStr s)) (Harr : ∀ l, Forall P l → P (JArr l))
  (Hobj : ∀ l, Forall (λ kv, P kv.2) l → P (JObj l)).

Fixpoint json_tree_ind (v : json) : P v :=
  match v with
  | JNull => Hnull
  | JBool b => Hbool b
  | JNum t => Hnum t
  | JStr s => Hstr s
  | JArr l => Harr l ((fix go l : Forall P l :=
      match l with
      | [] => @List.Forall_nil _ P
      | x :: l' => @List.Forall_cons _ P x l' (json_tree_ind x) (go l')
      end) l)
  | JObj l => Hobj l ((fix go l : Forall (λ kv, P kv.2) l :=
      match l with
      | [] => @List.Forall_nil _ _
      | kv :: l' => @List.Forall_cons _ (λ kv, P kv.2) kv l' (json_tree_ind kv.2) (go l')
      end) l)
  end.
End Json_ind.

(** ** String literals *)

Lemma ceq_refl c : ceq c c = true.
Proof. apply Ascii.eqb_refl. Qed.

Lemma ceq_neq a b : a ≠ b → ceq a b = false.
Proof. apply Ascii.eqb_neq. Qed.

Lemma ceq_zob c d : zob c ≠ zob d → ceq c d = false.
Proof. intros H. apply ceq_neq. by intros ->. Qed.

Lemma zob_dq : zob dq = 34.
Proof. done. Qed.

Lemma zob_backslash : zob backslash = 92.
Proof. done. Qed.

Lemma hex_val_hex z : 0 ≤ z < 16 → hex_val (hex z) = Some z.
Proof.
  intros Hz. unfold hex, hex_val. destruct (Z.ltb_spec z 10).
  - rewrite zob_boz_id by lia. rewrite in_range_true by lia. f_equal. lia.
  - rewrite zob_boz_id by lia. rewrite in_range_false, in_range_true by lia. f_equal. lia.
Qed.

Lemma getu4_esc r t : 0 ≤ r < 65536 →
  getu4 (hex (r / 4096 mod 16) :: hex (r / 256 mod 16) :: hex (r / 16 mod 16) :: hex (r mod 16) :: t)
  = Some (r, t).
Proof.
  intros Hr. unfold getu4. rewrite !hex_val_hex by divs. do 2 f_equal. divs.
Qed.

(** An escape [\uXXXX] of a rune that is not a surrogate reads as that rune. *)
Lemma dec_body_esc_u f r t :
  0 ≤ r < 65536 → IsSurrogate r = false →
  dec_body (S f) (esc_u r ++ t) = (λ xr, (EncodeRune r ++ xr.1, xr.2)) <$> dec_body f t.
Proof.
  intros Hr Hs. unfold esc_u. cbn [app dec_body].
  change (ceq backslash dq) with false. change (ceq backslash backslash) with true. cbn iota.
  unfold dec_escape. cbn -[getu4 EncodeRune IsSurrogate dec_body].
  rewrite getu4_esc by lia. rewrite Hs. by destruct (dec_body f t) as [[x rest]|].
Qed.

(** A byte of an escape is read back. *)
Lemma dec_body_escape f c o t :
  dec_escape (c :: t) = Some (o, t) →
  dec_body (S f) (backslash :: c :: t) = (λ xr, (o ++ xr.1, xr.2)) <$> dec_body f t.
Proof.
  intros H. cbn [dec_body]. change (ceq backslash dq) with false.
  change (ceq backslash backslash) with true. cbn iota. rewrite H.
  by destruct (dec_body f t) as [[x rest]|].
Qed.

(** A rune copied as it is is read back. *)
Lemma dec_body_copy f s r n t :
  rune_form s r n → (n = 1%nat → html_safe r = true) →
  dec_body (S f) (take n s ++ t) = (λ xr, (take n s ++ xr.1, xr.2)) <$> dec_body f t.
Proof.
  intros F Hsafe. pose proof (form_DecodeRune _ _ _ t F) as D.
  pose proof (form_EncodeRune _ _ _ F) as En.
  assert (length (take n s) = n) as Hl by (destruct F; reflexivity).
  destruct (take n s ++ t) as [|c u] eqn:E.
  { destruct F; discriminate. }
  cbn [dec_body].
  assert (32 ≤ zob c ∧ zob c ≠ 34 ∧ zob c ≠ 92) as (H1 & H2 & H3).
  { destruct F; cbn in E; simplify_eq; try lia.
    specialize (Hsafe eq_refl). unfold html_safe in Hsafe.
    apply andb_true_iff in Hsafe as [Hr Hn]. range_bool.
    repeat match goal with H : _ || _ = false |- _ => apply orb_false_iff in H as [? ?] end.
    repeat match goal with H : (_ =? _) = false |- _ => apply Z.eqb_neq in H end. lia. }
  rewrite (ceq_zob c dq), (ceq_zob c backslash) by (rewrite ?zob_dq, ?zob_backslash; lia).
  rewrite (proj2 (Z.ltb_ge _ _)) by lia. rewrite D, <-E, <-Hl at 1.
  rewrite drop_app_length, En. by destruct (dec_body f t) as [[x rest]|].
Qed.

(** One step of the encoder is undone by one step of the decoder. *)
Lemma dec_enc_step f s r n t :
  rune_form s r n →
  (enc_step s).2 = n ∧ (enc_step s).1 ≠ [] ∧
  dec_body (S f) ((enc_step s).1 ++ t) = (λ xr, (take n s ++ xr.1, xr.2)) <$> dec_body f t.
Proof.
  intros F. pose proof (form_EncodeRune _ _ _ F) as En.
  destruct (decide (n = 1%nat)) as [->|Hn].
  - inversion F as [c0 s' H E1 E2 E3| | |]. subst s r. clear E3 F. pose proof (zob_range c0) as Hc. cbn [enc_step take fst snd].
    rewrite (proj2 (Z.ltb_lt _ _)) by lia.
    destruct (html_safe (zob c0)) eqn:Hs.
    { split_and!; [done|done|]. cbn [fst]. apply (dec_body_copy f (c0 :: s') (zob c0) 1); [by constructor|done]. }
    destruct (Z.eqb_spec (zob c0) 34) as [E34|E34].
    { apply (inj zob _ dq) in E34 as ->. split_and!; try done. by apply dec_body_escape. }
    destruct (Z.eqb_spec (zob c0) 92) as [E92|E92].
    { apply (inj zob _ backslash) in E92 as ->. split_and!; try done. by apply dec_body_escape. }
    destruct (Z.eqb_spec (zob c0) 10) as [E10|E10].
    { apply (inj zob _ "010"%char) in E10 as ->. split_and!; try done. by apply dec_body_escape. }
    destruct (Z.eqb_spec (zob c0) 13) as [E13|E13].
    { apply (inj zob _ "013"%char) in E13 as ->. split_and!; try done. by apply dec_body_escape. }
    destruct (Z.eqb_spec (zob c0) 9) as [E9|E9].
    { apply (inj zob _ "009"%char) in E9 as ->. split_and!; try done. by apply dec_body_escape. }
    cbn [orb fst snd]. split_and!; [done|done|]. rewrite dec_body_esc_u.
    + by rewrite En.
    + lia.
    + apply in_range_false. lia.
  - assert (good_rune (r, n) = true) as G.
    { unfold good_rune. cbn. destruct (Nat.leb_spec n 1); [destruct F; lia|]. by rewrite andb_false_r. }
    pose proof (form_DecodeRune _ _ _ (drop n s) F) as D. rewrite take_drop in D.
    assert (enc_step s = ((if (r =? 8232) || (r =? 8233) then esc_u r else take n s), n)) as ->.
    { destruct s as [|c s]; [by inversion F|]. unfold enc_step. rewrite D, G.
      assert (128 ≤ zob c) by (inversion F; subst; first [done|lia]).
      rewrite (proj2 (Z.ltb_ge _ _)) by done. cbn [negb]. by destruct (_ || _). }
    cbn [fst snd]. split; [done|]. destruct (_ || _) eqn:E.
    + split; [done|]. rewrite dec_body_esc_u.
      * by rewrite En.
      * apply orb_true_iff in E as [?%Z.eqb_eq|?%Z.eqb_eq]; lia.
      * apply in_range_false. apply orb_true_iff in E as [?%Z.eqb_eq|?%Z.eqb_eq]; lia.
    + split; [by destruct F|]. by apply (dec_body_copy f s r n).
Qed.

(** Reading back an encoded valid string. *)
Lemma dec_enc_body s k f t :
  utf8_valid s → (length s ≤ k)%nat → (length (enc_body k s) < f)%nat →
  dec_body f (enc_body k s ++ dq :: t) = Some (s, t).
Proof.
  intros Hv. revert k f. induction Hv as [|s r n Hs E G Hd IH]; intros k f Hk Hf.
  - destruct f as [|f]; [lia|]. by destruct k.
  - pose proof (DecodeRune_form _ _ _ Hs E G) as F.
    pose proof (DecodeRune_size s Hs) as Hn. rewrite E in Hn. simpl in Hn.
    destruct k as [|k]; [lia|]. destruct f as [|f]; [lia|].
    assert (enc_body (S k) s = (enc_step s).1 ++ enc_body k (drop (enc_step s).2 s)) as Eb.
    { destruct s; [done|]. cbn [enc_body]. by destruct (enc_step _). }
    destruct (dec_enc_step f s r n (enc_body k (drop n s) ++ dq :: t) F) as (En & Hne & D).
    rewrite Eb, En in *. rewrite <-app_assoc, D. rewrite IH.
    + cbn. by rewrite take_drop.
    + rewrite length_drop. lia.
    + rewrite length_app in Hf. destruct (enc_step s).1; [done|]. cbn [length] in Hf. lia.
Qed.

Lemma dec_json_string s t :
  utf8_valid s → dec_string (enc_body (length s) s ++ dq :: t) = Some (s, t).
Proof.
  intros Hv. unfold dec_string. apply dec_enc_body; [done|lia|]. rewrite length_app. lia.
Qed.

(** Decoded strings are valid UTF-8, whatever the text was. *)
Lemma dec_escape_valid s o r : dec_escape s = Some (o, r) → utf8_valid o.
Proof.
  unfold dec_escape. destruct s as [|c s]; [done|].
  destruct (ceq c dq || ceq c backslash || ceq c "/"%char) eqn:E.
  { intros [= <- <-]. apply utf8_valid_ascii; [|constructor].
    repeat match goal with H : _ || _ = true |- _ => apply orb_true_iff in H as [H|H] end;
      apply Ascii.eqb_eq in E as ->; done. }
  repeat case_match; intros [= <- <-]; auto with sara; apply utf8_valid_ascii; done || constructor.
Qed.

Lemma dec_body_valid f s x r : dec_body f s = Some (x, r) → utf8_valid x.
Proof.
  revert s x r. induction f as [|f IH]; intros s x r; [done|]. cbn [dec_body].
  destruct s as [|c s]; [done|]. destruct (ceq c dq); [intros [= <- <-]; constructor|].
  destruct (ceq c backslash).
  - destruct (dec_escape s) as [[o s2]|] eqn:E; [|done].
    destruct (dec_body f s2) as [[y r']|] eqn:E2; [|done]. intros [= <- <-].
    apply utf8_valid_app; [by eapply dec_escape_valid|by eapply IH].
  - destruct (zob c <? 32); [done|]. destruct (DecodeRune (c :: s)) as [rr n].
    destruct (dec_body f _) as [[y r']|] eqn:E2; [|done]. intros [= <- <-].
    apply utf8_valid_app; [auto with sara|by eapply IH].
Qed.

(** ** Number literals *)

(** The characters that may follow a value inside a compact text. *)
Definition delim (t : bytes) : Prop :=
  match t with
  | [] => True
  | c :: _ => c = ","%char ∨ c = "]"%char ∨ c = "}"%char
  end.

(** A text that is one number literal. *)
Definition number_ok (l : bytes) : Prop :=
  (∃ c l', l = c :: l' ∧ (is_digit c = true ∨ c = "-"%char)) ∧
  ∀ t, delim t → scan_number (l ++ t) = Some (l, t).

Lemma span_digits_app l t :
  Forall (λ c, is_digit c = true) l → delim t → span_digits (l ++ t) = (l, t).
Proof.
  intros H Ht. induction H as [|c l Hc Hl IH].
  - destruct t as [|c t]; [done|]. by destruct Ht as [->|[->| ->]].
  - cbn. by rewrite Hc, IH.
Qed.

Lemma scan_tail_delim t : delim t → scan_frac t = Some ([], t) ∧ scan_exp t = Some ([], t).
Proof. destruct t as [|c t]; [done|]. by intros [->|[->| ->]]. Qed.

(** The first digit of a positive number is not zero. *)
Lemma fmt_aux_lead fuel z tail :
  0 < z → z < 2 ^ Z.of_nat fuel →
  ∃ d t, fmt_aux fuel z tail = d :: t ∧ d ≠ "0"%char ∧ is_digit d = true ∧
         (Forall (λ c, is_digit c = true) tail → Forall (λ c, is_digit c = true) t).
Proof.
  revert z tail. induction fuel as [|f IH]; intros z tail Hz Hlt; [simpl in Hlt; lia|].
  cbn [fmt_aux]. destruct (digit_value (z mod 10)) as [Hd Hv]; [by apply Z.mod_pos_bound|].
  destruct (Z.ltb_spec z 10).
  - exists (digit (z mod 10)), tail. split_and!; try done. intros E.
    rewrite E in Hv. change (zob "0"%char) with 48 in Hv. rewrite Z.mod_small in Hv; lia.
  - destruct (IH (z / 10) (digit (z mod 10) :: tail)) as (d & t & E & Hn & Hdd & Ht).
    + apply Z.div_str_pos. lia.
    + apply Z.div_lt_upper_bound; [lia|].
      rewrite Nat2Z.inj_succ, Z.pow_succ_r in Hlt by lia. lia.
    + exists d, t. split_and!; try done. intros Htl. apply Ht. by constructor.
Qed.

Lemma fmt_u_number z t :
  0 ≤ z → delim t →
  scan_int (fmt_u z ++ t) = Some (fmt_u z, t) ∧
  ∃ c l, fmt_u z = c :: l ∧ is_digit c = true.
Proof.
  intros Hz Ht. destruct (Z.eq_dec z 0) as [->|Hnz].
  { split; [done|]. by exists "0"%char, []. }
  unfold fmt_u.
  destruct (fmt_aux_lead (S (Z.to_nat (Z.log2 z))) z []) as (d & l & E & Hn & Hd & Hl); [lia| |].
  - rewrite Nat2Z.inj_succ, Z2Nat.id by apply Z.log2_nonneg. apply Z.log2_spec. lia.
  - rewrite E. split; [|by exists d, l]. cbn [app scan_int].
    rewrite ceq_neq by done. rewrite Hd. rewrite span_digits_app; [done|by apply Hl|done].
Qed.

Lemma number_ok_fmt_u z : 0 ≤ z → number_ok (fmt_u z).
Proof.
  intros Hz. destruct (fmt_u_number z [] Hz I) as (_ & c & l & E & Hc).
  split; [exists c, l; auto|]. intros t Ht. unfold scan_number.
  destruct (fmt_u_number z t Hz Ht) as (Hi & _). destruct (scan_tail_delim t Ht) as [Hf He].
  rewrite E in *. cbn [app] in *. destruct (digit_not_sign c Hc) as [Hm _].
  rewrite ceq_neq by done. rewrite Hi, Hf, He. by rewrite !app_nil_r.
Qed.

Lemma number_ok_fmt_d z : number_ok (fmt_d z).
Proof.
  unfold fmt_d. destruct (Z.ltb_spec z 0); [|by apply number_ok_fmt_u].
  split; [by exists "-"%char, (fmt_u (- z)); auto|]. intros t Ht.
  destruct (fmt_u_number (- z) t ltac:(lia) Ht) as (Hi & _).
  destruct (scan_tail_delim t Ht) as [Hf He].
  unfold scan_number. cbn [app]. rewrite ceq_refl, Hi, Hf, He. cbn. by rewrite !app_nil_r.
Qed.

(** ** Round trip of trees *)

(** Trees [Marshal] can write: strings are valid UTF-8 and numbers are literals. *)
Inductive wf_json : json → Prop :=
| wf_null : wf_json JNull
| wf_bool b : wf_json (JBool b)
| wf_num t : number_ok t → wf_json (JNum t)
| wf_str s : utf8_valid s → wf_json (JStr s)
| wf_arr l : Forall wf_json l → wf_json (JArr l)
| wf_obj l : Forall (λ kv, utf8_valid kv.1 ∧ wf_json kv.2) l → wf_json (JObj l).

Fixpoint jsize (v : json) : nat :=
  match v with
  | JArr l => S (list_sum (map (λ x, S (jsize x)) l))
  | JObj l => S (list_sum (map (λ kv, S (jsize kv.2)) l))
  | _ => 1%nat
  end.

(** The first character of a printed value. *)
Definition head_ok (c : ascii) : Prop :=
  is_ws c = false ∧ c ≠ "]"%char ∧ c ≠ "}"%char.

Lemma is_ws_false c : 32 < zob c → is_ws c = false.
Proof.
  intros H. destruct (is_ws c) eqn:E; [|done]. unfold is_ws in E.
  repeat (apply orb_true_iff in E as [E|E]); apply Ascii.eqb_eq in E as ->; done.
Qed.

Lemma print_head v : wf_json v → ∃ c t, print v = c :: t ∧ head_ok c.
Proof.
  intros H. destruct H as [|b|t Hn|s|l|l].
  1-2: try destruct b; eexists _, _; by split.
  2-4: eexists _, _; by split.
  destruct Hn as [(c & l & -> & Hc) _]. exists c, l. split; [done|].
  destruct Hc as [Hc| ->]; [|by split].
  unfold is_digit in Hc. apply andb_true_iff in Hc as [?%Z.leb_le ?%Z.leb_le].
  split_and!; [apply is_ws_false; lia|intros ->; by cbn in *..].
Qed.

Lemma skip_ws_head c t : is_ws c = false → skip_ws (c :: t) = c :: t.
Proof. intros H. cbn. by rewrite H. Qed.

(** The tests [parse_value] makes on a first character that starts none of the
    other values. *)
Lemma parse_number f t u :
  number_ok t → delim u → parse_value (S f) (t ++ u) = Some (JNum t, u).
Proof.
  intros Hn Hu. destruct (print_head (JNum t)) as (c & l & E & Hw & _); [by constructor|].
  cbn in E. subst t. destruct Hn as [(c' & l' & E' & Hc) Hn]. injection E' as <- <-.
  specialize (Hn u Hu). cbn [app] in *. cbn [parse_value]. rewrite (skip_ws_head c) by done.
  assert (∀ d, is_digit d = false → d ≠ "-"%char → ceq c d = false) as Hd.
  { intros d Hd Hm. apply ceq_neq. intros ->. destruct Hc; congruence. }
  rewrite !Hd by done. by rewrite Hn.
Qed.

Definition parses (v : json) : Prop :=
  ∀ f t, (jsize v ≤ f)%nat → delim t → parse_value f (print v ++ t) = Some (v, t).

Lemma parse_elems_print l f t :
  l ≠ [] → Forall parses l → (list_sum (map (λ x, S (jsize x)) l) ≤ f)%nat →
  parse_elems f (Join (map print l) [","%char] ++ "]"%char :: t) = Some (l, t).
Proof.
  intros Hne Hl. revert f. induction Hl as [|v l Hv Hl IH]; intros f Hf; [done|].
  destruct f as [|f]; [cbn in Hf; lia|]. cbn in Hf.
  destruct l as [|v' l].
  - cbn [map Join parse_elems]. by rewrite Hv by (cbn; auto; lia).
  - cbn [map]. rewrite Join_cons, <-app_assoc. cbn [parse_elems].
    rewrite Hv by (cbn; auto; lia). cbn [app skip_ws]. change (is_ws ","%char) with false. cbn iota.
    rewrite ceq_refl. cbn [map] in IH. by rewrite IH by (done || cbn in *; lia).
Qed.

Lemma parse_members_print l f t :
  l ≠ [] → Forall (λ kv, utf8_valid kv.1 ∧ parses kv.2) l →
  (list_sum (map (λ kv : bytes * json, S (jsize kv.2)) l) ≤ f)%nat →
  parse_members f (Join (map (λ kv, json_string kv.1 ++ ":"%char :: print kv.2) l) [","%char]
                   ++ "}"%char :: t) = Some (l, t).
Proof.
  intros Hne Hl. revert f. induction Hl as [|[k v] l [Hk Hv] Hl IH]; intros f Hf; [done|].
  destruct f as [|f]; [cbn in Hf; lia|]. cbn in Hf, Hk, Hv.
  assert (∀ u, delim u → skip_ws (dq :: enc_body (length k) k ++ dq :: ":"%char :: print v ++ u)
    = dq :: enc_body (length k) k ++ dq :: ":"%char :: print v ++ u) as Hsk by done.
  destruct l as [|kv' l].
  - cbn [map Join fst snd]. unfold json_string at 1. cbn [app]. rewrite <-!app_assoc. cbn [app parse_members].
    rewrite Hsk by (cbn; auto). rewrite ceq_refl. cbn [negb]. rewrite dec_json_string by done.
    cbn [skip_ws]. change (is_ws ":"%char) with false. cbn iota. rewrite ceq_refl. cbn [negb].
    by rewrite Hv by (cbn; auto; lia).
  - cbn [map fst snd]. rewrite Join_cons. unfold json_string at 1. cbn [app]. rewrite <-!app_assoc. cbn [app].
    rewrite <-?app_assoc. cbn [app parse_members].
    rewrite Hsk by (cbn; auto). rewrite ceq_refl. cbn [negb]. rewrite dec_json_string by done.
    cbn [skip_ws]. change (is_ws ":"%char) with false. cbn iota. rewrite ceq_refl. cbn [negb].
    rewrite Hv by (cbn; auto; lia). cbn [skip_ws]. change (is_ws ","%char) with false. cbn iota.
    rewrite ceq_refl. cbn [map] in IH. by rewrite IH by (done || cbn in *; lia).
Qed.

Lemma parse_value_print v : wf_json v → parses v.
Proof.
  induction v as [|b|s|s|l IH|l IH] using json_tree_ind; intros Hw f t Hf Ht;
    (destruct f as [|f]; [cbn in Hf; lia|]).
  - done.
  - by destruct b.
  - inversion Hw. by apply parse_number.
  - inversion Hw. cbn [print]. unfold json_string. cbn [app]. rewrite <-app_assoc.
    cbn [app parse_value]. rewrite skip_ws_head, ceq_refl by done. by rewrite dec_json_string.
  - inversion Hw as [| | | |l' Hl|]. subst l'.
    assert (Forall parses l) as Hp.
    { rewrite Forall_forall in *. intros x Hx. by apply IH, Hl. }
    cbn [print app]. rewrite <-app_assoc. cbn [app parse_value].
    rewrite skip_ws_head by done. change (ceq "["%char dq) with false. rewrite ceq_refl. cbn iota.
    destruct l as [|v l]; [done|]. pose proof (parse_elems_print (v :: l) f t ltac:(done) Hp) as E.
    cbn [map] in E |- *. apply Forall_inv in Hl. destruct (print_head v Hl) as (c & u & Ep & Hc).
    destruct (Join (print v :: map print l) [","%char] ++ "]"%char :: t) as [|d w] eqn:Ej.
    { destruct l; rewrite ?Join_cons, Ep in Ej; discriminate. }
    assert (d = c) as ->. { destruct l; rewrite ?Join_cons, Ep in Ej; by inversion Ej. }
    rewrite skip_ws_head by apply Hc. rewrite ceq_neq by apply Hc. rewrite E; [done|].
    cbn in Hf. cbn. lia.
  - inversion Hw as [| | | | |l' Hl]. subst l'.
    assert (Forall (λ kv, utf8_valid kv.1 ∧ parses kv.2) l) as Hp.
    { rewrite Forall_forall in *. intros x Hx. split; [by apply Hl|by apply IH, Hl]. }
    cbn [print app]. rewrite <-app_assoc. cbn [app parse_value].
    rewrite skip_ws_head by done. change (ceq "{"%char dq) with false.
    change (ceq "{"%char "["%char) with false. rewrite ceq_refl. cbn iota.
    destruct l as [|[k v] l]; [done|].
    pose proof (parse_members_print ((k, v) :: l) f t ltac:(done) Hp) as E.
    cbn [map] in E |- *.
    destruct (Join (_ :: map _ l) [","%char] ++ "}"%char :: t) as [|d w] eqn:Ej.
    { destruct l; rewrite ?Join_cons in Ej; discriminate. }
    assert (d = dq) as ->. { destruct l; rewrite ?Join_cons in Ej; by inversion Ej. }
    rewrite skip_ws_head by done. change (ceq dq "}"%char) with false. cbn iota.
    rewrite E; [done|]. cbn in Hf. cbn. lia.
Qed.

Lemma jsize_length v : wf_json v → (jsize v ≤ length (print v))%nat.
Proof.
  assert (∀ ls : list bytes, (list_sum (map length ls) + length ls ≤ S (length (Join ls [","%char])))%nat) as HJ.
  { induction ls as [|x [|y ls] IH]; [cbn; lia..|]. rewrite Join_cons, !length_app. cbn in *. lia. }
  induction v as [|b|s|s|l IH|l IH] using json_tree_ind; intros Hw; cbn [jsize print]; try (cbn; lia).
  - by destruct b; cbn; lia.
  - inversion Hw as [| |? [(c & u & -> & _) _]| | |]. cbn. lia.
  - inversion Hw as [| | | |l' Hl|]. subst l'. specialize (HJ (map print l)).
    cbn [length]. rewrite length_app. cbn [length]. rewrite length_map in HJ.
    assert (list_sum (map (λ x, S (jsize x)) l) ≤ list_sum (map length (map print l)) + length l)%nat; [|lia].
    clear HJ Hw. induction Hl as [|v l Hv Hl IHl]; [done|]. inversion IH as [|? ? Hx Hxs]; subst.
    specialize (IHl Hxs). specialize (Hx Hv). unfold list_sum in *. cbn in *. lia.
  - inversion Hw as [| | | | |l' Hl]. subst l'.
    specialize (HJ (map (λ kv, json_string kv.1 ++ ":"%char :: print kv.2) l)).
    cbn [length]. rewrite length_app. cbn [length]. rewrite length_map in HJ.
    match type of HJ with (list_sum ?a + _ ≤ _)%nat =>
      assert (list_sum (map (λ kv : bytes * json, S (jsize kv.2)) l) ≤ list_sum a + length l)%nat; [|lia] end.
    clear HJ Hw. induction Hl as [|v l [_ Hv] Hl IHl]; [done|]. inversion IH as [|? ? Hx Hxs]; subst.
    specialize (IHl Hxs). specialize (Hx Hv). unfold list_sum in *. cbn in *.
    rewrite length_app. cbn. lia.
Qed.

(** Parsing what [Marshal] printed gives the tree back. *)
Lemma json_parse_print v : wf_json v → json_parse (print v) = Some v.
Proof.
  intros Hw. unfold json_parse. pose proof (jsize_length v Hw) as Hs.
  pose proof (parse_value_print v Hw (parse_fuel (print v)) []) as E. rewrite app_nil_r in E.
  rewrite E; [done| |done]. unfold parse_fuel. lia.
Qed.

(** ** The fuel of the parser is enough *)

Lemma skip_ws_length s : (length (skip_ws s) ≤ length s)%nat.
Proof. induction s as [|c s IH]; cbn; [lia|]. destruct (is_ws c); cbn; lia. Qed.

Lemma span_digits_length s : (length (span_digits s).2 ≤ length s)%nat.
Proof.
  induction s as [|c s IH]; cbn; [lia|]. destruct (is_digit c); [|done].
  destruct (span_digits s); cbn in *; lia.
Qed.

Lemma getu4_length s z r : getu4 s = Some (z, r) → (length r < length s)%nat.
Proof. unfold getu4. repeat case_match; intros; simplify_eq; cbn; lia. Qed.

Lemma low_surrogate_length s z r : low_surrogate s = Some (z, r) → (length r < length s)%nat.
Proof.
  unfold low_surrogate. destruct s as [|c [|d s]]; try done. destruct (_ && _); [|done].
  intros H%getu4_length. cbn. lia.
Qed.

Lemma dec_escape_length s o r : dec_escape s = Some (o, r) → (length r < length s)%nat.
Proof.
  unfold dec_escape. intros H. repeat case_match; simplify_eq; cbn;
    repeat match goal with
    | H : getu4 _ = Some _ |- _ => apply getu4_length in H
    | H : low_surrogate _ = Some _ |- _ => apply low_surrogate_length in H
    end; lia.
Qed.

Lemma dec_body_length f s x r : dec_body f s = Some (x, r) → (length r < length s)%nat.
Proof.
  revert s x r. induction f as [|f IH]; intros s x r; [done|]. cbn [dec_body].
  destruct s as [|c s]; [done|]. destruct (ceq c dq); [intros [= <- <-]; cbn; lia|].
  destruct (ceq c backslash).
  - destruct (dec_escape s) as [[o s2]|] eqn:E; [|done].
    destruct (dec_body f s2) as [[y r']|] eqn:E2; [|done]. intros [= <- <-].
    apply IH in E2. apply dec_escape_length in E. cbn. lia.
  - destruct (zob c <? 32); [done|]. destruct (DecodeRune (c :: s)) as [rr n].
    destruct (dec_body f _) as [[y r']|] eqn:E2; [|done]. intros [= <- <-].
    apply IH in E2. rewrite length_drop in E2. cbn in *. lia.
Qed.

Lemma dec_body_fuel f1 f2 s : (length s < f1)%nat → (length s < f2)%nat → dec_body f1 s = dec_body f2 s.
Proof.
  revert f2 s. induction f1 as [|f1 IH]; intros f2 s H1 H2; [lia|]. destruct f2 as [|f2]; [lia|].
  cbn [dec_body]. destruct s as [|c s]; [done|]. cbn in H1, H2.
  destruct (ceq c dq); [done|]. destruct (ceq c backslash).
  - destruct (dec_escape s) as [[o s2]|] eqn:E; [|done]. apply dec_escape_length in E.
    by rewrite (IH f2 s2) by lia.
  - destruct (zob c <? 32); [done|].
    pose proof (DecodeRune_size (c :: s) ltac:(done)) as Hn.
    destruct (DecodeRune (c :: s)) as [rr n]. cbn in Hn.
    by rewrite (IH f2 (drop n (c :: s))) by (rewrite length_drop; cbn; lia).
Qed.

Lemma scan_number_length s t r : scan_number s = Some (t, r) → (length r < length s)%nat.
Proof.
  unfold scan_number. intros H.
  destruct (match s with [] => ([], []) | c :: s' => if ceq c "-"%char then ([c], s') else ([], s) end)
    as [sg s1] eqn:E0.
  assert (length s1 ≤ length s)%nat by (destruct s as [|c s]; [|destruct (ceq c _)]; simplify_eq; cbn; lia).
  destruct (scan_int s1) as [[i s2]|] eqn:E1; [|done].
  assert (length s2 < length s1)%nat.
  { unfold scan_int in E1. destruct s1 as [|c s1]; [done|]. pose proof (span_digits_length s1).
    destruct (span_digits s1); repeat case_match; simplify_eq; cbn in *; lia. }
  destruct (scan_frac s2) as [[f s3]|] eqn:E2; [|done].
  assert (length s3 ≤ length s2)%nat.
  { unfold scan_frac in E2. destruct s2 as [|c s2]; [by simplify_eq|]. pose proof (span_digits_length s2).
    destruct (span_digits s2); repeat case_match; simplify_eq; cbn in *; lia. }
  destruct (scan_exp s3) as [[e s4]|] eqn:E3; [|done]. simplify_eq.
  assert (length r ≤ length s3)%nat; [|lia].
  unfold scan_exp in E3. destruct s3 as [|c s3]; [by simplify_eq|].
  destruct (ceq c _ || _); [|by simplify_eq].
  destruct (match s3 with [] => ([], []) | d :: s2 => if ceq d "+"%char || ceq d "-"%char then ([d], s2) else ([], s3) end)
    as [sg' s5] eqn:E4.
  assert (length s5 ≤ length s3)%nat by (destruct s3 as [|d s3]; [|destruct (_ || _)]; simplify_eq; cbn; lia).
  pose proof (span_digits_length s5). destruct (span_digits s5) as [[|d ds] r']; [done|].
  simplify_eq. cbn in *. lia.
Qed.

(** Each of the three parsers consumes input. *)
Lemma parse_consumes f :
  (∀ s v r, parse_value f s = Some (v, r) → (length r < length s)%nat) ∧
  (∀ s l r, parse_elems f s = Some (l, r) → (length r < length s)%nat) ∧
  (∀ s l r, parse_members f s = Some (l, r) → (length r < length s)%nat).
Proof.
  induction f as [|f (IHv & IHe & IHm)]; [done|]. split_and!; intros s v r H.
  - cbn [parse_value] in H. pose proof (skip_ws_length s) as Hs.
    destruct (skip_ws s) as [|c s'] eqn:E; [done|]. cbn in Hs. pose proof (skip_ws_length s') as Hs'.
    unfold expect in H.
    repeat case_match; simplify_eq;
      repeat match goal with
      | H : dec_string _ = Some _ |- _ => apply dec_body_length in H
      | H : parse_elems _ _ = Some _ |- _ => apply IHe in H
      | H : parse_members _ _ = Some _ |- _ => apply IHm in H
      | H : scan_number _ = Some _ |- _ => apply scan_number_length in H
      end; rewrite ?length_drop; cbn in *; lia.
  - cbn [parse_elems] in H. destruct (parse_value f s) as [[w r1]|] eqn:Ev; [|done].
    apply IHv in Ev. pose proof (skip_ws_length r1) as Hr. destruct (skip_ws r1) as [|c r']; [done|].
    cbn in Hr. destruct (ceq c ","%char); [|destruct (ceq c _); by simplify_eq; lia].
    destruct (parse_elems f r') as [[l2 r2]|] eqn:Ee; [|done]. apply IHe in Ee. simplify_eq. lia.
  - cbn [parse_members] in H. pose proof (skip_ws_length s) as Hs.
    destruct (skip_ws s) as [|q s1]; [done|]. cbn in Hs. destruct (negb _); [done|].
    destruct (dec_string s1) as [[k s2]|] eqn:Ek; [|done]. apply dec_body_length in Ek.
    pose proof (skip_ws_length s2) as Hs2. destruct (skip_ws s2) as [|col s3]; [done|]. cbn in Hs2.
    destruct (negb _); [done|]. destruct (parse_value f s3) as [[w r1]|] eqn:Ev; [|done].
    apply IHv in Ev. pose proof (skip_ws_length r1) as Hr. destruct (skip_ws r1) as [|c r']; [done|].
    cbn in Hr. destruct (ceq c ","%char); [|destruct (ceq c _); by simplify_eq; lia].
    destruct (parse_members f r') as [[l2 r2]|] eqn:Ee; [|done]. apply IHm in Ee. simplify_eq. lia.
Qed.

(** More fuel than [parse_fuel] changes nothing: [None] is a syntax error, never
    a lack of fuel. *)
Lemma parse_fuel_step f1 :
  (∀ f2 s, (2 * length s < f1)%nat → (2 * length s < f2)%nat → parse_value f1 s = parse_value f2 s) ∧
  (∀ f2 s, (2 * length s + 1 < f1)%nat → (2 * length s + 1 < f2)%nat → parse_elems f1 s = parse_elems f2 s) ∧
  (∀ f2 s, (2 * length s + 1 < f1)%nat → (2 * length s + 1 < f2)%nat → parse_members f1 s = parse_members f2 s).
Proof.
  induction f1 as [|f1 (IHv & IHe & IHm)]; [split_and!; intros; lia|].
  split_and!; intros f2 s H1 H2; (destruct f2 as [|f2]; [lia|]).
  - cbn [parse_value]. pose proof (skip_ws_length s) as Hs.
    destruct (skip_ws s) as [|c s'] eqn:E; [done|]. cbn in Hs.
    rewrite (IHe f2 s'), (IHm f2 s') by lia. done.
  - cbn [parse_elems]. rewrite (IHv f2 s) by lia.
    destruct (parse_value f2 s) as [[w r1]|] eqn:Ev; [|done].
    apply parse_consumes in Ev. pose proof (skip_ws_length r1) as Hr.
    destruct (skip_ws r1) as [|c r']; [done|]. cbn in Hr. by rewrite (IHe f2 r') by lia.
  - cbn [parse_members]. pose proof (skip_ws_length s) as Hs.
    destruct (skip_ws s) as [|q s1]; [done|]. cbn in Hs. destruct (negb _); [done|].
    destruct (dec_string s1) as [[k s2]|] eqn:Ek; [|done]. apply dec_body_length in Ek.
    pose proof (skip_ws_length s2) as Hs2. destruct (skip_ws s2) as [|col s3]; [done|]. cbn in Hs2.
    destruct (negb _); [done|]. rewrite (IHv f2 s3) by lia.
    destruct (parse_value f2 s3) as [[w r1]|] eqn:Ev; [|done].
    apply parse_consumes in Ev. pose proof (skip_ws_length r1) as Hr.
    destruct (skip_ws r1) as [|c r']; [done|]. cbn in Hr. by rewrite (IHm f2 r') by lia.
Qed.

Lemma parse_fuel_irrelevant f s :
  (parse_fuel s ≤ f)%nat → parse_value f s = parse_value (parse_fuel s) s.
Proof. intros H. unfold parse_fuel in *. apply (parse_fuel_step f); lia. Qed.

(** ** Parsed strings are valid UTF-8 *)

Inductive utf8_json : json → Prop :=
| u_null : utf8_json JNull
| u_bool b : utf8_json (JBool b)
| u_num t : utf8_json (JNum t)
| u_str s : utf8_valid s → utf8_json (JStr s)
| u_arr l : Forall utf8_json l → utf8_json (JArr l)
| u_obj l : Forall (λ kv, utf8_valid kv.1 ∧ utf8_json kv.2) l → utf8_json (JObj l).

Lemma parse_utf8 f :
  (∀ s v r, parse_value f s = Some (v, r) → utf8_json v) ∧
  (∀ s l r, parse_elems f s = Some (l, r) → Forall utf8_json l) ∧
  (∀ s l r, parse_members f s = Some (l, r) → Forall (λ kv, utf8_valid kv.1 ∧ utf8_json kv.2) l).
Proof.
  induction f as [|f (IHv & IHe & IHm)]; [done|]. split_and!; intros s v r H.
  - cbn [parse_value] in H. destruct (skip_ws s) as [|c s'] eqn:E; [done|]. unfold expect in H.
    repeat case_match; simplify_eq; constructor; eauto using dec_body_valid; constructor.
  - cbn [parse_elems] in H. destruct (parse_value f s) as [[w r1]|] eqn:Ev; [|done].
    apply IHv in Ev. destruct (skip_ws r1) as [|c r']; [done|].
    destruct (ceq c ","%char); [|destruct (ceq c _); by simplify_eq; repeat constructor].
    destruct (parse_elems f r') as [[l2 r2]|] eqn:Ee; [|done]. apply IHe in Ee. simplify_eq. by constructor.
  - cbn [parse_members] in H. destruct (skip_ws s) as [|q s1]; [done|]. destruct (negb _); [done|].
    destruct (dec_string s1) as [[k s2]|] eqn:Ek; [|done]. apply dec_body_valid in Ek.
    destruct (skip_ws s2) as [|col s3]; [done|]. destruct (negb _); [done|].
    destruct (parse_value f s3) as [[w r1]|] eqn:Ev; [|done]. apply IHv in Ev.
    destruct (skip_ws r1) as [|c r']; [done|].
    destruct (ceq c ","%char); [|destruct (ceq c _); by simplify_eq; repeat constructor].
    destruct (parse_members f r') as [[l2 r2]|] eqn:Ee; [|done]. apply IHm in Ee. simplify_eq.
    by constructor.
Qed.

Lemma json_parse_utf8 s v : json_parse s = Some v → utf8_json v.
Proof.
  unfold json_parse. destruct (parse_value _ s) as [[w r]|] eqn:E; [|done].
  apply parse_utf8 in E. destruct (skip_ws r); [by intros [= <-]|done].
Qed.
