(* ===== verification/Gjson.v ===== *)
(** * Gjson: the lookup [gjson.Get(json, path)] of the vendored gjson package.

    The lenient scanner of [src/vendor/github.com/tidwall/gjson/gjson.go] for
    paths made of plain names separated by dots (no wildcard, no escape, no array
    index), which are the only paths the program uses: [parseObject] with its
    [parseString], [parseSquash], [parseNumber] and [parseLiteral], [unescape], and
    the accessors [Exists], [String], [Bool], [Int] and [Array] of a result.

    The scanners work on the rest of the text instead of on an index.  Where the
    source counts backwards the backslashes before a quote, the model carries the
    parity of the run of backslashes just read.  The main lemma is that looking a
    key up in a text [Marshal] printed finds the printed value. *)

From S2P Require Import Prelude GoBytes Utf8 Json.

Inductive gtype := GNull | GFalse | GNumber | GString | GTrue | GJSON.

#[global] Instance gtype_eq_dec : EqDecision gtype.
Proof. solve_decision. Defined.

Record Result := mkResult { Type_ : gtype; Raw : bytes; Str : bytes }.

Definition no_result : Result := mkResult GNull [] [].

(** ** Scanners *)

(** The rest of a string after its opening quote: its content, whether it holds
    an escape, and what follows the closing quote; [None] when it is not closed. *)
Fixpoint scan_quoted (odd esc : bool) (s : bytes) : option (bytes * bool * bytes) :=
  match s with
  | [] => None
  | c :: s' =>
      if ceq c dq && negb odd then Some ([], esc, s')
      else
        let b := ceq c backslash in
        match scan_quoted (b && negb odd) (esc || b) s' with
        | Some (x, e, r) => Some (c :: x, e, r)
        | None => None
        end
  end.

Definition parseString (s : bytes) : option (bytes * bool * bytes) := scan_quoted false false s.

(** [parseSquash] after the opening bracket: [str] is [Some odd] inside a string. *)
Fixpoint squash_from (str : option bool) (depth : nat) (s : bytes) : bytes * bytes :=
  match s with
  | [] => ([], [])
  | c :: s' =>
      let go str depth := let '(x, r) := squash_from str depth s' in (c :: x, r) in
      match str with
      | Some odd => if ceq c dq && negb odd then go None depth
                    else go (Some (ceq c backslash && negb odd)) depth
      | None =>
          if ceq c dq then go (Some false) depth
          else if ceq c "{"%char || ceq c "["%char then go None (S depth)
          else if ceq c "}"%char || ceq c "]"%char then
            match depth with
            | S (S d) => go None (S d)
            | _ => ([c], s')
            end
          else go None depth
      end
  end.

(** [parseSquash], at the opening bracket. *)
Definition parseSquash (s : bytes) : bytes * bytes :=
  match s with
  | [] => ([], [])
  | c :: s' => let '(x, r) := squash_from None 1 s' in (c :: x, r)
  end.

Fixpoint span (stop : ascii → bool) (s : bytes) : bytes * bytes :=
  match s with
  | [] => ([], [])
  | c :: s' => if stop c then ([], s) else let '(x, r) := span stop s' in (c :: x, r)
  end.

Definition number_stop (c : ascii) : bool :=
  (zob c <=? 32) || ceq c ","%char || ceq c "]"%char || ceq c "}"%char.
Definition literal_stop (c : ascii) : bool := negb (in_range 97 122 (zob c)).

(** [parseNumber] and [parseLiteral], at the first character. *)
Definition parseNumber (s : bytes) : bytes * bytes :=
  match s with [] => ([], []) | c :: s' => let '(x, r) := span number_stop s' in (c :: x, r) end.
Definition parseLiteral (s : bytes) : bytes * bytes :=
  match s with [] => ([], []) | c :: s' => let '(x, r) := span literal_stop s' in (c :: x, r) end.

(** The hexadecimal digits [unescape] knows: the upper-case ones are missing. *)
Definition unescape_hex (c : ascii) : option Z :=
  let b := zob c in
  if in_range 48 57 b then Some (b - 48)
  else if in_range 97 102 b then Some (b - 87)
  else None.

(** [unescape]; [None] is its early [return ""]. *)
Fixpoint unescape_from (s : bytes) : option bytes :=
  match s with
  | [] => Some []
  | c :: s1 =>
      if zob c <? 32 then None
      else if ceq c backslash then
        match s1 with
        | [] => None
        | d :: s2 =>
            let simple o := (λ x, o :: x) <$> unescape_from s2 in
            if ceq d backslash then simple backslash
            else if ceq d "/"%char then simple "/"%char
            else if ceq d "b"%char then simple "008"%char
            else if ceq d "f"%char then simple "012"%char
            else if ceq d "n"%char then simple "010"%char
            else if ceq d "r"%char then simple "013"%char
            else if ceq d "t"%char then simple "009"%char
            else if ceq d dq then simple dq
            else if ceq d "u"%char then
              match s2 with
              | w :: x :: y :: z :: s3 =>
                  match unescape_hex w, unescape_hex x, unescape_hex y, unescape_hex z with
                  | Some w', Some x', Some y', Some z' =>
                      (λ t, EncodeRune (w' * 4096 + x' * 256 + y' * 16 + z') ++ t) <$> unescape_from s3
                  | _, _, _, _ => None
                  end
              | _ => None
              end
            else None
        end
      else (λ x, c :: x) <$> unescape_from s1
  end.
Definition unescape (s : bytes) : bytes := default [] (unescape_from s).

Definition text_of (content : bytes) (esc : bool) : bytes :=
  if esc then unescape content else content.

(** ** Objects *)

Definition is_number_start (c : ascii) : bool := ceq c "-"%char || is_digit c.
Definition is_literal_start (c : ascii) : bool :=
  ceq c "t"%char || ceq c "f"%char || ceq c "n"%char.

(** The first character that starts a value; everything before it is skipped. *)
Definition value_start (c : ascii) : bool :=
  ceq c dq || ceq c "{"%char || ceq c "["%char || is_number_start c || is_literal_start c.

Definition literal_type (c : ascii) : gtype :=
  if ceq c "t"%char then GTrue else if ceq c "f"%char then GFalse else GNull.

(** One value, at its first character: the result it is and what follows it.
    [None]: a string that is not closed. *)
Definition scan_value (s : bytes) : option (Result * bytes) :=
  match s with
  | [] => None
  | c :: s' =>
      if ceq c dq then
        match parseString s' with
        | Some (x, e, r) => Some (mkResult GString (dq :: x ++ [dq]) (text_of x e), r)
        | None => None
        end
      else if ceq c "{"%char || ceq c "["%char then
        let '(raw, r) := parseSquash s in Some (mkResult GJSON raw [], r)
      else if is_number_start c then
        let '(raw, r) := parseNumber s in Some (mkResult GNumber raw [], r)
      else let '(raw, r) := parseLiteral s in Some (mkResult (literal_type c) raw [], r)
  end.

(** [parseArray] for a part that is a name: no element matches, and the array is
    read up to its closing bracket. *)
Fixpoint skip_array (fuel : nat) (s : bytes) : bytes :=
  match fuel with
  | O => []
  | S f =>
      match snd (span (λ c, value_start c || ceq c "]"%char) s) with
      | [] => []
      | c :: s' => if ceq c "]"%char then s'
                   else match scan_value (c :: s') with
                        | Some (_, r) => skip_array f r
                        | None => []
                        end
      end
  end.

(** What [parseObject] returns: the value it hit, or the text it had not read. *)
Inductive search := Hit (r : Result) | Miss (rest : bytes).

(** [parseObject], after the opening brace, for the path [parts].  Keys are found
    by skipping to the next quote (a closing brace on the way ends the object),
    values by skipping to the next character that starts one. *)
Fixpoint parseObject (fuel : nat) (parts : list bytes) (s : bytes) : search :=
  match fuel with
  | O => Miss []
  | S f =>
      match snd (span (λ c, ceq c dq || ceq c "}"%char) s) with
      | [] => Miss []
      | c :: s1 =>
          if ceq c "}"%char then Miss s1
          else match parseString s1 with
          | None => Miss []
          | Some (k, kesc, s2) =>
              let part := match parts with [] => [] | p :: _ => p end in
              let more := match parts with _ :: _ :: _ => true | _ => false end in
              let pmatch := bool_decide (part = text_of k kesc) in
              let hit := pmatch && negb more in
              match snd (span value_start s2) with
              | [] => Miss []
              | v :: s3 =>
                  if ceq v "{"%char && pmatch && negb hit then
                    match parseObject f (tail parts) s3 with
                    | Hit r => Hit r
                    | Miss r => parseObject f parts r
                    end
                  else if ceq v "["%char && pmatch && negb hit then
                    parseObject f parts (skip_array f s3)
                  else match scan_value (v :: s3) with
                       | None => Miss []
                       | Some (res, r) => if hit then Hit res else parseObject f parts r
                       end
              end
          end
      end
  end.

(** [gjson.Get(json, path)]: the first brace or bracket starts the document; a
    named part never matches inside a top-level array. *)
Definition Get (s path : bytes) : Result :=
  match snd (span (λ c, ceq c "{"%char || ceq c "["%char) s) with
  | [] => no_result
  | c :: s' =>
      if ceq c "{"%char then
        match parseObject (S (length s)) (Split path "."%char) s' with
        | Hit r => r
        | Miss _ => no_result
        end
      else no_result
  end.

(** ** Arrays *)

Definition tonum_stop (c : ascii) : bool :=
  (zob c <=? 32) || ceq c ","%char || ((93 <=? zob c) && negb (ceq c "e"%char)).
Definition tolit_stop (c : ascii) : bool := (zob c <=? 97) || (122 <=? zob c).

(** [tostr], [squash], [tonum] and [tolit] of [arrayOrMap]: the value at the first
    character and what follows it. *)
Definition array_value (c : ascii) (s : bytes) : Result * bytes :=
  if ceq c dq then
    match parseString s with
    | Some (x, e, r) => (mkResult GString (dq :: x ++ [dq]) (text_of x e), r)
    | None => (mkResult GString (dq :: s)
                 (text_of s (bool_decide (backslash ∈ s))), [])
    end
  else if ceq c "{"%char || ceq c "["%char then
    let '(raw, r) := parseSquash (c :: s) in (mkResult GJSON raw [], r)
  else if is_literal_start c then
    let '(x, r) := span tolit_stop s in (mkResult (literal_type c) (c :: x) [], r)
  else let '(x, r) := span tonum_stop s in (mkResult GNumber (c :: x) [], r).

(** The loop of [arrayOrMap('[', false)] after the opening bracket. *)
Fixpoint array_elems (fuel : nat) (s : bytes) : list Result :=
  match fuel, s with
  | O, _ => []
  | _, [] => []
  | S f, c :: s' =>
      if ceq c "]"%char || ceq c "}"%char then []
      else if value_start c then
        let '(v, r) := array_value c s' in v :: array_elems f r
      else array_elems f s'
  end.

(** ** Accessors *)

Definition Exists (t : Result) : bool :=
  negb (bool_decide (Type_ t = GNull)) || negb (bool_decide (Raw t = [])).

(** [Result.Array()]: the elements of an array, or the single value itself. *)
Definition Array_ (t : Result) : list Result :=
  if negb (Exists t) then []
  else match Type_ t with
       | GJSON =>
           match snd (span (λ c, ceq c "["%char || (32 <? zob c)) (Raw t)) with
           | c :: s => if ceq c "["%char then array_elems (length (Raw t)) s else []
           | [] => []
           end
       | _ => [t]
       end.

Section Accessors.
Context `{GoLib}.

Definition String_ (t : Result) : bytes :=
  match Type_ t with
  | GNull => lit "null"
  | GFalse => lit "false"
  | GNumber => float_f (Raw t)
  | GString => Str t
  | GJSON => Raw t
  | GTrue => lit "true"
  end.

Definition Bool_ (t : Result) : bool :=
  match Type_ t with
  | GTrue => true
  | GString => negb (bool_decide (Str t = [])) && negb (bool_decide (Str t = lit "0"))
  | GNumber => float_nonzero (Raw t)
  | _ => false
  end.

Definition Int_ (t : Result) : Z :=
  match Type_ t with
  | GTrue => 1
  | GString => ParseInt_n (Str t)
  | GNumber => float_int (Raw t)
  | _ => 0
  end.
End Accessors.

(** ** Lookup in a printed text *)

Lemma span_app_stop stop x c r :
  Forall (λ d, stop d = false) x → stop c = true → span stop (x ++ c :: r) = (x, c :: r).
Proof.
  intros Hx Hc. induction Hx as [|d x Hd Hx IH]; cbn; [by rewrite Hc|]. by rewrite Hd, IH.
Qed.

(** The encoder never leaves a quote or a dangling backslash in a string body. *)
Definition str_step (odd : bool) (c : ascii) : option bool :=
  if ceq c dq && negb odd then None else Some (ceq c backslash && negb odd).

Fixpoint str_run (odd : bool) (s : bytes) : option bool :=
  match s with
  | [] => Some odd
  | c :: s' => match str_step odd c with Some o => str_run o s' | None => None end
  end.

Lemma str_run_app odd s t :
  str_run odd (s ++ t) = match str_run odd s with Some o => str_run o t | None => None end.
Proof.
  revert odd. induction s as [|c s IH]; intros odd; cbn; [done|].
  destruct (str_step odd c); [apply IH|done].
Qed.

Lemma hex_plain z : 0 ≤ z < 16 → hex z ≠ dq ∧ hex z ≠ backslash.
Proof.
  intros Hz. unfold hex. destruct (Z.ltb_spec z 10); split; intros E;
    apply (f_equal zob) in E; rewrite zob_boz_id in E by lia;
    rewrite ?zob_dq, ?zob_backslash in E; lia.
Qed.

Lemma str_run_plain c s : c ≠ dq → c ≠ backslash → str_run false (c :: s) = str_run false s.
Proof. intros H1 H2. cbn. unfold str_step. by rewrite !ceq_neq. Qed.

Lemma esc_u_run r : str_run false (esc_u r) = Some false.
Proof.
  unfold esc_u. cbn [str_run str_step]. cbn -[hex].
  assert (∀ z, str_step false (hex (z mod 16)) = Some false) as Hh.
  { intros z. destruct (hex_plain (z mod 16)); [by apply Z.mod_pos_bound|].
    unfold str_step. by rewrite !ceq_neq. }
  by rewrite !Hh.
Qed.

(** Bytes of a multi-byte rune are neither quotes nor backslashes. *)
Lemma str_run_high l : Forall (λ c, 128 ≤ zob c) l → str_run false l = Some false.
Proof.
  induction 1 as [|c l Hc Hl IH]; [done|]. rewrite str_run_plain; [done|..];
    intros ->; rewrite ?zob_dq, ?zob_backslash in Hc; lia.
Qed.

Lemma enc_step_run s r n : rune_form s r n → str_run false (enc_step s).1 = Some false.
Proof.
  intros F. destruct (decide (n = 1%nat)) as [->|Hn].
  - inversion F as [c0 s' H E1 E2 E3| | |]. subst s r. cbn [enc_step fst].
    rewrite (proj2 (Z.ltb_lt _ _)) by done. cbn [fst].
    destruct (html_safe (zob c0)) eqn:Hs.
    { apply str_run_plain; intros ->; discriminate. }
    destruct (Z.eqb_spec (zob c0) 34) as [E34|E34].
    { apply (inj zob _ dq) in E34 as ->. done. }
    destruct (Z.eqb_spec (zob c0) 92) as [E92|E92].
    { apply (inj zob _ backslash) in E92 as ->. done. }
    cbn [orb]. repeat (destruct (_ =? _); [done|]). apply esc_u_run.
  - assert (good_rune (r, n) = true) as G.
    { unfold good_rune. cbn. destruct (Nat.leb_spec n 1); [destruct F; lia|]. by rewrite andb_false_r. }
    pose proof (form_DecodeRune _ _ _ (drop n s) F) as D. rewrite take_drop in D.
    destruct s as [|c s]; [by inversion F|]. unfold enc_step. rewrite D, G.
    assert (128 ≤ zob c) by (inversion F; subst; first [done|lia]).
    rewrite (proj2 (Z.ltb_ge _ _)) by done. cbn [negb].
    destruct (_ || _); [apply esc_u_run|]. cbn [fst]. apply str_run_high.
    destruct F; cbn; repeat constructor; try lia.
Qed.

Lemma enc_body_run s k : utf8_valid s → str_run false (enc_body k s) = Some false.
Proof.
  intros Hv. revert k. induction Hv as [|s r n Hs E G Hd IH]; intros [|k]; try done.
  { by destruct s. }
  pose proof (DecodeRune_form _ _ _ Hs E G) as F. destruct (dec_enc_step 0 s r n [] F) as (En & _ & _).
  pose proof (enc_step_run s r n F) as R.
  assert (enc_body (S k) s = (enc_step s).1 ++ enc_body k (drop (enc_step s).2 s)) as ->.
  { destruct s; [done|]. cbn [enc_body]. by destruct (enc_step _). }
  rewrite str_run_app, R, En. apply IH.
Qed.

(** Scanning a body that runs to an even state and its closing quote. *)
Lemma scan_quoted_run x r odd esc :
  str_run odd x = Some false →
  scan_quoted odd esc (x ++ dq :: r) = Some (x, esc || bool_decide (backslash ∈ x), r).
Proof.
  revert odd esc. induction x as [|c x IH]; intros odd esc H.
  - cbn in H. injection H as ->. cbn. rewrite bool_decide_false by apply not_elem_of_nil.
    by rewrite orb_false_r.
  - cbn [str_run] in H. unfold str_step in H. cbn [app scan_quoted].
    destruct (ceq c dq && negb odd) eqn:E; [done|].
    rewrite IH by done. do 3 f_equal. destruct (ceq c backslash) eqn:Eb.
    + apply Ascii.eqb_eq in Eb as ->. rewrite (bool_decide_true (_ ∈ _ :: _)) by set_solver.
      by rewrite !orb_true_r, orb_true_l.
    + apply Ascii.eqb_neq in Eb. rewrite orb_false_r. f_equal. apply bool_decide_ext. set_solver.
Qed.

Lemma squash_str_run x r odd d :
  str_run odd x = Some false →
  squash_from (Some odd) d (x ++ dq :: r) =
  let '(y, r') := squash_from None d r in (x ++ dq :: y, r').
Proof.
  revert odd. induction x as [|c x IH]; intros odd H.
  - cbn in H. injection H as ->. cbn. by destruct (squash_from None d r).
  - cbn [str_run] in H. unfold str_step in H. cbn [app squash_from].
    destruct (ceq c dq && negb odd) eqn:E; [done|]. rewrite IH by done.
    by destruct (squash_from None d r).
Qed.

(** A character that changes no bracket depth and opens no string. *)
Definition flat (c : ascii) : bool :=
  negb (ceq c dq || ceq c "{"%char || ceq c "["%char || ceq c "}"%char || ceq c "]"%char).

Lemma squash_flat x r d :
  Forall (λ c, flat c = true) x →
  squash_from None d (x ++ r) = let '(y, r') := squash_from None d r in (x ++ y, r').
Proof.
  intros H. induction H as [|c x Hc Hx IH]; [by cbn; destruct (squash_from None d r)|].
  unfold flat in Hc. apply negb_true_iff in Hc.
  repeat (apply orb_false_iff in Hc as [Hc ?]). cbn [app squash_from].
  repeat match goal with H : ceq _ _ = false |- _ => rewrite H end. cbn [orb].
  rewrite IH. by destruct (squash_from None d r).
Qed.

Definition num_char (c : ascii) : bool :=
  is_digit c || ceq c "-"%char || ceq c "+"%char || ceq c "."%char || ceq c "e"%char || ceq c "E"%char.

Lemma span_digits_split s d r :
  span_digits s = (d, r) → s = d ++ r ∧ Forall (λ c, num_char c = true) d.
Proof.
  revert d r. induction s as [|c s IH]; intros d r; cbn; [by intros [= <- <-]|].
  destruct (is_digit c) eqn:E; [|by intros [= <- <-]].
  destruct (span_digits s) as [d' r'] eqn:Es. intros [= <- <-].
  destruct (IH d' r' eq_refl) as [-> H]. split; [done|]. constructor; [|done].
  unfold num_char. by rewrite E.
Qed.

Lemma num_char_eq c d : ceq c d = true → num_char d = true → num_char c = true.
Proof. intros E%Ascii.eqb_eq. by subst. Qed.

Lemma scan_int_chars s t r : scan_int s = Some (t, r) → Forall (λ c, num_char c = true) t.
Proof.
  unfold scan_int. destruct s as [|c s]; [done|]. destruct (ceq c "0"%char) eqn:E0.
  { intros [= <- <-]. repeat constructor. by apply (num_char_eq _ _ E0). }
  destruct (is_digit c) eqn:Ed; [|done]. destruct (span_digits s) as [d r'] eqn:Es.
  intros [= <- <-]. apply span_digits_split in Es as [_ Es]. constructor; [|done].
  unfold num_char. by rewrite Ed.
Qed.

Lemma scan_frac_chars s t r : scan_frac s = Some (t, r) → Forall (λ c, num_char c = true) t.
Proof.
  unfold scan_frac. destruct s as [|c s]; [by intros [= <- <-]|].
  destruct (ceq c "."%char) eqn:E0; [|by intros [= <- <-]].
  destruct (span_digits s) as [d r'] eqn:Es. apply span_digits_split in Es as [_ Es].
  destruct d as [|x d]; [done|]. intros [= <- <-]. constructor; [by apply (num_char_eq _ _ E0)|done].
Qed.

Lemma scan_exp_chars s t r : scan_exp s = Some (t, r) → Forall (λ c, num_char c = true) t.
Proof.
  unfold scan_exp. destruct s as [|c s]; [by intros [= <- <-]|].
  destruct (ceq c "e"%char || ceq c "E"%char) eqn:E0; [|by intros [= <- <-]].
  destruct (match s with [] => ([], []) | d :: s2 => if ceq d "+"%char || ceq d "-"%char then ([d], s2) else ([], s) end)
    as [sg s5] eqn:E4.
  assert (Forall (λ c, num_char c = true) sg) as Hsg.
  { destruct s as [|d s]; [by simplify_eq|]. destruct (ceq d "+"%char || ceq d "-"%char) eqn:Es;
      [|by simplify_eq]. simplify_eq. repeat constructor.
    apply orb_true_iff in Es as [Es|Es]; by apply (num_char_eq _ _ Es). }
  destruct (span_digits s5) as [d r'] eqn:Es. apply span_digits_split in Es as [_ Es].
  destruct d as [|x d]; [done|]. intros [= <- <-]. constructor; [|by apply Forall_app].
  apply orb_true_iff in E0 as [E0|E0]; by apply (num_char_eq _ _ E0).
Qed.

(** A scanned literal consists of number characters. *)
Lemma scan_number_chars s t r :
  scan_number s = Some (t, r) → Forall (λ c, num_char c = true) t.
Proof.
  unfold scan_number.
  destruct (match s with [] => ([], []) | c :: s' => if ceq c "-"%char then ([c], s') else ([], s) end)
    as [sg s1] eqn:E0.
  assert (Forall (λ c, num_char c = true) sg) as Hsg.
  { destruct s as [|d s]; [by simplify_eq|]. destruct (ceq d _) eqn:Es; [|by simplify_eq].
    simplify_eq. repeat constructor. by apply (num_char_eq _ _ Es). }
  destruct (scan_int s1) as [[i s2]|] eqn:E1; [|done].
  destruct (scan_frac s2) as [[f s3]|] eqn:E2; [|done].
  destruct (scan_exp s3) as [[e s4]|] eqn:E3; [|done]. intros [= <- <-].
  apply scan_int_chars in E1. apply scan_frac_chars in E2. apply scan_exp_chars in E3.
  by rewrite !Forall_app.
Qed.

Lemma number_ok_chars t : number_ok t → Forall (λ c, num_char c = true) t.
Proof.
  intros [_ H]. specialize (H [] I). rewrite app_nil_r in H. by eapply scan_number_chars.
Qed.

Lemma num_char_cases c :
  num_char c = true → 43 ≤ zob c ≤ 57 ∧ zob c ≠ 44 ∨ zob c = 101 ∨ zob c = 69.
Proof.
  unfold num_char, is_digit. intros H.
  repeat (apply orb_true_iff in H as [H|H]);
    try (apply Ascii.eqb_eq in H as ->;
         first [right; left; reflexivity|right; right; reflexivity|left; repeat split; by vm_compute]).
  apply andb_true_iff in H as [?%Z.leb_le ?%Z.leb_le]. lia.
Qed.

(** The text of a number is ASCII. *)
Lemma utf8_number t : number_ok t → utf8_valid t.
Proof.
  intros Hc%number_ok_chars. induction Hc as [|c l Hc _ IH]; [constructor|].
  apply utf8_valid_ascii; [|done]. apply num_char_cases in Hc. lia.
Qed.

Lemma utf8_fmt_d z : utf8_valid (fmt_d z).
Proof. apply utf8_number, number_ok_fmt_d. Qed.
Lemma utf8_fmt_u z : 0 ≤ z → utf8_valid (fmt_u z).
Proof. intros Hz. by apply utf8_number, number_ok_fmt_u. Qed.

Lemma flat_zob c : zob c ≠ 34 → zob c ≠ 123 → zob c ≠ 91 → zob c ≠ 125 → zob c ≠ 93 → flat c = true.
Proof.
  intros. unfold flat. rewrite !ceq_neq; [done|intros ->; by cbn in *..].
Qed.

Lemma num_char_flat c : num_char c = true → flat c = true.
Proof. intros H%num_char_cases. apply flat_zob; lia. Qed.

(** A printed value inside brackets is passed over as a whole. *)
Definition squashes (x : bytes) : Prop :=
  ∀ d r, squash_from None (S d) (x ++ r) =
         let '(y, r') := squash_from None (S d) r in (x ++ y, r').

Lemma squashes_nil : squashes [].
Proof. intros d r. cbn. by destruct (squash_from None (S d) r). Qed.

Lemma squashes_app x y : squashes x → squashes y → squashes (x ++ y).
Proof.
  intros Hx Hy d r. rewrite <-app_assoc, Hx, Hy. destruct (squash_from None (S d) r).
  by rewrite app_assoc.
Qed.

Lemma squashes_flat x : Forall (λ c, flat c = true) x → squashes x.
Proof. intros H d r. by apply squash_flat. Qed.

Lemma squashes_string s : utf8_valid s → squashes (json_string s).
Proof.
  intros Hs d r. unfold json_string. cbn [app]. rewrite <-app_assoc. cbn [app squash_from].
  rewrite ceq_refl. rewrite squash_str_run by by apply enc_body_run.
  destruct (squash_from None (S d) r). by rewrite <-app_assoc.
Qed.

Lemma squashes_member k x :
  utf8_valid k → squashes x → squashes (json_string k ++ ":"%char :: x).
Proof.
  intros Hk Hx. apply squashes_app; [by apply squashes_string|].
  apply (squashes_app [":"%char]); [apply squashes_flat; by repeat constructor|done].
Qed.

Lemma squashes_join l : Forall squashes l → squashes (Join l [","%char]).
Proof.
  induction 1 as [|x [|y l] Hx Hl IH]; [apply squashes_nil|done|].
  rewrite Join_cons. apply squashes_app; [done|]. apply squashes_app; [|done].
  apply squashes_flat. by repeat constructor.
Qed.

(** Text between an opening and a closing bracket. *)
Lemma squashes_bracket o c x :
  o = "{"%char ∧ c = "}"%char ∨ o = "["%char ∧ c = "]"%char →
  squashes x → squashes (o :: x ++ [c]).
Proof.
  intros Hoc Hx d r. cbn [app]. rewrite <-app_assoc. cbn [app squash_from].
  destruct Hoc as [[-> ->]|[-> ->]]; cbn -[squash_from]; rewrite Hx; cbn -[squash_from];
    cbn [squash_from]; cbn -[squash_from]; destruct (squash_from None (S d) r);
    by rewrite <-app_assoc.
Qed.

Lemma squashes_print v : wf_json v → squashes (print v).
Proof.
  induction v as [|b|s|s|l IH|l IH] using json_tree_ind; intros Hw; cbn [print].
  - apply squashes_flat. by repeat constructor.
  - destruct b; apply squashes_flat; by repeat constructor.
  - inversion Hw as [| |t Hn| | |]. apply squashes_flat.
    apply number_ok_chars in Hn. revert Hn. apply Forall_impl. intros c. apply num_char_flat.
  - inversion Hw. by apply squashes_string.
  - inversion Hw as [| | | |l' Hl|]. subst l'. apply squashes_bracket; [by right|].
    apply squashes_join, Forall_map, Forall_forall. intros x Hx.
    rewrite Forall_forall in IH, Hl. by apply IH, Hl.
  - inversion Hw as [| | | | |l' Hl]. subst l'. apply squashes_bracket; [by left|].
    apply squashes_join, Forall_map, Forall_forall. intros x Hx.
    rewrite Forall_forall in IH, Hl. destruct (Hl x Hx) as [Hk Hv].
    apply squashes_member; [done|]. by apply IH.
Qed.

(** [parseSquash] on a printed array or object takes exactly that value. *)
Lemma parseSquash_bracket o c x r :
  o = "{"%char ∧ c = "}"%char ∨ o = "["%char ∧ c = "]"%char →
  squashes x → parseSquash (o :: x ++ c :: r) = (o :: x ++ [c], r).
Proof.
  intros Hoc Hx. unfold parseSquash. rewrite Hx.
  destruct Hoc as [[-> ->]|[-> ->]]; by cbn.
Qed.

Lemma span_all stop x r :
  Forall (λ d, stop d = false) x → delim r →
  (∀ c, c = ","%char ∨ c = "]"%char ∨ c = "}"%char → stop c = true) →
  span stop (x ++ r) = (x, r).
Proof.
  intros Hx Hr Hs. destruct r as [|c r].
  - rewrite app_nil_r. clear Hr. induction Hx as [|d x Hd Hx IH]; cbn; [done|]. by rewrite Hd, IH.
  - by apply span_app_stop; [|apply Hs].
Qed.

Lemma number_stop_char c : num_char c = true → number_stop c = false.
Proof.
  intros H%num_char_cases. unfold number_stop. rewrite (proj2 (Z.leb_gt _ _)) by lia.
  rewrite !ceq_neq; [done|..]; intros ->; revert H; clear; vm_compute; intuition congruence.
Qed.

Lemma number_start c l : number_ok (c :: l) →
  is_number_start c = true ∧ ceq c dq = false ∧ ceq c "{"%char = false ∧ ceq c "["%char = false.
Proof.
  intros [(c' & l' & [= -> ->] & Hc) _].
  assert (is_number_start c' = true) as Hs.
  { unfold is_number_start. destruct Hc as [->| ->]; [by rewrite orb_true_r|done]. }
  split; [done|]. split_and!; apply ceq_neq; intros ->; discriminate.
Qed.

(** The scanner takes a printed value as it is. *)
Lemma scan_value_print v r :
  wf_json v → delim r → ∃ res, scan_value (print v ++ r) = Some (res, r) ∧ Raw res = print v.
Proof.
  intros Hw Hr.
  assert (∀ c x, is_literal_start c = true → is_number_start c = false → flat c = true →
    Forall (λ d, literal_stop d = false) x →
    scan_value ((c :: x) ++ r) = Some (mkResult (literal_type c) (c :: x) [], r)) as Hlit.
  { intros c x Hc Hn Hf Hx. unfold flat in Hf. apply negb_true_iff in Hf.
    repeat (apply orb_false_iff in Hf as [Hf ?]). cbn [app scan_value].
    repeat match goal with H : _ = false |- _ => rewrite H end. cbn [orb].
    unfold parseLiteral. rewrite span_all; [done|done|done|]. by intros ? [->|[->| ->]]. }
  destruct Hw as [|b|t Hn|s Hs|l Hl|l Hl]; cbn [print].
  - eexists. split; [apply Hlit; by repeat constructor|done].
  - destruct b; (eexists; split; [apply Hlit; by repeat constructor|done]).
  - pose proof (number_ok_chars t Hn) as Hch. destruct t as [|c l]; [by destruct Hn as [(?&?&?&_) _]|].
    destruct (number_start c l Hn) as (Hs & Hq & Hb & Hk). cbn [app scan_value].
    rewrite Hq, Hb, Hk, Hs. cbn [orb]. unfold parseNumber. rewrite span_all; [by eexists| |done|].
    + apply Forall_inv_tail in Hch. revert Hch. apply Forall_impl. intros d. apply number_stop_char.
    + by intros ? [->|[->| ->]].
  - unfold json_string. cbn [app]. rewrite <-app_assoc. cbn [app scan_value]. rewrite ceq_refl.
    unfold parseString. rewrite scan_quoted_run by by apply enc_body_run. by eexists.
  - cbn [app scan_value]. rewrite <-app_assoc. cbn [app]. cbn -[parseSquash json_string].
    rewrite parseSquash_bracket; [by eexists|by right|].
    apply squashes_join, Forall_map. revert Hl. apply Forall_impl. intros x. apply squashes_print.
  - cbn [app scan_value]. rewrite <-app_assoc. cbn [app]. cbn -[parseSquash json_string].
    rewrite parseSquash_bracket; [by eexists|by left|].
    apply squashes_join, Forall_map. revert Hl. apply Forall_impl. intros x [Hk Hv].
    by apply squashes_member; [|apply squashes_print].
Qed.

(** Keys whose printed form is the key between quotes. *)
Definition plain_key (k : bytes) : Prop := Forall (λ c, html_safe (zob c) = true) k.

Lemma html_safe_form c s : html_safe (zob c) = true →
  zob c < 128 ∧ c ≠ dq ∧ c ≠ backslash ∧ rune_form (c :: s) (zob c) 1.
Proof.
  unfold html_safe. intros [Hr Hn]%andb_true_iff. range_bool.
  repeat match goal with H : _ || _ = false |- _ => apply orb_false_iff in H as [? ?] end.
  repeat match goal with H : (_ =? _) = false |- _ => apply Z.eqb_neq in H end.
  split_and!; [lia|by intros ->|by intros ->|constructor; lia].
Qed.

Lemma enc_body_plain k n : plain_key k → (length k ≤ n)%nat → enc_body n k = k.
Proof.
  intros H. revert n. induction H as [|c k Hc Hk IH]; intros [|n] Hn; cbn in Hn; try done; [lia|].
  cbn [enc_body enc_step]. destruct (html_safe_form c k Hc) as (Hlt & _).
  rewrite (proj2 (Z.ltb_lt _ _)) by done. rewrite Hc. cbn [app drop]. rewrite drop_0. by rewrite IH by lia.
Qed.

Lemma plain_key_utf8 k : plain_key k → utf8_valid k.
Proof.
  induction 1 as [|c k Hc Hk IH]; [constructor|]. apply utf8_valid_ascii; [|done].
  by apply (html_safe_form c k).
Qed.

Lemma plain_key_scan k r : plain_key k → parseString (k ++ dq :: r) = Some (k, false, r).
Proof.
  intros Hk. unfold parseString. rewrite scan_quoted_run.
  - rewrite bool_decide_false; [done|]. intros Hin. unfold plain_key in Hk. rewrite List.Forall_forall in Hk.
    apply list_elem_of_In, Hk in Hin. done.
  - rewrite <-(enc_body_plain k (length k)) by done. by apply enc_body_run, plain_key_utf8.
Qed.

(** Looking [k] up in printed members: passing over one that has another key. *)
Definition member_text (kv : bytes * json) : bytes :=
  json_string kv.1 ++ ":"%char :: print kv.2.

Lemma value_start_print v r : wf_json v → snd (span value_start (":"%char :: print v ++ r)) = print v ++ r.
Proof.
  intros Hw. cbn [span]. change (value_start ":"%char) with false. cbn iota.
  assert (∃ c t, print v = c :: t ∧ value_start c = true) as (c & t & -> & Hc).
  { destruct Hw as [|b|t Hn|s Hs|l Hl|l Hl]; cbn [print]; try (by eexists _, _).
    - destruct b; by eexists _, _.
    - destruct t as [|c l]; [by destruct Hn as [(?&?&?&_) _]|]. exists c, l. split; [done|].
      unfold value_start. rewrite (proj1 (number_start c l Hn)). by rewrite !orb_true_r. }
  cbn [app span]. by rewrite Hc.
Qed.

(** The parser at a printed member: its key is read and its value is next. *)
Lemma parseObject_at f part parts k v r :
  plain_key k → wf_json v →
  parseObject (S f) (part :: parts) (member_text (k, v) ++ r) =
  let hit := bool_decide (part = k) && bool_decide (parts = []) in
  match print v ++ r with
  | [] => Miss []
  | c :: s3 =>
      if ceq c "{"%char && bool_decide (part = k) && negb hit then
        match parseObject f parts s3 with Hit x => Hit x | Miss r' => parseObject f (part :: parts) r' end
      else if ceq c "["%char && bool_decide (part = k) && negb hit then parseObject f (part :: parts) (skip_array f s3)
      else match scan_value (print v ++ r) with
           | None => Miss []
           | Some (res, r') => if hit then Hit res else parseObject f (part :: parts) r'
           end
  end.
Proof.
  intros Hk Hw. unfold member_text, json_string. cbn [fst snd].
  rewrite enc_body_plain by done. cbn [app]. rewrite <-!app_assoc. cbn [app parseObject].
  cbn [span]. rewrite ceq_refl. cbn [orb snd]. change (ceq dq "}"%char) with false. cbn iota.
  rewrite plain_key_scan by done. unfold text_of. rewrite value_start_print by done.
  cbn [tail]. destruct parts; cbn [negb]; [rewrite (bool_decide_true ([] = [])) by done|rewrite (bool_decide_false (_ = [])) by done];
    by destruct (print v ++ r).
Qed.

Lemma parseObject_member f part k v r :
  plain_key k → wf_json v → delim r → r ≠ [] →
  ∃ res, Raw res = print v ∧
  parseObject (S f) [part] (member_text (k, v) ++ r) =
  if bool_decide (part = k) then Hit res else parseObject f [part] r.
Proof.
  intros Hk Hw Hr Hne. destruct (scan_value_print v r Hw Hr) as (res & Hs & Hraw).
  exists res. split; [done|]. rewrite parseObject_at by done. rewrite (bool_decide_true ([] = [])) by done.
  cbv zeta. rewrite andb_true_r, Hs. destruct (print v ++ r) as [|c s] eqn:E; [by destruct (print v), r|].
  destruct (bool_decide (part = k)); cbn [negb]; by rewrite !andb_false_r.
Qed.

(** Passing over a member with another key, whatever the rest of the path. *)
Lemma parseObject_pass f part parts k v r :
  plain_key k → wf_json v → delim r → r ≠ [] → part ≠ k →
  parseObject (S f) (part :: parts) (member_text (k, v) ++ r) = parseObject f (part :: parts) r.
Proof.
  intros Hk Hw Hr Hne Hpk. destruct (scan_value_print v r Hw Hr) as (res & Hs & _).
  rewrite parseObject_at, Hs, (bool_decide_false (part = k)) by done. cbv zeta. cbn [andb negb].
  destruct (print v ++ r) as [|c s] eqn:E; [by destruct (print v), r|]. by rewrite !andb_false_r.
Qed.

(** Following the path into an object. *)
Lemma parseObject_enter f part p2 parts l r :
  plain_key part → wf_json (JObj l) →
  parseObject (S f) (part :: p2 :: parts) (member_text (part, JObj l) ++ r) =
  match parseObject f (p2 :: parts) (Join (map member_text l) [","%char] ++ "}"%char :: r) with
  | Hit x => Hit x
  | Miss r' => parseObject f (part :: p2 :: parts) r'
  end.
Proof.
  intros Hk Hw. rewrite parseObject_at by done. rewrite (bool_decide_true (part = part)), (bool_decide_false (_ = [])) by done.
  cbn [print app]. rewrite <-app_assoc. cbn [app]. rewrite ceq_refl. done.
Qed.

(** The value at the end of the path. *)
Lemma parseObject_hit f k v r res :
  plain_key k → wf_json v → scan_value (print v ++ r) = Some (res, r) →
  parseObject (S f) [k] (member_text (k, v) ++ r) = Hit res.
Proof.
  intros Hk Hw Hs. rewrite parseObject_at, Hs by done. rewrite !bool_decide_true by done. cbn [andb negb].
  destruct (print v ++ r) as [|c s] eqn:E; [|by rewrite !andb_false_r].
  by destruct v; cbn in Hs; rewrite ?E in Hs.
Qed.

Lemma parseObject_comma f parts s : parseObject (S f) parts (","%char :: s) = parseObject (S f) parts s.
Proof. cbn [parseObject]. cbn [span]. cbn -[span parseObject]. by destruct (span _ s). Qed.

(** ** Lookup by a top-level key

    In the printed text of an object, [Get] returns the text of the value of the
    first member with that key. *)
Lemma Get_print pre k v post :
  Forall (λ kv, plain_key kv.1 ∧ kv.1 ≠ k ∧ wf_json kv.2) pre → plain_key k → wf_json v →
  "."%char ∉ k →
  ∃ res, Get (print (JObj (pre ++ (k, v) :: post))) k = res ∧ Raw res = print v.
Proof.
  intros Hpre Hk Hv Hdot. cbn [print]. unfold Get. cbn [app span]. rewrite ceq_refl. cbn [orb snd].
  rewrite ceq_refl. rewrite Split_absent by done.
  change (map _ (pre ++ (k, v) :: post)) with (map member_text (pre ++ (k, v) :: post)).
  assert (∀ post f, ∃ res, Raw res = print v ∧
    parseObject (S f) [k] (Join (map member_text ((k, v) :: post)) [","%char] ++ ["}"%char]) = Hit res) as Hlast.
  { clear post. intros post f. destruct post as [|p post].
    - destruct (parseObject_member f k k v ["}"%char] Hk Hv) as (res & Hr & E); [by right; right|done|].
      rewrite bool_decide_true in E by done. eauto.
    - cbn [map]. rewrite Join_cons, <-app_assoc. cbn [app].
      destruct (parseObject_member f k k v (","%char :: Join (map member_text (p :: post)) [","%char] ++ ["}"%char]) Hk Hv)
        as (res & Hr & E); [by left|done|].
      rewrite bool_decide_true in E by done. eauto. }
  match goal with |- context [parseObject (S ?n) _ _] => assert (length pre ≤ n)%nat as Hn end.
  { cbn [length]. rewrite length_app. rewrite map_app. cbn [length].
    assert (∀ l : list bytes, (length l ≤ S (length (Join l [","%char])))%nat) as HJ.
    { induction l as [|x [|y l] IH]; [cbn; lia..|]. rewrite Join_cons, !length_app. cbn in *. lia. }
    pose proof (HJ (map member_text pre ++ map member_text ((k, v) :: post))) as H1.
    rewrite length_app, !length_map in H1. cbn in *. lia. }
  match goal with |- context [parseObject (S ?n) _ _] => generalize dependent n end.
  intros n Hn.
  assert (∃ res, Raw res = print v ∧
    parseObject (S n) [k] (Join (map member_text (pre ++ (k, v) :: post)) [","%char] ++ ["}"%char]) = Hit res)
    as (res & Hr & ->); [|by exists res].
  revert n Hn. induction Hpre as [|[k' v'] pre (Hk' & Hne & Hv') Hpre IH]; intros n Hn; [apply Hlast|].
  cbn in Hn. destruct n as [|n]; [lia|]. destruct (IH n) as (res & Hr & E); [lia|].
  exists res. split; [done|]. cbn [app map].
  destruct (map member_text (pre ++ (k, v) :: post)) as [|m ms] eqn:Em.
  { destruct pre; discriminate. }
  rewrite Join_cons, <-app_assoc. cbn [app].
  destruct (parseObject_member (S n) k k' v' (","%char :: Join (m :: ms) [","%char] ++ ["}"%char]) Hk' Hv')
    as (res' & Hr' & E'); [by left|done|].
  rewrite E', bool_decide_false by done. by rewrite parseObject_comma.
Qed.
