(* ===== verification/Types.v ===== *)
(** * Types: [core/types], the protocol constants, packets and JIDs.

    [defines.go] and [packet.go]: the envelope, the packet with its cached raw
    text, their JSON forms, the packets the server generates, and the user
    identifiers [user@domain/resource] with the database keys made from them. *)

From S2P Require Import Prelude GoBytes Utf8 Json Gjson.

(** ** defines.go *)

Definition END_FLAG : ascii := "001"%char.
Definition HEART_BEAT : ascii := "002"%char.
Definition KILL : ascii := "003"%char.

Definition MSG_TYPE_OPEN_SESSION : Z := 0.
Definition MSG_TYPE_CHAT : Z := 1.
Definition MSG_TYPE_GROUP_CHAT : Z := 2.
Definition MSG_TYPE_STATE : Z := 3.
Definition MSG_TYPE_SYSTEM : Z := 4.

Definition FAIL_TIMEOUT : bytes := §"timeout".
Definition FAIL_TYPE : bytes := §"fail_type".
Definition FAIL_TOKEN : bytes := §"fail_token".
Definition FAIL_PARAM : bytes := §"fail_param".
Definition FAIL_PACKET : bytes := §"fail_packet".

Definition STATUS_CONN : bytes := §"conn".
Definition STATUS_LOGIN : bytes := §"login".
Definition STATUS_CLOSE : bytes := §"close".

Definition SESSION_PERFIX : bytes := §"session_".
Definition OFFLINE_PERFIX : bytes := §"offline_".

Definition ROUTER_QUEUE_SIZE : Z := 100000.
Definition ROUTER_WORKER_NUM : Z := 500.
Definition DATACHANNEL_QUEUE_SIZE : Z := 20000.
Definition DB_W_QUEUE_SIZE : Z := 20000.

(** ** Packets *)

Record Envelope := mkEnvelope {
  Id : bytes; Jid : bytes; From : bytes; To : bytes;
  Type__ : Z; Ack : Z; Ct : bytes; Pwd : bytes; Gid : bytes }.

Record Entity := mkEntity { Result__ : bytes; Reason : bytes }.

(** [Payload] is an [interface{}]: [None] is nil, [Some v] the tree [Marshal]
    writes for it. *)
Record BasePacket := mkBasePacket {
  Envelope_ : Envelope; Payload : option json; Entity_ : option Entity; Vsn : bytes }.

Record Delay := mkDelay { Total : Z; Packets : list BasePacket }.

Record Packet := mkPacket {
  base : BasePacket; Delay_ : option Delay; raw : option bytes }.

Definition envelope_of (p : Packet) : Envelope := Envelope_ (base p).

Definition empty_envelope : Envelope := mkEnvelope [] [] [] [] 0 0 [] [] [].
Definition empty_base : BasePacket := mkBasePacket empty_envelope None None [].

(** ** The JSON form of packets: struct tags with [omitempty] *)

Definition fld_str (name : bytes) (v : bytes) : list (bytes * json) :=
  match v with [] => [] | _ => [(name, JStr v)] end.
Definition fld_uint (name : bytes) (v : Z) : list (bytes * json) :=
  if v =? 0 then [] else [(name, JNum (fmt_u v))].

Definition envelope_json (e : Envelope) : json :=
  JObj ([(§"id", JStr (Id e))] ++ fld_str (§"jid") (Jid e) ++ fld_str (§"from") (From e)
        ++ fld_str (§"to") (To e) ++ [(§"type", JNum (fmt_u (Type__ e)))]
        ++ fld_uint (§"ack") (Ack e) ++ fld_str (§"ct") (Ct e) ++ fld_str (§"pwd") (Pwd e)
        ++ fld_str (§"gid") (Gid e)).

Definition entity_json (e : Entity) : json :=
  JObj (fld_str (§"result") (Result__ e) ++ fld_str (§"reason") (Reason e)).

Definition base_members (p : BasePacket) : list (bytes * json) :=
  [(§"envelope", envelope_json (Envelope_ p))]
  ++ match Payload p with None => [] | Some v => [(§"payload", v)] end
  ++ match Entity_ p with None => [] | Some e => [(§"entity", entity_json e)] end
  ++ fld_str (§"vsn") (Vsn p).

Definition delay_json (d : Delay) : json :=
  JObj ([(§"total", JNum (fmt_d (Total d)))]
        ++ match Packets d with
           | [] => []
           | l => [(§"packets", JArr (map (λ p, JObj (base_members p)) l))]
           end).

Definition packet_json (p : Packet) : json :=
  JObj (base_members (base p)
        ++ match Delay_ p with None => [] | Some d => [(§"delay", delay_json d)] end).

(** [Packet.ToJson]: the raw text when the packet was received, else [Marshal]. *)
Definition ToJson (p : Packet) : bytes :=
  match raw p with
  | Some r => r
  | None => print (packet_json p)
  end.

(** [Packet.AddDelay]. *)
Definition AddDelay (packets : list BasePacket) (p : Packet) : Packet :=
  let total := Z.of_nat (length packets) in
  mkPacket (base p)
    (Some (if 0 <? total then mkDelay total packets else mkDelay 0 [])) (raw p).

Definition EnvelopeIdFromToType (p : Packet) : bytes * bytes * bytes * Z :=
  let e := envelope_of p in (Id e, From e, To e, Type__ e).

(** ** Decoding *)

Definition envelope_names : list bytes :=
  [§"id"; §"jid"; §"from"; §"to"; §"type"; §"ack"; §"ct"; §"pwd"; §"gid"].

Definition set_envelope (n : bytes) (v : json) (e : Envelope) : dec Envelope :=
  let '(mkEnvelope id jid from to ty ack ct pwd gid) := e in
  if decide (n = §"id") then let '(x, er) := set_string v id in (mkEnvelope x jid from to ty ack ct pwd gid, er)
  else if decide (n = §"jid") then let '(x, er) := set_string v jid in (mkEnvelope id x from to ty ack ct pwd gid, er)
  else if decide (n = §"from") then let '(x, er) := set_string v from in (mkEnvelope id jid x to ty ack ct pwd gid, er)
  else if decide (n = §"to") then let '(x, er) := set_string v to in (mkEnvelope id jid from x ty ack ct pwd gid, er)
  else if decide (n = §"type") then let '(x, er) := set_uint v ty in (mkEnvelope id jid from to x ack ct pwd gid, er)
  else if decide (n = §"ack") then let '(x, er) := set_uint v ack in (mkEnvelope id jid from to ty x ct pwd gid, er)
  else if decide (n = §"ct") then let '(x, er) := set_string v ct in (mkEnvelope id jid from to ty ack x pwd gid, er)
  else if decide (n = §"pwd") then let '(x, er) := set_string v pwd in (mkEnvelope id jid from to ty ack ct x gid, er)
  else let '(x, er) := set_string v gid in (mkEnvelope id jid from to ty ack ct pwd x, er).

Definition set_entity (n : bytes) (v : json) (e : Entity) : dec Entity :=
  let '(mkEntity r s) := e in
  if decide (n = §"result") then let '(x, er) := set_string v r in (mkEntity x s, er)
  else let '(x, er) := set_string v s in (mkEntity r x, er).

Section Decoding.
Context `{GoLib}.

Definition base_names : list bytes := [§"envelope"; §"payload"; §"entity"; §"vsn"].

Definition set_base (n : bytes) (v : json) (p : BasePacket) : dec BasePacket :=
  let '(mkBasePacket env pay ent vsn) := p in
  if decide (n = §"envelope") then
    let '(x, er) := dec_struct envelope_names set_envelope v env in (mkBasePacket x pay ent vsn, er)
  else if decide (n = §"payload") then
    match v with
    | JNull => dec_ok (mkBasePacket env None ent vsn)
    | _ => match iface v with
           | Some w => dec_ok (mkBasePacket env (Some w) ent vsn)
           | None => dec_err (mkBasePacket env None ent vsn)
           end
    end
  else if decide (n = §"entity") then
    match v with
    | JNull => dec_ok (mkBasePacket env pay None vsn)
    | _ => let '(x, er) := dec_struct [§"result"; §"reason"] set_entity v (default (mkEntity [] []) ent) in
           (mkBasePacket env pay (Some x) vsn, er)
    end
  else let '(x, er) := set_string v vsn in (mkBasePacket env pay ent x, er).

(** [NewBasePacket]: [None] stands for a non-nil error. *)
Definition NewBasePacket (jsonData : bytes) : option BasePacket :=
  let '(p, er) := unmarshal base_names set_base jsonData empty_base in
  if er : bool then None else Some p.

(** [NewPacket]: the envelope is decoded, the rest of the text kept as it is. *)
Definition NewPacket (jsonData : bytes) : result Packet :=
  let r := Get jsonData (§"envelope") in
  if negb (Exists r) then ERR (§"error_packet")
  else
    let '(e, er) := unmarshal envelope_names set_envelope (Raw r) empty_envelope in
    if er : bool then ERR (json_error (Raw r))
    else OK (mkPacket (mkBasePacket e None None []) None (Some jsonData)).
End Decoding.

(** ** Packets the server makes *)

Definition newPacketWithEntity (id result_ reason : bytes) (msgtype : Z) : Packet :=
  mkPacket (mkBasePacket (mkEnvelope id [] [] [] msgtype 0 [] [] []) None
              (Some (mkEntity result_ reason)) []) None None.

Definition NewPacketSysNotify (id msg : bytes) : Packet :=
  newPacketWithEntity id (§"sys_notify") msg MSG_TYPE_SYSTEM.
Definition NewPacketAuthFail (id msg : bytes) : Packet :=
  newPacketWithEntity id (§"error") msg MSG_TYPE_OPEN_SESSION.
Definition NewPacketAuthSuccess (id : bytes) : Packet :=
  newPacketWithEntity id (§"ok") [] MSG_TYPE_OPEN_SESSION.

(** [now] is what [utils.Timestamp13()] returns. *)
Definition NewPacketAck (now : Z) (id : bytes) : Packet :=
  mkPacket (mkBasePacket (mkEnvelope id [] [] [] MSG_TYPE_STATE 0 (fmt_d now) [] []) None None []) None None.

(** ** JIDs *)

Record JID := mkJID { user : bytes; domain : bytes; resource : bytes }.

Definition NewJID (str : bytes) : result JID :=
  match Split str "@"%char with
  | u :: d :: _ =>
      let arr2 := Split d "/"%char in
      OK (mkJID u (hd [] arr2) (match arr2 with [_; r] => r | _ => [] end))
  | _ => ERR (§"fail format of jid :" ++ str)
  end.

(** The getters of a JID that are not the fields themselves. *)
Definition GetDomain (j : JID) : bytes := domain j.
Definition GetResource (j : JID) : bytes := resource j.

Definition NewJIDByUidDomain (uid dom : bytes) : result JID := NewJID (uid ++ §"@" ++ dom).

Definition StringWithoutResource (j : JID) : bytes := user j ++ §"@" ++ domain j.
Definition ToSessionid (j : JID) : bytes := SESSION_PERFIX ++ StringWithoutResource j.
Definition ToOfflineKey (j : JID) : bytes := OFFLINE_PERFIX ++ StringWithoutResource j.
Definition JID_String (j : JID) : bytes :=
  match resource j with
  | [] => user j ++ §"@" ++ domain j
  | _ => user j ++ §"@" ++ domain j ++ §"/" ++ resource j
  end.
Definition JID_Equal (j : JID) (s : bytes) : bool := bool_decide (JID_String j = s).

(** The panic of a method call through a nil pointer. *)
Definition nil_deref : bytes := §"runtime error: invalid memory address or nil pointer dereference".

(** [j, _ := NewJID(s)]: the pointer is nil when [s] is malformed. *)
Definition NewJID_ (s : bytes) : option JID :=
  match NewJID s with inr j => Some j | inl _ => None end.

(** Calling a method on a [*JID]. *)
Definition deref {S A} (o : option A) : M S A :=
  match o with Some a => ret a | None => panic nil_deref end.

(** [EqualWithoutResource]: the argument is parsed, its error is dropped, and the
    nil pointer is dereferenced when it is malformed. *)
Definition EqualWithoutResource (self : JID) (j : bytes) : outcome bool :=
  match NewJID_ j with
  | None => Panic nil_deref
  | Some jj => Ret (bool_decide (StringWithoutResource self = StringWithoutResource jj))
  end.

(** ** Lemmas on JIDs *)

(** The parts a parsed JID can have. *)
Definition wf_jid (j : JID) : Prop :=
  "@"%char ∉ user j ∧ "@"%char ∉ domain j ∧ "/"%char ∉ domain j ∧
  "@"%char ∉ resource j ∧ "/"%char ∉ resource j.

Lemma Split_cons s c : ∃ p ps, Split s c = p :: ps.
Proof. destruct (Split s c) as [|p ps] eqn:E; [by apply Split_not_nil in E|eauto]. Qed.

(** Pieces of a piece keep not containing the outer separator. *)
Lemma Split_sub s c d p : c ∉ s → p ∈ Split s d → c ∉ p.
Proof.
  revert p. induction s as [|x s IH]; cbn; intros p Hs Hp.
  - apply list_elem_of_singleton in Hp as ->. apply not_elem_of_nil.
  - apply not_elem_of_cons in Hs as [Hx Hs]. destruct (decide (x = d)) as [->|Hne].
    + apply elem_of_cons in Hp as [->|Hp]; [apply not_elem_of_nil|by apply IH].
    + destruct (Split_cons s d) as (q & qs & E). rewrite E in *.
      apply elem_of_cons in Hp as [->|Hp]; [|apply IH; set_solver].
      apply not_elem_of_cons. split; [done|]. apply IH; set_solver.
Qed.

Lemma NewJID_wf s j : NewJID s = OK j → wf_jid j.
Proof.
  unfold NewJID. destruct (Split s "@"%char) as [|u [|d rest]] eqn:E; try done.
  intros [= <-]. unfold wf_jid; cbn.
  assert ("@"%char ∉ u) by (apply (Split_pieces s); rewrite E; set_solver).
  assert ("@"%char ∉ d) as Hd by (apply (Split_pieces s); rewrite E; set_solver).
  assert (∀ p, p ∈ Split d "/"%char → "@"%char ∉ p ∧ "/"%char ∉ p) as Hp.
  { intros p Hp. split; [by apply (Split_sub d _ "/"%char)|by apply (Split_pieces d)]. }
  destruct (Split_cons d "/"%char) as (q & qs & Eq). rewrite Eq in *.
  destruct (Hp q) as [? ?]; [set_solver|]. cbn [hd].
  destruct qs as [|r [|? ?]]; split_and!; try done; try apply not_elem_of_nil; apply Hp; set_solver.
Qed.

(** A JID is accepted exactly when it contains an [@]. *)
Lemma NewJID_accepts s : (∃ j, NewJID s = OK j) ↔ "@"%char ∈ s.
Proof.
  unfold NewJID. split.
  - intros [j Hj]. destruct (decide ("@"%char ∈ s)) as [|Hn]; [done|].
    by rewrite Split_absent in Hj.
  - intros Hin. apply list_elem_of_split in Hin as (a & b & ->).
    destruct (decide ("@"%char ∈ a)) as [Ha|Ha].
    + apply list_elem_of_split_l in Ha as (a1 & a2 & -> & Ha1).
      rewrite <-app_assoc. cbn [app]. rewrite Split_app_sep by done.
      destruct (Split_cons (a2 ++ "@"%char :: b) "@"%char) as (q & qs & ->). eauto.
    + rewrite Split_app_sep by done. destruct (Split_cons b "@"%char) as (q & qs & ->). eauto.
Qed.

Lemma NewJID_parts u d r :
  wf_jid (mkJID u d r) → r ≠ [] → NewJID (u ++ §"@" ++ d ++ §"/" ++ r) = OK (mkJID u d r).
Proof.
  intros (Hu & Hd & Hd' & Hr & Hr') Hne. cbn in *. unfold NewJID.
  change (§"@") with ["@"%char]. change (§"/") with ["/"%char]. cbn [app].
  rewrite Split_app_sep by done. rewrite Split_absent.
  - rewrite Split_app_sep by done. by rewrite Split_absent.
  - set_solver.
Qed.

Lemma NewJID_bare u d :
  "@"%char ∉ u → "@"%char ∉ d → "/"%char ∉ d → NewJID (u ++ §"@" ++ d) = OK (mkJID u d []).
Proof.
  intros Hu Hd Hd'. unfold NewJID. change (§"@") with ["@"%char]. cbn [app].
  rewrite Split_app_sep by done. rewrite Split_absent by done. by rewrite Split_absent.
Qed.

Lemma NewJID_String j : wf_jid j → NewJID (JID_String j) = OK j.
Proof.
  destruct j as [u d r]. intros Hw. unfold JID_String. cbn. destruct r as [|c r].
  - destruct Hw as (? & ? & ? & _). by apply NewJID_bare.
  - by apply NewJID_parts.
Qed.

(** A separator that occurs on neither left side determines the split. *)
Lemma sep_inj (a1 a2 b1 b2 : bytes) c :
  c ∉ a1 → c ∉ a2 → a1 ++ c :: b1 = a2 ++ c :: b2 → a1 = a2 ∧ b1 = b2.
Proof.
  revert a2. induction a1 as [|x a1 IH]; intros [|y a2] H1 H2 E; cbn in E; simplify_eq.
  - done.
  - set_solver.
  - set_solver.
  - destruct (IH a2) as [-> ->]; [set_solver..|done|done].
Qed.

Lemma bare_inj j1 j2 :
  wf_jid j1 → wf_jid j2 → StringWithoutResource j1 = StringWithoutResource j2 →
  user j1 = user j2 ∧ domain j1 = domain j2.
Proof.
  intros (H1 & _) (H2 & _) E. unfold StringWithoutResource in E.
  change (§"@") with ["@"%char] in E. cbn [app] in E. by apply (sep_inj _ _ _ _ "@"%char).
Qed.

Lemma session_key_bare j1 j2 :
  ToSessionid j1 = ToSessionid j2 ↔ StringWithoutResource j1 = StringWithoutResource j2.
Proof.
  unfold ToSessionid. split; [|by intros ->]. by intros H%app_inv_head.
Qed.

Lemma EqualWithoutResource_parsed self s j :
  NewJID s = OK j →
  EqualWithoutResource self s = Ret (bool_decide (StringWithoutResource self = StringWithoutResource j)).
Proof. intros E. unfold EqualWithoutResource, NewJID_. by rewrite E. Qed.

(** ** Lemmas on the JSON form of envelopes *)

Definition wf_envelope (e : Envelope) : Prop :=
  utf8_valid (Id e) ∧ utf8_valid (Jid e) ∧ utf8_valid (From e) ∧ utf8_valid (To e) ∧
  in_uint64 (Type__ e) ∧ in_uint64 (Ack e) ∧ utf8_valid (Ct e) ∧ utf8_valid (Pwd e) ∧
  utf8_valid (Gid e).

Lemma dec_members_app {A} names (set : bytes → json → A → dec A) l1 l2 a :
  dec_members names set (l1 ++ l2) a =
  let '(a1, e1) := dec_members names set l1 a in
  let '(a2, e2) := dec_members names set l2 a1 in (a2, e1 || e2).
Proof.
  revert a. induction l1 as [|[k v] l1 IH]; intros a; cbn.
  - by destruct (dec_members names set l2 a).
  - destruct (match find_field names k with Some n => set n v a | None => dec_ok a end) as [a1 e1].
    rewrite IH. destruct (dec_members names set l1 a1) as [a2 e2].
    destruct (dec_members names set l2 a2) as [a3 e3]. by rewrite orb_assoc.
Qed.

Lemma dec_members_step {A} names (set : bytes → json → A → dec A) l1 l2 a a1 :
  dec_members names set l1 a = dec_ok a1 →
  dec_members names set (l1 ++ l2) a = dec_members names set l2 a1.
Proof. intros E. rewrite dec_members_app, E. cbn. by destruct (dec_members names set l2 a1). Qed.

Lemma wf_fld_str n v : utf8_valid n → utf8_valid v →
  Forall (λ kv, utf8_valid kv.1 ∧ wf_json kv.2) (fld_str n v).
Proof. intros. destruct v; cbn; repeat constructor; done. Qed.

Lemma wf_fld_uint n v : utf8_valid n → 0 ≤ v →
  Forall (λ kv, utf8_valid kv.1 ∧ wf_json kv.2) (fld_uint n v).
Proof.
  intros. unfold fld_uint. destruct (v =? 0); repeat constructor; [done|by apply number_ok_fmt_u..].
Qed.

Lemma lit_plain_ok s : utf8_check (length (lit s)) (lit s) = true → utf8_valid (lit s).
Proof. apply utf8_check_sound. Qed.

Lemma wf_member n v : utf8_valid n → wf_json v →
  Forall (λ kv, utf8_valid kv.1 ∧ wf_json kv.2) [(n, v)].
Proof. by repeat constructor. Qed.

Lemma envelope_json_wf e : wf_envelope e → wf_json (envelope_json e).
Proof.
  intros (H1 & H2 & H3 & H4 & H5 & H6 & H7 & H8 & H9). unfold in_uint64 in *. constructor.
  rewrite !Forall_app. split_and!; try (by apply wf_fld_str; [by apply lit_plain_ok|]).
  - apply wf_member; [by apply lit_plain_ok|by constructor].
  - apply wf_member; [by apply lit_plain_ok|]. constructor. apply number_ok_fmt_u; lia.
  - apply wf_fld_uint; [by apply lit_plain_ok|lia].
Qed.

(** Decoding one printed field into its slot. *)
Lemma dec_fld_str {A} names (set : bytes → json → A → dec A) n v a a' :
  find_field names n = Some n → (v = [] → a' = a) → set n (JStr v) a = dec_ok a' →
  dec_members names set (fld_str n v) a = dec_ok a'.
Proof.
  intros Hf He Hs. destruct v as [|c v]; cbn.
  - by rewrite He.
  - by rewrite Hf, Hs.
Qed.

Lemma dec_fld_uint {A} names (set : bytes → json → A → dec A) n v a a' :
  find_field names n = Some n → (v = 0 → a' = a) → set n (JNum (fmt_u v)) a = dec_ok a' →
  dec_members names set (fld_uint n v) a = dec_ok a'.
Proof.
  intros Hf He Hs. unfold fld_uint. destruct (Z.eqb_spec v 0); cbn [dec_members].
  - by rewrite He.
  - by rewrite Hf, Hs.
Qed.

Lemma set_uint_fmt v old : in_uint64 v → set_uint (JNum (fmt_u v)) old = dec_ok v.
Proof. intros H. unfold set_uint. by rewrite ParseUint_fmt. Qed.

(** Decodes the printed field with value [v], leaving [e] decoded so far. *)
Ltac dec_field v e :=
  rewrite (dec_members_step _ _ _ _ _ e) by (apply (dec_fld_str _ _ _ v); done || by intros ->).

Lemma envelope_decode e :
  wf_envelope e → dec_struct envelope_names set_envelope (envelope_json e) empty_envelope = dec_ok e.
Proof.
  destruct e as [id jid from to ty ack ct pwd gid].
  intros (_ & _ & _ & _ & H5 & H6 & _ & _ & _). cbn [dec_struct envelope_json Id Jid From To Type__ Ack Ct Pwd Gid].
  cbn in H5, H6. unfold empty_envelope.
  rewrite (dec_members_step _ _ _ _ _ (mkEnvelope id [] [] [] 0 0 [] [] [])) by done.
  dec_field jid (mkEnvelope id jid [] [] 0 0 [] [] []).
  dec_field from (mkEnvelope id jid from [] 0 0 [] [] []).
  dec_field to (mkEnvelope id jid from to 0 0 [] [] []).
  rewrite (dec_members_step _ _ _ _ _ (mkEnvelope id jid from to ty 0 [] [] [])).
  2:{ cbn [dec_members]. change (find_field envelope_names (§"type")) with (Some (§"type")).
      cbn iota beta. unfold set_envelope. rewrite (set_uint_fmt ty 0 H5). done. }
  rewrite (dec_members_step _ _ _ _ _ (mkEnvelope id jid from to ty ack [] [] [])).
  2:{ apply dec_fld_uint; [done|by intros ->|]. unfold set_envelope. by rewrite (set_uint_fmt ack 0 H6). }
  dec_field ct (mkEnvelope id jid from to ty ack ct [] []).
  dec_field pwd (mkEnvelope id jid from to ty ack ct pwd []).
  apply (dec_fld_str _ _ _ gid); done || by intros ->.
Qed.


(** ** Packets that cross nodes

    A packet the server made travels to another node as [ToJson] and is read
    there by [NewPacket]. *)
Lemma NewPacket_print `{GoLib} v post e :
  wf_json v → dec_struct envelope_names set_envelope v empty_envelope = dec_ok e →
  let text := print (JObj ((§"envelope", v) :: post)) in
  NewPacket text = OK (mkPacket (mkBasePacket e None None []) None (Some text)).
Proof.
  intros Hv He text. unfold NewPacket, text.
  destruct (Get_print [] (§"envelope") v post) as (res & E & Hraw); [constructor|by repeat constructor|done| |].
  - by vm_compute; intros H0; repeat (apply elem_of_cons in H0 as [H0|H0]; [discriminate|]); apply not_elem_of_nil in H0.
  - cbn [app] in E. rewrite E. unfold Exists. rewrite Hraw. destruct (print_head v Hv) as (c & t & Ep & _).
    rewrite (bool_decide_false (print v = [])) by by rewrite Ep. rewrite orb_true_r. cbn [negb].
    unfold unmarshal. by rewrite json_parse_print, He.
Qed.

Lemma NewPacket_ToJson `{GoLib} p :
  wf_envelope (envelope_of p) → raw p = None →
  NewPacket (ToJson p) =
  OK (mkPacket (mkBasePacket (envelope_of p) None None []) None (Some (ToJson p))).
Proof.
  intros He Hr. unfold ToJson. rewrite Hr. unfold packet_json, base_members. cbn [app].
  by apply NewPacket_print; [apply envelope_json_wf|apply envelope_decode].
Qed.

(** ** Properties *)

(** Printing a user id and parsing it gives the id back, and exactly the texts
    that contain an [@] are accepted, always as well formed ids. *)
Theorem jid_roundtrip j :
  wf_jid j →
  NewJID (JID_String j) = OK j ∧
  ∀ s, ((∃ j', NewJID s = OK j') ↔ "@"%char ∈ s) ∧ ∀ j', NewJID s = OK j' → wf_jid j'.
Proof.
  intros Hj. split; [by apply NewJID_String|]. intros s. split; [apply NewJID_accepts|apply NewJID_wf].
Qed.

(** The database keys made from user ids identify users: two parsed ids have the
    same session key exactly when user and domain agree, whatever their resources,
    and a session key is never an offline key. *)
Theorem session_keys_identify_users s1 s2 j1 j2 :
  NewJID s1 = OK j1 → NewJID s2 = OK j2 →
  (ToSessionid j1 = ToSessionid j2 ↔ user j1 = user j2 ∧ domain j1 = domain j2) ∧
  ToSessionid j1 ≠ ToOfflineKey j2.
Proof.
  intros H1 H2. apply NewJID_wf in H1, H2. split; [|done]. rewrite session_key_bare. split.
  - by apply bare_inj.
  - intros [Hu Hd]. unfold StringWithoutResource. by rewrite Hu, Hd.
Qed.

(** A packet the server made reads back, on the node that receives its text, with
    the same envelope, whatever else the packet carries; the text is kept unchanged. *)
Theorem packet_envelope_crosses_nodes `{GoLib} p :
  wf_envelope (envelope_of p) → raw p = None →
  ∃ q, NewPacket (ToJson p) = OK q ∧ envelope_of q = envelope_of p ∧ ToJson q = ToJson p.
Proof. intros He Hr. rewrite NewPacket_ToJson by done. by eexists. Qed.

(** ** The properties at concrete inputs *)

Definition ex_jid : JID := mkJID (§"bob") (§"d") (§"phone").

Lemma jid_roundtrip_witness :
  NewJID (JID_String ex_jid) = OK ex_jid ∧
  ∀ s, ((∃ j', NewJID s = OK j') ↔ "@"%char ∈ s) ∧ ∀ j', NewJID s = OK j' → wf_jid j'.
Proof.
  apply (jid_roundtrip ex_jid). split_and!; apply (bool_decide_unpack _); vm_compute; exact I.
Defined.

Lemma session_keys_identify_users_witness :
  (ToSessionid ex_jid = ToSessionid (mkJID (§"bob") (§"d") []) ↔
     user ex_jid = §"bob" ∧ domain ex_jid = §"d") ∧
  ToSessionid ex_jid ≠ ToOfflineKey (mkJID (§"bob") (§"d") []).
Proof. by apply (session_keys_identify_users (§"bob@d/phone") (§"bob@d") ex_jid (mkJID (§"bob") (§"d") [])). Defined.

#[local] Instance ex_lib : GoLib := {|
  fmt_float64 t := Some t; float_f t := t; float_int t := ParseInt_n t; float_nonzero _ := true;
  json_error t := t |}.

Lemma packet_envelope_crosses_nodes_witness :
  ∃ q, NewPacket (ToJson (NewPacketAck 1700000000000 (§"m1"))) = OK q ∧
    envelope_of q = envelope_of (NewPacketAck 1700000000000 (§"m1")) ∧
    ToJson q = ToJson (NewPacketAck 1700000000000 (§"m1")).
Proof.
  apply (packet_envelope_crosses_nodes (NewPacketAck 1700000000000 (§"m1"))); [|reflexivity].
  split_and!; first [apply (utf8_check_sound 20); vm_compute; reflexivity|split; vm_compute; congruence].
Defined.
