(* ===== verification/Wire.v ===== *)
(** * Wire: whole packets as a client reads them ([UnmarshalPacket] of [core/decoder.go]).

    [NewPacket] decodes only the envelope of a text; [NewBasePacket] and [UnmarshalPacket]
    decode all of it, the offline messages of an answer included. *)

From S2P Require Import Prelude GoBytes Utf8 Json Gjson Types.

(** A decoded [Delay]: the elements of [Packets] are pointers, nil for [null]. *)
Record WireDelay := mkWireDelay { wd_total : Z; wd_packets : list (option BasePacket) }.

(** A decoded [Packet]; its [raw] text stays nil. *)
Record WirePacket := mkWirePacket { wp_base : BasePacket; wp_delay : option WireDelay }.

Section Unmarshal.
Context `{GoLib}.

Definition set_packet_ptr (v : json) (old : option BasePacket) : dec (option BasePacket) :=
  match v with
  | JNull => dec_ok None
  | _ => let '(x, er) := dec_struct base_names set_base v (default empty_base old) in (Some x, er)
  end.

(** The elements of an array are decoded into those the slice already has. *)
Fixpoint set_packet_list (l : list json) (old : list (option BasePacket)) : dec (list (option BasePacket)) :=
  match l with
  | [] => dec_ok []
  | v :: l' =>
      let '(x, er) := set_packet_ptr v (default None (head old)) in
      let '(xs, ers) := set_packet_list l' (tail old) in
      (x :: xs, er || ers)
  end.

Definition delay_names : list bytes := [§"total"; §"packets"].

Definition set_delay (n : bytes) (v : json) (d : WireDelay) : dec WireDelay :=
  let '(mkWireDelay t l) := d in
  if decide (n = §"total") then let '(x, er) := set_int64 v t in (mkWireDelay x l, er)
  else
    match v with
    | JNull => dec_ok (mkWireDelay t [])
    | JArr vs => let '(x, er) := set_packet_list vs l in (mkWireDelay t x, er)
    | _ => dec_err d
    end.

Definition packet_names : list bytes := base_names ++ [§"delay"].

(** The fields of the embedded [BasePacket] are fields of [Packet]. *)
Definition set_packet (n : bytes) (v : json) (p : WirePacket) : dec WirePacket :=
  let '(mkWirePacket b d) := p in
  if decide (n = §"delay") then
    match v with
    | JNull => dec_ok (mkWirePacket b None)
    | _ => let '(x, er) := dec_struct delay_names set_delay v (default (mkWireDelay 0 []) d) in
           (mkWirePacket b (Some x), er)
    end
  else let '(x, er) := set_base n v b in (mkWirePacket x d, er).

(** [UnmarshalPacket], with whether the error is not nil. *)
Definition UnmarshalPacket (data : bytes) : dec WirePacket :=
  unmarshal packet_names set_packet data (mkWirePacket empty_base None).
End Unmarshal.

(** ** Packets that can be read back *)

Definition wf_entity (e : Entity) : Prop := utf8_valid (Result__ e) ∧ utf8_valid (Reason e).

Section WellFormed.
Context `{GoLib}.

(** A payload is what [Unmarshal] gives back for its own text. *)
Definition wf_payload (v : json) : Prop := wf_json v ∧ v ≠ JNull ∧ iface v = Some v.

Record wf_base (b : BasePacket) : Prop := {
  wb_envelope : wf_envelope (Envelope_ b);
  wb_payload : ∀ v, Payload b = Some v → wf_payload v;
  wb_entity : ∀ e, Entity_ b = Some e → wf_entity e;
  wb_vsn : utf8_valid (Vsn b) }.

Lemma entity_json_wf e : wf_entity e → wf_json (entity_json e).
Proof. intros [H1 H2]. constructor. apply Forall_app. split; apply wf_fld_str; done || by apply lit_plain_ok. Qed.

Lemma base_members_wf b : wf_base b → Forall (λ kv, utf8_valid kv.1 ∧ wf_json kv.2) (base_members b).
Proof.
  intros [He Hp Hn Hv]. unfold base_members. rewrite !Forall_app. split_and!.
  - apply wf_member; [by apply lit_plain_ok|by apply envelope_json_wf].
  - destruct (Payload b) as [v|]; [|constructor]. apply wf_member; [by apply lit_plain_ok|by apply Hp].
  - destruct (Entity_ b) as [e|]; [|constructor]. apply wf_member; [by apply lit_plain_ok|by apply entity_json_wf, Hn].
  - by apply wf_fld_str; [apply lit_plain_ok|].
Qed.

Lemma base_json_wf b : wf_base b → wf_json (JObj (base_members b)).
Proof. intros Hb. by constructor; apply base_members_wf. Qed.

Lemma entity_decode e :
  dec_struct [§"result"; §"reason"] set_entity (entity_json e) (mkEntity [] []) = dec_ok e.
Proof.
  destruct e as [r s]. cbn [dec_struct entity_json Result__ Reason].
  rewrite (dec_members_step _ _ _ _ _ (mkEntity r [])) by (apply dec_fld_str; done || by intros ->).
  apply dec_fld_str; done || by intros ->.
Qed.

Lemma base_decode b : wf_base b → dec_members base_names set_base (base_members b) empty_base = dec_ok b.
Proof.
  intros [He Hp Hn Hv]. destruct b as [env pay ent vsn]. unfold base_members, empty_base. cbn [Envelope_ Payload Entity_ Vsn] in *.
  rewrite (dec_members_step _ _ _ _ _ (mkBasePacket env None None [])).
  2:{ cbn [dec_members]. change (find_field base_names (§"envelope")) with (Some (§"envelope")). unfold set_base.
      rewrite decide_True by done. by rewrite envelope_decode. }
  rewrite (dec_members_step _ _ _ _ _ (mkBasePacket env pay None [])).
  2:{ destruct pay as [v|]; [|done]. destruct (Hp v eq_refl) as (_ & Hne & Hi). cbn [dec_members].
      change (find_field base_names (§"payload")) with (Some (§"payload")). unfold set_base.
      rewrite decide_False, decide_True by done. destruct v; by rewrite ?Hi. }
  rewrite (dec_members_step _ _ _ _ _ (mkBasePacket env pay ent [])).
  2:{ destruct ent as [e|]; [|done]. cbn [dec_members].
      change (find_field base_names (§"entity")) with (Some (§"entity")). unfold set_base.
      do 2 rewrite decide_False by done. rewrite decide_True by done. cbn [default].
      pose proof (entity_decode e) as Ee. unfold entity_json in *. cbn [from_option]. by rewrite Ee. }
  by apply dec_fld_str; [done|intros ->|].
Qed.

(** A stored text is read back as the packet that was stored. *)
Lemma NewBasePacket_print b : wf_base b → NewBasePacket (print (JObj (base_members b))) = Some b.
Proof.
  intros Hb. unfold NewBasePacket, unmarshal. rewrite json_parse_print by by apply base_json_wf.
  cbn [dec_struct]. by rewrite base_decode.
Qed.
End WellFormed.

Section RoundTrip.
Context `{GoLib}.

Definition wf_delay (d : Delay) : Prop := in_int64 (Total d) ∧ Forall wf_base (Packets d).

(** What a client sees of a packet. *)
Definition wire_delay (d : Delay) : WireDelay := mkWireDelay (Total d) (map Some (Packets d)).
Definition wire (p : Packet) : WirePacket := mkWirePacket (base p) (wire_delay <$> Delay_ p).

Lemma delay_json_wf d : wf_delay d → wf_json (delay_json d).
Proof.
  intros [_ Hl]. constructor. apply Forall_app. split.
  - apply wf_member; [by apply lit_plain_ok|]. constructor. apply number_ok_fmt_d.
  - destruct (Packets d) as [|b l]; [constructor|]. apply wf_member; [by apply lit_plain_ok|]. constructor.
    apply Forall_map. revert Hl. apply Forall_impl. intros x. apply base_json_wf.
Qed.

Lemma packets_decode l :
  Forall wf_base l → set_packet_list (map (λ p, JObj (base_members p)) l) [] = dec_ok (map Some l).
Proof.
  induction 1 as [|b l Hb _ IH]; [done|]. cbn [map set_packet_list head tail default]. unfold set_packet_ptr.
  cbn [from_option dec_struct]. rewrite base_decode by done. cbn [dec_ok]. by rewrite IH.
Qed.

Lemma delay_decode d :
  wf_delay d → dec_struct delay_names set_delay (delay_json d) (mkWireDelay 0 []) = dec_ok (wire_delay d).
Proof.
  intros [Ht Hl]. destruct d as [t l]. cbn [Total Packets] in *. cbn [dec_struct delay_json Total Packets].
  rewrite (dec_members_step _ _ _ _ _ (mkWireDelay t [])).
  2:{ cbn [dec_members]. change (find_field delay_names (§"total")) with (Some (§"total")). unfold set_delay.
      rewrite decide_True by done. unfold set_int64. by rewrite ParseInt_fmt. }
  destruct l as [|b l]; [done|]. cbn [dec_members].
  change (find_field delay_names (§"packets")) with (Some (§"packets")). unfold set_delay.
  rewrite decide_False by done. by rewrite packets_decode.
Qed.

(** The members of the embedded struct are decoded into it. *)
Lemma embedded_decode l a d :
  Forall (λ kv, find_field packet_names kv.1 = find_field base_names kv.1 ∧ find_field base_names kv.1 ≠ Some (§"delay")) l →
  dec_members packet_names set_packet l (mkWirePacket a d) =
  let '(a', e) := dec_members base_names set_base l a in (mkWirePacket a' d, e).
Proof.
  intros Hl. revert a. induction Hl as [|[k v] l [Hf Hd] _ IH]; intros a; [done|]. cbn [dec_members fst] in *. rewrite Hf.
  destruct (find_field base_names k) as [n|].
  - unfold set_packet at 1. rewrite decide_False by congruence. destruct (set_base n v a) as [a1 e1]. rewrite IH.
    by destruct (dec_members base_names set_base l a1).
  - cbn [dec_ok]. rewrite IH. by destruct (dec_members base_names set_base l a).
Qed.

Lemma base_members_names b :
  Forall (λ kv, find_field packet_names kv.1 = find_field base_names kv.1 ∧ find_field base_names kv.1 ≠ Some (§"delay")) (base_members b).
Proof.
  unfold base_members. rewrite !Forall_app. split_and!.
  - by repeat constructor.
  - destruct (Payload b); by repeat constructor.
  - destruct (Entity_ b); by repeat constructor.
  - destruct (Vsn b); by repeat constructor.
Qed.

(** C23: a packet the server made is read back whole: a client that decodes its text gets
    the same envelope, payload, entity and version and, of an answer to a login, the same
    offline messages in the same order, without an error. *)
Theorem packet_roundtrip p :
  wf_base (base p) → (∀ d, Delay_ p = Some d → wf_delay d) → raw p = None →
  UnmarshalPacket (ToJson p) = dec_ok (wire p).
Proof.
  intros Hb Hd Hr. unfold UnmarshalPacket, ToJson, unmarshal. rewrite Hr. rewrite json_parse_print.
  2:{ constructor. apply Forall_app. split; [by apply base_members_wf|]. destruct (Delay_ p) as [d|]; [|constructor].
      apply wf_member; [by apply lit_plain_ok|by apply delay_json_wf, Hd]. }
  cbn [dec_struct packet_json]. rewrite (dec_members_step _ _ _ _ _ (mkWirePacket (base p) None)).
  2:{ rewrite embedded_decode by apply base_members_names. by rewrite base_decode. }
  destruct p as [b [d|] r]; [|done]. cbn [Delay_ base dec_members] in *.
  change (find_field packet_names (§"delay")) with (Some (§"delay")). unfold set_packet.
  rewrite decide_True by done. cbn [default]. pose proof (delay_decode d (Hd d eq_refl)) as Ed.
  unfold delay_json in *. cbn [from_option]. by rewrite Ed.
Qed.
End RoundTrip.

(** ** An answer with an offline message *)

#[local] Instance wire_lib : GoLib := {|
  fmt_float64 t := Some t; float_f t := t; float_int t := ParseInt_n t; float_nonzero _ := true;
  json_error t := t |}.

Definition offline_base : BasePacket :=
  mkBasePacket (mkEnvelope (§"m1") [] (§"amy@d") (§"bob@d") MSG_TYPE_CHAT 1 (§"1700000000000") [] [])
    (Some (JObj [(§"content", JStr (§"hi <b>")); (§"n", JArr [JNum (§"1"); JBool true])])) None (§"0.0.1").
Definition login_answer : Packet := AddDelay [offline_base] (NewPacketAuthSuccess (§"1")).

Ltac text_ok := apply (utf8_check_sound 40); vm_compute; reflexivity.
Ltac envelope_ok := split_and!; first [text_ok|split; vm_compute; congruence].

Lemma offline_base_wf : wf_base offline_base.
Proof.
  split; [envelope_ok| |done|text_ok]. intros v [= <-]. split_and!; [|done|reflexivity].
  repeat first [apply (number_ok_fmt_u 1); lia|text_ok|constructor].
Qed.

Lemma packet_roundtrip_witness : UnmarshalPacket (ToJson login_answer) = dec_ok (wire login_answer).
Proof.
  apply (packet_roundtrip login_answer).
  - split; [envelope_ok|done| |text_ok]. intros e [= <-]. split; text_ok.
  - intros d [= <-]. split; [split; vm_compute; congruence|]. constructor; [exact offline_base_wf|constructor].
  - reflexivity.
Defined.
