(* ===== verification/Conn.v ===== *)
(** * Conn: [core/decoder.go], [core/conn_tcp.go], [core/conn_ws.go], [core/measure.go].

    The splitting of the TCP byte stream into packets at [END_FLAG], the receive
    loop that carries the unfinished packet from one read to the next and adapts
    its buffer, and the two ways of writing a packet.  The specification of the
    decoder is the list of non-empty pieces of the whole stream. *)

From S2P Require Import Prelude GoBytes Types.

(** ** DecodePacket *)

(** The loop over [dataList] when there is at least one [END_FLAG]: [i] is the
    index, [size] the last index. *)
Fixpoint decode_loop (part : bytes) (size : Z) (lastByte : ascii) (i : Z)
    (dataList : list bytes) (packets : list bytes) (new_part : bytes) : list bytes * bytes :=
  match dataList with
  | [] => (packets, new_part)
  | packet :: rest =>
      let continue_ := decode_loop part size lastByte (i + 1) rest in
      if 0 <? Z.of_nat (length packet) then
        if (i =? 0) && (0 <? Z.of_nat (length part)) then
          continue_ (packets ++ [part ++ packet]) new_part
        else if (i =? size) && negb (bool_decide (lastByte = END_FLAG)) then
          continue_ packets packet
        else continue_ (packets ++ [packet]) new_part
      else continue_ packets new_part
  end.

(** [DecodePacket(data, part)]: the packets and the new part (its error is always
    nil).  Everything from the first zero byte on is dropped. *)
Definition DecodePacket (data0 part : bytes) : list bytes * bytes :=
  let last_ := IndexByte data0 "000"%char in
  let data := if -1 <? last_ then take (Z.to_nat last_) data0 else data0 in
  match data with
  | [] => ([], part)
  | _ =>
      let dataList := Split data END_FLAG in
      let lastByte := List.last data "000"%char in
      let size := Z.of_nat (length dataList) - 1 in
      if 0 <? size then decode_loop part size lastByte 0 dataList [] []
      else
        let packet := hd [] dataList in
        let packet := if 0 <? Z.of_nat (length part) then part ++ packet else packet in
        if negb (bool_decide (lastByte = END_FLAG)) then ([], packet) else ([packet], [])
  end.

(** ** The TCP connection *)

Definition max_buf_len : Z := 4096.

(** [change_buff_len(&buff_len, n)]: the new buffer length. *)
Definition change_buff_len (buff_len n : Z) : Z :=
  if 2 <? n then
    let b := if n =? buff_len then buff_len + buff_len / 4
             else if n <? buff_len then buff_len - buff_len / 4
             else buff_len in
    if max_buf_len <? b then max_buf_len
    else if b <? n then n + n / 4
    else b
  else buff_len.

(** What a read hands to the packet handler. *)
Inductive ReadPacketResult := RPackets (packets : list bytes) | RErr (err : bytes).

(** The loop of [TcpSessionConn.recv] over the outcomes of [conn.Read]: the
    handler is called for an error, which ends the loop, and for every read that
    completes at least one packet.  Returns the calls, the part and the buffer
    length left, and the number of reads ([MeasureReadAdd]). *)
Fixpoint tcp_recv (reads : list (result bytes)) (part : bytes) (buff_len : Z) (measure : Z)
    : list ReadPacketResult * bytes * Z * Z :=
  match reads with
  | [] => ([], part, buff_len, measure)
  | inl e :: _ => ([RErr e], part, buff_len, measure + 1)
  | inr data :: reads' =>
      let '(packetList, newPart) := DecodePacket data part in
      let '(calls, p, b, m) :=
        tcp_recv reads' newPart (change_buff_len buff_len (Z.of_nat (length data))) (measure + 1) in
      ((if 0 <? Z.of_nat (length packetList) then [RPackets packetList] else []) ++ calls, p, b, m)
  end.

(** ** The websocket connection *)

(** The loop of [WsSessionConn.recv]: each non-empty message is one packet. *)
Fixpoint ws_recv (reads : list (result bytes)) : list ReadPacketResult :=
  match reads with
  | [] => []
  | inl e :: _ => [RErr e]
  | inr p :: reads' => (if 0 <? Z.of_nat (length p) then [RPackets [p]] else []) ++ ws_recv reads'
  end.

(** What [WsSessionConn.WritePacket] sends: the trailing flag is cut off and the
    two control bytes become printable. *)
Definition ws_frame (packet : bytes) : bytes :=
  let r := take (length packet - 1) packet in
  if decide (r = [HEART_BEAT]) then §"\02"
  else if decide (r = [KILL]) then §"\03"
  else r.

(** ** Specification of the framing *)

Definition nonempty (p : bytes) : bool := match p with [] => false | _ => true end.

(** The complete frames of a byte stream and its unfinished tail. *)
Definition frames (s : bytes) : list bytes * bytes :=
  let pieces := Split s END_FLAG in
  (List.filter nonempty (removelast pieces), List.last pieces []).

(** Decoding a stream cut into chunks. *)
Fixpoint decode_chunks (chunks : list bytes) (part : bytes) : list bytes * bytes :=
  match chunks with
  | [] => ([], part)
  | c :: cs =>
      let '(l, p) := DecodePacket c part in
      let '(ls, q) := decode_chunks cs p in (l ++ ls, q)
  end.

(** No chunk starts with the flag that ends an unfinished packet: [open_] says
    whether the bytes before it leave one. *)
Fixpoint cuts_ok (open_ : bool) (chunks : list bytes) : bool :=
  match chunks with
  | [] => true
  | c :: cs =>
      match c with
      | [] => cuts_ok open_ cs
      | x :: _ =>
          negb (open_ && bool_decide (x = END_FLAG)) &&
          cuts_ok (negb (bool_decide (List.last c "000"%char = END_FLAG))) cs
      end
  end.

(** ** Lemmas *)

Lemma pos_len {A} (l : list A) : 0 <? Z.of_nat (length l) = match l with [] => false | _ => true end.
Proof. destruct l; [done|]. cbn [length]. apply Z.ltb_lt. lia. Qed.

Lemma decode_loop_cons part size lb i p l acc np :
  decode_loop part size lb i (p :: l) acc np =
  if 0 <? Z.of_nat (length p) then
    if (i =? 0) && (0 <? Z.of_nat (length part)) then
      decode_loop part size lb (i + 1) l (acc ++ [part ++ p]) np
    else if (i =? size) && negb (bool_decide (lb = END_FLAG)) then
      decode_loop part size lb (i + 1) l acc p
    else decode_loop part size lb (i + 1) l (acc ++ [p]) np
  else decode_loop part size lb (i + 1) l acc np.
Proof. done. Qed.

(** The loop from index 1 on keeps the non-empty pieces and leaves the last one
    as the new part. *)
Lemma decode_loop_tail part size lb i l acc np :
  0 < i → l ≠ [] → size = i + Z.of_nat (length l) - 1 →
  (bool_decide (lb = END_FLAG) = true ↔ List.last l [] = []) → np = [] →
  decode_loop part size lb i l acc np =
  (acc ++ List.filter nonempty (removelast l), List.last l []).
Proof.
  revert i acc. induction l as [|p l IH]; intros i acc Hi Hne Hsz Hlb ->; [done|].
  cbn [decode_loop]. rewrite pos_len, (proj2 (Z.eqb_neq i 0)) by lia. cbn [andb].
  destruct l as [|q l].
  - cbn in Hsz. rewrite (proj2 (Z.eqb_eq i size)) by lia. cbn [andb decode_loop removelast List.last].
    cbn. rewrite app_nil_r. cbn in Hlb. destruct p as [|c p]; [done|].
    destruct (bool_decide (lb = END_FLAG)); [|done]. destruct Hlb as [Hlb _]. by specialize (Hlb eq_refl).
  - rewrite (proj2 (Z.eqb_neq i size)) by (cbn [length] in Hsz; lia). cbn [andb].
    assert (∀ acc, decode_loop part size lb (i + 1) (q :: l) acc [] =
      (acc ++ List.filter nonempty (removelast (q :: l)), List.last (q :: l) [])) as IH'.
    { intros acc'. apply IH; [lia|done|cbn [length] in *; lia|done|done]. }
    change (removelast (p :: q :: l)) with (p :: removelast (q :: l)).
    change (List.last (p :: q :: l) []) with (List.last (q :: l) []).
    destruct p as [|c p]; rewrite IH'; [done|]. cbn [List.filter nonempty]. by rewrite <-app_assoc.
Qed.

(** The last byte is a flag exactly when the last piece is empty. *)
Lemma Split_last s :
  s ≠ [] → bool_decide (List.last s "000"%char = END_FLAG) = true ↔ List.last (Split s END_FLAG) [] = [].
Proof.
  intros Hs. rewrite bool_decide_eq_true. induction s as [|x s IH]; [done|].
  destruct s as [|y s].
  - cbn. destruct (decide (x = END_FLAG)); [done|]. cbn. split; [done|]. intros; done.
  - change (List.last (x :: y :: s) "000"%char) with (List.last (y :: s) "000"%char).
    rewrite IH by done. destruct (Split_cons (y :: s) END_FLAG) as (q & qs & E).
    change (Split (x :: y :: s) END_FLAG) with
      (if decide (x = END_FLAG) then [] :: Split (y :: s) END_FLAG
       else match Split (y :: s) END_FLAG with [] => [[x]] | p :: ps => (x :: p) :: ps end).
    rewrite E. destruct (decide (x = END_FLAG)) as [->|Hx]; [done|].
    destruct qs as [|q' qs]; [|done]. cbn [List.last]. split; [|done].
    intros ->. exfalso. cbn in E. destruct (decide (y = END_FLAG)); [by destruct (Split_cons s END_FLAG) as (?&?&Es); rewrite Es in E|].
    by destruct (Split s END_FLAG).
Qed.

(** Putting a flag-free prefix in front extends the first piece. *)
Lemma Split_prefix part s :
  END_FLAG ∉ part →
  Split (part ++ s) END_FLAG =
  match Split s END_FLAG with [] => [part] | p :: ps => (part ++ p) :: ps end.
Proof.
  intros Hp. induction part as [|x part IH]; cbn.
  - destruct (Split_cons s END_FLAG) as (q & qs & ->). done.
  - apply not_elem_of_cons in Hp as [Hx Hp]. rewrite decide_False by done. rewrite IH by done.
    by destruct (Split_cons s END_FLAG) as (q & qs & ->).
Qed.

Lemma last_frames_flag s : END_FLAG ∉ (frames s).2.
Proof.
  unfold frames. cbn. destruct (Split_cons s END_FLAG) as (q & qs & E).
  apply (Split_pieces s). rewrite E.
  rewrite (app_removelast_last [] (l := q :: qs)) at 2 by done. set_solver.
Qed.

(** One call meets the specification unless the flag that ends the pending part
    is the first byte of the new data. *)
Lemma DecodePacket_frames data part :
  "000"%char ∉ data → END_FLAG ∉ part →
  (part = [] ∨ hd_error data ≠ Some END_FLAG) →
  DecodePacket data part = frames (part ++ data).
Proof.
  intros Hz Hp Hcut. unfold DecodePacket. rewrite IndexByte_absent by done.
  change (-1 <? -1) with false. cbn iota.
  destruct data as [|x data'] eqn:Ed.
  { rewrite app_nil_r. unfold frames. by rewrite Split_absent. }
  rewrite <-Ed in *. assert (data ≠ []) as Hne by (by rewrite Ed).
  destruct (Split_cons data END_FLAG) as (p & ps & E).
  pose proof (Split_last data Hne) as Hlast.
  unfold frames. rewrite Split_prefix by done. rewrite E in *. cbn [length hd].
  destruct ps as [|q qs].
  - cbn [length]. change (0 <? Z.of_nat 1 - 1) with false. cbn iota. rewrite pos_len.
    cbn [removelast List.last List.filter] in *.
    assert (p ≠ []) as Hpn.
    { intros ->. apply (f_equal (λ l, Join l [END_FLAG])) in E. rewrite Join_Split in E. by rewrite E in Hne. }
    destruct (bool_decide _); [by destruct Hlast as [Hl _]; specialize (Hl eq_refl)|].
    cbn [negb]. by destruct part.
  - rewrite (proj2 (Z.ltb_lt _ _)) by (cbn [length]; lia).
    assert (p ≠ [] ∨ part = []) as Hor.
    { destruct Hcut as [->|Hc]; [by right|]. left. intros ->. rewrite Ed in E, Hc. cbn in E, Hc.
      destruct (decide (x = END_FLAG)) as [->|]; [done|]. by destruct (Split data' END_FLAG). }
    change (List.last ((part ++ p) :: q :: qs) []) with (List.last (q :: qs) []).
    change (List.last (p :: q :: qs) []) with (List.last (q :: qs) []) in Hlast.
    change (removelast ((part ++ p) :: q :: qs)) with ((part ++ p) :: removelast (q :: qs)).
    assert (∀ acc, decode_loop part (Z.of_nat (S (length (q :: qs))) - 1) (List.last data "000"%char) (0 + 1)
              (q :: qs) acc [] = (acc ++ List.filter nonempty (removelast (q :: qs)), List.last (q :: qs) []))
      as Htl by (intros acc; apply decode_loop_tail; [lia|done|cbn [length]; lia|done|done]).
    rewrite decode_loop_cons, !pos_len. change (0 =? 0) with true. cbn [andb].
    rewrite (proj2 (Z.eqb_neq 0 _)) by (cbn [length]; lia). cbn [andb].
    destruct p as [|c p], part as [|d part]; rewrite ?Htl; cbn [app List.filter nonempty]; try done.
    destruct Hor as [Hor|Hor]; [by destruct Hor|done].
Qed.

(** After a call the pending part holds no flag. *)
Lemma DecodePacket_part data part :
  "000"%char ∉ data → END_FLAG ∉ part → (part = [] ∨ hd_error data ≠ Some END_FLAG) →
  END_FLAG ∉ (DecodePacket data part).2.
Proof. intros. rewrite DecodePacket_frames by done. apply last_frames_flag. Qed.

(** Splitting a stream continues from the last piece of its beginning. *)
Lemma Split_app s t :
  Split (s ++ t) END_FLAG =
  removelast (Split s END_FLAG) ++ Split (List.last (Split s END_FLAG) [] ++ t) END_FLAG.
Proof.
  induction s as [|x s IH]; [done|]. cbn [app Split].
  destruct (Split_cons s END_FLAG) as (q & qs & E). rewrite E in *.
  destruct (decide (x = END_FLAG)) as [->|Hx].
  - change (removelast ([] :: q :: qs)) with ([] :: removelast (q :: qs)).
    change (List.last ([] :: q :: qs) []) with (List.last (q :: qs) []). cbn [app]. by rewrite IH.
  - rewrite IH. destruct qs as [|q' qs].
    + cbn. by rewrite decide_False.
    + done.
Qed.

Lemma frames_app s t :
  frames (s ++ t) = ((frames s).1 ++ (frames ((frames s).2 ++ t)).1, (frames ((frames s).2 ++ t)).2).
Proof.
  unfold frames at 1. rewrite Split_app. cbn [frames fst snd].
  rewrite removelast_app, filter_app by apply Split_not_nil. f_equal.
  destruct (Split_cons (List.last (Split s END_FLAG) [] ++ t) END_FLAG) as (q & qs & E).
  rewrite E. rewrite (app_removelast_last [] (l := q :: qs)) at 1 by done.
  by rewrite app_assoc, last_last.
Qed.

(** A tail is pending exactly when the last byte was not a flag. *)
Lemma frames_open part data :
  data ≠ [] →
  nonempty (frames (part ++ data)).2 = negb (bool_decide (List.last data "000"%char = END_FLAG)).
Proof.
  intros Hd. pose proof (Split_last (part ++ data)) as H.
  destruct data as [|x data'] using rev_ind; [done|]. clear IHdata'.
  rewrite app_assoc, last_last in H. rewrite last_last, app_assoc. unfold frames. cbn [snd].
  destruct H as [H1 H2]; [by destruct (part ++ data')|].
  destruct (bool_decide (x = END_FLAG)); cbn [negb].
  - by rewrite H1.
  - destruct (List.last _ []); [|done]. by discriminate H2.
Qed.

(** The chunked stream, from a pending part. *)
Lemma decode_chunks_frames chunks part :
  Forall (λ c, "000"%char ∉ c) chunks → END_FLAG ∉ part → cuts_ok (nonempty part) chunks = true →
  decode_chunks chunks part = frames (part ++ concat chunks).
Proof.
  intros Hz. revert part. induction Hz as [|c cs Hc Hz IH]; intros part Hp Hcut; cbn [decode_chunks concat].
  - rewrite app_nil_r. unfold frames. by rewrite Split_absent.
  - assert (part = [] ∨ hd_error c ≠ Some END_FLAG) as Hh.
    { cbn [cuts_ok] in Hcut. destruct c as [|x c]; [by right|].
      apply andb_true_iff in Hcut as [Hcut _]. destruct part; [by left|]. right. cbn in *.
      intros [= ->]. by rewrite bool_decide_true in Hcut. }
    pose proof (DecodePacket_part c part Hc Hp Hh) as Hp'.
    rewrite DecodePacket_frames in * by done. destruct (frames (part ++ c)) as [l p] eqn:E.
    rewrite IH; [|done|].
    + rewrite app_assoc, (frames_app (part ++ c)), E. cbn. by destruct (frames (p ++ concat cs)).
    + cbn [cuts_ok] in Hcut. destruct c as [|x c].
      * rewrite app_nil_r in E. unfold frames in E. rewrite Split_absent in E by done.
        injection E as <- <-. done.
      * apply andb_true_iff in Hcut as [_ Hcut].
        rewrite <-(frames_open part (x :: c)) in Hcut by done. by rewrite E in Hcut.
Qed.

(** The packets of all handler calls, in order. *)
Definition calls_packets (calls : list ReadPacketResult) : list bytes :=
  concat (map (λ r, match r with RPackets l => l | RErr _ => [] end) calls).

Lemma tcp_recv_chunks chunks part b m :
  let '(calls, p, _, _) := tcp_recv (map inr chunks) part b m in
  (calls_packets calls, p) = decode_chunks chunks part.
Proof.
  revert part b m. induction chunks as [|c cs IH]; intros part b m; cbn [map tcp_recv decode_chunks]; [done|].
  destruct (DecodePacket c part) as [l p] eqn:E.
  specialize (IH p (change_buff_len b (Z.of_nat (length c))) (m + 1)).
  destruct (tcp_recv (map inr cs) p _ _) as [[[calls q] b'] m'].
  destruct (decode_chunks cs p) as [ls q']. injection IH as <- <-.
  rewrite pos_len. destruct l as [|x l]; [done|]. cbn. by rewrite !app_nil_r || done.
Qed.

(** The largest buffer the resizing can reach; [max_buf_len] is not a bound. *)
Definition buf_bound : Z := 6825.

Lemma change_buff_len_range b n :
  3 ≤ b ≤ buf_bound → 0 ≤ n ≤ b → 3 ≤ change_buff_len b n ≤ buf_bound.
Proof.
  unfold buf_bound, change_buff_len, max_buf_len. intros Hb Hn.
  assert (4 * (b / 4) ≤ b < 4 * (b / 4) + 4) by (Z.to_euclidean_division_equations; lia).
  assert (4 * (n / 4) ≤ n < 4 * (n / 4) + 4) by (Z.to_euclidean_division_equations; lia).
  destruct (Z.ltb_spec 2 n); [|lia].
  destruct (Z.eqb_spec n b); [|destruct (Z.ltb_spec n b); [|lia]];
    match goal with |- context [4096 <? ?x] => destruct (Z.ltb_spec 4096 x) end; try lia;
    match goal with |- context [?x <? n] => destruct (Z.ltb_spec x n) end; lia.
Qed.

(** Reads that respect [conn.Read]'s contract: at most as many bytes as the buffer. *)
Fixpoint reads_fit (chunks : list bytes) (b : Z) : Prop :=
  match chunks with
  | [] => True
  | c :: cs => Z.of_nat (length c) ≤ b ∧ reads_fit cs (change_buff_len b (Z.of_nat (length c)))
  end.

(** ** Properties *)

(** What [DecodePacket] uses of a read: the bytes before the first zero byte. *)
Fixpoint before_nul (c : bytes) : bytes :=
  match c with
  | [] => []
  | x :: c' => if decide (x = "000"%char) then [] else x :: before_nul c'
  end.

Lemma before_nul_absent c : "000"%char ∉ before_nul c.
Proof.
  induction c as [|x c IH]; cbn; [apply not_elem_of_nil|]. case_decide; [apply not_elem_of_nil|].
  apply not_elem_of_cons. split; [by apply not_eq_sym|done].
Qed.

Lemma before_nul_app a b : "000"%char ∉ a → before_nul (a ++ b) = a ++ before_nul b.
Proof.
  induction a as [|x a IH]; intros Ha; [done|]. apply not_elem_of_cons in Ha as [Hx Ha]. cbn.
  rewrite decide_False by by apply not_eq_sym. by rewrite IH.
Qed.

Lemma before_nul_index c :
  before_nul c = if -1 <? IndexByte c "000"%char then take (Z.to_nat (IndexByte c "000"%char)) c else c.
Proof.
  destruct (IndexByte_spec c "000"%char) as [[-> Hn]|(a & b & -> & Ha & ->)].
  - pose proof (before_nul_app c [] Hn) as E. by rewrite !app_nil_r in E.
  - rewrite before_nul_app by done. destruct (Z.ltb_spec (-1) (Z.of_nat (length a))); [|lia].
    rewrite Nat2Z.id, take_app_length. cbn. by rewrite app_nil_r.
Qed.

Lemma DecodePacket_before_nul c part : DecodePacket c part = DecodePacket (before_nul c) part.
Proof.
  unfold DecodePacket. rewrite (IndexByte_absent (before_nul c)) by apply before_nul_absent.
  change (-1 <? -1) with false. cbn iota. by rewrite <-before_nul_index.
Qed.

Lemma decode_chunks_before_nul chunks part : decode_chunks chunks part = decode_chunks (map before_nul chunks) part.
Proof.
  revert part. induction chunks as [|c cs IH]; intros part; [done|]. cbn [map decode_chunks].
  rewrite DecodePacket_before_nul. destruct (DecodePacket (before_nul c) part) as [l p]. by rewrite IH.
Qed.

(** C10: the packets handed to the session over all reads of a TCP connection are exactly
    the non-empty frames of the stream, in order, and the pending part is its unfinished
    tail.  The stream is what the reads contain before their first zero byte (the rest of
    such a read is dropped), and it may be cut into reads in every way that does not
    separate a packet from its end flag. *)
Theorem tcp_stream_reassembled (chunks : list bytes) (b m : Z) :
  cuts_ok false (map before_nul chunks) = true →
  let '(calls, p, _, _) := tcp_recv (map inr chunks) [] b m in
  (calls_packets calls, p) = frames (concat (map before_nul chunks)).
Proof.
  intros Hc. pose proof (tcp_recv_chunks chunks [] b m) as H.
  destruct (tcp_recv _ _ _ _) as [[[calls p] b'] m']. rewrite H, decode_chunks_before_nul.
  apply (decode_chunks_frames (map before_nul chunks) []); [|apply not_elem_of_nil|done].
  apply Forall_map, list.Forall_true. apply before_nul_absent.
Qed.

(** A packet in two reads, and a read with a zero byte: [x] is dropped, [c] and [d] are one packet. *)
Lemma tcp_stream_reassembled_witness :
  let chunks := [§"aa"; §"bbb" ++ [END_FLAG; END_FLAG] ++ §"c" ++ ["000"%char] ++ §"x"; §"d" ++ [END_FLAG]] in
  let '(calls, p, _, _) := tcp_recv (map inr chunks) [] 1024 0 in
  (calls_packets calls, p) = ([§"aabbb"; §"cd"], []).
Proof.
  apply (tcp_stream_reassembled [§"aa"; §"bbb" ++ [END_FLAG; END_FLAG] ++ §"c" ++ ["000"%char] ++ §"x"; §"d" ++ [END_FLAG]] 1024 0).
  vm_compute. reflexivity.
Defined.

(** When the end flag of a pending packet arrives as the first byte of the
    next read, the pending bytes are dropped: the result does not depend on them. *)
Theorem decoder_drops_part_at_flag (part rest : bytes) :
  "000"%char ∉ rest →
  DecodePacket (END_FLAG :: rest) part = frames rest.
Proof.
  intros Hz. pose proof (Split_last (END_FLAG :: rest) ltac:(done)) as Hlast.
  unfold DecodePacket. rewrite IndexByte_absent by (apply not_elem_of_cons; done).
  change (-1 <? -1) with false. cbn iota.
  destruct (Split_cons rest END_FLAG) as (q & qs & E). unfold frames.
  change (Split (END_FLAG :: rest) END_FLAG) with ([] :: Split rest END_FLAG) in *. rewrite E in *.
  rewrite (proj2 (Z.ltb_lt 0 _)) by (cbn [length]; lia). rewrite decode_loop_cons.
  change (0 <? Z.of_nat (length (A:=ascii) [])) with false. cbn iota.
  rewrite decode_loop_tail; [done|lia|done|cbn [length]; lia|done|done].
Qed.

Lemma decoder_drops_part_at_flag_witness :
  DecodePacket (END_FLAG :: §"next") (§"unfinished") = frames (§"next") ∧
  decode_chunks [§"unfinished"; END_FLAG :: §"next"] [] ≠ frames (concat [§"unfinished"; END_FLAG :: §"next"]).
Proof.
  split.
  - apply (decoder_drops_part_at_flag (§"unfinished") (§"next")).
    apply (bool_decide_unpack _); vm_compute; exact I.
  - vm_compute. discriminate.
Defined.

(** C31: whatever the reads, the receive buffer never shrinks below 3 bytes nor
    grows beyond 6825 bytes, so every [Read] can make progress; the bound is
    reached, past the 4096 of [max_buf_len]. *)
Theorem tcp_buffer_bounded (chunks : list bytes) (part : bytes) (b m : Z) :
  3 ≤ b ≤ buf_bound → reads_fit chunks b →
  let '(_, _, b', _) := tcp_recv (map inr chunks) part b m in 3 ≤ b' ≤ buf_bound.
Proof.
  revert part b m. induction chunks as [|c cs IH]; intros part b m Hb Hf; cbn [map tcp_recv]; [done|].
  destruct (DecodePacket c part) as [l p]. destruct Hf as [Hc Hf].
  specialize (IH p (change_buff_len b (Z.of_nat (length c))) (m + 1)).
  destruct (tcp_recv (map inr cs) p _ _) as [[[calls q] b'] m'].
  apply IH; [|done]. apply change_buff_len_range; [done|lia].
Qed.

Lemma tcp_buffer_bounded_witness :
  let reads := [repeat "a"%char 1024; repeat "a"%char 3] in
  reads_fit reads 1024 ∧
  (let '(_, _, b', _) := tcp_recv (map inr reads) [] 1024 0 in 3 ≤ b' ≤ buf_bound) ∧
  change_buff_len (change_buff_len (change_buff_len max_buf_len 4095) 4369) 5460 = buf_bound.
Proof.
  split; [|split].
  - cbn [reads_fit]. rewrite !repeat_length. vm_compute. intuition discriminate.
  - apply (tcp_buffer_bounded [repeat "a"%char 1024; repeat "a"%char 3] [] 1024 0).
    + unfold buf_bound. lia.
    + cbn [reads_fit]. rewrite !repeat_length. vm_compute. intuition discriminate.
  - vm_compute. reflexivity.
Defined.
