(* ===== verification/Config.v ===== *)
(** * Config: [config/config.go], the process-wide configuration map.

    The map from names to a value and a default (both [interface{}]), its
    initialisation, setters and getters (a getter asserts the dynamic type of the
    value and panics when the assertion fails), and loading from the JSON file. *)

From S2P Require Import Prelude GoBytes Utf8 Json Gjson.

(** The dynamic values the map holds. *)
Inductive cval := VNil | VString (s : bytes) | VInt (z : Z) | VBool (b : bool).

Record ConfVo := mkConfVo { Key : bytes; Val : cval; Def : cval }.

Abbreviation confmap := (gmap bytes ConfVo).

Definition newConfVoKeyDef (key : bytes) (def : cval) : ConfVo := mkConfVo key VNil def.
Definition newConfVoKeyVal (key : bytes) (val : cval) : ConfVo := mkConfVo key val val.

Definition configs : list ConfVo :=
  [ newConfVoKeyDef (§"port") (VInt 4222);
    newConfVoKeyDef (§"wsport") (VInt 4224);
    newConfVoKeyDef (§"tlsport") (VInt 4333);
    newConfVoKeyDef (§"rpcport") (VInt 4280);
    newConfVoKeyDef (§"logfile") (VString (§"/tmp/sara.log"));
    newConfVoKeyDef (§"loglevel") (VInt 3);
    newConfVoKeyDef (§"dbaddr") (VString (§"localhost:6379"));
    newConfVoKeyDef (§"dbpool") (VInt 1000);
    newConfVoKeyDef (§"nodeaddr") (VString (§"localhost:4281"));
    newConfVoKeyDef (§"callback") (VString []);
    newConfVoKeyDef (§"dc") (VString (§"dc01")) ].

(** The package's [init]. *)
Definition init_conf : confmap := foldl (λ m c, <[Key c := c]> m) ∅ configs.

Definition SetString (k val : bytes) (conf : confmap) : confmap :=
  <[k := newConfVoKeyVal k (VString val)]> conf.
Definition SetInt (k : bytes) (val : Z) (conf : confmap) : confmap :=
  <[k := newConfVoKeyVal k (VInt val)]> conf.
Definition SetBool (k : bytes) (val : bool) (conf : confmap) : confmap :=
  <[k := newConfVoKeyVal k (VBool val)]> conf.

Definition bad_assertion : bytes := §"interface conversion".

Definition GetString (conf : confmap) (k def : bytes) : outcome bytes :=
  match conf !! k with
  | Some c => match Val c with VString s => Ret s | _ => Panic bad_assertion end
  | None => Ret def
  end.
Definition GetInt (conf : confmap) (k : bytes) (def : Z) : outcome Z :=
  match conf !! k with
  | Some c => match Val c with VInt z => Ret z | _ => Panic bad_assertion end
  | None => Ret def
  end.
Definition GetBool (conf : confmap) (k : bytes) (def : bool) : outcome bool :=
  match conf !! k with
  | Some c => match Val c with VBool b => Ret b | _ => Panic bad_assertion end
  | None => Ret def
  end.
Definition GetDef (conf : confmap) (k : bytes) : cval :=
  match conf !! k with Some c => Def c | None => VNil end.

Section Load.
Context `{GoLib}.

Inductive ckind := KString | KInt | KBool.

(** One block [if r := gjson.Get(j, k); r.Exists() { SetX(k, r.X()) }]. *)
Definition load_key (j : bytes) (kk : bytes * ckind) (conf : confmap) : confmap :=
  let '(k, kind) := kk in
  let r := Get j k in
  if Exists r then
    match kind with
    | KString => SetString k (String_ r) conf
    | KInt => SetInt k (Int_ r) conf
    | KBool => SetBool k (Bool_ r) conf
    end
  else conf.

(** The keys after [nodeid], in the order in which the source reads them. *)
Definition conf_keys : list (bytes * ckind) :=
  [ (§"port", KInt); (§"wsport", KInt); (§"tlsport", KInt); (§"wssport", KInt);
    (§"rpcport", KInt); (§"accesstoken", KString); (§"logfile", KString);
    (§"loglevel", KInt); (§"dbaddr", KString); (§"dbpool", KInt); (§"nodeaddr", KString);
    (§"callback", KString); (§"dc", KString); (§"certfile", KString); (§"keyfile", KString);
    (§"enable_auth", KBool); (§"enable_offline_callback", KBool); (§"enable_tcp", KBool);
    (§"enable_tls", KBool); (§"enable_ws", KBool); (§"enable_wss", KBool) ].

(** What a start of the program does next: go on with a configuration, or leave. *)
Inductive loaded := Loaded (conf : confmap) | Exit.

(** [LoadFromConf]: [file] is what [ioutil.ReadFile] returned ([None]: an error, on
    which nothing is loaded).  Without a node id the process exits. *)
Definition LoadFromConf (file : option bytes) (conf : confmap) : outcome loaded :=
  match file with
  | None => Ret (Loaded conf)
  | Some j =>
      let rest conf := Ret (Loaded (foldl (λ m kk, load_key j kk m) conf conf_keys)) in
      let r := Get j (§"nodeid") in
      if Exists r && negb (bool_decide (String_ r = [])) then
        rest (SetString (§"nodeid") (String_ r) conf)
      else
        match GetString conf (§"nodeid") [] with
        | Panic p => Panic p
        | Ret nid => if decide (nid = []) then Ret Exit else rest conf
        end
  end.

Definition Load (file : option bytes) (conf : confmap) : outcome loaded := LoadFromConf file conf.
End Load.

(** A JSON text written with single quotes for double ones. *)
Definition quoted (s : string) : bytes :=
  map (λ c, if decide (c = "'"%char) then dq else c) (lit s).

(** [Template], the file [sara setup] writes. *)
Definition Template : bytes := quoted "
{
    'port': 4222,
    'wsport': 4224,
    'tlsport': 4333,
    'wssport': 4334,
    'rpcport': 4280,
    'accesstoken':'http-rpc access token',
    'nodeid':'n01',
    'dbaddr': 'localhost:6379',
    'dbpool':100,
    'callback':'',
    'nodeaddr': 'localhost:4281',
    'logfile':'/tmp/sara.log',
    'loglevel':3,
    'dc':'dc01',
    'certfile':'/etc/sara/server.pem',
    'keyfile':'/etc/sara/server.key',
    'enable_tcp':true,
    'enable_tls':false,
    'enable_ws':true,
    'enable_wss':false,
    'enable_auth':false,
    'enable_offline_callback':false
}
".

(** ** Lemmas *)

Lemma GetString_Set k v conf def : GetString (SetString k v conf) k def = Ret v.
Proof. unfold GetString, SetString. by rewrite lookup_insert_eq. Qed.

Lemma GetString_none conf k def : conf !! k = None → GetString conf k def = Ret def.
Proof. unfold GetString. by intros ->. Qed.

(** The getter of each kind, as a value. *)
Definition typed_get (conf : confmap) (kk : bytes * ckind) : outcome cval :=
  let '(k, kind) := kk in
  match kind with
  | KString => match GetString conf k [] with Ret s => Ret (VString s) | Panic p => Panic p end
  | KInt => match GetInt conf k 0 with Ret z => Ret (VInt z) | Panic p => Panic p end
  | KBool => match GetBool conf k false with Ret b => Ret (VBool b) | Panic p => Panic p end
  end.

(** Loading a key leaves the others alone. *)
Lemma load_key_other `{GoLib} j kk conf k : kk.1 ≠ k → load_key j kk conf !! k = conf !! k.
Proof.
  destruct kk as [k' kind]. cbn. intros Hne. destruct (Exists _); [|done].
  destruct kind; unfold SetString, SetInt, SetBool; by rewrite lookup_insert_ne.
Qed.

Lemma load_keys_other `{GoLib} j ks conf k :
  k ∉ map fst ks → foldl (λ m kk, load_key j kk m) conf ks !! k = conf !! k.
Proof.
  revert conf. induction ks as [|kk ks IH]; intros conf Hk; cbn in *; [done|].
  apply not_elem_of_cons in Hk as [Hne Hk]. rewrite IH by done. by apply load_key_other.
Qed.

(** A key that is present in the file is typed after loading it. *)
Lemma load_key_typed `{GoLib} j kk conf :
  Exists (Get j kk.1) = true → ∃ v, typed_get (load_key j kk conf) kk = Ret v.
Proof.
  destruct kk as [k kind]. cbn. intros ->.
  destruct kind; unfold GetString, GetInt, GetBool, SetString, SetInt, SetBool;
    rewrite lookup_insert_eq; cbn; eauto.
Qed.

Lemma typed_get_lookup conf conf' kk : conf !! kk.1 = conf' !! kk.1 → typed_get conf kk = typed_get conf' kk.
Proof. destruct kk as [k []]; cbn; unfold GetString, GetInt, GetBool; by intros ->. Qed.

Lemma load_keys_typed `{GoLib} j ks conf kk :
  NoDup (map fst ks) → kk ∈ ks → Exists (Get j kk.1) = true →
  ∃ v, typed_get (foldl (λ m kk, load_key j kk m) conf ks) kk = Ret v.
Proof.
  revert conf. induction ks as [|kk' ks IH]; intros conf Hnd Hin He; cbn in *; [set_solver|].
  apply list.NoDup_cons in Hnd as [Hn Hnd]. apply elem_of_cons in Hin as [->|Hin].
  - destruct (load_key_typed j kk' conf He) as [v Hv]. exists v. rewrite <-Hv.
    apply typed_get_lookup. by apply load_keys_other.
  - by apply IH.
Qed.

(** ** Properties *)

(** The template, looked up by the source's JSON library. *)
Lemma template_nodeid :
  Get Template (§"nodeid") = mkResult GString (dq :: §"n01" ++ [dq]) (§"n01").
Proof. vm_compute. reflexivity. Qed.

Lemma template_keys : Forall (λ kk, Exists (Get Template kk.1) = true) conf_keys.
Proof. by repeat (constructor; [vm_compute; reflexivity|]). Qed.

Lemma conf_keys_nodup : NoDup (map fst conf_keys).
Proof. apply (bool_decide_unpack _). vm_compute. exact I. Qed.

Lemma nodeid_not_key : §"nodeid" ∉ map fst conf_keys.
Proof. apply (bool_decide_unpack _). vm_compute. exact I. Qed.

(** After the file [sara setup] writes has been loaded, every getter the program
    calls finds a value of the type it asserts, the node id included, so no
    configuration access panics. *)
Theorem template_configures_everything `{GoLib} :
  ∃ conf, LoadFromConf (Some Template) init_conf = Ret (Loaded conf) ∧
    GetString conf (§"nodeid") [] = Ret (§"n01") ∧
    ∀ kk, kk ∈ conf_keys → ∃ v, typed_get conf kk = Ret v.
Proof.
  unfold LoadFromConf. rewrite template_nodeid. eexists. split; [reflexivity|]. split.
  - unfold GetString. rewrite load_keys_other by apply nodeid_not_key.
    unfold SetString. by rewrite lookup_insert_eq.
  - intros kk Hkk. apply load_keys_typed; [apply conf_keys_nodup|done|].
    by apply (proj1 (list.Forall_forall _ _) template_keys).
Qed.

(** The defaults are registered under their own names, with no value. *)
Lemma init_conf_lookup : Forall (λ c, init_conf !! Key c = Some c ∧ Val c = VNil) configs.
Proof. by repeat (constructor; [vm_compute; split; reflexivity|]). Qed.

Lemma init_conf_nodeid : init_conf !! §"nodeid" = None.
Proof. vm_compute. reflexivity. Qed.

(** The defaults registered at start-up are not values: when the file leaves a
    registered key out, its getter panics instead of returning the caller's or the
    registered default. *)
Theorem missing_key_panics `{GoLib} (j : bytes) (conf : confmap) (c : ConfVo) (def : bytes) :
  LoadFromConf (Some j) init_conf = Ret (Loaded conf) →
  c ∈ configs → Exists (Get j (Key c)) = false → Key c ≠ §"nodeid" →
  GetString conf (Key c) def = Panic bad_assertion.
Proof.
  intros Hl Hc He Hn.
  destruct (proj1 (list.Forall_forall _ _) init_conf_lookup c Hc) as [Hi Hv].
  assert (∀ ks m, m !! Key c = Some c →
    foldl (λ m kk, load_key j kk m) m ks !! Key c = Some c) as Hfold.
  { induction ks as [|[k kind] ks IH]; intros m Hm; [done|]. apply IH.
    destruct (decide (k = Key c)) as [->|Hk].
    - unfold load_key. by rewrite He.
    - rewrite <-Hm. by apply (load_key_other j (k, kind)). }
  assert (conf !! Key c = Some c) as Hcf.
  { unfold LoadFromConf in Hl. destruct (Exists _ && _).
    - assert (∀ c1 c2, Ret (Loaded c1) = Ret (Loaded c2) → c1 = c2) as Hinj by congruence.
      apply Hinj in Hl. rewrite <-Hl. apply Hfold. unfold SetString. by rewrite lookup_insert_ne.
    - by rewrite (GetString_none _ _ _ init_conf_nodeid), decide_True in Hl. }
  unfold GetString. by rewrite Hcf, Hv.
Qed.

(** A file that leaves out the port. *)
Definition no_port_file : bytes := quoted "{'nodeid':'n01','dbaddr':'h:1'}".

(** A standard library in which every function that is not reached here is constant. *)
#[local] Instance dummy_lib : GoLib := {|
  fmt_float64 _ := None; float_f _ := []; float_int _ := 0; float_nonzero _ := false; json_error _ := [] |}.

Lemma missing_key_panics_witness :
  ∃ conf, LoadFromConf (Some no_port_file) init_conf = Ret (Loaded conf) ∧
    GetString conf (§"port") (§"4222") = Panic bad_assertion.
Proof.
  eexists. split; [reflexivity|].
  apply (missing_key_panics no_port_file _ (newConfVoKeyDef (§"port") (VInt 4222))).
  - reflexivity.
  - constructor.
  - vm_compute. reflexivity.
  - vm_compute. discriminate.
Defined.
