(* ===== verification/Flags.v ===== *)
(** * Flags: [utils/flags.go] and [config.LoadFromCtx], the command line.

    The flags of the program and of its benchmark command.  The defaults of most flags
    are type assertions on [config.GetDef], evaluated when the package is initialised:
    a wrong assertion panics before [main].  [cli.Context], the parsed command line of
    the third-party library, is its getters. *)

From S2P Require Import Prelude GoBytes Utf8 Json Gjson Config.

Inductive flag :=
| IntFlag (Name Usage : bytes) (Value : Z)
| StringFlag (Name Usage : bytes) (Value : bytes)
| BoolFlag (Name Usage : bytes).

Section Init.
Context (conf : confmap).

(** [config.GetDef(k).(int)] and [config.GetDef(k).(string)]. *)
Definition def_int (k : bytes) : outcome Z :=
  match GetDef conf k with VInt z => Ret z | _ => Panic bad_assertion end.
Definition def_string (k : bytes) : outcome bytes :=
  match GetDef conf k with VString s => Ret s | _ => Panic bad_assertion end.

Definition int_flag (name usage k : bytes) : outcome flag :=
  match def_int k with Ret z => Ret (IntFlag name usage z) | Panic p => Panic p end.
Definition string_flag (name usage k : bytes) : outcome flag :=
  match def_string k with Ret s => Ret (StringFlag name usage s) | Panic p => Panic p end.

Definition ListenPortFlag : outcome flag := int_flag (§"port") (§"Network listening port") (§"port").
Definition ListenWSPortFlag : outcome flag := int_flag (§"wsport") (§"Network listening websocket port") (§"wsport").
Definition ListenTLSPortFlag : outcome flag := int_flag (§"tlsport") (§"TODO:Network listening port") (§"tlsport").
Definition ListenRPCPortFlag : outcome flag := int_flag (§"rpcport") (§"Network listening http-rpc port") (§"rpcport").
Definition LogfileFlag : outcome flag := string_flag (§"logfile") (§"log file path") (§"logfile").
Definition LogLevelFlag : outcome flag := int_flag (§"loglevel") (§"0=errr, 1=warn, 2=info, 3=debug") (§"loglevel").
Definition DBAddrFlag : outcome flag := string_flag (§"dbaddr") (§"redis addr,format as ip:port ") (§"dbaddr").
Definition DBPoolFlag : outcome flag := int_flag (§"dbpool") (§"redis pool size") (§"dbpool").
Definition NodeaddrFlag : outcome flag :=
  string_flag (§"nodeaddr,n") (§"unique,use for node to node transport") (§"nodeaddr").
Definition DcFlag : outcome flag := string_flag (§"dc") (§"TODO:datacenter name; nodekey = dc:nodeaddr") (§"dc").
Definition CallbackFlag : outcome flag :=
  Ret (StringFlag (§"callback") (§"callbackurl,for auth、offline notify、fetch group users") []).
Definition DebugFlag : outcome flag :=
  Ret (BoolFlag (§"debug") (§"write 'pprof' info to /tmp/sara_cpu.out and /tmp/sara_mem.out")).
Definition ConfigFlag : outcome flag :=
  Ret (StringFlag (§"config,c") (§"set config path") (§"/etc/sara/conf.json")).
Definition NodeidFlag : outcome flag := Ret (StringFlag (§"nodeid") (§"unique and not empty") []).

(** The initialisers of the package's variables, in order. *)
Definition package_flags : list (outcome flag) :=
  [ ListenPortFlag; ListenWSPortFlag; ListenTLSPortFlag; ListenRPCPortFlag; LogfileFlag; LogLevelFlag;
    DBAddrFlag; DBPoolFlag; NodeaddrFlag; DcFlag; CallbackFlag; DebugFlag; ConfigFlag; NodeidFlag ].

(** The first panic of a list of initialisers, or their values. *)
Fixpoint init_all (l : list (outcome flag)) : outcome (list flag) :=
  match l with
  | [] => Ret []
  | o :: l' =>
      match o with
      | Panic p => Panic p
      | Ret f => match init_all l' with Ret fs => Ret (f :: fs) | Panic p => Panic p end
      end
  end.

(** [InitFlags]: all flags but two are commented out. *)
Definition InitFlags : outcome (list flag) := init_all [DebugFlag; ConfigFlag].
End Init.

(** The flags of the benchmark command. *)
Definition Total : flag := IntFlag (§"total,t") (§"execute 'ulimit -n' to fetch the max value") 1024.
Definition Laddr : flag := StringFlag (§"laddr,l") (§"source ip") [].
Definition Addr_ : flag := StringFlag (§"raddr,a") (§"target ip:port ") (§"localhost:4222").
Definition Ms : flag := IntFlag (§"messagesize,ms") (§"payload size, unit Byte,1KB==1024Byte;'0' is disable") 0.
Definition Mg : flag := IntFlag (§"messagegap,mg") (§"second") 5.
Definition HbType : flag := IntFlag (§"heartbeat,b") (§"second") 50.

Definition InitFlagsForTestOfMakeConn : list flag := [Total; Laddr; Addr_; HbType; Ms; Mg].

(** ** The context *)

Record Context_ := mkContext { GlobalInt : bytes → Z; GlobalString : bytes → bytes; GlobalBool : bytes → bool }.

(** [LoadFromCtx]. *)
Definition LoadFromCtx (ctx : Context_) (conf : confmap) : confmap :=
  let int k conf := SetInt k (GlobalInt ctx k) conf in
  let str k conf := SetString k (GlobalString ctx k) conf in
  str (§"nodeid") (str (§"dc") (str (§"callback") (str (§"nodeaddr") (int (§"dbpool") (str (§"dbaddr")
    (int (§"loglevel") (str (§"logfile") (int (§"rpcport") (int (§"tlsport") (int (§"wsport") (int (§"port") conf))))))))))).

(** The kind the getters of the program assert for the keys of [LoadFromCtx]. *)
Definition ctx_keys : list (bytes * ckind) :=
  [ (§"port", KInt); (§"wsport", KInt); (§"tlsport", KInt); (§"rpcport", KInt); (§"logfile", KString);
    (§"loglevel", KInt); (§"dbaddr", KString); (§"dbpool", KInt); (§"nodeaddr", KString); (§"callback", KString);
    (§"dc", KString); (§"nodeid", KString) ].

(** ** Properties *)

(** The name under which a flag is looked up: what comes before the comma. *)
Definition long_name (f : flag) : bytes :=
  let n := match f with IntFlag n _ _ | StringFlag n _ _ | BoolFlag n _ => n end in
  List.hd [] (Split n ","%char).

Definition flag_value (f : flag) : cval :=
  match f with IntFlag _ _ z => VInt z | StringFlag _ _ s => VString s | BoolFlag _ _ => VNil end.

#[local] Instance cval_eq_dec : EqDecision cval.
Proof. solve_decision. Defined.

(** The package initialises: on the registered configuration every type assertion
    in the initialisers of the flags holds, so the program does not panic before
    [main]; and every registered setting has a flag of its name whose default is the
    registered default. *)
Theorem package_flags_typed :
  ∃ fs, init_all (package_flags init_conf) = Ret fs ∧
    Forall (λ c, List.Exists (λ f, long_name f = Key c ∧ flag_value f = Def c) fs) configs.
Proof.
  destruct (init_all (package_flags init_conf)) as [fs|p] eqn:E; [|vm_compute in E; discriminate E].
  exists fs. split; [done|]. vm_compute in E. injection E as <-.
  apply (bool_decide_unpack _). vm_compute. exact I.
Qed.

(** Whatever the command line is, after [LoadFromCtx] the typed getter of each of its
    keys returns the value of the flag. *)
Theorem LoadFromCtx_typed ctx conf :
  Forall (λ kk, typed_get (LoadFromCtx ctx conf) kk =
    Ret match kk.2 with
        | KInt => VInt (GlobalInt ctx kk.1)
        | KString => VString (GlobalString ctx kk.1)
        | KBool => VBool (GlobalBool ctx kk.1)
        end) ctx_keys.
Proof.
  unfold LoadFromCtx, SetInt, SetString. cbv zeta.
  repeat (constructor; [unfold typed_get, GetString, GetInt, GetBool; cbn [fst snd];
    repeat first [rewrite lookup_insert_eq|rewrite lookup_insert_ne by discriminate]; reflexivity|]).
  constructor.
Qed.
