(* ===== verification/Redis.v ===== *)
(** * Redis: the interface to the redis service.

    The service itself is a parameter: a type of server states with the reply to
    each command.  [RedisLaws] states the documented behaviour of the commands the
    program sends, as agreement with the reference function [redis_spec] on an
    observable keyspace; replies that list the fields of a hash agree up to their
    order.  The accessors of the vendored client's replies ([radix.v2], [resp.go])
    are translated. *)

From S2P Require Import Prelude GoBytes.

(** ** Commands and replies *)

Inductive rcmd :=
| SET (k v : bytes)
| SETEX (k : bytes) (ex : Z) (v : bytes)
| GET (k : bytes)
| DEL (k : bytes)
| EXPIRE (k : bytes) (ex : Z)
| HSET (h f v : bytes)
| HDEL (h f : bytes)
| HKEYS (h : bytes)
| HVALS (h : bytes)
| HLEN (h : bytes).

#[global] Instance rcmd_eq_dec : EqDecision rcmd.
Proof. solve_decision. Defined.

(** A reply; [RespErr] carries the error of [Resp.Err] (io and application errors). *)
Inductive Resp :=
| RespStr (b : bytes)
| RespInt (i : Z)
| RespArray (l : list Resp)
| RespNil
| RespErr (e : bytes).

Definition Resp_Err (r : Resp) : option bytes :=
  match r with RespErr e => Some e | _ => None end.

Definition errBadType : bytes := §"wrong type".
Definition errNotInt : bytes := §"could not convert to int".
Definition errNotArray : bytes := §"could not convert to array".

Definition Resp_Bytes (r : Resp) : result bytes :=
  match r with
  | RespErr e => ERR e
  | RespStr b => OK b
  | _ => ERR errBadType
  end.

(** [Resp.Int64]; [Int] converts to [int], which is as wide. *)
Definition Resp_Int (r : Resp) : result Z :=
  match r with
  | RespErr e => ERR e
  | RespInt i => OK i
  | RespStr s => match ParseInt s with Some i => OK i | None => ERR (§"strconv.ParseInt: parsing") end
  | _ => ERR errNotInt
  end.

(** The loop of [ListBytes]: a nil element is a nil slice. *)
Fixpoint list_bytes (l : list Resp) : result (list bytes) :=
  match l with
  | [] => OK []
  | m :: l' =>
      match (match m with RespNil => OK [] | _ => Resp_Bytes m end) with
      | inl e => ERR e
      | inr b => match list_bytes l' with inl e => ERR e | inr bs => OK (b :: bs) end
      end
  end.

Definition Resp_ListBytes (r : Resp) : result (list bytes) :=
  match r with
  | RespErr e => ERR e
  | RespArray l => list_bytes l
  | _ => ERR errNotArray
  end.

(** ** The reference behaviour of the commands *)

Inductive rvalue := VStr (b : bytes) | VHash (h : gmap bytes bytes).

(** A key holds a value and, when it was set to expire, its time to live. *)
Record rentry := mkEntry { rval : rvalue; rttl : option Z }.

Abbreviation keyspace := (gmap bytes rentry).

Definition WRONGTYPE : bytes := §"WRONGTYPE Operation against a key holding the wrong kind of value".
Definition bad_expire : bytes := §"ERR invalid expire time".

(** The hash at a key: a missing key is an empty hash. *)
Definition hash_at (m : keyspace) (h : bytes) : result (gmap bytes bytes) :=
  match m !! h with
  | None => OK ∅
  | Some e => match rval e with VHash x => OK x | VStr _ => ERR WRONGTYPE end
  end.

(** Writing a hash back keeps the time to live; an empty hash is removed. *)
Definition put_hash (m : keyspace) (h : bytes) (x : gmap bytes bytes) : keyspace :=
  if decide (x = ∅) then delete h m
  else <[h := mkEntry (VHash x) (m !! h ≫= rttl)]> m.

Definition redis_spec (c : rcmd) (m : keyspace) : Resp * keyspace :=
  match c with
  | SET k v => (RespStr (§"OK"), <[k := mkEntry (VStr v) None]> m)
  | SETEX k ex v =>
      if 0 <? ex then (RespStr (§"OK"), <[k := mkEntry (VStr v) (Some ex)]> m)
      else (RespErr bad_expire, m)
  | GET k =>
      (match m !! k with
       | None => RespNil
       | Some e => match rval e with VStr v => RespStr v | VHash _ => RespErr WRONGTYPE end
       end, m)
  | DEL k => (RespInt (match m !! k with Some _ => 1 | None => 0 end), delete k m)
  | EXPIRE k ex =>
      match m !! k with
      | None => (RespInt 0, m)
      | Some e => (RespInt 1, if 0 <? ex then <[k := mkEntry (rval e) (Some ex)]> m else delete k m)
      end
  | HSET h f v =>
      match hash_at m h with
      | inl e => (RespErr e, m)
      | inr x => (RespInt (match x !! f with Some _ => 0 | None => 1 end), put_hash m h (<[f := v]> x))
      end
  | HDEL h f =>
      match hash_at m h with
      | inl e => (RespErr e, m)
      | inr x => (RespInt (match x !! f with Some _ => 1 | None => 0 end), put_hash m h (delete f x))
      end
  | HKEYS h =>
      (match hash_at m h with
       | inl e => RespErr e
       | inr x => RespArray (map RespStr (map_to_list x).*1)
       end, m)
  | HVALS h =>
      (match hash_at m h with
       | inl e => RespErr e
       | inr x => RespArray (map RespStr (map_to_list x).*2)
       end, m)
  | HLEN h =>
      (match hash_at m h with inl e => RespErr e | inr x => RespInt (Z.of_nat (size x)) end, m)
  end.

(** The key whose entry a command reads or writes. *)
Definition rkey (c : rcmd) : bytes :=
  match c with
  | SET k _ | SETEX k _ _ | GET k | DEL k | EXPIRE k _ => k
  | HSET h _ _ | HDEL h _ | HKEYS h | HVALS h | HLEN h => h
  end.

(** Replies that agree up to the order of an array. *)
Definition resp_equiv (a b : Resp) : Prop :=
  match a, b with
  | RespArray l, RespArray l' => l ≡ₚ l'
  | _, _ => a = b
  end.

(** ** The service *)

Class RedisServer (R : Type) := redis_do : rcmd → R → Resp * R.

Class RedisLaws (R : Type) `{RedisServer R} := {
  keys_of : R → keyspace;
  up : R → Prop;
  redis_up r c : up r → up (redis_do c r).2;
  redis_reply r c : up r → resp_equiv (redis_do c r).1 (redis_spec c (keys_of r)).1;
  redis_effect r c : up r → keys_of (redis_do c r).2 = (redis_spec c (keys_of r)).2;
}.

(** The reference function, as a service that is always up. *)
#[global] Instance spec_server : RedisServer keyspace := redis_spec.

#[global] Instance resp_equiv_equivalence : Equivalence resp_equiv.
Proof.
  split.
  - intros []; cbn; done.
  - intros [] []; cbn; try done; by symmetry.
  - intros [] [] []; cbn; try (intros; congruence); intros; by etrans.
Qed.

#[global] Instance spec_laws : RedisLaws keyspace.
Proof. refine {| keys_of m := m; up _ := True |}; done. Defined.

(** ** Lemmas *)

Lemma list_bytes_strs l : list_bytes (map RespStr l) = OK l.
Proof. induction l as [|b l IH]; cbn; [done|]. by rewrite IH. Qed.

Lemma list_bytes_perm l bs : l ≡ₚ map RespStr bs → ∃ bs', list_bytes l = OK bs' ∧ bs' ≡ₚ bs.
Proof.
  intros Hp. apply Permutation_map_inv in Hp as (bs' & -> & Hp').
  exists bs'. split; [apply list_bytes_strs|by symmetry].
Qed.

(** A command only touches its own key. *)
Lemma redis_spec_other c m k : rkey c ≠ k → (redis_spec c m).2 !! k = m !! k.
Proof.
  intros Hk. destruct c; cbn in *; try done;
    repeat case_match_eqn; cbn; try done;
    unfold put_hash; repeat case_match_eqn; by rewrite ?lookup_insert_ne, ?lookup_delete_ne.
Qed.

(** What a command does to its own key, and what it replies, depends on that key only. *)
Lemma redis_spec_local c m m' :
  m !! rkey c = m' !! rkey c →
  (redis_spec c m).1 = (redis_spec c m').1 ∧
  (redis_spec c m).2 !! rkey c = (redis_spec c m').2 !! rkey c.
Proof.
  intros Hk.
  assert (∀ x, put_hash m (rkey c) x !! rkey c = put_hash m' (rkey c) x !! rkey c) as Hput.
  { intros x. unfold put_hash. rewrite Hk.
    destruct (decide (x = ∅)); by rewrite ?lookup_insert_eq, ?lookup_delete_eq. }
  assert (hash_at m (rkey c) = hash_at m' (rkey c)) as Hh by (unfold hash_at; by rewrite Hk).
  destruct c; cbn in *; rewrite <-?Hk, <-?Hh; repeat case_match_eqn; cbn;
    rewrite ?lookup_insert_eq, ?lookup_delete_eq; split; congruence || auto.
Qed.

(** Commands on different keys commute. *)
Lemma redis_spec_comm c1 c2 m :
  rkey c1 ≠ rkey c2 →
  (redis_spec c2 (redis_spec c1 m).2).2 = (redis_spec c1 (redis_spec c2 m).2).2.
Proof.
  intros Hne. apply map_eq. intros k.
  destruct (decide (k = rkey c1)) as [->|H1]; [|destruct (decide (k = rkey c2)) as [->|H2]].
  - rewrite redis_spec_other by done. apply redis_spec_local. by rewrite redis_spec_other.
  - rewrite (redis_spec_other c1) by done. apply redis_spec_local. by rewrite redis_spec_other.
  - by rewrite !redis_spec_other.
Qed.
