(* ===== verification/Database.v ===== *)
(** * Database: [saradb/interface.go], what sessions and nodes see of the database.

    The operations of the Go interface as a class over the type of database
    states, and the promises its clients rely on.  [SaraDb] discharges them for the
    redis implementation. *)

From S2P Require Import Prelude GoBytes Types.

(** An [error] result: [None] is nil. *)
Abbreviation error := (option bytes).

(** [GenDataChannel] and [Close] belong to the start and the stop of a node and are
    not operations of a running session. *)
Class Database (D : Type) := {
  db_Put : bytes → bytes → M D error;
  db_PutEx : bytes → bytes → Z → M D error;
  db_Get : bytes → M D (result bytes);
  db_PutExWithIdx : bytes → bytes → bytes → Z → M D error;
  db_GetByIdx : bytes → M D (result (list bytes));
  db_CountByIdx : bytes → M D (result Z);
  db_ResetExpire : bytes → Z → M D (result Z);
  db_DeleteByIdx : bytes → M D error;
  db_DeleteByIdxKey : bytes → bytes → M D error;
  db_Delete : bytes → M D error;
}.

(** The suffix of the names of indices. *)
Definition IDX_SUFFIX : bytes := §"_idx".

(** The keys of session records, which are written synchronously. *)
Definition session_key (key : bytes) : Prop := ∃ rest, key = SESSION_PERFIX ++ rest.

Class DatabaseLaws (D : Type) `{Database D} := {
  (** the string a read of a key returns *)
  seen : D → bytes → option bytes;
  (** the database answers *)
  ready : D → Prop;
  (** the name can be the name of an index *)
  indexable : D → bytes → Prop;
  (** what an index holds, by key *)
  index : D → bytes → option (gmap bytes bytes);
  get_law d k : ready d →
    ∃ d' r, db_Get k d = (Ret r, d') ∧ ready d' ∧
      (∀ k', seen d' k' = seen d k') ∧ (∀ i, indexable d' i ↔ indexable d i) ∧
      (∀ v, r = OK v ↔ seen d k = Some v);
  get_index d k i : ready d → index (db_Get k d).2 i = index d i;
  (** storing under an index never panics *)
  put_returns d idx key v ex : ∃ e, (db_PutExWithIdx idx key v ex d).1 = Ret e;
  put_session_law d idx key v ex : ready d → session_key key → indexable d idx →
    ∃ d', db_PutExWithIdx idx key v ex d = (Ret None, d') ∧ ready d' ∧
      seen d' key = Some v ∧
      (∀ k, k ≠ key → seen d' k = seen d k);
  getbyidx_law d idx : ready d →
    ∃ d' r, db_GetByIdx idx d = (Ret r, d') ∧ ready d' ∧
      (∀ k', seen d' k' = seen d k') ∧ (∀ i, indexable d' i ↔ indexable d i);
  getbyidx_values d idx x : ready d → index d idx = Some x →
    ∃ vals, (db_GetByIdx idx d).1 = Ret (OK vals) ∧ vals ≡ₚ (map_to_list x).*2;
  (** deletions are queued: what is read does not change yet *)
  delete_queued_law d idx key : ready d → session_key key →
    ∃ d', db_DeleteByIdxKey idx key d = (Ret None, d') ∧ ready d' ∧
      (∀ k', seen d' k' = seen d k') ∧ (∀ i, indexable d' i ↔ indexable d i);
}.
