(* ===== verification/SaraDb.v ===== *)
(** * SaraDb: [saradb/database.go], the database on top of redis.

    Reads and the writes of session records go to redis at once; all other writes
    are put on one of two channels and carried out by worker goroutines.  The model
    has both channels, the workers with the command each of them has taken but not
    carried out yet, and [Close].  A blocked send is a send that waits in the queue,
    so the queues have no bound here. *)

From S2P Require Import Prelude GoBytes Types Redis Database.

Definition closed_channel : bytes := §"send on closed channel".

(** An item of a write buffer: [cmd] and [args] of a command, or [cmd = KILL].  No
    caller sets [resp] any more. *)
Inductive writeBufArgs := WB (c : rcmd) | WBKill.

(** A consumer: the channel it reads ([wbCh4s] or [wbCh]), its own copy of the
    total, its flags, the command in its hands, and whether it has ended. *)
Record worker := mkWorker {
  w4s : bool; wbTotal : Z; kill : bool; send_kill : bool; hand : option rcmd; gone : bool }.

Section SaraDb.
Context {R : Type} `{RedisServer R}.

Record SaraDatabase := mkDb {
  redis : R;
  wbCh : list writeBufArgs; wbCh_closed : bool;
  wbCh4s : list writeBufArgs;
  workers : list worker }.

Definition set_redis (r : R) (db : SaraDatabase) : SaraDatabase :=
  mkDb r (wbCh db) (wbCh_closed db) (wbCh4s db) (workers db).
Definition set_wbCh (q : list writeBufArgs) (db : SaraDatabase) : SaraDatabase :=
  mkDb (redis db) q (wbCh_closed db) (wbCh4s db) (workers db).
Definition set_wbCh4s (q : list writeBufArgs) (db : SaraDatabase) : SaraDatabase :=
  mkDb (redis db) (wbCh db) (wbCh_closed db) q (workers db).
Definition set_workers (ws : list worker) (db : SaraDatabase) : SaraDatabase :=
  mkDb (redis db) (wbCh db) (wbCh_closed db) (wbCh4s db) ws.

(** ** Executing commands *)

Definition executeDirect (c : rcmd) : M SaraDatabase Resp := λ db,
  (Ret (redis_do c (redis db)).1, set_redis (redis_do c (redis db)).2 db).

(** [self.wbCh <- wb]. *)
Definition send_wbCh (wb : writeBufArgs) : M SaraDatabase unit := λ db,
  if wbCh_closed db then (Panic closed_channel, db)
  else (Ret tt, set_wbCh (wbCh db ++ [wb]) db).

(** [execute] and [execute4s]: the command is queued, the result is nil. *)
Definition execute (c : rcmd) : M SaraDatabase (option Resp) :=
  send_wbCh (WB c) >>> ret None.

Definition execute4s (c : rcmd) : M SaraDatabase (option Resp) :=
  modify (λ db, set_wbCh4s (wbCh4s db ++ [WB c]) db) >>> ret None.

Definition is4s (key : bytes) : bool := Index key SESSION_PERFIX =? 0.

(** [if r != nil && r.Err != nil { return r.Err }; return nil]. *)
Definition resp_error (r : option Resp) : error :=
  match r with Some a => Resp_Err a | None => None end.

(** ** The operations of the interface *)

Definition ResetExpire (key : bytes) (ex : Z) : M SaraDatabase (result Z) :=
  let! r := executeDirect (EXPIRE key ex) in
  ret match Resp_Err r with
      | Some e => ERR e
      | None =>
          match Resp_Int r with
          | inl e => ERR e
          | inr i => if i =? 0 then ERR (§"key_not_found") else OK i
          end
      end.

Definition Put (key value : bytes) : M SaraDatabase error :=
  if is4s key then
    let! r := executeDirect (SET key value) in ret (Resp_Err r)
  else execute (SET key value) >>> ret None.

Definition PutEx (key value : bytes) (ex : Z) : M SaraDatabase error :=
  if is4s key then
    let! r := executeDirect (SETEX key ex value) in ret (Resp_Err r)
  else execute (SETEX key ex value) >>> ret None.

Definition Get (key : bytes) : M SaraDatabase (result bytes) :=
  let! r := executeDirect (GET key) in ret (Resp_Bytes r).

Definition Delete (key : bytes) : M SaraDatabase error :=
  let! r := (if is4s key then execute4s (DEL key) else execute (DEL key)) in
  ret (resp_error r).

Definition PutExWithIdx (idx0 key value : bytes) (ex : Z) : M SaraDatabase error :=
  let idx := idx0 ++ IDX_SUFFIX in
  if is4s key then
    let! r := executeDirect (HSET idx key value) in
    match Resp_Err r with
    | Some e => ret (Some e)
    | None =>
        let! r := (if 0 <? ex then executeDirect (SETEX key ex value)
                   else executeDirect (SET key value)) in
        ret (Resp_Err r)
    end
  else
    recover
      (execute (HSET idx key value) >>>
       (if 0 <? ex then execute (SETEX key ex value) else execute (SET key value)) >>>
       ret None)
      (λ _, ret None).

Definition DeleteByIdx (idx0 : bytes) : M SaraDatabase error :=
  let idx := idx0 ++ IDX_SUFFIX in
  let! r := executeDirect (HKEYS idx) in
  match Resp_ListBytes r with
  | inl e => ret (Some e)
  | inr ids =>
      for_range ids (λ k, Delete k >>> ret tt) >>>
      Delete idx >>>
      ret None
  end.

Definition DeleteByIdxKey (idx0 key : bytes) : M SaraDatabase error :=
  let idx := idx0 ++ IDX_SUFFIX in
  (if is4s key then execute4s (HDEL idx key) else execute (HDEL idx key)) >>>
  Delete key >>>
  ret None.

Definition CountByIdx (idx0 : bytes) : M SaraDatabase (result Z) :=
  let! r := executeDirect (HLEN (idx0 ++ IDX_SUFFIX)) in ret (Resp_Int r).

Definition GetByIdx (idx0 : bytes) : M SaraDatabase (result (list bytes)) :=
  let! r := executeDirect (HVALS (idx0 ++ IDX_SUFFIX)) in ret (Resp_ListBytes r).

#[global] Instance SaraDatabase_Database : Database SaraDatabase := {|
  db_Put := Put; db_PutEx := PutEx; db_Get := Get; db_PutExWithIdx := PutExWithIdx;
  db_GetByIdx := GetByIdx; db_CountByIdx := CountByIdx; db_ResetExpire := ResetExpire;
  db_DeleteByIdx := DeleteByIdx; db_DeleteByIdxKey := DeleteByIdxKey; db_Delete := Delete |}.

(** One round of [keepalive] with its key [keep_<uuid>]. *)
Definition keepalive (k : bytes) : M SaraDatabase unit :=
  executeDirect (SETEX k 4 (§"1")) >>> ret tt.

(** ** The workers *)

(** The number of consumers of each channel. *)
Definition consumerTotal (PoolSize : Z) : Z := if 100 <? PoolSize then PoolSize / 5 else 20.

Definition new_worker (is_4s : bool) (total : Z) : worker := mkWorker is_4s total false false None false.

(** [wbfConsumer]. *)
Definition wbfConsumer (PoolSize : Z) : list worker :=
  let n := consumerTotal PoolSize in
  replicate (Z.to_nat n) (new_worker false n) ++ replicate (Z.to_nat n) (new_worker true n).

(** [NewDatabase], [NewClusterDatabase] once connected. *)
Definition NewDatabase (PoolSize : Z) (r : R) : SaraDatabase :=
  mkDb r [] false [] (wbfConsumer PoolSize).

(** What happens to worker [i]: it receives from its channel; it carries out the
    command it has taken; it receives on its [wbSyncCh], on which only [Close] sends,
    to the workers of [wbCh4s] and after [wbCh] is closed; it waited for two seconds. *)
Inductive event := Take (i : nat) | Exec (i : nat) | Signal (i : nat) | Waited (i : nat).

Definition set_worker (i : nat) (w : worker) (db : SaraDatabase) : SaraDatabase :=
  set_workers (<[i := w]> (workers db)) db.

(** The first case of the select, after the receive of [wb]; a send on the closed
    channel panics and nothing recovers. *)
Definition worker_recv (i : nat) (w : worker) (wb : writeBufArgs) : M SaraDatabase unit :=
  let! w := (if kill w && negb (send_kill w) then
               send_wbCh WBKill >>>
               ret (mkWorker (w4s w) (wbTotal w) (kill w) true (hand w) (gone w))
             else ret w) in
  match wb with
  | WBKill =>
      if 1 <? wbTotal w then
        modify (set_worker i (mkWorker (w4s w) (wbTotal w - 1) (kill w) (send_kill w) None true))
      else modify (set_worker i w)
  | WB c => modify (set_worker i (mkWorker (w4s w) (wbTotal w) (kill w) (send_kill w) (Some c) (gone w)))
  end.

(** [wbfConsumerWorker], one step of one worker; [None] when the event cannot happen. *)
Definition worker_event (e : event) (db : SaraDatabase) : option (outcome unit * SaraDatabase) :=
  match e with
  | Take i =>
      w ← workers db !! i;
      match gone w, hand w with
      | false, None =>
          if w4s w then
            match wbCh4s db with
            | wb :: q => Some (worker_recv i w wb (set_wbCh4s q db))
            | [] => None
            end
          else
            match wbCh db with
            | wb :: q => Some (worker_recv i w wb (set_wbCh q db))
            | [] =>
                if wbCh_closed db then
                  Some (Ret tt, set_worker i (mkWorker (w4s w) (wbTotal w) (kill w) (send_kill w) None true) db)
                else None
            end
      | _, _ => None
      end
  | Exec i =>
      w ← workers db !! i;
      c ← hand w;
      let '(o, db) := executeDirect c db in
      Some (Ret tt, set_worker i (mkWorker (w4s w) (wbTotal w) (kill w) (send_kill w) None (gone w)) db)
  | Signal i =>
      w ← workers db !! i;
      match gone w, hand w, w4s w && wbCh_closed db with
      | false, None, true =>
          Some (Ret tt, set_worker i (mkWorker (w4s w) (wbTotal w) true (send_kill w) None (gone w)) db)
      | _, _, _ => None
      end
  | Waited i =>
      w ← workers db !! i;
      match gone w, hand w with
      | false, None =>
          Some (Ret tt,
            if kill w then set_worker i (mkWorker (w4s w) (wbTotal w - 1) (kill w) (send_kill w) None true) db
            else db)
      | _, _ => None
      end
  end.

(** [close(self.wbCh)] of [Close]; the signals to the workers of [wbCh4s] that follow it are
    [Signal] events. *)
Definition close_wbCh (db : SaraDatabase) : SaraDatabase :=
  mkDb (redis db) (wbCh db) true (wbCh4s db) (workers db).

(** A run of the workers; a panic ends the process. *)
Inductive db_run : SaraDatabase → list event → outcome unit → SaraDatabase → Prop :=
| run_nil db : db_run db [] (Ret tt) db
| run_cons db e es db' o db'' :
    worker_event e db = Some (Ret tt, db') → db_run db' es o db'' → db_run db (e :: es) o db''
| run_crash db e p db' :
    worker_event e db = Some (Panic p, db') → db_run db [e] (Panic p) db'.

(** ** The commands still to be carried out *)

Definition cmds (q : list writeBufArgs) : list rcmd :=
  omap (λ wb, match wb with WB c => Some c | WBKill => None end) q.

Definition hands (ws : list worker) : list rcmd := omap hand ws.

Definition pending (db : SaraDatabase) : list rcmd :=
  cmds (wbCh db) ++ cmds (wbCh4s db) ++ hands (workers db).

Definition drained (db : SaraDatabase) : Prop := pending db = [].
End SaraDb.
Arguments SaraDatabase : clear implicits.

(** ** Lemmas on the operations *)

Lemma is4s_spec key : is4s key = true ↔ session_key key.
Proof.
  unfold is4s, session_key. rewrite Z.eqb_eq, Index_zero. split.
  - intros H. by apply is_prefix_spec in H.
  - intros [r ->]. by apply is_prefix_spec; eexists.
Qed.

Section Laws.
Context {R : Type} `{RedisLaws R}.
Implicit Types db : SaraDatabase R.

(** The keyspace behind a database. *)
Definition keys db : keyspace := keys_of (redis db).

Definition str_at (m : keyspace) (k : bytes) : option bytes :=
  match m !! k with
  | Some e => match rval e with VStr v => Some v | VHash _ => None end
  | None => None
  end.

(** Carrying out a list of commands in order. *)
Definition run_cmds (cs : list rcmd) (m : keyspace) : keyspace := foldl (λ m c, (redis_spec c m).2) m cs.

Lemma executeDirect_run c db :
  up (redis db) →
  ∃ a db', executeDirect c db = (Ret a, db') ∧ up (redis db') ∧
    resp_equiv a (redis_spec c (keys db)).1 ∧ keys db' = (redis_spec c (keys db)).2 ∧
    wbCh db' = wbCh db ∧ wbCh_closed db' = wbCh_closed db ∧ wbCh4s db' = wbCh4s db ∧
    workers db' = workers db.
Proof.
  intros Hup. unfold executeDirect.
  pose proof (redis_up (redis db) c Hup). pose proof (redis_reply (redis db) c Hup).
  pose proof (redis_effect (redis db) c Hup).
  eexists _, _. split; [done|]. by split_and!.
Qed.

End Laws.

(** Rewrites the direct execution of a command to its result. *)
Ltac direct c db Hup :=
  let a := fresh "a" in let db' := fresh "db'" in let E := fresh "E" in
  let Hr := fresh "Hr" in let Hk := fresh "Hk" in let Hu := fresh "Hu" in
  destruct (executeDirect_run c db Hup) as (a & db' & E & Hu & Hr & Hk & ? & ? & ? & ?);
  rewrite (bind_Ret _ _ _ _ _ E); clear E; cbv beta.

Section Operations.
Context {R : Type} `{RedisLaws R}.
Implicit Types db : SaraDatabase R.

(** A reply that is not an array is the reference reply. *)
Lemma resp_equiv_eq a b : resp_equiv a b → (∀ l, b ≠ RespArray l) → a = b.
Proof. destruct a, b; cbn; try done. intros _ Hb. by destruct (Hb l0). Qed.

Lemma GET_reply m k l : (redis_spec (GET k) m).1 ≠ RespArray l.
Proof. cbn. repeat case_match_eqn; done. Qed.

Lemma Get_seen db k :
  up (redis db) →
  ∃ db' r, Get k db = (Ret r, db') ∧ up (redis db') ∧ keys db' = keys db ∧
    (∀ v, r = OK v ↔ str_at (keys db) k = Some v).
Proof.
  intros Hup. unfold Get. direct (GET k) db Hup.
  apply resp_equiv_eq in Hr; [|intros l; apply GET_reply]. subst a. eexists db', _.
  split_and!; [done|done|done|]. intros v. unfold str_at. cbn.
  destruct (keys db !! k) as [[[b|h] t]|]; cbn; split; intros; simplify_eq; done.
Qed.

(** The name of an index is free or names a hash. *)
Definition index_name (m : keyspace) (idx : bytes) : Prop := ∃ x, hash_at m (idx ++ IDX_SUFFIX) = OK x.

Lemma hset_str_at m h f v k x : hash_at m h = OK x → str_at (redis_spec (HSET h f v) m).2 k = str_at m k.
Proof.
  intros Hh. cbn. rewrite Hh. cbn. unfold put_hash. rewrite decide_False by apply insert_non_empty.
  unfold str_at. destruct (decide (k = h)) as [->|Hne].
  - rewrite lookup_insert_eq. cbn. unfold hash_at in Hh. by destruct (m !! h) as [[[] ?]|]; cbn in *.
  - by rewrite lookup_insert_ne.
Qed.

Lemma PutExWithIdx_session db idx key v ex :
  up (redis db) → session_key key → index_name (keys db) idx →
  ∃ db', PutExWithIdx idx key v ex db = (Ret None, db') ∧ up (redis db') ∧
    keys db' = run_cmds [HSET (idx ++ IDX_SUFFIX) key v;
                         if 0 <? ex then SETEX key ex v else SET key v] (keys db) ∧
    wbCh db' = wbCh db ∧ wbCh_closed db' = wbCh_closed db ∧ wbCh4s db' = wbCh4s db ∧
    workers db' = workers db.
Proof.
  intros Hup Hs [x Hx]. apply is4s_spec in Hs. unfold PutExWithIdx. rewrite Hs.
  direct (HSET (idx ++ IDX_SUFFIX) key v) db Hup.
  cbn [redis_spec] in Hr. rewrite Hx in Hr. apply resp_equiv_eq in Hr; [|by intros l]. subst a. cbn [Resp_Err fst].
  unfold run_cmds. cbn [foldl]. rewrite <-Hk.
  destruct (0 <? ex) eqn:Ex; [direct (SETEX key ex v) db' Hu|direct (SET key v) db' Hu];
    cbn [redis_spec] in *; rewrite ?Ex in *; apply resp_equiv_eq in Hr; try (by intros l); subst a;
    eexists; split_and!; try done; congruence.
Qed.

(** Two queued deletions, for a session key. *)
Lemma DeleteByIdxKey_session db idx key :
  session_key key →
  DeleteByIdxKey idx key db =
  (Ret None, set_wbCh4s (wbCh4s db ++ [WB (HDEL (idx ++ IDX_SUFFIX) key); WB (DEL key)]) db).
Proof.
  intros Hs%is4s_spec. unfold DeleteByIdxKey, Delete, execute4s. rewrite Hs. run_m.
  unfold set_wbCh4s. cbn. by rewrite <-app_assoc.
Qed.

(** The same for another key, on a database that is not closed. *)
Lemma DeleteByIdxKey_other db idx key :
  ¬ session_key key → wbCh_closed db = false →
  DeleteByIdxKey idx key db =
  (Ret None, set_wbCh (wbCh db ++ [WB (HDEL (idx ++ IDX_SUFFIX) key); WB (DEL key)]) db).
Proof.
  intros Hs Ho. destruct (is4s key) eqn:E; [by apply is4s_spec in E|].
  unfold DeleteByIdxKey, Delete, execute, send_wbCh. rewrite E. run_m.
  rewrite Ho. unfold set_wbCh. cbn. rewrite Ho. cbn. by rewrite <-app_assoc.
Qed.

(** Storing under an index a key that is not a session key queues both writes. *)
Lemma PutExWithIdx_other db idx key v ex :
  ¬ session_key key → wbCh_closed db = false →
  PutExWithIdx idx key v ex db =
  (Ret None, set_wbCh (wbCh db ++ [WB (HSET (idx ++ IDX_SUFFIX) key v);
                                   WB (if 0 <? ex then SETEX key ex v else SET key v)]) db).
Proof.
  intros Hs Ho. destruct (is4s key) eqn:E; [by apply is4s_spec in E|].
  unfold PutExWithIdx, execute, send_wbCh. rewrite E. run_m.
  rewrite Ho. unfold set_wbCh. cbn. destruct (0 <? ex); cbn; rewrite Ho; cbn; by rewrite <-app_assoc.
Qed.

Lemma PutExWithIdx_returns db idx key v ex : ∃ e, (PutExWithIdx idx key v ex db).1 = Ret e.
Proof.
  unfold PutExWithIdx. destruct (is4s key).
  - unfold bind at 1. cbn [executeDirect]. destruct (Resp_Err _); [by eexists|].
    destruct (0 <? ex); by eexists.
  - unfold recover. destruct (bind _ _ db) as [[e|p] db']; by eexists.
Qed.

Lemma GetByIdx_reads db idx x :
  up (redis db) → hash_at (keys db) (idx ++ IDX_SUFFIX) = OK x →
  ∃ db' vals, GetByIdx idx db = (Ret (OK vals), db') ∧ vals ≡ₚ (map_to_list x).*2 ∧
    up (redis db') ∧ keys db' = keys db.
Proof.
  intros Hup Hx. unfold GetByIdx. direct (HVALS (idx ++ IDX_SUFFIX)) db Hup.
  cbn [redis_spec fst] in Hr. rewrite Hx in Hr. destruct a as [| |l| |]; try done. cbn in Hr.
  destruct (list_bytes_perm l _ Hr) as (vals & E & Hv). exists db', vals. cbn. rewrite E. by split_and!.
Qed.

(** [SaraDatabase] keeps the promises of the interface. *)
#[export] Instance SaraDatabase_laws : DatabaseLaws (SaraDatabase R).
Proof.
  refine {| seen db k := str_at (keys db) k; ready db := up (redis db);
            indexable db idx := index_name (keys db) idx;
            index db idx := match hash_at (keys db) (idx ++ IDX_SUFFIX) with inr x => Some x | inl _ => None end |};
    cbn [db_Get db_PutExWithIdx db_GetByIdx db_DeleteByIdxKey SaraDatabase_Database].
  - intros db k Hup. destruct (Get_seen db k Hup) as (db' & r & E & Hu & Hk & Hv).
    exists db', r. rewrite Hk. by split_and!.
  - intros db k i Hup. destruct (Get_seen db k Hup) as (db' & r & -> & _ & Hk & _). cbn [snd]. by rewrite Hk.
  - intros db idx key v ex. apply PutExWithIdx_returns.
  - intros db idx key v ex Hup Hs Hi.
    destruct (PutExWithIdx_session db idx key v ex Hup Hs Hi) as (db' & E & Hu & Hk & _).
    exists db'. rewrite Hk. destruct Hi as [x Hx]. unfold run_cmds. cbn [foldl].
    set (c := if 0 <? ex then SETEX key ex v else SET key v).
    assert (rkey c = key) as Ec by by subst c; destruct (0 <? ex).
    split_and!; [done|done| |].
    + subst c. unfold str_at at 1. destruct (0 <? ex) eqn:Ex; cbn [redis_spec]; rewrite ?Ex; cbn [snd];
        by rewrite lookup_insert_eq.
    + intros k Hne. rewrite <-(hset_str_at (keys db) (idx ++ IDX_SUFFIX) key v k x) by done.
      unfold str_at at 1. rewrite redis_spec_other; [done|by rewrite Ec; apply not_eq_sym].
  - intros db idx Hup. unfold GetByIdx. direct (HVALS (idx ++ IDX_SUFFIX)) db Hup.
    eexists db', _. rewrite Hk. by split_and!.
  - intros db idx x Hup Hx. destruct (hash_at _ _) as [e|y] eqn:Hy; [done|]. injection Hx as ->.
    destruct (GetByIdx_reads db idx x Hup Hy) as (db' & vals & -> & Hv & _). by exists vals.
  - intros db idx key Hup Hs. rewrite DeleteByIdxKey_session by done. eexists. by split_and!.
Defined.
End Operations.

(** ** Lemmas on the workers *)

Section Workers.
Context {R : Type} `{RedisLaws R}.
Implicit Types db : SaraDatabase R.

Lemma cmds_app q1 q2 : cmds (q1 ++ q2) = cmds q1 ++ cmds q2.
Proof. apply omap_app. Qed.

Lemma hands_split ws i w w' :
  ws !! i = Some w →
  ∃ l1 l2, hands ws = l1 ++ option_list (hand w) ++ l2 ∧
    hands (<[i := w']> ws) = l1 ++ option_list (hand w') ++ l2.
Proof.
  intros Hi. exists (hands (take i ws)), (hands (drop (S i) ws)).
  rewrite insert_take_drop by (by eapply lookup_lt_Some). rewrite <-(take_drop_middle ws i w) at 1 by done.
  unfold hands. rewrite !omap_app. cbn [omap list_omap].
  split; [by destruct (hand w)|by destruct (hand w')].
Qed.

(** What a worker does with its hands, as a permutation of the pending commands. *)
Lemma pending_set ws i w w' (q : list rcmd) :
  ws !! i = Some w →
  option_list (hand w') ++ q ++ hands ws ≡ₚ option_list (hand w) ++ q ++ hands (<[i := w']> ws).
Proof.
  intros Hi. destruct (hands_split ws i w w' Hi) as (l1 & l2 & -> & ->).
  destruct (hand w) as [c|], (hand w') as [c'|]; cbn [option_list app]; try done; solve_Permutation.
Qed.

Lemma worker_recv_effect i w wb db db' :
  hand w = None → worker_recv i w wb db = (Ret tt, db') →
  redis db' = redis db ∧ wbCh4s db' = wbCh4s db ∧ cmds (wbCh db') = cmds (wbCh db) ∧
  ∃ w', workers db' = <[i := w']> (workers db) ∧ option_list (hand w') = cmds [wb].
Proof.
  intros Hh. unfold worker_recv, send_wbCh.
  destruct (kill w && negb (send_kill w)); run_m; [destruct (wbCh_closed db); [done|]|];
    destruct wb; cbn; try destruct (1 <? wbTotal w); intros Hr; simplify_eq/=;
    rewrite ?cmds_app, ?app_nil_r; split_and!; eauto;
    eexists; (split; [reflexivity|]); cbn; by rewrite Hh.
Qed.

(** The worker that takes [wb] off its queue has it in its hands. *)
Lemma take_pending i w w' wb ws (q1 q2 : list rcmd) :
  ws !! i = Some w → hand w = None → option_list (hand w') = cmds [wb] →
  cmds [wb] ++ q1 ++ q2 ++ hands ws ≡ₚ q1 ++ q2 ++ hands (<[i := w']> ws).
Proof.
  intros Hi Hh Hw. pose proof (pending_set ws i w w' (q1 ++ q2) Hi) as Hp.
  rewrite Hh, Hw in Hp. cbn [option_list app] in Hp. by rewrite <-!app_assoc in Hp.
Qed.

(** A worker whose hands stay empty. *)
Lemma idle_pending i w w' ws (q1 q2 : list rcmd) :
  ws !! i = Some w → hand w = None → hand w' = None →
  q1 ++ q2 ++ hands ws ≡ₚ q1 ++ q2 ++ hands (<[i := w']> ws).
Proof.
  intros Hi Hh Hw. pose proof (pending_set ws i w w' (q1 ++ q2) Hi) as Hp.
  rewrite Hh, Hw in Hp. cbn [option_list app] in Hp. by rewrite <-!app_assoc in Hp.
Qed.

Lemma cmds_cons wb q : cmds (wb :: q) = cmds [wb] ++ cmds q.
Proof. by destruct wb. Qed.

Lemma take_event_pending i db db' :
  worker_event (Take i) db = Some (Ret tt, db') →
  redis db' = redis db ∧ pending db ≡ₚ pending db'.
Proof.
  cbn. destruct (workers db !! i) as [w|] eqn:Hi; [|done]. cbn.
  destruct (gone w); [done|]. destruct (hand w) eqn:Hh; [done|]. unfold pending.
  destruct (w4s w).
  - destruct (wbCh4s db) as [|wb q]; [done|]. intros [= Hr].
    apply worker_recv_effect in Hr as (-> & E4 & E1 & w' & Ew & Hw); [|done].
    rewrite E4, E1, Ew, cmds_cons. cbn [wbCh wbCh4s workers set_wbCh4s]. split; [done|].
    rewrite <-(take_pending i w w' wb (workers db) (cmds (wbCh db)) (cmds q)) by done.
    solve_Permutation.
  - destruct (wbCh db) as [|wb q] eqn:Eq.
    + destruct (wbCh_closed db); [|done]. intros [= <-]. cbn. rewrite Eq. split; [done|].
      by apply (idle_pending i w _ _ [] _).
    + intros [= Hr]. apply worker_recv_effect in Hr as (-> & E4 & E1 & w' & Ew & Hw); [|done].
      rewrite E4, E1, Ew, cmds_cons. cbn [wbCh wbCh4s workers set_wbCh]. split; [done|].
      rewrite <-(take_pending i w w' wb (workers db)) by done. by rewrite <-app_assoc.
Qed.

(** A step of the workers carries out at most one of the pending commands and
    loses none. *)
Lemma worker_event_pending e db db' :
  up (redis db) → worker_event e db = Some (Ret tt, db') →
  up (redis db') ∧ ∃ cs, pending db ≡ₚ cs ++ pending db' ∧ keys db' = run_cmds cs (keys db).
Proof.
  intros Hup He. destruct e as [i|i|i|i].
  - apply take_event_pending in He as [Er Hp]. unfold keys. rewrite Er. split; [done|]. by exists [].
  - cbn in He. destruct (workers db !! i) as [w|] eqn:Hi; [|done]. cbn in He.
    destruct (hand w) as [c|] eqn:Hh; [|done]. cbn in He.
    destruct (executeDirect_run c db Hup) as (a & db2 & E & Hu & _ & Hk & E1 & _ & E4 & Ew).
    injection E as _ <-. injection He as <-. split; [done|]. exists [c]. split; [|done].
    unfold pending. cbn [wbCh wbCh4s workers set_worker set_workers set_redis].
    pose proof (pending_set _ _ _ (mkWorker (w4s w) (wbTotal w) (kill w) (send_kill w) None (gone w))
      (cmds (wbCh db) ++ cmds (wbCh4s db)) Hi) as Hp.
    rewrite Hh in Hp. cbn [option_list hand app] in Hp. by rewrite <-!app_assoc in Hp.
  - cbn in He. destruct (workers db !! i) as [w|] eqn:Hi; [|done]. cbn in He.
    destruct (gone w); [done|]. destruct (hand w) eqn:Hh; [done|].
    destruct (w4s w && wbCh_closed db); [|done]. injection He as <-. split; [done|].
    exists []. split; [|done]. by apply (idle_pending i w).
  - cbn in He. destruct (workers db !! i) as [w|] eqn:Hi; [|done]. cbn in He.
    destruct (gone w); [done|]. destruct (hand w) eqn:Hh; [done|]. injection He as <-.
    destruct (kill w); (split; [done|]); exists []; (split; [|done]); [|done].
    by apply (idle_pending i w).
Qed.

Lemma run_cmds_app cs1 cs2 m : run_cmds (cs1 ++ cs2) m = run_cmds cs2 (run_cmds cs1 m).
Proof. apply foldl_app. Qed.

Lemma db_run_executes db es db' :
  up (redis db) → db_run db es (Ret tt) db' →
  up (redis db') ∧ ∃ cs, pending db ≡ₚ cs ++ pending db' ∧ keys db' = run_cmds cs (keys db).
Proof.
  intros Hup Hr. remember (Ret tt) as o eqn:Eo. revert Hup Eo.
  induction Hr as [db|db e es db1 o db2 He Hr IH|db e p db1 He]; intros Hup Eo; [|subst|done].
  - split; [done|]. by exists [].
  - apply worker_event_pending in He as (Hu & cs & Hp & Hk); [|done].
    destruct (IH Hu eq_refl) as (Hu2 & cs2 & Hp2 & Hk2). split; [done|].
    exists (cs ++ cs2). rewrite Hp, Hp2, Hk2, Hk, run_cmds_app, app_assoc. done.
Qed.
End Workers.

(** ** Independent commands *)

(** Different keys, or different fields of one hash, both written or both removed. *)
Definition independent (c1 c2 : rcmd) : Prop :=
  rkey c1 ≠ rkey c2 ∨
  match c1, c2 with
  | HSET h1 f1 _, HSET h2 f2 _ => h1 = h2 ∧ f1 ≠ f2
  | HDEL h1 f1, HDEL h2 f2 => h1 = h2 ∧ f1 ≠ f2
  | _, _ => False
  end.

Fixpoint pairwise {A} (P : A → A → Prop) (l : list A) : Prop :=
  match l with
  | [] => True
  | x :: l' => Forall (P x) l' ∧ pairwise P l'
  end.

#[global] Instance independent_sym : Symmetric independent.
Proof.
  intros c1 c2 [Hk|Hk]; [by left|right]. destruct c1, c2; try done; by destruct Hk as [-> ?].
Qed.

Lemma hash_at_other c m h : rkey c ≠ h → hash_at (redis_spec c m).2 h = hash_at m h.
Proof. intros Hne. unfold hash_at. by rewrite redis_spec_other. Qed.

Lemma put_hash_hash m h x : hash_at (put_hash m h x) h = OK x.
Proof.
  unfold hash_at, put_hash. destruct (decide (x = ∅)) as [->|Hx].
  - by rewrite lookup_delete_eq.
  - by rewrite lookup_insert_eq.
Qed.

(** A hash whose field is written to one value, and whose key no other kind of command
    touches, has that value in the end. *)
Lemma run_cmds_hset h f v cs m x :
  hash_at m h = OK x → (∀ c, c ∈ cs → rkey c = h → ∃ g u, c = HSET h g u ∧ (g = f → u = v)) →
  HSET h f v ∈ cs ∨ x !! f = Some v → ∃ y, hash_at (run_cmds cs m) h = OK y ∧ y !! f = Some v.
Proof.
  revert m x. induction cs as [|c cs IH]; intros m x Hx Hcs Hin.
  { destruct Hin as [Hin|]; [by apply not_elem_of_nil in Hin|eauto]. }
  change (run_cmds (c :: cs) m) with (run_cmds cs (redis_spec c m).2).
  destruct (decide (rkey c = h)) as [E|Hne].
  - destruct (Hcs c ltac:(set_solver) E) as (g & u & -> & Hg).
    apply (IH _ (<[g := u]> x)); [cbn; rewrite Hx; apply put_hash_hash|intros; apply Hcs; set_solver|].
    destruct (decide (g = f)) as [->|Hgf]; [right; rewrite Hg by done; apply lookup_insert_eq|].
    rewrite lookup_insert_ne by done. destruct Hin as [[Heq|?]%elem_of_cons|?]; [congruence|by left|by right].
  - apply (IH _ x); [by rewrite hash_at_other|intros; apply Hcs; set_solver|].
    destruct Hin as [[<-|?]%elem_of_cons|?]; [by destruct Hne|by left|by right].
Qed.

(** A hash of which only fields are deleted loses exactly those. *)
Lemma run_cmds_hdel h cs m x :
  hash_at m h = OK x → (∀ c, c ∈ cs → rkey c = h → ∃ g, c = HDEL h g) →
  ∃ y, hash_at (run_cmds cs m) h = OK y ∧ ∀ f, (HDEL h f ∈ cs → y !! f = None) ∧ (HDEL h f ∉ cs → y !! f = x !! f).
Proof.
  revert m x. induction cs as [|c cs IH]; intros m x Hx Hcs.
  { exists x. split; [done|]. intros f. split; [by intros ?%not_elem_of_nil|done]. }
  change (run_cmds (c :: cs) m) with (run_cmds cs (redis_spec c m).2).
  destruct (decide (rkey c = h)) as [E|Hne].
  - destruct (Hcs c ltac:(set_solver) E) as [g ->].
    destruct (IH (redis_spec (HDEL h g) m).2 (delete g x)) as (y & Hy & Hf); [|intros; apply Hcs; set_solver|].
    { cbn. rewrite Hx. apply put_hash_hash. }
    exists y. split; [done|]. intros f. destruct (Hf f) as [H1f H2f]. destruct (decide (HDEL h f ∈ cs)) as [Hin|Hni].
    + split; [by rewrite H1f|set_solver].
    + rewrite H2f by done. destruct (decide (g = f)) as [->|Hgf].
      * rewrite lookup_delete_eq. split; [done|set_solver].
      * rewrite lookup_delete_ne by done. split; [|done]. intros [[= ->]|?]%elem_of_cons; done.
  - destruct (IH (redis_spec c m).2 x) as (y & Hy & Hf); [by rewrite hash_at_other|intros; apply Hcs; set_solver|].
    exists y. split; [done|]. intros f. destruct (Hf f) as [H1f H2f]. split; [|set_solver].
    intros [<-|Hin]%elem_of_cons; [by destruct Hne|by apply H1f].
Qed.

Lemma put_hash_twice m h x y : x ≠ ∅ → put_hash (put_hash m h x) h y = put_hash m h y.
Proof.
  intros Hx. unfold put_hash. rewrite (decide_False (P := x = ∅)) by done.
  destruct (decide (y = ∅)); [by rewrite delete_insert_eq|]. by rewrite insert_insert_eq, lookup_insert_eq.
Qed.

Lemma put_hash_delete m h x f g :
  put_hash (put_hash m h (delete f x)) h (delete g (delete f x)) = put_hash m h (delete g (delete f x)).
Proof.
  destruct (decide (delete f x = ∅)) as [E|Hne]; [|by apply put_hash_twice].
  rewrite E, delete_empty. unfold put_hash. rewrite !decide_True by done. by apply delete_id, lookup_delete_eq.
Qed.

Lemma independent_comm c1 c2 m :
  independent c1 c2 →
  (redis_spec c2 (redis_spec c1 m).2).2 = (redis_spec c1 (redis_spec c2 m).2).2.
Proof.
  intros [Hk|Hk]; [by apply redis_spec_comm|].
  destruct c1, c2; try done; destruct Hk as [-> Hf]; cbn; destruct (hash_at m _) as [e|x] eqn:E; cbn;
    rewrite ?E; try done; rewrite ?put_hash_hash; cbn.
  - rewrite !put_hash_twice by apply insert_non_empty. by rewrite insert_insert_ne.
  - rewrite !put_hash_delete. by rewrite delete_delete.
Qed.

Lemma pairwise_perm {A} (P : A → A → Prop) `{!Symmetric P} l l' :
  l ≡ₚ l' → pairwise P l → pairwise P l'.
Proof.
  induction 1 as [|x l l' Hp IH|x y l|l1 l2 l3 _ IH1 _ IH2]; cbn; [done| |..].
  - intros [Hx Hl]. split; [by rewrite <-Hp|auto].
  - intros (Hy & Hx & Hl). inversion Hy; subst. split; [constructor; [by symmetry|done]|done].
  - auto.
Qed.

(** The order in which independent commands are carried out does not matter. *)
Lemma run_cmds_perm cs cs' m : cs ≡ₚ cs' → pairwise independent cs → run_cmds cs m = run_cmds cs' m.
Proof.
  intros Hp. revert m. induction Hp as [|c l l' Hp IH|x y l|l1 l2 l3 Hp1 IH1 _ IH2]; cbn; intros m Hw; [done| |..].
  - apply IH. by destruct Hw.
  - destruct Hw as [Hy _]. inversion Hy; subst. by rewrite independent_comm.
  - rewrite IH1 by done. apply IH2. by apply (pairwise_perm _ l1).
Qed.

(** Commands on different keys are independent, and each has the effect it has alone. *)
Lemma distinct_keys_independent cs : NoDup (map rkey cs) → pairwise independent cs.
Proof.
  induction cs as [|c cs IH]; cbn; [done|]. intros [Hc Hnd]%list.NoDup_cons. split; [|by apply IH].
  apply list.Forall_forall. intros c' Hc'. left. intros E. apply Hc. rewrite E. by apply list_elem_of_fmap_2.
Qed.

Lemma run_cmds_other cs m k : k ∉ map rkey cs → run_cmds cs m !! k = m !! k.
Proof.
  revert m. induction cs as [|c cs IH]; intros m Hk; [done|]. cbn [map] in Hk.
  apply not_elem_of_cons in Hk as [Hne Hk]. change (run_cmds (c :: cs) m) with (run_cmds cs (redis_spec c m).2).
  rewrite IH by done. by apply redis_spec_other, not_eq_sym.
Qed.

Lemma run_cmds_at cs m c :
  NoDup (map rkey cs) → c ∈ cs → run_cmds cs m !! rkey c = (redis_spec c m).2 !! rkey c.
Proof.
  revert m. induction cs as [|c' cs IH]; intros m Hnd Hin; [by apply not_elem_of_nil in Hin|]. cbn [map] in Hnd.
  change (run_cmds (c' :: cs) m) with (run_cmds cs (redis_spec c' m).2). apply list.NoDup_cons in Hnd as [Hc Hnd]. apply elem_of_cons in Hin as [->|Hin]; [by apply run_cmds_other|].
  rewrite IH by done. apply redis_spec_local, redis_spec_other. intros E. apply Hc. rewrite E. by apply list_elem_of_fmap_2.
Qed.

(** ** A database that has not been closed *)

Section Running.
Context {R : Type} `{RedisServer R}.
Implicit Types db : SaraDatabase R.

Definition is_cmd (wb : writeBufArgs) : Prop := match wb with WB _ => True | WBKill => False end.
Definition live (w : worker) : Prop := gone w = false ∧ kill w = false.

Record running db : Prop := {
  run_open : wbCh_closed db = false;
  run_q : Forall is_cmd (wbCh db);
  run_q4s : Forall is_cmd (wbCh4s db);
  run_live : Forall live (workers db);
  run_some : ∃ i w, workers db !! i = Some w ∧ w4s w = false;
  run_some4s : ∃ i w, workers db !! i = Some w ∧ w4s w = true }.

(** The steps the workers still have to make. *)
Definition work db : nat :=
  2 * (length (wbCh db) + length (wbCh4s db)) + length (hands (workers db)).

Lemma some_worker_set (ws : list worker) i w w' b :
  ws !! i = Some w → w4s w' = w4s w →
  (∃ j v, ws !! j = Some v ∧ w4s v = b) → ∃ j v, <[i := w']> ws !! j = Some v ∧ w4s v = b.
Proof.
  intros Hi Hw (j & v & Hj & Hv). destruct (decide (i = j)) as [<-|Hne].
  - exists i, w'. rewrite list_lookup_insert_eq by (by eapply lookup_lt_Some). split; [done|]. congruence.
  - exists j, v. by rewrite list_lookup_insert_ne.
Qed.

Definition held (o : option rcmd) : nat := match o with Some _ => 1 | None => 0 end.

Lemma hands_length ws i w w' :
  ws !! i = Some w →
  (length (hands (<[i := w']> ws)) + held (hand w) = length (hands ws) + held (hand w'))%nat.
Proof.
  intros Hi. destruct (hands_split ws i w w' Hi) as (l1 & l2 & -> & ->).
  rewrite !length_app. destruct (hand w), (hand w'); cbn; lia.
Qed.

(** A worker replaced by a live one of the same channel. *)
Lemma running_set db i w w' :
  running db → workers db !! i = Some w → live w' → w4s w' = w4s w → running (set_worker i w' db).
Proof.
  intros [] Hi Hl Hw. split; cbn; try done.
  - by apply Forall_insert.
  - by apply (some_worker_set _ _ w).
  - by apply (some_worker_set _ _ w).
Qed.

Lemma worker_recv_live i w c db :
  kill w = false →
  worker_recv i w (WB c) db =
  (Ret tt, set_worker i (mkWorker (w4s w) (wbTotal w) (kill w) (send_kill w) (Some c) (gone w)) db).
Proof. destruct w. cbn. by intros ->. Qed.

Lemma running_event e db o db' :
  running db → worker_event e db = Some (o, db') → o = Ret tt ∧ running db'.
Proof.
  intros Hrun He. destruct (id Hrun) as [Ho Hq Hq4 Hl _ _].
  destruct e as [i|i|i|i]; cbn in He; (destruct (workers db !! i) as [w|] eqn:Hi; [|done]); cbn in He;
    destruct (Forall_lookup_1 _ _ _ _ Hl Hi) as [Hg Hk].
  - rewrite Hg in He. destruct (hand w) eqn:Hh; [done|]. destruct (w4s w) eqn:E4.
    + destruct (wbCh4s db) as [|[c|] q] eqn:Eq; [done| |by inversion Hq4].
      rewrite worker_recv_live in He by done. injection He as <- <-. split; [done|].
      apply (running_set _ _ w); [|done..]. inversion Hq4; subst. by destruct Hrun.
    + destruct (wbCh db) as [|[c|] q] eqn:Eq; [by rewrite Ho in He| |by inversion Hq].
      rewrite worker_recv_live in He by done. injection He as <- <-. split; [done|].
      apply (running_set _ _ w); [|done..]. inversion Hq; subst. by destruct Hrun.
  - destruct (hand w) as [c|]; [|done]. cbn in He. unfold executeDirect in He.
    injection He as <- <-. split; [done|].
    apply (running_set (set_redis (redis_do c (redis db)).2 db) _ w); [|done..]. by destruct Hrun.
  - rewrite Ho, andb_false_r in He. destruct (gone w), (hand w); done.
  - rewrite Hg, Hk in He. destruct (hand w); [done|]. by injection He as <- <-.
Qed.

(** Every worker has empty hands or one of them can carry out a command. *)
Lemma hands_cases ws : hands ws = [] ∨ ∃ i w c, ws !! i = Some w ∧ hand w = Some c.
Proof.
  induction ws as [|w ws IH]; [by left|]. unfold hands. cbn [omap list_omap].
  destruct (hand w) as [c|] eqn:E; [right; by exists 0%nat, w, c|].
  destruct IH as [IH|(i & v & c & Hi & Hv)]; [by left|right]. by exists (S i), v, c.
Qed.

Lemma hands_nil ws i w : hands ws = [] → ws !! i = Some w → hand w = None.
Proof.
  intros Hn Hi. destruct (hands_split ws i w w Hi) as (l1 & l2 & E & _). rewrite Hn in E.
  destruct (hand w); [|done]. by destruct l1.
Qed.

(** While something is pending, some worker can make a step that is progress. *)
Lemma running_progress db :
  running db → (0 < work db)%nat →
  ∃ e db', worker_event e db = Some (Ret tt, db') ∧ (work db' < work db)%nat.
Proof.
  intros Hrun Hw. destruct (id Hrun) as [Ho Hq Hq4 Hl (i & w & Hi & E4) (j & v & Hj & E4')].
  destruct (hands_cases (workers db)) as [Hn|(k & u & c & Hk & Hc)].
  - destruct (Forall_lookup_1 _ _ _ _ Hl Hi) as [Hg Hkl], (Forall_lookup_1 _ _ _ _ Hl Hj) as [Hg' Hkl'].
    destruct (wbCh db) as [|[c|] q] eqn:Eq; [|exists (Take i)|by inversion Hq].
    + destruct (wbCh4s db) as [|[c|] q] eqn:Eq4; [unfold work in Hw; rewrite Eq, Eq4, Hn in Hw; cbn in Hw; lia| |by inversion Hq4].
      exists (Take j). cbn. rewrite Hj. cbn. rewrite Hg', (hands_nil _ _ _ Hn Hj), E4', Eq4, worker_recv_live by done.
      eexists. split; [done|]. unfold work. cbn [wbCh wbCh4s workers set_worker set_workers set_wbCh4s].
      pose proof (hands_length _ _ _ (mkWorker (w4s v) (wbTotal v) (kill v) (send_kill v) (Some c) (gone v)) Hj) as Hh.
      rewrite (hands_nil _ _ _ Hn Hj) in Hh. cbn [held hand length] in *. lia.
    + cbn. rewrite Hi. cbn. rewrite Hg, (hands_nil _ _ _ Hn Hi), E4, Eq, worker_recv_live by done.
      eexists. split; [done|]. unfold work. cbn [wbCh wbCh4s workers set_worker set_workers set_wbCh].
      pose proof (hands_length _ _ _ (mkWorker (w4s w) (wbTotal w) (kill w) (send_kill w) (Some c) (gone w)) Hi) as Hh.
      rewrite (hands_nil _ _ _ Hn Hi) in Hh. cbn [held hand length] in *. lia.
  - exists (Exec k). cbn. rewrite Hk. cbn. rewrite Hc. cbn. unfold executeDirect.
    eexists. split; [done|]. unfold work. cbn [wbCh wbCh4s workers set_worker set_workers set_redis].
    pose proof (hands_length _ _ _ (mkWorker (w4s u) (wbTotal u) (kill u) (send_kill u) None (gone u)) Hk) as Hh.
    rewrite Hc in Hh. cbn [held hand length] in *. lia.
Qed.

Lemma work_drained db : work db = 0%nat → drained db.
Proof.
  unfold work, drained, pending. intros E.
  destruct (wbCh db), (wbCh4s db), (hands (workers db)); cbn in E; done || lia.
Qed.

Lemma running_drains db : running db → ∃ es db', db_run db es (Ret tt) db' ∧ drained db' ∧ running db'.
Proof.
  remember (work db) as n eqn:En. revert db En.
  induction (lt_wf n) as [n _ IH]. intros db -> Hrun.
  destruct (decide (work db = 0%nat)) as [E|Hne].
  - exists [], db. split; [constructor|]. split; [by apply work_drained|done].
  - destruct (running_progress db Hrun) as (e & db1 & He & Hlt); [lia|].
    destruct (running_event e db (Ret tt) db1 Hrun He) as [_ Hrun1].
    destruct (IH (work db1) Hlt db1 eq_refl Hrun1) as (es & db2 & Hr & Hd & Hrun2).
    exists (e :: es), db2. split; [by econstructor|done].
Qed.

(** Runs, computed. *)
Fixpoint run_events (es : list event) db : option (SaraDatabase R) :=
  match es with
  | [] => Some db
  | e :: es' =>
      match worker_event e db with
      | Some (Ret _, db') => run_events es' db'
      | _ => None
      end
  end.

Lemma run_events_sound es db db' : run_events es db = Some db' → db_run db es (Ret tt) db'.
Proof.
  revert db. induction es as [|e es IH]; intros db; cbn.
  - intros [= <-]. constructor.
  - destruct (worker_event e db) as [[[[]|p] db1]|] eqn:E; [|done..].
    intros Hr. econstructor; [exact E|by apply IH].
Qed.

Lemma run_events_default es db :
  match run_events es db with Some _ => true | None => false end = true → db_run db es (Ret tt) (default db (run_events es db)).
Proof. intros E. apply run_events_sound. by destruct (run_events es db). Qed.

Lemma running_run db es o db' : running db → db_run db es o db' → o = Ret tt ∧ running db'.
Proof.
  intros Hrun Hr. induction Hr as [db|db e es db1 o db2 He Hr IH|db e p db1 He]; [done|..].
  - apply IH. by eapply running_event.
  - by apply running_event in He as [? _].
Qed.

(** A fresh database runs; the operations keep it so. *)
Lemma consumerTotal_pos n : 0 < consumerTotal n.
Proof. unfold consumerTotal. destruct (100 <? n) eqn:E; [|lia]. apply Z.div_str_pos. lia. Qed.

Lemma NewDatabase_running n (r : R) : running (NewDatabase n r).
Proof.
  pose proof (consumerTotal_pos n). unfold NewDatabase, wbfConsumer. split; cbn; try done.
  - apply Forall_app. split; apply Forall_replicate; done.
  - exists 0%nat. eexists. rewrite lookup_app_l by (rewrite length_replicate; lia).
    rewrite lookup_replicate_2 by lia. done.
  - exists (Z.to_nat (consumerTotal n)). eexists.
    rewrite lookup_app_r by (rewrite length_replicate; lia). rewrite length_replicate, Nat.sub_diag.
    rewrite lookup_replicate_2 by lia. done.
Qed.
End Running.

(** ** Properties *)

Section Properties.
Context {R : Type} `{RedisLaws R}.
Implicit Types db : SaraDatabase R.

(** C6: the workers carry out every queued command exactly once: after any run of
    them that does not crash, what redis holds is the effect of some of the pending
    commands, each once, and the others are still pending. *)
Theorem workers_execute_exactly_once db es db' :
  up (redis db) → db_run db es (Ret tt) db' →
  ∃ done, pending db ≡ₚ done ++ pending db' ∧ keys db' = run_cmds done (keys db).
Proof. intros Hup Hr. by destruct (db_run_executes db es db' Hup Hr) as [_ ?]. Qed.

(** C28: when the pending commands are independent of each other, all runs that
    drain the queues end with the same contents of redis, those of carrying the
    commands out in the order of the queues. *)
Theorem drained_state_unique db es db' :
  up (redis db) → pairwise independent (pending db) → db_run db es (Ret tt) db' → drained db' →
  keys db' = run_cmds (pending db) (keys db).
Proof.
  intros Hup Hw Hr Hd. destruct (db_run_executes db es db' Hup Hr) as (_ & cs & Hp & ->).
  rewrite Hd, app_nil_r in Hp. symmetry. by apply run_cmds_perm.
Qed.

(** Storing a list of messages under one index. *)
Definition store_all (idx : bytes) (ex : Z) (l : list (bytes * bytes)) : M (SaraDatabase R) unit :=
  for_range l (λ kv, PutExWithIdx idx kv.1 kv.2 ex >>> ret tt).

Definition store_cmds (idx : bytes) (ex : Z) (kv : bytes * bytes) : list rcmd :=
  [HSET (idx ++ IDX_SUFFIX) kv.1 kv.2; if 0 <? ex then SETEX kv.1 ex kv.2 else SET kv.1 kv.2].

Lemma store_all_queues idx ex l db :
  wbCh_closed db = false → Forall (λ kv, ¬ session_key kv.1) l →
  store_all idx ex l db = (Ret tt, set_wbCh (wbCh db ++ map WB (l ≫= store_cmds idx ex)) db).
Proof.
  revert db. induction l as [|[k v] l IH]; intros db Ho Hs; unfold store_all in *; cbn [for_range].
  - cbn. rewrite app_nil_r. by destruct db.
  - inversion Hs; subst. unfold bind at 1 2. rewrite PutExWithIdx_other by done.
    unfold ret at 1. rewrite IH by done. unfold set_wbCh. cbn. by rewrite <-app_assoc.
Qed.

Lemma store_cmds_independent idx ex l :
  NoDup l.*1 → idx ++ IDX_SUFFIX ∉ l.*1 → pairwise independent (l ≫= store_cmds idx ex).
Proof.
  induction l as [|[k v] l IH]; cbn; [done|]. intros Hnd Hi.
  apply list.NoDup_cons in Hnd as [Hk Hnd]. apply not_elem_of_cons in Hi as [Hik Hi].
  assert (∀ c, c ∈ l ≫= store_cmds idx ex → ∃ kv, kv ∈ l ∧ c ∈ store_cmds idx ex kv) as Hin.
  { intros c Hc. apply list_elem_of_bind in Hc as (kv & ? & ?). eauto. }
  assert (rkey (if 0 <? ex then SETEX k ex v else SET k v) = k) as Ek by by destruct (0 <? ex).
  split; [constructor; [left; by rewrite Ek|]|split; [|by apply IH]];
    apply list.Forall_forall; intros c (kv & Hkv & Hc)%Hin;
    assert (kv.1 ∈ l.*1) by (by apply list_elem_of_fmap_2);
    apply elem_of_cons in Hc as [->|Hc%list_elem_of_singleton]; subst.
  - right. split; [done|]. intros Heq. apply Hk. by rewrite Heq.
  - left. destruct (0 <? ex); cbn [rkey]; intros Heq; apply Hi; by rewrite Heq.
  - left. rewrite Ek. by apply not_eq_sym.
  - left. rewrite Ek. destruct (0 <? ex); cbn [rkey]; intros Heq; apply Hk; by rewrite Heq.
Qed.

(** Carrying out the stores puts every message into the index. *)
Lemma run_store_cmds idx ex l m x :
  hash_at m (idx ++ IDX_SUFFIX) = OK x → idx ++ IDX_SUFFIX ∉ l.*1 →
  hash_at (run_cmds (l ≫= store_cmds idx ex) m) (idx ++ IDX_SUFFIX) =
  OK (foldl (λ y kv, <[kv.1 := kv.2]> y) x l).
Proof.
  revert m x. induction l as [|[k v] l IH]; intros m x Hx Hi; [done|].
  cbn in Hi. apply not_elem_of_cons in Hi as [Hik Hi].
  cbn [mbind list_bind]. rewrite run_cmds_app. apply IH; [|done].
  unfold store_cmds, run_cmds. cbn [foldl fst snd].
  set (c := if 0 <? ex then SETEX k ex v else SET k v).
  assert (rkey c = k) as Ek by by subst c; destruct (0 <? ex).
  rewrite hash_at_other by by rewrite Ek. cbn [redis_spec]. rewrite Hx. apply put_hash_hash.
Qed.

Lemma insert_all_list (l : list (bytes * bytes)) (x : gmap bytes bytes) :
  NoDup l.*1 → (∀ k, k ∈ l.*1 → x !! k = None) →
  map_to_list (foldl (λ y kv, <[kv.1 := kv.2]> y) x l) ≡ₚ l ++ map_to_list x.
Proof.
  revert x. induction l as [|[k v] l IH]; intros x Hnd Hx; [done|]. cbn [foldl].
  apply list.NoDup_cons in Hnd as [Hk Hnd]. rewrite IH; [|done|].
  - cbn [fst snd]. rewrite map_to_list_insert by (apply Hx; set_solver). solve_Permutation.
  - intros k' Hk'. rewrite lookup_insert_ne by (intros <-; done). apply Hx. cbn. set_solver.
Qed.

Lemma drained_parts db : drained db → cmds (wbCh db) = [] ∧ cmds (wbCh4s db) = [] ∧ hands (workers db) = [].
Proof. unfold drained, pending. intros [? [? ?]%app_eq_nil]%app_eq_nil. done. Qed.

Lemma cmds_map cs : cmds (map WB cs) = cs.
Proof. induction cs as [|c cs IH]; [done|]. cbn in *. by f_equal. Qed.

(** C5: messages stored under an index are all found there once the workers have
    drained the queues, whatever the order in which the workers carried the writes
    out. *)
Theorem stored_messages_are_fetched db idx ex l db1 es db2 :
  up (redis db) → wbCh_closed db = false → drained db →
  hash_at (keys db) (idx ++ IDX_SUFFIX) = OK ∅ →
  NoDup l.*1 → idx ++ IDX_SUFFIX ∉ l.*1 → Forall (λ kv, ¬ session_key kv.1) l →
  store_all idx ex l db = (Ret tt, db1) → db_run db1 es (Ret tt) db2 → drained db2 →
  ∃ db3 vals, GetByIdx idx db2 = (Ret (OK vals), db3) ∧ vals ≡ₚ l.*2.
Proof.
  intros Hup Ho Hd Hx Hnd Hi Hs Hst Hr Hd2. rewrite store_all_queues in Hst by done. injection Hst as <-.
  destruct (drained_parts db Hd) as (E1 & E2 & E3).
  eapply db_run_executes in Hr as (Hup2 & cs & Hp & Hk); [|done].
  unfold pending in Hp at 1. cbn [wbCh wbCh4s workers set_wbCh] in Hp.
  rewrite cmds_app, cmds_map, E1, E2, E3, Hd2, !app_nil_r in Hp. cbn [app] in Hp.
  rewrite <-(run_cmds_perm _ _ _ Hp) in Hk by by apply store_cmds_independent.
  destruct (GetByIdx_reads db2 idx (foldl (λ y kv, <[kv.1 := kv.2]> y) ∅ l)) as (db3 & vals & E & Hv & _); [done| |].
  - rewrite Hk. by apply run_store_cmds.
  - exists db3, vals. split; [done|]. rewrite Hv, insert_all_list by done. by rewrite map_to_list_empty, app_nil_r.
Qed.

(** C15: until the database is closed its workers never crash, and from every state
    they can be in they can still drain both queues; what redis then holds is the effect of
    every command that was queued or taken, each carried out once. *)
Theorem queues_always_drainable db es o db' :
  running db → db_run db es o db' →
  o = Ret tt ∧ ∃ es' db'', db_run db' es' (Ret tt) db'' ∧ drained db'' ∧
    (up (redis db') → ∃ cs, cs ≡ₚ pending db' ∧ keys db'' = run_cmds cs (keys db')).
Proof.
  intros Hrun Hr. apply running_run in Hr as [-> Hrun']; [|done]. split; [done|].
  destruct (running_drains db' Hrun') as (es' & db'' & Hr' & Hd & _). exists es', db''. split_and!; [done..|].
  intros Hup. destruct (db_run_executes db' es' db'' Hup Hr') as (_ & cs & Hcs & Hk). exists cs.
  by rewrite Hd, app_nil_r in Hcs.
Qed.

Lemma first_4s_worker n (r : R) :
  workers (NewDatabase n r) !! Z.to_nat (consumerTotal n) = Some (new_worker true (consumerTotal n)).
Proof.
  pose proof (consumerTotal_pos n). cbn. unfold wbfConsumer.
  rewrite lookup_app_r by (rewrite length_replicate; lia). rewrite length_replicate, Nat.sub_diag.
  by rewrite lookup_replicate_2 by lia.
Qed.

Lemma Delete_pending k db :
  wbCh_closed db = false →
  ∃ db', Delete k db = (Ret None, db') ∧ pending db' ≡ₚ DEL k :: pending db ∧
    redis db' = redis db ∧ wbCh_closed db' = false.
Proof.
  intros Ho. unfold Delete, execute, execute4s, send_wbCh. destruct (is4s k); run_m; [|rewrite Ho; cbn].
  all: eexists; split; [reflexivity|]; unfold pending; cbn; rewrite cmds_app; (split; [|done]);
    cbn [cmds omap list_omap]; solve_Permutation.
Qed.

Lemma delete_all_pending ids db :
  wbCh_closed db = false →
  ∃ db', for_range ids (λ k, Delete k >>> ret tt) db = (Ret tt, db') ∧
    pending db' ≡ₚ map DEL ids ++ pending db ∧ redis db' = redis db ∧ wbCh_closed db' = false.
Proof.
  revert db. induction ids as [|k ids IH]; intros db Ho; cbn [for_range map].
  - by exists db.
  - destruct (Delete_pending k db Ho) as (db1 & E1 & P1 & R1 & O1).
    destruct (IH db1 O1) as (db2 & E2 & P2 & R2 & O2).
    exists db2. unfold bind. rewrite E1. cbn. unfold bind in E2. rewrite E2. split_and!; try congruence.
    rewrite P2, P1. solve_Permutation.
Qed.

(** Deletions of different keys are independent, and leave none of the keys. *)
Lemma dels_independent ks : NoDup ks → pairwise independent (map DEL ks).
Proof.
  induction ks as [|k ks IH]; cbn; [done|]. intros [Hk Hnd]%list.NoDup_cons. split; [|by apply IH].
  apply list.Forall_forall. intros c (k' & -> & Hk')%list_elem_of_fmap. left. cbn. by intros ->.
Qed.

Lemma run_dels ks m k : k ∈ ks → run_cmds (map DEL ks) m !! k = None.
Proof.
  revert m. induction ks as [|k' ks IH]; intros m Hk; [by apply not_elem_of_nil in Hk|].
  cbn [map]. change (run_cmds (DEL k' :: map DEL ks) m) with (run_cmds (map DEL ks) (delete k' m)).
  destruct (decide (k ∈ ks)); [by apply IH|]. apply elem_of_cons in Hk as [<-|]; [|done].
  assert (∀ l m, k ∉ l → m !! k = None → run_cmds (map DEL l) m !! k = None) as Hl.
  { induction l as [|a l IHl]; intros m0 Hn Hm; [done|]. apply not_elem_of_cons in Hn as [Hne Hn].
    apply (IHl (delete a m0)); [done|]. by rewrite lookup_delete_ne. }
  apply Hl; [done|apply lookup_delete_eq].
Qed.

(** [DeleteByIdx] queues the deletion of every key of the index and of the index. *)
Lemma DeleteByIdx_pending idx x db :
  up (redis db) → wbCh_closed db = false → hash_at (keys db) (idx ++ IDX_SUFFIX) = OK x →
  ∃ ids db', DeleteByIdx idx db = (Ret None, db') ∧ ids ≡ₚ (map_to_list x).*1 ∧
    pending db' ≡ₚ map DEL ((idx ++ IDX_SUFFIX) :: ids) ++ pending db ∧ keys db' = keys db ∧ up (redis db').
Proof.
  intros Hup Ho Hx. unfold DeleteByIdx.
  direct (HKEYS (idx ++ IDX_SUFFIX)) db Hup. rename H1 into Hq, H2 into Hcl, H3 into Hq4, H4 into Hw.
  cbn [redis_spec fst] in Hr. rewrite Hx in Hr. destruct a as [| |l| |]; try done. cbn in Hr.
  destruct (list_bytes_perm l _ Hr) as (ids & E & Hids). cbn [Resp_ListBytes]. rewrite E.
  destruct (delete_all_pending ids db') as (db3 & E3 & P3 & R3 & O3); [by rewrite Hcl|].
  destruct (Delete_pending (idx ++ IDX_SUFFIX) db3 O3) as (db4 & E4 & P4 & R4 & _).
  erewrite bind_Ret by exact E3. erewrite bind_Ret by exact E4. exists ids, db4. split; [done|]. split; [done|].
  assert (pending db' = pending db) as Ep by (unfold pending; by rewrite Hq, Hq4, Hw).
  split; [by rewrite P4, P3, Ep|]. unfold keys in *. by rewrite R4, R3.
Qed.

(** C24: deleting by an index removes exactly what it names: once the queues are drained, in
    whatever order the workers took the deletions, every key that the index named and the index
    itself are gone, and every other key is as it was. *)
Theorem delete_by_index_removes_all db idx x :
  up (redis db) → drained db → wbCh_closed db = false →
  hash_at (keys db) (idx ++ IDX_SUFFIX) = OK x → x !! (idx ++ IDX_SUFFIX) = None →
  ∃ db1, DeleteByIdx idx db = (Ret None, db1) ∧
    ∀ es db2, db_run db1 es (Ret tt) db2 → drained db2 → ∀ k,
      (is_Some (x !! k) ∨ k = idx ++ IDX_SUFFIX → keys db2 !! k = None) ∧
      (x !! k = None → k ≠ idx ++ IDX_SUFFIX → keys db2 !! k = keys db !! k).
Proof.
  intros Hup Hd Ho Hx Hidx.
  destruct (DeleteByIdx_pending idx x db Hup Ho Hx) as (ids & db' & E & Hids & Hp' & Hkeys & Hu').
  exists db'. split; [exact E|]. intros es db2 Hr Hd2 k.
  assert (∀ i, i ∈ ids ↔ is_Some (x !! i)) as Hin.
  { intros i. rewrite Hids, list_elem_of_fmap. split.
    - intros ([i' v] & -> & Hv). exists v. by apply elem_of_map_to_list in Hv.
    - intros [v Hv]. exists (i, v). split; [done|]. by apply elem_of_map_to_list. }
  eapply db_run_executes in Hr as (_ & cs & Hp & ->); [|done]. rewrite Hp', Hd, Hd2, !app_nil_r in Hp.
  rewrite <-(run_cmds_perm _ _ _ Hp), Hkeys.
  - split; intros Hk.
    + apply run_dels. rewrite elem_of_cons, Hin. by destruct Hk; [right|left].
    + intros Hne. apply run_cmds_other. rewrite map_map. cbn [rkey]. rewrite map_id, elem_of_cons, Hin, Hk.
      by intros [?|[? ?]].
  - apply dels_independent, list.NoDup_cons. split; [|rewrite Hids; apply NoDup_fst_map_to_list].
    rewrite Hin, Hidx. by intros [? ?].
Qed.

(** Closing the database while the deletion of a session record is queued can
    crash the process: [Close] closes [wbCh] first, and a session worker that has
    been signalled and then takes the command sends [KILL] on the closed channel.
    The deletion is lost. *)
Theorem close_with_backlog_can_crash n (r : R) idx key :
  session_key key →
  ∃ es db', db_run (close_wbCh (DeleteByIdxKey idx key (NewDatabase n r)).2) es (Panic closed_channel) db' ∧
    redis db' = r.
Proof.
  intros Hs. rewrite DeleteByIdxKey_session by done. cbn [snd].
  set (i := Z.to_nat (consumerTotal n)). set (w := new_worker true (consumerTotal n)).
  pose proof (first_4s_worker n r) as Hi. fold i w in Hi. cbn in Hi.
  exists [Signal i; Take i]. eexists. split; [eapply run_cons; [|eapply run_crash]|].
  - cbn. rewrite Hi. cbn. reflexivity.
  - cbn. rewrite list_lookup_insert_eq by (by eapply lookup_lt_Some). cbn. reflexivity.
  - done.
Qed.

(** Deletions of session records are queued while new records are written at
    once, so a login that follows a logout of the same user is erased: once the
    queues are drained the record is gone, for every order of the workers. *)
Theorem queued_delete_erases_relogin db idx idx' key v ex db1 db2 es db3 :
  up (redis db) → drained db → session_key key → idx ++ IDX_SUFFIX ≠ key →
  index_name (keys db) idx' →
  DeleteByIdxKey idx key db = (Ret None, db1) →
  PutExWithIdx idx' key v ex db1 = (Ret None, db2) →
  db_run db2 es (Ret tt) db3 → drained db3 →
  str_at (keys db3) key = None.
Proof.
  intros Hup Hd Hs Hne Hi Hdel Hput Hr Hd3. rewrite DeleteByIdxKey_session in Hdel by done. injection Hdel as <-.
  destruct (PutExWithIdx_session (set_wbCh4s (wbCh4s db ++ [WB (HDEL (idx ++ IDX_SUFFIX) key); WB (DEL key)]) db)
              idx' key v ex Hup Hs Hi) as (db' & E & Hup2 & _ & Eq & _ & Eq4 & Ew).
  rewrite E in Hput. injection Hput as ->. eapply db_run_executes in Hr as (_ & cs & Hp & ->); [|done].
  destruct (drained_parts db Hd) as (E1 & E2 & E3).
  unfold pending in Hp at 1. rewrite Eq, Eq4, Ew in Hp. cbn [wbCh wbCh4s workers set_wbCh4s] in Hp.
  rewrite cmds_app, E1, E2, E3, Hd3, !app_nil_r in Hp. cbn [cmds omap list_omap app] in Hp.
  rewrite <-(run_cmds_perm _ _ _ Hp) by by repeat constructor.
  unfold run_cmds, str_at. cbn [foldl redis_spec snd]. by rewrite lookup_delete_eq.
Qed.
End Properties.

(** Two workers of the message channel. *)
Lemma wbfConsumer_two n :
  ∃ rest, wbfConsumer n = new_worker false (consumerTotal n) :: new_worker false (consumerTotal n) :: rest ∧
    hands rest = [].
Proof.
  assert (20 ≤ consumerTotal n) as Hn.
  { unfold consumerTotal. destruct (100 <? n) eqn:E; [|done]. apply Z.div_le_lower_bound; lia. }
  unfold wbfConsumer. destruct (Z.to_nat (consumerTotal n)) as [|[|k]] eqn:Ek; [lia..|].
  exists (replicate k (new_worker false (consumerTotal n)) ++ replicate (S (S k)) (new_worker true (consumerTotal n))).
  split; [done|]. assert (∀ k b t, hands (replicate k (new_worker b t)) = []) as Hr by (by induction k0).
  unfold hands in *. by rewrite omap_app, !Hr.
Qed.

(** Four commands of which the first is carried out last. *)
Lemma overtaking_run {R} `{RedisServer R} (r : R) (c1 c2 c3 c4 : rcmd) t rest :
  let w := new_worker false t in
  db_run (mkDb r [WB c1; WB c2; WB c3; WB c4] false [] (w :: w :: rest))
    [Take 0; Take 1; Exec 1; Take 1; Exec 1; Take 1; Exec 1; Exec 0] (Ret tt)
    (mkDb (redis_do c1 (redis_do c4 (redis_do c3 (redis_do c2 r).2).2).2).2 [] false [] (w :: w :: rest)).
Proof. apply run_events_sound. reflexivity. Qed.

(** The writes of one message are not ordered: the deletion of an acknowledged
    message can overtake the write of its index entry, after which the message is in
    the index again although nothing is pending. *)
Theorem delete_can_overtake_store (n : Z) (m : keyspace) idx key v ex x :
  ¬ session_key key → idx ++ IDX_SUFFIX ≠ key → hash_at m (idx ++ IDX_SUFFIX) = OK x →
  ∃ es db', db_run ((PutExWithIdx idx key v ex >>> DeleteByIdxKey idx key) (NewDatabase n m)).2 es (Ret tt) db' ∧
    drained db' ∧ ∃ y, hash_at (redis db') (idx ++ IDX_SUFFIX) = OK y ∧ y !! key = Some v.
Proof.
  intros Hs Hne Hx. unfold bind. rewrite PutExWithIdx_other by done. rewrite DeleteByIdxKey_other by done.
  cbn [snd]. destruct (wbfConsumer_two n) as (rest & Ew & Hrest).
  unfold NewDatabase, set_wbCh. rewrite Ew. cbn [redis wbCh wbCh_closed wbCh4s workers app].
  set (c := if 0 <? ex then SETEX key ex v else SET key v).
  do 2 eexists. split; [apply overtaking_run|]. split; [done|].
  change (@redis_do keyspace spec_server) with redis_spec. cbn [redis].
  set (m' := (redis_spec (DEL key) (redis_spec (HDEL (idx ++ IDX_SUFFIX) key) (redis_spec c m).2).2).2).
  assert (rkey c = key) as Ec by by subst c; destruct (0 <? ex).
  assert (∃ y, hash_at m' (idx ++ IDX_SUFFIX) = OK y) as [y Hy].
  { subst m'. rewrite hash_at_other by by apply not_eq_sym. cbn [redis_spec].
    rewrite (hash_at_other c) by (rewrite Ec; by apply not_eq_sym). rewrite Hx. cbn.
    rewrite put_hash_hash. eauto. }
  exists (<[key := v]> y). split; [|apply lookup_insert_eq].
  fold m'.
  cbn [redis_spec]. rewrite Hy. apply put_hash_hash.
Qed.

(** ** The properties at concrete inputs *)

Definition ex_db0 : SaraDatabase keyspace := NewDatabase 10 ∅.
Definition ex_idx : bytes := §"offline_bob@d".
Definition ex_msgs : list (bytes * bytes) := [(§"m1", §"hello"); (§"m2", §"again")].
Definition ex_db1 : SaraDatabase keyspace := (store_all ex_idx 60 ex_msgs ex_db0).2.
Definition ex_events : list event := [Take 0; Take 1; Take 2; Take 3; Exec 3; Exec 2; Exec 1; Exec 0].
Definition ex_db2 : SaraDatabase keyspace := default ex_db1 (run_events ex_events ex_db1).

Lemma workers_execute_exactly_once_witness :
  ∃ done, pending ex_db1 ≡ₚ done ++ pending ex_db2 ∧ keys ex_db2 = run_cmds done (keys ex_db1).
Proof.
  apply (workers_execute_exactly_once ex_db1 ex_events ex_db2); [exact I|].
  apply run_events_default. vm_compute. reflexivity.
Defined.

Lemma ex_independent : pairwise independent (pending ex_db1).
Proof.
  assert (pending ex_db1 = ex_msgs ≫= store_cmds ex_idx 60) as -> by (vm_compute; reflexivity).
  apply store_cmds_independent; apply (bool_decide_unpack _); vm_compute; exact I.
Qed.

Lemma drained_state_unique_witness : keys ex_db2 = run_cmds (pending ex_db1) (keys ex_db1).
Proof.
  apply (drained_state_unique ex_db1 ex_events ex_db2); [exact I|exact ex_independent| |].
  - apply run_events_default. vm_compute. reflexivity.
  - vm_compute. reflexivity.
Defined.

Lemma not_session_dec key : is4s key = false → ¬ session_key key.
Proof. intros H Hs%is4s_spec. congruence. Qed.

Lemma stored_messages_are_fetched_witness :
  ∃ db3 vals, GetByIdx ex_idx ex_db2 = (Ret (OK vals), db3) ∧ vals ≡ₚ [§"hello"; §"again"].
Proof.
  apply (stored_messages_are_fetched ex_db0 ex_idx 60 ex_msgs ex_db1 ex_events ex_db2).
  - exact I.
  - reflexivity.
  - vm_compute. reflexivity.
  - vm_compute. reflexivity.
  - apply (bool_decide_unpack _). vm_compute. exact I.
  - apply (bool_decide_unpack _). vm_compute. exact I.
  - repeat constructor; apply not_session_dec; vm_compute; reflexivity.
  - vm_compute. reflexivity.
  - apply run_events_default. vm_compute. reflexivity.
  - vm_compute. reflexivity.
Defined.

Lemma ex_db1_running : running ex_db1.
Proof.
  split.
  - reflexivity.
  - repeat (constructor; [exact I|]). constructor.
  - constructor.
  - vm_compute. repeat (constructor; [split; reflexivity|]). constructor.
  - exists 0%nat. eexists. split; vm_compute; reflexivity.
  - exists 20%nat. eexists. split; vm_compute; reflexivity.
Qed.

(** Four commands are queued, one worker has taken the first and another has executed the second. *)
Definition ex_taken : SaraDatabase keyspace := default ex_db1 (run_events [Take 0; Take 1; Exec 1] ex_db1).

Lemma queues_always_drainable_witness :
  length (pending ex_taken) = 3%nat ∧ length (wbCh ex_taken) = 2%nat ∧
  ∃ es' db'', db_run ex_taken es' (Ret tt) db'' ∧ drained db'' ∧
    ∃ cs, cs ≡ₚ pending ex_taken ∧ keys db'' = run_cmds cs (keys ex_taken).
Proof.
  split; [vm_compute; reflexivity|]. split; [vm_compute; reflexivity|].
  destruct (queues_always_drainable ex_db1 [Take 0; Take 1; Exec 1] (Ret tt) ex_taken) as (_ & es' & db'' & Hr & Hd & Hcs).
  - exact ex_db1_running.
  - apply run_events_default. vm_compute. reflexivity.
  - exists es', db''. split; [exact Hr|]. split; [exact Hd|]. apply Hcs. exact I.
Defined.

Definition ex_key : bytes := §"session_bob@d".

Lemma ex_key_session : session_key ex_key.
Proof. by exists (§"bob@d"). Qed.

Lemma close_with_backlog_can_crash_witness :
  ∃ es db', db_run (close_wbCh (DeleteByIdxKey (§"n01") ex_key (NewDatabase 10 (∅ : keyspace))).2) es
    (Panic closed_channel) db' ∧ redis db' = ∅.
Proof. apply (close_with_backlog_can_crash 10 (∅ : keyspace)). exact ex_key_session. Defined.

Definition ex_db3 : SaraDatabase keyspace := (DeleteByIdxKey (§"n01") ex_key ex_db0).2.
Definition ex_db4 : SaraDatabase keyspace := (PutExWithIdx (§"n01") ex_key (§"new") (-1) ex_db3).2.
Definition ex_events4 : list event := [Take 20; Exec 20; Take 20; Exec 20].
Definition ex_db5 : SaraDatabase keyspace := default ex_db4 (run_events ex_events4 ex_db4).

Lemma queued_delete_erases_relogin_witness : str_at (keys ex_db5) ex_key = None.
Proof.
  apply (queued_delete_erases_relogin ex_db0 (§"n01") (§"n01") ex_key (§"new") (-1) ex_db3 ex_db4 ex_events4 ex_db5).
  - exact I.
  - vm_compute. reflexivity.
  - exact ex_key_session.
  - vm_compute. discriminate.
  - eexists. vm_compute. reflexivity.
  - apply pair_fst. vm_compute. reflexivity.
  - apply pair_fst. vm_compute. reflexivity.
  - apply run_events_default. vm_compute. reflexivity.
  - vm_compute. reflexivity.
Defined.

Lemma delete_can_overtake_store_witness :
  ∃ es db', db_run ((PutExWithIdx ex_idx (§"m1") (§"hello") 60 >>> DeleteByIdxKey ex_idx (§"m1"))
                      (NewDatabase 10 (∅ : keyspace))).2 es (Ret tt) db' ∧
    drained db' ∧ ∃ y, hash_at (redis db') (ex_idx ++ IDX_SUFFIX) = OK y ∧ y !! (§"m1") = Some (§"hello").
Proof.
  apply (delete_can_overtake_store 10 ∅ ex_idx (§"m1") (§"hello") 60 ∅).
  - apply not_session_dec. vm_compute. reflexivity.
  - vm_compute. discriminate.
  - vm_compute. reflexivity.
Defined.

Definition ex_ghosts : keyspace :=
  {[ §"n01" ++ IDX_SUFFIX := mkEntry (VHash {[ ex_key := §"old" ]}) None; ex_key := mkEntry (VStr (§"old")) None;
     §"other" := mkEntry (VStr (§"kept")) None ]}.
Definition ex_db6 : SaraDatabase keyspace := NewDatabase 10 ex_ghosts.
Definition ex_db7 : SaraDatabase keyspace := (DeleteByIdx (§"n01") ex_db6).2.
Definition ex_events7 : list event := [Take 20; Exec 20; Take 0; Exec 0].
Definition ex_db8 : SaraDatabase keyspace := default ex_db7 (run_events ex_events7 ex_db7).

Lemma ex_deletes : DeleteByIdx (§"n01") ex_db6 = (Ret None, ex_db7).
Proof. apply pair_fst. vm_compute. reflexivity. Qed.

Lemma delete_by_index_removes_all_witness :
  keys ex_db8 !! ex_key = None ∧ keys ex_db8 !! (§"n01" ++ IDX_SUFFIX) = None ∧
  keys ex_db8 !! §"other" = Some (mkEntry (VStr (§"kept")) None).
Proof.
  destruct (delete_by_index_removes_all ex_db6 (§"n01") {[ ex_key := §"old" ]}) as (db1 & E & Hrun).
  - exact I.
  - vm_compute. reflexivity.
  - reflexivity.
  - reflexivity.
  - vm_compute. reflexivity.
  - rewrite (pair_det _ _ _ _ E ex_deletes) in Hrun. specialize (Hrun ex_events7 ex_db8).
    assert (db_run ex_db7 ex_events7 (Ret tt) ex_db8) as Hr by (apply run_events_default; vm_compute; reflexivity).
    assert (drained ex_db8) as Hd by (vm_compute; reflexivity). specialize (Hrun Hr Hd). split_and!.
    + apply Hrun. left. vm_compute. by eexists.
    + apply Hrun. by right.
    + rewrite (proj2 (Hrun (§"other"))); [reflexivity|reflexivity|discriminate].
Defined.
