(* ===== verification/DbLife.v ===== *)
(** * DbLife: opening and closing the database, [saradb/database.go].

    Connecting to a redis cluster or to a single redis, and [Close] as the sequence of
    its blocking steps, interleaved with the workers: stopping [keepalive], closing
    [wbCh], signalling the workers of [wbCh4s] one after the other, waiting for all
    workers.  When no command on a session record is pending, closing terminates and
    carries out everything that is queued. *)

From S2P Require Import Prelude GoBytes Types Redis Database SaraDb.

(** ** Connecting *)

Inductive DBMODEL := MODEL_CLUSTER | MODEL_SINGLE.

(** The radix library: connecting to the service at an address with a pool of the given
    size gives the service or an error. *)
Class Radix (R : Type) := {
  pool_New : bytes → Z → result R;
  cluster_NewWithOpts : bytes → Z → result R }.

(** A database with its configuration. *)
Record SaraHandle (R : Type) := mkHandle {
  Addr : bytes; PoolSize : Z; model : DBMODEL; tl : bool; h_db : SaraDatabase R }.
Arguments mkHandle {R}.
Arguments Addr {R}.
Arguments PoolSize {R}.
Arguments model {R}.
Arguments tl {R}.
Arguments h_db {R}.

Section Open.
Context {R : Type} `{Radix R}.

(** [initDb] and [initClusterDb]: the workers start once the client is connected. *)
Definition initDb (addr : bytes) (poolSize : Z) : result (SaraHandle R) :=
  match pool_New addr poolSize with
  | inr p => OK (mkHandle addr poolSize MODEL_SINGLE false (NewDatabase poolSize p))
  | inl err => ERR err
  end.
Definition initClusterDb (addr : bytes) (poolSize : Z) : result (SaraHandle R) :=
  match cluster_NewWithOpts addr poolSize with
  | inr c => OK (mkHandle addr poolSize MODEL_CLUSTER false (NewDatabase poolSize c))
  | inl err => ERR err
  end.

Definition showTestLog (h : SaraHandle R) : SaraHandle R := mkHandle (Addr h) (PoolSize h) (model h) true (h_db h).
End Open.

(** ** Closing *)

(** Where the goroutine that runs [Close] is: blocked on [self.stop], in the loop over
    [wbSyncChList4s] with the workers still to be signalled, or done; after the loop it
    waits for the workers. *)
Inductive phase := PStop | PSignal (l : list nat) | PDone.

Inductive cevent := CKeep | CStop | CSignal | CWait | CWorker (e : event).

Section Close.
Context {R : Type} `{RedisServer R}.
Implicit Types db : SaraDatabase R.

Record closing := mkClosing { c_db : SaraDatabase R; c_phase : phase }.
Implicit Types c : closing.

(** The workers of [wbCh4s], in the order of [wbSyncChList4s]. *)
Definition reads4s (ws : list worker) (i : nat) : bool :=
  match ws !! i with Some w => w4s w | None => false end.
Definition wbSyncChList4s db : list nat := List.filter (reads4s (workers db)) (seq 0 (length (workers db))).

Definition is_signal (e : event) : bool := match e with Signal _ => true | _ => false end.

(** One step of [Close], of [keepalive] (with the key [k]) or of a worker; [None] when it
    is blocked.  Only the loop of [Close] signals. *)
Definition close_do (k : bytes) (e : cevent) c : option (outcome unit * closing) :=
  let '(mkClosing db p) := c in
  let at_ p (od : outcome unit * SaraDatabase R) := (od.1, mkClosing od.2 p) in
  match e, p with
  | CKeep, PStop => Some (at_ PStop (keepalive k db))
  | CStop, PStop => Some (Ret tt, mkClosing (close_wbCh db) (PSignal (wbSyncChList4s db)))
  | CSignal, PSignal (i :: l) => at_ (PSignal l) <$> worker_event (Signal i) db
  | CWait, PSignal [] => if forallb gone (workers db) then Some (Ret tt, mkClosing db PDone) else None
  | CWorker e, _ => if is_signal e then None else at_ p <$> worker_event e db
  | _, _ => None
  end.

(** The states [Close] can be in. *)
Inductive close_reach (k : bytes) db : closing → Prop :=
| reach_start : close_reach k db (mkClosing db PStop)
| reach_step c e c' : close_reach k db c → close_do k e c = Some (Ret tt, c') → close_reach k db c'.

(** A step that is neither a round of [keepalive] nor an idle time-out. *)
Definition advances (k : bytes) (c' c : closing) : Prop :=
  ∃ e, e ≠ CKeep ∧ c' ≠ c ∧ close_do k e c = Some (Ret tt, c').

(** No command on a session record is queued or in the hands of a worker. *)
Definition sessions_idle db : Prop :=
  wbCh4s db = [] ∧ ∀ i w, workers db !! i = Some w → w4s w = true → hand w = None.

(** ** What holds while such a database closes *)

Definition worker_quiet (w : worker) : Prop :=
  (if w4s w then hand w = None else kill w = false) ∧ (gone w = true → hand w = None).

Definition phase_quiet db (p : phase) : Prop :=
  match p with
  | PStop => wbCh_closed db = false ∧ Forall live (workers db)
  | PSignal l =>
      wbCh_closed db = true ∧ NoDup l ∧ (∀ i, i ∈ l → is_Some (workers db !! i)) ∧
      ∀ i w, workers db !! i = Some w → w4s w = true ∨ i ∈ l →
        w4s w = true ∧ if decide (i ∈ l) then live w else kill w = true
  | PDone => Forall (λ w, gone w = true) (workers db)
  end.

Record quiet c : Prop := {
  q_cmds : Forall is_cmd (wbCh (c_db c));
  q_4s : wbCh4s (c_db c) = [];
  q_workers : Forall worker_quiet (workers (c_db c));
  q_drained : ∀ i w, workers (c_db c) !! i = Some w → w4s w = false → gone w = true → wbCh (c_db c) = [];
  q_some : ∃ i w, workers (c_db c) !! i = Some w ∧ w4s w = false;
  q_phase : phase_quiet (c_db c) (c_phase c) }.

Lemma elem_of_wbSyncChList4s db i :
  i ∈ wbSyncChList4s db ↔ ∃ w, workers db !! i = Some w ∧ w4s w = true.
Proof.
  unfold wbSyncChList4s. rewrite list_elem_of_In, List.filter_In, <-list_elem_of_In, elem_of_seq. unfold reads4s.
  split.
  - intros [_ Hw]. destruct (workers db !! i) as [w|]; [by eauto|done].
  - intros (w & Hi & Hw). rewrite Hi. split; [|done]. apply lookup_lt_Some in Hi. lia.
Qed.

Lemma quiet_start db : running db → sessions_idle db → quiet (mkClosing db PStop).
Proof.
  intros [] [H4 Hh]. split; cbn; try done.
  - apply Forall_lookup. intros i w Hi. destruct (Forall_lookup_1 _ _ _ _ run_live Hi) as [Hg Hk].
    split; [|congruence]. destruct (w4s w) eqn:E; [by apply (Hh i)|done].
  - intros i w Hi _ Hg. destruct (Forall_lookup_1 _ _ _ _ run_live Hi). congruence.
Qed.

Lemma NoDup_wbSyncChList4s db : NoDup (wbSyncChList4s db).
Proof. apply NoDup_ListNoDup, List.NoDup_filter, NoDup_ListNoDup, NoDup_seq. Qed.

Lemma quiet_stop db : quiet (mkClosing db PStop) → quiet (mkClosing (close_wbCh db) (PSignal (wbSyncChList4s db))).
Proof.
  intros [H1 H2 H3 H4 H5 [Ho Hl]]. cbn in *. split; cbn; try done.
  split_and!; [done|apply NoDup_wbSyncChList4s| |].
  - intros i (w & -> & _)%elem_of_wbSyncChList4s. done.
  - intros i w Hi Hw. assert (w4s w = true) as E.
    { destruct Hw as [|(v & Hv & ?)%elem_of_wbSyncChList4s]; [done|]. congruence. }
    split; [done|]. rewrite decide_True by (apply elem_of_wbSyncChList4s; eauto).
    by apply (Forall_lookup_1 _ _ _ _ Hl Hi).
Qed.

(** Replacing a worker by one that reads the same channel; it may end once its signal
    has been sent. *)
Lemma quiet_set db p i w w' :
  quiet (mkClosing db p) → workers db !! i = Some w → w4s w' = w4s w → worker_quiet w' → kill w' = kill w →
  gone w' = gone w ∨ (∃ l, p = PSignal l ∧ i ∉ l) →
  (w4s w = false → gone w' = true → wbCh db = []) →
  quiet (mkClosing (set_worker i w' db) p).
Proof.
  intros [H1 H2 H3 H4 H5 H6] Hi E4 Hq Ek Hg Hd. cbn in *.
  assert (i < length (workers db))%nat as Hlt by by eapply lookup_lt_Some.
  split; cbn; try done.
  - by apply Forall_insert.
  - intros j v Hj. destruct (decide (i = j)) as [<-|Hne].
    + rewrite list_lookup_insert_eq in Hj by done. injection Hj as <-. rewrite E4. done.
    + rewrite list_lookup_insert_ne in Hj by done. by apply H4 with j.
  - by apply (some_worker_set _ _ w).
  - destruct p as [|l|]; cbn in *.
    + destruct H6 as [Ho Hl]. split; [done|]. apply Forall_insert; [done|].
      destruct (Forall_lookup_1 _ _ _ _ Hl Hi). destruct Hg as [Hg|(l & ? & _)]; [|done]. split; congruence.
    + destruct H6 as (Ho & Hnd & Hin & Hw). split_and!; try done.
      * intros j Hj. destruct (decide (i = j)) as [<-|]; [by rewrite list_lookup_insert_eq|]. rewrite list_lookup_insert_ne by done. auto.
      * intros j v Hj Hv. destruct (decide (i = j)) as [<-|Hne].
        -- rewrite list_lookup_insert_eq in Hj by done. injection Hj as <-. rewrite E4 in Hv |- *.
           destruct (Hw i w Hi Hv) as [? Hc]. split; [done|]. case_decide; [|congruence].
           destruct Hg as [Hg|(l' & [= <-] & ?)]; [|done]. destruct Hc. split; congruence.
        -- rewrite list_lookup_insert_ne in Hj by done. by apply Hw.
    + apply Forall_insert; [done|]. destruct Hg as [->|(l & ? & _)]; [|done].
      by apply (Forall_lookup_1 _ _ _ _ H6 Hi).
Qed.

(** The workers that are left, and the steps that are left. *)
Definition alive (ws : list worker) : nat := length (List.filter (λ w, negb (gone w)) ws).

Definition phase_steps db (p : phase) : nat :=
  match p with PStop => 2 + length (wbSyncChList4s db) | PSignal l => 1 + length l | PDone => 0 end.

Definition steps_left c : nat :=
  phase_steps (c_db c) (c_phase c) + 2 * length (wbCh (c_db c)) + length (hands (workers (c_db c))) +
  alive (workers (c_db c)).

Definition b2n (b : bool) : nat := if b then 0 else 1.

Lemma alive_set ws i w w' :
  ws !! i = Some w → (alive (<[i := w']> ws) + b2n (gone w) = alive ws + b2n (gone w'))%nat.
Proof.
  intros Hi. unfold alive. rewrite insert_take_drop by (by eapply lookup_lt_Some).
  rewrite <-(take_drop_middle ws i w) at 3 by done. rewrite !List.filter_app, !length_app. cbn.
  destruct (gone w), (gone w'); cbn; lia.
Qed.

(** The list of workers to signal depends on the channels they read only. *)
Lemma wbSyncChList4s_set db i w w' :
  workers db !! i = Some w → w4s w' = w4s w → wbSyncChList4s (set_worker i w' db) = wbSyncChList4s db.
Proof.
  intros Hi E. unfold wbSyncChList4s. cbn [workers set_worker set_workers]. rewrite length_insert.
  apply List.filter_ext. intros j. unfold reads4s. destruct (decide (i = j)) as [<-|Hne].
  - rewrite list_lookup_insert_eq by (by eapply lookup_lt_Some). by rewrite Hi.
  - by rewrite list_lookup_insert_ne.
Qed.

Lemma steps_left_set db p i w w' :
  workers db !! i = Some w → w4s w' = w4s w →
  (steps_left (mkClosing (set_worker i w' db) p) + held (hand w) + b2n (gone w) =
   steps_left (mkClosing db p) + held (hand w') + b2n (gone w'))%nat.
Proof.
  intros Hi E. unfold steps_left. cbn [c_db c_phase].
  assert (phase_steps (set_worker i w' db) p = phase_steps db p) as ->.
  { destruct p; cbn [phase_steps]; [|done..]. by rewrite (wbSyncChList4s_set db i w w' Hi). }
  pose proof (hands_length _ _ _ w' Hi). pose proof (alive_set _ _ _ w' Hi).
  cbn [wbCh workers set_worker set_workers]. lia.
Qed.

(** The steps of the workers while such a database closes: no panic, and each of them
    that is not an idle time-out brings the end nearer. *)
Definition fine (e : event) p db : Prop :=
  ∀ o db', worker_event e db = Some (o, db') →
  o = Ret tt ∧ quiet (mkClosing db' p) ∧
  (db' = db ∨ (steps_left (mkClosing db' p) < steps_left (mkClosing db p))%nat).

Lemma quiet_take p i db : quiet (mkClosing db p) → fine (Take i) p db.
Proof.
  intros Hq o db' He. destruct (id Hq) as [H1 H2 H3 H4 _ H6]. cbn in *.
  destruct (workers db !! i) as [w|] eqn:Hi; [|done]. cbn in He.
  destruct (gone w) eqn:Hg; [done|]. destruct (hand w) eqn:Hh; [done|].
  destruct (Forall_lookup_1 _ _ _ _ H3 Hi) as [Hw _]. destruct (w4s w) eqn:E4; [by rewrite H2 in He|].
  destruct (wbCh db) as [|[c|] q] eqn:Eq; [| |by inversion H1].
  - destruct (wbCh_closed db) eqn:Ec; [|done]. injection He as <- <-. split; [done|].
    set (w' := mkWorker _ _ _ _ _ _). assert (quiet (mkClosing (set_worker i w' db) p)) as Hq'.
    { apply (quiet_set db p i w); try done. right. destruct p as [|l|]; cbn in H6.
      - destruct H6; congruence.
      - exists l. split; [done|]. intros Hin. destruct H6 as (_ & _ & _ & H6).
        destruct (H6 i w Hi (or_intror Hin)). congruence.
      - pose proof (Forall_lookup_1 _ _ _ _ H6 Hi). cbn in *. congruence. }
    split; [done|]. right. pose proof (steps_left_set db p i w w' Hi) as Hl. rewrite Hh, Hg in Hl. cbn in Hl.
    specialize (Hl (eq_sym E4)). lia.
  - rewrite worker_recv_live in He by done. injection He as <- <-. split; [done|].
    set (w' := mkWorker _ _ _ _ _ _). set (db1 := set_wbCh q db).
    assert (quiet (mkClosing db1 p)) as Hq1.
    { inversion H1; subst. destruct Hq as [K1 K2 K3 K4 K5 K6]. split; cbn in *; try done.
      intros j v Hj Hv Hgv. pose proof (K4 j v Hj Hv Hgv). congruence. }
    split; [apply (quiet_set db1 p i w); try done|].
    + split; cbn; [by rewrite E4|by rewrite Hg].
    + by left.
    + cbn. by rewrite Hg.
    + right. pose proof (steps_left_set db1 p i w w' Hi) as Hl. cbn [held hand gone w'] in Hl.
      rewrite Hh in Hl. cbn [held] in Hl.
      assert (steps_left (mkClosing db p) = 2 + steps_left (mkClosing db1 p))%nat as ->.
      { unfold steps_left. cbn [c_db c_phase wbCh set_wbCh db1]. rewrite Eq. cbn [length].
        change (phase_steps db1 p) with (phase_steps db p). change (workers db1) with (workers db). lia. }
      specialize (Hl eq_refl). lia.
Qed.

Lemma quiet_exec p i db : quiet (mkClosing db p) → fine (Exec i) p db.
Proof.
  intros Hq o db' He. destruct (id Hq) as [H1 H2 H3 H4 _ H6]. cbn in *.
  destruct (workers db !! i) as [w|] eqn:Hi; [|done]. cbn in He.
  destruct (hand w) as [c|] eqn:Hh; [|done]. cbn in He. injection He as <- <-. split; [done|].
  destruct (Forall_lookup_1 _ _ _ _ H3 Hi) as [Hw Hgh].
  destruct (w4s w) eqn:E4; [congruence|]. destruct (gone w) eqn:Hg; [by rewrite Hgh in Hh|].
  set (w' := mkWorker _ _ _ _ _ _). set (db1 := set_redis _ db).
  assert (quiet (mkClosing db1 p)) as Hq1 by by destruct Hq.
  split; [apply (quiet_set db1 p i w); try done; by left|].
  right. pose proof (steps_left_set db1 p i w w' Hi) as Hl. rewrite Hh, Hg in Hl. cbn in Hl.
  specialize (Hl (eq_sym E4)). change (steps_left (mkClosing db1 p)) with (steps_left (mkClosing db p)) in Hl. lia.
Qed.

Lemma quiet_waited p i db : quiet (mkClosing db p) → fine (Waited i) p db.
Proof.
  intros Hq o db' He. destruct (id Hq) as [H1 H2 H3 H4 _ H6]. cbn in *.
  destruct (workers db !! i) as [w|] eqn:Hi; [|done]. cbn in He.
  destruct (gone w) eqn:Hg; [done|]. destruct (hand w) eqn:Hh; [done|]. injection He as <- <-. split; [done|].
  destruct (kill w) eqn:Ek; [|split; [done|by left]].
  destruct (Forall_lookup_1 _ _ _ _ H3 Hi) as [Hw _]. destruct (w4s w) eqn:E4; [|congruence].
  set (w' := mkWorker _ _ _ _ _ _). split.
  - apply (quiet_set db p i w); try done; [right|intros; congruence]. destruct p as [|l|]; cbn in H6.
    + destruct H6 as [_ Hl]. destruct (Forall_lookup_1 _ _ _ _ Hl Hi). congruence.
    + exists l. split; [done|]. intros Hin. destruct H6 as (_ & _ & _ & H6).
      destruct (H6 i w Hi (or_intror Hin)) as [_ Hc]. rewrite decide_True in Hc by done. destruct Hc. congruence.
    + pose proof (Forall_lookup_1 _ _ _ _ H6 Hi). cbn in *. congruence.
  - right. pose proof (steps_left_set db p i w w' Hi) as Hl. rewrite Hh, Hg in Hl. cbn in Hl.
    specialize (Hl (eq_sym E4)). lia.
Qed.

Lemma quiet_worker e p db : quiet (mkClosing db p) → is_signal e = false → fine e p db.
Proof. destruct e; [intros; by apply quiet_take|intros; by apply quiet_exec|done|intros; by apply quiet_waited]. Qed.

(** The loop of [Close] signals the next worker. *)
Lemma quiet_signal i l db :
  quiet (mkClosing db (PSignal (i :: l))) →
  ∃ db', worker_event (Signal i) db = Some (Ret tt, db') ∧ quiet (mkClosing db' (PSignal l)) ∧
    (steps_left (mkClosing db' (PSignal l)) < steps_left (mkClosing db (PSignal (i :: l))))%nat.
Proof.
  intros [H1 H2 H3 H4 H5 (Hc & Hnd & Hin & Hw)]. cbn in *. apply list.NoDup_cons in Hnd as [Hni Hnd].
  destruct (Hin i ltac:(set_solver)) as [w Hi].
  destruct (Hw i w Hi ltac:(set_solver)) as [E4 Hl]. rewrite decide_True in Hl by set_solver. destruct Hl as [Hg Hk].
  destruct (Forall_lookup_1 _ _ _ _ H3 Hi) as [Hh _]. rewrite E4 in Hh.
  rewrite Hi. cbn. rewrite Hg, Hh, E4, Hc. cbn. eexists. split; [done|]. set (w' := mkWorker _ _ _ _ _ _).
  assert (i < length (workers db))%nat as Hlt by by eapply lookup_lt_Some. split.
  - split; cbn; try done.
    + apply Forall_insert; [done|]. by split.
    + intros j v Hj. destruct (decide (i = j)) as [<-|Hne].
      * rewrite list_lookup_insert_eq in Hj by done. by injection Hj as <-.
      * rewrite list_lookup_insert_ne in Hj by done. by apply H4 with j.
    + by apply (some_worker_set _ _ w).
    + split_and!; try done.
      * intros j Hj. rewrite list_lookup_insert_ne by (intros ->; done). apply Hin. set_solver.
      * intros j v Hj Hv. destruct (decide (i = j)) as [<-|Hne].
        -- rewrite list_lookup_insert_eq in Hj by done. injection Hj as <-. split; [done|]. by rewrite decide_False.
        -- rewrite list_lookup_insert_ne in Hj by done. destruct (Hw j v Hj ltac:(set_solver)) as [? Hc'].
           split; [done|]. repeat case_decide; set_solver.
  - pose proof (steps_left_set db (PSignal l) i w w' Hi) as Hs. rewrite Hh, Hg in Hs. cbn in Hs.
    specialize (Hs (eq_sym E4)). unfold steps_left in *. cbn in *. lia.
Qed.

(** Every step keeps this, and all but the rounds of [keepalive] bring the end nearer. *)
Lemma quiet_do k e c r :
  quiet c → close_do k e c = Some r →
  ∃ c', r = (Ret tt, c') ∧ quiet c' ∧ (e = CKeep ∨ c' = c ∨ (steps_left c' < steps_left c)%nat).
Proof.
  intros Hq He. destruct c as [db p]. destruct e as [| | | |e]; cbn in He.
  - destruct p; [|done..]. injection He as <-. eexists. split; [reflexivity|]. split; [|by left].
    by destruct Hq.
  - destruct p; [|done..]. injection He as <-. eexists. split; [reflexivity|]. split; [by apply quiet_stop|].
    right. right. unfold steps_left. cbn [c_db c_phase phase_steps wbCh workers close_wbCh length]. lia.
  - destruct p as [|[|i l]|]; [done|done| |done]. destruct (quiet_signal i l db Hq) as (db' & E & Hq' & Hs).
    cbn in E. rewrite E in He. injection He as <-.
    eexists. split; [reflexivity|]. split; [done|]. by right; right.
  - destruct p as [|[|i l]|]; [done| |done..]. destruct (forallb gone (workers db)) eqn:Eg; [|done].
    injection He as <-. eexists. split; [reflexivity|]. split.
    + destruct Hq as [H1 H2 H3 H4 H5 H6]. split; try done. cbn. apply list.Forall_forall. intros w Hw.
      rewrite List.forallb_forall in Eg. by apply Eg, list_elem_of_In.
    + right. right. unfold steps_left. cbn [c_db c_phase phase_steps wbCh workers close_wbCh length]. lia.
  - destruct (is_signal e) eqn:Es; [by destruct p|].
    assert ((λ od : outcome unit * SaraDatabase R, (od.1, mkClosing od.2 p)) <$> worker_event e db = Some r) as He'
      by by destruct p.
    destruct (worker_event e db) as [[o db']|] eqn:E; [|done]. injection He' as <-.
    destruct (quiet_worker e p db Hq Es o db' E) as (-> & Hq' & Hs). eexists. split; [reflexivity|].
    split; [done|]. right. destruct Hs as [->|]; [by left|by right].
Qed.

Lemma quiet_reach k db c : quiet (mkClosing db PStop) → close_reach k db c → quiet c.
Proof.
  intros Hq Hr. induction Hr as [|c e c' _ IH He]; [done|].
  destruct (quiet_do k e c _ IH He) as (? & [= <-] & ? & _). done.
Qed.

(** Once everything is closed nothing is left. *)
Lemma quiet_done db : quiet (mkClosing db PDone) → drained db.
Proof.
  intros [H1 H2 H3 H4 (i & w & Hi & E4) H6]. cbn in *. unfold drained, pending.
  rewrite (H4 i w Hi E4), H2 by by apply (Forall_lookup_1 _ _ _ _ H6 Hi). cbn.
  destruct (hands_cases (workers db)) as [Hn|(j & v & c & Hj & Hc)]; [done|].
  destruct (Forall_lookup_1 _ _ _ _ H3 Hj) as [_ Hh].
  pose proof (Forall_lookup_1 _ _ _ _ H6 Hj) as Hg. cbn in Hg. rewrite (Hh Hg) in Hc. done.
Qed.

Lemma some_not_gone ws : forallb gone ws = false → ∃ i w, ws !! i = Some w ∧ gone w = false.
Proof.
  induction ws as [|w ws IH]; cbn; [done|]. destruct (gone w) eqn:E; [|by exists 0%nat, w].
  intros (i & v & ? & ?)%IH. by exists (S i), v.
Qed.

(** Until it is done, some step is possible that brings the end nearer. *)
Lemma quiet_advances k c : quiet c → c_phase c = PDone ∨ ∃ c', advances k c' c.
Proof.
  intros Hq. destruct c as [db p]. cbn.
  assert (∀ e c', e ≠ CKeep → close_do k e (mkClosing db p) = Some (Ret tt, c') → c' ≠ mkClosing db p →
    p = PDone ∨ ∃ c', advances k c' (mkClosing db p)) as Hgo.
  { intros e c' ? ? ?. right. exists c', e. done. }
  destruct p as [|[|i l]|]; [| | |by left].
  - eapply (Hgo CStop); [done|done|]. by injection.
  - destruct (forallb gone (workers db)) eqn:Eg.
    { eapply (Hgo CWait); [done|cbn; by rewrite Eg|]. by injection. }
    destruct (some_not_gone _ Eg) as (i & w & Hi & Hg).
    destruct (id Hq) as [H1 H2 H3 H4 _ (Hc & _ & _ & Hw)]. cbn in *.
    assert (∀ e db', is_signal e = false → worker_event e db = Some (Ret tt, db') → db' ≠ db →
      PSignal [] = PDone ∨ ∃ c', advances k c' (mkClosing db (PSignal []))) as Hgo'.
    { intros e db' Hs He Hne. apply (Hgo (CWorker e) (mkClosing db' (PSignal []))); [done|cbn; by rewrite Hs, He|].
      intros [= ?]. done. }
    assert (∀ w', w' ≠ w → set_worker i w' db ≠ db) as Hset.
    { intros w' Hne E. apply (f_equal (λ d, workers d !! i)) in E. cbn in E.
      rewrite list_lookup_insert_eq, Hi in E by (by eapply lookup_lt_Some). by injection E. }
    destruct (hand w) as [c|] eqn:Hh.
    { eapply (Hgo' (Exec i)); [done|cbn; rewrite Hi; cbn; by rewrite Hh|].
      intros E. apply (f_equal (λ d, workers d !! i)) in E. cbn in E.
      rewrite list_lookup_insert_eq, Hi in E by (by eapply lookup_lt_Some). injection E as Ew.
      apply (f_equal hand) in Ew. cbn in Ew. congruence. }
    destruct (w4s w) eqn:E4.
    + destruct (Hw i w Hi (or_introl E4)) as [_ Hk]. rewrite decide_False in Hk by apply not_elem_of_nil.
      eapply (Hgo' (Waited i)); [done|cbn; rewrite Hi; cbn; by rewrite Hg, Hh, Hk|].
      apply Hset. intros Ew. apply (f_equal gone) in Ew. cbn in Ew. congruence.
    + destruct (Forall_lookup_1 _ _ _ _ H3 Hi) as [Hkl _]. rewrite E4 in Hkl.
      destruct (wbCh db) as [|[c|] q] eqn:Eq; [| |by inversion H1].
      * eapply (Hgo' (Take i)); [done|cbn; rewrite Hi; cbn; by rewrite Hg, Hh, E4, Eq, Hc|].
        apply Hset. intros Ew. apply (f_equal gone) in Ew. cbn in Ew. congruence.
      * eapply (Hgo' (Take i)); [done|cbn; rewrite Hi; cbn; by rewrite Hg, Hh, E4, Eq, worker_recv_live|].
        intros E. apply (f_equal (λ d, length (wbCh d))) in E. cbn in E. rewrite Eq in E. cbn in E. lia.
  - destruct (quiet_signal i l db Hq) as (db' & E & _ & _).
    eapply (Hgo CSignal); [done|cbn [close_do]; by rewrite E|]. intros [= _ El].
    apply (f_equal length) in El. cbn in El. lia.
Qed.
End Close.

(** ** Properties *)

Section Properties.
Context {R : Type} `{RedisLaws R}.
Implicit Types (db : SaraDatabase R) (c : closing (R := R)).

Lemma quiet_acc k c : quiet c → Acc (advances k) c.
Proof.
  remember (steps_left c) as n eqn:En. revert c En. induction (lt_wf n) as [n _ IH]. intros c -> Hq.
  constructor. intros c' (e & Hk & Hne & He).
  destruct (quiet_do k e c _ Hq He) as (? & [= <-] & Hq' & [?|[?|Hlt]]); [done..|].
  by apply (IH (steps_left c')).
Qed.

Lemma close_will_return k db c :
  running db → sessions_idle db → close_reach k db c →
  Acc (advances k) c ∧ (∀ e p c', close_do k e c ≠ Some (Panic p, c')) ∧
  (c_phase c = PDone ∨ ∃ c', advances k c' c).
Proof.
  intros Hrun Hi Hr. apply quiet_reach in Hr; [|by apply quiet_start]. split_and!.
  - by apply quiet_acc.
  - intros e p c' He. by destruct (quiet_do k e c _ Hr He) as (? & ? & _).
  - by apply quiet_advances.
Qed.

(** C16: closing a database whose session queue is idle terminates: no step of [Close] or
    of a worker panics, there is no infinite sequence of steps other than idle time-outs
    and rounds of [keepalive], and as long as [Close] has not returned some such step
    is possible. *)
Theorem close_terminates k db c :
  running db → sessions_idle db → close_reach k db c →
  Acc (advances k) c ∧ (∀ e p c', close_do k e c ≠ Some (Panic p, c')) ∧
  (c_phase c = PDone ∨ ∃ c', advances k c' c).
Proof. apply close_will_return. Qed.

(** The round of [keepalive]. *)
Definition keep_cmd (k : bytes) : rcmd := SETEX k 4 (§"1").

(** What [Close] has carried out so far. *)
Lemma close_reach_pending k db c :
  up (redis db) → close_reach k db c →
  up (redis (c_db c)) ∧
  ∃ n cs, cs ++ pending (c_db c) ≡ₚ pending db ++ replicate n (keep_cmd k) ∧
    keys (c_db c) = run_cmds cs (keys db).
Proof.
  intros Hup Hr. induction Hr as [|c e c' _ (Hu & n & cs & Hp & Hk) He].
  { split; [done|]. exists 0%nat, []. cbn. by rewrite app_nil_r. }
  assert (∀ e db', worker_event e (c_db c) = Some (Ret tt, db') →
    up (redis db') ∧ ∃ n cs, cs ++ pending db' ≡ₚ pending db ++ replicate n (keep_cmd k) ∧
    keys db' = run_cmds cs (keys db)) as Hgo.
  { intros e' db' E. destruct (worker_event_pending e' (c_db c) db' Hu E) as (Hu' & cs' & Hp' & Hk').
    split; [done|]. exists n, (cs ++ cs'). rewrite run_cmds_app, <-Hk. split; [|done].
    by rewrite <-app_assoc, <-Hp'. }
  destruct c as [d p]. destruct e as [| | | |e]; cbn [close_do] in He.
  - destruct p; [|done..]. destruct (executeDirect_run (keep_cmd k) d Hu) as (a & d' & E & Hu' & _ & Hk' & E1 & _ & E3 & E4).
    unfold keepalive in He. erewrite bind_Ret in He by exact E. injection He as <-. split; [done|].
    exists (S n), (cs ++ [keep_cmd k]). cbn [c_db] in *. cbn [replicate].
    assert (pending d' = pending d) as -> by (unfold pending; by rewrite E1, E3, E4).
    rewrite run_cmds_app, <-Hk. split; [|done]. rewrite <-(Permutation_middle (pending db)), <-Hp. solve_Permutation.
  - destruct p; [|done..]. injection He as <-. split; [done|by exists n, cs].
  - destruct p as [|[|i l]|]; [done..| |done].
    destruct (worker_event (Signal i) d) as [[o d']|] eqn:E; [|done]. cbn in He. injection He as -> <-. by eapply Hgo.
  - destruct p as [|[|i l]|]; [done| |done..]. destruct (forallb gone (workers d)); [|done].
    injection He as <-. split; [done|by exists n, cs].
  - destruct (is_signal e); [by destruct p|].
    destruct (worker_event e d) as [[o d']|] eqn:E; [|by destruct p]. destruct p; cbn in He; injection He as -> <-; by eapply Hgo.
Qed.

(** C17: closing a database whose session queue is idle loses nothing: when [Close] has
    returned nothing is pending, and what redis holds is the effect of all the commands
    that were queued or taken, each carried out once, and of the last rounds of
    [keepalive]. *)
Theorem close_executes_everything k db c :
  up (redis db) → running db → sessions_idle db → close_reach k db c → c_phase c = PDone →
  drained (c_db c) ∧
  ∃ n cs, cs ≡ₚ pending db ++ replicate n (keep_cmd k) ∧ keys (c_db c) = run_cmds cs (keys db).
Proof.
  intros Hup Hrun Hi Hr Hp. destruct (close_reach_pending k db c Hup Hr) as (_ & n & cs & Hc & Hk).
  assert (drained (c_db c)) as Hd.
  { apply quiet_done. destruct c as [d p]. cbn in *. subst p. by eapply quiet_reach, Hr; apply quiet_start. }
  split; [done|]. exists n, cs. by rewrite Hd, app_nil_r in Hc.
Qed.
End Properties.

(** A session queue that is not empty when [Close] begins. *)
Lemma close_backlog_crash {R : Type} `{RedisServer R} k (db : SaraDatabase R) :
  running db → Forall (λ w, send_kill w = false) (workers db) → hands (workers db) = [] → wbCh4s db ≠ [] →
  ∃ c e c', close_reach k db c ∧ close_do k e c = Some (Panic closed_channel, c').
Proof.
  intros [Ho _ _ Hl _ (j & v & Hj & Ev)] Hsk Hh H4.
  destruct (wbSyncChList4s db) as [|i l] eqn:El.
  { assert (j ∈ wbSyncChList4s db) as Hin by (apply elem_of_wbSyncChList4s; eauto). rewrite El in Hin. set_solver. }
  assert (i ∈ wbSyncChList4s db) as (w & Hi & Ew)%elem_of_wbSyncChList4s by (rewrite El; set_solver).
  destruct (Forall_lookup_1 _ _ _ _ Hl Hi) as [Hg Hk]. pose proof (hands_nil _ _ _ Hh Hi) as Hn.
  pose proof (Forall_lookup_1 _ _ _ _ Hsk Hi) as Esk. cbn in Esk.
  set (w1 := mkWorker true (wbTotal w) true (send_kill w) None false).
  set (db1 := set_worker i w1 (close_wbCh db)).
  assert (close_reach k db (mkClosing db1 (PSignal l))) as Hr.
  { eapply (reach_step _ _ _ CSignal); [eapply (reach_step _ _ _ CStop); [apply reach_start|reflexivity]|].
    rewrite El. cbn [close_do worker_event close_wbCh workers wbCh_closed]. rewrite Hi. cbn [mbind option_bind].
    rewrite Hg, Hn, Ew. reflexivity. }
  destruct (wbCh4s db) as [|wb q] eqn:Eq; [done|].
  exists (mkClosing db1 (PSignal l)), (CWorker (Take i)). eexists. split; [done|].
  assert (workers db1 !! i = Some w1) as Hi1 by (cbn; by rewrite list_lookup_insert_eq by (by eapply lookup_lt_Some)).
  assert (wbCh4s db1 = wb :: q) as Eq1 by done.
  cbn [close_do is_signal worker_event]. rewrite Hi1. cbn [mbind option_bind]. rewrite Eq1.
  cbn [gone hand w4s w1]. unfold worker_recv. cbn [kill send_kill w1]. rewrite Esk. reflexivity.
Qed.

(** ** The properties at concrete inputs *)

Section Runs.
Context {R : Type} `{RedisServer R}.

(** Steps of [Close], computed. *)
Fixpoint close_events (k : bytes) (es : list cevent) (c : closing (R := R)) : option closing :=
  match es with
  | [] => Some c
  | e :: es' => match close_do k e c with Some (Ret _, c') => close_events k es' c' | _ => None end
  end.

Lemma close_events_sound k db es c c' :
  close_reach k db c → close_events k es c = Some c' → close_reach k db c'.
Proof.
  revert c. induction es as [|e es IH]; intros c Hr; cbn; [by intros [= <-]|].
  destruct (close_do k e c) as [[[[]|p] c1]|] eqn:E; [|done..]. apply IH. by eapply reach_step.
Qed.
End Runs.

Lemma ex_db1_idle : sessions_idle ex_db1.
Proof.
  split; [reflexivity|]. assert (Forall (λ w, hand w = None) (workers ex_db1)) as Hf.
  { vm_compute. repeat (constructor; [reflexivity|]). constructor. }
  intros i w Hi _. by apply (Forall_lookup_1 _ _ _ _ Hf Hi).
Qed.

Definition ex_keep : bytes := §"keep_1".

(** All four queued writes are carried out after the last signal, then every worker ends. *)
Definition ex_close : list cevent :=
  CKeep :: CStop :: replicate 20 CSignal ++ map CWorker [Take 0; Exec 0; Take 1; Take 2; Exec 2; Exec 1; Take 0; Exec 0] ++
  map (λ i, CWorker (Take i)) (seq 0 20) ++ map (λ i, CWorker (Waited i)) (seq 20 20) ++ [CWait].

Lemma close_terminates_witness :
  Acc (advances ex_keep) (mkClosing ex_db1 PStop) ∧
  (∀ e p c', close_do ex_keep e (mkClosing ex_db1 PStop) ≠ Some (Panic p, c')) ∧
  (c_phase (mkClosing ex_db1 PStop) = PDone ∨ ∃ c', advances ex_keep c' (mkClosing ex_db1 PStop)).
Proof.
  apply (close_terminates ex_keep ex_db1); [exact ex_db1_running|exact ex_db1_idle|apply reach_start].
Defined.

Lemma ex_close_done : c_phase <$> close_events ex_keep ex_close (mkClosing ex_db1 PStop) = Some PDone.
Proof. vm_compute. reflexivity. Qed.

Lemma close_executes_everything_witness :
  ∃ c, close_events ex_keep ex_close (mkClosing ex_db1 PStop) = Some c ∧ drained (c_db c) ∧
  ∃ n cs, cs ≡ₚ pending ex_db1 ++ replicate n (keep_cmd ex_keep) ∧ keys (c_db c) = run_cmds cs (keys ex_db1).
Proof.
  pose proof ex_close_done as Hd.
  destruct (close_events ex_keep ex_close (mkClosing ex_db1 PStop)) as [c|] eqn:E; [|discriminate Hd].
  exists c. split; [reflexivity|]. apply (close_executes_everything ex_keep ex_db1 c).
  - exact I.
  - exact ex_db1_running.
  - exact ex_db1_idle.
  - eapply close_events_sound; [apply reach_start|exact E].
  - injection Hd as Hd. exact Hd.
Defined.
