(* ===== verification/NodeChannel.v ===== *)
(** * NodeChannel: [saradb/channel.go], the data channel on redis publish/subscribe.

    The channel between nodes before [sararpc] replaced it; the database still makes one
    on request.  The publish/subscribe side of redis is a parameter with its documented
    behaviour: a published message is put into the inbox of every client that has
    subscribed to the channel. *)

From S2P Require Import Prelude GoBytes Types Redis Database SaraDb DbLife.

(** Publish, subscribe a client, and receive the next message of a client ([None] while
    there is none). *)
Class PubSub (B : Type) := {
  ps_publish : bytes → bytes → B → Resp * B;
  ps_subscribe : nat → bytes → B → B;
  ps_receive : nat → B → option (bytes * B) }.

Class PubSubLaws (B : Type) `{PubSub B} := {
  inbox : B → nat → list bytes;
  subscribed : B → nat → gset bytes;
  publish_inbox b c m k :
    inbox (ps_publish c m b).2 k = inbox b k ++ (if bool_decide (c ∈ subscribed b k) then [m] else []);
  publish_subscribed b c m k : subscribed (ps_publish c m b).2 k = subscribed b k;
  subscribe_inbox b k c k' : inbox (ps_subscribe k c b) k' = inbox b k';
  subscribe_subscribed b k c k' :
    subscribed (ps_subscribe k c b) k' = if decide (k = k') then {[c]} ∪ subscribed b k' else subscribed b k';
  receive_inbox b k :
    match inbox b k with
    | [] => ps_receive k b = None
    | m :: q => ∃ b', ps_receive k b = Some (m, b') ∧ inbox b' k = q ∧ ∀ k', subscribed b' k' = subscribed b k'
    end }.

(** [NodeChannel], with its subscribing and its publishing client, which may be nil. *)
Record NodeChannel := mkNodeChannel { nc_id : bytes; nc_sub : option nat; nc_pub : option nat }.

Definition newChannel (name : bytes) (sub pub : option nat) : NodeChannel := mkNodeChannel name sub pub.

Definition nc_GetChannel (c : NodeChannel) : bytes := nc_id c.

Section Channel.
Context {B : Type} `{PubSub B}.

(** [Publish]: the reply is only logged, so it never reports an error. *)
Definition nc_Publish (c : NodeChannel) (channel message : bytes) : M B error :=
  deref (nc_pub c) >>> modify (λ b, (ps_publish channel message b).2) >>> ret None.

Definition nc_Subscribe (c : NodeChannel) : M B unit :=
  let! sub := deref (nc_sub c) in modify (ps_subscribe sub (nc_id c)).

(** The goroutine of [Subscribe]: the messages it hands to the handler in [fuel] rounds. *)
Fixpoint nc_receive (fuel : nat) (sub : nat) (b : B) : list bytes * B :=
  match fuel with
  | O => ([], b)
  | S fuel' =>
      match ps_receive sub b with
      | None => ([], b)
      | Some (m, b') => let '(ms, b'') := nc_receive fuel' sub b' in (m :: ms, b'')
      end
  end.

(** Publishing a list of messages, each with its channel. *)
Definition publish_all (c : NodeChannel) (l : list (bytes * bytes)) : M B unit :=
  for_range l (λ cm, nc_Publish c cm.1 cm.2 >>> ret tt).
End Channel.

(** ** The channel of a database *)

Section Gen.
Context {R : Type} `{Radix R} (client : R → bytes → option nat).

(** [getRedisClient]: a client of the pool, or of the cluster node of the key; nil when
    there is none. *)
Definition getRedisClient (h : SaraHandle R) (k : bytes) : option nat :=
  match model h with
  | MODEL_SINGLE => client (redis (h_db h)) []
  | MODEL_CLUSTER => client (redis (h_db h)) k
  end.

(** [GenDataChannel]: a second database of the same kind; when it cannot connect, its
    clients are taken from a nil database. *)
Definition GenDataChannel (h : SaraHandle R) (name : bytes) : outcome NodeChannel :=
  match (match model h with MODEL_SINGLE => initDb (Addr h) 5 | MODEL_CLUSTER => initClusterDb (Addr h) 5 end) with
  | inl _ => Panic nil_deref
  | inr db => Ret (newChannel name (getRedisClient db name) (getRedisClient db name))
  end.
End Gen.

(** ** Properties *)

Section Properties.
Context {B : Type} `{PubSubLaws B}.

(** The texts published on a channel. *)
Definition on_channel (c : bytes) (l : list (bytes * bytes)) : list bytes :=
  omap (λ cm, if bool_decide (cm.1 = c) then Some cm.2 else None) l.

Lemma publish_all_inbox nc p l (b : B) c k :
  nc_pub nc = Some p → subscribed b k = {[c]} →
  ∃ b', publish_all nc l b = (Ret tt, b') ∧ inbox b' k = inbox b k ++ on_channel c l.
Proof.
  intros Hp. revert b. induction l as [|[ch m] l IH]; intros b Hs; unfold publish_all in *; cbn [for_range].
  - exists b. split; [done|]. by rewrite app_nil_r.
  - erewrite bind_Ret by (unfold nc_Publish; rewrite Hp; reflexivity). destruct (IH (ps_publish ch m b).2) as (b' & E & Hi).
    { by rewrite publish_subscribed. }
    exists b'. split; [exact E|]. rewrite Hi, publish_inbox, Hs, <-app_assoc. f_equal.
    unfold on_channel. cbn [omap list_omap fst snd].
    destruct (decide (ch = c)) as [->|Hne].
    + by rewrite !bool_decide_true by set_solver.
    + by rewrite !bool_decide_false by set_solver.
Qed.

Lemma nc_receive_all sub (b : B) fuel :
  (length (inbox b sub) ≤ fuel)%nat → (nc_receive fuel sub b).1 = inbox b sub.
Proof.
  revert b. induction fuel as [|fuel IH]; intros b Hf; cbn [nc_receive].
  - by destruct (inbox b sub); [|cbn in Hf; lia].
  - pose proof (receive_inbox b sub) as Hr. destruct (inbox b sub) as [|m q]; [by rewrite Hr|].
    destruct Hr as (b' & -> & Hq & _). specialize (IH b'). rewrite Hq in IH. cbn in Hf.
    destruct (nc_receive fuel sub b') as [ms b'']. cbn in *. by rewrite IH by lia.
Qed.

(** The handler of a subscribed channel gets the messages published on that channel,
    and only those, in the order in which they were published, each exactly once. *)
Theorem channel_delivers_in_order c sub pub l (b : B) fuel :
  nc_sub c = Some sub → nc_pub c = Some pub →
  inbox b sub = [] → subscribed b sub = ∅ → (length l ≤ fuel)%nat →
  ∃ b', (nc_Subscribe c >>> publish_all c l) b = (Ret tt, b') ∧
    (nc_receive fuel sub b').1 = on_channel (nc_id c) l.
Proof.
  intros Hsub Hpub Hi Hs Hf. erewrite bind_Ret by (unfold nc_Subscribe; rewrite Hsub; reflexivity).
  destruct (publish_all_inbox c pub l (ps_subscribe sub (nc_id c) b) (nc_id c) sub Hpub) as (b' & E & Hi').
  { rewrite subscribe_subscribed, decide_True, Hs by done. set_solver. }
  exists b'. split; [exact E|]. rewrite subscribe_inbox, Hi in Hi'. cbn [app] in Hi'.
  rewrite nc_receive_all; [done|]. rewrite Hi'. etrans; [|exact Hf]. unfold on_channel.
  clear. induction l as [|x l IH]; [done|]. cbn. destruct (bool_decide _); cbn; lia.
Qed.
End Properties.

(** ** A broker *)

(** Clients with their inboxes and subscriptions. *)
Record broker := mkBroker { br_inbox : nat → list bytes; br_subs : nat → gset bytes }.

#[global] Instance broker_pubsub : PubSub broker := {|
  ps_publish c m b :=
    (RespInt 0, mkBroker (λ k, br_inbox b k ++ (if bool_decide (c ∈ br_subs b k) then [m] else [])) (br_subs b));
  ps_subscribe k c b := mkBroker (br_inbox b) (λ k', if decide (k = k') then {[c]} ∪ br_subs b k' else br_subs b k');
  ps_receive k b :=
    match br_inbox b k with
    | [] => None
    | m :: q => Some (m, mkBroker (λ k', if decide (k = k') then q else br_inbox b k') (br_subs b))
    end |}.

#[global] Instance broker_laws : PubSubLaws broker.
Proof.
  refine {| inbox := br_inbox; subscribed := br_subs |}; try done.
  intros b k. cbn. destruct (br_inbox b k) as [|m q]; [done|]. eexists. split; [reflexivity|]. cbn. by rewrite decide_True.
Defined.

Lemma channel_delivers_in_order_witness :
  ∃ b', (nc_Subscribe (newChannel (§"n1") (Some 0%nat) (Some 1%nat)) >>>
         publish_all (newChannel (§"n1") (Some 0%nat) (Some 1%nat)) [(§"n1", §"a"); (§"n2", §"b"); (§"n1", §"c")])
          (mkBroker (λ _, []) (λ _, ∅)) = (Ret tt, b') ∧
    (nc_receive 3 0 b').1 = [§"a"; §"c"].
Proof.
  apply (channel_delivers_in_order (newChannel (§"n1") (Some 0%nat) (Some 1%nat)) 0 1
           [(§"n1", §"a"); (§"n2", §"b"); (§"n1", §"c")] (mkBroker (λ _, []) (λ _, ∅)) 3).
  - reflexivity.
  - reflexivity.
  - reflexivity.
  - reflexivity.
  - cbn. lia.
Defined.
