(* ===== verification/World.v ===== *)
(** * World: the process around sessions and nodes.

    The state shared by all sessions of a process: the database, the router behind
    the [MessageRouter] interface, the configuration, the cache of offline message
    ids ([core/cache.go]), the channel of sessions to clean up, the counters of
    [core/measure.go].  What comes from outside (random ids, the clock, replies of
    the callback server, the order in which Go ranges over a map) is an oracle that
    is asked once per call; the state counts the calls.  The size of an allocation is an
    oracle too. *)

From S2P Require Import Prelude GoBytes Utf8 Json Gjson Types Config Database.

(** ** The outside *)

Class Oracles := {
  (** the [n]-th [uuid.Rand().Hex()] *)
  uuid_hex : nat → bytes;
  (** the [n]-th reading of [time.Now()], in nanoseconds *)
  clock_ns : nat → Z;
  (** whether [http.NewRequest] accepts the url *)
  url_ok : bytes → bool;
  (** the [n]-th [client.Do] and the read of its body: url and form body *)
  http_do : nat → bytes → bytes → result bytes;
  (** the order of the [n]-th range over a map with these keys *)
  range_order : nat → list bytes → list bytes;
  range_order_perm n l : range_order n l ≡ₚ l;
  (** the capacity of a byte slice made from a string of this length *)
  slice_cap : nat → nat;
  (** whether a worker of the database reads what [cleanGhostSession] has queued only after its
      last call *)
  reads_late : bool;
}.

(** ** [MessageRouter] *)

(** [Route(channel, sid, packet, signal...)]: a nil packet is [None], no signal is 0. *)
Class MessageRouter (Q : Type) :=
  Route : bytes → bytes → option Packet → Z → M Q error.

(** Routing never panics: it queues or reports an error. *)
Class RouterLaws (Q : Type) `{MessageRouter Q} :=
  route_returns channel sid p signal q : ∃ e, (Route channel sid p signal q).1 = Ret e.

(** ** The shared state *)

Record World (D Q : Type) := mkWorld {
  w_db : D;
  w_router : Q;
  w_conf : confmap;
  w_ofl : gmap bytes (list bytes);
  w_clean : list bytes;
  w_read : Z;
  w_write : Z;
  n_uuid : nat;
  n_clock : nat;
  n_http : nat;
  n_range : nat }.
Arguments mkWorld {D Q}.
Arguments w_db {D Q}.
Arguments w_router {D Q}.
Arguments w_conf {D Q}.
Arguments w_ofl {D Q}.
Arguments w_clean {D Q}.
Arguments w_read {D Q}.
Arguments w_write {D Q}.
Arguments n_uuid {D Q}.
Arguments n_clock {D Q}.
Arguments n_http {D Q}.
Arguments n_range {D Q}.

Section World.
Context {D Q : Type}.
Implicit Types w : World D Q.

Definition set_db (d : D) w : World D Q :=
  mkWorld d (w_router w) (w_conf w) (w_ofl w) (w_clean w) (w_read w) (w_write w)
    (n_uuid w) (n_clock w) (n_http w) (n_range w).
Definition set_router (q : Q) w : World D Q :=
  mkWorld (w_db w) q (w_conf w) (w_ofl w) (w_clean w) (w_read w) (w_write w)
    (n_uuid w) (n_clock w) (n_http w) (n_range w).
Definition set_ofl (c : gmap bytes (list bytes)) w : World D Q :=
  mkWorld (w_db w) (w_router w) (w_conf w) c (w_clean w) (w_read w) (w_write w)
    (n_uuid w) (n_clock w) (n_http w) (n_range w).
Definition set_clean (l : list bytes) w : World D Q :=
  mkWorld (w_db w) (w_router w) (w_conf w) (w_ofl w) l (w_read w) (w_write w)
    (n_uuid w) (n_clock w) (n_http w) (n_range w).
Definition set_counts (u c h r : nat) w : World D Q :=
  mkWorld (w_db w) (w_router w) (w_conf w) (w_ofl w) (w_clean w) (w_read w) (w_write w) u c h r.

(** [MeasureReadAdd] and [MeasureWriteAdd]: atomic counters of 64 bits. *)
Definition MeasureReadAdd (i : Z) w : World D Q :=
  mkWorld (w_db w) (w_router w) (w_conf w) (w_ofl w) (w_clean w) (wrap_s 64 (w_read w + i)) (w_write w)
    (n_uuid w) (n_clock w) (n_http w) (n_range w).
Definition MeasureWriteAdd (i : Z) w : World D Q :=
  mkWorld (w_db w) (w_router w) (w_conf w) (w_ofl w) (w_clean w) (w_read w) (wrap_s 64 (w_write w + i))
    (n_uuid w) (n_clock w) (n_http w) (n_range w).

Definition MeasureReadGet w : Z := w_read w.
Definition MeasureWriteGet w : Z := w_write w.

(** Calls into the database and the router. *)
Definition on_db {A} (m : M D A) : M (World D Q) A := zoom w_db set_db m.
Definition on_router {A} (m : M Q A) : M (World D Q) A := zoom w_router set_router m.

(** [self.clean <- sid]. *)
Definition send_clean (sid : bytes) : M (World D Q) unit := modify (λ w, set_clean (w_clean w ++ [sid]) w).

(** ** [core/cache.go] *)

(** [init]: the cache is empty. *)
Definition ofl_cache : gmap bytes (list bytes) := ∅.

Definition ofl_get (key : bytes) : M (World D Q) (result (list bytes)) :=
  gets (λ w, match w_ofl w !! key with Some v => OK v | None => ERR (§"key notfound") end).
Definition ofl_put (key : bytes) (val : list bytes) : M (World D Q) unit :=
  modify (λ w, set_ofl (<[key := val]> (w_ofl w)) w).
Definition ofl_del (key : bytes) : M (World D Q) unit :=
  modify (λ w, set_ofl (delete key (w_ofl w)) w).

Section Outside.
Context `{Oracles}.

Definition uuid_rand : M (World D Q) bytes := λ w,
  (Ret (uuid_hex (n_uuid w)), set_counts (S (n_uuid w)) (n_clock w) (n_http w) (n_range w) w).

Definition time_now : M (World D Q) Z := λ w,
  (Ret (clock_ns (n_clock w)), set_counts (n_uuid w) (S (n_clock w)) (n_http w) (n_range w) w).

Definition range_keys (l : list bytes) : M (World D Q) (list bytes) := λ w,
  (Ret (range_order (n_range w) l), set_counts (n_uuid w) (n_clock w) (n_http w) (S (n_range w)) w).

(** ** [utils/dateutils.go] *)

Definition Timestamp10 : M (World D Q) Z := let! t := time_now in ret (t / 1000000000).
Definition Timestamp13 : M (World D Q) Z := let! t := time_now in ret (Z.quot t 1000000).
Definition TimeoutTime (second : Z) : M (World D Q) Z := let! t := time_now in ret (t + 1000000000 * second).
End Outside.

Definition lift_outcome {A} (f : confmap → outcome A) : M (World D Q) A := λ w, (f (w_conf w), w).
End World.

(** ** Computations that only ask the outside *)

Section Asks.
Context {D Q : Type}.
Implicit Types w : World D Q.

(** The two states differ at most in the number of questions asked. *)
Record asked w w' : Prop := {
  ask_db : w_db w' = w_db w; ask_router : w_router w' = w_router w; ask_conf : w_conf w' = w_conf w;
  ask_ofl : w_ofl w' = w_ofl w; ask_clean : w_clean w' = w_clean w }.

#[global] Instance asked_preorder : PreOrder asked.
Proof. split; [by split|]. intros a b c [] []. split; congruence. Qed.

Definition asks {A} (m : M (World D Q) A) : Prop := ∀ w, asked w (m w).2.

Lemma asks_ret {A} (a : A) : asks (ret a).
Proof. intros w. reflexivity. Qed.
Lemma asks_panic {A} e : asks (panic (A := A) e).
Proof. intros w. reflexivity. Qed.
Lemma asks_deref {A} (o : option A) : asks (deref o).
Proof. intros w. by destruct o. Qed.
Lemma asks_of_outcome {A} (o : outcome A) : asks (of_outcome o).
Proof. intros w. reflexivity. Qed.
Lemma asks_lift {A} (f : confmap → outcome A) : asks (lift_outcome f).
Proof. intros w. reflexivity. Qed.
Lemma asks_uuid `{Oracles} : asks uuid_rand.
Proof. by intros w. Qed.
Lemma asks_time `{Oracles} : asks time_now.
Proof. by intros w. Qed.

Lemma asks_bind {A B} (m : M (World D Q) A) (k : A → M (World D Q) B) :
  asks m → (∀ a, asks (k a)) → asks (bind m k).
Proof.
  intros Hm Hk w. specialize (Hm w). unfold bind. destruct (m w) as [[a|p] w']; cbn in *; [|done].
  by etrans; [|apply Hk].
Qed.

Lemma asks_Timestamp13 `{Oracles} : asks Timestamp13.
Proof. apply asks_bind; [apply asks_time|intros; apply asks_ret]. Qed.
End Asks.

#[export] Hint Resolve asks_ret asks_panic asks_deref asks_of_outcome asks_lift asks_uuid asks_time asks_Timestamp13 : sara.

Ltac ask :=
  repeat first [lazymatch goal with |- ∀ _, _ => intro end | solve [auto 3 with sara] | apply asks_bind | case_match_eqn].
