(* ===== verification/External.v ===== *)
(** * External: [external] and [utils/httpclient.go], the callbacks to the user's server.

    Requests are a JSON document posted as one form field; the reply is decoded as
    [rpcserver.Success].  Authentication, the member list of a group and the
    notification of offline messages. *)

From S2P Require Import Prelude GoBytes Utf8 Json Gjson Types Config Database World.

(** ** Form encoding, [url.Values.Encode] *)

Definition unreserved (c : ascii) : bool :=
  let z := zob c in
  in_range 97 122 z || in_range 65 90 z || in_range 48 57 z ||
  (z =? 45) || (z =? 95) || (z =? 46) || (z =? 126).

(** A digit of a percent escape. *)
Definition upper_hex (z : Z) : ascii := boz (if z <? 10 then 48 + z else 55 + z).

Definition escape_byte (c : ascii) : bytes :=
  if unreserved c then [c]
  else if ceq c " "%char then ["+"%char]
  else ["%"%char; upper_hex (zob c / 16); upper_hex (zob c mod 16)].

Definition QueryEscape (s : bytes) : bytes := s ≫= escape_byte.

(** [vals.Set] on the values kept sorted by key. *)
Fixpoint vals_Set (k v : bytes) (l : list (bytes * bytes)) : list (bytes * bytes) :=
  match l with
  | [] => [(k, v)]
  | (k', v') :: l' =>
      if decide (k = k') then (k, v) :: l'
      else if bytes_lt k k' then (k, v) :: (k', v') :: l'
      else (k', v') :: vals_Set k v l'
  end.

Definition vals_Encode (l : list (bytes * bytes)) : bytes :=
  Join (map (λ kv, QueryEscape kv.1 ++ §"=" ++ QueryEscape kv.2) l) (§"&").

Definition index_out_of_range : bytes := §"index out of range".

(** The loop of [PostRequest]: a key without a value is an index out of range. *)
Fixpoint form_values (params : list bytes) (vals : list (bytes * bytes)) : outcome (list (bytes * bytes)) :=
  match params with
  | [] => Ret vals
  | [_] => Panic index_out_of_range
  | k :: v :: params' => form_values params' (vals_Set k v vals)
  end.

(** ** [rpcserver.Success] and [Params] *)

Record Success := mkSuccess { s_Sn : bytes; s_Success : bool; s_Entity : option json }.

Definition success_names : list bytes := [§"sn"; §"success"; §"entity"].

Record Params := mkParams { p_Sn : bytes; p_Service : bytes; p_Method : bytes; p_Params : option (list (bytes * json)) }.

(** [Params.ToJson]: a nil map is written as null. *)
Definition Params_ToJson (p : Params) : bytes :=
  print (JObj [ (§"sn", JStr (p_Sn p)); (§"service", JStr (p_Service p)); (§"method", JStr (p_Method p));
                (§"params", match p_Params p with None => JNull | Some m => JObj m end) ]).

(** The loop of [NewParams] over an even number of parameters. *)
Fixpoint params_map (params : list bytes) (m : list (bytes * json)) : list (bytes * json) :=
  match params with
  | k :: v :: params' => params_map params' (map_put k (JStr v) m)
  | _ => m
  end.

Section External.
Context `{GoLib} `{Oracles} {D Q : Type}.

Definition set_success (n : bytes) (v : json) (s : Success) : dec Success :=
  let '(mkSuccess sn ok ent) := s in
  if decide (n = §"sn") then let '(x, er) := set_string v sn in (mkSuccess x ok ent, er)
  else if decide (n = §"success") then let '(x, er) := set_bool v ok in (mkSuccess sn x ent, er)
  else match v with
       | JNull => dec_ok (mkSuccess sn ok None)
       | _ => match iface v with
              | Some w => dec_ok (mkSuccess sn ok (Some w))
              | None => dec_err (mkSuccess sn ok None)
              end
       end.

(** [json.Unmarshal([]byte(s), success)]. *)
Definition unmarshal_success (s : bytes) : dec Success :=
  unmarshal success_names set_success s (mkSuccess [] false None).

(** [utils.PostRequest]: [request] is nil when the url is malformed. *)
Definition PostRequest (urlStr : bytes) (params : list bytes) : M (World D Q) (result bytes) :=
  let! vals := of_outcome (form_values params []) in
  if url_ok urlStr then
    λ w, (Ret (http_do (n_http w) urlStr (vals_Encode vals)),
          set_counts (n_uuid w) (n_clock w) (S (n_http w)) (n_range w) w)
  else panic nil_deref.

Definition NewParams (service method : bytes) (params : list bytes) : M (World D Q) Params :=
  let! sn := uuid_rand in
  let t := Z.of_nat (length params) in
  ret (mkParams sn service method
         (if (0 <? t) && (t mod 2 =? 0) then Some (params_map params []) else None)).

Definition Auth (uid pwd : bytes) : M (World D Q) bool :=
  let! enable := lift_outcome (λ c, GetBool c (§"enable_auth") true) in
  if negb enable then ret true else
  let! url := lift_outcome (λ c, GetString c (§"callback") []) in
  if decide (url = []) then ret true else
  let! p := NewParams (§"emsg_auth") (§"auth") [§"uid"; uid; §"token"; pwd] in
  let! r := PostRequest url [§"body"; Params_ToJson p] in
  match r with
  | inl _ => ret false
  | inr s =>
      let '(success, e) := unmarshal_success s in
      if e : bool then ret false else ret (s_Success success)
  end.

(** The reply is decoded even when the request failed, in which case it is empty. *)
Definition GetGroupUserList (gid : bytes) : M (World D Q) (list bytes * error) :=
  let! url := lift_outcome (λ c, GetString c (§"callback") []) in
  if decide (url = []) then ret ([], Some (§"callback_url_not_define")) else
  let! p := NewParams (§"emsg_group") (§"get_user_list") [§"gid"; gid] in
  let! r := PostRequest url [§"body"; Params_ToJson p] in
  let '(s, err) := match r with inl e => ([], Some e) | inr s => (s, None) end in
  let '(success, e) := unmarshal_success s in
  let err := if e : bool then Some (json_error s) else err in
  if s_Success success then
    ret (map String_ (Array_ (Get s (§"entity.users"))), err)
  else ret ([], Some (String_ (Get s (§"entity")))).

(** A value decoded into an [interface{}] when the error is dropped: a number out of
    the range of [float64] is nil. *)
Fixpoint iface_lossy (v : json) : json :=
  match v with
  | JNum t => match fmt_float64 t with Some s => JNum s | None => JNull end
  | JArr l => JArr (map iface_lossy l)
  | JObj l => JObj ((fix go l acc := match l with
                      | [] => acc
                      | (k, x) :: l' => go l' (map_put k (iface_lossy x) acc)
                      end) l [])
  | _ => v
  end.

(** [m := make(map[string]interface{}); json.Unmarshal(data, &m)], the error dropped. *)
Definition unmarshal_map (data : bytes) : option (list (bytes * json)) :=
  match json_parse data with
  | Some JNull => None
  | Some v => match iface_lossy v with JObj m => Some m | _ => Some [] end
  | None => Some []
  end.

Definition OfflineCallback (packetStr : bytes) : M (World D Q) bool :=
  let! enable := lift_outcome (λ c, GetBool c (§"enable_offline_callback") true) in
  if negb enable then ret true else
  let! url := lift_outcome (λ c, GetString c (§"callback") []) in
  if decide (url = []) then ret true else
  let! ps := NewParams (§"user_message") (§"offline") [] in
  let ps := mkParams (p_Sn ps) (p_Service ps) (p_Method ps) (unmarshal_map packetStr) in
  let! r := PostRequest url [§"body"; Params_ToJson ps] in
  match r with
  | inl _ => ret false
  | inr s =>
      let '(success, e) := unmarshal_success s in
      if e : bool then ret false else ret (s_Success success)
  end.
End External.

(** ** Reading a form field back *)

Definition hex_digit (c : ascii) : option Z :=
  let z := zob c in
  if in_range 48 57 z then Some (z - 48)
  else if in_range 97 102 z then Some (z - 87)
  else if in_range 65 70 z then Some (z - 55)
  else None.

(** [url.QueryUnescape], what the receiving server applies to the field. *)
Fixpoint QueryUnescape (s : bytes) : option bytes :=
  match s with
  | [] => Some []
  | c :: s' =>
      if ceq c "%"%char then
        match s' with
        | a :: b :: s'' =>
            match hex_digit a, hex_digit b, QueryUnescape s'' with
            | Some x, Some y, Some r => Some (boz (16 * x + y) :: r)
            | _, _, _ => None
            end
        | _ => None
        end
      else if ceq c "+"%char then cons " "%char <$> QueryUnescape s'
      else cons c <$> QueryUnescape s'
  end.

(** ** Lemmas *)

Lemma hex_digit_upper z : 0 ≤ z < 16 → hex_digit (upper_hex z) = Some z.
Proof.
  intros Hz. unfold hex_digit, upper_hex. destruct (Z.ltb_spec z 10).
  - rewrite zob_boz_id by lia. rewrite in_range_true by lia. f_equal. lia.
  - rewrite zob_boz_id by lia. rewrite (in_range_false 48), (in_range_false 97), in_range_true by lia. f_equal. lia.
Qed.

(** One byte is read back, whatever follows. *)
Lemma QueryUnescape_byte c t r :
  QueryUnescape t = Some r → QueryUnescape (escape_byte c ++ t) = Some (c :: r).
Proof.
  intros Ht. unfold escape_byte. destruct (unreserved c) eqn:U.
  - cbn. rewrite !ceq_neq; [by rewrite Ht| |]; by intros ->.
  - destruct (ceq c " "%char) eqn:Es.
    + cbn. rewrite Ht. apply Ascii.eqb_eq in Es as ->. done.
    + pose proof (zob_range c). cbn [app QueryUnescape]. rewrite ceq_refl.
      rewrite !hex_digit_upper by divs. rewrite Ht.
      replace (16 * (zob c / 16) + zob c mod 16) with (zob c) by divs. by rewrite boz_zob.
Qed.

(** The callbacks change nothing but what has been asked. *)
Section Asking.
Context `{GoLib} `{Oracles} {D Q : Type}.

Lemma asks_PostRequest url ps : asks (PostRequest (D := D) (Q := Q) url ps).
Proof. unfold PostRequest. ask. by split. Qed.
Lemma asks_NewParams s m ps : asks (NewParams (D := D) (Q := Q) s m ps).
Proof. unfold NewParams. ask. Qed.
#[local] Hint Resolve asks_PostRequest asks_NewParams : sara.

Lemma asks_Auth u p : asks (Auth (D := D) (Q := Q) u p).
Proof. unfold Auth. ask. Qed.
Lemma asks_GetGroupUserList g : asks (GetGroupUserList (D := D) (Q := Q) g).
Proof. unfold GetGroupUserList. ask. Qed.
Lemma asks_OfflineCallback s : asks (OfflineCallback (D := D) (Q := Q) s).
Proof. unfold OfflineCallback. ask. Qed.
End Asking.

#[export] Hint Resolve asks_Auth asks_GetGroupUserList asks_OfflineCallback : sara.

(** ** Properties *)

(** The document posted to the callback server arrives there unchanged: decoding
    the form field gives the bytes that were encoded. *)
Theorem form_field_roundtrip (s : bytes) : QueryUnescape (QueryEscape s) = Some s.
Proof. induction s as [|c s IH]; [done|]. unfold QueryEscape. cbn. by apply QueryUnescape_byte. Qed.

Section Replies.
Context `{GoLib} `{Oracles} {D Q : Type}.
Implicit Types w : World D Q.

(** A configuration in which users are authenticated by a callback. *)
Definition auth_conf (conf : confmap) (url : bytes) : Prop :=
  GetBool conf (§"enable_auth") true = Ret true ∧ GetString conf (§"callback") [] = Ret url ∧
  url ≠ [] ∧ url_ok url = true.

(** The request that authenticates a user. *)
Definition auth_body (sn uid pwd : bytes) : bytes :=
  vals_Encode [(§"body", Params_ToJson (mkParams sn (§"emsg_auth") (§"auth")
    (Some (params_map [§"uid"; uid; §"token"; pwd] []))))].

(** The callback is asked once, and the answer is the boolean of its reply. *)
Lemma Auth_asks w uid pwd url :
  auth_conf (w_conf w) url →
  (Auth uid pwd w).1 =
  Ret match http_do (n_http w) url (auth_body (uuid_hex (n_uuid w)) uid pwd) with
      | inl _ => false
      | inr s => let '(success, e) := unmarshal_success s in if e : bool then false else s_Success success
      end.
Proof.
  intros (He & Hu & Hne & Hok). unfold Auth, lift_outcome, bind. rewrite He. cbn [negb].
  rewrite Hu. rewrite decide_False by done. unfold NewParams, uuid_rand, bind, ret. cbn [fst].
  unfold PostRequest, bind, of_outcome. cbn [form_values]. rewrite Hok. cbn [n_http set_counts].
  match goal with |- context [http_do _ _ ?b] => change b with (auth_body (uuid_hex (n_uuid w)) uid pwd) end.
  destruct (http_do _ _ _) as [e|s]; [done|]. by destruct (unmarshal_success s) as [x []].
Qed.

(** A reply of the callback server. *)
Definition reply (sn : bytes) (v : json) : bytes := print (JObj [(§"sn", JStr sn); (§"success", v)]).

Lemma unmarshal_reply sn v :
  utf8_valid sn → wf_json v →
  unmarshal_success (reply sn v) =
  let '(b, e) := set_bool v false in (mkSuccess sn b None, e).
Proof.
  intros Hs Hv. unfold unmarshal_success, unmarshal, reply. rewrite json_parse_print.
  - by destruct v.
  - constructor. repeat constructor; try done; by apply lit_plain_ok.
Qed.

(** A user is authenticated by a reply whose [success] is the JSON boolean true;
    the reply documented for success, where it is the string [true], is refused. *)
Theorem auth_needs_json_boolean w uid pwd url sn :
  auth_conf (w_conf w) url → utf8_valid sn →
  let reply_is s := http_do (n_http w) url (auth_body (uuid_hex (n_uuid w)) uid pwd) = OK s in
  (reply_is (reply sn (JBool true)) → (Auth uid pwd w).1 = Ret true) ∧
  (reply_is (reply sn (JBool false)) → (Auth uid pwd w).1 = Ret false) ∧
  (reply_is (reply sn (JStr (§"true"))) → (Auth uid pwd w).1 = Ret false).
Proof.
  intros Hc Hs reply_is. subst reply_is. rewrite (Auth_asks w uid pwd url Hc).
  split_and!; intros ->; rewrite unmarshal_reply by
    (exact Hs || apply wf_bool || (apply wf_str; by apply lit_plain_ok)); done.
Qed.
End Replies.

(** ** The properties at concrete inputs *)

#[local] Instance ex_lib : GoLib := {|
  fmt_float64 t := Some t; float_f t := t; float_int t := ParseInt_n t; float_nonzero _ := true;
  json_error t := t |}.

(** A callback server that accepts everyone, and a clock of one tick a second. *)
#[local] Instance ex_oracles : Oracles.
Proof.
  refine {| uuid_hex n := §"u" ++ fmt_u (Z.of_nat n); clock_ns n := Z.of_nat n * 1000000000;
            url_ok _ := true; http_do _ _ _ := OK (reply (§"1") (JBool true)); range_order _ l := l;
            slice_cap n := n; reads_late := true |}.
  done.
Defined.

Definition ex_conf : confmap := SetString (§"callback") (§"http://cb/") (SetBool (§"enable_auth") true init_conf).
Definition ex_world : World unit unit := mkWorld tt tt ex_conf ∅ [] 0 0 0 0 0 0.

Lemma ex_auth_conf : auth_conf (w_conf ex_world) (§"http://cb/").
Proof. repeat split; done. Qed.

Lemma auth_needs_json_boolean_witness : (Auth (§"bob") (§"pw") ex_world).1 = Ret true.
Proof.
  apply (auth_needs_json_boolean ex_world (§"bob") (§"pw") (§"http://cb/") (§"1") ex_auth_conf).
  - by apply lit_plain_ok.
  - reflexivity.
Defined.
