(* ===== verification/Session.v ===== *)
(** * Session: [core/session.go], the life of one client connection.

    The state of a session with its connection and its buffer of packets that are
    not acknowledged, and every handler of the file as a computation on that state
    and the shared [World].  A handler runs to its end before the next one of the
    same session starts, except where [Node] interleaves them. *)

From S2P Require Import Prelude GoBytes Utf8 Json Gjson Types Conn Config Database World External.

Definition LOGIN_TIMEOUT : Z := 8.
Definition SESSION_TIMEOUT : Z := 100.
Definition PACKET_HANDLER_TIMEOUT : Z := SESSION_TIMEOUT * 2.
Definition OFFLINE_EXPIRED : Z := 3600 * 24 * 7.
Definition SERVER_ACK : bytes := §"server_ack".

(** ** Session records *)

Record SessionStatus := mkStatus {
  ss_Sid : bytes; ss_Jid : bytes; ss_Status : bytes; ss_Nodeid : bytes; ss_Channel : bytes; ss_Ct : Z }.

Definition status_json (s : SessionStatus) : json :=
  JObj [ (§"Sid", JStr (ss_Sid s)); (§"Jid", JStr (ss_Jid s)); (§"Status", JStr (ss_Status s));
         (§"Nodeid", JStr (ss_Nodeid s)); (§"Channel", JStr (ss_Channel s)); (§"Ct", JNum (fmt_d (ss_Ct s))) ].

(** [SessionStatus.ToJson]: [Marshal] of strings and an integer cannot fail. *)
Definition SessionStatus_ToJson (s : SessionStatus) : bytes := print (status_json s).

Definition status_names : list bytes := [§"Sid"; §"Jid"; §"Status"; §"Nodeid"; §"Channel"; §"Ct"].

Definition set_status (n : bytes) (v : json) (s : SessionStatus) : dec SessionStatus :=
  let '(mkStatus sid jid st nid ch ct) := s in
  if decide (n = §"Sid") then let '(x, er) := set_string v sid in (mkStatus x jid st nid ch ct, er)
  else if decide (n = §"Jid") then let '(x, er) := set_string v jid in (mkStatus sid x st nid ch ct, er)
  else if decide (n = §"Status") then let '(x, er) := set_string v st in (mkStatus sid jid x nid ch ct, er)
  else if decide (n = §"Nodeid") then let '(x, er) := set_string v nid in (mkStatus sid jid st x ch ct, er)
  else if decide (n = §"Channel") then let '(x, er) := set_string v ch in (mkStatus sid jid st nid x ct, er)
  else let '(x, er) := set_int64 v ct in (mkStatus sid jid st nid ch x, er).

Definition empty_status : SessionStatus := mkStatus [] [] [] [] [] 0.

(** [NewSessionStatusFromJson]: an error is only logged. *)
Definition NewSessionStatusFromJson (data : bytes) : SessionStatus :=
  fst (unmarshal status_names set_status data empty_status).

(** ** Connections *)

(** What the peer of an open connection has been sent, and the read deadline. *)
Record conn := mkConn { is_ws : bool; out : list bytes; is_open : bool; deadline : option Z }.

(** [NewTcpSessionConn] and [NewWsSessionConn]. *)
Definition NewTcpSessionConn : conn := mkConn false [] true None.
Definition NewWsSessionConn : conn := mkConn true [] true None.

(** ** Sessions *)

Record Session := mkSession { Status : SessionStatus; sc : option conn; pkgBuff : gmap bytes Packet }.

Record SState (D Q : Type) := mkS { ses : Session; wld : World D Q }.
Arguments mkS {D Q}.
Arguments ses {D Q}.
Arguments wld {D Q}.

Section Session.
Context `{GoLib} `{Oracles} {D Q : Type} `{Database D} `{MessageRouter Q}.

Abbreviation SM := (M (SState D Q)).

Definition set_ses (s : Session) (x : SState D Q) : SState D Q := mkS s (wld x).
Definition set_wld (w : World D Q) (x : SState D Q) : SState D Q := mkS (ses x) w.

Definition on_world {A} (m : M (World D Q) A) : SM A := zoom wld set_wld m.
Definition db {A} (m : M D A) : SM A := on_world (on_db m).
Definition router {A} (m : M Q A) : SM A := on_world (on_router m).

Definition get_Status : SM SessionStatus := gets (λ x, Status (ses x)).
Definition put_Status (f : SessionStatus → SessionStatus) : SM unit :=
  modify (λ x, set_ses (mkSession (f (Status (ses x))) (sc (ses x)) (pkgBuff (ses x))) x).
Definition put_conn (c : conn) : SM unit :=
  modify (λ x, set_ses (mkSession (Status (ses x)) (Some c) (pkgBuff (ses x))) x).
Definition put_buff (b : gmap bytes Packet) : SM unit :=
  modify (λ x, set_ses (mkSession (Status (ses x)) (sc (ses x)) b) x).

Definition login (st : SessionStatus) : bool := bool_decide (ss_Status st = STATUS_LOGIN).

(** *** The connection, through the [SessionConn] interface: a nil interface panics *)

Definition get_conn : SM conn := let! o := gets (λ x, sc (ses x)) in deref o.

Definition SetReadTimeout (t : Z) : SM unit :=
  let! c := get_conn in put_conn (mkConn (is_ws c) (out c) (is_open c) (Some t)).

(** [TcpSessionConn.WritePacket], [WsSessionConn.WritePacket]: a write on a closed
    connection fails, and the callers drop the result. *)
Definition WritePacket (packet : bytes) : SM unit :=
  let! c := get_conn in
  (if is_ws c then ret tt else on_world (modify (MeasureWriteAdd 1))) >>>
  if is_open c then
    put_conn (mkConn (is_ws c) (out c ++ [if is_ws c then ws_frame packet else packet]) (is_open c) (deadline c))
  else ret tt.

Definition conn_Close : SM unit :=
  let! c := get_conn in put_conn (mkConn (is_ws c) (out c) false (deadline c)).

(** *** Sending *)

Definition SendMessage (data : bytes) : SM unit := WritePacket (data ++ [END_FLAG]).

Definition answer (packet : Packet) : SM unit := SendMessage (ToJson packet).

Definition heartbeat : SM unit :=
  let! st := get_Status in
  if login st then SendMessage [HEART_BEAT] else ret tt.

Definition setSessionTimeout (sec : Z) : SM unit :=
  let! st := get_Status in
  let! t := on_world (TimeoutTime
    (if 0 <? sec then sec
     else if bool_decide (ss_Status st = STATUS_CONN) then LOGIN_TIMEOUT else SESSION_TIMEOUT)) in
  SetReadTimeout t.

(** *** Storing packets *)

(** [StorePacket]: a malformed recipient is a nil pointer. *)
Definition StorePacket (packet : Packet) : M (World D Q) unit :=
  let '(id, _, to, _) := EnvelopeIdFromToType packet in
  let! to_jid := deref (NewJID_ to) in
  on_db (db_PutExWithIdx (ToOfflineKey to_jid) id (ToJson packet) OFFLINE_EXPIRED) >>> ret tt.

Definition storePacket (packet : Packet) : SM unit := on_world (StorePacket packet).

(** The two actions of [pkgBuffWrite]. *)
Definition pkgBuffAdd (p : Packet) : SM unit :=
  let! b := gets (λ x, pkgBuff (ses x)) in put_buff (<[Id (envelope_of p) := p]> b).
Definition pkgBuffDel (id : bytes) : SM unit :=
  let! b := gets (λ x, pkgBuff (ses x)) in put_buff (delete id b).

(** [pkgBuffToStore]: the packets stay in the buffer. *)
Definition pkgBuffToStore : SM unit :=
  let! b := gets (λ x, pkgBuff (ses x)) in
  if decide (b = ∅) then ret tt else
  let! ks := on_world (range_keys (map_to_list b).*1) in
  for_range ks (λ k, match b !! k with Some v => storePacket v | None => ret tt end).

(** [storeSessionStatus]: the error is dropped. *)
Definition storeSessionStatus : SM unit :=
  let! st := get_Status in
  let! j := deref (NewJID_ (ss_Jid st)) in
  db (db_PutExWithIdx (ss_Nodeid st) (ToSessionid j) (SessionStatus_ToJson st) (-1)) >>> ret tt.

(** *** Closing *)

Definition CloseSession (tracemsg : bytes) : SM unit :=
  let! st := get_Status in
  if decide (ss_Status st = STATUS_CLOSE) then ret tt else
  on_world (send_clean (ss_Sid st)) >>>
  (if login st then
     let! j := deref (NewJID_ (ss_Jid st)) in
     db (db_DeleteByIdxKey (ss_Nodeid st) (ToSessionid j)) >>> ret tt
   else ret tt) >>>
  put_Status (λ s, mkStatus (ss_Sid s) (ss_Jid s) STATUS_CLOSE (ss_Nodeid s) (ss_Channel s) (ss_Ct s)) >>>
  conn_Close >>>
  pkgBuffToStore.

Definition Kill : SM unit := SendMessage [KILL] >>> CloseSession (§"kill").

(** *** Logging in *)

(** [verify]: [None] when the login was refused, after the refusal was answered and
    the session closed. *)
Definition verify (p : bytes) : SM (option Packet) :=
  match NewPacket p with
  | inl _ =>
      let! u := on_world uuid_rand in
      answer (NewPacketAuthFail u FAIL_PACKET) >>>
      CloseSession (§"verify_decode_packet") >>> ret None
  | inr packet =>
      let envelope := envelope_of packet in
      if negb (Type__ envelope =? MSG_TYPE_OPEN_SESSION) then
        answer (NewPacketAuthFail (Id envelope) FAIL_TYPE) >>>
        CloseSession (§"verify_check_msgtype") >>> ret None
      else
        match NewJID (Jid envelope) with
        | inl _ =>
            answer (NewPacketAuthFail (Id envelope) FAIL_PACKET) >>>
            CloseSession (§"verify_check_jid") >>> ret None
        | inr jid_obj =>
            let! s := db (db_Get (ToSessionid jid_obj)) in
            match s with
            | inr v =>
                let ss := NewSessionStatusFromJson v in
                router (Route (ss_Channel ss) (ss_Sid ss) None (zob KILL)) >>> ret tt
            | inl _ => ret tt
            end >>>
            let! ok := on_world (Auth (user jid_obj) (Pwd envelope)) in
            if negb ok then
              answer (NewPacketAuthFail (Id envelope) FAIL_TOKEN) >>>
              CloseSession (§"verify_check_auth") >>> ret None
            else ret (Some packet)
        end
  end.

(** The loop of [fetchOfflinePacket]: texts that do not decode are skipped. *)
Definition decode_offline (ddata : list bytes) : list BasePacket := omap NewBasePacket ddata.

Definition fetchOfflinePacket : SM (result (list BasePacket * list bytes)) :=
  let! st := get_Status in
  let! jid := deref (NewJID_ (ss_Jid st)) in
  let! r := db (db_GetByIdx (ToOfflineKey jid)) in
  ret match r with
      | inl e => ERR e
      | inr ddata =>
          let pks := decode_offline ddata in OK (pks, map (λ pk, Id (Envelope_ pk)) pks)
      end.

(** [openSession] for a login that [verify] has accepted. *)
Definition open_accepted (packet : Packet) : SM unit :=
  let envelope := envelope_of packet in
  let! ct := on_world Timestamp10 in
  put_Status (λ s, mkStatus (ss_Sid s) (Jid envelope) STATUS_LOGIN (ss_Nodeid s) (ss_Channel s) ct) >>>
  let p := AddDelay [] (NewPacketAuthSuccess (Id envelope)) in
  let! r := fetchOfflinePacket in
  let! p := match r with
            | inr (ofl_pks, ofl_ids) =>
                (if 0 <? Z.of_nat (length ofl_ids) then on_world (ofl_put (Id envelope) ofl_ids) else ret tt) >>>
                ret (AddDelay ofl_pks p)
            | inl _ => ret p
            end in
  storeSessionStatus >>>
  answer p.

Definition openSession (p : bytes) : SM unit :=
  let! o := verify p in
  match o with
  | None => ret tt
  | Some packet => open_accepted packet
  end.

(** *** Routing *)

Definition RoutePacket (packet : Packet) : SM unit :=
  let! st := get_Status in
  if negb (login st) then ret tt else
  let jid := NewJID_ (ss_Jid st) in
  let '(id, from, to, _) := EnvelopeIdFromToType packet in
  let! j := deref jid in
  let! to_me := of_outcome (EqualWithoutResource j to) in
  if to_me : bool then pkgBuffAdd packet >>> SendMessage (ToJson packet) else
  let! from_me := of_outcome (EqualWithoutResource j from) in
  if from_me : bool then
    match NewJID to with
    | inl err => answer (NewPacketSysNotify id err)
    | inr to_jid =>
        let! r := db (db_Get (ToSessionid to_jid)) in
        match r with
        | inr ssb =>
            let ss := NewSessionStatusFromJson ssb in
            router (Route (ss_Channel ss) (ss_Sid ss) (Some packet) 0) >>> ret tt
        | inl _ =>
            storePacket packet >>>
            on_world (OfflineCallback (ToJson packet)) >>> ret tt
        end
    end
  else ret tt.

Definition RoutePacketList (packetList : list Packet) : SM unit := for_range packetList RoutePacket.

(** *** Group chat *)

(** One packet of [genGroupPackets]; [None] for the sender himself. *)
Definition group_packet (from fromUser dom : bytes) (packet : Packet) (toUser : bytes) : M (World D Q) (option Packet) :=
  if decide (fromUser = toUser) then ret None else
  let! to_jid := deref (match NewJIDByUidDomain toUser dom with inr j => Some j | inl _ => None end) in
  let! id := uuid_rand in
  let! ct := Timestamp13 in
  let envelope := mkEnvelope id [] from (StringWithoutResource to_jid) MSG_TYPE_GROUP_CHAT 0 (fmt_d ct) []
                    (Gid (envelope_of packet)) in
  ret (Some (mkPacket (mkBasePacket envelope (Payload (base packet)) None (Vsn (base packet))) None None)).

Fixpoint group_packets (from fromUser dom : bytes) (packet : Packet) (toUsers : list bytes) : M (World D Q) (list Packet) :=
  match toUsers with
  | [] => ret []
  | u :: us =>
      let! o := group_packet from fromUser dom packet u in
      let! l := group_packets from fromUser dom packet us in
      ret (match o with Some p => p :: l | None => l end)
  end.

Definition genGroupPackets (users : bytes) (packet : Packet) : M (World D Q) (list Packet) :=
  let from := From (envelope_of packet) in
  let! fromJid := deref (NewJID_ from) in
  group_packets from (user fromJid) (domain fromJid) packet (Split users ","%char).

(** The key under which the members of a group are cached. *)
Definition group_key (gid dom : bytes) : bytes := §"group_" ++ gid ++ §"@" ++ dom.

Definition GenerateGroupPackets (packet : Packet) : M (World D Q) (result (list Packet)) :=
  let gid := Gid (envelope_of packet) in
  let! from_jid := deref (NewJID_ (From (envelope_of packet))) in
  let groupUsersKey := group_key gid (domain from_jid) in
  let fn users :=
    if Contains users (user from_jid) then let! l := genGroupPackets users packet in ret (OK l)
    else ret (ERR (§"no_permission")) in
  let! r := on_db (db_Get groupUsersKey) in
  match r with
  | inr users => fn users
  | inl _ =>
      let! ul := GetGroupUserList gid in
      let '(ulist, ulist_err) := ul in
      match ulist_err with
      | None =>
          if 1 <? Z.of_nat (length ulist) then
            let us := Join ulist (§",") in
            on_db (db_PutEx groupUsersKey us 3600) >>> fn us
          else ret (ERR (§"group_notfound"))
      | Some _ => ret (ERR (§"group_notfound"))
      end
  end.

(** *** Acknowledgements *)

Definition serverAck (packet : Packet) : SM unit :=
  let! st := get_Status in
  let! jid := deref (NewJID_ (ss_Jid st)) in
  let idx := ToOfflineKey jid in
  let! r := on_world (ofl_get (Id (envelope_of packet))) in
  match r with
  | inr ids => for_range ids (λ id, db (db_DeleteByIdxKey idx id) >>> ret tt)
  | inl _ => pkgBuffDel (Id (envelope_of packet))
  end.

(** *** The packet handler *)

(** [packet.Envelope.Ct = ct]. *)
Definition set_Ct (ct : bytes) (p : Packet) : Packet :=
  let e := envelope_of p in
  mkPacket (mkBasePacket (mkEnvelope (Id e) (Jid e) (From e) (To e) (Type__ e) (Ack e) ct (Pwd e) (Gid e))
              (Payload (base p)) (Entity_ (base p)) (Vsn (base p))) (Delay_ p) (raw p).

(** The body of the loop of [packetHandler], for one packet. *)
Definition handle_packet (p : bytes) : SM unit :=
  let! st := get_Status in
  if decide (ss_Status st = STATUS_CONN) then openSession p
  else if decide (p = [HEART_BEAT]) then heartbeat
  else
    match NewPacket p with
    | inr packet =>
        let! now := on_world Timestamp13 in
        let packet := set_Ct (fmt_d now) packet in
        let '(id, from, to, msgtype) := EnvelopeIdFromToType packet in
        if (msgtype =? MSG_TYPE_STATE) && bool_decide (to = SERVER_ACK) then serverAck packet
        else if msgtype =? MSG_TYPE_GROUP_CHAT then
          let! g := on_world (GenerateGroupPackets packet) in
          match g with
          | inr packets =>
              let! now := on_world Timestamp13 in
              answer (NewPacketAck now id) >>> RoutePacketList packets
          | inl gerr => answer (NewPacketSysNotify id gerr)
          end
        else
          (if negb (Ack (envelope_of packet) =? 0) then
             let! now := on_world Timestamp13 in answer (NewPacketAck now id)
           else ret tt) >>>
          RoutePacket packet
    | inl err =>
        let! u := on_world uuid_rand in
        answer (NewPacketSysNotify u err) >>> CloseSession (§"receive_message")
    end.

(** [packetHandler] before its deferred function. *)
Definition handler_body (result_ : ReadPacketResult) : SM unit :=
  match result_ with
  | RErr e =>
      let! st := get_Status in
      if decide (ss_Status st = STATUS_CLOSE) then ret tt else CloseSession (§"packet_handler :: " ++ e)
  | RPackets packets => for_range packets handle_packet
  end.

(** [packetHandler]: a panic of the body is recovered and leaves the long deadline,
    else the deadline is reset. *)
Definition packetHandler (result_ : ReadPacketResult) : SM unit :=
  setSessionTimeout PACKET_HANDLER_TIMEOUT >>>
  let! ok := recover (handler_body result_ >>> ret true) (λ _, ret false) in
  if ok : bool then setSessionTimeout 0 else ret tt.

(** [TcpSessionConn.callbackHandler]: a panic of the handler closes the connection.  The
    websocket's [recv] recovers it and stops reading. *)
Definition callbackHandler (close handler : SM unit) : SM unit := recover handler (λ _, close).

(** *** Creation *)

Definition newSession (c : bytes) : M (World D Q) Session :=
  let! sid := uuid_rand in
  let! nodeid := lift_outcome (λ conf, GetString conf (§"nodeid") []) in
  ret (mkSession (mkStatus sid [] STATUS_CONN nodeid c 0) None ∅).

(** [NewTcpSession] and [NewWsSession] once the connection is in place. *)
Definition NewSessionOn (ws : bool) (c : bytes) : M (World D Q) Session := λ w,
  match newSession c w with
  | (Panic p, w') => (Panic p, w')
  | (Ret s, w') =>
      let s := mkSession (Status s) (Some (if ws then NewWsSessionConn else NewTcpSessionConn)) (pkgBuff s) in
      let '(o, x) := setSessionTimeout 0 (mkS s w') in
      (match o with Ret _ => Ret (ses x) | Panic p => Panic p end, wld x)
  end.
Definition NewTcpSession (c : bytes) : M (World D Q) Session := NewSessionOn false c.
Definition NewWsSession (c : bytes) : M (World D Q) Session := NewSessionOn true c.
End Session.

(** ** The record of a session is read back *)

Definition wf_status (s : SessionStatus) : Prop :=
  utf8_valid (ss_Sid s) ∧ utf8_valid (ss_Jid s) ∧ utf8_valid (ss_Status s) ∧
  utf8_valid (ss_Nodeid s) ∧ utf8_valid (ss_Channel s) ∧ in_int64 (ss_Ct s).

Lemma status_json_wf s : wf_status s → wf_json (status_json s).
Proof.
  intros (H1 & H2 & H3 & H4 & H5 & H6). constructor.
  repeat (constructor; [split; [by apply lit_plain_ok|first [by apply wf_str|by apply wf_num, number_ok_fmt_d]]|]).
  constructor.
Qed.

Lemma status_roundtrip s : wf_status s → NewSessionStatusFromJson (SessionStatus_ToJson s) = s.
Proof.
  intros Hs. unfold NewSessionStatusFromJson, SessionStatus_ToJson, unmarshal.
  rewrite json_parse_print by by apply status_json_wf.
  destruct s as [sid jid st nid ch ct]. destruct Hs as (_ & _ & _ & _ & _ & Hct). cbn in Hct.
  unfold status_json, dec_struct. cbn [ss_Sid ss_Jid ss_Status ss_Nodeid ss_Channel ss_Ct].
  assert (∀ old, set_int64 (JNum (fmt_d ct)) old = dec_ok ct) as Hi.
  { intros old. unfold set_int64. by rewrite ParseInt_fmt. }
  change [(§"Sid", JStr sid); (§"Jid", JStr jid); (§"Status", JStr st); (§"Nodeid", JStr nid);
          (§"Channel", JStr ch); (§"Ct", JNum (fmt_d ct))]
    with ([(§"Sid", JStr sid); (§"Jid", JStr jid); (§"Status", JStr st); (§"Nodeid", JStr nid);
          (§"Channel", JStr ch)] ++ [(§"Ct", JNum (fmt_d ct))]).
  rewrite (dec_members_step _ _ _ _ _ (mkStatus sid jid st nid ch 0)) by done.
  cbn [dec_members]. change (find_field status_names (§"Ct")) with (Some (§"Ct")). cbn iota beta.
  unfold set_status. by rewrite Hi.
Qed.

(** ** How a session evolves *)

(** The order in which the status of a session can change. *)
Definition status_order (a b : bytes) : Prop :=
  a = b ∨ (a ≠ STATUS_CLOSE ∧ b = STATUS_CLOSE) ∨ (a = STATUS_CONN ∧ b = STATUS_LOGIN).

(** Output is only appended, and nothing is sent once the connection is closed. *)
Definition conn_order (a b : option conn) : Prop :=
  match a, b with
  | None, None => True
  | Some c, Some c' =>
      is_ws c' = is_ws c ∧ (∃ l, out c' = out c ++ l) ∧
      (is_open c = false → out c' = out c ∧ is_open c' = false)
  | _, _ => False
  end.

(** A session that is closed has closed its connection. *)
Definition shut (s : Session) : Prop :=
  match sc s with
  | Some c => ss_Status (Status s) = STATUS_CLOSE → is_open c = false
  | None => False
  end.

Record evolves (s s' : Session) : Prop := {
  ev_sid : ss_Sid (Status s') = ss_Sid (Status s);
  ev_node : ss_Nodeid (Status s') = ss_Nodeid (Status s);
  ev_chan : ss_Channel (Status s') = ss_Channel (Status s);
  ev_status : status_order (ss_Status (Status s)) (ss_Status (Status s'));
  ev_jid : ss_Status (Status s) ≠ STATUS_CONN → ss_Jid (Status s') = ss_Jid (Status s);
  ev_conn : conn_order (sc s) (sc s');
  ev_shut : shut s → shut s' }.

Lemma status_order_trans a b c : status_order a b → status_order b c → status_order a c.
Proof.
  intros [<-|[[Ha ->]|[-> ->]]]; [done|..].
  - intros [<-|[[Hb _]|[Hb _]]]; [by right; left|done|discriminate].
  - intros [<-|[[_ ->]|[Hb _]]]; [by right; right|by right; left|discriminate].
Qed.

#[global] Instance conn_order_preorder : PreOrder conn_order.
Proof.
  split.
  - intros [c|]; cbn; [|done]. split; [done|]. split; [exists []; by rewrite app_nil_r|done].
  - intros [a|] [b|] [c|]; cbn; try done. intros (E1 & [l1 H1] & C1) (E2 & [l2 H2] & C2).
    split; [congruence|]. split; [exists (l1 ++ l2); by rewrite H2, H1, app_assoc|].
    intros Hc. destruct (C1 Hc) as [? Hb]. destruct (C2 Hb). split; congruence.
Qed.

#[global] Instance evolves_preorder : PreOrder evolves.
Proof.
  split.
  - intros s. split; try done; first [by left|reflexivity].
  - intros a b c [] []. split; try congruence.
    + by eapply status_order_trans.
    + intros Hc. rewrite ev_jid1, ev_jid0; try done.
      destruct ev_status0 as [<-|[[_ ->]|[? _]]]; done.
    + by etrans.
    + auto.
Qed.

Section Keeps.
Context `{GoLib} `{Oracles} {D Q : Type} `{Database D} `{MessageRouter Q}.
Implicit Types x : SState D Q.

(** A computation relates the session before it to the session after it, also when
    it panics. *)
Definition keeps (R : relation Session) {A} (m : M (SState D Q) A) : Prop :=
  ∀ x, R (ses x) (ses (m x).2).

Section Rules.
Context (R : relation Session) `{!PreOrder R}.

Lemma keeps_ret {A} (a : A) : keeps R (ret a).
Proof. intros x. reflexivity. Qed.

Lemma keeps_bind {A B} (m : M (SState D Q) A) (k : A → M (SState D Q) B) :
  keeps R m → (∀ a, keeps R (k a)) → keeps R (bind m k).
Proof.
  intros Hm Hk x. specialize (Hm x). unfold bind. destruct (m x) as [[a|p] x']; cbn in *; [|done].
  by etrans; [|apply Hk].
Qed.

Lemma keeps_world {A} (m : M (World D Q) A) : keeps R (on_world m).
Proof. intros x. unfold on_world, zoom. destruct (m (wld x)) as [a w]. cbn. reflexivity. Qed.

Lemma keeps_gets {A} (f : SState D Q → A) : keeps R (gets f).
Proof. intros x. reflexivity. Qed.

Lemma keeps_panic {A} msg : keeps R (panic (A := A) msg).
Proof. intros x. reflexivity. Qed.

Lemma keeps_deref {A} (o : option A) : keeps R (deref o).
Proof. destruct o; [apply keeps_ret|apply keeps_panic]. Qed.

Lemma keeps_of_outcome {A} (o : outcome A) : keeps R (of_outcome o).
Proof. intros x. reflexivity. Qed.

Lemma keeps_for_range {A} (l : list A) (body : A → M (SState D Q) unit) :
  (∀ a, keeps R (body a)) → keeps R (for_range l body).
Proof. intros Hb. induction l as [|a l IH]; cbn; [apply keeps_ret|]. by apply keeps_bind. Qed.

Lemma keeps_recover {A} (m : M (SState D Q) A) h :
  keeps R m → (∀ p, keeps R (h p)) → keeps R (recover m h).
Proof.
  intros Hm Hh x. specialize (Hm x). unfold recover. destruct (m x) as [[a|p] x']; cbn in *; [done|].
  by etrans; [|apply Hh].
Qed.

Lemma keeps_db {A} (m : M D A) : keeps R (db m).
Proof. apply keeps_world. Qed.
Lemma keeps_router {A} (m : M Q A) : keeps R (router m).
Proof. apply keeps_world. Qed.
Lemma keeps_get_Status : keeps R get_Status.
Proof. apply keeps_gets. Qed.
End Rules.
End Keeps.

#[export] Hint Resolve keeps_db keeps_router keeps_get_Status : sara.
#[export] Hint Resolve keeps_ret keeps_world keeps_gets keeps_panic keeps_deref keeps_of_outcome : sara.

(** Decomposes a handler along its structure. *)
Ltac keep :=
  repeat first
    [ lazymatch goal with |- ∀ _, _ => intro end
    | assumption
    | solve [auto 3 with sara typeclass_instances]
    | apply keeps_bind; [typeclasses eauto| |intros ?]
    | apply keeps_for_range; [typeclasses eauto|intros ?]
    | apply keeps_recover; [typeclasses eauto| |intros ?]
    | case_match_eqn ].

Section Evolution.
Context `{GoLib} `{Oracles} {D Q : Type} `{Database D} `{MessageRouter Q}.
Implicit Types x : SState D Q.

Lemma put_conn_order R c c' x :
  sc (ses x) = Some c → conn_order (Some c) (Some c') → R = evolves → R (ses x) (ses (put_conn c' x).2).
Proof.
  intros Hc Ho ->. unfold put_conn, modify. cbn. split; cbn; try done; [by left|by rewrite Hc|].
  unfold shut. rewrite Hc. cbn. intros Hs Hst. by apply Ho, Hs.
Qed.

Lemma keeps_SetReadTimeout t : keeps evolves (SetReadTimeout (D := D) (Q := Q) t).
Proof.
  intros x. unfold SetReadTimeout, get_conn, bind, gets. cbn [fst].
  destruct (sc (ses x)) as [c|] eqn:Ec; cbn [deref]; unfold ret, panic; cbn [snd]; [|reflexivity].
  eapply put_conn_order; [done| |done]. cbn. split; [done|]. split; [exists []; by rewrite app_nil_r|done].
Qed.

Lemma keeps_conn_Close : keeps evolves (conn_Close (D := D) (Q := Q)).
Proof.
  intros x. unfold conn_Close, get_conn, bind, gets. cbn [fst].
  destruct (sc (ses x)) as [c|] eqn:Ec; cbn [deref]; unfold ret, panic; cbn [snd]; [|reflexivity].
  eapply put_conn_order; [done| |done]. cbn. split; [done|]. split; [exists []; by rewrite app_nil_r|done].
Qed.

Lemma keeps_WritePacket p : keeps evolves (WritePacket (D := D) (Q := Q) p).
Proof.
  intros x. unfold WritePacket, get_conn, bind, gets. cbn [fst].
  destruct (sc (ses x)) as [c|] eqn:Ec; cbn [deref]; unfold ret, panic; cbn [snd]; [|reflexivity].
  destruct (is_ws c) eqn:Ew, (is_open c) eqn:Eo; cbn -[put_conn]; try reflexivity.
  all: change (ses x) with (ses (mkS (ses x) (MeasureWriteAdd 1 (wld x)))) at 1.
  all: eapply put_conn_order; [done| |done]; cbn; split; [done|]; (split; [by eexists|congruence]).
Qed.

Lemma keeps_put_buff b : keeps evolves (put_buff (D := D) (Q := Q) b).
Proof. intros x. unfold put_buff, modify. cbn. split; cbn; try done; first [by left|reflexivity]. Qed.
End Evolution.

#[export] Hint Resolve keeps_SetReadTimeout keeps_conn_Close keeps_WritePacket keeps_put_buff : sara.

Section Handlers.
Context `{GoLib} `{Oracles} {D Q : Type} `{Database D} `{MessageRouter Q}.
Implicit Types x : SState D Q.
Abbreviation ev := (keeps (D := D) (Q := Q) evolves).

Lemma keeps_SendMessage p : ev (SendMessage p).
Proof. apply keeps_WritePacket. Qed.
Lemma keeps_answer p : ev (answer p).
Proof. apply keeps_WritePacket. Qed.
#[local] Hint Resolve keeps_SendMessage keeps_answer : sara.

Lemma keeps_heartbeat : ev heartbeat.
Proof. unfold heartbeat. keep. Qed.
Lemma keeps_setSessionTimeout n : ev (setSessionTimeout n).
Proof. unfold setSessionTimeout. keep. Qed.
Lemma keeps_pkgBuffAdd p : ev (pkgBuffAdd p).
Proof. unfold pkgBuffAdd. keep. Qed.
Lemma keeps_pkgBuffDel id : ev (pkgBuffDel id).
Proof. unfold pkgBuffDel. keep. Qed.
Lemma keeps_storePacket p : ev (storePacket p).
Proof. apply keeps_world. typeclasses eauto. Qed.
#[local] Hint Resolve keeps_heartbeat keeps_setSessionTimeout keeps_pkgBuffAdd keeps_pkgBuffDel keeps_storePacket : sara.

Lemma keeps_pkgBuffToStore : ev pkgBuffToStore.
Proof. unfold pkgBuffToStore. keep. Qed.
Lemma keeps_storeSessionStatus : ev storeSessionStatus.
Proof. unfold storeSessionStatus. keep. Qed.
Lemma keeps_fetchOfflinePacket : ev fetchOfflinePacket.
Proof. unfold fetchOfflinePacket. keep. Qed.
Lemma keeps_RoutePacket p : ev (RoutePacket p).
Proof. unfold RoutePacket, EnvelopeIdFromToType. keep. Qed.
#[local] Hint Resolve keeps_pkgBuffToStore keeps_storeSessionStatus keeps_fetchOfflinePacket keeps_RoutePacket : sara.

Lemma keeps_RoutePacketList l : ev (RoutePacketList l).
Proof. unfold RoutePacketList. keep. Qed.
Lemma keeps_serverAck p : ev (serverAck p).
Proof. unfold serverAck. keep. Qed.
#[local] Hint Resolve keeps_RoutePacketList keeps_serverAck : sara.

(** A computation that leaves the session alone. *)
Lemma keeps_eq_evolves {A} (m : M (SState D Q) A) : keeps eq m → ev m.
Proof. intros Hm x. by rewrite <-(Hm x). Qed.
End Handlers.

#[export] Hint Resolve keeps_SendMessage keeps_answer keeps_heartbeat
  keeps_setSessionTimeout keeps_pkgBuffAdd keeps_pkgBuffDel keeps_storePacket keeps_pkgBuffToStore
  keeps_storeSessionStatus keeps_fetchOfflinePacket keeps_RoutePacket keeps_RoutePacketList keeps_serverAck : sara.

Section Closing.
Context `{GoLib} `{Oracles} {D Q : Type} `{Database D} `{MessageRouter Q}.
Implicit Types x : SState D Q.
Abbreviation ev := (keeps (D := D) (Q := Q) evolves).

(** Running [m] on a state and then [k], seen from the session. *)
Lemma keeps_then_at R `{!PreOrder R} {A B} (m : M (SState D Q) A) (k : A → M (SState D Q) B) x :
  keeps eq m → (∀ a x', ses x' = ses x → R (ses x') (ses (k a x').2)) → R (ses x) (ses (bind m k x).2).
Proof.
  intros Hm Hk. specialize (Hm x). unfold bind. destruct (m x) as [[a|p] x']; cbn in *.
  - rewrite Hm. by apply Hk.
  - by rewrite Hm.
Qed.

Lemma keeps_at R {A} (m : M (SState D Q) A) x : keeps R m → R (ses x) (ses (m x).2).
Proof. intros Hm. apply Hm. Qed.

Definition close_status (s : SessionStatus) : SessionStatus :=
  mkStatus (ss_Sid s) (ss_Jid s) STATUS_CLOSE (ss_Nodeid s) (ss_Channel s) (ss_Ct s).

(** Marking the session closed and closing its connection are one step. *)
Lemma close_evolves x :
  ss_Status (Status (ses x)) ≠ STATUS_CLOSE →
  evolves (ses x) (ses ((put_Status close_status >>> conn_Close >>> pkgBuffToStore) x).2).
Proof.
  intros Hne. unfold put_Status, conn_Close, get_conn, put_conn, modify, gets.
  unfold bind at 1 2 3 4. cbn -[pkgBuffToStore].
  destruct (sc (ses x)) as [c|] eqn:Ec; cbn -[pkgBuffToStore].
  - etrans; [|apply (keeps_at evolves); keep]. cbn. split; cbn; try done; [right; by left|].
    rewrite Ec. cbn. split; [done|]. split; [exists []; by rewrite app_nil_r|done].
  - split; cbn; try done; [right; by left|by rewrite Ec|]. unfold shut. by rewrite Ec.
Qed.

Lemma keeps_CloseSession msg : ev (CloseSession msg).
Proof.
  intros x. unfold CloseSession, get_Status, gets, bind at 1.
  destruct (decide (ss_Status (Status (ses x)) = STATUS_CLOSE)) as [|Hne]; [reflexivity|].
  apply (keeps_then_at evolves); [keep|]. intros _ x1 E1.
  apply (keeps_then_at evolves); [keep|]. intros _ x2 E2. rewrite <-E1, <-E2 in Hne.
  by apply close_evolves.
Qed.
#[local] Hint Resolve keeps_CloseSession : sara.

Lemma keeps_Kill : ev Kill.
Proof. unfold Kill. keep. Qed.

Lemma keeps_verify p : ev (verify p).
Proof. unfold verify. keep. Qed.

(** A result [Some] leaves the session as it was. *)
Definition inert (m : M (SState D Q) (option Packet)) : Prop :=
  ∀ x pk x', m x = (Ret (Some pk), x') → ses x' = ses x.

Lemma inert_eq m : keeps eq m → inert m.
Proof. intros Hm x pk x' E. specialize (Hm x). by rewrite E in Hm. Qed.

Lemma inert_bind {A} (m : M (SState D Q) A) k : keeps eq m → (∀ a, inert (k a)) → inert (bind m k).
Proof.
  intros Hm Hk x pk x' E. specialize (Hm x). unfold bind in E. destruct (m x) as [[a|p] x1]; [|done].
  apply Hk in E. by rewrite E.
Qed.

(** An answer, the end of the session, and no packet. *)
Lemma refuse_none {A} p msg x (o : option A) x' :
  (answer p >>> CloseSession msg >>> ret None) x = (Ret o, x') → o = None.
Proof.
  unfold bind, ret. destruct (answer p x) as [[[]|e] x1]; [|done].
  destruct (CloseSession msg x1) as [[[]|e] x2]; [|done]. by intros [= <- _].
Qed.

Lemma inert_refuse p msg : inert (answer p >>> CloseSession msg >>> ret None).
Proof. intros x pk x' E. by apply refuse_none in E. Qed.

Lemma verify_inert p : inert (verify p).
Proof.
  unfold verify. destruct (NewPacket p) as [e|pk].
  - apply inert_bind; [keep|]. intros u. apply inert_refuse.
  - destruct (negb _); [apply inert_refuse|]. destruct (NewJID _) as [e|j]; [apply inert_refuse|].
    apply inert_bind; [keep|]. intros s. apply inert_bind; [keep|]. intros _.
    apply inert_bind; [keep|]. intros ok. destruct (negb ok); [apply inert_refuse|]. apply inert_eq. keep.
Qed.

(** Logging in is a step of a session that is not logged in. *)
Lemma openSession_evolves p x :
  ss_Status (Status (ses x)) = STATUS_CONN → evolves (ses x) (ses (openSession p x).2).
Proof.
  intros Hc. pose proof (keeps_verify p x) as Hv. pose proof (verify_inert p x) as Hi.
  unfold openSession, bind at 1. destruct (verify p x) as [[[pk|]|e] x1]; cbn in Hv; [|done..].
  specialize (Hi pk x1 eq_refl). rewrite <-Hi in *. unfold open_accepted.
  apply (keeps_then_at evolves); [keep|]. intros ct x2 E2. rewrite <-E2 in Hc.
  unfold bind at 1, put_Status, modify at 1. cbn iota beta.
  etrans; [|apply (keeps_at evolves); keep].
  cbn. split; cbn; try done; first [right; by right|reflexivity|by intros []|unfold shut; cbn; by destruct (sc (ses x2))].
Qed.

Lemma keeps_handle_packet p : ev (handle_packet p).
Proof.
  intros x. unfold handle_packet, get_Status, gets, bind at 1. cbn iota beta.
  destruct (decide (ss_Status (Status (ses x)) = STATUS_CONN)) as [Hc|Hc]; [by apply openSession_evolves|].
  apply (keeps_at evolves). unfold EnvelopeIdFromToType. keep.
Qed.
#[local] Hint Resolve keeps_handle_packet : sara.

Lemma keeps_handler_body r : ev (handler_body r).
Proof. unfold handler_body. keep. Qed.
#[local] Hint Resolve keeps_handler_body : sara.

Lemma keeps_packetHandler r : ev (packetHandler r).
Proof. unfold packetHandler. keep. Qed.
End Closing.

#[export] Hint Resolve keeps_CloseSession keeps_Kill keeps_handler_body keeps_packetHandler : sara.
