(* ===== verification/SessionProps.v ===== *)
(** * SessionProps: the properties of a session.

    Login, routing, closing, acknowledgements and group chat. *)

From S2P Require Import Prelude GoBytes Utf8 Json Gjson Types Conn Config Database World External Session.

(** The record of a session reads back from the database as it was written. *)
Theorem session_record_roundtrip st :
  wf_status st → NewSessionStatusFromJson (SessionStatus_ToJson st) = st.
Proof. apply status_roundtrip. Qed.

Section Life.
Context `{GoLib} `{Oracles} {D Q : Type} `{Database D} `{MessageRouter Q}.
Implicit Types x : SState D Q.

Lemma packetHandler_returns r x :
  sc (ses x) ≠ None → (packetHandler r x).1 = Ret tt.
Proof.
  intros Hc.
  assert (∀ n (y : SState D Q), sc (ses y) ≠ None → (setSessionTimeout n y).1 = Ret tt) as Hto.
  { intros n y Hy. unfold setSessionTimeout, get_Status, gets, on_world, zoom, TimeoutTime, time_now,
      SetReadTimeout, get_conn, bind. cbn. by destruct (sc (ses y)) as [c|]. }
  assert (∀ s s', evolves s s' → sc s ≠ None → sc s' ≠ None) as Hev.
  { intros s s' [_ _ _ _ _ Hco _]. destruct (sc s), (sc s'); done. }
  unfold packetHandler, bind at 1. pose proof (Hto PACKET_HANDLER_TIMEOUT x Hc) as E1.
  pose proof (keeps_setSessionTimeout PACKET_HANDLER_TIMEOUT x) as K1.
  destruct (setSessionTimeout PACKET_HANDLER_TIMEOUT x) as [o x1]. cbn in E1, K1. subst o.
  pose proof (keeps_at evolves (recover (handler_body r >>> ret true) (λ _, ret false)) x1) as K2.
  unfold bind at 1. unfold recover in *. destruct ((handler_body r >>> ret true) x1) as [[b|p] x2] eqn:E2.
  - assert (b = true) as ->.
    { unfold bind, ret in E2. destruct (handler_body r x1) as [[]]; by simplify_eq. }
    apply Hto, (Hev (ses x1)); [apply K2; keep|by apply (Hev (ses x))].
  - done.
Qed.

(** On a session with a connection the deferred function of [callbackHandler] has nothing
    to do. *)
Lemma callbackHandler_returns close r x :
  sc (ses x) ≠ None → callbackHandler close (packetHandler r) x = packetHandler r x.
Proof.
  intros Hc. pose proof (packetHandler_returns r x Hc) as Hr. unfold callbackHandler, recover.
  destruct (packetHandler r x) as [[[]|p] x']; [done|]. discriminate Hr.
Qed.

(** The reading goroutine starts before the session has its connection: a packet that
    arrives at once meets a nil connection, is dropped, and the connection is closed. *)
Theorem packet_before_connection_dropped close r x :
  sc (ses x) = None →
  ∃ x', packetHandler r x = (Panic nil_deref, x') ∧ ses x' = ses x ∧
    callbackHandler close (packetHandler r) x = close x'.
Proof.
  intros Hc. assert (∃ x', packetHandler r x = (Panic nil_deref, x') ∧ ses x' = ses x) as (x' & E & Hs).
  { unfold packetHandler, setSessionTimeout, get_Status, SetReadTimeout, get_conn, gets, bind, on_world, zoom. cbn.
    rewrite Hc. cbn. by eexists. }
  exists x'. unfold callbackHandler, recover. by rewrite E.
Qed.

End Life.

(** ** Running the parts of a handler *)

Section Runs.
Context `{GoLib} `{Oracles} {D Q : Type} `{Database D} `{MessageRouter Q}.
Implicit Types x : SState D Q.

Lemma db_runs {A} (m : M D A) x a d :
  m (w_db (wld x)) = (Ret a, d) → db m x = (Ret a, set_wld (set_db d (wld x)) x).
Proof. intros E. unfold db, on_world, on_db. erewrite zoom_run; [done|]. by erewrite zoom_run. Qed.

Lemma router_runs `{!RouterLaws Q} ch sid p sg x :
  ∃ e q, Route ch sid p sg (w_router (wld x)) = (Ret e, q) ∧
    router (Route ch sid p sg) x = (Ret e, set_wld (set_router q (wld x)) x).
Proof.
  destruct (route_returns ch sid p sg (w_router (wld x))) as [e He].
  destruct (Route ch sid p sg (w_router (wld x))) as [o q] eqn:E. cbn in He. subst o.
  exists e, q. split; [done|]. unfold router, on_world, on_router. erewrite zoom_run; [done|].
  by erewrite zoom_run.
Qed.

Lemma world_runs {A} (m : M (World D Q) A) x o w :
  m (wld x) = (o, w) → on_world m x = (o, set_wld w x).
Proof. apply zoom_run. Qed.

(** What the client of an open connection receives for a message. *)
Definition sent (c : conn) (data : bytes) : bytes :=
  if is_ws c then ws_frame (data ++ [END_FLAG]) else data ++ [END_FLAG].

Definition add_out (c : conn) (data : bytes) : conn :=
  mkConn (is_ws c) (out c ++ [sent c data]) (is_open c) (deadline c).

Lemma SendMessage_runs data x c :
  sc (ses x) = Some c → is_open c = true →
  ∃ w, SendMessage data x = (Ret tt, mkS (mkSession (Status (ses x)) (Some (add_out c data)) (pkgBuff (ses x))) w) ∧
    asked (wld x) w.
Proof.
  intros Hc Ho. unfold SendMessage, WritePacket, get_conn, gets, bind, add_out, sent. cbn. rewrite Hc. cbn. rewrite Ho.
  destruct (is_ws c); cbn; eexists; (split; [reflexivity|]); by split.
Qed.

(** Setting the deadline of a connection. *)
Lemma setSessionTimeout_runs t x c :
  sc (ses x) = Some c →
  ∃ dl w, setSessionTimeout t x =
    (Ret tt, mkS (mkSession (Status (ses x)) (Some (mkConn (is_ws c) (out c) (is_open c) dl)) (pkgBuff (ses x))) w) ∧
    asked (wld x) w.
Proof.
  intros Hc. unfold setSessionTimeout, get_Status, SetReadTimeout, get_conn, gets, bind. cbn. rewrite Hc. cbn.
  do 2 eexists. split; [reflexivity|]. by split.
Qed.

Lemma conn_Close_runs x c :
  sc (ses x) = Some c →
  conn_Close x = (Ret tt, set_ses (mkSession (Status (ses x)) (Some (mkConn (is_ws c) (out c) false (deadline c)))
                                     (pkgBuff (ses x))) x).
Proof. intros Hc. unfold conn_Close, get_conn, gets, bind. cbn. by rewrite Hc. Qed.

(** A new session is not logged in and has an open connection. *)
Lemma NewSessionOn_open ws ch (w : World D Q) s w' :
  NewSessionOn ws ch w = (Ret s, w') →
  ss_Status (Status s) = STATUS_CONN ∧ ∃ c, sc s = Some c ∧ is_open c = true.
Proof.
  unfold NewSessionOn. destruct (newSession ch w) as [[s0|e] w1] eqn:E; [|done].
  assert (ss_Status (Status s0) = STATUS_CONN) as Hs.
  { unfold newSession, bind in E. destruct (uuid_rand w) as [[u|] w2]; [|done].
    destruct (lift_outcome _ w2) as [[nid|] w3]; [|done]. by injection E as <- _. }
  set (s1 := mkSession _ _ _). destruct (setSessionTimeout_runs 0 (mkS s1 w1) _ eq_refl) as (dl & w2 & -> & _). cbn.
  intros [= <- <-]. split; [done|]. eexists. split; [done|]. by destruct ws.
Qed.
End Runs.

(** ** Parts of the state a computation leaves alone *)

Section Untouched.
Context `{GoLib} `{Oracles} {D Q : Type} `{Database D} `{MessageRouter Q}.
Context {S T : Type} (f : S → T).

Definition untouched {A} (m : M S A) : Prop := ∀ x, f (m x).2 = f x.

Lemma untouched_ret {A} (a : A) : untouched (ret a).
Proof. by intros x. Qed.
Lemma untouched_gets {A} (g : S → A) : untouched (gets g).
Proof. by intros x. Qed.
Lemma untouched_deref {A} (o : option A) : untouched (deref o).
Proof. intros x. by destruct o. Qed.
Lemma untouched_modify (g : S → S) : (∀ x, f (g x) = f x) → untouched (modify g).
Proof. intros Hg x. apply Hg. Qed.
Lemma untouched_bind {A B} (m : M S A) (k : A → M S B) :
  untouched m → (∀ a, untouched (k a)) → untouched (bind m k).
Proof.
  intros Hm Hk x. specialize (Hm x). unfold bind. destruct (m x) as [[a|p] x']; cbn in *; [|done].
  by rewrite Hk.
Qed.
Lemma untouched_for_range {A} (l : list A) (body : A → M S unit) :
  (∀ a, untouched (body a)) → untouched (for_range l body).
Proof. intros Hb. induction l; cbn; [apply untouched_ret|by apply untouched_bind]. Qed.
End Untouched.

#[export] Hint Resolve untouched_ret untouched_gets untouched_deref : sara.

Ltac untouch :=
  repeat first
    [ lazymatch goal with |- ∀ _, _ => intro end
    | solve [auto 3 with sara]
    | lazymatch goal with
      | |- untouched _ (bind _ _) => apply untouched_bind
      | |- untouched _ (for_range _ _) => apply untouched_for_range
      | |- untouched _ (modify _) => apply untouched_modify
      | |- untouched _ (match ?o with _ => _ end) => destruct o eqn:?
      end ].

Section RouterUntouched.
Context `{GoLib} `{Oracles} {D Q : Type} `{Database D} `{MessageRouter Q}.

Definition the_router (x : SState D Q) : Q := w_router (wld x).

Lemma router_untouched_db {A} (m : M D A) : untouched the_router (db m).
Proof. intros x. unfold the_router, db, on_world, on_db, zoom. cbn. by destruct (m (w_db (wld x))). Qed.

Lemma router_untouched_world {A} (m : M (World D Q) A) :
  untouched w_router m → untouched the_router (on_world m).
Proof.
  intros Hm x. specialize (Hm (wld x)). unfold the_router, on_world, zoom. by destruct (m (wld x)).
Qed.

Lemma router_untouched_WritePacket p : untouched the_router (WritePacket p).
Proof. unfold WritePacket, get_conn, put_conn. untouch; by apply router_untouched_world, untouched_modify. Qed.
#[local] Hint Resolve router_untouched_db router_untouched_WritePacket : sara.

Lemma router_untouched_on_db {A} (m : M D A) : untouched w_router (on_db (Q := Q) m).
Proof. intros w. unfold on_db, zoom. by destruct (m (w_db w)). Qed.
#[local] Hint Resolve router_untouched_on_db : sara.

Lemma router_untouched_StorePacket p : untouched w_router (StorePacket (D := D) (Q := Q) p).
Proof. unfold StorePacket, EnvelopeIdFromToType. untouch. Qed.

Lemma router_untouched_CloseSession msg : untouched the_router (CloseSession msg).
Proof.
  unfold CloseSession, get_Status, put_Status, conn_Close, get_conn, put_conn, pkgBuffToStore, storePacket.
  untouch; apply router_untouched_world; first [by apply untouched_modify|apply router_untouched_StorePacket|by intros w].
Qed.

Lemma router_untouched_setSessionTimeout t : untouched the_router (setSessionTimeout t).
Proof.
  unfold setSessionTimeout, get_Status, SetReadTimeout, get_conn, put_conn. untouch.
  apply router_untouched_world. by intros w.
Qed.

Lemma router_untouched_answer p : untouched the_router (answer p).
Proof. apply router_untouched_WritePacket. Qed.
End RouterUntouched.

Section Login.
Context `{GoLib} `{Oracles} {D Q : Type} `{DatabaseLaws D} `{RouterLaws Q}.
Implicit Types x : SState D Q.

(** The parts of a login request that the handler accepts. *)
Record good_login (p : bytes) (pk : Packet) (j : JID) : Prop := {
  gl_packet : NewPacket p = OK pk;
  gl_type : Type__ (envelope_of pk) = MSG_TYPE_OPEN_SESSION;
  gl_jid : NewJID (Jid (envelope_of pk)) = OK j }.

(** The user is authenticated under this configuration. *)
Definition authenticates (conf : confmap) (j : JID) (pwd : bytes) (b : bool) : Prop :=
  ∀ w : World D Q, w_conf w = conf → (Auth (user j) pwd w).1 = Ret b.

(** The part of [verify] after the checks of the request: an existing session is
    killed, and the user authenticated. *)
Lemma verify_runs p pk j x b :
  good_login p pk j → ready (w_db (wld x)) →
  authenticates (w_conf (wld x)) j (Pwd (envelope_of pk)) b →
  ∃ w, let x' := set_wld w x in
    verify p x = (if b then ret (Some pk)
                  else answer (NewPacketAuthFail (Id (envelope_of pk)) FAIL_TOKEN) >>>
                       CloseSession (§"verify_check_auth") >>> ret None) x' ∧
    ready (w_db w) ∧ (∀ k, seen (w_db w) k = seen (w_db (wld x)) k) ∧
    (∀ i, indexable (w_db w) i ↔ indexable (w_db (wld x)) i) ∧
    (∀ i, index (w_db w) i = index (w_db (wld x)) i) ∧
    w_conf w = w_conf (wld x) ∧
    w_router w = match seen (w_db (wld x)) (ToSessionid j) with
                 | Some v => (Route (ss_Channel (NewSessionStatusFromJson v)) (ss_Sid (NewSessionStatusFromJson v))
                                None (zob KILL) (w_router (wld x))).2
                 | None => w_router (wld x)
                 end.
Proof.
  intros [Hp Ht Hj] Hr Ha. unfold verify. rewrite Hp, Ht, Z.eqb_refl. cbn [negb]. rewrite Hj.
  destruct (get_law _ (ToSessionid j) Hr) as (d & r & E & Hr' & Hs & Hi & Hv).
  pose proof (λ i, get_index _ (ToSessionid j) i Hr) as Hx. rewrite E in Hx. cbn [snd] in Hx.
  erewrite bind_Ret by (apply db_runs, E). set (x1 := set_wld (set_db d (wld x)) x).
  assert (∃ q, (match r with
          | inr v => let ss := NewSessionStatusFromJson v in
                     router (Route (ss_Channel ss) (ss_Sid ss) None (zob KILL)) >>> ret tt
          | inl _ => ret tt end) x1 = (Ret tt, set_wld (set_router q (wld x1)) x1) ∧
     q = match seen (w_db (wld x)) (ToSessionid j) with
         | Some v => (Route (ss_Channel (NewSessionStatusFromJson v)) (ss_Sid (NewSessionStatusFromJson v))
                        None (zob KILL) (w_router (wld x))).2
         | None => w_router (wld x) end) as (q & Eq & Hq).
  { destruct r as [e|v].
    - exists (w_router (wld x)). split; [by destruct x as [? []]|].
      destruct (seen _ _) as [v|]; [|done]. discriminate (proj2 (Hv v) eq_refl).
    - rewrite (proj1 (Hv v) eq_refl). cbv zeta.
      destruct (router_runs (ss_Channel (NewSessionStatusFromJson v)) (ss_Sid (NewSessionStatusFromJson v))
                  None (zob KILL) x1) as (e & q & E1 & E2).
      exists q. split; [by erewrite bind_Ret by exact E2|]. cbn in E1. by rewrite E1. }
  erewrite bind_Ret by exact Eq. set (x2 := set_wld _ x1).
  destruct (Auth (user j) (Pwd (envelope_of pk)) (wld x2)) as [o w] eqn:Ew.
  pose proof (Ha (wld x2) eq_refl) as Hb. rewrite Ew in Hb. cbn in Hb. subst o.
  pose proof (asks_Auth (user j) (Pwd (envelope_of pk)) (wld x2)) as [K1 K2 K3 K4 K5]. rewrite Ew in *. cbn in *.
  exists w. erewrite bind_Ret by (apply world_runs, Ew).
  rewrite K1, K2, K3. split; [by destruct b|]. by split_and!.
Qed.

Lemma session_key_ToSessionid j : session_key (ToSessionid j).
Proof. by eexists. Qed.

Lemma NewJID_OK_ s j : NewJID s = OK j → NewJID_ s = Some j.
Proof. unfold NewJID_. by intros ->. Qed.

Lemma AddDelay_twice l l' p : AddDelay l (AddDelay l' p) = AddDelay l p.
Proof. done. Qed.

(** The login handler after the request was accepted, up to the answer. *)
Lemma fetch_runs x j :
  NewJID (ss_Jid (Status (ses x))) = OK j → ready (w_db (wld x)) →
  ∃ r w, fetchOfflinePacket x = (Ret r, set_wld w x) ∧ ready (w_db w) ∧ w_conf w = w_conf (wld x) ∧
    (∀ i, indexable (w_db w) i ↔ indexable (w_db (wld x)) i) ∧
    ∀ h, index (w_db (wld x)) (ToOfflineKey j) = Some h →
      ∃ vals, vals ≡ₚ (map_to_list h).*2 ∧ r = OK (decode_offline vals, map (λ b, Id (Envelope_ b)) (decode_offline vals)).
Proof.
  intros Hj Hr. unfold fetchOfflinePacket, get_Status. erewrite bind_Ret by done.
  rewrite (NewJID_OK_ _ _ Hj). cbn [deref]. erewrite bind_Ret by done.
  destruct (getbyidx_law _ (ToOfflineKey j) Hr) as (d & r & E & Hr' & _ & Hi).
  erewrite bind_Ret by (apply db_runs, E). do 2 eexists. split; [reflexivity|]. do 3 (split; [done|]). intros h Hh.
  destruct (getbyidx_values _ _ _ Hr Hh) as (vals & Ev & Hv). rewrite E in Ev. injection Ev as ->. by exists vals.
Qed.

Lemma storeSessionStatus_runs x j :
  NewJID (ss_Jid (Status (ses x))) = OK j → ready (w_db (wld x)) →
  indexable (w_db (wld x)) (ss_Nodeid (Status (ses x))) →
  ∃ w, storeSessionStatus x = (Ret tt, set_wld w x) ∧
    seen (w_db w) (ToSessionid j) = Some (SessionStatus_ToJson (Status (ses x))) ∧ ready (w_db w) ∧
    w_ofl w = w_ofl (wld x).
Proof.
  intros Hj Hr Hi. unfold storeSessionStatus, get_Status. erewrite bind_Ret by done.
  rewrite (NewJID_OK_ _ _ Hj). cbn [deref]. erewrite bind_Ret by done.
  destruct (put_session_law _ _ _ (SessionStatus_ToJson (Status (ses x))) (-1) Hr (session_key_ToSessionid j) Hi)
    as (d & E & Hr' & Hs & _).
  erewrite bind_Ret by (apply db_runs, E). eexists. by split.
Qed.

(** The packets of an accepted login are those of the user's offline index, in some order,
    and their ids are remembered under the id of the request. *)
Definition offline_answer x x' (j : JID) (pk : Packet) (pks : list BasePacket) : Prop :=
  ∀ h, index (w_db (wld x)) (ToOfflineKey j) = Some h →
    ∃ vals, vals ≡ₚ (map_to_list h).*2 ∧ pks = decode_offline vals ∧
      (pks ≠ [] → w_ofl (wld x') !! Id (envelope_of pk) = Some (map (λ b, Id (Envelope_ b)) pks)).

(** What writing does to a connection: nothing when it is closed. *)
Definition written (c : conn) (data : bytes) : conn := if is_open c then add_out c data else c.

Lemma SendMessage_written data x c :
  sc (ses x) = Some c →
  ∃ w, SendMessage data x = (Ret tt, mkS (mkSession (Status (ses x)) (Some (written c data)) (pkgBuff (ses x))) w) ∧
    asked (wld x) w.
Proof.
  intros Hc. unfold written. destruct (is_open c) eqn:Ho; [by apply SendMessage_runs|].
  unfold SendMessage, WritePacket, get_conn, bind, gets. cbn. rewrite Hc. cbn. rewrite Ho.
  destruct x as [[st k b] w]. cbn in Hc. subst k. destruct (is_ws c); cbn; (eexists; split; [reflexivity|]); by split.
Qed.

Lemma open_accepted_runs pk j x c :
  NewJID (Jid (envelope_of pk)) = OK j → sc (ses x) = Some c →
  ready (w_db (wld x)) → indexable (w_db (wld x)) (ss_Nodeid (Status (ses x))) →
  ∃ x' pks, open_accepted pk x = (Ret tt, x') ∧
    ss_Status (Status (ses x')) = STATUS_LOGIN ∧ ss_Jid (Status (ses x')) = Jid (envelope_of pk) ∧
    ss_Sid (Status (ses x')) = ss_Sid (Status (ses x)) ∧ ss_Channel (Status (ses x')) = ss_Channel (Status (ses x)) ∧
    ready (w_db (wld x')) ∧
    seen (w_db (wld x')) (ToSessionid j) = Some (SessionStatus_ToJson (Status (ses x'))) ∧
    sc (ses x') = Some (written c (ToJson (AddDelay pks (NewPacketAuthSuccess (Id (envelope_of pk)))))) ∧
    offline_answer x x' j pk pks.
Proof.
  intros Hj Hc Hr Hi. unfold open_accepted.
  erewrite bind_Ret by (apply world_runs; reflexivity). erewrite bind_Ret by reflexivity.
  match goal with |- context [bind fetchOfflinePacket _ ?y] => set (x2 := y) end.
  destruct (fetch_runs x2 j) as (r & w2 & E2 & Hr2 & _ & Hi2 & Hx2); [done..|].
  erewrite bind_Ret by exact E2.
  assert (∃ pks w3, w_db w3 = w_db w2 ∧
    (∀ ps ids, r = OK (ps, ids) → pks = ps ∧ (ids ≠ [] → w_ofl w3 !! Id (envelope_of pk) = Some ids)) ∧
    (match r with
     | inr (ofl_pks, ofl_ids) =>
         (if 0 <? Z.of_nat (length ofl_ids) then on_world (ofl_put (Id (envelope_of pk)) ofl_ids) else ret tt) >>>
         ret (AddDelay ofl_pks (AddDelay [] (NewPacketAuthSuccess (Id (envelope_of pk)))))
     | inl _ => ret (AddDelay [] (NewPacketAuthSuccess (Id (envelope_of pk))))
     end) (set_wld w2 x2) = (Ret (AddDelay pks (NewPacketAuthSuccess (Id (envelope_of pk)))), set_wld w3 x2))
    as (pks & w3 & Hw3 & Hpk & E3).
  { destruct r as [e|[pks ids]]; [by exists [], w2|]. exists pks. destruct ids as [|i ids]; (eexists; split; [|split; [|reflexivity]]); [done| |done|].
    - by intros ? ? [= <- <-].
    - intros ? ? [= <- <-]. split; [done|]. intros _. apply lookup_insert_eq. }
  erewrite bind_Ret by exact E3.
  destruct (storeSessionStatus_runs (set_wld w3 x2) j) as (w4 & E4 & Hs4 & Hr4 & Ho4); [done|by cbn; rewrite Hw3|..].
  { cbn. rewrite Hw3. by apply Hi2. }
  erewrite bind_Ret by exact E4.
  destruct (SendMessage_written (ToJson (AddDelay pks (NewPacketAuthSuccess (Id (envelope_of pk)))))
              (set_wld w4 (set_wld w3 x2)) c Hc) as (w5 & E5 & [K1 _ _ K4 _]).
  eexists _, pks. split; [exact E5|]. cbn in K1, K4. split_and!; try done; [cbn [wld]; by rewrite K1..|].
  intros h Hh. destruct (Hx2 h Hh) as (vals & Hv & Hr'). destruct (Hpk _ _ Hr') as [-> Hids].
  exists vals. do 2 (split; [done|]). intros Hne. cbn [wld]. rewrite K4, Ho4. cbn [wld set_wld].
  apply Hids. by destruct (decode_offline vals).
Qed.

Lemma openSession_runs p pk j x c :
  good_login p pk j → sc (ses x) = Some c → is_open c = true →
  ready (w_db (wld x)) → indexable (w_db (wld x)) (ss_Nodeid (Status (ses x))) →
  authenticates (w_conf (wld x)) j (Pwd (envelope_of pk)) true →
  ∃ x' pks, openSession p x = (Ret tt, x') ∧
    ss_Status (Status (ses x')) = STATUS_LOGIN ∧ ss_Jid (Status (ses x')) = Jid (envelope_of pk) ∧
    ss_Sid (Status (ses x')) = ss_Sid (Status (ses x)) ∧ ss_Channel (Status (ses x')) = ss_Channel (Status (ses x)) ∧
    ready (w_db (wld x')) ∧
    seen (w_db (wld x')) (ToSessionid j) = Some (SessionStatus_ToJson (Status (ses x'))) ∧
    sc (ses x') = Some (add_out c (ToJson (AddDelay pks (NewPacketAuthSuccess (Id (envelope_of pk)))))) ∧
    offline_answer x x' j pk pks.
Proof.
  intros Hg Hc Ho Hr Hi Ha. destruct (verify_runs p pk j x true Hg Hr Ha) as (w1 & E1 & Hr1 & _ & Hi1 & Hx1 & _ & _).
  unfold openSession. erewrite bind_Ret by exact E1.
  destruct (open_accepted_runs pk j (set_wld w1 x) c) as (x' & pks & E & Hall); [apply Hg|done|done|by apply Hi1|].
  unfold written in Hall. rewrite Ho in Hall. destruct Hall as (? & ? & ? & ? & ? & ? & ? & Hoff).
  exists x', pks. split_and!; try done. intros h Hh. apply Hoff. cbn. by rewrite Hx1.
Qed.

(** An accepted login request of an authenticated user logs the session in,
    answers with the offline messages, and stores under the user's session key the
    record of this very session. *)
Theorem login_records_session p pk j x c :
  good_login p pk j → sc (ses x) = Some c → is_open c = true →
  ready (w_db (wld x)) → indexable (w_db (wld x)) (ss_Nodeid (Status (ses x))) →
  authenticates (w_conf (wld x)) j (Pwd (envelope_of pk)) true →
  ∃ x' pks, openSession p x = (Ret tt, x') ∧
    ss_Status (Status (ses x')) = STATUS_LOGIN ∧ ss_Jid (Status (ses x')) = Jid (envelope_of pk) ∧
    ss_Sid (Status (ses x')) = ss_Sid (Status (ses x)) ∧ ss_Channel (Status (ses x')) = ss_Channel (Status (ses x)) ∧
    seen (w_db (wld x')) (ToSessionid j) = Some (SessionStatus_ToJson (Status (ses x'))) ∧
    sc (ses x') = Some (add_out c (ToJson (AddDelay pks (NewPacketAuthSuccess (Id (envelope_of pk)))))) ∧
    offline_answer x x' j pk pks.
Proof.
  intros Hg Hc Ho Hr Hi Ha.
  destruct (openSession_runs p pk j x c Hg Hc Ho Hr Hi Ha) as (x' & pks & ? & ? & ? & ? & ? & _ & ? & ? & ?).
  exists x', pks. by split_and!.
Qed.

(** What a login request does to the router: only the kill signal. *)
Lemma openSession_router p pk j x b :
  good_login p pk j → ready (w_db (wld x)) →
  authenticates (w_conf (wld x)) j (Pwd (envelope_of pk)) b →
  w_router (wld (openSession p x).2) =
    match seen (w_db (wld x)) (ToSessionid j) with
    | Some v => (Route (ss_Channel (NewSessionStatusFromJson v)) (ss_Sid (NewSessionStatusFromJson v))
                   None (zob KILL) (w_router (wld x))).2
    | None => w_router (wld x)
    end.
Proof.
  intros Hg Hr Ha. destruct (verify_runs p pk j x b Hg Hr Ha) as (w1 & E1 & _ & _ & _ & _ & _ & <-).
  change (w_router w1) with (the_router (set_wld w1 x)). fold (the_router (openSession p x).2).
  assert (untouched the_router (answer (D := D) (Q := Q) (NewPacketAuthFail (Id (envelope_of pk)) FAIL_TOKEN) >>>
            CloseSession (§"verify_check_auth") >>> ret (@None Packet))) as Hno.
  { untouch; [apply router_untouched_answer|apply router_untouched_CloseSession]. }
  unfold openSession, bind at 1. rewrite E1. destruct b.
  - unfold ret at 1. set (m := open_accepted pk). assert (untouched the_router m) as Hm; [|apply Hm].
    subst m. unfold open_accepted, put_Status, fetchOfflinePacket, storeSessionStatus, get_Status. untouch;
      first [by apply router_untouched_db|by apply router_untouched_answer|
             apply router_untouched_world; first [by apply untouched_modify|by intros w]].
  - pose proof (Hno (set_wld w1 x)) as Hx.
    match goal with |- context [bind ?a ?k (set_wld w1 x)] =>
      destruct (bind a k (set_wld w1 x)) as [[[pk'|]|e] x'] eqn:Em end; cbn [snd] in *; [|done..].
    by apply refuse_none in Em.
Qed.

(** The packet handler with a login request. *)
Lemma packetHandler_login_router p pk j x b :
  good_login p pk j → sc (ses x) ≠ None → ss_Status (Status (ses x)) = STATUS_CONN → ready (w_db (wld x)) →
  authenticates (w_conf (wld x)) j (Pwd (envelope_of pk)) b →
  w_router (wld (packetHandler (RPackets [p]) x).2) =
    match seen (w_db (wld x)) (ToSessionid j) with
    | Some v => (Route (ss_Channel (NewSessionStatusFromJson v)) (ss_Sid (NewSessionStatusFromJson v))
                   None (zob KILL) (w_router (wld x))).2
    | None => w_router (wld x)
    end.
Proof.
  intros Hg Hc Hst Hr Ha.
  destruct (sc (ses x)) as [c|] eqn:Ec; [|done].
  destruct (setSessionTimeout_runs PACKET_HANDLER_TIMEOUT x c Ec) as (dl & w1 & E1 & [K1 K2 K3 _ _]).
  match type of E1 with _ = (_, ?y) => set (x1 := y) in E1 end.
  assert (Status (ses x1) = Status (ses x)) as Es by done.
  change (w_db w1 = w_db (wld x)) with (w_db (wld x1) = w_db (wld x)) in K1.
  change (w_router w1 = w_router (wld x)) with (w_router (wld x1) = w_router (wld x)) in K2.
  change (w_conf w1 = w_conf (wld x)) with (w_conf (wld x1) = w_conf (wld x)) in K3.
  pose proof (openSession_router p pk j x1 b Hg) as Ho. rewrite K1, K2, K3 in Ho. specialize (Ho Hr Ha).
  rewrite <-Ho. unfold packetHandler. erewrite bind_Ret by exact E1. unfold bind at 1, recover.
  assert (handler_body (RPackets [p]) x1 = (openSession p >>> ret tt) x1) as Eb.
  { cbn [handler_body for_range]. unfold bind at 1. unfold handle_packet, get_Status.
    erewrite bind_Ret by reflexivity. rewrite decide_True by by rewrite Es. done. }
  unfold bind at 1. rewrite Eb. unfold bind at 1. destruct (openSession p x1) as [[[]|e] x2]; cbn [fst snd ret]; [|done].
  apply router_untouched_setSessionTimeout.
Qed.

(** A login with wrong credentials ends the session of the user it names: the
    kill signal is routed to the recorded session before the credentials are
    checked, and the refused session is closed without undoing it. *)
Theorem refused_login_kills_recorded_session p pk j x st :
  good_login p pk j → ready (w_db (wld x)) →
  seen (w_db (wld x)) (ToSessionid j) = Some (SessionStatus_ToJson st) → wf_status st →
  authenticates (w_conf (wld x)) j (Pwd (envelope_of pk)) false →
  w_router (wld (openSession p x).2) =
    (Route (ss_Channel st) (ss_Sid st) None (zob KILL) (w_router (wld x))).2.
Proof.
  intros Hg Hr Hs Hst Ha. rewrite (openSession_router p pk j x false Hg Hr Ha), Hs. by rewrite status_roundtrip.
Qed.
End Login.

Section Routing.
Context `{GoLib} `{Oracles} {D Q : Type} `{DatabaseLaws D} `{RouterLaws Q}.
Implicit Types x : SState D Q.

(** A logged in session of user [j]. *)
Definition logged_in x (j : JID) : Prop :=
  ss_Status (Status (ses x)) = STATUS_LOGIN ∧ NewJID (ss_Jid (Status (ses x))) = OK j.

(** A packet from [jf] to [jt]. *)
Definition from_to (pk : Packet) (jf jt : JID) : Prop :=
  NewJID (From (envelope_of pk)) = OK jf ∧ NewJID (To (envelope_of pk)) = OK jt.

Definition same_user (j1 j2 : JID) : Prop := StringWithoutResource j1 = StringWithoutResource j2.

#[global] Instance same_user_dec j1 j2 : Decision (same_user j1 j2).
Proof. unfold same_user. apply _. Defined.

(** What a logged in session does with a packet whose recipient is well formed. *)
Lemma RoutePacket_runs x j pk jf jt :
  logged_in x j → from_to pk jf jt →
  RoutePacket pk x =
  (if bool_decide (same_user j jt) then pkgBuffAdd pk >>> SendMessage (ToJson pk)
   else if bool_decide (same_user j jf) then
     let! r := db (db_Get (ToSessionid jt)) in
     match r with
     | inr ssb => router (Route (ss_Channel (NewSessionStatusFromJson ssb)) (ss_Sid (NewSessionStatusFromJson ssb))
                            (Some pk) 0) >>> ret tt
     | inl _ => storePacket pk >>> on_world (OfflineCallback (ToJson pk)) >>> ret tt
     end
   else ret tt) x.
Proof.
  intros [Hl Hj] [Hf Ht]. unfold RoutePacket, get_Status. erewrite bind_Ret by reflexivity.
  unfold login. rewrite Hl, bool_decide_true by done. cbn [negb]. unfold EnvelopeIdFromToType.
  rewrite (NewJID_OK_ _ _ Hj). cbn [deref]. erewrite bind_Ret by reflexivity.
  rewrite (EqualWithoutResource_parsed j _ jt Ht). erewrite bind_Ret by reflexivity.
  unfold same_user. destruct (bool_decide (StringWithoutResource j = StringWithoutResource jt)); [done|].
  rewrite (EqualWithoutResource_parsed j _ jf Hf). erewrite bind_Ret by reflexivity.
  destruct (bool_decide _); [|done]. by rewrite Ht.
Qed.

Lemma RoutePacket_online x j pk jf jt st :
  logged_in x j → from_to pk jf jt → same_user j jf → ¬ same_user j jt →
  ready (w_db (wld x)) → seen (w_db (wld x)) (ToSessionid jt) = Some (SessionStatus_ToJson st) → wf_status st →
  ∃ x', RoutePacket pk x = (Ret tt, x') ∧ ses x' = ses x ∧
    w_router (wld x') = (Route (ss_Channel st) (ss_Sid st) (Some pk) 0 (w_router (wld x))).2 ∧
    ready (w_db (wld x')) ∧ ∀ k, seen (w_db (wld x')) k = seen (w_db (wld x)) k.
Proof.
  intros Hl Hft Hf Ht Hr Hs Hst. rewrite (RoutePacket_runs x j pk jf jt Hl Hft).
  rewrite bool_decide_false, bool_decide_true by done.
  destruct (get_law _ (ToSessionid jt) Hr) as (d & r & E & Hrd & Hsd & _ & Hv).
  erewrite bind_Ret by (apply db_runs, E). apply Hv in Hs as ->. cbv beta iota.
  rewrite (status_roundtrip st Hst).
  destruct (router_runs (ss_Channel st) (ss_Sid st) (Some pk) 0 (set_wld (set_db d (wld x)) x)) as (e & q & E1 & E2).
  erewrite bind_Ret by exact E2. eexists. split; [reflexivity|]. cbn in *. by rewrite E1.
Qed.

(** A chat packet of the client of a logged in session, to a user with a session. *)
Lemma packetHandler_chat x j c p pk jf jt st :
  logged_in x j → sc (ses x) = Some c → is_open c = true →
  NewPacket p = OK pk → p ≠ [HEART_BEAT] → Type__ (envelope_of pk) = MSG_TYPE_CHAT →
  from_to pk jf jt → same_user j jf → ¬ same_user j jt →
  ready (w_db (wld x)) → seen (w_db (wld x)) (ToSessionid jt) = Some (SessionStatus_ToJson st) → wf_status st →
  ∃ x' ct, packetHandler (RPackets [p]) x = (Ret tt, x') ∧
    w_router (wld x') = (Route (ss_Channel st) (ss_Sid st) (Some (set_Ct ct pk)) 0 (w_router (wld x))).2 ∧
    ready (w_db (wld x')) ∧ ∀ k, seen (w_db (wld x')) k = seen (w_db (wld x)) k.
Proof.
  intros Hl Hc Ho Hp Hb Hty Hft Hf Ht Hr Hs Hst.
  destruct (setSessionTimeout_runs PACKET_HANDLER_TIMEOUT x c Hc) as (dl & w1 & E1 & [K1 K2 _ _ _]).
  match type of E1 with _ = (_, ?y) => set (x1 := y) in E1 end.
  set (ct := fmt_d (Z.quot (clock_ns (n_clock w1)) 1000000)).
  assert (∃ x3, handle_packet p x1 = (Ret tt, x3) ∧ (∃ c3, sc (ses x3) = Some c3) ∧
    w_router (wld x3) = (Route (ss_Channel st) (ss_Sid st) (Some (set_Ct ct pk)) 0 (w_router (wld x))).2 ∧
    ready (w_db (wld x3)) ∧ ∀ k, seen (w_db (wld x3)) k = seen (w_db (wld x)) k)
    as (x3 & E3 & (c3 & Hc3) & Hq3 & Hr3 & Hs3).
  { unfold handle_packet, get_Status. erewrite bind_Ret by reflexivity.
    rewrite decide_False by (cbn; by rewrite (proj1 Hl)). rewrite decide_False by done. rewrite Hp.
    erewrite bind_Ret by (apply world_runs; reflexivity). change (fmt_d _) with ct. cbv zeta.
    unfold EnvelopeIdFromToType. change (Type__ (envelope_of (set_Ct ct pk))) with (Type__ (envelope_of pk)).
    rewrite Hty. cbn [Z.eqb MSG_TYPE_CHAT MSG_TYPE_STATE MSG_TYPE_GROUP_CHAT Pos.eqb andb].
    match goal with |- context [bind (if ?b then ?m else ?n) ?k ?y] =>
      set (x2 := y); assert (∃ c4 w4, (if b then m else n) x2 =
        (Ret tt, mkS (mkSession (Status (ses x)) (Some c4) (pkgBuff (ses x))) w4) ∧ asked (wld x2) w4)
        as (c4 & w4 & E4 & [A1 A2 _ _ _]) end.
    { destruct (negb _); [|by do 2 eexists].
      erewrite bind_Ret by (apply world_runs; reflexivity).
      match goal with |- context [answer ?q ?y] =>
        destruct (SendMessage_runs (ToJson q) y (mkConn (is_ws c) (out c) (is_open c) dl) eq_refl Ho) as (w4 & E4 & A4) end.
      do 2 eexists. split; [exact E4|]. by etrans; [|exact A4]. }
    erewrite bind_Ret by exact E4. match goal with |- context [RoutePacket _ ?y] => set (x4 := y) end.
    assert (w_db (wld x4) = w_db (wld x) ∧ w_router (wld x4) = w_router (wld x)) as [D4 R4]
      by (split; [by rewrite <-K1|by rewrite <-K2]).
    destruct (RoutePacket_online x4 j (set_Ct ct pk) jf jt st) as (x5 & E5 & S5 & Q5 & R5 & K5);
      rewrite ?D4; try done.
    exists x5. rewrite S5, Q5, R4. split_and!; eauto. intros k. by rewrite K5, D4. }
  unfold packetHandler. erewrite bind_Ret by exact E1. unfold bind at 1, recover.
  erewrite bind_Ret by (cbn [handler_body for_range]; erewrite bind_Ret by exact E3; reflexivity).
  unfold ret at 1. destruct (setSessionTimeout_runs 0 x3 c3 Hc3) as (dl5 & w5 & E5 & [B1 B2 _ _ _]).
  rewrite E5. do 2 eexists. split; [reflexivity|]. cbn [wld]. rewrite B1, B2. done.
Qed.

(** C1: a user who has just logged in is reachable: a message another session of the
    process sends to that user is routed to the channel and the id of the session
    that logged in. *)
Theorem login_makes_user_reachable p login_pk jb x c y ja pk jf jt :
  good_login p login_pk jb → sc (ses x) = Some c → is_open c = true →
  ready (w_db (wld x)) → indexable (w_db (wld x)) (ss_Nodeid (Status (ses x))) →
  authenticates (D := D) (Q := Q) (w_conf (wld x)) jb (Pwd (envelope_of login_pk)) true →
  let x' := (openSession p x).2 in
  wf_status (Status (ses x')) →
  logged_in y ja → wld y = wld x' → from_to pk jf jt → same_user ja jf → same_user jb jt → ¬ same_user ja jt →
  ∃ y', RoutePacket pk y = (Ret tt, y') ∧
    w_router (wld y') =
      (Route (ss_Channel (Status (ses x))) (ss_Sid (Status (ses x))) (Some pk) 0 (w_router (wld x'))).2.
Proof.
  intros Hg Hc Ho Hr Hi Ha x' Hwf Hl Hw Hft Hf Ht Hn.
  destruct (openSession_runs p login_pk jb x c Hg Hc Ho Hr Hi Ha) as (x1 & pks & E & _ & _ & Hsid & Hch & Hr1 & Hs & _).
  subst x'. rewrite E in *. cbn [snd] in *.
  assert (ToSessionid jb = ToSessionid jt) as Hk by by apply session_key_bare.
  destruct (RoutePacket_online y ja pk jf jt (Status (ses x1)) Hl Hft Hf Hn) as (y' & Ey & _ & Hq & _); rewrite ?Hw, <-?Hk; try done.
  exists y'. split; [done|]. by rewrite Hq, Hw, Hsid, Hch.
Qed.

Lemma RoutePacket_absent x j pk jf jt :
  logged_in x j → from_to pk jf jt → same_user j jf → ¬ same_user j jt →
  ready (w_db (wld x)) → seen (w_db (wld x)) (ToSessionid jt) = None →
  let d := (db_Get (ToSessionid jt) (w_db (wld x))).2 in
  let x' := (RoutePacket pk x).2 in
  w_db (wld x') =
    (db_PutExWithIdx (ToOfflineKey jt) (Id (envelope_of pk)) (ToJson pk) OFFLINE_EXPIRED d).2 ∧
  w_router (wld x') = w_router (wld x) ∧ ses x' = ses x.
Proof.
  intros Hl Hft Hf Ht Hr Hs d x'. subst x'. rewrite (RoutePacket_runs x j pk jf jt Hl Hft).
  rewrite bool_decide_false, bool_decide_true by done.
  destruct (get_law _ (ToSessionid jt) Hr) as (d' & r & E & _ & _ & _ & Hv). subst d. rewrite E. cbn [snd].
  erewrite bind_Ret by (apply db_runs, E). destruct r as [e|v]; [|by rewrite (proj1 (Hv v) eq_refl) in Hs].
  cbv beta iota. set (x1 := set_wld (set_db d' (wld x)) x).
  destruct (put_returns d' (ToOfflineKey jt) (Id (envelope_of pk)) (ToJson pk) OFFLINE_EXPIRED) as [e' He'].
  destruct (db_PutExWithIdx (ToOfflineKey jt) (Id (envelope_of pk)) (ToJson pk) OFFLINE_EXPIRED d') as [o d2] eqn:Ed.
  cbn in He'. subst o. set (w2 := set_db d2 (wld x1)).
  assert (storePacket pk x1 = (Ret tt, set_wld w2 x1)) as Est.
  { apply world_runs. unfold StorePacket, EnvelopeIdFromToType. rewrite (NewJID_OK_ _ _ (proj2 Hft)). cbn [deref].
    erewrite bind_Ret by reflexivity. by erewrite bind_Ret by (unfold on_db; apply zoom_run; exact Ed). }
  erewrite bind_Ret by exact Est.
  pose proof (asks_OfflineCallback (ToJson pk) w2) as [K1 K2 _ _ _].
  unfold bind. unfold on_world, zoom. cbn [wld set_wld]. destruct (OfflineCallback (ToJson pk) w2) as [[b|e2] w3];
    cbn in *; by rewrite K1, K2.
Qed.

(** A packet from the user of a session to a user without a session record is
    stored in that user's offline index under the packet's id, with the offline
    expiry, and nothing is routed. *)
Theorem message_to_absent_user_is_stored x j pk jf jt :
  logged_in x j → from_to pk jf jt → same_user j jf → ¬ same_user j jt →
  ready (w_db (wld x)) → seen (w_db (wld x)) (ToSessionid jt) = None →
  let d := (db_Get (ToSessionid jt) (w_db (wld x))).2 in
  let x' := (RoutePacket pk x).2 in
  w_db (wld x') =
    (db_PutExWithIdx (ToOfflineKey jt) (Id (envelope_of pk)) (ToJson pk) OFFLINE_EXPIRED d).2 ∧
  w_router (wld x') = w_router (wld x) ∧ ses x' = ses x.
Proof. apply RoutePacket_absent. Qed.

(** A packet to a malformed recipient is not answered: comparing the recipient
    with the user of the session dereferences a nil pointer, so the handler panics
    before the branch that would notify the client. *)
Theorem malformed_recipient_panics x j pk e :
  logged_in x j → NewJID (To (envelope_of pk)) = ERR e → RoutePacket pk x = (Panic nil_deref, x).
Proof.
  intros [Hl Hj] Ht. unfold RoutePacket, get_Status. erewrite bind_Ret by reflexivity.
  unfold login. rewrite Hl, bool_decide_true by done. cbn [negb]. unfold EnvelopeIdFromToType.
  rewrite (NewJID_OK_ _ _ Hj). cbn [deref]. erewrite bind_Ret by reflexivity.
  unfold EqualWithoutResource, NewJID_. by rewrite Ht.
Qed.

(** A packet for the user of the session. *)
Lemma RoutePacket_to_me x j pk jf jt c :
  logged_in x j → from_to pk jf jt → same_user j jt → sc (ses x) = Some c → is_open c = true →
  ∃ w, RoutePacket pk x =
    (Ret tt, mkS (mkSession (Status (ses x)) (Some (add_out c (ToJson pk)))
                    (<[Id (envelope_of pk) := pk]> (pkgBuff (ses x)))) w) ∧ asked (wld x) w.
Proof.
  intros Hl Hft Ht Hc Ho. rewrite (RoutePacket_runs x j pk jf jt Hl Hft), bool_decide_true by done.
  erewrite bind_Ret by reflexivity.
  match goal with |- context [SendMessage _ ?y] => set (y1 := y) end.
  destruct (SendMessage_runs (ToJson pk) y1 c Hc Ho) as (w & E & Ha). exists w. by rewrite E.
Qed.

(** A packet for the user of the session is sent to its client and kept in the
    buffer under its id until it is acknowledged: the acknowledgement removes it. *)
Theorem delivered_packet_kept_until_ack x j pk jf jt c ack w' :
  logged_in x j → from_to pk jf jt → same_user j jt →
  sc (ses x) = Some c → is_open c = true →
  ∃ x1, RoutePacket pk x = (Ret tt, x1) ∧
    sc (ses x1) = Some (add_out c (ToJson pk)) ∧ Status (ses x1) = Status (ses x) ∧
    pkgBuff (ses x1) = <[Id (envelope_of pk) := pk]> (pkgBuff (ses x)) ∧
    (Id (envelope_of ack) = Id (envelope_of pk) → w_ofl w' !! Id (envelope_of pk) = None →
     ∃ x2, serverAck ack (set_wld w' x1) = (Ret tt, x2) ∧
       pkgBuff (ses x2) = delete (Id (envelope_of pk)) (pkgBuff (ses x))).
Proof.
  intros Hl Hft Ht Hc Ho. destruct (RoutePacket_to_me x j pk jf jt c Hl Hft Ht Hc Ho) as (w & E & _).
  eexists. split; [exact E|]. split_and!; try done. intros Hid Hn. unfold serverAck, get_Status.
  erewrite bind_Ret by reflexivity. cbn [ses set_wld Status]. destruct Hl as [_ Hj].
  rewrite (NewJID_OK_ _ _ Hj). cbn [deref]. erewrite bind_Ret by reflexivity.
  erewrite bind_Ret by (apply world_runs; unfold ofl_get, gets; cbn [wld set_wld]; rewrite Hid, Hn; reflexivity).
  cbv beta iota. eexists. split; [reflexivity|]. cbn. by rewrite Hid, delete_insert_eq.
Qed.
End Routing.

Section Storing.
Context `{GoLib} `{Oracles} {D Q : Type} `{DatabaseLaws D} `{RouterLaws Q}.
Implicit Types x : SState D Q.

(** Storing one packet for its recipient. *)
Definition store_one (d : D) (v : Packet) : D :=
  match NewJID (To (envelope_of v)) with
  | inr jt => (db_PutExWithIdx (ToOfflineKey jt) (Id (envelope_of v)) (ToJson v) OFFLINE_EXPIRED d).2
  | inl _ => d
  end.

Definition addressed (v : Packet) : Prop := ∃ jt, NewJID (To (envelope_of v)) = OK jt.

Lemma StorePacket_runs v (w : World D Q) :
  addressed v → StorePacket v w = (Ret tt, set_db (store_one (w_db w) v) w).
Proof.
  intros [jt Ht]. unfold StorePacket, EnvelopeIdFromToType, store_one. rewrite (NewJID_OK_ _ _ Ht), Ht. cbn [deref].
  erewrite bind_Ret by reflexivity.
  destruct (put_returns (w_db w) (ToOfflineKey jt) (Id (envelope_of v)) (ToJson v) OFFLINE_EXPIRED) as [e He].
  destruct (db_PutExWithIdx (ToOfflineKey jt) (Id (envelope_of v)) (ToJson v) OFFLINE_EXPIRED (w_db w)) as [o d2] eqn:Ed.
  cbn in He. subst o. by erewrite bind_Ret by (unfold on_db; apply zoom_run; exact Ed).
Qed.

(** The loop of [pkgBuffToStore] over some of the keys of the buffer. *)
Lemma store_loop_runs (b : gmap bytes Packet) ks x :
  map_Forall (λ _, addressed) b → (∀ k, k ∈ ks → is_Some (b !! k)) →
  for_range ks (λ k, match b !! k with Some v => storePacket v | None => ret tt end) x =
  (Ret tt, set_wld (set_db (foldl store_one (w_db (wld x)) (omap (λ k, b !! k) ks)) (wld x)) x).
Proof.
  intros Hb. revert x. induction ks as [|k ks IH]; intros x Hk.
  - by destruct x as [s []].
  - cbn [for_range omap list_omap]. destruct (Hk k) as [v Hv]; [set_solver|]. rewrite Hv.
    erewrite bind_Ret by (apply world_runs, StorePacket_runs, (Hb k v Hv)).
    rewrite IH by (intros k' ?; apply Hk; set_solver). by destruct x as [s []].
Qed.

Lemma pkgBuffToStore_runs x :
  map_Forall (λ _, addressed) (pkgBuff (ses x)) →
  ∃ l w, l ≡ₚ (map_to_list (pkgBuff (ses x))).*2 ∧ pkgBuffToStore x = (Ret tt, set_wld w x) ∧
    w_db w = foldl store_one (w_db (wld x)) l ∧ w_router w = w_router (wld x) ∧ w_clean w = w_clean (wld x).
Proof.
  intros Hb. unfold pkgBuffToStore. erewrite bind_Ret by reflexivity. set (b := pkgBuff (ses x)) in *.
  destruct (decide (b = ∅)) as [Eb|Hne].
  - exists [], (wld x). rewrite Eb, map_to_list_empty. split_and!; try done. by destruct x.
  - set (ks := range_order (n_range (wld x)) (map_to_list b).*1).
    assert (ks ≡ₚ (map_to_list b).*1) as Hks by apply range_order_perm.
    erewrite bind_Ret by (apply world_runs; reflexivity). fold ks. rewrite store_loop_runs.
    + exists (omap (λ k, b !! k) ks). eexists. split; [|split; [reflexivity|done]]. rewrite Hks.
      assert (∀ l : list (bytes * Packet), (∀ kv, kv ∈ l → b !! kv.1 = Some kv.2) → omap (λ k, b !! k) l.*1 = l.*2) as Hl.
      { induction l as [|[k v] l IHl]; intros Hin; [done|]. cbn.
        pose proof (Hin (k, v) ltac:(set_solver)) as Hkv. cbn in Hkv. rewrite Hkv. f_equal.
        apply IHl. intros kv ?. apply Hin. set_solver. }
      rewrite Hl; [done|]. intros [k v] Hkv. by apply elem_of_map_to_list in Hkv.
    + done.
    + intros k. rewrite Hks. intros Hk. apply list_elem_of_fmap in Hk as ([k' v] & -> & Hkv).
      apply elem_of_map_to_list in Hkv. eauto.
Qed.

(** The record of a logged in session is deleted. *)
Definition logout_db (st : SessionStatus) (d : D) : D :=
  if login st then
    match NewJID (ss_Jid st) with
    | inr j => (db_DeleteByIdxKey (ss_Nodeid st) (ToSessionid j) d).2
    | inl _ => d
    end
  else d.

Lemma CloseSession_runs x c msg :
  sc (ses x) = Some c → ready (w_db (wld x)) → ss_Status (Status (ses x)) ≠ STATUS_CLOSE →
  (ss_Status (Status (ses x)) = STATUS_LOGIN → ∃ j, NewJID (ss_Jid (Status (ses x))) = OK j) →
  map_Forall (λ _, addressed) (pkgBuff (ses x)) →
  ∃ x' l, CloseSession msg x = (Ret tt, x') ∧
    l ≡ₚ (map_to_list (pkgBuff (ses x))).*2 ∧
    w_db (wld x') = foldl store_one (logout_db (Status (ses x)) (w_db (wld x))) l ∧
    w_clean (wld x') = w_clean (wld x) ++ [ss_Sid (Status (ses x))] ∧
    ss_Status (Status (ses x')) = STATUS_CLOSE ∧
    sc (ses x') = Some (mkConn (is_ws c) (out c) false (deadline c)).
Proof.
  intros Hc Hr Hst Hj Hb. unfold CloseSession, get_Status. erewrite bind_Ret by reflexivity.
  rewrite decide_False by done. erewrite bind_Ret by (apply world_runs; reflexivity).
  set (x1 := set_wld (set_clean (w_clean (wld x) ++ [ss_Sid (Status (ses x))]) (wld x)) x).
  match goal with |- context [bind (if ?b then ?m else ?n) ?k x1] =>
    assert ((if b then m else n) x1 = (Ret tt, set_wld (set_db (logout_db (Status (ses x)) (w_db (wld x))) (wld x1)) x1)) as E2 end.
  { unfold logout_db. destruct (login (Status (ses x))) eqn:El; [|by destruct x as [? []]].
    apply bool_decide_eq_true in El. destruct (Hj El) as [j Ej]. rewrite (NewJID_OK_ _ _ Ej), Ej. cbn [deref].
    destruct (delete_queued_law _ (ss_Nodeid (Status (ses x))) (ToSessionid j) Hr (session_key_ToSessionid j)) as (d & E & _).
    erewrite bind_Ret by reflexivity. by erewrite bind_Ret by (apply (db_runs _ x1), E); rewrite E. }
  erewrite bind_Ret by exact E2. erewrite bind_Ret by reflexivity.
  erewrite bind_Ret by (apply conn_Close_runs, Hc).
  match goal with |- context [pkgBuffToStore ?y] => set (x3 := y) end.
  destruct (pkgBuffToStore_runs x3 Hb) as (l & w & Hp & Es & Ed & _ & Ek).
  exists (set_wld w x3), l. by split_and!.
Qed.

(** C7: closing a logged in session queues the deletion of its record, reports it for
    cleaning, closes the connection, and stores every packet that was not
    acknowledged for its recipient, each exactly once. *)
Theorem close_stores_unacknowledged x j c msg :
  logged_in x j → sc (ses x) = Some c → ready (w_db (wld x)) →
  map_Forall (λ _, addressed) (pkgBuff (ses x)) →
  ∃ x' l, CloseSession msg x = (Ret tt, x') ∧
    l ≡ₚ (map_to_list (pkgBuff (ses x))).*2 ∧
    w_db (wld x') =
      foldl store_one (db_DeleteByIdxKey (ss_Nodeid (Status (ses x))) (ToSessionid j) (w_db (wld x))).2 l ∧
    w_clean (wld x') = w_clean (wld x) ++ [ss_Sid (Status (ses x))] ∧
    ss_Status (Status (ses x')) = STATUS_CLOSE ∧
    sc (ses x') = Some (mkConn (is_ws c) (out c) false (deadline c)).
Proof.
  intros [Hl Hj] Hc Hr Hb. destruct (CloseSession_runs x c msg Hc Hr) as (x' & l & E & Hp & Hd & Hrest); try done.
  - by rewrite Hl.
  - eauto.
  - exists x', l. rewrite Hd. unfold logout_db, login. by rewrite Hl, bool_decide_true, Hj.
Qed.

(** Messages are stored under the id the sender chose, in the same key space as
    session records: a message whose id is the session key of another user replaces
    the record of that user's session. *)
Theorem message_id_overwrites_session_record pk jt j (w : World D Q) :
  NewJID (To (envelope_of pk)) = OK jt → Id (envelope_of pk) = ToSessionid j →
  ready (w_db w) → indexable (w_db w) (ToOfflineKey jt) →
  seen (w_db (StorePacket pk w).2) (ToSessionid j) = Some (ToJson pk).
Proof.
  intros Ht Hid Hr Hi. rewrite StorePacket_runs by by exists jt. cbn. unfold store_one. rewrite Ht, Hid.
  destruct (put_session_law _ (ToOfflineKey jt) (ToSessionid j) (ToJson pk) OFFLINE_EXPIRED Hr
              (session_key_ToSessionid j) Hi) as (d & E & _ & Hs & _). by rewrite E.
Qed.
End Storing.

Section Groups.
Context `{GoLib} `{Oracles} {D Q : Type} `{DatabaseLaws D} `{RouterLaws Q}.
Implicit Types w : World D Q.

(** The member names of a group as they are cached, without the sender. *)
Definition other_members (users sender : bytes) : list bytes :=
  List.filter (λ u, negb (bool_decide (sender = u))) (Split users ","%char).

(** A packet of a group message: from the sender to one member. *)
Definition group_copy (pk : Packet) (dom : bytes) (u : bytes) (q : Packet) : Prop :=
  let e := envelope_of q in
  From e = From (envelope_of pk) ∧ To e = u ++ §"@" ++ dom ∧ Type__ e = MSG_TYPE_GROUP_CHAT ∧
  Gid e = Gid (envelope_of pk) ∧ Payload (base q) = Payload (base pk) ∧ Vsn (base q) = Vsn (base pk) ∧
  raw q = None ∧ Jid e = [] ∧ Ack e = 0 ∧ Pwd e = [] ∧ (∃ n, Id e = uuid_hex n) ∧ (∃ t, Ct e = fmt_d t).

Lemma group_packet_runs pk j u w :
  wf_jid j → "@"%char ∉ u →
  ∃ o w', group_packet (From (envelope_of pk)) (user j) (domain j) pk u w = (Ret o, w') ∧ asked w w' ∧
    match o with
    | Some q => user j ≠ u ∧ group_copy pk (domain j) u q
    | None => user j = u
    end.
Proof.
  intros (_ & Hd1 & Hd2 & _) Hu. unfold group_packet. destruct (decide (user j = u)) as [E|Hne].
  - by exists None, w.
  - unfold NewJIDByUidDomain. rewrite NewJID_bare by done. cbn [deref].
    erewrite bind_Ret by reflexivity. do 2 eexists. split; [reflexivity|]. split; [by split|]. split; [done|]. split_and!; try done; by eexists.
Qed.

Lemma group_packets_runs pk j us w :
  wf_jid j → Forall (λ u, "@"%char ∉ u) us →
  ∃ l w', group_packets (From (envelope_of pk)) (user j) (domain j) pk us w = (Ret l, w') ∧ asked w w' ∧
    Forall2 (group_copy pk (domain j)) (List.filter (λ u, negb (bool_decide (user j = u))) us) l.
Proof.
  intros Hj Hus. revert w. induction Hus as [|u us Hu _ IH]; intros w.
  - exists [], w. split; [done|]. split; [reflexivity|constructor].
  - destruct (group_packet_runs pk j u w Hj Hu) as (o & w1 & E1 & K1 & Ho).
    destruct (IH w1) as (l & w2 & E2 & K2 & Hl). cbn [group_packets]. erewrite bind_Ret by exact E1.
    erewrite bind_Ret by exact E2. do 2 eexists. split; [reflexivity|]. split; [by etrans|].
    cbn [List.filter]. destruct o as [q|].
    + destruct Ho as [Hne Hq]. rewrite bool_decide_false by done. by constructor.
    + by rewrite bool_decide_true.
Qed.

Lemma genGroupPackets_runs pk j users w :
  NewJID (From (envelope_of pk)) = OK j → Forall (λ u, "@"%char ∉ u) (Split users ","%char) →
  ∃ l w', genGroupPackets users pk w = (Ret l, w') ∧ asked w w' ∧
    Forall2 (group_copy pk (domain j)) (other_members users (user j)) l.
Proof.
  intros Hj Hus. unfold genGroupPackets. rewrite (NewJID_OK_ _ _ Hj). cbn [deref].
  erewrite bind_Ret by reflexivity. apply group_packets_runs; [by eapply NewJID_wf|done].
Qed.

(** A message to a group whose members are cached becomes one message from the
    sender to every member other than the sender, in the order of the list, and
    nothing else changes. *)
Theorem group_message_to_every_other_member pk j users w :
  NewJID (From (envelope_of pk)) = OK j → Forall (λ u, "@"%char ∉ u) (Split users ","%char) →
  ∃ l w', genGroupPackets users pk w = (Ret l, w') ∧ asked w w' ∧
    Forall2 (group_copy pk (domain j)) (other_members users (user j)) l.
Proof. apply genGroupPackets_runs. Qed.

Lemma GenerateGroupPackets_cached pk j users w :
  NewJID (From (envelope_of pk)) = OK j → ready (w_db w) →
  seen (w_db w) (group_key (Gid (envelope_of pk)) (domain j)) = Some users →
  ∃ d, GenerateGroupPackets pk w =
    (if Contains users (user j) then let! l := genGroupPackets users pk in ret (OK l)
     else ret (ERR (§"no_permission"))) (set_db d w).
Proof.
  intros Hj Hr Hs. unfold GenerateGroupPackets. rewrite (NewJID_OK_ _ _ Hj). cbn [deref].
  erewrite bind_Ret by reflexivity.
  destruct (get_law _ (group_key (Gid (envelope_of pk)) (domain j)) Hr) as (d & r & E & _ & _ & _ & Hv).
  erewrite bind_Ret by (unfold on_db; apply zoom_run; exact E). apply Hv in Hs as ->. by exists d.
Qed.

(** A received group message reaches the members without its content: only the
    envelope of a received packet is decoded, and the copies take their payload and
    version from the fields that were not. *)
Theorem group_copies_have_no_payload p pk j users w :
  NewPacket p = OK pk → NewJID (From (envelope_of pk)) = OK j → Forall (λ u, "@"%char ∉ u) (Split users ","%char) →
  ∃ l w', genGroupPackets users pk w = (Ret l, w') ∧
    length l = length (other_members users (user j)) ∧
    Forall (λ q, Payload (base q) = None ∧ Vsn (base q) = [] ∧ raw q = None) l.
Proof.
  intros Hp Hj Hus. destruct (genGroupPackets_runs pk j users w Hj Hus) as (l & w' & E & _ & Hl).
  exists l, w'. split; [done|]. split; [symmetry; by eapply Forall2_length|].
  assert (Payload (base pk) = None ∧ Vsn (base pk) = []) as [Hpay Hvsn].
  { unfold NewPacket in Hp. destruct (negb _); [done|]. destruct (unmarshal _ _ _ _) as [e []]; [done|].
    by injection Hp as <-. }
  clear E. induction Hl as [|u q us l Hq _ IH]; constructor; [|done].
  destruct Hq as (_ & _ & _ & _ & -> & -> & -> & _). done.
Qed.

(** Group permission is a substring test: a user whose name occurs anywhere in
    the cached member list, inside a member's name for instance, may write to the
    group. *)
Theorem group_permission_by_substring pk j users w :
  NewJID (From (envelope_of pk)) = OK j → ready (w_db w) →
  seen (w_db w) (group_key (Gid (envelope_of pk)) (domain j)) = Some users →
  Forall (λ u, "@"%char ∉ u) (Split users ","%char) →
  (∃ a b, users = a ++ user j ++ b) →
  ∃ l w', GenerateGroupPackets pk w = (Ret (OK l), w') ∧
    length l = length (other_members users (user j)).
Proof.
  intros Hj Hr Hs Hus Hsub. destruct (GenerateGroupPackets_cached pk j users w Hj Hr Hs) as [d ->].
  rewrite (proj2 (Contains_spec users (user j)) Hsub).
  destruct (genGroupPackets_runs pk j users (set_db d w) Hj Hus) as (l & w' & E & _ & Hl).
  erewrite bind_Ret by exact E. do 2 eexists. split; [reflexivity|]. symmetry. by eapply Forall2_length.
Qed.
End Groups.
