(* ===== verification/Login.v ===== *)
(** * Login: the life of a session when a login waits for the callback server.

    [verify] of [core/session.go] asks the callback server with an http call between the look at
    the status in [packetHandler] and the write of the new status in [openSession].  Meanwhile
    the router and the node go on, so a login is two steps here: up to that call, and from its
    answer to the end of the read.  The life of a session is the runs of these steps and of the
    other handlers. *)

From S2P Require Import Prelude GoBytes Utf8 Json Gjson Types Conn Config Database World External Session SessionProps.

Section Login.
Context `{GoLib} `{Oracles} {D Q : Type} `{Database D} `{MessageRouter Q}.
Abbreviation S_ := (SState D Q).
Implicit Types x : S_.

(** ** A login in two parts *)

(** [verify] up to the http call: the packet and its user, or [None] when the login is refused. *)
Definition verify_request (p : bytes) : M S_ (option (Packet * JID)) :=
  match NewPacket p with
  | inl _ =>
      let! u := on_world uuid_rand in
      answer (NewPacketAuthFail u FAIL_PACKET) >>>
      CloseSession (§"verify_decode_packet") >>> ret None
  | inr packet =>
      let envelope := envelope_of packet in
      if negb (Type__ envelope =? MSG_TYPE_OPEN_SESSION) then
        answer (NewPacketAuthFail (Id envelope) FAIL_TYPE) >>>
        CloseSession (§"verify_check_msgtype") >>> ret None
      else
        match NewJID (Jid envelope) with
        | inl _ =>
            answer (NewPacketAuthFail (Id envelope) FAIL_PACKET) >>>
            CloseSession (§"verify_check_jid") >>> ret None
        | inr jid_obj =>
            let! s := db (db_Get (ToSessionid jid_obj)) in
            match s with
            | inr v =>
                let ss := NewSessionStatusFromJson v in
                router (Route (ss_Channel ss) (ss_Sid ss) None (zob KILL)) >>> ret tt
            | inl _ => ret tt
            end >>> ret (Some (packet, jid_obj))
        end
  end.

(** The end of [verify] and [openSession] with the answer of the callback server. *)
Definition login_end (packet : Packet) (ok : bool) : M S_ unit :=
  if negb ok then
    answer (NewPacketAuthFail (Id (envelope_of packet)) FAIL_TOKEN) >>> CloseSession (§"verify_check_auth")
  else open_accepted packet.

(** [packetHandler] around them, when the first packet of a read is a login. *)
Definition login_begin (p : bytes) : M S_ (option (Packet * JID)) :=
  setSessionTimeout PACKET_HANDLER_TIMEOUT >>> verify_request p.
Definition login_finish (packet : Packet) (ok : bool) (rest : list bytes) : M S_ unit :=
  let! k := recover ((login_end packet ok >>> for_range rest handle_packet) >>> ret true) (λ _, ret false) in
  if k : bool then setSessionTimeout 0 else ret tt.

Lemma openSession_parts p x packet j x1 ok w :
  verify_request p x = (Ret (Some (packet, j)), x1) → Auth (user j) (Pwd (envelope_of packet)) (wld x1) = (Ret ok, w) →
  openSession p x = login_end packet ok (set_wld w x1).
Proof.
  unfold verify_request, openSession, verify, login_end. destruct (NewPacket p) as [e|pk].
  { unfold bind. repeat (case_match; try done). }
  destruct (negb (Type__ (envelope_of pk) =? MSG_TYPE_OPEN_SESSION)); [intros E _; by apply refuse_none in E|].
  destruct (NewJID (Jid (envelope_of pk))) as [e|jo]; [intros E _; by apply refuse_none in E|].
  unfold bind, ret. destruct (db _ x) as [[s|e] x2]; [|done].
  match goal with |- (let (_, _) := ?m x2 in _) = _ → _ => destruct (m x2) as [[[]|e] x3] end; [|done].
  intros [= -> -> ->] Ha. unfold on_world, zoom. rewrite Ha. destruct ok; cbn [negb]; [done|].
  destruct (answer _ _) as [[[]|e] x4]; [|done]. by destruct (CloseSession _ x4) as [[[]|e] x5].
Qed.

Lemma setSessionTimeout_status t x : Status (ses (setSessionTimeout t x).2) = Status (ses x).
Proof.
  unfold setSessionTimeout, get_Status, SetReadTimeout, get_conn, put_conn, gets, modify, bind, on_world, zoom. cbn.
  by destruct (sc (ses x)) as [c|] eqn:E; cbn.
Qed.

(** The handler of a read that begins with a login is its two parts with the http call between. *)
Lemma packetHandler_parts p rest x packet j x1 ok w :
  ss_Status (Status (ses x)) = STATUS_CONN → login_begin p x = (Ret (Some (packet, j)), x1) →
  Auth (user j) (Pwd (envelope_of packet)) (wld x1) = (Ret ok, w) →
  packetHandler (RPackets (p :: rest)) x = login_finish packet ok rest (set_wld w x1).
Proof.
  intros Hst Hb Ha. unfold login_begin in Hb. unfold packetHandler, login_finish.
  unfold bind at 1 in Hb. unfold bind at 1. destruct (setSessionTimeout _ x) as [[[]|e] x2] eqn:Et; [|done].
  assert (ss_Status (Status (ses x2)) = STATUS_CONN) as Hst2.
  { pose proof (setSessionTimeout_status PACKET_HANDLER_TIMEOUT x) as Hs. rewrite Et in Hs. cbn in Hs. congruence. }
  assert (handler_body (RPackets (p :: rest)) x2 = (login_end packet ok >>> for_range rest handle_packet) (set_wld w x1)) as E.
  { cbn [handler_body for_range]. unfold bind at 1. unfold handle_packet, get_Status. erewrite bind_Ret by reflexivity.
    rewrite decide_True by done. by rewrite (openSession_parts p x2 packet j x1 ok w Hb Ha). }
  unfold bind at 1, recover. unfold bind at 1. by rewrite E.
Qed.

(** ** The life of a session *)

(** What the other goroutines do to a session: the router delivers a packet or a kill, the node
    closes it; in between the rest of the process changes the shared state. *)
Inductive other_step : S_ → S_ → Prop :=
| os_route p x : other_step x (RoutePacket p x).2
| os_kill x : other_step x (Kill x).2
| os_close msg x : other_step x (CloseSession msg x).2
| os_env w x : other_step x (set_wld w x).

(** The session, and the login that waits for the callback server with the packets that follow
    it; the reading goroutine handles one read after the other. *)
Abbreviation life := (S_ * option (Packet * list bytes))%type.

Inductive life_step : life → life → Prop :=
| ls_other x x' l : other_step x x' → life_step (x, l) (x', l)
| ls_read r x : life_step (x, None) ((packetHandler r x).2, None)
| ls_begin p rest packet j x x' :
    ss_Status (Status (ses x)) = STATUS_CONN → login_begin p x = (Ret (Some (packet, j)), x') →
    life_step (x, None) (x', Some (packet, rest))
| ls_end packet rest ok x : life_step (x, Some (packet, rest)) ((login_finish packet ok rest x).2, None).

(** ** What every step keeps *)

Definition statuses : list bytes := [STATUS_CONN; STATUS_LOGIN; STATUS_CLOSE].

(** The identity of a session, what it has sent, and that a login is not undone. *)
Record continues (s s' : Session) : Prop := {
  co_sid : ss_Sid (Status s') = ss_Sid (Status s);
  co_node : ss_Nodeid (Status s') = ss_Nodeid (Status s);
  co_chan : ss_Channel (Status s') = ss_Channel (Status s);
  co_conn : conn_order (sc s) (sc s');
  co_status : ss_Status (Status s) ∈ statuses → ss_Status (Status s') ∈ statuses;
  co_not_conn : ss_Status (Status s) ≠ STATUS_CONN → ss_Status (Status s') ≠ STATUS_CONN }.

#[local] Instance continues_preorder : PreOrder continues.
Proof. split; [by split|]. intros a b c [] []. split; try congruence; [by etrans|auto..]. Qed.

Lemma evolves_continues s s' : evolves s s' → continues s s'.
Proof.
  intros [E1 E2 E3 Ho _ Hc _]. split; try done; destruct Ho as [<-|[[Hne ->]|[-> ->]]]; try done; set_solver.
Qed.

Lemma keeps_continues {A} (m : M S_ A) : keeps evolves m → keeps continues m.
Proof. intros Hm x. apply evolves_continues, Hm. Qed.

Lemma open_accepted_continues pk : keeps (D := D) (Q := Q) continues (open_accepted pk).
Proof.
  apply keeps_bind; [apply _|by apply keeps_world, _|]. intros ct. apply keeps_bind; [apply _| |].
  - intros x. split; cbn; try done. intros _. unfold statuses. set_solver.
  - intros _. apply keeps_continues. keep.
Qed.

Lemma login_finish_continues pk ok rest : keeps (D := D) (Q := Q) continues (login_finish pk ok rest).
Proof.
  apply keeps_bind; [apply _| |intros k; apply keeps_continues; keep].
  apply keeps_recover; [apply _| |intros e; by apply keeps_ret, _].
  apply keeps_bind; [apply _| |intros _; by apply keeps_ret, _].
  apply keeps_bind; [apply _| |intros _; apply keeps_continues, keeps_for_range; [apply _|apply keeps_handle_packet]].
  unfold login_end. destruct (negb ok); [apply keeps_continues; keep|apply open_accepted_continues].
Qed.

Lemma verify_request_evolves p : keeps (D := D) (Q := Q) evolves (verify_request p).
Proof. unfold verify_request. keep. Qed.

Lemma other_step_evolves x x' : other_step x x' → evolves (ses x) (ses x').
Proof. intros []; try (apply (keeps_at evolves); auto with sara). reflexivity. Qed.

Lemma life_step_continues l l' : life_step l l' → continues (ses l.1) (ses l'.1).
Proof.
  intros [x x' r Hs|r x|p rest pk j x x' _ E|pk rest ok x]; cbn [fst].
  - by apply evolves_continues, other_step_evolves.
  - by apply evolves_continues, keeps_packetHandler.
  - apply evolves_continues. change x' with ((Ret (Some (pk, j)), x').2). rewrite <-E. apply (keeps_at evolves).
    apply keeps_bind; [apply _|apply keeps_setSessionTimeout|]. intros _. apply verify_request_evolves.
  - apply login_finish_continues.
Qed.

Lemma life_steps_continue l l' : rtc life_step l l' → continues (ses l.1) (ses l'.1).
Proof. induction 1 as [|a b c Hs _ IH]; [reflexivity|]. etrans; [by apply life_step_continues|done]. Qed.

(** Past the first status and without a login under way, only handlers that evolve the session run. *)
Lemma settled_steps l l' :
  rtc life_step l l' → l.2 = None → ss_Status (Status (ses l.1)) ≠ STATUS_CONN →
  evolves (ses l.1) (ses l'.1) ∧ l'.2 = None.
Proof.
  induction 1 as [l|l1 l2 l3 Hs _ IH]; intros Hn Hc; [done|].
  assert (evolves (ses l1.1) (ses l2.1) ∧ l2.2 = None) as [He Hn2].
  { destruct Hs as [x x' r Hs|r x|p rest pk j x x' Hst E|pk rest ok x]; cbn in *; try done.
    - subst r. by split; [apply other_step_evolves|].
    - by split; [apply keeps_packetHandler|]. }
  destruct (IH Hn2) as [He2 ?]; [by apply (co_not_conn _ _ (evolves_continues _ _ He))|]. by split; [etrans|].
Qed.

(** ** Properties *)

(** C2: along every interleaving of the handlers, in which a login is split at its call of the
    callback server, a session keeps its id, node and channel and never goes back to the status
    before the login.  When no login is under way, a logged in session stays so until it is
    closed and keeps its user, and a closed session stays closed. *)
Theorem session_lifecycle x x' (l l' : option (Packet * list bytes)) :
  rtc life_step (x, l) (x', l') →
  let st := Status (ses x) in let st' := Status (ses x') in
  ss_Sid st' = ss_Sid st ∧ ss_Nodeid st' = ss_Nodeid st ∧ ss_Channel st' = ss_Channel st ∧
  (ss_Status st ∈ statuses → ss_Status st' ∈ statuses) ∧
  (ss_Status st ≠ STATUS_CONN → ss_Status st' ≠ STATUS_CONN) ∧
  (l = None → ss_Status st = STATUS_LOGIN → ss_Status st' ∈ [STATUS_LOGIN; STATUS_CLOSE] ∧ ss_Jid st' = ss_Jid st) ∧
  (l = None → ss_Status st = STATUS_CLOSE → ss_Status st' = STATUS_CLOSE ∧ ss_Jid st' = ss_Jid st).
Proof.
  intros Hs st st'. destruct (life_steps_continue _ _ Hs) as [E1 E2 E3 _ Hv Hn]. cbn in *.
  assert (l = None → ss_Status st ≠ STATUS_CONN → evolves (ses x) (ses x')) as Hset
    by (intros Hl Hc; by apply (settled_steps _ _ Hs)).
  split_and!; try done; intros Hl Hst; destruct Hset as [_ _ _ Ho Hj _ _]; try done; try (by rewrite Hst);
    fold st st' in Ho, Hj; rewrite Hst in Ho, Hj; (split; [|by apply Hj]);
    destruct Ho as [<-|[[? ->]|[? ->]]]; try done; set_solver.
Qed.

(** [CloseSession] closes the connection and sends nothing. *)
Lemma CloseSession_silent msg x x' c :
  CloseSession msg x = (Ret tt, x') → ss_Status (Status (ses x)) ≠ STATUS_CLOSE → sc (ses x) = Some c →
  ∃ c', sc (ses x') = Some c' ∧ out c' = out c ∧ is_open c' = false.
Proof.
  intros E Hst Hc. unfold CloseSession, get_Status in E. erewrite bind_Ret in E by reflexivity. rewrite decide_False in E by done.
  assert (∀ A (m : M S_ A) k y r, keeps eq m → bind m k y = r → ses y = ses x → r.1 = Ret tt →
    ∃ a y', k a y' = r ∧ ses y' = ses x) as Hstep.
  { intros A m k y r Hm Hb Hy Hr. specialize (Hm y). unfold bind in Hb. destruct (m y) as [[a|e] y']; [|by subst r].
    cbn in Hm. exists a, y'. split; [done|]. congruence. }
  apply Hstep in E as (_ & y1 & E & H1'); [|keep|done|done]. apply Hstep in E as (_ & y2 & E & H2'); [|keep|done|done].
  erewrite bind_Ret in E by reflexivity. erewrite bind_Ret in E by (apply conn_Close_runs; cbn; by rewrite H2').
  assert (keeps (D := D) (Q := Q) eq pkgBuffToStore) as Hk by (unfold pkgBuffToStore, storePacket; keep).
  match type of E with pkgBuffToStore ?y = _ => specialize (Hk y) end. rewrite E in Hk. cbn in Hk. rewrite <-Hk. cbn.
  by eexists.
Qed.

(** C26: nothing is sent to a client from the moment its session is closed: when
    [CloseSession] returns, the connection is closed and nothing was written to it, and it
    stays so whatever happens later, also to a login that was under way. *)
Theorem closed_session_is_silent msg x x1 c x' (l l' : option (Packet * list bytes)) :
  ss_Status (Status (ses x)) ≠ STATUS_CLOSE → sc (ses x) = Some c →
  CloseSession msg x = (Ret tt, x1) → rtc life_step (x1, l) (x', l') →
  ∃ c', sc (ses x') = Some c' ∧ out c' = out c ∧ is_open c' = false.
Proof.
  intros Hst Hc E Hs. destruct (CloseSession_silent msg x x1 c E Hst Hc) as (c1 & Hc1 & Ho1 & Hcl).
  pose proof (co_conn _ _ (life_steps_continue _ _ Hs)) as Hco. cbn in Hco. rewrite Hc1 in Hco.
  destruct (sc (ses x')) as [c'|]; [|done]. destruct Hco as (_ & _ & Hk). destruct (Hk Hcl) as [Ho ?].
  exists c'. split; [done|]. split; [congruence|done].
Qed.
End Login.

(** ** A session that is closed while its login waits *)

Section Reopened.
Context `{GoLib} `{Oracles} {D Q : Type} `{DatabaseLaws D} `{RouterLaws Q}.
Implicit Types x : SState D Q.

(** C27: a login that was under way when its session was closed opens it again: the client is
    gone, the session has been reported to the node, yet its status is logged in, and the record
    of the user names this session, so that messages for the user are routed to it. *)
Theorem close_during_login_reopens x c packet j msg :
  ss_Status (Status (ses x)) = STATUS_CONN → sc (ses x) = Some c → pkgBuff (ses x) = ∅ →
  NewJID (Jid (envelope_of packet)) = OK j →
  ready (w_db (wld x)) → indexable (w_db (wld x)) (ss_Nodeid (Status (ses x))) →
  ∃ x1 x2, let login := Some (packet, []) in
    CloseSession msg x = (Ret tt, x1) ∧ life_step (x, login) (x1, login) ∧
    ss_Status (Status (ses x1)) = STATUS_CLOSE ∧ ss_Sid (Status (ses x)) ∈ w_clean (wld x1) ∧
    life_step (x1, login) (x2, None) ∧
    ss_Status (Status (ses x2)) = STATUS_LOGIN ∧ ss_Sid (Status (ses x2)) = ss_Sid (Status (ses x)) ∧
    (∃ c2, sc (ses x2) = Some c2 ∧ is_open c2 = false ∧ out c2 = out c) ∧
    seen (w_db (wld x2)) (ToSessionid j) = Some (SessionStatus_ToJson (Status (ses x2))).
Proof.
  intros Hst Hc Hb Hj Hr Hi.
  assert (CloseSession msg x = (Ret tt, mkS (mkSession (mkStatus (ss_Sid (Status (ses x))) (ss_Jid (Status (ses x))) STATUS_CLOSE
      (ss_Nodeid (Status (ses x))) (ss_Channel (Status (ses x))) (ss_Ct (Status (ses x))))
      (Some (mkConn (is_ws c) (out c) false (deadline c))) ∅)
      (set_clean (w_clean (wld x) ++ [ss_Sid (Status (ses x))]) (wld x)))) as E.
  { unfold CloseSession, get_Status. erewrite bind_Ret by reflexivity. rewrite decide_False by by rewrite Hst.
    erewrite bind_Ret by (apply world_runs; reflexivity). unfold login. rewrite bool_decide_false by by rewrite Hst.
    erewrite bind_Ret by reflexivity. erewrite bind_Ret by reflexivity.
    erewrite bind_Ret by (apply conn_Close_runs; exact Hc). unfold pkgBuffToStore. erewrite bind_Ret by reflexivity.
    cbn [ses set_ses pkgBuff set_wld]. rewrite decide_True by done. cbn. by rewrite Hb. }
  match type of E with _ = (_, ?y) => set (x1 := y) in E end.
  destruct (open_accepted_runs packet j x1 _ Hj eq_refl Hr Hi) as (x2 & pks & E2 & H1' & _ & H2' & _ & _ & H3' & H4' & _).
  destruct (setSessionTimeout_runs 0 x2 _ H4') as (dl & w & E3 & [Kd _ _ _ _]).
  match type of E3 with _ = (_, ?y) => set (x3 := y) in E3 end.
  exists x1, x3. cbv zeta. split; [done|]. split; [change x1 with ((Ret tt, x1).2); rewrite <-E; apply ls_other, os_close|].
  split; [done|]. split; [cbn; set_solver|]. split; [|split; [exact H1'|split; [exact H2'|split]]].
  - enough (x3 = (login_finish packet true [] x1).2) as -> by apply ls_end.
    unfold login_finish, login_end, recover. cbn [negb for_range]. unfold bind, ret. rewrite E2, E3. reflexivity.
  - by eexists.
  - cbn. by rewrite Kd.
Qed.
End Reopened.
