(* ===== verification/Offline.v ===== *)
(** * Offline: a message for an absent user, from its sender to its acknowledgement.

    [RoutePacket] stores the message, the workers of the database carry the writes out in
    any order, the next login of the recipient is answered with the message, and the
    acknowledgement of that answer ([serverAck]) deletes it again. *)

From S2P Require Import Prelude GoBytes Utf8 Json Gjson Types Conn Config Redis Database SaraDb World External Session SessionProps.

Section Offline.
Context `{GoLib} `{Oracles} {R Q : Type} `{RedisLaws R} `{RouterLaws Q}.
Abbreviation D := (SaraDatabase R).
Implicit Types (x y : SState D Q) (db : D).

(** The offline index of a user. *)
Definition offline_index (j : JID) : bytes := ToOfflineKey j ++ IDX_SUFFIX.

Lemma offline_index_bare j1 j2 : same_user j1 j2 → ToOfflineKey j1 = ToOfflineKey j2.
Proof. unfold same_user, ToOfflineKey. by intros ->. Qed.

(** A read leaves the queues and the contents alone. *)
Lemma Get_pending k db :
  up (redis db) → wbCh_closed (Get k db).2 = wbCh_closed db ∧ pending (Get k db).2 = pending db ∧
    keys (Get k db).2 = keys db ∧ up (redis (Get k db).2).
Proof.
  intros Hup. destruct (Get_seen db k Hup) as (db' & r & E & Hu & Hk & _). rewrite E. cbn [snd].
  unfold Get, bind in E. cbn [executeDirect ret] in E. injection E as _ <-. done.
Qed.

Lemma pending_queue q db : pending (set_wbCh (wbCh db ++ map WB q) db) ≡ₚ q ++ pending db.
Proof. unfold pending. cbn. rewrite cmds_app, cmds_map. solve_Permutation. Qed.

(** Carrying out the writes of one stored message. *)
Lemma stored_in_index db idx i t ex es db2 h :
  up (redis db) → wbCh_closed db = false → drained db → ¬ session_key i → i ≠ idx ++ IDX_SUFFIX → 0 < ex →
  hash_at (keys db) (idx ++ IDX_SUFFIX) = OK h →
  db_run (PutExWithIdx idx i t ex db).2 es (Ret tt) db2 → drained db2 →
  up (redis db2) ∧ ∃ z, hash_at (keys db2) (idx ++ IDX_SUFFIX) = OK z ∧ z !! i = Some t.
Proof.
  intros Hup Ho Hd Hi Hne Hex Hh Hr Hd2. rewrite PutExWithIdx_other in Hr by done. cbn [snd] in Hr.
  rewrite (proj2 (Z.ltb_lt _ _) Hex) in Hr.
  eapply db_run_executes in Hr as (Hu2 & cs & Hp & Hk); [|done]. split; [done|].
  change [WB (HSET (idx ++ IDX_SUFFIX) i t); WB (SETEX i ex t)]
    with (map WB [HSET (idx ++ IDX_SUFFIX) i t; SETEX i ex t]) in Hp.
  rewrite pending_queue, Hd, Hd2, !app_nil_r in Hp. rewrite Hk.
  apply (run_cmds_hset _ _ _ _ _ h Hh); [|left; rewrite <-Hp; set_solver].
  intros c Hc Hck. rewrite <-Hp in Hc. apply elem_of_cons in Hc as [->|Hc%list_elem_of_singleton]; [by eauto|by subst c].
Qed.

(** C4: an offline message reaches its recipient: a message sent to a user who has no
    session is, once the workers have drained the queues, among the packets the next
    login of that user is answered with, and its id is among those remembered under
    the id of the login request, whatever the order in which the workers work. *)
Theorem offline_message_delivered_at_login x ja pk jf jt h es db2 y p lpk j c b :
  let db := w_db (wld x) in
  logged_in x ja → from_to pk jf jt → same_user ja jf → ¬ same_user ja jt →
  up (redis db) → wbCh_closed db = false → drained db → str_at (keys db) (ToSessionid jt) = None →
  hash_at (keys db) (offline_index jt) = OK h →
  ¬ session_key (Id (envelope_of pk)) → Id (envelope_of pk) ≠ offline_index jt →
  db_run (w_db (wld (RoutePacket pk x).2)) es (Ret tt) db2 → drained db2 →
  w_db (wld y) = db2 → good_login p lpk j → same_user j jt → sc (ses y) = Some c → is_open c = true →
  indexable db2 (ss_Nodeid (Status (ses y))) →
  authenticates (D := D) (Q := Q) (w_conf (wld y)) j (Pwd (envelope_of lpk)) true →
  NewBasePacket (ToJson pk) = Some b →
  ∃ y' pks, openSession p y = (Ret tt, y') ∧ b ∈ pks ∧
    sc (ses y') = Some (add_out c (ToJson (AddDelay pks (NewPacketAuthSuccess (Id (envelope_of lpk)))))) ∧
    w_ofl (wld y') !! Id (envelope_of lpk) = Some (map (λ b, Id (Envelope_ b)) pks).
Proof.
  intros db Hl Hft Hf Ht Hup Ho Hd Hs Hh Hi Hne Hr Hd2 Hy Hg Hj Hc Hoc Hix Ha Hb.
  pose proof (RoutePacket_absent x ja pk jf jt Hl Hft Hf Ht) as E. destruct (E Hup Hs) as (E1 & _ & _).
  rewrite E1 in Hr. clear E E1.
  destruct (Get_pending (ToSessionid jt) db Hup) as (G1 & G2 & G3 & G4).
  destruct (stored_in_index (Get (ToSessionid jt) db).2 (ToOfflineKey jt) (Id (envelope_of pk)) (ToJson pk)
              OFFLINE_EXPIRED es db2 h) as (Hu2 & z & Hz & Hzi); try done.
  { by rewrite G3. }
  subst db2. pose proof (openSession_runs p lpk j y c Hg Hc Hoc) as Hop. destruct (Hop Hu2 Hix Ha)
    as (y' & pks & E & _ & _ & _ & _ & _ & _ & Hsc & Hof).
  destruct (Hof z) as (vals & Hv & -> & Hids).
  { cbn [index SaraDatabase_laws]. by rewrite (offline_index_bare j jt Hj), Hz. }
  assert (b ∈ decode_offline vals) as Hin.
  { apply list_elem_of_omap. exists (ToJson pk). split; [|done]. rewrite Hv. apply list_elem_of_fmap.
    exists (Id (envelope_of pk), ToJson pk). split; [done|]. by apply elem_of_map_to_list. }
  exists y', (decode_offline vals). split_and!; try done. apply Hids. intros E'. rewrite E' in Hin. by apply not_elem_of_nil in Hin.
Qed.

(** ** Acknowledging *)

Definition delete_cmds (idx i : bytes) : list rcmd := [HDEL (idx ++ IDX_SUFFIX) i; DEL i].

Lemma delete_loop_runs idx ids x :
  wbCh_closed (w_db (wld x)) = false → Forall (λ i, ¬ session_key i) ids →
  for_range ids (λ i, db (db_DeleteByIdxKey idx i) >>> ret tt) x =
  (Ret tt, set_wld (set_db (set_wbCh (wbCh (w_db (wld x)) ++ map WB (ids ≫= delete_cmds idx)) (w_db (wld x))) (wld x)) x).
Proof.
  intros Ho Hi. revert x Ho. induction Hi as [|i ids Hi _ IH]; intros x Ho; cbn [for_range].
  - cbn. rewrite app_nil_r. by destruct x as [s [[] ?]].
  - erewrite bind_Ret by (erewrite bind_Ret by (apply db_runs, (DeleteByIdxKey_other _ idx i Hi Ho)); reflexivity).
    rewrite IH by done. destruct x as [s w]. unfold set_wld, set_db, set_wbCh. cbn. by rewrite <-app_assoc.
Qed.

(** C20: acknowledging the answer of a login deletes the offline messages it carried and
    no others: once the workers have drained the queues, the user's offline index has
    none of the remembered ids and every other entry is as before. *)
Theorem ack_deletes_offline_messages x j ack ids h :
  let db := w_db (wld x) in
  logged_in x j → w_ofl (wld x) !! Id (envelope_of ack) = Some ids →
  up (redis db) → wbCh_closed db = false → drained db → hash_at (keys db) (offline_index j) = OK h →
  Forall (λ i, ¬ session_key i ∧ i ≠ offline_index j) ids →
  ∃ x', serverAck ack x = (Ret tt, x') ∧
    ∀ es db2, db_run (w_db (wld x')) es (Ret tt) db2 → drained db2 →
      ∃ h', hash_at (keys db2) (offline_index j) = OK h' ∧
        ∀ i, (i ∈ ids → h' !! i = None) ∧ (i ∉ ids → h' !! i = h !! i).
Proof.
  intros db0 [Hl Hj] Hids Hup Ho Hd Hh Hi. unfold serverAck, get_Status. erewrite bind_Ret by reflexivity.
  rewrite (NewJID_OK_ _ _ Hj). cbn [deref]. erewrite bind_Ret by reflexivity.
  erewrite bind_Ret by (apply world_runs; unfold ofl_get, gets; rewrite Hids; reflexivity).
  assert (set_wld (wld x) x = x) as -> by by destruct x.
  pose proof (proj1 (list.Forall_forall _ _) Hi) as Hin. rewrite delete_loop_runs; [|done|].
  2: { apply list.Forall_forall. intros i Hi'. by apply Hin. }
  eexists. split; [reflexivity|]. intros es db2 Hr Hd2. cbn [wld set_wld w_db set_db] in Hr.
  eapply db_run_executes in Hr as (_ & cs & Hp & Hk); [|done].
  rewrite pending_queue, Hd2, app_nil_r in Hp. fold db0 in Hp. rewrite Hd, app_nil_r in Hp.
  assert (∀ c, c ∈ cs ↔ ∃ i, i ∈ ids ∧ (c = HDEL (offline_index j) i ∨ c = DEL i)) as Hcs.
  { intros c. rewrite <-Hp, list_elem_of_bind. unfold delete_cmds. fold (offline_index j). set_solver. }
  destruct (run_cmds_hdel (offline_index j) cs (keys db0) h Hh) as (h' & Hh' & Hf).
  { intros c (i & Hi' & [->| ->])%Hcs Hck; [by eexists|]. by destruct (Hin i Hi'). }
  exists h'. rewrite Hk. split; [done|]. intros i. destruct (Hf i) as [H1i H2i]. split.
  - intros Hi'. apply H1i, Hcs. eauto.
  - intros Hni. apply H2i. intros (i' & Hi' & [[= ->]|[=]])%Hcs. done.
Qed.
End Offline.
