(* ===== verification/Kept.v ===== *)
(** * Kept: relations between states that every handler of a session keeps.

    A handler of [core/session.go] is a composition of few effects: questions to the
    outside, calls of the database and the router, changes of the connection, of the buffer
    and of the status.  A relation that each of these keeps is kept by the handlers; the
    classes below list the effects, and the invariants of [Node], [Relogin] and [Clean] are
    instances of them. *)

From S2P Require Import Prelude GoBytes Utf8 Json Gjson Types Conn Config Database World External Session SessionProps.

(** ** Relations kept by a computation on any state *)

Section Kept.
Context {S : Type} (R : relation S) `{!PreOrder R}.

Definition kept {A} (m : M S A) : Prop := ∀ s, R s (m s).2.

Lemma kept_ret {A} (a : A) : kept (ret a).
Proof. intros s. reflexivity. Qed.
Lemma kept_gets {A} (f : S → A) : kept (gets f).
Proof. intros s. reflexivity. Qed.
Lemma kept_panic {A} e : kept (panic (A := A) e).
Proof. intros s. reflexivity. Qed.
Lemma kept_deref {A} (o : option A) : kept (deref o).
Proof. destruct o; [apply kept_ret|apply kept_panic]. Qed.
Lemma kept_of_outcome {A} (o : outcome A) : kept (of_outcome o).
Proof. intros s. reflexivity. Qed.
Lemma kept_bind {A B} (m : M S A) (k : A → M S B) : kept m → (∀ a, kept (k a)) → kept (bind m k).
Proof.
  intros Hm Hk s. specialize (Hm s). unfold bind. destruct (m s) as [[a|p] s']; cbn in *; [|done].
  by etrans; [|apply Hk].
Qed.
Lemma kept_for_range {A} (l : list A) (body : A → M S unit) : (∀ a, kept (body a)) → kept (for_range l body).
Proof. intros Hb. induction l; cbn; [apply kept_ret|by apply kept_bind]. Qed.
Lemma kept_recover {A} (m : M S A) h : kept m → (∀ p, kept (h p)) → kept (recover m h).
Proof.
  intros Hm Hh s. specialize (Hm s). unfold recover. destruct (m s) as [[a|p] s']; cbn in *; [done|].
  by etrans; [|apply Hh].
Qed.
End Kept.

#[export] Hint Extern 1 (kept _ (ret _)) => apply kept_ret; typeclasses eauto : sara.
#[export] Hint Extern 1 (kept _ (gets _)) => apply kept_gets; typeclasses eauto : sara.
#[export] Hint Extern 1 (kept _ (panic _)) => apply kept_panic; typeclasses eauto : sara.
#[export] Hint Extern 1 (kept _ (deref _)) => apply kept_deref; typeclasses eauto : sara.
#[export] Hint Extern 1 (kept _ (of_outcome _)) => apply kept_of_outcome; typeclasses eauto : sara.

Ltac kept_tac :=
  repeat first
    [ lazymatch goal with |- ∀ _, _ => intro end
    | solve [auto 3 with sara typeclass_instances]
    | lazymatch goal with
      | |- kept _ (bind _ _) => apply kept_bind; [typeclasses eauto| |]
      | |- kept _ (for_range _ _) => apply kept_for_range; [typeclasses eauto|]
      | |- kept _ (recover _ _) => apply kept_recover; [typeclasses eauto| |]
      | |- kept _ (match ?o with _ => _ end) => destruct o eqn:?
      end ].

(** ** The effects of the handlers *)

Section Handlers.
Context `{GoLib} `{Oracles} {D Q : Type} `{Database D} `{MessageRouter Q}.

(** The shared state. *)
Class WorldRel (Rw : relation (World D Q)) : Prop := {
  hr_w : PreOrder Rw;
  hr_asked w w' : asked w w' → Rw w w';
  hr_ofl key ids : kept Rw (ofl_put key ids);
  hr_get key : kept Rw (on_db (db_Get key));
  hr_getbyidx idx : kept Rw (on_db (db_GetByIdx idx));
  hr_cache key v ex : kept Rw (on_db (db_PutEx key v ex));
  hr_store j id v ex : kept Rw (on_db (db_PutExWithIdx (ToOfflineKey j) id v ex));
  hr_forget j id : kept Rw (on_db (db_DeleteByIdxKey (ToOfflineKey j) id));
  hr_route ch sid p sg : kept Rw (on_router (Route ch sid p sg)) }.

(** A session that neither logs in nor closes. *)
Class SessionRel (Rw : relation (World D Q)) (Rs : relation (SState D Q)) : Prop := {
  hr_worldrel : WorldRel Rw;
  hr_s : PreOrder Rs;
  hr_world {A} (m : M (World D Q) A) : kept Rw m → kept Rs (on_world m);
  (** a write and a close leave the deadline of the connection *)
  hr_conn x c c' : sc (ses x) = Some c → deadline c' = deadline c →
    Rs x (set_ses (mkSession (Status (ses x)) (Some c') (pkgBuff (ses x))) x);
  hr_buff x b : Rs x (set_ses (mkSession (Status (ses x)) (sc (ses x)) b) x) }.

(** A new deadline. *)
Class DeadlineRel (Rs : relation (SState D Q)) : Prop :=
  hr_deadline x c t : sc (ses x) = Some c →
    Rs x (set_ses (mkSession (Status (ses x)) (Some (mkConn (is_ws c) (out c) (is_open c) (Some t))) (pkgBuff (ses x))) x).

(** The status of a session that logs in. *)
Definition login_status (jid : bytes) (ct : Z) (s : SessionStatus) : SessionStatus :=
  mkStatus (ss_Sid s) jid STATUS_LOGIN (ss_Nodeid s) (ss_Channel s) ct.

(** All of a session. *)
Class HandlerRel (Rw : relation (World D Q)) (Rs : relation (SState D Q)) : Prop := {
  hr_base : SessionRel Rw Rs;
  hr_login jid ct : kept Rs (put_Status (login_status jid ct));
  hr_close msg : kept Rs (CloseSession msg);
  hr_record : kept Rs storeSessionStatus }.
End Handlers.

#[export] Existing Instances hr_base hr_worldrel hr_w hr_s.
#[export] Hint Extern 1 (kept _ (ofl_put _ _)) => apply hr_ofl : sara.
#[export] Hint Extern 1 (kept _ (on_db _)) =>
  first [apply hr_get|apply hr_getbyidx|apply hr_cache|apply hr_store|apply hr_forget] : sara.
#[export] Hint Extern 1 (kept _ (on_router _)) => apply hr_route : sara.
#[export] Hint Extern 1 (kept _ (CloseSession _)) => eapply hr_close : sara.
#[export] Hint Extern 1 (kept _ storeSessionStatus) => eapply hr_record : sara.
#[export] Hint Extern 1 (kept _ (put_Status _)) => eapply (hr_login (D := _)) : sara.

Section Effects.
Context `{GoLib} `{Oracles} {D Q : Type} `{Database D} `{MessageRouter Q}.

Lemma kept_asks (Rw : relation (World D Q)) `{!WorldRel Rw} {A} (m : M (World D Q) A) : asks m → kept Rw m.
Proof. intros Hm w. apply hr_asked, Hm. Qed.
Lemma kept_measure (Rw : relation (World D Q)) `{!WorldRel Rw} i : kept Rw (modify (MeasureWriteAdd i)).
Proof. intros w. by apply hr_asked. Qed.
Lemma kept_range_keys (Rw : relation (World D Q)) `{!WorldRel Rw} l : kept Rw (range_keys l).
Proof. intros w. by apply hr_asked. Qed.

Context (Rw : relation (World D Q)) (Rs : relation (SState D Q)) `{!SessionRel Rw Rs}.
Lemma kept_buff b : kept Rs (put_buff b).
Proof. intros x. apply hr_buff. Qed.

(** A handler that uses the connection has one. *)
Lemma kept_get_conn {A} (k : conn → M (SState D Q) A) :
  (∀ x c, sc (ses x) = Some c → Rs x (k c x).2) → kept Rs (bind get_conn k).
Proof.
  intros Hk x. unfold get_conn, bind, gets. cbn. destruct (sc (ses x)) as [c|] eqn:Hc; [by apply Hk|]. cbn. reflexivity.
Qed.
End Effects.

#[export] Hint Extern 1 (kept _ (modify (MeasureWriteAdd _))) => apply kept_measure; typeclasses eauto : sara.
#[export] Hint Extern 1 (kept _ (range_keys _)) => apply kept_range_keys; typeclasses eauto : sara.
#[export] Hint Extern 1 (kept _ (put_buff _)) => eapply kept_buff; typeclasses eauto : sara.
#[export] Hint Extern 1 (kept _ uuid_rand) => apply kept_asks; [typeclasses eauto|]; ask : sara.
#[export] Hint Extern 1 (kept _ Timestamp13) => apply kept_asks; [typeclasses eauto|]; ask : sara.
#[export] Hint Extern 1 (kept _ Timestamp10) => apply kept_asks; [typeclasses eauto|]; unfold Timestamp10; ask : sara.
#[export] Hint Extern 1 (kept _ (TimeoutTime _)) => apply kept_asks; [typeclasses eauto|]; unfold TimeoutTime; ask : sara.
#[export] Hint Extern 1 (kept _ (Auth _ _)) => apply kept_asks; [typeclasses eauto|]; ask : sara.
#[export] Hint Extern 1 (kept _ (GetGroupUserList _)) => apply kept_asks; [typeclasses eauto|]; ask : sara.
#[export] Hint Extern 1 (kept _ (OfflineCallback _)) => apply kept_asks; [typeclasses eauto|]; ask : sara.
#[export] Hint Extern 2 (kept _ (on_world _)) => eapply hr_world : sara.
#[export] Hint Extern 2 (kept _ (db _)) => eapply hr_world : sara.
#[export] Hint Extern 2 (kept _ (router _)) => eapply hr_world : sara.

(** ** What follows for the parts of the handlers *)

Section Storing.
Context `{GoLib} `{Oracles} {D Q : Type} `{Database D} `{MessageRouter Q}.
Context (Rw : relation (World D Q)) `{!WorldRel Rw}.

Lemma kept_StorePacket p : kept Rw (StorePacket p).
Proof. unfold StorePacket, EnvelopeIdFromToType. kept_tac. Qed.
End Storing.

#[export] Hint Extern 1 (kept _ (StorePacket _)) => eapply kept_StorePacket; typeclasses eauto : sara.

Section BaseHandlers.
Context `{GoLib} `{Oracles} {D Q : Type} `{Database D} `{MessageRouter Q}.
Context (Rw : relation (World D Q)) (Rs : relation (SState D Q)) `{!SessionRel Rw Rs}.

Lemma kept_storePacket p : kept Rs (storePacket p).
Proof. unfold storePacket. kept_tac. Qed.
Lemma kept_WritePacket p : kept Rs (WritePacket p).
Proof.
  apply (kept_get_conn Rw Rs). intros x c Hc. unfold bind at 1.
  set (m := if is_ws c then ret tt else on_world (modify (MeasureWriteAdd 1))).
  assert (kept Rs m) as Hm by (subst m; kept_tac).
  assert (∃ w, m x = (Ret tt, set_wld w x)) as (w & E).
  { subst m. destruct (is_ws c); [exists (wld x); by destruct x|by eexists]. }
  specialize (Hm x). rewrite E in *. destruct (is_open c); [|exact Hm]. etrans; [exact Hm|].
  by apply (hr_conn (set_wld w x) c).
Qed.
#[local] Hint Resolve kept_storePacket : sara.
Lemma kept_SendMessage p : kept Rs (SendMessage p).
Proof. apply kept_WritePacket. Qed.
Lemma kept_answer p : kept Rs (answer p).
Proof. apply kept_WritePacket. Qed.
Lemma kept_setSessionTimeout `{!DeadlineRel Rs} t : kept Rs (setSessionTimeout t).
Proof.
  unfold setSessionTimeout, get_Status, SetReadTimeout. do 2 (apply kept_bind; [apply _|kept_tac|intros ?]).
  apply (kept_get_conn Rw Rs). intros x c Hc. by apply hr_deadline.
Qed.
Lemma kept_conn_Close : kept Rs conn_Close.
Proof. apply (kept_get_conn Rw Rs). intros x c Hc. by apply (hr_conn x c). Qed.
Lemma kept_pkgBuffToStore : kept Rs pkgBuffToStore.
Proof. unfold pkgBuffToStore. kept_tac. Qed.
End BaseHandlers.

#[export] Hint Extern 1 (kept _ (storePacket _)) => eapply kept_storePacket; typeclasses eauto : sara.
#[export] Hint Extern 1 (kept _ (WritePacket _)) => eapply kept_WritePacket; typeclasses eauto : sara.
#[export] Hint Extern 1 (kept _ (SendMessage _)) => eapply kept_SendMessage; typeclasses eauto : sara.
#[export] Hint Extern 1 (kept _ (answer _)) => eapply kept_answer; typeclasses eauto : sara.
#[export] Hint Extern 1 (kept _ (setSessionTimeout _)) => eapply kept_setSessionTimeout; typeclasses eauto : sara.
#[export] Hint Extern 1 (kept _ conn_Close) => eapply kept_conn_Close; typeclasses eauto : sara.
#[export] Hint Extern 1 (kept _ pkgBuffToStore) => eapply kept_pkgBuffToStore; typeclasses eauto : sara.

(** ** What follows for the handlers *)

Section GroupPackets.
Context `{GoLib} `{Oracles} {D Q : Type} `{Database D} `{MessageRouter Q}.
Context (Rw : relation (World D Q)) `{!WorldRel Rw}.

Lemma kept_group_packets f u d p us : kept Rw (group_packets f u d p us).
Proof. induction us as [|v us IH]; cbn [group_packets]; unfold group_packet; kept_tac. Qed.
Lemma kept_GenerateGroupPackets p : kept Rw (GenerateGroupPackets p).
Proof.
  assert (∀ us, kept Rw (genGroupPackets us p)) by (unfold genGroupPackets; kept_tac; apply kept_group_packets).
  unfold GenerateGroupPackets. kept_tac.
Qed.
End GroupPackets.

#[export] Hint Extern 1 (kept _ (GenerateGroupPackets _)) => eapply kept_GenerateGroupPackets; typeclasses eauto : sara.

Section SessionHandlers.
Context `{GoLib} `{Oracles} {D Q : Type} `{Database D} `{MessageRouter Q}.
Context (Rw : relation (World D Q)) (Rs : relation (SState D Q)) `{!HandlerRel Rw Rs}.

Lemma kept_RoutePacket p : kept Rs (RoutePacket p).
Proof. unfold RoutePacket, get_Status, EnvelopeIdFromToType, pkgBuffAdd. kept_tac. Qed.
Lemma kept_Kill : kept Rs Kill.
Proof. unfold Kill. kept_tac. Qed.
Lemma kept_verify p : kept Rs (verify p).
Proof. unfold verify. kept_tac. Qed.
#[local] Hint Resolve kept_RoutePacket kept_verify : sara.
Lemma kept_openSession p : kept Rs (openSession p).
Proof. unfold openSession, open_accepted, fetchOfflinePacket, get_Status. kept_tac. Qed.
#[local] Hint Resolve kept_openSession : sara.

Lemma kept_handler_body r : kept Rs (handler_body r).
Proof.
  unfold handler_body, handle_packet, heartbeat, serverAck, get_Status, EnvelopeIdFromToType,
    RoutePacketList, pkgBuffDel, ofl_get. kept_tac.
Qed.
#[local] Hint Resolve kept_handler_body : sara.
Lemma kept_packetHandler `{!DeadlineRel Rs} r : kept Rs (packetHandler r).
Proof. unfold packetHandler. kept_tac. Qed.
End SessionHandlers.
