(* ===== verification/Rpc.v ===== *)
(** * Rpc: [sararpc], the transport of messages between nodes.

    The data channel of a node: messages published to itself are queued, messages to
    another node are sent through a pooled thrift client.  The thrift library is a
    parameter: dialling and calling are oracles. *)

From S2P Require Import Prelude GoBytes Types Database.

Definition LICENCE : bytes := §"ABECDD3C-B737-42BA-8F49-92A3267BB822".

(** The size of the pool of each address. *)
Definition PPSize : Z := 100.

(** The thrift library: the error of the [n]-th attempt to open a client to an
    address, if any, and the reply to the [n]-th call of [Process].  A client is named
    by the number of the attempt that opened it. *)
Class Thrift := {
  dial : nat → bytes → error;
  call_process : nat → nat → bytes → bytes → bytes → result bytes;
  rpc_uuid : nat → bytes;
}.

(** [RPCDataChannel] with its [RPCClient]: the id of the channel, the queue, the pools
    of idle clients and the clients that were closed. *)
Record RPCDataChannel := mkRpc {
  rpc_id : bytes;
  dataCh : list bytes;
  clientPool : gmap bytes (list nat);
  closed : list nat;
  n_dial : nat;
  n_call : nat }.

(** [NewRPCClient]: no pool yet; the factories are those of the thrift library. *)
Definition NewRPCClient : gmap bytes (list nat) := ∅.

Definition NewRPCDataChannel (rpcserverAddr : bytes) : RPCDataChannel := mkRpc rpcserverAddr [] NewRPCClient [] 0 0.

Definition GetChannel (r : RPCDataChannel) : bytes := rpc_id r.

Section Rpc.
Context `{Thrift}.
Abbreviation RM := (M RPCDataChannel).

Definition set_pool (p : gmap bytes (list nat)) (r : RPCDataChannel) : RPCDataChannel :=
  mkRpc (rpc_id r) (dataCh r) p (closed r) (n_dial r) (n_call r).
Definition set_closed (l : list nat) (r : RPCDataChannel) : RPCDataChannel :=
  mkRpc (rpc_id r) (dataCh r) (clientPool r) l (n_dial r) (n_call r).
Definition set_dataCh (q : list bytes) (r : RPCDataChannel) : RPCDataChannel :=
  mkRpc (rpc_id r) q (clientPool r) (closed r) (n_dial r) (n_call r).

(** The pool of an address, made on first use. *)
Definition pool_of (addr : bytes) : RM (list nat) := λ r,
  match clientPool r !! addr with
  | Some q => (Ret q, r)
  | None => (Ret [], set_pool (<[addr := []]> (clientPool r)) r)
  end.

Definition newClient (addr : bytes) : RM (result nat) := λ r,
  (Ret (match dial (n_dial r) addr with None => OK (n_dial r) | Some e => ERR e end),
   mkRpc (rpc_id r) (dataCh r) (clientPool r) (closed r) (S (n_dial r)) (n_call r)).

(** [putClient]: a client that does not fit into the pool is closed. *)
Definition putClient (addr : bytes) (c : nat) : RM unit :=
  let! queue := pool_of addr in
  if Z.of_nat (length queue) <? PPSize then
    modify (λ r, set_pool (<[addr := queue ++ [c]]> (clientPool r)) r)
  else modify (λ r, set_closed (closed r ++ [c]) r).

Definition getClient (addr : bytes) : RM (result nat) :=
  let! queue := pool_of addr in
  match queue with
  | client :: rest => modify (λ r, set_pool (<[addr := rest]> (clientPool r)) r) >>> ret (OK client)
  | [] => newClient addr
  end.

Definition client_Process (c : nat) (licence sn content : bytes) : RM (result bytes) := λ r,
  (Ret (call_process (n_call r) c licence sn content),
   mkRpc (rpc_id r) (dataCh r) (clientPool r) (closed r) (n_dial r) (S (n_call r))).

(** [Call]: a client whose call failed is dropped. *)
Definition Call (addr licence sn content : bytes) : RM (result bytes) :=
  let! g := getClient addr in
  match g with
  | inl err => ret (ERR err)
  | inr client =>
      let! r := client_Process client licence sn content in
      match r with
      | inl e => ret (ERR e)
      | inr rtn => putClient addr client >>> ret (OK rtn)
      end
  end.

(** [Publish]: to the own channel the message is queued. *)
Definition Publish (channel message : bytes) : RM error := λ r,
  if decide (channel = GetChannel r) then (Ret None, set_dataCh (dataCh r ++ [message]) r)
  else
    (let! x := Call channel LICENCE (rpc_uuid (n_call r)) message in
     ret (match x with inl e => Some e | inr _ => None end)) r.

(** [emsgInfPush.Process] and [ProcessBatch], called by the other nodes. *)
Definition Process (licence sn content : bytes) : RM bytes :=
  let! c := gets GetChannel in Publish c content >>> ret (§"success").
Definition ProcessBatch (licence sn : bytes) (contents : list bytes) : RM bytes :=
  for_range contents (λ content, let! c := gets GetChannel in Publish c content >>> ret tt) >>>
  ret (§"success").

(** ** The server side, [sararpc/server.go] *)

(** [RPCServer]: its address; the factories are those of the thrift library. *)
Record RPCServer := mkRpcServer { rs_Addr : bytes }.

(** [NewRPCServer]: [err] is what [thrift.NewTServerSocket] returns for the address. *)
Definition NewRPCServer (err : error) (addr : bytes) : result RPCServer :=
  match err with
  | Some e => ERR e
  | None => OK (mkRpcServer addr)
  end.

(** [Start]: the generated processor calls the methods of [newEmsgInfoPush], one request
    after the other. *)
Inductive rpc_request := ReqProcess (licence sn content : bytes) | ReqProcessBatch (licence sn : bytes) (contents : list bytes).

Definition newEmsgInfoPush (req : rpc_request) : RM bytes :=
  match req with
  | ReqProcess licence sn content => Process licence sn content
  | ReqProcessBatch licence sn contents => ProcessBatch licence sn contents
  end.

Definition RPCServer_Start (reqs : list rpc_request) : RM unit := for_range reqs (λ req, newEmsgInfoPush req >>> ret tt).

(** The texts a request carries. *)
Definition contents_of (req : rpc_request) : list bytes :=
  match req with ReqProcess _ _ content => [content] | ReqProcessBatch _ _ contents => contents end.

(** A call to another node leaves the own channel as it is. *)
Lemma Call_keeps_queue addr licence sn content r :
  ∃ res r', Call addr licence sn content r = (Ret res, r') ∧ rpc_id r' = rpc_id r ∧ dataCh r' = dataCh r.
Proof.
  unfold Call, getClient, putClient, pool_of, newClient, client_Process, bind, ret, modify.
  repeat (case_match; simplify_eq/=); eauto.
Qed.

Lemma Publish_elsewhere c m r :
  c ≠ GetChannel r → ∃ e r', Publish c m r = (Ret e, r') ∧ rpc_id r' = rpc_id r ∧ dataCh r' = dataCh r.
Proof.
  intros Hc. unfold Publish. rewrite decide_False by done.
  destruct (Call_keeps_queue c LICENCE (rpc_uuid (n_call r)) m r) as (res & r' & E & Hr).
  rewrite (bind_Ret _ _ _ _ _ E). by do 2 eexists.
Qed.

(** Publishing to the own channel queues the text. *)
Lemma publish_own r content :
  Publish (GetChannel r) content r = (Ret None, set_dataCh (dataCh r ++ [content]) r).
Proof. unfold Publish. by rewrite decide_True. Qed.

Lemma publish_batch contents r :
  for_range contents (λ content, let! c := gets GetChannel in Publish c content >>> ret tt) r =
  (Ret tt, set_dataCh (dataCh r ++ contents) r).
Proof.
  revert r. induction contents as [|x l IH]; intros r; cbn [for_range].
  - rewrite app_nil_r. by destruct r.
  - erewrite bind_Ret.
    2:{ erewrite bind_Ret by reflexivity. erewrite bind_Ret by apply publish_own. reflexivity. }
    rewrite IH. cbn. by rewrite <-app_assoc.
Qed.

Lemma newEmsgInfoPush_runs req r :
  newEmsgInfoPush req r = (Ret (§"success"), set_dataCh (dataCh r ++ contents_of req) r).
Proof.
  destruct req as [li sn x|li sn l]; cbn [newEmsgInfoPush contents_of].
  - unfold Process. erewrite bind_Ret by reflexivity. by erewrite bind_Ret by apply publish_own.
  - unfold ProcessBatch. by erewrite bind_Ret by apply publish_batch.
Qed.

(** The server hands every text of every request, single or in a batch, to the data
    channel of its node, in order and exactly once. *)
Theorem server_queues_every_text reqs r :
  RPCServer_Start reqs r = (Ret tt, set_dataCh (dataCh r ++ (reqs ≫= contents_of)) r).
Proof.
  revert r. induction reqs as [|req reqs IH]; intros r; unfold RPCServer_Start in *; cbn [for_range].
  - cbn. rewrite app_nil_r. by destruct r.
  - erewrite bind_Ret by (erewrite bind_Ret by apply newEmsgInfoPush_runs; reflexivity).
    rewrite IH. cbn. by rewrite <-app_assoc.
Qed.
End Rpc.

(** ** The pools *)

(** Every pool fits its size, and no client is in two places. *)
Definition pooled (r : RPCDataChannel) : list nat := (map_to_list (clientPool r)).*2 ≫= id.

Record pools_ok (r : RPCDataChannel) : Prop := {
  pool_size : map_Forall (λ _ q, Z.of_nat (length q) ≤ PPSize) (clientPool r);
  pool_nodup : NoDup (pooled r ++ closed r);
  pool_opened : Forall (λ c, (c < n_dial r)%nat) (pooled r ++ closed r) }.

Lemma pool_split (p : gmap bytes (list nat)) addr q :
  p !! addr = Some q →
  (map_to_list p).*2 ≫= id ≡ₚ q ++ ((map_to_list (delete addr p)).*2 ≫= id).
Proof.
  intros Hq. rewrite <-(insert_delete_id p addr q) at 1 by done.
  rewrite map_to_list_insert by apply lookup_delete_eq. done.
Qed.

Lemma pool_insert (p : gmap bytes (list nat)) addr q :
  (map_to_list (<[addr := q]> p)).*2 ≫= id ≡ₚ q ++ ((map_to_list (delete addr p)).*2 ≫= id).
Proof. rewrite (pool_split _ addr q) by apply lookup_insert_eq. by rewrite delete_insert_eq. Qed.

(** A client in use by a caller. *)
Definition in_use (c : nat) (r : RPCDataChannel) : Prop := c ∉ pooled r ++ closed r ∧ (c < n_dial r)%nat.

Section Pools.
Context `{Thrift}.
Implicit Types r : RPCDataChannel.

(** The invariant sees the pools up to their order. *)
Lemma pools_ok_equiv r r' :
  pools_ok r → map_Forall (λ _ q, Z.of_nat (length q) ≤ PPSize) (clientPool r') →
  pooled r' ++ closed r' ≡ₚ pooled r ++ closed r → (n_dial r ≤ n_dial r')%nat → pools_ok r'.
Proof.
  intros [_ Hn Ho] Hs Hp Hd. split; [done|by rewrite Hp|]. rewrite Hp.
  revert Ho. apply Forall_impl. intros c Hc. cbn in *. lia.
Qed.

Lemma pool_of_runs addr r :
  pools_ok r →
  ∃ q r', pool_of addr r = (Ret q, r') ∧ pools_ok r' ∧ clientPool r' !! addr = Some q ∧
    pooled r' ++ closed r' ≡ₚ pooled r ++ closed r ∧ n_dial r' = n_dial r.
Proof.
  intros Hok. unfold pool_of. destruct (clientPool r !! addr) as [q|] eqn:E; [by exists q, r|].
  assert (pooled (set_pool (<[addr := []]> (clientPool r)) r) ++ closed r ≡ₚ pooled r ++ closed r) as Hp.
  { unfold pooled. cbn. by rewrite pool_insert, delete_id by done. }
  do 2 eexists. split; [reflexivity|]. split_and!; [|by cbn; rewrite lookup_insert_eq|done|done].
  eapply pools_ok_equiv; [exact Hok| |exact Hp|done]. cbn. apply map_Forall_insert_2; [done|apply Hok].
Qed.

Lemma getClient_runs addr r :
  pools_ok r →
  ∃ g r', getClient addr r = (Ret g, r') ∧ pools_ok r' ∧ match g with inr c => in_use c r' | inl _ => True end.
Proof.
  intros Hok. unfold getClient. destruct (pool_of_runs addr r Hok) as (q & r1 & E & Hok1 & Hq & _ & _).
  erewrite bind_Ret by exact E. destruct (id Hok1) as [Hs Hn Ho]. destruct q as [|c rest].
  - do 2 eexists. split; [reflexivity|]. split.
    + eapply pools_ok_equiv; [exact Hok1|done|done|cbn; lia].
    + destruct (dial (n_dial r1) addr); [done|]. split; [|cbn; lia]. unfold pooled in *. cbn.
      intros Hin. rewrite list.Forall_forall in Ho. specialize (Ho _ Hin). cbn in Ho. lia.
  - erewrite bind_Ret by reflexivity. do 2 eexists. split; [reflexivity|].
    unfold pooled in Hn, Ho. rewrite (pool_split _ addr (c :: rest)) in Hn, Ho by done.
    assert (pooled (set_pool (<[addr := rest]> (clientPool r1)) r1) ≡ₚ
            rest ++ ((map_to_list (delete addr (clientPool r1))).*2 ≫= id)) as Hp
      by (unfold pooled; cbn; apply pool_insert).
    cbn [app] in Hn, Ho. apply list.NoDup_cons in Hn as [Hc Hn]. inversion Ho as [|? ? Hlt Ho']; subst.
    split; [split|split].
    + cbn. apply map_Forall_insert_2; [|done]. pose proof (Hs addr _ Hq) as Hl. cbn in Hl. lia.
    + cbn [closed set_pool]. by rewrite Hp.
    + cbn [closed set_pool n_dial]. by rewrite Hp.
    + cbn [closed set_pool]. by rewrite Hp.
    + done.
Qed.

Lemma putClient_runs addr c r :
  pools_ok r → in_use c r → ∃ r', putClient addr c r = (Ret tt, r') ∧ pools_ok r'.
Proof.
  intros Hok [Hc Hlt]. unfold putClient. destruct (pool_of_runs addr r Hok) as (q & r1 & E & Hok1 & Hq & Hp & Hd).
  erewrite bind_Ret by exact E. rewrite <-Hp in Hc. destruct (id Hok1) as [Hs Hn Ho].
  assert (NoDup (c :: pooled r1 ++ closed r1)) as Hn' by (by apply list.NoDup_cons).
  assert (Forall (λ c, (c < n_dial r1)%nat) (c :: pooled r1 ++ closed r1)) as Ho'
    by (constructor; [by rewrite Hd|done]).
  destruct (Z.ltb_spec (Z.of_nat (length q)) PPSize) as [Hl|Hl]; (eexists; split; [reflexivity|]).
  - assert (pooled (set_pool (<[addr := q ++ [c]]> (clientPool r1)) r1) ++ closed r1 ≡ₚ c :: pooled r1 ++ closed r1) as Hp'.
    { unfold pooled. cbn. rewrite pool_insert, (pool_split (clientPool r1) addr q Hq). solve_Permutation. }
    split; cbn [closed set_pool n_dial]; [|by rewrite Hp'|by rewrite Hp'].
    cbn. apply map_Forall_insert_2; [|done]. rewrite length_app. cbn. lia.
  - assert (pooled (set_closed (closed r1 ++ [c]) r1) ++ closed r1 ++ [c] ≡ₚ c :: pooled r1 ++ closed r1) as Hp'.
    { unfold pooled. cbn. solve_Permutation. }
    split; [done|cbn [closed set_closed]; by rewrite Hp'|cbn [closed set_closed n_dial]; by rewrite Hp'].
Qed.

(** C30: a call to another node always returns, and keeps the pools of connections in
    order: no pool grows beyond its size, no connection is in two pools or both
    pooled and closed, and the connection handed to the caller is in no pool. *)
Theorem Call_keeps_pools addr licence sn content r :
  pools_ok r →
  ∃ res r', Call addr licence sn content r = (Ret res, r') ∧ pools_ok r'.
Proof.
  intros Hok. unfold Call. destruct (getClient_runs addr r Hok) as (g & r1 & E1 & Hok1 & Hg).
  erewrite bind_Ret by exact E1. destruct g as [e|c]; [by do 2 eexists|].
  erewrite bind_Ret by reflexivity.
  match goal with |- context [match call_process ?n ?a ?b ?d ?f with _ => _ end] =>
    destruct (call_process n a b d f) as [e|rtn] end.
  - do 2 eexists. split; [reflexivity|]. by destruct Hok1.
  - destruct (putClient_runs addr c (mkRpc (rpc_id r1) (dataCh r1) (clientPool r1) (closed r1) (n_dial r1) (S (n_call r1))))
      as (r2 & E2 & Hok2); [by destruct Hok1|done|].
    erewrite bind_Ret by exact E2. by do 2 eexists.
Qed.
End Pools.
