(* ===== verification/Channels.v ===== *)
(** * Channels: the interface [DataChannel] of [sararpc/interface.go] and
    [saradb/interface.go], its two implementations and its specification.

    A data channel has a name; a text published on that name is queued for the handler
    that [Subscribe] was given, and a text published on another name goes to the channel of
    that name.  The specification is a log: the texts handed to the handler, followed by
    those that wait, are the texts published on the own name, in order. *)

From S2P Require Import Prelude GoBytes Types Redis Database SaraDb DbLife NodeChannel Rpc.

(** The interface.  [dc_next] is one receive of the goroutine of [Subscribe]: the next text
    for the handler, or [None] while there is none. *)
Class DataChannel (S : Type) := {
  dc_GetChannel : S → bytes;
  dc_Publish : bytes → bytes → M S error;
  dc_next : S → option (bytes * S) }.

Class DataChannelLaws (S : Type) `{DataChannel S} := {
  dc_ok : S → Prop;
  dc_waiting : S → list bytes;
  publish_law s c m : dc_ok s →
    ∃ e s', dc_Publish c m s = (Ret e, s') ∧ dc_ok s' ∧ dc_GetChannel s' = dc_GetChannel s ∧
      dc_waiting s' = dc_waiting s ++ (if bool_decide (c = dc_GetChannel s) then [m] else []) ∧
      (c = dc_GetChannel s → e = None);
  next_law s : dc_ok s →
    match dc_waiting s with
    | [] => dc_next s = None
    | m :: q => ∃ s', dc_next s = Some (m, s') ∧ dc_ok s' ∧ dc_GetChannel s' = dc_GetChannel s ∧ dc_waiting s' = q
    end }.

(** ** The goroutine of [Subscribe] *)

Section Subscribe.
Context {S : Type} `{DataChannel S} {T : Type}.

(** [fuel] rounds: a text is received and given to the handler.  No panic of the handler is
    recovered. *)
Fixpoint Subscribe (fuel : nat) (handler : bytes → M T unit) (s : S) : M T S := λ h,
  match fuel with
  | O => (Ret s, h)
  | Datatypes.S fuel' =>
      match dc_next s with
      | None => (Ret s, h)
      | Some (message, s') => (handler message >>> Subscribe fuel' handler s') h
      end
  end.
End Subscribe.

(** ** What happens to a channel *)

Inductive chan_event :=
| Published (channel message : bytes)   (* somebody publishes *)
| Received.                             (* the goroutine of [Subscribe] takes one round *)

Section Runs.
Context {S : Type} `{DataChannelLaws S}.

(** The state and the texts handed to the handler so far. *)
Definition chan_step (sh : S * list bytes) (e : chan_event) : S * list bytes :=
  let '(s, handed) := sh in
  match e with
  | Published c m => ((dc_Publish c m s).2, handed)
  | Received =>
      match dc_next s with
      | None => (s, handed)
      | Some (m, s') => (s', handed ++ [m])
      end
  end.

Definition chan_run (es : list chan_event) (s : S) : S * list bytes := foldl chan_step (s, []) es.

(** The specification: the texts published on a name. *)
Definition published_on (name : bytes) (es : list chan_event) : list bytes :=
  omap (λ e, match e with Published c m => if bool_decide (c = name) then Some m else None | Received => None end) es.

Lemma chan_step_log e s handed :
  dc_ok s →
  let '(s', handed') := chan_step (s, handed) e in
  dc_ok s' ∧ dc_GetChannel s' = dc_GetChannel s ∧
  handed' ++ dc_waiting s' = (handed ++ dc_waiting s) ++ published_on (dc_GetChannel s) [e].
Proof.
  intros Hs. destruct e as [c m|]; cbn [chan_step].
  - destruct (publish_law s c m Hs) as (e & s' & -> & Hok & Hg & Hw & _). cbn [snd]. split_and!; [done..|].
    rewrite Hw, app_assoc. f_equal. unfold published_on. cbn. by destruct (bool_decide _).
  - pose proof (next_law s Hs) as Hn. destruct (dc_waiting s) as [|m q] eqn:Ew.
    + rewrite Hn, Ew. split_and!; [done..|]. cbn. by rewrite !app_nil_r.
    + destruct Hn as (s' & -> & Hok & Hg & ->). split_and!; [done..|]. cbn. by rewrite app_nil_r, <-app_assoc.
Qed.

Lemma chan_run_log es s handed :
  dc_ok s →
  let '(s', handed') := foldl chan_step (s, handed) es in
  dc_ok s' ∧ dc_GetChannel s' = dc_GetChannel s ∧
  handed' ++ dc_waiting s' = (handed ++ dc_waiting s) ++ published_on (dc_GetChannel s) es.
Proof.
  revert s handed. induction es as [|e es IH]; intros s handed Hs; cbn [foldl].
  - split_and!; [done..|]. by rewrite app_nil_r.
  - pose proof (chan_step_log e s handed Hs) as Hst. destruct (chan_step (s, handed) e) as [s1 h1].
    destruct Hst as (Hok & Hg & Hl). pose proof (IH s1 h1 Hok) as Hr. destruct (foldl chan_step (s1, h1) es) as [s2 h2].
    destruct Hr as (Hok2 & Hg2 & Hl2). split_and!; [done|congruence|]. rewrite Hl2, Hl, Hg, <-app_assoc. f_equal.
    unfold published_on. by rewrite <-omap_app.
Qed.

(** Every implementation of [DataChannel] is a first-in first-out channel: whatever is
    published and received in whatever order, the texts the handler has been given
    followed by those that still wait are exactly the texts published on the channel's
    own name, each once and in the order of publication. *)
Theorem data_channel_is_fifo es s :
  dc_ok s → dc_waiting s = [] →
  dc_ok (chan_run es s).1 ∧
  (chan_run es s).2 ++ dc_waiting (chan_run es s).1 = published_on (dc_GetChannel s) es.
Proof.
  intros Hs Hw. pose proof (chan_run_log es s [] Hs) as Hr. unfold chan_run.
  destruct (foldl chan_step (s, []) es) as [s' h']. destruct Hr as (Hok & _ & Hl). cbn [fst snd]. by rewrite Hl, Hw.
Qed.

(** The goroutine gives every waiting text to the handler, in order, and ends with an
    empty queue, or with the first panic of the handler. *)
Theorem Subscribe_handles_every_message {T} fuel (handler : bytes → M T unit) s (h : T) :
  dc_ok s → (length (dc_waiting s) ≤ fuel)%nat →
  match for_range (dc_waiting s) handler h with
  | (Ret _, h') => ∃ s', Subscribe fuel handler s h = (Ret s', h') ∧ dc_ok s' ∧ dc_waiting s' = []
  | (Panic e, h') => Subscribe fuel handler s h = (Panic e, h')
  end.
Proof.
  revert s h. induction fuel as [|fuel IH]; intros s h Hs Hf; cbn [Subscribe].
  - destruct (dc_waiting s) eqn:Ew; [by exists s|cbn in Hf; lia].
  - pose proof (next_law s Hs) as Hn. destruct (dc_waiting s) as [|m q] eqn:Ew; cbn [for_range].
    + rewrite Hn. by exists s.
    + destruct Hn as (s' & -> & Hok & _ & Hq). specialize (IH s'). rewrite Hq in IH. cbn in Hf.
      unfold bind. destruct (handler m h) as [[[]|e] h']; [|done]. by apply IH; [|lia].
Qed.
End Runs.

(** ** The channel over thrift *)

Section Thrift.
Context `{Thrift}.

#[global] Instance RPCDataChannel_channel : DataChannel RPCDataChannel := {|
  dc_GetChannel := GetChannel;
  dc_Publish := Publish;
  dc_next r := match dataCh r with [] => None | m :: q => Some (m, set_dataCh q r) end |}.

#[global] Instance RPCDataChannel_laws : DataChannelLaws RPCDataChannel.
Proof.
  refine {| dc_ok r := True; dc_waiting := dataCh |}; cbn [dc_GetChannel dc_Publish dc_next RPCDataChannel_channel].
  - intros r c m _. unfold Publish. case_decide as Hc.
    + exists None. eexists. split; [reflexivity|]. by rewrite bool_decide_true.
    + destruct (Publish_elsewhere c m r Hc) as (e & r' & E & Hi & Hd). unfold Publish in E. rewrite decide_False in E by done.
      exists e, r'. split; [exact E|]. rewrite bool_decide_false, app_nil_r by done. by unfold GetChannel; rewrite Hi.
  - intros r _. destruct (dataCh r) as [|m q]; [done|]. by eexists.
Defined.
End Thrift.

(** ** The channel over redis *)

Section PubSub.
Context {B : Type} `{PubSubLaws B}.

#[global] Instance NodeChannel_channel : DataChannel (NodeChannel * B) := {|
  dc_GetChannel cb := nc_GetChannel cb.1;
  dc_Publish c m := λ cb, let '(o, b) := nc_Publish cb.1 c m cb.2 in (o, (cb.1, b));
  dc_next cb :=
    match nc_sub cb.1 with
    | None => None
    | Some sub => match ps_receive sub cb.2 with None => None | Some (m, b) => Some (m, (cb.1, b)) end
    end |}.

#[global] Instance NodeChannel_laws : DataChannelLaws (NodeChannel * B).
Proof.
  refine {| dc_ok cb := ∃ sub pub, nc_sub cb.1 = Some sub ∧ nc_pub cb.1 = Some pub ∧ subscribed cb.2 sub = {[nc_id cb.1]};
            dc_waiting cb := match nc_sub cb.1 with Some sub => inbox cb.2 sub | None => [] end |};
    cbn [dc_GetChannel dc_Publish dc_next NodeChannel_channel].
  - intros [nc b] c m (sub & pub & Hs & Hp & Hsub). cbn [fst snd] in *. unfold nc_Publish. rewrite Hp, Hs.
    do 2 eexists. split; [reflexivity|]. cbn. rewrite Hs, Hp, publish_inbox, Hsub. split_and!; try done.
    + exists sub, pub. by rewrite publish_subscribed.
    + unfold nc_GetChannel. by rewrite (bool_decide_ext _ _ (elem_of_singleton c (nc_id nc))).
  - intros [nc b] (sub & pub & Hs & Hp & Hsub). cbn [fst snd] in *. rewrite Hs. pose proof (receive_inbox b sub) as Hr.
    destruct (inbox b sub) as [|m q]; [by rewrite Hr|]. destruct Hr as (b' & -> & Hq & Hk).
    eexists. split; [reflexivity|]. cbn. rewrite Hs. split_and!; [|done..]. exists sub, pub. by rewrite Hk.
Defined.

(** [Subscribe] makes the channel ready. *)
Lemma nc_Subscribe_ready nc sub pub (b : B) :
  nc_sub nc = Some sub → nc_pub nc = Some pub → subscribed b sub = ∅ →
  ∃ b', nc_Subscribe nc b = (Ret tt, b') ∧ dc_ok (nc, b') ∧ dc_waiting (nc, b') = inbox b sub.
Proof.
  intros Hs Hp Hb. eexists. split; [unfold nc_Subscribe; rewrite Hs; reflexivity|].
  cbn. rewrite Hs, subscribe_inbox. split; [|done]. exists sub, pub. split_and!; try done.
  rewrite subscribe_subscribed, decide_True, Hb by done. set_solver.
Qed.
End PubSub.

(** ** A run *)

#[local] Instance no_nodes : Thrift := {|
  dial _ _ := Some (§"refused"); call_process _ _ _ _ _ := ERR (§"refused"); rpc_uuid n := fmt_u (Z.of_nat n) |}.

Definition some_events : list chan_event :=
  [Published (§"h:1") (§"a"); Received; Received; Published (§"h:2") (§"b"); Published (§"h:1") (§"c")].

Lemma data_channel_is_fifo_witness :
  dc_ok (chan_run some_events (NewRPCDataChannel (§"h:1"))).1 ∧
  (chan_run some_events (NewRPCDataChannel (§"h:1"))).2 ++ dc_waiting (chan_run some_events (NewRPCDataChannel (§"h:1"))).1 =
  published_on (§"h:1") some_events.
Proof. exact (data_channel_is_fifo some_events (NewRPCDataChannel (§"h:1")) I eq_refl). Defined.

Example some_events_handed :
  (chan_run some_events (NewRPCDataChannel (§"h:1"))).2 = [§"a"] ∧ published_on (§"h:1") some_events = [§"a"; §"c"].
Proof. vm_compute. split; reflexivity. Qed.
