(* ===== verification/Node.v ===== *)
(** * Node: [node/router.go], [node/sessionmap.go], [node/node.go].

    The router queue behind [MessageRouter], the sessions of a process, the workers
    of the router, the handler of messages from other nodes, accepting, cleaning and
    stopping; one step of the node is one handler, one worker item or one step of the
    environment. [NodeInv] says what an invariant of these steps has to keep. *)

From S2P Require Import Prelude GoBytes Utf8 Json Gjson Types Conn Config Database World External Session SessionProps Kept Rpc.

(** ** The router *)

Record routerItem := mkItem { ri_channel : bytes; ri_sid : bytes; ri_packet : option Packet; ri_signal : Z }.

Definition load_over : bytes := §"load_over".

(** [Router.Route]: a full queue refuses the item. *)
Definition Router_Route (channel sid : bytes) (packet : option Packet) (signal : Z) : M (list routerItem) error := λ q,
  if Z.of_nat (length q) <? ROUTER_QUEUE_SIZE then
    (Ret None, q ++ [mkItem channel sid packet signal])
  else (Ret (Some load_over), q).

(** [Router]: its queue and its workers; the database and the data channel are those of the
    node. *)
Record Router := mkRouter { routerItemCh : list routerItem; router_workers : Z }.
Definition newRouter : Router := mkRouter [] ROUTER_WORKER_NUM.

#[global] Instance Router_MessageRouter : MessageRouter (list routerItem) := Router_Route.

#[global] Instance Router_laws : RouterLaws (list routerItem).
Proof. intros ch sid p sg q. unfold Route, Router_MessageRouter, Router_Route. destruct (_ <? _); by eexists. Qed.

(** A queue with room takes the item; a full one refuses it. *)
Lemma Router_Route_room ch sid p sg q :
  Z.of_nat (length q) < ROUTER_QUEUE_SIZE → (Route ch sid p sg q).2 = q ++ [mkItem ch sid p sg].
Proof. intros Hq. unfold Route, Router_MessageRouter, Router_Route. by rewrite (proj2 (Z.ltb_lt _ _) Hq). Qed.

Lemma Router_Route_full ch sid p sg q :
  ROUTER_QUEUE_SIZE ≤ Z.of_nat (length q) → Route ch sid p sg q = (Ret (Some load_over), q).
Proof. intros Hq. unfold Route, Router_MessageRouter, Router_Route. by rewrite (proj2 (Z.ltb_ge _ _) Hq). Qed.

Section Node.
Context `{GoLib} `{Oracles} `{Thrift} {D : Type} `{Database D}.
Abbreviation W := (World D (list routerItem)).

(** The process: all session objects by id, the ids in [sessionMap], the node id, the
    data channel and the shared state. *)
Record Node := mkNode {
  heap : gmap bytes Session;
  sessionMap : gset bytes;
  Nodeid : bytes;
  rpc : RPCDataChannel;
  world : W }.

Abbreviation NM := (M Node).

Definition set_world (w : W) (n : Node) : Node := mkNode (heap n) (sessionMap n) (Nodeid n) (rpc n) w.
Definition set_rpc (r : RPCDataChannel) (n : Node) : Node := mkNode (heap n) (sessionMap n) (Nodeid n) r (world n).
Definition set_heap (h : gmap bytes Session) (n : Node) : Node := mkNode h (sessionMap n) (Nodeid n) (rpc n) (world n).
Definition set_map (m : gset bytes) (n : Node) : Node := mkNode (heap n) m (Nodeid n) (rpc n) (world n).

Definition in_world {A} (m : M W A) : NM A := zoom world set_world m.
Definition in_rpc {A} (m : M RPCDataChannel A) : NM A := zoom rpc set_rpc m.

(** Running a handler of the session [sid]. *)
Definition in_session (sid : bytes) (m : M (SState D (list routerItem)) unit) : NM unit := λ n,
  match heap n !! sid with
  | None => (Ret tt, n)
  | Some s =>
      let '(o, x) := m (mkS s (world n)) in
      (o, set_heap (<[sid := ses x]> (heap n)) (set_world (wld x) n))
  end.

(** ** [sessionmap.go] *)

Definition registerSession (s : Session) : NM unit :=
  let sid := ss_Sid (Status s) in
  modify (λ n, set_heap (<[sid := s]> (heap n)) n) >>>
  if decide (sid = []) then ret tt else modify (λ n, set_map ({[sid]} ∪ sessionMap n) n).

Definition fetchSession (sid : bytes) : NM bool := gets (λ n, bool_decide (sid ∈ sessionMap n)).

(** ** The workers of the router *)

(** The body of the loop of [Router.worker] for one item; a panic here is not
    recovered and ends the process. *)
Definition worker (item : routerItem) : NM unit :=
  let '(mkItem channel sid packet signal) := item in
  let! own := gets (λ n, GetChannel (rpc n)) in
  if bool_decide (channel = []) || bool_decide (own = channel) then
    let! ok := fetchSession sid in
    if ok : bool then
      if negb (signal =? 0) then
        if signal =? zob KILL then in_session sid Kill else ret tt
      else
        let! p := deref packet in in_session sid (RoutePacket p)
    else ret tt
  else
    let! p := deref packet in
    let! err := in_rpc (Publish channel (ToJson p)) in
    match err with
    | None => ret tt
    | Some _ => in_world (StorePacket p)
    end.

(** ** Messages from other nodes *)

Definition routePacket (packet : Packet) : M W unit :=
  match NewJID (To (envelope_of packet)) with
  | inl _ => ret tt
  | inr jid =>
      let! r := on_db (db_Get (ToSessionid jid)) in
      match r with
      | inr ssb =>
          let ss := NewSessionStatusFromJson ssb in
          on_router (Route (ss_Channel ss) (ss_Sid ss) (Some packet) 0) >>> ret tt
      | inl _ => StorePacket packet
      end
  end.

Definition dataChannelHandler (message : bytes) : M W unit :=
  match NewPacket message with
  | inl _ => ret tt
  | inr packet =>
      if Type__ (envelope_of packet) =? MSG_TYPE_GROUP_CHAT then
        let! g := GenerateGroupPackets packet in
        match g with
        | inr packets => for_range packets routePacket
        | inl _ => ret tt
        end
      else routePacket packet
  end.

(** ** Accepting, cleaning, starting and stopping *)

(** [dispatcher]: a new connection becomes a registered session. *)
Definition dispatcher (ws : bool) : NM unit :=
  let! c := gets (λ n, GetChannel (rpc n)) in
  let! s := in_world (if ws then NewWsSession c else NewTcpSession c) in
  registerSession s.

(** One round of [clean]. *)
Definition clean (sid : bytes) : NM unit := modify (λ n, set_map (sessionMap n ∖ {[sid]}) n).

(** [append(nodeid, ts...)] as it is read: when the array of [nodeid] has room for [ts] the
    result shares the array, where [DeleteByIdx] appends [IDX_SUFFIX] to [nodeid] as well, and
    a worker that reads the queued value after that finds the suffix over the first bytes of
    [ts].  The value of a session key is not queued but written at once. *)
Definition shares_array (nodeid ts : bytes) : bool :=
  bool_decide (length nodeid + length ts ≤ slice_cap (length nodeid))%nat && negb (is_prefix SESSION_PERFIX nodeid).

Definition registration (nodeid ts : bytes) : bytes :=
  if reads_late && shares_array nodeid ts then nodeid ++ IDX_SUFFIX ++ drop (length IDX_SUFFIX) ts
  else nodeid ++ ts.

(** [cleanGhostSession]: the node registers itself and deletes the session records an
    earlier run of the node left behind. *)
Definition cleanGhostSession : NM unit :=
  let! nodeid := gets Nodeid in
  let! ts := in_world Timestamp13 in
  in_world (on_db (db_PutExWithIdx (§"sara") nodeid (registration nodeid (fmt_d ts)) 0)) >>>
  in_world (on_db (db_DeleteByIdx nodeid)) >>>
  ret tt.

(** The part of [Wait] that ends the sessions, in the order of the range. *)
Definition stop_sessions : NM unit :=
  let! sids := gets (λ n, elements (sessionMap n)) in
  let! order := in_world (range_keys sids) in
  for_range order (λ sid, in_session sid (CloseSession (§"node_stop"))).

(** ** The steps of a node *)

Inductive node_step : Node → Node → Prop :=
| ns_accept ws n n' : dispatcher ws n = (Ret tt, n') → node_step n n'
| ns_read sid r n n' : in_session sid (packetHandler r) n = (Ret tt, n') → node_step n n'
| ns_worker item q n n' :
    w_router (world n) = item :: q →
    worker item (set_world (set_router q (world n)) n) = (Ret tt, n') → node_step n n'
| ns_clean sid q n n' :
    w_clean (world n) = sid :: q →
    clean sid (set_world (set_clean q (world n)) n) = (Ret tt, n') → node_step n n'
| ns_data msg q n n' :
    dataCh (rpc n) = msg :: q →
    in_world (dataChannelHandler msg) (set_rpc (set_dataCh q (rpc n)) n) = (Ret tt, n') → node_step n n'
| ns_remote licence sn content n n' res :
    in_rpc (Process licence sn content) n = (Ret res, n') → node_step n n'
| ns_env d n : node_step n (set_world (set_db d (world n)) n).

(** A worker of the router ends the process. *)
Definition crashes (n : Node) (msg : bytes) : Prop :=
  ∃ item q n', w_router (world n) = item :: q ∧
    worker item (set_world (set_router q (world n)) n) = (Panic msg, n').
End Node.
Arguments Node : clear implicits.

(** ** Relations kept by the handlers of a node *)

Section NodeHandlers.
Context `{GoLib} `{Oracles} {D : Type} `{Database D}.
Context (Rw : relation (World D (list routerItem))) `{!WorldRel Rw}.

Lemma kept_dataChannelHandler m : kept Rw (dataChannelHandler m).
Proof. unfold dataChannelHandler, routePacket. kept_tac. Qed.
End NodeHandlers.

(** ** Invariants of the steps of a node *)

(** The handlers that steps run on a session and on the shared state. *)
Inductive session_call `{GoLib} `{Oracles} {D} `{Database D} : M (SState D (list routerItem)) unit → Prop :=
| sc_read r : session_call (packetHandler r)
| sc_kill : session_call Kill
| sc_route p : session_call (RoutePacket p).

Inductive world_call `{GoLib} `{Oracles} {D} `{Database D} : M (World D (list routerItem)) unit → Prop :=
| wc_store p : world_call (StorePacket p)
| wc_data msg : world_call (dataChannelHandler msg).

Section NodeInv.
Context `{GoLib} `{Oracles} `{Thrift} {D : Type} `{Database D}.
Implicit Types n : Node D.

(** What each effect of a step has to keep. *)
Class NodeInv (P : Node D → Prop) : Prop := {
  ni_new ws n s w : NewSessionOn ws (GetChannel (rpc n)) (world n) = (Ret s, w) → P n → P (registerSession s (set_world w n)).2;
  ni_session sid m n : session_call m → P n → P (in_session sid m n).2;
  ni_world m n : world_call m → P n → P (in_world m n).2;
  ni_take item q n : w_router (world n) = item :: q → P n → P (set_world (set_router q (world n)) n);
  ni_clean sid q n : w_clean (world n) = sid :: q → P n → P (clean sid (set_world (set_clean q (world n)) n)).2;
  ni_rpc r n : P n → P (set_rpc r n);
  ni_env d n : P n → P (set_world (set_db d (world n)) n) }.

Context (P : Node D → Prop) `{!NodeInv P}.

Lemma inv_worker item n : P n → P (worker item n).2.
Proof.
  intros Hn. destruct item as [ch sid p sg]. unfold worker. erewrite bind_Ret by reflexivity.
  destruct (_ || _).
  - erewrite bind_Ret by reflexivity. destruct (bool_decide (sid ∈ sessionMap n)); [|done].
    destruct (negb (sg =? 0)).
    + destruct (sg =? zob KILL); [|done]. apply ni_session; [constructor|done].
    + destruct p as [p|]; [|done]. erewrite bind_Ret by reflexivity. apply ni_session; [constructor|done].
  - destruct p as [p|]; [|done]. erewrite bind_Ret by reflexivity. unfold bind, in_rpc, zoom.
    destruct (Publish ch (ToJson p) (rpc n)) as [[[e|]|e] r]; cbn; try by apply ni_rpc.
    apply (ni_world (StorePacket p) (set_rpc r n)); [constructor|by apply ni_rpc].
Qed.

Lemma inv_accept ws n n' : dispatcher ws n = (Ret tt, n') → P n → P n'.
Proof.
  unfold dispatcher. erewrite bind_Ret by reflexivity. unfold bind at 1, in_world, zoom.
  assert ((if ws then NewWsSession (GetChannel (rpc n)) else NewTcpSession (GetChannel (rpc n))) (world n) =
            NewSessionOn (D := D) ws (GetChannel (rpc n)) (world n)) as -> by by destruct ws.
  destruct (NewSessionOn ws (GetChannel (rpc n)) (world n)) as [[s|e] w] eqn:E; [|done].
  intros Er Hn. pose proof (ni_new ws n s w E Hn) as Hp. by rewrite Er in Hp.
Qed.

Lemma inv_step n n' : node_step n n' → P n → P n'.
Proof.
  intros Hs Hn.
  destruct Hs as [ws n n' E|sid r n n' E|item q n n' Eq E|sid q n n' Eq E|msg q n n' Eq E|li sn co n n' res E|d n].
  - by eapply inv_accept.
  - change n' with ((Ret tt, n').2). rewrite <-E. apply ni_session; [constructor|done].
  - change n' with ((Ret tt, n').2). rewrite <-E. by eapply inv_worker, ni_take.
  - change n' with ((Ret tt, n').2). rewrite <-E. by eapply ni_clean.
  - change n' with ((Ret tt, n').2). rewrite <-E. apply ni_world; [constructor|by apply ni_rpc].
  - unfold in_rpc, zoom in E. destruct (Process li sn co (rpc n)) as [o r]. injection E as _ <-. by apply ni_rpc.
  - by apply ni_env.
Qed.

Lemma inv_steps n n' : rtc node_step n n' → P n → P n'.
Proof. intros Hs. induction Hs as [|a b c Hab _ IH]; [done|]. intros Ha. by eapply IH, inv_step. Qed.
End NodeInv.

(** A property of session objects that new sessions have and handlers keep. *)
Section HeapInv.
Context `{GoLib} `{Oracles} `{Thrift} {D : Type} `{Database D}.
Context (Φ : Session → Prop).
Implicit Types n : Node D.

Definition all_sessions n : Prop := map_Forall (λ _, Φ) (heap n).

Lemma all_sessions_heap n n' : heap n' = heap n → all_sessions n → all_sessions n'.
Proof. unfold all_sessions. by intros ->. Qed.

Lemma in_world_heap {A} (m : M (World D (list routerItem)) A) n : heap (in_world m n).2 = heap n.
Proof. unfold in_world, zoom. by destruct (m (world n)). Qed.

Lemma heap_inv :
  (∀ ws c (w w' : World D (list routerItem)) s, NewSessionOn ws c w = (Ret s, w') → Φ s) →
  (∀ m (x : SState D (list routerItem)), session_call m → Φ (ses x) → Φ (ses (m x).2)) →
  NodeInv all_sessions.
Proof.
  intros Hnew Hcall. split.
  - intros ws n s w E Hn. unfold registerSession. erewrite bind_Ret by reflexivity.
    assert (all_sessions (set_heap (<[ss_Sid (Status s):=s]> (heap n)) (set_world w n))) as Hi
      by (apply map_Forall_insert_2; [by eapply Hnew|done]).
    by destruct (decide _).
  - intros sid m n Hm Hn. unfold in_session. destruct (heap n !! sid) as [s|] eqn:Es; [|done].
    specialize (Hcall m (mkS s (world n)) Hm). destruct (m (mkS s (world n))) as [o x]. cbn in *.
    apply map_Forall_insert_2; [|done]. by apply Hcall, (Hn sid).
  - intros m n _. apply all_sessions_heap, in_world_heap.
  - done.
  - done.
  - done.
  - done.
Qed.
End HeapInv.

(** ** The router queue is bounded *)

Section Bounded.
Context `{GoLib} `{Oracles} {D : Type} `{Database D}.
Abbreviation W := (World D (list routerItem)).
Abbreviation S_ := (SState D (list routerItem)).

Definition bounded (w : W) : Prop := Z.of_nat (length (w_router w)) ≤ ROUTER_QUEUE_SIZE.
Definition bw (w w' : W) : Prop := bounded w → bounded w'.
Definition bs (x x' : S_) : Prop := bw (wld x) (wld x').

Lemma bw_same w w' : w_router w' = w_router w → bw w w'.
Proof. unfold bw, bounded. by intros ->. Qed.

Lemma bw_db {A} (m : M D A) : kept bw (on_db m).
Proof. intros w. unfold on_db, zoom. destruct (m (w_db w)) as [o d]. by apply bw_same. Qed.

#[export] Instance bounded_world : WorldRel bw.
Proof.
  split; try (intros; apply bw_db).
  - split; [intros w Hw; exact Hw|]. unfold bw. intros a b c; auto.
  - intros w w' [_ E _ _ _]. by apply bw_same.
  - intros k ids w. by apply bw_same.
  - intros ch sid p sg w. unfold on_router, zoom, Route, Router_MessageRouter, Router_Route.
    destruct (Z.ltb_spec (Z.of_nat (length (w_router w))) ROUTER_QUEUE_SIZE); [|intros Hb; exact Hb].
    intros _. unfold bounded. cbn. rewrite length_app. cbn. lia.
Qed.

#[export] Instance bounded_session : SessionRel bw bs.
Proof.
  split; [apply _|..].
  - split; [intros w Hw; exact Hw|]. unfold bs, bw. intros a b c; auto.
  - intros A m Hm x. specialize (Hm (wld x)). unfold on_world, zoom. by destruct (m (wld x)).
  - intros x c c' _ _. by apply bw_same.
  - intros x b. by apply bw_same.
Qed.
#[export] Instance bounded_deadline : DeadlineRel bs.
Proof. intros x c t _. by apply bw_same. Qed.

#[export] Instance bounded_handlers : HandlerRel bw bs.
Proof.
  assert (∀ f, kept bs (put_Status f)) by (intros f x; by apply bw_same).
  assert (∀ A (m : M D A), kept bs (db m)) by (intros A m; apply hr_world, bw_db).
  assert (∀ sid, kept bs (on_world (send_clean sid))) by (intros sid; apply hr_world; intros w; by apply bw_same).
  split; [apply _|done|..].
  - intros msg. unfold CloseSession, get_Status. kept_tac.
  - unfold storeSessionStatus, get_Status. kept_tac.
Qed.
End Bounded.

(** ** The invariant of a node *)

Section Invariant.
Context `{GoLib} `{Oracles} `{Thrift} {D : Type} `{Database D}.
Implicit Types n : Node D.

Record node_ok n : Prop := {
  ok_sid : map_Forall (λ sid s, ss_Sid (Status s) = sid) (heap n);
  ok_map : ∀ sid, sid ∈ sessionMap n → is_Some (heap n !! sid);
  ok_queue : bounded (world n) }.

(** Changing the shared state by a computation that keeps the bound. *)
Lemma ok_world {A} (m : M (World D (list routerItem)) A) n :
  kept bw m → node_ok n → node_ok (in_world m n).2.
Proof.
  intros Hm [H1' H2' H3']. specialize (Hm (world n)). unfold in_world, zoom. destruct (m (world n)) as [o w].
  split; cbn in *; auto.
Qed.

Lemma ok_session sid (m : M (SState D (list routerItem)) unit) n :
  kept bs m → keeps evolves m → node_ok n → node_ok (in_session sid m n).2.
Proof.
  intros Hb He [H1' H2' H3']. unfold in_session. destruct (heap n !! sid) as [s|] eqn:Es; [|by split].
  specialize (Hb (mkS s (world n))). specialize (He (mkS s (world n))).
  destruct (m (mkS s (world n))) as [o x]. cbn in *. split; cbn.
  - apply map_Forall_insert_2; [|done]. rewrite (ev_sid _ _ He). by apply (H1' sid).
  - intros sid' Hin. destruct (decide (sid = sid')) as [<-|Hne]; [by rewrite lookup_insert_eq|].
    rewrite lookup_insert_ne by done. by apply H2'.
  - by apply Hb.
Qed.

Lemma ok_register s n : node_ok n → node_ok (registerSession s n).2.
Proof.
  intros [H1' H2' H3']. unfold registerSession. erewrite bind_Ret by reflexivity.
  assert (node_ok (set_heap (<[ss_Sid (Status s):=s]> (heap n)) n)) as Hok.
  { split; cbn; [by apply map_Forall_insert_2| |done]. intros sid Hin.
    destruct (decide (ss_Sid (Status s) = sid)) as [<-|]; [by rewrite lookup_insert_eq|].
    rewrite lookup_insert_ne by done. by apply H2'. }
  destruct (decide _); [done|]. destruct Hok as [K1 K2 K3]. split; cbn in *; try done.
  intros sid [->%elem_of_singleton|Hin]%elem_of_union; [by rewrite lookup_insert_eq|by apply K2].
Qed.

Lemma bw_NewSessionOn ws c : kept (bw (D := D)) (NewSessionOn ws c).
Proof.
  intros w. unfold NewSessionOn. destruct (newSession c w) as [[s|e] w1] eqn:E.
  - assert (kept (bw (D := D)) (newSession c)) as Hn by (apply kept_asks; [apply _|]; unfold newSession; ask).
    specialize (Hn w). rewrite E in Hn. cbn in Hn.
    set (s' := mkSession _ _ _). pose proof (kept_setSessionTimeout bw bs 0 (mkS s' w1)) as Hs.
    destruct (setSessionTimeout 0 (mkS s' w1)) as [o x]. cbn in *. intros Hb. by apply Hs, Hn.
  - assert (kept (bw (D := D)) (newSession c)) as Hn by (apply kept_asks; [apply _|]; unfold newSession; ask).
    specialize (Hn w). by rewrite E in Hn.
Qed.

#[export] Instance node_ok_inv : NodeInv node_ok.
Proof.
  split.
  - intros ws n s w E Hok. apply ok_register. pose proof (ok_world _ n (bw_NewSessionOn ws (GetChannel (rpc n))) Hok) as Hw.
    unfold in_world, zoom in Hw. by rewrite E in Hw.
  - intros sid m n [r| |p]; apply ok_session; first [apply (kept_packetHandler bw bs)|apply (kept_Kill bw bs)
      |apply (kept_RoutePacket bw bs)|apply keeps_packetHandler|apply keeps_Kill|apply keeps_RoutePacket].
  - intros m n [p|msg]; apply ok_world; first [apply kept_StorePacket, _|apply kept_dataChannelHandler, _].
  - intros item q n Eq [K1 K2 K3]. split; try done. unfold bounded in *. cbn. rewrite Eq in K3. cbn in K3. lia.
  - intros sid q n Eq [K1 K2 K3]. split; cbn; try done. intros s Hs. apply K2. set_solver.
  - by intros r n [].
  - by intros d n [].
Qed.

(** Whatever a node does, every session object is filed under its own id, every
    id of [sessionMap] has its object, and the queue of the router never exceeds
    its size. *)
Theorem node_invariant n n' : node_ok n → rtc node_step n n' → node_ok n'.
Proof. intros Hok Hs. by eapply (inv_steps node_ok). Qed.
End Invariant.

Section Crash.
Context `{GoLib} `{Oracles} `{Thrift} {D : Type} `{DatabaseLaws D}.
Implicit Types n : Node D.

Lemma kill_elsewhere_panics ch sid n :
  ch ≠ [] → ch ≠ GetChannel (rpc n) →
  worker (mkItem ch sid None (zob KILL)) n = (Panic nil_deref, n).
Proof.
  intros H1' H2'. unfold worker. erewrite bind_Ret by reflexivity.
  by rewrite !bool_decide_false by (done || by apply not_eq_sym).
Qed.

(** C35: a login for a user whose recorded session is on another node ends this
    process, with right or wrong credentials: the kill signal for the other node is
    an item without a packet, and the worker that should publish it dereferences the
    missing packet outside any recover. *)
Theorem login_elsewhere_crashes_node n sid s c p pk j st b :
  heap n !! sid = Some s → sc s = Some c → ss_Status (Status s) = STATUS_CONN →
  good_login p pk j → w_router (world n) = [] → ready (w_db (world n)) →
  seen (w_db (world n)) (ToSessionid j) = Some (SessionStatus_ToJson st) → wf_status st →
  ss_Channel st ≠ [] → ss_Channel st ≠ GetChannel (rpc n) →
  authenticates (D := D) (Q := list routerItem) (w_conf (world n)) j (Pwd (envelope_of pk)) b →
  ∃ n', in_session sid (packetHandler (RPackets [p])) n = (Ret tt, n') ∧ crashes n' nil_deref.
Proof.
  intros Hs Hc Hst Hg Hq Hr Hse Hwf Hch1 Hch2 Ha. unfold in_session. rewrite Hs.
  set (x := mkS s (world n)).
  assert (sc (ses x) ≠ None) as Hn by (cbn; by rewrite Hc).
  pose proof (packetHandler_returns (RPackets [p]) x Hn) as Hret.
  pose proof (packetHandler_login_router p pk j x b Hg Hn Hst Hr Ha) as Hrt.
  change (wld x) with (world n) in Hrt.
  rewrite Hse, (status_roundtrip st Hwf), Hq in Hrt.
  destruct (packetHandler (RPackets [p]) x) as [o x']. cbn [fst snd] in Hret, Hrt. subst o.
  eexists. split; [reflexivity|]. do 3 eexists. cbn. split; [exact Hrt|]. by apply kill_elsewhere_panics.
Qed.
End Crash.

Section Delivery.
Context `{GoLib} `{Oracles} `{Thrift} {D : Type} `{DatabaseLaws D}.
Implicit Types n : Node D.

(** The worker gives a packet of this node's channel to its session. *)
Lemma worker_delivers n sid s c j pk jf jt :
  sid ∈ sessionMap n → heap n !! sid = Some s → logged_in (mkS s (world n)) j →
  sc s = Some c → is_open c = true → from_to pk jf jt → same_user j jt →
  ∃ n' s', worker (mkItem (GetChannel (rpc n)) sid (Some pk) 0) n = (Ret tt, n') ∧
    heap n' !! sid = Some s' ∧ sc s' = Some (add_out c (ToJson pk)) ∧
    pkgBuff s' !! Id (envelope_of pk) = Some pk.
Proof.
  intros Hm Hs Hl Hc Ho Hft Ht. unfold worker. erewrite bind_Ret by reflexivity.
  rewrite (bool_decide_true (GetChannel (rpc n) = GetChannel (rpc n))) by done. rewrite orb_true_r.
  erewrite bind_Ret by reflexivity. rewrite bool_decide_true by done. cbn [Z.eqb negb deref].
  erewrite bind_Ret by reflexivity. unfold in_session. rewrite Hs.
  destruct (RoutePacket_to_me (mkS s (world n)) j pk jf jt c Hl Hft Ht Hc Ho) as (w & E & _). rewrite E.
  do 2 eexists. split; [reflexivity|]. cbn. rewrite lookup_insert_eq. split; [reflexivity|].
  split; [done|]. cbn. apply lookup_insert_eq.
Qed.

(** A packet routed to a session of this node is delivered: the worker sends it to
    the client of that session and leaves it in the session's buffer for the
    acknowledgement. *)
Theorem routed_packet_is_delivered n sid s c j pk jf jt :
  sid ∈ sessionMap n → heap n !! sid = Some s → logged_in (mkS s (world n)) j →
  sc s = Some c → is_open c = true → from_to pk jf jt → same_user j jt →
  ∃ n' s', worker (mkItem (GetChannel (rpc n)) sid (Some pk) 0) n = (Ret tt, n') ∧
    heap n' !! sid = Some s' ∧ sc s' = Some (add_out c (ToJson pk)) ∧
    pkgBuff s' !! Id (envelope_of pk) = Some pk.
Proof. apply worker_delivers. Qed.

(** A packet for a user with a session record goes into the router for that session. *)
Lemma routePacket_online pk jt st (w : World D (list routerItem)) :
  NewJID (To (envelope_of pk)) = OK jt → ready (w_db w) →
  seen (w_db w) (ToSessionid jt) = Some (SessionStatus_ToJson st) → wf_status st →
  ∃ w', routePacket pk w = (Ret tt, w') ∧
    w_router w' = (Route (ss_Channel st) (ss_Sid st) (Some pk) 0 (w_router w)).2 ∧
    ready (w_db w') ∧ ∀ k, seen (w_db w') k = seen (w_db w) k.
Proof.
  intros Hj Hr Hs Hst. unfold routePacket. rewrite Hj.
  destruct (get_law _ (ToSessionid jt) Hr) as (d & r & E & Hrd & Hsd & _ & Hv).
  erewrite bind_Ret by (unfold on_db; apply zoom_run; exact E). apply Hv in Hs as ->. cbv beta iota zeta.
  rewrite (status_roundtrip st Hst).
  destruct (route_returns (ss_Channel st) (ss_Sid st) (Some pk) 0 (w_router w)) as [e He].
  destruct (Route (ss_Channel st) (ss_Sid st) (Some pk) 0 (w_router w)) as [o q] eqn:Eq. cbn [fst] in He. subst o.
  erewrite bind_Ret by (unfold on_router; apply zoom_run; exact Eq). eexists. split; [reflexivity|].
  cbn [w_router w_db set_router set_db]. done.
Qed.

(** A message from another node that is not a group message is routed here to the
    channel and session of the recipient's record, as the packet its text decodes
    to. *)
Lemma remote_message_routed text pk jt st w :
  NewPacket text = OK pk → Type__ (envelope_of pk) ≠ MSG_TYPE_GROUP_CHAT →
  NewJID (To (envelope_of pk)) = OK jt → ready (w_db w) →
  seen (w_db w) (ToSessionid jt) = Some (SessionStatus_ToJson st) → wf_status st →
  ∃ w', dataChannelHandler text w = (Ret tt, w') ∧
    w_router w' = (Route (ss_Channel st) (ss_Sid st) (Some pk) 0 (w_router w)).2 ∧
    ready (w_db w') ∧ ∀ k, seen (w_db w') k = seen (w_db w) k.
Proof.
  intros Hp Hty. unfold dataChannelHandler. rewrite Hp, (proj2 (Z.eqb_neq _ _) Hty). apply routePacket_online.
Qed.
End Delivery.
