(* ===== verification/Sound.v ===== *)
(** * Sound: what every session object of a node satisfies.

    A session has a connection, the user of a logged in session has a well formed id, and
    every packet in its buffer is filed under its id and has a well formed recipient.
    The handlers of [core/session.go] keep this whatever the clients, the other nodes and
    the database do, so that the session of a reachable node can always be closed. *)

From S2P Require Import Prelude GoBytes Utf8 Json Gjson Types Conn Config Database World External Session SessionProps Rpc Node.

Record session_sound (s : Session) : Prop := {
  so_conn : sc s ≠ None;
  so_jid : ss_Status (Status s) = STATUS_LOGIN → ∃ j, NewJID (ss_Jid (Status s)) = OK j;
  so_buff : map_Forall (λ i p, Id (envelope_of p) = i ∧ addressed p) (pkgBuff s) }.

Definition stays (s s' : Session) : Prop := session_sound s → session_sound s'.

#[global] Instance stays_preorder : PreOrder stays.
Proof. split; [intros s Hs; exact Hs|]. intros a b c H1 H2 Ha. by apply H2, H1. Qed.

(** ** The handlers *)

Section Handlers.
Context `{GoLib} `{Oracles} {D Q : Type} `{Database D} `{MessageRouter Q}.
Implicit Types x : SState D Q.
Abbreviation st := (keeps (D := D) (Q := Q) stays).

(** What is known of a value that was computed. *)
Lemma keeps_of_outcome_bind R `{!PreOrder R} {A B} (o : outcome A) (k : A → M (SState D Q) B) :
  (∀ a, o = Ret a → keeps R (k a)) → keeps R (bind (of_outcome o) k).
Proof. intros Hk x. unfold bind, of_outcome. destruct o as [a|e]; [by apply Hk|reflexivity]. Qed.

Lemma stays_put_conn c : st (put_conn c).
Proof. intros x [Hc Hj Hb]. by split. Qed.
Lemma stays_get_conn : st get_conn.
Proof. unfold get_conn. keep. Qed.
#[local] Hint Resolve stays_put_conn stays_get_conn : sara.

Lemma stays_SetReadTimeout t : st (SetReadTimeout t).
Proof. unfold SetReadTimeout. keep. Qed.
Lemma stays_conn_Close : st conn_Close.
Proof. unfold conn_Close. keep. Qed.
Lemma stays_WritePacket p : st (WritePacket p).
Proof. unfold WritePacket. keep. Qed.
#[local] Hint Resolve stays_SetReadTimeout stays_conn_Close stays_WritePacket : sara.

Lemma stays_SendMessage p : st (SendMessage p).
Proof. apply stays_WritePacket. Qed.
Lemma stays_answer p : st (answer p).
Proof. apply stays_WritePacket. Qed.
Lemma stays_storePacket p : st (storePacket p).
Proof. apply keeps_world. typeclasses eauto. Qed.
Lemma stays_setSessionTimeout t : st (setSessionTimeout t).
Proof. unfold setSessionTimeout. keep. Qed.
#[local] Hint Resolve stays_SendMessage stays_answer stays_storePacket stays_setSessionTimeout : sara.

Lemma stays_pkgBuffAdd p : addressed p → st (pkgBuffAdd p).
Proof. intros Hp x [Hc Hj Hb]. split; cbn; try done. by apply map_Forall_insert_2. Qed.
Lemma stays_pkgBuffDel i : st (pkgBuffDel i).
Proof. intros x [Hc Hj Hb]. split; cbn; try done. by apply map_Forall_delete. Qed.
Lemma stays_put_close : st (put_Status close_status).
Proof. intros x [Hc Hj Hb]. split; cbn; try done. Qed.
Lemma stays_pkgBuffToStore : st pkgBuffToStore.
Proof. unfold pkgBuffToStore. keep. Qed.
#[local] Hint Resolve stays_pkgBuffDel stays_put_close stays_pkgBuffToStore : sara.

Lemma stays_CloseSession msg : st (CloseSession msg).
Proof. unfold CloseSession. fold close_status. keep. Qed.
#[local] Hint Resolve stays_CloseSession : sara.

(** A packet is buffered only after its recipient was parsed. *)
Lemma to_me_addressed j p : EqualWithoutResource j (To (envelope_of p)) = Ret true → addressed p.
Proof.
  unfold EqualWithoutResource, NewJID_, addressed. destruct (NewJID (To (envelope_of p))) as [e|jt]; [done|]. by eexists.
Qed.

Lemma stays_RoutePacket p : st (RoutePacket p).
Proof.
  unfold RoutePacket, EnvelopeIdFromToType. apply keeps_bind; [typeclasses eauto|keep|]. intros s.
  destruct (negb (login s)); [keep|]. apply keeps_bind; [typeclasses eauto|keep|]. intros j.
  apply keeps_of_outcome_bind; [typeclasses eauto|]. intros [] Hto; [|keep].
  pose proof (stays_pkgBuffAdd p (to_me_addressed j p Hto)). keep.
Qed.
Lemma stays_Kill : st Kill.
Proof. unfold Kill. keep. Qed.
Lemma stays_verify p : st (verify p).
Proof. unfold verify. keep. Qed.
#[local] Hint Resolve stays_RoutePacket stays_Kill stays_verify : sara.

(** A login that is accepted names a well formed user. *)
Definition names_user (m : M (SState D Q) (option Packet)) : Prop :=
  ∀ x pk x', m x = (Ret (Some pk), x') → ∃ j, NewJID (Jid (envelope_of pk)) = OK j.

Lemma names_user_bind {A} (m : M (SState D Q) A) k : (∀ a, names_user (k a)) → names_user (bind m k).
Proof. intros Hk x pk x' E. unfold bind in E. destruct (m x) as [[a|e] x1]; [by apply Hk in E|done]. Qed.

Lemma names_user_refuse p msg : names_user (answer p >>> CloseSession msg >>> ret None).
Proof. intros x pk x' E. by apply refuse_none in E. Qed.

Lemma verify_names_user p : names_user (verify p).
Proof.
  unfold verify. destruct (NewPacket p) as [e|pk].
  - apply names_user_bind. intros u. apply names_user_refuse.
  - destruct (negb _); [apply names_user_refuse|]. destruct (NewJID _) as [e|j] eqn:Ej; [apply names_user_refuse|].
    do 2 (apply names_user_bind; intros ?). apply names_user_bind. intros ok.
    destruct (negb ok); [apply names_user_refuse|]. intros x pk' x' [= <- <-]. by exists j.
Qed.

Lemma stays_openSession p : st (openSession p).
Proof.
  intros x. pose proof (stays_verify p x) as Hv. pose proof (verify_names_user p x) as Hj.
  unfold openSession, bind at 1. destruct (verify p x) as [[[pk|]|e] x1]; cbn in Hv; [|done..].
  destruct (Hj pk x1 eq_refl) as [j Ej]. etrans; [exact Hv|]. clear x Hv Hj.
  apply (keeps_at stays). unfold open_accepted. apply keeps_bind; [typeclasses eauto|keep|]. intros ct.
  apply keeps_bind; [typeclasses eauto| |].
  - intros x [Hc _ Hb]. split; cbn; try done. intros _. by exists j.
  - intros _. unfold fetchOfflinePacket, storeSessionStatus. keep.
Qed.
#[local] Hint Resolve stays_openSession : sara.

Lemma stays_packetHandler r : st (packetHandler r).
Proof.
  unfold packetHandler, handler_body, handle_packet, heartbeat, serverAck, RoutePacketList, EnvelopeIdFromToType. keep.
Qed.
End Handlers.

(** ** The sessions of a node *)

Section Nodes.
Context `{GoLib} `{Oracles} `{Thrift} {D : Type} `{Database D}.
Implicit Types n : Node D.

Definition node_sound : Node D → Prop := all_sessions session_sound.

(** A new session is sound. *)
Lemma NewSessionOn_sound ws c (w w' : World D (list routerItem)) s : NewSessionOn ws c w = (Ret s, w') → session_sound s.
Proof.
  unfold NewSessionOn. destruct (newSession c w) as [[s0|e] w1] eqn:E; [|done].
  set (s1 := mkSession _ _ _). assert (session_sound s1) as Hs1.
  { unfold newSession, bind in E. destruct (uuid_rand w) as [[u|] w2]; [|done].
    destruct (lift_outcome _ w2) as [[nid|] w3]; [|done]. injection E as <- _. split; cbn; [done|by intros [=]|done]. }
  pose proof (stays_setSessionTimeout 0 (mkS s1 w1) Hs1) as Hs.
  destruct (setSessionTimeout 0 (mkS s1 w1)) as [[o|e] x]; [|done]. by intros [= <- _].
Qed.

#[export] Instance node_sound_inv : NodeInv node_sound.
Proof.
  apply heap_inv; [apply NewSessionOn_sound|]. intros m x [r| |p] Hx; [by apply stays_packetHandler|by apply stays_Kill|by apply stays_RoutePacket].
Qed.

(** A node as [New] makes it. *)
Record fresh n : Prop := {
  fr_heap : heap n = ∅;
  fr_map : sessionMap n = ∅;
  fr_router : w_router (world n) = [] }.

(** The whole invariant of a node. *)
Definition sane n : Prop := node_ok n ∧ node_sound n.

Lemma sane_step n n' : node_step n n' → sane n → sane n'.
Proof. intros Hs [Hok Hn]. split; [by eapply (inv_step node_ok)|by eapply (inv_step node_sound)]. Qed.

Lemma fresh_sane n : fresh n → sane n.
Proof.
  intros [Hh Hm Hr]. split.
  - split; rewrite ?Hh, ?Hm; [apply map_Forall_empty|set_solver|]. unfold bounded. by rewrite Hr.
  - unfold node_sound, all_sessions. rewrite Hh. apply map_Forall_empty.
Qed.

(** The states of a node from its start on. *)
Definition reachable n : Prop := ∃ n0, fresh n0 ∧ rtc node_step n0 n.

Lemma reachable_sane n : reachable n → sane n.
Proof. intros (n0 & Hf%fresh_sane & Hr). induction Hr as [|a b c Hab _ IH]; [done|]. by eapply IH, sane_step. Qed.
End Nodes.
