(* ===== verification/Service.v ===== *)
(** * Service: [service], the http-rpc interface, with the dispatch of the vendored
    [go-lightrpc/rpcserver] that calls it.

    A request is one JSON document in a form field; it names a service and a method
    and carries parameters and a token.  The services read and change the database of
    the node. *)

From S2P Require Import Prelude GoBytes Utf8 Json Gjson Types Config Database World External Session.

(** ** Replies *)

(** [Success.Error]. *)
Definition Success_Error (errCode reason : bytes) (s : Success) : Success :=
  mkSuccess (s_Sn s) false (Some (JObj [(§"errCode", JStr errCode); (§"reason", JStr reason)])).

(** The JSON of a reply, [omitempty] on [sn] and [entity]. *)
Definition success_json (s : Success) : json :=
  JObj (fld_str (§"sn") (s_Sn s) ++ [(§"success", JBool (s_Success s))]
        ++ match s_Entity s with None => [] | Some v => [(§"entity", v)] end).

Definition ResponseAsJson (s : Success) : bytes := print (success_json s).

Definition SuccessFalse (reason : bytes) : Success :=
  mkSuccess [] false (Some (JObj [(§"reason", JStr reason)])).

(** ** Parameters *)

Abbreviation params := (list (bytes * json)).

Fixpoint param (p : params) (k : bytes) : option json :=
  match p with
  | [] => None
  | (k', v) :: p' => if decide (k = k') then Some v else param p' k
  end.

Definition slice_bounds : bytes := §"slice bounds out of range".

Section Service.
(** [sprintf_s] is what [fmt] writes for the verb [%s] and a value that is not a string. *)
Context `{GoLib} {D Q : Type} `{Database D} (sprintf_s : json → bytes).
Abbreviation WM := (M (World D Q)).

Definition fmt_s (v : json) : bytes := match v with JStr s => s | _ => sprintf_s v end.

(** [EmsgGroupService.Reload]. *)
Definition Reload (p : params) : WM Success :=
  match param p (§"gid") with
  | None | Some (JStr []) => ret (SuccessFalse (§"gid_not_be_empty"))
  | Some gid =>
      match param p (§"domain") with
      | None | Some (JStr []) => ret (SuccessFalse (§"domain_not_be_empty"))
      | Some dom =>
          on_db (db_Delete (group_key (fmt_s gid) (fmt_s dom))) >>>
          ret (mkSuccess [] true None)
      end
  end.

(** The loop of [Counter]: the last thirteen bytes of an entry are its timestamp. *)
Fixpoint count_nodes (nodeids : list bytes) : WM (list json) :=
  match nodeids with
  | [] => ret []
  | nid :: rest =>
      (if Z.of_nat (length nid) <? 13 then panic slice_bounds else ret tt) >>>
      let nodeid := take (length nid - 13) nid in
      let! r := on_db (db_CountByIdx nodeid) in
      let! l := count_nodes rest in
      ret (match r with
           | inr count => JObj [(§"count", JNum (fmt_d count)); (§"node", JStr nodeid)] :: l
           | inl _ => l
           end)
  end.

(** [EmsgSessionService.Counter]. *)
Definition Counter (p : params) : WM Success :=
  let! r := on_db (db_GetByIdx (§"sara")) in
  match r with
  | inl _ => ret (SuccessFalse (§"notfound"))
  | inr nodeids =>
      if Z.of_nat (length nodeids) <? 1 then ret (SuccessFalse (§"notfound"))
      else
        let! counters := count_nodes nodeids in
        ret (mkSuccess [] true (Some (JObj [(§"counters", JArr counters)])))
  end.

(** [EmsgSessionService.Isonline]. *)
Definition Isonline (p : params) : WM Success :=
  match param p (§"jid") with
  | None => ret (mkSuccess [] false None)
  | Some (JStr s) =>
      match NewJID s with
      | inl _ => ret (mkSuccess [] false None)
      | inr j =>
          let! r := on_db (db_Get (ToSessionid j)) in
          ret (mkSuccess [] (match r with inr _ => true | inl _ => false end) None)
      end
  | Some _ => panic bad_assertion
  end.

(** [CheckToken], the closure of [StartRPC]. *)
Definition CheckToken (token : bytes) : WM bool :=
  let! accesstoken := lift_outcome (λ c, GetString c (§"accesstoken") []) in
  if decide (accesstoken = []) then ret true else ret (bool_decide (accesstoken = token)).

(** ** The dispatch *)

(** The registered services, by namespace, with their exported methods. *)
Definition RegService (namespace method : bytes) : option (params → WM Success) :=
  if decide (namespace = §"emsg_group") then
    if decide (method = §"Reload") then Some Reload else None
  else if decide (namespace = §"emsg_session") then
    if decide (method = §"Counter") then Some Counter
    else if decide (method = §"Isonline") then Some Isonline else None
  else None.

Definition registered (namespace : bytes) : bool :=
  bool_decide (namespace = §"emsg_group") || bool_decide (namespace = §"emsg_session").

Definition to_upper (c : ascii) : ascii := if in_range 97 122 (zob c) then boz (zob c - 32) else c.

(** [paserMethodName]: the first byte in upper case.  A first byte beyond ASCII is a
    character of two bytes in the string conversion and names no method. *)
Definition paserMethodName (s : bytes) : WM bytes :=
  match s with
  | [] => panic index_out_of_range
  | c :: s' => ret (if zob c <? 128 then to_upper c :: s' else EncodeRune (zob c) ++ s')
  end.

Definition getToken (body : bytes) : bytes :=
  let t := String_ (Get body (§"token")) in if decide (t = §"null") then [] else t.

(** The map the parameters are decoded into. *)
Definition get_params (body : bytes) : params :=
  let t := String_ (Get body (§"params")) in
  if decide (t = §"null") then [] else default [] (unmarshal_map t).

(** [executeMethod]: all methods of the services take a token, so it is checked. *)
Definition executeMethod (namespace body : bytes) (success : Success) : WM Success :=
  let token := getToken body in
  let sn := String_ (Get body (§"sn")) in
  let! methodName := paserMethodName (String_ (Get body (§"method"))) in
  match RegService namespace methodName with
  | None => ret (Success_Error (§"1002") (§"method notfond ;;; " ++ methodName) success)
  | Some m =>
      let! ok := CheckToken token in
      if ok : bool then
        let! rtn := m (get_params body) in
        ret (mkSuccess sn (s_Success rtn) (s_Entity rtn))
      else ret (Success_Error (§"1003") (§"error token") success)
  end.

(** [handlerFunc], with the form field [body]. *)
Definition handlerFunc (body : bytes) : WM Success :=
  let success := mkSuccess [] true None in
  if decide (body = []) then ret (Success_Error (§"1000") (§"params of body notfound") success)
  else
    let s := String_ (Get body (§"service")) in
    if decide (s = §"null") then ret (Success_Error (§"1002") (§"service error or notfound") success)
    else if decide (String_ (Get body (§"method")) = §"null") then
      ret (Success_Error (§"1002") (§"method error or notfound") success)
    else if registered s then executeMethod s body success
    else ret (Success_Error (§"1003") (§"service not reg") success).

(** ** The http server *)

(** What the program sets of [Rpcserver]; the services and the token check are those above. *)
Record Rpcserver := mkRpcserver { Pattern : bytes; rs_Port : Z; AllowedMethods : list bytes }.

(** The listener with its one route. *)
Record http_server := mkHttp { h_host : bytes; h_pattern : bytes; h_methods : list bytes }.

(** [StartServer]: [listen] is what [http.ListenAndServe] returns before it serves; its error is
    dropped, the result is always nil. *)
Definition StartServer (listen : bytes → error) (self : Rpcserver) : error * option http_server :=
  let methods := if decide (AllowedMethods self = []) then [§"POST"; §"GET"] else AllowedMethods self in
  let pattern := if decide (Pattern self = []) then §"/api/" else Pattern self in
  let host := §":" ++ fmt_d (rs_Port self) in
  (None, match listen host with Some _ => None | None => Some (mkHttp host pattern methods) end).

(** The goroutine of [StartRPC]. *)
Definition rpc_server (rpcport : Z) : Rpcserver := mkRpcserver [] rpcport [].

(** *** [http.ServeMux] *)

(** The elements of a path without empty ones and [.], each [..] with the element before it
    removed ([path.Clean] of a path that starts with a slash). *)
Definition clean_elem (acc : list bytes) (e : bytes) : list bytes :=
  if decide (e = [] ∨ e = §".") then acc else if decide (e = §"..") then removelast acc else acc ++ [e].

Definition ends_in_slash (p : bytes) : bool := bool_decide (list.last p = Some "/"%char).

(** [cleanPath]: a slash at the end is kept. *)
Definition cleanPath (p : bytes) : bytes :=
  let np := concat (map (λ e, §"/" ++ e) (foldl clean_elem [] (Split p "/"%char))) in
  if ends_in_slash p || bool_decide (np = []) then np ++ §"/" else np.

(** A pattern that ends in a slash stands for all paths below it. *)
Definition pathMatch (pattern path : bytes) : bool :=
  if ends_in_slash pattern then is_prefix pattern path else bool_decide (path = pattern).

(** What is sent back: an empty answer to a preflight request, an error status, the redirection
    to another path, an aborted connection, or the text of the handler. *)
Inductive http_reply := Preflight | BadRequest | Redirect (path : bytes) | NotFound | Aborted | Reply (text : bytes).

(** A request for the path of the pattern without its slash is redirected to the pattern, and
    one for a path that is not clean to the clean path, except for [CONNECT]; [net/http]
    recovers a panic of the handler and aborts the connection. *)
Definition mux_ServeHTTP (h : http_server) (method path body : bytes) : WM http_reply :=
  let clean := if decide (method = §"CONNECT") then path else cleanPath path in
  if decide (path = §"*") then ret BadRequest
  else if decide (clean ++ §"/" = h_pattern h) then ret (Redirect (h_pattern h))
  else if decide (clean ≠ path) then ret (Redirect clean)
  else if pathMatch (h_pattern h) path then
    recover (let! s := handlerFunc body in ret (Reply (ResponseAsJson s))) (λ _, ret Aborted)
  else ret NotFound.

(** The handler of [cors] in front of it answers every [OPTIONS] request itself; to the answers
    of the others it only adds headers. *)
Definition ServeHTTP (h : http_server) (method path body : bytes) : WM http_reply :=
  if decide (method = §"OPTIONS") then ret Preflight else mux_ServeHTTP h method path body.
End Service.

(** ** Properties *)

Section Properties.
Context `{GoLib} {D Q : Type} `{DatabaseLaws D} (sprintf_s : json → bytes).
Implicit Types w : World D Q.

(** An outcome that leaves the state alone and is a failure or a panic. *)
Definition refused (o : outcome Success * World D Q) w : Prop :=
  o.2 = w ∧ ∀ s, o.1 = Ret s → s_Success s = false.

Lemma refused_error code reason s0 w : refused (ret (Success_Error code reason s0) w) w.
Proof. split; [done|]. cbn. by intros s [= <-]. Qed.

Lemma executeMethod_refuses ns body s0 tok w :
  GetString (w_conf w) (§"accesstoken") [] = Ret tok → tok ≠ [] → getToken body ≠ tok →
  refused (executeMethod sprintf_s ns body s0 w) w.
Proof.
  intros Ht Hne Hbad. unfold executeMethod, paserMethodName.
  destruct (String_ (Get body (§"method"))) as [|c m]; [by split|]. erewrite bind_Ret by reflexivity.
  destruct (RegService _ _ _) as [f|]; [|apply refused_error].
  assert (CheckToken (getToken body) w = (Ret false, w)) as E.
  { unfold CheckToken, lift_outcome, bind. rewrite Ht. rewrite decide_False by done.
    by rewrite bool_decide_false by by apply not_eq_sym. }
  erewrite bind_Ret by exact E. apply refused_error.
Qed.

Lemma handlerFunc_refuses body tok w :
  GetString (w_conf w) (§"accesstoken") [] = Ret tok → tok ≠ [] → getToken body ≠ tok →
  refused (handlerFunc sprintf_s body w) w.
Proof.
  intros Ht Hne Hbad. unfold handlerFunc.
  repeat (case_decide; [apply refused_error|]).
  destruct (registered _); [by eapply executeMethod_refuses|apply refused_error].
Qed.

(** C29: when an access token is configured, a request with another token runs no
    service, with whatever method and on whatever path it arrives: the state does not change,
    and a handler that was reached has answered with a failure or aborted the connection;
    all other requests are answered without a handler, by the preflight, an error status or a
    redirection. *)
Theorem wrong_token_runs_nothing h method path body tok w :
  GetString (w_conf w) (§"accesstoken") [] = Ret tok → tok ≠ [] → getToken body ≠ tok →
  ∃ r, ServeHTTP sprintf_s h method path body w = (Ret r, w) ∧
    match r with
    | Preflight => method = §"OPTIONS"
    | BadRequest => path = §"*"
    | Redirect p => p = h_pattern h ∨ p = cleanPath path ∧ p ≠ path
    | NotFound => pathMatch (h_pattern h) path = false
    | Aborted => pathMatch (h_pattern h) path = true
    | Reply t => pathMatch (h_pattern h) path = true ∧ ∃ s, t = ResponseAsJson s ∧ s_Success s = false
    end.
Proof.
  intros Ht Hne Hbad. unfold ServeHTTP, mux_ServeHTTP.
  destruct (decide (method = §"OPTIONS")) as [Ho|_]; [by exists Preflight|].
  destruct (decide (path = §"*")) as [Hp|_]; [by exists BadRequest|].
  destruct (decide (_ ++ _ = h_pattern h)) as [_|_]; [eexists; split; [reflexivity|by left]|].
  case_decide as Hc; [destruct (decide (method = §"CONNECT")); [done|]; eexists; split; [reflexivity|by right]|].
  destruct (pathMatch (h_pattern h) path); [|by exists NotFound].
  destruct (handlerFunc_refuses body tok w Ht Hne Hbad) as [Hw Hs]. unfold recover, bind.
  destruct (handlerFunc sprintf_s body w) as [[s|e] w1]; cbn in Hw; subst w1; eexists; (split; [reflexivity|]); [|done].
  split; [done|]. exists s. split; [done|by apply Hs].
Qed.

(** A server whose port is taken is not started, and nobody is told: [StartServer] returns nil. *)
Lemma StartServer_drops_error listen port e :
  listen (§":" ++ fmt_d port) = Some e → StartServer listen (rpc_server port) = (None, None).
Proof. unfold StartServer. cbn [rs_Port rpc_server]. by intros ->. Qed.

Lemma StartServer_serves listen port :
  listen (§":" ++ fmt_d port) = None →
  StartServer listen (rpc_server port) = (None, Some (mkHttp (§":" ++ fmt_d port) (§"/api/") [§"POST"; §"GET"])).
Proof. unfold StartServer. cbn [rs_Port rpc_server Pattern AllowedMethods]. intros ->. by rewrite !decide_True. Qed.

(** A user is reported online exactly when the text is a well formed id and the
    database has a session record for it. *)
Theorem Isonline_spec s w :
  ready (w_db w) →
  ∃ b w', Isonline [(§"jid", JStr s)] w = (Ret (mkSuccess [] b None), w') ∧
    (b = true ↔ ∃ j v, NewJID s = OK j ∧ seen (w_db w) (ToSessionid j) = Some v).
Proof.
  intros Hr. unfold Isonline, param. rewrite decide_True by done. destruct (NewJID s) as [e|j] eqn:Ej.
  - do 2 eexists. split; [reflexivity|]. split; [done|]. by intros (j & v & ? & _).
  - destruct (get_law _ (ToSessionid j) Hr) as (d & r & E & _ & _ & _ & Hv).
    erewrite bind_Ret by (unfold on_db; apply zoom_run; exact E). do 2 eexists. split; [reflexivity|].
    destruct r as [e|v].
    + split; [done|]. intros (j' & v & [= <-] & Hs). by apply Hv in Hs.
    + split; [|done]. intros _. exists j, v. split; [done|]. by apply Hv.
Qed.
End Properties.
