(* ===== verification/Group.v ===== *)
(** * Group: group messages that leave the node of their sender.

    The session of the sender turns a group message into one packet per member, and each of
    them still has the type of a group message.  The handler of a node that receives such a
    packet from another node ([dataChannelHandler] of [node/node.go]) takes it for a group
    message and turns it into packets for all members again. *)

From S2P Require Import Prelude GoBytes Utf8 Json Gjson Types Conn Config Redis Database World External Session SessionProps Rpc Node.

Section Group.
Context `{GoLib} `{Oracles} {D : Type} `{DatabaseLaws D}.
Implicit Types w : World D (list routerItem).

(** The member [u] of the domain has the session record [st]. *)
Definition member_online w (dom u : bytes) (st : SessionStatus) : Prop :=
  seen (w_db w) (ToSessionid (mkJID u dom [])) = Some (SessionStatus_ToJson st) ∧ wf_status st.

(** The item that routes a packet to a session. *)
Definition item_for (q : Packet) (st : SessionStatus) : routerItem := mkItem (ss_Channel st) (ss_Sid st) (Some q) 0.

Lemma fanout_runs pk dom us l sts w :
  "@"%char ∉ dom → "/"%char ∉ dom → Forall (λ u, "@"%char ∉ u) us →
  Forall2 (group_copy pk dom) us l → Forall2 (member_online w dom) us sts →
  ready (w_db w) → Z.of_nat (length (w_router w) + length us) ≤ ROUTER_QUEUE_SIZE →
  ∃ w', for_range l routePacket w = (Ret tt, w') ∧ w_router w' = w_router w ++ zip_with item_for l sts ∧
    ready (w_db w') ∧ ∀ k, seen (w_db w') k = seen (w_db w) k.
Proof.
  intros Hd1 Hd2 Hus Hl. revert sts w Hus. induction Hl as [|u q us l Hq _ IH]; intros sts w Hus Hon Hr Hroom.
  - inversion Hon; subst. exists w. split; [done|]. cbn. by rewrite app_nil_r.
  - inversion Hon as [|? st ? sts' [Hs Hst] Hon']; subst. apply list.Forall_cons in Hus as [Hu Hus].
    destruct Hq as (_ & Hto & _). cbn [length] in Hroom.
    destruct (routePacket_online q (mkJID u dom []) st w) as (w1 & E1 & Hq1 & Hr1 & Hs1); [|done..|].
    { rewrite Hto. by apply NewJID_bare. }
    rewrite Router_Route_room in Hq1 by lia.
    destruct (IH sts' w1) as (w2 & E2 & Hq2 & Hr2 & Hs2); [done| |done| |].
    + clear -Hon' Hs1. induction Hon' as [|u st us sts [Hs Hst] _ IH]; constructor; [|done]. split; [by rewrite Hs1|done].
    + rewrite Hq1, length_app. cbn. lia.
    + exists w2. cbn [for_range]. erewrite bind_Ret by exact E1. split; [done|]. rewrite Hq2, Hq1, <-app_assoc.
      split; [done|]. split; [done|]. intros k. by rewrite Hs2.
Qed.

(** The group of a message is cached, its sender may write to it, and every other member
    has a session. *)
Record group_online w (gid : bytes) (j : JID) (users : bytes) (sts : list SessionStatus) : Prop := {
  go_ready : ready (w_db w);
  go_cached : seen (w_db w) (group_key gid (domain j)) = Some users;
  go_plain : Forall (λ u, "@"%char ∉ u) (Split users ","%char);
  go_sender : ∃ a b, users = a ++ user j ++ b;
  go_members : Forall2 (member_online w (domain j)) (other_members users (user j)) sts;
  go_room : Z.of_nat (length (w_router w) + length (other_members users (user j))) ≤ ROUTER_QUEUE_SIZE }.

Lemma other_members_plain users u : Forall (λ u, "@"%char ∉ u) (Split users ","%char) →
  Forall (λ u, "@"%char ∉ u) (other_members users u).
Proof.
  unfold other_members. intros Hp. apply List.Forall_forall. intros x [Hx _]%filter_In.
  by apply (proj1 (List.Forall_forall _ _) Hp).
Qed.

Lemma data_group_runs text pk j users sts w :
  NewPacket text = OK pk → Type__ (envelope_of pk) = MSG_TYPE_GROUP_CHAT → NewJID (From (envelope_of pk)) = OK j →
  group_online w (Gid (envelope_of pk)) j users sts →
  ∃ l w', dataChannelHandler text w = (Ret tt, w') ∧
    Forall2 (group_copy pk (domain j)) (other_members users (user j)) l ∧
    w_router w' = w_router w ++ zip_with item_for l sts ∧
    ready (w_db w') ∧ ∀ k, seen (w_db w') k = seen (w_db w) k.
Proof.
  intros Hp Hty Hj [Hr Hc Hpl Hsub Hon Hroom]. unfold dataChannelHandler. rewrite Hp, Hty, Z.eqb_refl.
  destruct (get_law _ (group_key (Gid (envelope_of pk)) (domain j)) Hr) as (d & r & E & Hrd & Hsd & _ & Hv).
  assert (GenerateGroupPackets pk w = (let! l := genGroupPackets users pk in ret (OK l)) (set_db d w)) as Eg.
  { unfold GenerateGroupPackets. rewrite (NewJID_OK_ _ _ Hj). cbn [deref]. erewrite bind_Ret by reflexivity.
    erewrite bind_Ret by (unfold on_db; apply zoom_run; exact E). apply Hv in Hc as ->. cbv beta iota.
    by rewrite (proj2 (Contains_spec users (user j)) Hsub). }
  destruct (genGroupPackets_runs pk j users (set_db d w) Hj Hpl) as (l & w1 & E1 & [K1 K2 _ _ _] & Hl).
  erewrite bind_Ret by (rewrite Eg; erewrite bind_Ret by exact E1; reflexivity).
  apply NewJID_wf in Hj as (_ & Hd1 & Hd2 & _). cbn in K1, K2.
  destruct (fanout_runs pk (domain j) (other_members users (user j)) l sts w1) as (w2 & E2 & Hq & Hr2 & Hs2); try done.
  - by apply other_members_plain.
  - clear -Hon Hsd K1. induction Hon as [|u st us sts [Hs Hst] _ IH]; constructor; [|done]. split; [by rewrite K1, Hsd|done].
  - by rewrite K1.
  - by rewrite K2.
  - exists l, w2. split_and!; [exact E2|done|by rewrite Hq, K2|done|]. intros k. by rewrite Hs2, K1, Hsd.
Qed.

(** A text that a node takes for a message of [from] to the group [gid]. *)
Definition group_text (gid from text : bytes) : Prop :=
  ∃ pk, NewPacket text = OK pk ∧ Type__ (envelope_of pk) = MSG_TYPE_GROUP_CHAT ∧
    Gid (envelope_of pk) = gid ∧ From (envelope_of pk) = from.

(** The copy for one member is such a text. *)
Lemma copy_is_group_text pk dom u q :
  (∀ n, utf8_valid (uuid_hex n)) → utf8_valid (From (envelope_of pk)) → utf8_valid (Gid (envelope_of pk)) →
  utf8_valid (u ++ §"@" ++ dom) → group_copy pk dom u q →
  group_text (Gid (envelope_of pk)) (From (envelope_of pk)) (ToJson q).
Proof.
  intros Hid Hf Hg Hu (Ef & Et & Ety & Eg & _ & _ & Er & Ej & Ea & Ep & (n & Ei) & (t & Ec)).
  eexists. split; [apply NewPacket_ToJson; [|done]|done].
  unfold wf_envelope. rewrite Ef, Et, Ety, Eg, Ej, Ea, Ep, Ei, Ec.
  split_and!; try done; try constructor; try (vm_compute; congruence). apply utf8_fmt_d.
Qed.

(** A group message that reaches another node is sent to the whole group again: the
    handler of the receiving node does not deliver the copy to the member it is for but
    queues one new copy for the session of every member other than the sender, in the
    order of the list. *)
Theorem group_copy_is_expanded_again text pk j users sts w :
  NewPacket text = OK pk → Type__ (envelope_of pk) = MSG_TYPE_GROUP_CHAT → NewJID (From (envelope_of pk)) = OK j →
  group_online w (Gid (envelope_of pk)) j users sts →
  ∃ l w', dataChannelHandler text w = (Ret tt, w') ∧
    Forall2 (group_copy pk (domain j)) (other_members users (user j)) l ∧
    w_router w' = w_router w ++ zip_with item_for l sts.
Proof.
  intros Hp Hty Hj Hg. destruct (data_group_runs text pk j users sts w Hp Hty Hj Hg) as (l & w' & E & Hl & Hq & _). eauto.
Qed.
End Group.
