(* ===== verification/Ghost.v ===== *)
(** * Ghost: the records of an earlier run, and counting the sessions of the nodes.

    A node that starts registers itself in the hash [sara] and deletes the session records
    its index still names ([cleanGhostSession] of [node/node.go]); [Counter] of
    [service/emsg_service.go] reads that hash and counts the index of every node. *)

From S2P Require Import Prelude GoBytes Utf8 Json Gjson Types Conn Config Redis Database SaraDb World External Session SessionProps Rpc Node Service.

(** The index of a node, and the index of all nodes. *)
Definition node_index (nid : bytes) : bytes := nid ++ IDX_SUFFIX.
Definition sara_index : bytes := node_index (§"sara").

(** A node id that is no key of anything else. *)
Record node_name (nid : bytes) : Prop := {
  nn_key : ¬ session_key nid;
  nn_index : ¬ session_key (node_index nid);
  nn_sara : nid ≠ §"sara";
  nn_sara_index : nid ≠ sara_index }.

Lemma sara_index_plain : ¬ session_key sara_index.
Proof. apply not_session_dec. vm_compute. reflexivity. Qed.

Lemma node_index_inj a b : node_index a = node_index b → a = b.
Proof. apply app_inv_tail. Qed.

Lemma node_index_ne a : node_index a ≠ a.
Proof. unfold node_index. intros E%(f_equal length). rewrite length_app in E. cbn in E. lia. Qed.

Section Ghost.
Context `{GoLib} `{Oracles} `{Thrift} {R : Type} `{RedisLaws R}.
Abbreviation D := (SaraDatabase R).
Implicit Types (n : Node D) (db : D).

(** The entry of a node in the hash of all nodes. *)
Definition entry_at (nid : bytes) (ts : Z) : bytes := registration nid (fmt_d ts).

(** It has the time, or the suffix over the first four digits of it. *)
Lemma entry_at_cases nid ts :
  (entry_at nid ts = nid ++ fmt_d ts ∨
   entry_at nid ts = nid ++ IDX_SUFFIX ++ drop 4 (fmt_d ts) ∧ shares_array nid (fmt_d ts) = true).
Proof. unfold entry_at, registration. destruct reads_late, (shares_array _ _); cbn; auto. Qed.

(** The time at which a node registers. *)
Definition start_time n : Z := clock_ns (n_clock (world n)) ÷ 1000000.

(** What [cleanGhostSession] queues. *)
Definition ghost_cmds (nid : bytes) (ts : Z) (ids : list bytes) : list rcmd :=
  [HSET sara_index nid (entry_at nid ts); SET nid (entry_at nid ts)] ++ map DEL (node_index nid :: ids).

Lemma ghost_cmds_distinct nid ts ids :
  node_name nid → NoDup ids → Forall session_key ids → NoDup (map rkey (ghost_cmds nid ts ids)).
Proof.
  intros [Hk Hi Hs Hsi] Hnd Hids. pose proof (proj1 (list.Forall_forall _ _) Hids) as Hin.
  assert (∀ k, ¬ session_key k → k ∉ ids) as Hout by (intros k Hk' Hk''; by apply Hk', Hin).
  pose proof sara_index_plain. unfold ghost_cmds. cbn [app map rkey]. rewrite map_map. cbn [rkey]. rewrite map_id.
  repeat (apply list.NoDup_cons; split); [..|done].
  - rewrite !not_elem_of_cons. split_and!; [by apply not_eq_sym| |by apply Hout].
    intros E%node_index_inj. by apply Hs.
  - rewrite not_elem_of_cons. split; [apply not_eq_sym, node_index_ne|by apply Hout].
  - by apply Hout.
Qed.

Lemma ghost_index_distinct (nid : bytes) (ts : Z) (ids : list bytes) (x : gmap bytes bytes) :
  node_name nid → map_Forall (λ k _, session_key k) x → ids ≡ₚ (map_to_list x).*1 → NoDup (map rkey (ghost_cmds nid ts ids)).
Proof.
  intros Hnn Hx Hids. apply ghost_cmds_distinct; [done|rewrite Hids; apply NoDup_fst_map_to_list|].
  rewrite Hids. apply list.Forall_forall. intros k ([k1 v] & -> & Hkv%elem_of_map_to_list)%list_elem_of_fmap. by apply (Hx k1 v).
Qed.

Lemma cleanGhostSession_pending n x :
  let db := w_db (world n) in let nid := Nodeid n in
  up (redis db) → wbCh_closed db = false → node_name nid → hash_at (keys db) (node_index nid) = OK x →
  ∃ ids w, cleanGhostSession n = (Ret tt, set_world w n) ∧ ids ≡ₚ (map_to_list x).*1 ∧
    pending (w_db w) ≡ₚ ghost_cmds nid (start_time n) ids ++ pending db ∧ keys (w_db w) = keys db ∧ up (redis (w_db w)).
Proof.
  intros db nid Hup Ho [Hk _ _ _] Hx. unfold cleanGhostSession. erewrite bind_Ret by reflexivity.
  erewrite bind_Ret by (unfold in_world; apply zoom_run; reflexivity). fold (start_time n) nid.
  pose proof (PutExWithIdx_other db (§"sara") nid (entry_at nid (start_time n)) 0 Hk Ho) as Ep.
  erewrite bind_Ret by (unfold in_world; apply zoom_run; unfold on_db; apply zoom_run; exact Ep).
  set (db1 := set_wbCh _ db) in Ep |- *.
  destruct (DeleteByIdx_pending nid x db1 Hup Ho Hx) as (ids & db2 & E & Hids & Hp & Hkk & Hu).
  exists ids. eexists. erewrite bind_Ret by (unfold in_world; apply zoom_run; unfold on_db; apply zoom_run; exact E).
  split; [reflexivity|]. split; [done|]. split; [|done]. cbn [w_db set_db]. rewrite Hp.
  unfold db1, ghost_cmds, pending. cbn. rewrite cmds_app. cbn. solve_Permutation.
Qed.

(** What redis holds once the queues are drained. *)
Lemma ghost_effect db (nid : bytes) (ts : Z) (ids : list bytes) (x y : gmap bytes bytes) k :
  node_name nid → map_Forall (λ k _, session_key k) x → ids ≡ₚ (map_to_list x).*1 → hash_at (keys db) sara_index = OK y →
  let m := run_cmds (ghost_cmds nid ts ids) (keys db) in
  (is_Some (x !! k) ∨ k = node_index nid → m !! k = None) ∧
  hash_at m sara_index = OK (<[nid := entry_at nid ts]> y) ∧
  (k ≠ nid → k ≠ sara_index → k ≠ node_index nid → x !! k = None → m !! k = keys db !! k).
Proof.
  intros Hnn Hx Hids Hy m.
  assert (∀ k', k' ∈ ids ↔ is_Some (x !! k')) as Hin.
  { intros k'. rewrite Hids, list_elem_of_fmap. split.
    - intros ([k1 v] & -> & Hkv%elem_of_map_to_list). by eexists.
    - intros [v Hv]. exists (k', v). split; [done|]. by apply elem_of_map_to_list. }
  pose proof (ghost_index_distinct nid ts ids x Hnn Hx Hids) as Hnd.
  split_and!.
  - intros Hk. assert (DEL k ∈ ghost_cmds nid ts ids) as Hc.
    { apply elem_of_app. right. apply list_elem_of_fmap. exists k. split; [done|]. rewrite elem_of_cons, Hin. tauto. }
    pose proof (run_cmds_at _ (keys db) _ Hnd Hc) as Ha. cbn [rkey] in Ha. unfold m. rewrite Ha. apply lookup_delete_eq.
  - assert (HSET sara_index nid (entry_at nid ts) ∈ ghost_cmds nid ts ids) as Hc by apply list_elem_of_here.
    pose proof (run_cmds_at _ (keys db) _ Hnd Hc) as Ha. cbn [rkey redis_spec] in Ha. rewrite Hy in Ha. cbn [snd] in Ha.
    unfold m, hash_at. rewrite Ha. apply (put_hash_hash (keys db)).
  - intros H1k H2k H3k Hk. apply run_cmds_other. unfold ghost_cmds. cbn [app map rkey]. rewrite map_map. cbn [rkey].
    rewrite map_id, !not_elem_of_cons, Hin, Hk. split_and!; try done.
Qed.

(** Once the queues are drained, whatever the order of the workers, exactly the queued
    commands have been executed. *)
Lemma cleanGhostSession_drains n (x : gmap bytes bytes) :
  let db := w_db (world n) in let nid := Nodeid n in
  up (redis db) → wbCh_closed db = false → drained db → node_name nid →
  hash_at (keys db) (node_index nid) = OK x → map_Forall (λ k _, session_key k) x →
  ∃ ids w, cleanGhostSession n = (Ret tt, set_world w n) ∧ ids ≡ₚ (map_to_list x).*1 ∧
    ∀ es db2, db_run (w_db w) es (Ret tt) db2 → drained db2 →
      keys db2 = run_cmds (ghost_cmds nid (start_time n) ids) (keys db).
Proof.
  intros db nid Hup Ho Hd Hnn Hx Hsk.
  destruct (cleanGhostSession_pending n x Hup Ho Hnn Hx) as (ids & w & E & Hids & Hp & Hk & Hu).
  exists ids, w. split_and!; [done..|]. intros es db2 Hr Hd2.
  eapply db_run_executes in Hr as (_ & cs & Hcs & Hk2); [|done].
  fold db nid in Hp. rewrite Hp, Hd, Hd2, !app_nil_r in Hcs. rewrite Hk in Hk2. fold db in Hk2.
  rewrite <-(run_cmds_perm _ _ _ Hcs) in Hk2; [done|]. by eapply distinct_keys_independent, ghost_index_distinct.
Qed.

(** C11: a node that starts forgets the sessions of its earlier run: once the queues are
    drained, whatever the order of the workers, every record its index named is gone and
    so is the index, the entries of the other nodes are as before, and no other key has
    changed.  The node is registered with the time of its start, unless the slice of its id
    has room for the time: then the suffix of the index may stand over the first four
    digits. *)
Theorem restart_forgets_ghost_sessions n (x y : gmap bytes bytes) :
  let db := w_db (world n) in let nid := Nodeid n in
  up (redis db) → wbCh_closed db = false → drained db → node_name nid →
  hash_at (keys db) (node_index nid) = OK x → map_Forall (λ k _, session_key k) x →
  hash_at (keys db) sara_index = OK y →
  ∃ w, cleanGhostSession n = (Ret tt, set_world w n) ∧
    ∀ es db2, db_run (w_db w) es (Ret tt) db2 → drained db2 →
      (∃ ts, hash_at (keys db2) sara_index = OK (<[nid := nid ++ ts]> y) ∧
         (ts = fmt_d (start_time n) ∨
          ts = IDX_SUFFIX ++ drop 4 (fmt_d (start_time n)) ∧ shares_array nid (fmt_d (start_time n)) = true)) ∧
      ∀ k, (is_Some (x !! k) ∨ k = node_index nid → keys db2 !! k = None) ∧
        (k ≠ nid → k ≠ sara_index → k ≠ node_index nid → x !! k = None → keys db2 !! k = keys db !! k).
Proof.
  intros db nid Hup Ho Hd Hnn Hx Hsk Hy.
  destruct (cleanGhostSession_drains n x Hup Ho Hd Hnn Hx Hsk) as (ids & w & E & Hids & Hrun).
  exists w. split; [done|]. intros es db2 Hr Hd2. rewrite (Hrun es db2 Hr Hd2).
  destruct (ghost_effect db nid (start_time n) ids x y [] Hnn Hsk Hids Hy) as (_ & Hs & _).
  split; [destruct (entry_at_cases nid (start_time n)) as [Ee|[Ee Hsh]]; rewrite Ee in Hs; eauto|].
  intros k. destruct (ghost_effect db nid (start_time n) ids x y k Hnn Hsk Hids Hy) as (H1k & _ & H3k). by split.
Qed.

(** With room in the slice and workers that are late, the time is lost. *)
Theorem restart_overwrites_start_time n (x y : gmap bytes bytes) :
  let db := w_db (world n) in let nid := Nodeid n in
  up (redis db) → wbCh_closed db = false → drained db → node_name nid →
  hash_at (keys db) (node_index nid) = OK x → map_Forall (λ k _, session_key k) x →
  hash_at (keys db) sara_index = OK y →
  reads_late = true → shares_array nid (fmt_d (start_time n)) = true →
  ∃ w, cleanGhostSession n = (Ret tt, set_world w n) ∧
    ∀ es db2, db_run (w_db w) es (Ret tt) db2 → drained db2 →
      hash_at (keys db2) sara_index = OK (<[nid := nid ++ IDX_SUFFIX ++ drop 4 (fmt_d (start_time n))]> y).
Proof.
  intros db nid Hup Ho Hd Hnn Hx Hsk Hy Hl Hsh.
  destruct (cleanGhostSession_drains n x Hup Ho Hd Hnn Hx Hsk) as (ids & w & E & Hids & Hrun).
  exists w. split; [done|]. intros es db2 Hr Hd2. rewrite (Hrun es db2 Hr Hd2).
  destruct (ghost_effect db nid (start_time n) ids x y [] Hnn Hsk Hids Hy) as (_ & Hs & _).
  unfold entry_at, registration in Hs. by rewrite Hl, Hsh in Hs.
Qed.

(** The record of a session that has meanwhile been opened on another node is one of
    them: the restart deletes it, while the index of the other node still has it. *)
Theorem restart_erases_session_elsewhere n (x y z : gmap bytes bytes) (sid other : bytes) :
  let db := w_db (world n) in let nid := Nodeid n in
  up (redis db) → wbCh_closed db = false → drained db → node_name nid → node_name other → other ≠ nid →
  node_index other ≠ nid →
  hash_at (keys db) (node_index nid) = OK x → map_Forall (λ k _, session_key k) x →
  hash_at (keys db) sara_index = OK y → hash_at (keys db) (node_index other) = OK z →
  is_Some (x !! sid) →
  ∃ w, cleanGhostSession n = (Ret tt, set_world w n) ∧
    ∀ es db2, db_run (w_db w) es (Ret tt) db2 → drained db2 →
      str_at (keys db2) sid = None ∧ hash_at (keys db2) (node_index other) = OK z.
Proof.
  intros db nid Hup Ho Hd Hnn Hno Hne Hine Hx Hsk Hy Hz Hsid.
  destruct (cleanGhostSession_drains n x Hup Ho Hd Hnn Hx Hsk) as (ids & w & E & Hids & Hrun).
  exists w. split; [done|]. intros es db2 Hr Hd2. rewrite (Hrun es db2 Hr Hd2).
  destruct (ghost_effect db nid (start_time n) ids x y sid Hnn Hsk Hids Hy) as (H1k & _ & _).
  destruct (ghost_effect db nid (start_time n) ids x y (node_index other) Hnn Hsk Hids Hy) as (_ & _ & H3k).
  fold db nid. unfold str_at, hash_at. rewrite H1k by by left. split; [done|]. rewrite H3k; [exact Hz|done|..].
  - intros E'%node_index_inj. by destruct Hno.
  - by intros E'%node_index_inj.
  - destruct (x !! node_index other) as [v|] eqn:Ex; [|done]. destruct (nn_index _ Hno); exact (Hsk _ _ Ex).
Qed.

(** ** Counting *)

(** Every entry of the hash of all nodes is the name of the node and thirteen bytes. *)
Definition registered_nodes (y : gmap bytes bytes) : Prop :=
  map_Forall (λ nid v, ∃ ts, v = nid ++ ts ∧ length ts = 13%nat) y.

(** A timestamp in milliseconds has thirteen digits from 2001 to 2286. *)
Lemma entry_at_registered y nid ts :
  10 ^ 12 ≤ ts < 10 ^ 13 → registered_nodes y → registered_nodes (<[nid := entry_at nid ts]> y).
Proof.
  intros [Hlo Hhi] Hy. assert (length (fmt_d ts) = 13%nat) as Hl by by apply (fmt_d_length 12).
  apply map_Forall_insert_2; [|done]. destruct (entry_at_cases nid ts) as [->|[-> _]]; eexists; (split; [done|]); [done|].
  rewrite length_app, length_drop, Hl. reflexivity.
Qed.

(** The counter of a node: the size of its index, when that is a hash. *)
Definition counter_of (m : keyspace) (nid : bytes) : option json :=
  match hash_at m (node_index nid) with
  | inr x => Some (JObj [(§"count", JNum (fmt_d (Z.of_nat (size x)))); (§"node", JStr nid)])
  | inl _ => None
  end.

Lemma CountByIdx_runs idx db :
  up (redis db) →
  ∃ r db', CountByIdx idx db = (Ret r, db') ∧ up (redis db') ∧ keys db' = keys db ∧
    match hash_at (keys db) (idx ++ IDX_SUFFIX) with
    | inr x => r = OK (Z.of_nat (size x))
    | inl _ => ∃ e, r = ERR e
    end.
Proof.
  intros Hup. unfold CountByIdx. direct (HLEN (idx ++ IDX_SUFFIX)) db Hup. eexists _, db'. split; [reflexivity|].
  split_and!; [done..|]. cbn [redis_spec fst] in Hr.
  destruct (hash_at (keys db) (idx ++ IDX_SUFFIX)) as [e|x]; destruct a; try done.
  - by eexists.
  - cbn in Hr. by injection Hr as ->.
Qed.

Context {Q : Type}.
Implicit Types w : World D Q.

Lemma count_nodes_runs l w :
  up (redis (w_db w)) → Forall (λ kv, ∃ ts, kv.2 = kv.1 ++ ts ∧ length ts = 13%nat) l →
  ∃ w', count_nodes l.*2 w = (Ret (omap (counter_of (keys (w_db w))) l.*1), w').
Proof.
  intros Hup Hl. revert w Hup. induction Hl as [|[nid v] l (ts & Hv & Hlen) _ IH]; intros w Hup; [by eexists|].
  cbn [fst snd fmap list_fmap count_nodes] in *. subst v. rewrite length_app, Hlen.
  assert (Z.of_nat (length nid + 13) <? 13 = false) as -> by (apply Z.ltb_ge; lia).
  erewrite bind_Ret by reflexivity. rewrite take_app_length' by lia.
  destruct (CountByIdx_runs nid (w_db w) Hup) as (r & db' & E & Hu & Hk & Hr).
  erewrite bind_Ret by (unfold on_db; apply zoom_run; exact E).
  destruct (IH (set_db db' w) Hu) as (w' & Ew). cbn [w_db set_db] in Ew. rewrite Hk in Ew.
  erewrite bind_Ret by exact Ew. exists w'. unfold ret. cbn [omap list_omap].
  destruct (counter_of (keys (w_db w)) nid) eqn:Ec; unfold counter_of, node_index in Ec;
    (destruct (hash_at _ _) as [e|x]; [destruct Hr as [e' ->]|rewrite Hr]); simplify_eq; done.
Qed.

(** C25: [Counter] answers with exactly the registered nodes, each with the number of
    sessions in its index; a node whose index is not readable is left out. *)
Theorem Counter_counts_nodes (y : gmap bytes bytes) p w :
  up (redis (w_db w)) → hash_at (keys (w_db w)) sara_index = OK y → y ≠ ∅ → registered_nodes y →
  ∃ cs w', Counter p w = (Ret (mkSuccess [] true (Some (JObj [(§"counters", JArr cs)]))), w') ∧
    cs ≡ₚ omap (counter_of (keys (w_db w))) (map_to_list y).*1.
Proof.
  intros Hup Hy Hne Hreg. unfold Counter.
  destruct (GetByIdx_reads (w_db w) (§"sara") y Hup Hy) as (db' & vals & E & Hv & Hu & Hk).
  erewrite bind_Ret by (unfold on_db; apply zoom_run; exact E).
  destruct (Permutation_map_inv _ _ Hv) as (l & El & Hl). change (vals = l.*2) in El. subst vals.
  assert (Z.of_nat (length l.*2) <? 1 = false) as ->.
  { apply Z.ltb_ge. rewrite length_fmap, <-Hl, length_map_to_list.
    assert (size y ≠ 0%nat) by by rewrite map_size_empty_iff. lia. }
  destruct (count_nodes_runs l (set_db db' w) Hu) as (w' & Ew).
  { apply list.Forall_forall. intros [nid v] Hin. rewrite <-Hl, elem_of_map_to_list in Hin. exact (Hreg nid v Hin). }
  cbn [w_db set_db] in Ew. rewrite Hk in Ew. erewrite bind_Ret by exact Ew.
  do 2 eexists. split; [reflexivity|]. by rewrite Hl.
Qed.
End Ghost.
