(* ===== verification/Loss.v ===== *)
(** * Loss: the messages that no part of the system keeps.

    The router is a queue between the session of the sender and the session of the
    recipient ([node/router.go]).  A message for a user with a session record is not
    stored, so it exists only in that queue until a worker gives it to the session. *)

From S2P Require Import Prelude GoBytes Utf8 Json Gjson Types Conn Config Redis Database SaraDb World External Session SessionProps Rpc Node.

Section Loss.
Context `{GoLib} `{Oracles} `{Thrift} {R : Type} `{RedisLaws R}.
Abbreviation D := (SaraDatabase R).
Implicit Types (x : SState D (list routerItem)) (n : Node D).

(** Nothing has been stored and nothing has been queued. *)
Record nothing_kept (w w' : World D (list routerItem)) : Prop := {
  nk_router : w_router w' = w_router w;
  nk_keys : keys (w_db w') = keys (w_db w);
  nk_pending : pending (w_db w') = pending (w_db w) }.

#[local] Instance nothing_kept_preorder : PreOrder nothing_kept.
Proof. split; [by split|]. intros a b c [] []. split; congruence. Qed.

Lemma nothing_kept_asked w w' : asked w w' → nothing_kept w w'.
Proof. intros [Hd Hq _ _ _]. split; congruence. Qed.

Lemma Get_keeps k (db : D) :
  up (redis db) → ∃ r db', Get k db = (Ret r, db') ∧ keys db' = keys db ∧ pending db' = pending db ∧
    (∀ v, r = OK v ↔ str_at (keys db) k = Some v).
Proof.
  intros Hup. destruct (Get_seen db k Hup) as (db1 & r1 & E1 & _ & Hk1 & Hv1). exists r1, db1.
  split_and!; try done. revert E1. unfold Get. direct (GET k) db Hup. intros [= _ <-].
  unfold pending. congruence.
Qed.

(** Routing a message while the queue is full. *)
Lemma RoutePacket_full x j pk jf jt v :
  logged_in x j → from_to pk jf jt → same_user j jf → ¬ same_user j jt → up (redis (w_db (wld x))) →
  str_at (keys (w_db (wld x))) (ToSessionid jt) = Some v → ROUTER_QUEUE_SIZE ≤ Z.of_nat (length (w_router (wld x))) →
  ∃ x', RoutePacket pk x = (Ret tt, x') ∧ ses x' = ses x ∧ nothing_kept (wld x) (wld x').
Proof.
  intros Hl Hft Hf Ht Hup Hs Hq. rewrite (RoutePacket_runs x j pk jf jt Hl Hft).
  rewrite bool_decide_false, bool_decide_true by done.
  destruct (Get_keeps (ToSessionid jt) (w_db (wld x)) Hup) as (r & db' & E & Hk & Hp & Hv).
  erewrite bind_Ret by (apply db_runs, E). apply Hv in Hs as ->. cbv beta iota.
  pose proof (Router_Route_full (ss_Channel (NewSessionStatusFromJson v)) (ss_Sid (NewSessionStatusFromJson v)) (Some pk) 0 _ Hq) as Er.
  unfold router. erewrite bind_Ret by (unfold on_world, on_router; do 2 apply zoom_run; exact Er).
  eexists. split; [reflexivity|]. split; [done|]. by split.
Qed.

(** C38: a message of the client that asks for an acknowledgement is acknowledged before it is
    routed, and the error of a full queue is dropped: the client has the acknowledgement,
    and no queue, no buffer and no key has the message. *)
Theorem acknowledged_message_can_vanish x j c p pk jf jt v :
  logged_in x j → sc (ses x) = Some c → is_open c = true →
  NewPacket p = OK pk → p ≠ [HEART_BEAT] → Type__ (envelope_of pk) = MSG_TYPE_CHAT → Ack (envelope_of pk) ≠ 0 →
  from_to pk jf jt → same_user j jf → ¬ same_user j jt → up (redis (w_db (wld x))) →
  str_at (keys (w_db (wld x))) (ToSessionid jt) = Some v → ROUTER_QUEUE_SIZE ≤ Z.of_nat (length (w_router (wld x))) →
  ∃ now x', handle_packet p x = (Ret tt, x') ∧
    ses x' = mkSession (Status (ses x)) (Some (add_out c (ToJson (NewPacketAck now (Id (envelope_of pk)))))) (pkgBuff (ses x)) ∧
    nothing_kept (wld x) (wld x').
Proof.
  intros Hl Hc Ho Hp Hb Hty Ha Hft Hf Ht Hup Hs Hq.
  unfold handle_packet, get_Status. erewrite bind_Ret by reflexivity.
  rewrite decide_False by (rewrite (proj1 Hl); done). rewrite decide_False by done. rewrite Hp.
  erewrite bind_Ret by (apply world_runs; reflexivity). cbv zeta.
  match goal with |- context [set_Ct ?t pk] => set (ct := t) end. unfold EnvelopeIdFromToType.
  change (Type__ (envelope_of (set_Ct ct pk))) with (Type__ (envelope_of pk)).
  change (Ack (envelope_of (set_Ct ct pk))) with (Ack (envelope_of pk)).
  change (Id (envelope_of (set_Ct ct pk))) with (Id (envelope_of pk)).
  rewrite Hty, (proj2 (Z.eqb_neq _ _) Ha). cbn [Z.eqb MSG_TYPE_CHAT MSG_TYPE_STATE MSG_TYPE_GROUP_CHAT Pos.eqb andb negb].
  match goal with |- context [bind (bind ?m ?f) ?k ?y] => set (x2 := y); destruct (bind m f x2) as [o x4] eqn:E4 end.
  erewrite bind_Ret in E4 by (apply world_runs; reflexivity). unfold answer in E4.
  match type of E4 with SendMessage ?q ?y = _ => destruct (SendMessage_runs q y c Hc Ho) as (w4 & E4' & A4) end.
  rewrite E4 in E4'. injection E4' as -> ->. erewrite bind_Ret by exact E4.
  match goal with |- context [RoutePacket _ ?y] => set (x4 := y) end.
  assert (asked (wld x) (wld x4)) as A by by etrans; [|exact A4]. pose proof (ask_db _ _ A) as Ad. pose proof (ask_router _ _ A) as Ar.
  destruct (RoutePacket_full x4 j (set_Ct ct pk) jf jt v) as (x5 & E5 & S5 & N5); rewrite ?Ad, ?Ar; try done.
  do 2 eexists. split; [exact E5|]. rewrite S5. split; [reflexivity|]. etrans; [|exact N5]. by apply nothing_kept_asked.
Qed.

(** A packet whose session has left the map or is closed when the worker takes it from the
    queue is dropped: it is not stored for the user. *)
Theorem packet_of_a_gone_session_is_dropped n sid pk :
  (∀ s, sid ∈ sessionMap n → heap n !! sid = Some s → ss_Status (Status s) ≠ STATUS_LOGIN) →
  worker (mkItem (GetChannel (rpc n)) sid (Some pk) 0) n = (Ret tt, n).
Proof.
  intros Hg. unfold worker. erewrite bind_Ret by reflexivity.
  rewrite (bool_decide_true (GetChannel (rpc n) = GetChannel (rpc n))) by done. rewrite orb_true_r.
  erewrite bind_Ret by reflexivity. case_bool_decide as Hm; [|done].
  cbn [Z.eqb negb deref]. erewrite bind_Ret by reflexivity. unfold in_session.
  destruct (heap n !! sid) as [s|] eqn:Es; [|done].
  unfold RoutePacket, get_Status. erewrite bind_Ret by reflexivity. unfold login. cbn [ses].
  rewrite bool_decide_false by by apply Hg. cbn. rewrite insert_id by done. by destruct n.
Qed.
End Loss.

(** ** A delivery during a close *)

Section CloseRace.
Context `{GoLib} `{Oracles} {D Q : Type} `{DatabaseLaws D} `{RouterLaws Q}.
Implicit Types x : SState D Q.

(** What [RoutePacket] does, once it has seen that the session is logged in, with a packet for the
    user of the session; the reading goroutine may close the session in between. *)
Definition deliver (pk : Packet) : M (SState D Q) unit := pkgBuffAdd pk >>> SendMessage (ToJson pk).

Lemma RoutePacket_delivers x j pk jf jt :
  logged_in x j → from_to pk jf jt → same_user j jt → RoutePacket pk x = deliver pk x.
Proof. intros Hl Hft Ht. rewrite (RoutePacket_runs x j pk jf jt Hl Hft). by rewrite bool_decide_true. Qed.

(** On a closed connection the packet only enters the buffer. *)
Lemma deliver_closed x c pk :
  sc (ses x) = Some c → is_open c = false →
  ∃ w, deliver pk x = (Ret tt, mkS (mkSession (Status (ses x)) (Some c) (<[Id (envelope_of pk) := pk]> (pkgBuff (ses x)))) w) ∧
    asked (wld x) w.
Proof.
  intros Hc Ho. unfold deliver, pkgBuffAdd. erewrite bind_Ret by reflexivity.
  unfold SendMessage, WritePacket, get_conn, bind, gets. cbn. rewrite Hc. cbn. rewrite Ho.
  destruct (is_ws c); cbn; (eexists; split; [reflexivity|]); by split.
Qed.

(** C39: a message that a router worker delivers while the reading goroutine closes the session
    can be lost: when the close happens between the worker's look at the status and its write
    to the buffer, the client does not get the message, the close has stored only what was in
    the buffer before, and closing again stores nothing. *)
Theorem delivery_during_close_is_lost x j pk jf jt c msg :
  logged_in x j → from_to pk jf jt → same_user j jt → sc (ses x) = Some c → ready (w_db (wld x)) →
  map_Forall (λ _, addressed) (pkgBuff (ses x)) →
  RoutePacket pk x = deliver pk x ∧
  ∃ x1 x2 l, CloseSession msg x = (Ret tt, x1) ∧ deliver pk x1 = (Ret tt, x2) ∧
    pkgBuff (ses x2) !! Id (envelope_of pk) = Some pk ∧
    sc (ses x2) = Some (mkConn (is_ws c) (out c) false (deadline c)) ∧
    l ≡ₚ (map_to_list (pkgBuff (ses x))).*2 ∧
    w_db (wld x2) =
      foldl store_one (db_DeleteByIdxKey (ss_Nodeid (Status (ses x))) (ToSessionid j) (w_db (wld x))).2 l ∧
    ∀ again, CloseSession again x2 = (Ret tt, x2).
Proof.
  intros Hl Hft Ht Hc Hr Hb. split; [by eapply RoutePacket_delivers|]. destruct Hl as [Hl Hj].
  destruct (CloseSession_runs x c msg Hc Hr) as (x1 & l & E & Hp & Hd & _ & Hst & Hc1); try done; [by rewrite Hl|by eauto|].
  destruct (deliver_closed x1 _ pk Hc1 eq_refl) as (w & E2 & [K1 _ _ _ _]).
  exists x1. eexists. exists l. split; [done|]. split; [exact E2|]. cbn [ses pkgBuff sc wld]. rewrite lookup_insert_eq, K1, Hd.
  unfold logout_db, login. rewrite Hl, bool_decide_true, Hj by done. do 4 (split; [done|]). intros again.
  unfold CloseSession, get_Status. erewrite bind_Ret by reflexivity. cbn [ses Status]. by rewrite decide_True.
Qed.
End CloseRace.
