(* ===== verification/Relogin.v ===== *)
(** * Relogin: a second login of a user who is logged in on the same node.

    [verify] of [core/session.go] routes a kill signal to the recorded session; a worker of
    [node/router.go] takes it and kills that session.  The new session takes its place in
    the database, and then loses it: closing the old session queues the deletion of the
    record under the key both sessions share, and [saradb/database.go] carries the
    deletion out later. *)

From S2P Require Import Prelude GoBytes Utf8 Json Gjson Types Conn Config Redis Database SaraDb World External Session SessionProps Kept Rpc Node Ghost.

(** ** The login and the kill *)

Section Relogin.
Context `{GoLib} `{Oracles} `{Thrift} {D : Type} `{DatabaseLaws D}.
Implicit Types (n : Node D) (x : SState D (list routerItem)).

(** The packet handler with an accepted login request. *)
Lemma packetHandler_login_runs p pk j x c :
  good_login p pk j → sc (ses x) = Some c → is_open c = true → ss_Status (Status (ses x)) = STATUS_CONN →
  ready (w_db (wld x)) → indexable (w_db (wld x)) (ss_Nodeid (Status (ses x))) →
  authenticates (D := D) (Q := list routerItem) (w_conf (wld x)) j (Pwd (envelope_of pk)) true →
  ∃ x' c' pks, packetHandler (RPackets [p]) x = (Ret tt, x') ∧ logged_in x' j ∧
    ready (w_db (wld x')) ∧
    seen (w_db (wld x')) (ToSessionid j) = Some (SessionStatus_ToJson (Status (ses x'))) ∧
    sc (ses x') = Some c' ∧ is_open c' = true ∧
    out c' = out c ++ [sent c (ToJson (AddDelay pks (NewPacketAuthSuccess (Id (envelope_of pk)))))].
Proof.
  intros Hg Hc Ho Hst Hr Hi Ha.
  destruct (setSessionTimeout_runs PACKET_HANDLER_TIMEOUT x c Hc) as (dl & w1 & E1 & [K1 K2 K3 _ _]).
  match type of E1 with _ = (_, ?y) => set (x1 := y) in E1 end.
  destruct (openSession_runs p pk j x1 (mkConn (is_ws c) (out c) (is_open c) dl) Hg eq_refl Ho)
    as (x2 & pks & E2 & L2 & J2 & _ & _ & R2 & S2 & C2 & _); [cbn; by rewrite ?K1, ?K3..|].
  destruct (setSessionTimeout_runs 0 x2 _ C2) as (dl3 & w3 & E3 & [K4 _ _ _ _]).
  unfold packetHandler. erewrite bind_Ret by exact E1.
  assert (handler_body (RPackets [p]) x1 = (Ret tt, x2)) as Eb.
  { cbn [handler_body for_range]. unfold bind at 1, handle_packet, get_Status.
    erewrite bind_Ret by reflexivity. rewrite decide_True by exact Hst. by rewrite E2. }
  unfold bind at 1, recover. unfold bind at 1. rewrite Eb. unfold ret at 1. rewrite E3.
  do 3 eexists. split; [reflexivity|]. split; [split; [exact L2|cbn [ses Status]; rewrite J2; apply Hg]|].
  cbn [wld ses Status sc]. rewrite K4. do 3 (split; [done|]). by split.
Qed.

(** The worker that takes a kill signal for a session of this node. *)
Lemma worker_kills n sid s c :
  sid ∈ sessionMap n → heap n !! sid = Some s → sc s = Some c → is_open c = true →
  ss_Status (Status s) = STATUS_LOGIN → (∃ j, NewJID (ss_Jid (Status s)) = OK j) →
  map_Forall (λ _, addressed) (pkgBuff s) → ready (w_db (world n)) →
  ∃ n' s' l, worker (mkItem (GetChannel (rpc n)) sid None (zob KILL)) n = (Ret tt, n') ∧
    heap n' = <[sid := s']> (heap n) ∧ ss_Status (Status s') = STATUS_CLOSE ∧
    sc s' = Some (mkConn (is_ws c) (out c ++ [sent c [KILL]]) false (deadline c)) ∧
    l ≡ₚ (map_to_list (pkgBuff s)).*2 ∧
    w_db (world n') = foldl store_one (logout_db (Status s) (w_db (world n))) l ∧
    w_clean (world n') = w_clean (world n) ++ [ss_Sid (Status s)].
Proof.
  intros Hm Hs Hc Ho Hl Hj Hb Hr. unfold worker. erewrite bind_Ret by reflexivity.
  rewrite (bool_decide_true (GetChannel (rpc n) = GetChannel (rpc n))) by done. rewrite orb_true_r.
  erewrite bind_Ret by reflexivity. rewrite bool_decide_true by done.
  change (zob KILL =? 0) with false. rewrite Z.eqb_refl. cbn [negb]. unfold in_session. rewrite Hs.
  unfold Kill. destruct (SendMessage_runs [KILL] (mkS s (world n)) c Hc Ho) as (w1 & E1 & [K1 _ _ _ K5]).
  erewrite bind_Ret by exact E1.
  match goal with |- context [CloseSession _ ?y] => set (x1 := y) end.
  destruct (CloseSession_runs x1 (add_out c [KILL]) (§"kill")) as (x2 & l & E2 & Hp & Ed & Ek & Es & Ec); try done.
  - cbn [x1 wld]. by rewrite K1.
  - cbn [x1 ses Status]. by rewrite Hl.
  - rewrite E2. exists (set_heap (<[sid:=ses x2]> (heap n)) (set_world (wld x2) n)), (ses x2), l.
    split; [reflexivity|]. cbn [heap world set_heap set_world]. rewrite Ed, Ek, Ec. cbn [x1 wld ses Status]. by rewrite K1, K5.
Qed.

Lemma relogin_runs n sid s c sid0 s0 c0 p pk j :
  heap n !! sid = Some s → sc s = Some c → is_open c = true → ss_Status (Status s) = STATUS_CONN →
  heap n !! sid0 = Some s0 → sid ≠ sid0 → sid0 ∈ sessionMap n → sc s0 = Some c0 → is_open c0 = true →
  logged_in (mkS s0 (world n)) j → ss_Sid (Status s0) = sid0 → ss_Channel (Status s0) = GetChannel (rpc n) →
  wf_status (Status s0) → map_Forall (λ _, addressed) (pkgBuff s0) →
  good_login p pk j → ready (w_db (world n)) → indexable (w_db (world n)) (ss_Nodeid (Status s)) →
  seen (w_db (world n)) (ToSessionid j) = Some (SessionStatus_ToJson (Status s0)) → w_router (world n) = [] →
  authenticates (D := D) (Q := list routerItem) (w_conf (world n)) j (Pwd (envelope_of pk)) true →
  ∃ n1 n2 s1 s2 c1 item l pks,
    in_session sid (packetHandler (RPackets [p])) n = (Ret tt, n1) ∧ w_router (world n1) = [item] ∧
    seen (w_db (world n1)) (ToSessionid j) = Some (SessionStatus_ToJson (Status s1)) ∧
    worker item (set_world (set_router [] (world n1)) n1) = (Ret tt, n2) ∧
    heap n2 !! sid = Some s1 ∧ logged_in (mkS s1 (world n2)) j ∧ sc s1 = Some c1 ∧ is_open c1 = true ∧
    out c1 = out c ++ [sent c (ToJson (AddDelay pks (NewPacketAuthSuccess (Id (envelope_of pk)))))] ∧
    heap n2 !! sid0 = Some s2 ∧ ss_Status (Status s2) = STATUS_CLOSE ∧
    sc s2 = Some (mkConn (is_ws c0) (out c0 ++ [sent c0 [KILL]]) false (deadline c0)) ∧
    l ≡ₚ (map_to_list (pkgBuff s0)).*2 ∧
    w_db (world n2) =
      foldl store_one (db_DeleteByIdxKey (ss_Nodeid (Status s0)) (ToSessionid j) (w_db (world n1))).2 l ∧
    w_clean (world n2) = w_clean (world n1) ++ [sid0].
Proof.
  intros Hs Hc Ho Hst Hs0 Hne Hm Hc0 Ho0 [Hl0 Hj0] Hsid Hch Hwf Hb Hg Hr Hi Hse Hq Ha.
  set (x := mkS s (world n)).
  destruct (packetHandler_login_runs p pk j x c Hg Hc Ho Hst Hr Hi Ha) as (x' & c1 & pks & E & Hl & Hr1 & Hs1 & Hc1 & Ho1 & Hout).
  assert (sc (ses x) ≠ None) as Hn by (cbn; by rewrite Hc).
  pose proof (packetHandler_login_router p pk j x true Hg Hn Hst Hr Ha) as Hrt.
  change (wld x) with (world n) in Hrt. rewrite Hse, (status_roundtrip _ Hwf), Hq, Hch, Hsid, E in Hrt.
  cbn [snd] in Hrt. change ((Route _ _ _ _ []).2) with [mkItem (GetChannel (rpc n)) sid0 None (zob KILL)] in Hrt.
  set (n1 := set_heap (<[sid:=ses x']> (heap n)) (set_world (wld x') n)).
  assert (heap n1 !! sid0 = Some s0) as Hs0' by (cbn; by rewrite lookup_insert_ne).
  destruct (worker_kills (set_world (set_router [] (world n1)) n1) sid0 s0 c0) as (n2 & s2 & l & E2 & Hh & Hcl & Hc2 & Hp & Hd & Hk); try done; [by exists j|].
  exists n1, n2, (ses x'), s2, c1. do 3 eexists. unfold in_session. rewrite Hs. fold x. rewrite E.
  split; [reflexivity|]. split; [exact Hrt|]. split; [exact Hs1|]. split; [exact E2|].
  rewrite Hh. cbn [heap set_heap set_world n1]. rewrite lookup_insert_ne, lookup_insert_eq, lookup_insert_eq by done.
  split; [done|]. split; [exact Hl|]. do 2 (split; [done|]). split; [exact Hout|]. do 3 (split; [done|]).
  split; [exact Hp|]. rewrite Hd, Hk, Hsid. unfold logout_db, login. cbn [ses] in Hl0, Hj0.
  by rewrite Hl0, bool_decide_true, Hj0.
Qed.

(** C8: a second login of a user on one node replaces the first session: the new session is
    logged in, answered and recorded, and the worker that takes the one item the login left in
    the router sends the kill byte to the first client, closes its session and its connection,
    stores each packet it had not acknowledged exactly once, queues the deletion of its record
    and reports it for cleaning. *)
Theorem relogin_replaces_session n sid s c sid0 s0 c0 p pk j :
  heap n !! sid = Some s → sc s = Some c → is_open c = true → ss_Status (Status s) = STATUS_CONN →
  heap n !! sid0 = Some s0 → sid ≠ sid0 → sid0 ∈ sessionMap n → sc s0 = Some c0 → is_open c0 = true →
  logged_in (mkS s0 (world n)) j → ss_Sid (Status s0) = sid0 → ss_Channel (Status s0) = GetChannel (rpc n) →
  wf_status (Status s0) → map_Forall (λ _, addressed) (pkgBuff s0) →
  good_login p pk j → ready (w_db (world n)) → indexable (w_db (world n)) (ss_Nodeid (Status s)) →
  seen (w_db (world n)) (ToSessionid j) = Some (SessionStatus_ToJson (Status s0)) → w_router (world n) = [] →
  authenticates (D := D) (Q := list routerItem) (w_conf (world n)) j (Pwd (envelope_of pk)) true →
  ∃ n1 n2 s1 s2 c1 item l pks,
    in_session sid (packetHandler (RPackets [p])) n = (Ret tt, n1) ∧ w_router (world n1) = [item] ∧
    seen (w_db (world n1)) (ToSessionid j) = Some (SessionStatus_ToJson (Status s1)) ∧
    worker item (set_world (set_router [] (world n1)) n1) = (Ret tt, n2) ∧
    heap n2 !! sid = Some s1 ∧ logged_in (mkS s1 (world n2)) j ∧ sc s1 = Some c1 ∧ is_open c1 = true ∧
    out c1 = out c ++ [sent c (ToJson (AddDelay pks (NewPacketAuthSuccess (Id (envelope_of pk)))))] ∧
    heap n2 !! sid0 = Some s2 ∧ ss_Status (Status s2) = STATUS_CLOSE ∧
    sc s2 = Some (mkConn (is_ws c0) (out c0 ++ [sent c0 [KILL]]) false (deadline c0)) ∧
    l ≡ₚ (map_to_list (pkgBuff s0)).*2 ∧
    w_db (world n2) =
      foldl store_one (db_DeleteByIdxKey (ss_Nodeid (Status s0)) (ToSessionid j) (w_db (world n1))).2 l ∧
    w_clean (world n2) = w_clean (world n1) ++ [sid0].
Proof. apply relogin_runs. Qed.
End Relogin.

(** ** Session records are written at once and deleted later *)

(** Every queued command on the key of a session record is a deletion. *)
Section Calm.
Context {R : Type} `{RedisLaws R}.
Abbreviation D := (SaraDatabase R).
Implicit Types db : D.

Definition is_del (c : rcmd) : Prop := ∃ k, c = DEL k.
Definition calm db : Prop := Forall (λ c, session_key (rkey c) → is_del c) (pending db).

(** Calm queues stay calm, nothing queued is lost, and redis keeps answering. *)
Record calmer db db' : Prop := {
  ca_calm : calm db → calm db';
  ca_grow : pending db ⊆ pending db';
  ca_up : up (redis db) → up (redis db') }.

#[export] Instance calmer_preorder : PreOrder calmer.
Proof. split; [by split|]. intros a b c [] []. split; [auto|by etrans|auto]. Qed.

Lemma calmer_direct c : kept calmer (executeDirect c).
Proof. intros db. split; [intros Hc; exact Hc|done|apply redis_up]. Qed.

Lemma calmer_queue db db' c :
  (session_key (rkey c) → is_del c) → pending db' ≡ₚ c :: pending db → redis db' = redis db → calmer db db'.
Proof.
  intros Hc Hp Hr. split; [|rewrite Hp; set_solver|by rewrite Hr]. unfold calm. rewrite Hp. by constructor.
Qed.

Lemma calmer_execute c : (session_key (rkey c) → is_del c) → kept calmer (execute c).
Proof.
  intros Hc db. unfold execute, send_wbCh, bind. destruct (wbCh_closed db); cbn; [done|].
  apply (calmer_queue _ _ c); [done| |done]. unfold pending. cbn. rewrite cmds_app. cbn. solve_Permutation.
Qed.

Lemma calmer_execute4s c : (session_key (rkey c) → is_del c) → kept calmer (execute4s c).
Proof.
  intros Hc db. unfold execute4s, modify, bind. cbn.
  apply (calmer_queue _ _ c); [done| |done]. unfold pending. cbn. rewrite cmds_app. cbn. solve_Permutation.
Qed.

Lemma calmer_other c : ¬ session_key (rkey c) → kept calmer (execute c).
Proof. intros Hc. apply calmer_execute. by intros ?%Hc. Qed.
Lemma calmer_other4s c : ¬ session_key (rkey c) → kept calmer (execute4s c).
Proof. intros Hc. apply calmer_execute4s. by intros ?%Hc. Qed.
Lemma calmer_DEL k : kept calmer (execute (DEL k)).
Proof. apply calmer_execute. intros _. by eexists. Qed.
Lemma calmer_DEL4s k : kept calmer (execute4s (DEL k)).
Proof. apply calmer_execute4s. intros _. by eexists. Qed.
#[local] Hint Resolve calmer_direct calmer_DEL calmer_DEL4s : sara.

Lemma not_4s key : is4s key = false → ¬ session_key key.
Proof. intros E Hs%is4s_spec. congruence. Qed.

Lemma calmer_Get k : kept calmer (db_Get k).
Proof. cbn. unfold Get. kept_tac. Qed.
Lemma calmer_GetByIdx k : kept calmer (db_GetByIdx k).
Proof. cbn. unfold GetByIdx. kept_tac. Qed.
Lemma calmer_Delete k : kept calmer (Delete k).
Proof. unfold Delete. kept_tac. Qed.
#[local] Hint Resolve calmer_Delete : sara.
Lemma calmer_PutEx k v ex : kept calmer (db_PutEx k v ex).
Proof. cbn. unfold PutEx. kept_tac. apply calmer_other. by apply not_4s. Qed.
Lemma calmer_PutExWithIdx idx k v ex : ¬ session_key (node_index idx) → kept calmer (db_PutExWithIdx idx k v ex).
Proof.
  intros Hi. cbn. unfold PutExWithIdx. destruct (is4s k) eqn:E; [kept_tac|]. apply not_4s in E.
  kept_tac; by apply calmer_other.
Qed.
Lemma calmer_DeleteByIdxKey idx k : ¬ session_key (node_index idx) → kept calmer (db_DeleteByIdxKey idx k).
Proof. intros Hi. cbn. unfold DeleteByIdxKey. kept_tac; first [by apply calmer_other4s|by apply calmer_other]. Qed.
End Calm.

Lemma offline_index_plain (j : JID) : ¬ session_key (node_index (ToOfflineKey j)).
Proof. intros [r Hr]. by vm_compute in Hr. Qed.

(** The handlers of the sessions of a node keep the queues calm. *)
Section CalmSessions.
Context `{GoLib} `{Oracles} {R Q : Type} `{RedisLaws R} `{MessageRouter Q}.
Abbreviation D := (SaraDatabase R).

Definition calm_w (w w' : World D Q) : Prop := calmer (w_db w) (w_db w').
Definition calm_s (nid : bytes) (x x' : SState D Q) : Prop :=
  ss_Nodeid (Status (ses x)) = nid → ss_Nodeid (Status (ses x')) = nid ∧ calm_w (wld x) (wld x').

Lemma calm_same w w' : w_db w' = w_db w → calm_w w w'.
Proof. unfold calm_w. by intros ->. Qed.
Lemma calm_db {A} (m : M D A) : kept calmer m → kept calm_w (on_db m).
Proof. intros Hm w. specialize (Hm (w_db w)). unfold on_db, zoom. by destruct (m (w_db w)) as [o d]. Qed.

#[export] Instance calm_world : WorldRel calm_w.
Proof.
  split; try (intros; apply calm_db).
  - split; [by intros w; apply calm_same|]. unfold calm_w. intros a b c ? ?. by etrans.
  - intros w w' [E _ _ _ _]. by apply calm_same.
  - intros k ids w. by apply calm_same.
  - apply calmer_Get.
  - apply calmer_GetByIdx.
  - apply calmer_PutEx.
  - apply calmer_PutExWithIdx, offline_index_plain.
  - apply calmer_DeleteByIdxKey, offline_index_plain.
  - intros ch sid p sg w. unfold on_router, zoom. destruct (Route _ _ _ _ _). by apply calm_same.
Qed.

Context (nid : bytes) (Hnid : ¬ session_key (node_index nid)).

#[local] Instance calm_session : SessionRel calm_w (calm_s nid).
Proof.
  split; [apply _|..].
  - split; [intros x Hn; split; [done|by apply calm_same]|]. unfold calm_s. intros a b c Hab Hbc Hn.
    destruct (Hab Hn) as [Hb ?], (Hbc (proj1 (Hab Hn))) as [Hc ?]. split; [done|by etrans].
  - intros A m Hm x Hn. specialize (Hm (wld x)). unfold on_world, zoom. by destruct (m (wld x)).
  - intros x c c' _ _ Hn. split; [done|by apply calm_same].
  - intros x b Hn. split; [done|by apply calm_same].
Qed.
#[local] Instance calm_deadline : DeadlineRel (calm_s nid).
Proof. intros x c t _ Hn. split; [done|by apply calm_same]. Qed.

(** A handler sees the node id of its session. *)
Lemma calm_Status {A} (k : SessionStatus → M (SState D Q) A) :
  (∀ st, ss_Nodeid st = nid → kept (calm_s nid) (k st)) → kept (calm_s nid) (bind get_Status k).
Proof. intros Hk x Hn. by apply (Hk (Status (ses x)) Hn). Qed.

#[local] Instance calm_handlers : HandlerRel calm_w (calm_s nid).
Proof.
  assert (∀ f, (∀ s, ss_Nodeid (f s) = ss_Nodeid s) → kept (calm_s nid) (put_Status f)) as Hput.
  { intros f Hf x Hn. split; [|by apply calm_same]. cbn. by rewrite Hf. }
  assert (∀ A (m : M D A), kept calmer m → kept (calm_s nid) (db m)) as Hdb by (intros; by apply hr_world, calm_db).
  assert (∀ sid, kept (calm_s nid) (on_world (send_clean sid))) as Hcl by (intros sid; apply hr_world; intros w; by apply calm_same).
  split; [apply _|..].
  - intros jid ct. by apply Hput.
  - intros msg. unfold CloseSession. apply calm_Status. intros st Hst.
    kept_tac; [apply Hdb, calmer_DeleteByIdxKey; by rewrite Hst|by apply Hput..].
  - unfold storeSessionStatus. apply calm_Status. intros st Hst. kept_tac. apply Hdb, calmer_PutExWithIdx. by rewrite Hst.
Qed.

End CalmSessions.

(** ** The new record is deleted *)

Section Unreachable.
Context `{GoLib} `{Oracles} `{Thrift} {R : Type} `{RedisLaws R}.
Abbreviation D := (SaraDatabase R).
Implicit Types (n : Node D) (db : D).




End Unreachable.
