(* ===== verification/Clean.v ===== *)
(** * Clean: closed sessions leave the session map.

    [CloseSession] of [core/session.go] sends the id of the session on the channel [clean],
    and the loop [clean] of [node/node.go] removes what it receives from [sessionMap].  No
    session of the map is closed without its id being on the channel, so the map keeps no
    closed session once the loop has caught up. *)

From S2P Require Import Prelude GoBytes Utf8 Json Gjson Types Conn Config Database World External Session SessionProps Kept Rpc Node Sound.

Section Handlers.
Context `{GoLib} `{Oracles} {D Q : Type} `{Database D} `{MessageRouter Q}.
Abbreviation W := (World D Q).
Abbreviation S_ := (SState D Q).

(** A handler takes nothing from the channel. *)
Definition more (w w' : W) : Prop := w_clean w ⊆ w_clean w'.

(** A session that is closed is on the channel. *)
Definition reported (x : S_) : Prop :=
  ss_Status (Status (ses x)) = STATUS_CLOSE → ss_Sid (Status (ses x)) ∈ w_clean (wld x).

Record reports (x x' : S_) : Prop := {
  re_more : more (wld x) (wld x');
  re_sid : ss_Sid (Status (ses x')) = ss_Sid (Status (ses x));
  re_reported : reported x → reported x' }.

Lemma more_same w w' : w_clean w' = w_clean w → more w w'.
Proof. unfold more. by intros ->. Qed.
Lemma more_db {A} (m : M D A) : kept more (on_db m).
Proof. intros w. unfold on_db, zoom. destruct (m (w_db w)). by apply more_same. Qed.

#[export] Instance more_world : WorldRel more.
Proof.
  split; try (intros; apply more_db).
  - split; [by intros w; apply more_same|]. unfold more. intros a b c ? ?. by etrans.
  - intros w w' [_ _ _ _ E]. by apply more_same.
  - intros k ids w. by apply more_same.
  - intros ch sid p sg w. unfold on_router, zoom. destruct (Route _ _ _ _ _). by apply more_same.
Qed.

#[export] Instance reports_session : SessionRel more reports.
Proof.
  split; [apply _|..].
  - split; [by intros x; split; [apply more_same|..]|]. intros a b c [] []. split; [by etrans|congruence|auto].
  - intros A m Hm x. specialize (Hm (wld x)). unfold on_world, zoom. destruct (m (wld x)) as [o w]. cbn in *.
    split; [done|done|]. unfold reported. cbn. intros Hr Hc. by apply Hm, Hr.
  - intros x c c' _ _. by split; [apply more_same|..].
  - intros x b. by split; [apply more_same|..].
Qed.
#[export] Instance reports_deadline : DeadlineRel reports.
Proof. intros x c t _. by split; [apply more_same|..]. Qed.

(** A session that is on the channel may change in every way but its id. *)
Definition on_channel (x x' : S_) : Prop :=
  more (wld x) (wld x') ∧ ss_Sid (Status (ses x')) = ss_Sid (Status (ses x)).

#[local] Instance on_channel_session : SessionRel more on_channel.
Proof.
  split; [apply _|..].
  - split; [by intros x; split; [apply more_same|..]|]. intros a b c [] []. split; [by etrans|congruence].
  - intros A m Hm x. specialize (Hm (wld x)). unfold on_world, zoom. by destruct (m (wld x)) as [o w].
  - intros x c c' _ _. by split; [apply more_same|..].
  - intros x b. by split; [apply more_same|..].
Qed.

Lemma reports_CloseSession msg : kept reports (CloseSession msg).
Proof.
  intros x. unfold CloseSession, get_Status. erewrite bind_Ret by reflexivity.
  destruct (decide _); [reflexivity|]. erewrite bind_Ret by (apply world_runs; reflexivity).
  match goal with |- context [bind ?a ?k ?y] => set (m := bind a k); set (x1 := y) end.
  assert (∀ A (m : M D A), kept on_channel (db m)) by (intros A m'; apply hr_world, more_db).
  assert (kept on_channel m) as Hm by (subst m; kept_tac; intros y; by split; [apply more_same|]).
  destruct (Hm x1) as [H1' H2']. assert (more (wld x) (wld x1)) as Hmore by (unfold more; cbn; set_solver).
  split; [by etrans|by rewrite H2'|]. intros _ _. rewrite H2'. apply H1'. cbn. set_solver.
Qed.

#[export] Instance reports_handlers : HandlerRel more reports.
Proof.
  split; [apply _|..].
  - intros jid ct x. split; [by apply more_same|done|]. intros _. by unfold reported.
  - apply reports_CloseSession.
  - unfold storeSessionStatus, get_Status, db. kept_tac. apply hr_world, more_db.
Qed.
End Handlers.

Section Swept.
Context `{GoLib} `{Oracles} `{Thrift} {D : Type} `{Database D}.
Implicit Types n : Node D.

(** Every closed session of the map is on the channel. *)
Definition swept n : Prop :=
  ∀ sid s, sid ∈ sessionMap n → heap n !! sid = Some s → ss_Status (Status s) = STATUS_CLOSE → sid ∈ w_clean (world n).

Lemma swept_world n w : more (world n) w → swept n → swept (set_world w n).
Proof. intros Hm Hs sid s Hin Hh Hc. by eapply Hm, Hs. Qed.

Lemma swept_session sid (m : M (SState D (list routerItem)) unit) n :
  kept reports m → node_ok n → swept n → swept (in_session sid m n).2.
Proof.
  intros Hm [Hok _ _] Hs. unfold in_session. destruct (heap n !! sid) as [s|] eqn:Es; [|done].
  specialize (Hm (mkS s (world n))). destruct (m (mkS s (world n))) as [o x]. cbn in *.
  destruct Hm as [Hmore Hsid Hrep]. cbn in *. intros sid' s' Hin Hh Hc. cbn in *.
  destruct (decide (sid = sid')) as [<-|Hne].
  - rewrite lookup_insert_eq in Hh. injection Hh as <-. rewrite <-(Hok sid s Es), <-Hsid. apply Hrep; [|done].
    intros Hc'. cbn in *. rewrite (Hok sid s Es). by eapply Hs.
  - rewrite lookup_insert_ne in Hh by done. by eapply Hmore, Hs.
Qed.

Lemma swept_in_world {A} (m : M (World D (list routerItem)) A) n : kept more m → swept n → swept (in_world m n).2.
Proof.
  intros Hm Hs. specialize (Hm (world n)). unfold in_world, zoom. destruct (m (world n)) as [o w]. by apply swept_world.
Qed.

(** A new session is not closed. *)
Lemma NewSessionOn_new ws c (w : World D (list routerItem)) :
  more w (NewSessionOn ws c w).2 ∧ ∀ s, (NewSessionOn ws c w).1 = Ret s → ss_Status (Status s) = STATUS_CONN.
Proof.
  assert (kept (more (D := D) (Q := list routerItem)) (newSession c)) as Hn by (apply kept_asks; [apply _|]; unfold newSession; ask).
  specialize (Hn w). unfold NewSessionOn. destruct (newSession c w) as [[s|e] w1] eqn:E; [|done]. cbn in Hn.
  assert (ss_Status (Status s) = STATUS_CONN) as Hs.
  { unfold newSession, bind in E. destruct (uuid_rand w) as [[u|] w2]; [|done].
    destruct (lift_outcome _ w2) as [[nid|] w3]; [|done]. by injection E as <- _. }
  set (s1 := mkSession _ _ _).
  destruct (setSessionTimeout_runs 0 (mkS s1 w1) _ eq_refl) as (dl & w2 & -> & [_ _ _ _ K5]). cbn.
  split; [|by intros s2 [= <-]]. etrans; [exact Hn|by apply more_same].
Qed.

Lemma swept_register ws n s w :
  NewSessionOn ws (GetChannel (rpc n)) (world n) = (Ret s, w) → swept n → swept (registerSession s (set_world w n)).2.
Proof.
  intros E Hs. destruct (NewSessionOn_new ws (GetChannel (rpc n)) (world n)) as [Hm Hn]. rewrite E in Hm, Hn.
  specialize (Hn s eq_refl). unfold registerSession. erewrite bind_Ret by reflexivity.
  assert (∀ sid s', <[ss_Sid (Status s):=s]> (heap n) !! sid = Some s' → ss_Status (Status s') = STATUS_CLOSE →
            sid ≠ ss_Sid (Status s) ∧ heap n !! sid = Some s') as Hold.
  { intros sid s' Hh Hc. destruct (decide (sid = ss_Sid (Status s))) as [->|Hne].
    - rewrite lookup_insert_eq in Hh. injection Hh as <-. by rewrite Hn in Hc.
    - by rewrite lookup_insert_ne in Hh. }
  destruct (decide _); intros sid s' Hin Hh Hc; cbn in *; destruct (Hold sid s' Hh Hc) as [Hne Hh']; apply Hm;
    eapply Hs; try done. set_solver.
Qed.

(** Together with the invariant that files sessions under their ids. *)
Definition ok_swept n : Prop := node_ok n ∧ swept n.

#[export] Instance swept_inv : NodeInv ok_swept.
Proof.
  split.
  - intros ws n s w E [Hok Hs]. split; [by eapply ni_new|by eapply swept_register].
  - intros sid m n Hm [Hok Hs]. split; [by apply ni_session|]. apply swept_session; [|done..].
    destruct Hm as [r| |p]; [apply (kept_packetHandler more _)|apply (kept_Kill more _)|apply (kept_RoutePacket more _)].
  - intros m n Hm [Hok Hs]. split; [by apply ni_world|]. apply swept_in_world; [|done].
    destruct Hm as [p|msg]; [apply kept_StorePacket, _|apply kept_dataChannelHandler, _].
  - intros item q n Eq [Hok Hs]. split; [by eapply ni_take|done].
  - intros sid q n Eq [Hok Hs]. split; [by eapply ni_clean|]. intros sid' s' Hin Hh Hc. cbn in *.
    apply elem_of_difference in Hin as [Hin Hne]. pose proof (Hs sid' s' Hin Hh Hc) as Hcl. rewrite Eq in Hcl. set_solver.
  - intros r n [Hok Hs]. split; [by apply ni_rpc|done].
  - intros d n [Hok Hs]. split; [by apply ni_env|done].
Qed.

Lemma fresh_swept n : fresh n → swept n.
Proof. intros [Hh _ _] sid s _. by rewrite Hh. Qed.

(** The loop [clean] takes everything that is on the channel. *)
Lemma clean_catches_up n :
  ∃ n', rtc node_step n n' ∧ w_clean (world n') = [] ∧ heap n' = heap n ∧
    sessionMap n' = sessionMap n ∖ list_to_set (w_clean (world n)).
Proof.
  remember (w_clean (world n)) as l eqn:El. revert n El. induction l as [|sid l IH]; intros n El.
  - exists n. split_and!; [done..|]. cbn. set_solver.
  - set (n1 := (clean sid (set_world (set_clean l (world n)) n)).2).
    destruct (IH n1 eq_refl) as (n' & Hr & Hc & Hh & Hm). exists n'. split_and!; [|done..|].
    + eapply rtc_l; [|exact Hr]. by eapply (ns_clean sid l).
    + rewrite Hm. cbn. set_solver.
Qed.

(** ** Accepting in two steps *)

(** [dispatcher] in two steps, with the ids of the sessions that are created and not yet
    registered: the reading goroutine of a session runs from its creation on.  A session is
    registered while it is open; [early_close_leaks_session] is what happens otherwise. *)
Inductive fine_step : Node D * list bytes → Node D * list bytes → Prop :=
| fs_node n n' l : node_step n n' → fine_step (n, l) (n', l)
| fs_create ws n s w l :
    NewSessionOn ws (GetChannel (rpc n)) (world n) = (Ret s, w) →
    fine_step (n, l) (set_heap (<[ss_Sid (Status s) := s]> (heap n)) (set_world w n), ss_Sid (Status s) :: l)
| fs_register sid s n n' l1 l2 :
    heap n !! sid = Some s → ss_Status (Status s) ≠ STATUS_CLOSE → registerSession s n = (Ret tt, n') →
    fine_step (n, l1 ++ sid :: l2) (n', l1 ++ l2).

(** [dispatcher] is the two steps in a row. *)
Lemma dispatcher_parts ws n s w l :
  NewSessionOn ws (GetChannel (rpc n)) (world n) = (Ret s, w) →
  ∃ n', dispatcher ws n = (Ret tt, n') ∧ rtc fine_step (n, l) (n', l).
Proof.
  intros E. destruct (NewSessionOn_new ws (GetChannel (rpc n)) (world n)) as [_ Hst]. rewrite E in Hst. specialize (Hst s eq_refl).
  set (n1 := set_heap (<[ss_Sid (Status s) := s]> (heap n)) (set_world w n)).
  assert (registerSession s (set_world w n) = registerSession s n1) as Er.
  { unfold registerSession. erewrite !bind_Ret by reflexivity. cbn. by rewrite insert_insert_eq. }
  assert (∃ n', registerSession s n1 = (Ret tt, n')) as [n' En].
  { unfold registerSession. erewrite bind_Ret by reflexivity. destruct (decide _); by eexists. }
  exists n'. split.
  - unfold dispatcher. erewrite bind_Ret by reflexivity.
    assert ((if ws then NewWsSession (GetChannel (rpc n)) else NewTcpSession (GetChannel (rpc n))) (world n) = (Ret s, w)) as E'
      by (by destruct ws).
    erewrite bind_Ret by (unfold in_world; apply zoom_run; exact E'). by rewrite Er.
  - eapply rtc_l; [by eapply fs_create|]. apply rtc_once. eapply (fs_register _ s n1 n' [] l); [apply lookup_insert_eq| |done].
    by rewrite Hst.
Qed.

Lemma ok_swept_create ws n s w :
  NewSessionOn ws (GetChannel (rpc n)) (world n) = (Ret s, w) → ok_swept n →
  ok_swept (set_heap (<[ss_Sid (Status s) := s]> (heap n)) (set_world w n)).
Proof.
  intros E [Hok Hs]. destruct (NewSessionOn_new ws (GetChannel (rpc n)) (world n)) as [Hm Hn]. rewrite E in Hm, Hn.
  specialize (Hn s eq_refl). pose proof (bw_NewSessionOn ws (GetChannel (rpc n)) (world n)) as Hb. rewrite E in Hb.
  destruct Hok as [K1 K2 K3]. split.
  - split; cbn; [by apply map_Forall_insert_2| |by apply Hb]. intros sid Hin.
    destruct (decide (ss_Sid (Status s) = sid)) as [<-|]; [by rewrite lookup_insert_eq|]. rewrite lookup_insert_ne by done. by apply K2.
  - intros sid s' Hin Hh Hc. cbn in *. apply Hm. destruct (decide (ss_Sid (Status s) = sid)) as [<-|].
    + rewrite lookup_insert_eq in Hh. injection Hh as <-. by rewrite Hn in Hc.
    + rewrite lookup_insert_ne in Hh by done. by eapply Hs.
Qed.

Lemma ok_swept_register sid s n n' :
  heap n !! sid = Some s → ss_Status (Status s) ≠ STATUS_CLOSE → registerSession s n = (Ret tt, n') → ok_swept n → ok_swept n'.
Proof.
  intros Hh Hst E [Hok Hs]. split.
  { change n' with ((Ret tt, n').2). rewrite <-E. by apply ok_register. }
  rewrite <-(ok_sid n Hok sid s Hh) in Hh. unfold registerSession in E. erewrite bind_Ret in E by reflexivity.
  destruct (decide _); injection E as <-; intros sid' s' Hin Hh' Hc; cbn in *; rewrite insert_id in Hh' by done.
  - by eapply Hs.
  - apply elem_of_union in Hin as [->%elem_of_singleton|Hin]; [|by eapply Hs]. rewrite Hh in Hh'. by injection Hh' as <-.
Qed.

Lemma fine_swept a b : rtc fine_step a b → ok_swept a.1 → ok_swept b.1.
Proof.
  induction 1 as [|a b c Hs _ IH]; [done|]. intros Ha. apply IH. clear IH.
  destruct Hs as [n n' l Hs|ws n s w l E|sid s n n' l1 l2 Hh Hst E]; cbn in *.
  - by eapply (inv_step ok_swept).
  - by eapply ok_swept_create.
  - by eapply ok_swept_register.
Qed.

(** C13: the map of sessions does not leak.  In every run from the start of a node in which
    sessions are created, read and registered in separate steps, and each is still open when it
    is registered, the loop [clean] alone leads to a state in which the channel of closed
    sessions is empty and no session of the map is closed; it removes from the map exactly the
    ids that were on the channel and touches no session. *)
Theorem closed_sessions_leave_the_map n0 n l :
  fresh n0 → rtc fine_step (n0, []) (n, l) →
  ∃ n', rtc node_step n n' ∧ w_clean (world n') = [] ∧ heap n' = heap n ∧
    sessionMap n' = sessionMap n ∖ list_to_set (w_clean (world n)) ∧
    ∀ sid s, sid ∈ sessionMap n' → heap n' !! sid = Some s → ss_Status (Status s) ≠ STATUS_CLOSE.
Proof.
  intros Hf Hr. destruct (fine_swept _ _ Hr) as [_ Hsw]; [by split; [apply fresh_sane|apply fresh_swept]|].
  destruct (clean_catches_up n) as (n' & Hs & Hc & Hh & Hm). exists n'. split_and!; [done..|].
  intros sid s Hin Hs' Hcl. rewrite Hm in Hin. rewrite Hh in Hs'. apply elem_of_difference in Hin as [Hin Hne].
  apply Hne, elem_of_list_to_set. by eapply Hsw.
Qed.

(** Closing a session that has not logged in and has no packet. *)
Lemma CloseSession_fresh msg s c (w : World D (list routerItem)) :
  ss_Status (Status s) = STATUS_CONN → sc s = Some c → pkgBuff s = ∅ →
  ∃ s', CloseSession msg (mkS s w) = (Ret tt, mkS s' (set_clean (w_clean w ++ [ss_Sid (Status s)]) w)) ∧
    ss_Sid (Status s') = ss_Sid (Status s) ∧ ss_Status (Status s') = STATUS_CLOSE.
Proof.
  intros Hst Hc Hb. unfold CloseSession, get_Status. erewrite bind_Ret by reflexivity. cbn [ses].
  rewrite decide_False by by rewrite Hst. erewrite bind_Ret by (apply world_runs; reflexivity).
  unfold login. rewrite bool_decide_false by by rewrite Hst. erewrite bind_Ret by reflexivity.
  erewrite bind_Ret by reflexivity. erewrite bind_Ret by (apply conn_Close_runs; exact Hc).
  unfold pkgBuffToStore. erewrite bind_Ret by reflexivity. cbn [ses set_ses pkgBuff set_wld]. rewrite decide_True by done.
  eexists. split; [reflexivity|]. done.
Qed.

(** [dispatcher] registers a session after its reading goroutine has been started: when the
    connection fails at once, the session is closed and its id taken from the channel before it is
    registered, and the closed session stays in the map with nothing on the channel. *)
Theorem early_close_leaks_session ws msg n s w :
  NewSessionOn ws (GetChannel (rpc n)) (world n) = (Ret s, w) → sc s ≠ None → pkgBuff s = ∅ →
  ss_Sid (Status s) ≠ [] → w_clean w = [] →
  ∃ s' w', CloseSession msg (mkS s w) = (Ret tt, mkS s' w') ∧ w_clean w' = [ss_Sid (Status s)] ∧
    let n1 := (clean (ss_Sid (Status s)) (set_world (set_clean [] w') n)).2 in
    ∃ n2, registerSession s' n1 = (Ret tt, n2) ∧ ss_Sid (Status s) ∈ sessionMap n2 ∧
      heap n2 !! ss_Sid (Status s) = Some s' ∧ ss_Status (Status s') = STATUS_CLOSE ∧ w_clean (world n2) = [].
Proof.
  intros Hn Hsc Hb Hsid Hcl. destruct (NewSessionOn_new ws (GetChannel (rpc n)) (world n)) as [_ Hst].
  rewrite Hn in Hst. specialize (Hst s eq_refl). destruct (sc s) as [c|] eqn:Hc; [|done].
  destruct (CloseSession_fresh msg s c w Hst Hc Hb) as (s' & E & Es & Ec). exists s'. eexists. split; [exact E|].
  cbn [w_clean set_clean]. rewrite Hcl. split; [done|]. cbv zeta. unfold registerSession. rewrite Es.
  erewrite bind_Ret by reflexivity. rewrite decide_False by done. eexists. split; [reflexivity|]. cbn.
  rewrite lookup_insert_eq. split; [set_solver|]. done.
Qed.
End Swept.
