(* ===== verification/Deadline.v ===== *)
(** * Deadline: the read deadlines of connections.

    [setSessionTimeout] of [core/session.go] bounds how long a connection may stay silent:
    eight seconds before the login, a hundred after it, and two hundred while packets are
    handled.  A session never waits for its client without a deadline. *)

From S2P Require Import Prelude GoBytes Utf8 Json Gjson Types Conn Config Database World External Session SessionProps Kept Rpc Node Sound.

Section Handlers.
Context `{GoLib} `{Oracles} {D Q : Type} `{Database D} `{MessageRouter Q}.
Implicit Types x : SState D Q.

Definition any_world (w w' : World D Q) : Prop := True.
#[export] Instance any_world_rel : WorldRel any_world.
Proof. by repeat split. Qed.

(** The deadline of a session. *)
Definition session_deadline (s : Session) : option Z := c ← sc s; deadline c.

(** Between setting deadlines a handler leaves the deadline alone. *)
Definition same_deadline (x x' : SState D Q) : Prop :=
  session_deadline (ses x') = session_deadline (ses x) ∧ (is_Some (sc (ses x)) → is_Some (sc (ses x'))).

#[local] Instance same_deadline_session : SessionRel any_world same_deadline.
Proof.
  split; [apply _|..].
  - split; [by split|]. intros a b c [E1 I1] [E2 I2]. split; [congruence|auto].
  - intros A m _ x. unfold on_world, zoom. by destruct (m (wld x)).
  - intros x c c' Hc Hd. unfold same_deadline, session_deadline. cbn. rewrite Hc. cbn. by rewrite Hd.
  - intros x b. done.
Qed.

Lemma same_deadline_put f : kept same_deadline (put_Status f).
Proof. intros x. done. Qed.

#[local] Instance same_deadline_handlers : HandlerRel any_world same_deadline.
Proof.
  assert (∀ A (m : M (World D Q) A), kept same_deadline (on_world m)) as Hw by (intros A m; by apply hr_world).
  assert (∀ A (m : M D A), kept same_deadline (db m)) as Hdb by (intros A m; apply Hw).
  pose proof same_deadline_put.
  split; [apply _|auto|..].
  - intros msg. unfold CloseSession, get_Status. kept_tac.
  - unfold storeSessionStatus, get_Status. kept_tac.
Qed.

Lemma handler_body_deadline r : kept same_deadline (handler_body r).
Proof. apply (kept_handler_body any_world _). Qed.

(** A session that has a deadline has one after every handler. *)
Definition timed (x x' : SState D Q) : Prop :=
  is_Some (session_deadline (ses x)) → is_Some (session_deadline (ses x')).

#[export] Instance timed_session : SessionRel any_world timed.
Proof.
  split; [apply _|..].
  - split; [by intros x Hx|]. unfold timed. intros a b c; auto.
  - intros A m _ x. unfold on_world, zoom. destruct (m (wld x)). intros Hx. exact Hx.
  - intros x c c' Hc Hd. unfold timed, session_deadline. cbn. rewrite Hc. cbn. by rewrite Hd.
  - intros x b Hx. exact Hx.
Qed.
#[export] Instance timed_deadline : DeadlineRel timed.
Proof. intros x c t _ _. by exists t. Qed.
#[export] Instance timed_handlers : HandlerRel any_world timed.
Proof.
  assert (∀ m : M (SState D Q) unit, kept same_deadline m → kept timed m) as Hs.
  { intros m Hm x Hx. destruct (Hm x) as [E _]. by rewrite E. }
  split; [apply _|..].
  - intros jid ct. apply Hs, same_deadline_put.
  - intros msg. apply Hs, (hr_close (Rw := any_world)).
  - apply Hs, (hr_record (Rw := any_world)).
Qed.

(** What [setSessionTimeout] sets. *)
Definition timeout_of (sec : Z) (st : SessionStatus) : Z :=
  if 0 <? sec then sec else if decide (ss_Status st = STATUS_CONN) then LOGIN_TIMEOUT else SESSION_TIMEOUT.

Lemma setSessionTimeout_sets sec x :
  is_Some (sc (ses x)) →
  ∃ x', setSessionTimeout sec x = (Ret tt, x') ∧ Status (ses x') = Status (ses x) ∧ is_Some (sc (ses x')) ∧
    session_deadline (ses x') = Some (clock_ns (n_clock (wld x)) + 1000000000 * timeout_of sec (Status (ses x))).
Proof.
  intros [c Hc]. unfold setSessionTimeout, get_Status, SetReadTimeout, get_conn, gets, bind. cbn. rewrite Hc. cbn.
  eexists. split; [reflexivity|]. cbn. split_and!; [done|by eexists|]. unfold timeout_of, session_deadline. cbn.
  do 2 f_equal. destruct (0 <? sec); [done|]. f_equal. by case_bool_decide; case_decide.
Qed.

(** The deadline after handling what was read: reset according to the state the session is in
    then, unless the handling panicked, which leaves the long deadline of its start. *)
Lemma packetHandler_deadline r x :
  is_Some (sc (ses x)) →
  ∃ x1 x', setSessionTimeout PACKET_HANDLER_TIMEOUT x = (Ret tt, x1) ∧ packetHandler r x = (Ret tt, x') ∧
    match handler_body r x1 with
    | (Ret _, x2) =>
        Status (ses x') = Status (ses x2) ∧
        session_deadline (ses x') = Some (clock_ns (n_clock (wld x2)) + 1000000000 * timeout_of 0 (Status (ses x2)))
    | (Panic _, x2) =>
        x' = x2 ∧ session_deadline (ses x') = Some (clock_ns (n_clock (wld x)) + 1000000000 * PACKET_HANDLER_TIMEOUT)
    end.
Proof.
  intros Hc. destruct (setSessionTimeout_sets PACKET_HANDLER_TIMEOUT x Hc) as (x1 & E1 & _ & Hc1 & Hd1).
  pose proof (handler_body_deadline r x1) as [Hd Hs]. specialize (Hs Hc1).
  destruct (handler_body r x1) as [[[]|e] x2] eqn:E2; cbn [snd] in Hd, Hs.
  - destruct (setSessionTimeout_sets 0 x2 Hs) as (x3 & E3 & Es3 & _ & Hd3). exists x1, x3. split; [done|]. split; [|by rewrite E2].
    unfold packetHandler. erewrite bind_Ret by exact E1. unfold bind at 1, recover. unfold bind at 1. rewrite E2. exact E3.
  - exists x1, x2. split; [done|]. split; [|rewrite E2; split; [done|by rewrite Hd, Hd1]].
    unfold packetHandler. erewrite bind_Ret by exact E1. unfold bind at 1, recover. unfold bind at 1. by rewrite E2.
Qed.
End Handlers.

(** ** Every session of a node *)

Section Nodes.
Context `{GoLib} `{Oracles} `{Thrift} {D : Type} `{Database D}.
Implicit Types n : Node D.

Definition all_timed : Node D → Prop := all_sessions (λ s, is_Some (session_deadline s)).

(** A new session has the deadline of the login. *)
Lemma NewSessionOn_deadline ws c (w w' : World D (list routerItem)) s :
  NewSessionOn ws c w = (Ret s, w') →
  session_deadline s = Some (clock_ns (n_clock w) + 1000000000 * LOGIN_TIMEOUT).
Proof.
  unfold NewSessionOn, newSession. erewrite bind_Ret by reflexivity. unfold bind, lift_outcome.
  destruct (GetString _ _ _) as [nid|e]; [|done]. cbn [ret].
  match goal with |- context [setSessionTimeout 0 ?y] => destruct (setSessionTimeout_sets 0 y) as (x' & E & _ & _ & Hd) end; [by eexists|].
  rewrite E. intros [= <- _]. rewrite Hd. done.
Qed.

#[export] Instance all_timed_inv : NodeInv all_timed.
Proof.
  apply heap_inv; [intros ws c w w' s E; eexists; by eapply NewSessionOn_deadline|].
  intros m x [r| |p] Hx; [by apply (kept_packetHandler any_world timed)|by apply (kept_Kill any_world timed)
    |by apply (kept_RoutePacket any_world timed)].
Qed.

Lemma reachable_timed n : reachable n → all_timed n.
Proof.
  intros (n0 & [Hh _ _] & Hr). eapply (inv_steps all_timed); [exact Hr|].
  unfold all_timed, all_sessions. rewrite Hh. apply map_Forall_empty.
Qed.

(** C14: whatever a node has done since its start, no session waits for its client for ever: every
    session has a read deadline, and handling what is read sets it to eight seconds from then if
    the session is not logged in yet and to a hundred otherwise; when the handling panics it stays
    at two hundred seconds from the start of the handling. *)
Theorem every_session_has_a_deadline n sid s r :
  reachable n → heap n !! sid = Some s →
  is_Some (session_deadline s) ∧
  ∃ x1 x', setSessionTimeout PACKET_HANDLER_TIMEOUT (mkS s (world n)) = (Ret tt, x1) ∧
    packetHandler r (mkS s (world n)) = (Ret tt, x') ∧
    match handler_body r x1 with
    | (Ret _, x2) =>
        Status (ses x') = Status (ses x2) ∧
        session_deadline (ses x') =
          Some (clock_ns (n_clock (wld x2)) + 1000000000 * if decide (ss_Status (Status (ses x2)) = STATUS_CONN) then 8 else 100)
    | (Panic _, x2) =>
        x' = x2 ∧ session_deadline (ses x') = Some (clock_ns (n_clock (world n)) + 1000000000 * 200)
    end.
Proof.
  intros Hr Hs. pose proof (reachable_timed n Hr sid s Hs) as Ht. split; [done|].
  apply (packetHandler_deadline r (mkS s (world n))). destruct Ht as [t Ht]. unfold session_deadline in Ht. cbn [ses].
  by destruct (sc s).
Qed.
End Nodes.
