(* ===== verification/Client.v ===== *)
(** * Client: [benchmark/makeconn.go], the client of the connection benchmark.

    A client dials the server, logs in, acknowledges what it receives and sends messages
    to users picked at random from the index of the users that are logged in.  Together
    with the sessions of the server this closes the protocol: the texts of the client are
    those the server reads, and the other way round. *)

From S2P Require Import Prelude GoBytes Utf8 Json Gjson Types Conn Config Redis Database World External Session SessionProps.

(** ** Texts *)

(** [fmt.Sprintf] with the verb [%s]. *)
Fixpoint Sprintf (format : bytes) (args : list bytes) : bytes :=
  match format with
  | "%"%char :: "s"%char :: rest =>
      match args with
      | a :: args' => a ++ Sprintf rest args'
      | [] => §"%!s(MISSING)" ++ Sprintf rest []
      end
  | c :: rest => c :: Sprintf rest args
  | [] => []
  end.

Definition sfpacket : bytes :=
  quoted "{'envelope':{'pwd':'123','jid':'%s@a.a','type':0,'id':'%s'},'vsn':'0.0.1'}".
Definition messageTemplate : bytes :=
  quoted "{'envelope':{'from':'%s@a.a','to':'%s@a.a','type':1,'id':'%s'},'vsn':'0.0.1','payload':{'content':'%s'}}".
Definition messageAck : bytes :=
  quoted "{'envelope':{'type':3,'from':'%s','to':'server_ack','id':'%s'},'vsn':'0.0.1'}".

(** ** [sessionIndex] *)

(** [math/rand]: the [k]-th number of the generator below [n]. *)
Class Rand := {
  Intn_ : nat → Z → Z;
  Intn_range k n : 0 < n → 0 ≤ Intn_ k n < n }.

Record sessionIndex := mkIndex {
  uidMap : gmap bytes nat;
  uidArr : list bytes;
  si_send : Z;
  si_recv : Z;
  n_rand : nat }.

Definition newSessionIndex : sessionIndex := mkIndex ∅ [] 0 0 0.

Section Index.
Context `{Rand}.

Definition si_add (uid : bytes) : M sessionIndex unit := modify (λ si,
  match uidMap si !! uid with
  | Some _ => si
  | None =>
      let arr := uidArr si ++ [uid] in
      mkIndex (<[uid := (length arr - 1)%nat]> (uidMap si)) arr (si_send si) (si_recv si) (n_rand si)
  end).

Definition si_del (uid : bytes) : M sessionIndex unit := λ si,
  match uidMap si !! uid with
  | None => (Ret tt, si)
  | Some idx =>
      if decide (idx < length (uidArr si))%nat then
        (Ret tt, mkIndex (delete uid (uidMap si)) (<[idx := []]> (uidArr si)) (si_send si) (si_recv si) (n_rand si))
      else (Panic index_out_of_range, si)
  end.

(** [rand.Intn], which panics unless its argument is positive. *)
Definition Intn (n : Z) : M sessionIndex Z := λ si,
  if 0 <? n then
    (Ret (Intn_ (n_rand si) n), mkIndex (uidMap si) (uidArr si) (si_send si) (si_recv si) (S (n_rand si)))
  else (Panic (§"invalid argument to Intn"), si).

(** [rand]: a panic is recovered, and the result is then empty. *)
Definition si_rand (uid : bytes) : M sessionIndex bytes :=
  recover
    (let! arr := gets uidArr in
     if Z.of_nat (length arr) <=? 0 then ret []
     else
       let! idx := Intn (Z.of_nat (length arr) - 1) in
       match arr !! Z.to_nat idx with
       | None => panic index_out_of_range
       | Some to => ret (if decide (uid = to) then [] else to)
       end)
    (λ _, ret []).

(** [counter]: 32 bits. *)
Definition si_counter (action : bytes) : M sessionIndex unit := modify (λ si,
  if decide (action = §"W") then mkIndex (uidMap si) (uidArr si) (wrap_s 32 (si_send si + 1)) (si_recv si) (n_rand si)
  else if decide (action = §"R") then mkIndex (uidMap si) (uidArr si) (si_send si) (wrap_s 32 (si_recv si + 1)) (n_rand si)
  else si).

(** ** A client *)

(** The client with the index of all clients: its connection, what it has written, and
    whether [_stop] has been closed. *)
Record Client := mkClient {
  c_index : sessionIndex;
  c_uid : bytes;
  c_state : bytes;
  c_written : list bytes;
  c_closed : bool;
  c_stopped : bool }.

Abbreviation CM := (M Client).

Definition set_index (i : sessionIndex) (c : Client) : Client :=
  mkClient i (c_uid c) (c_state c) (c_written c) (c_closed c) (c_stopped c).
Definition in_index {A} (m : M sessionIndex A) : CM A := zoom c_index set_index m.

(** [conn.Write] and [WritePacket]: errors of a closed connection are dropped. *)
Definition c_write (data : bytes) : CM unit := modify (λ c,
  mkClient (c_index c) (c_uid c) (c_state c) (if c_closed c then c_written c else c_written c ++ [data])
    (c_closed c) (c_stopped c)).

Context `{GoLib}.

(** [start]: [id] is the fresh id, [werr] what the first write returns and [reply] what
    the first read returns, at most 256 bytes. *)
Definition client_start (id : bytes) (werr : error) (reply : result bytes) : CM unit :=
  let! uid := gets c_uid in
  match werr with
  | Some _ => ret tt
  | None =>
      c_write (Sprintf sfpacket [uid; id] ++ [END_FLAG]) >>>
      match reply with
      | inl _ => ret tt
      | inr buf =>
          let buf := take 256 buf in
          if decide (buf = []) then panic (§"slice bounds out of range") else
          let b := take (length buf - 1) buf in
          let state := String_ (Gjson.Get b (§"entity.result")) in
          modify (λ c, mkClient (c_index c) (c_uid c) state (c_written c) (c_closed c) (c_stopped c)) >>>
          if decide (state = §"ok") then in_index (si_add uid)
          else modify (λ c, mkClient (c_index c) (c_uid c) (c_state c) (c_written c) true (c_stopped c))
      end
  end.

(** One round of the goroutine that keeps the session alive. *)
Definition heartbeat_round : CM unit := c_write [HEART_BEAT; END_FLAG].

(** One round of the write thread. *)
Definition write_round (content : bytes) (sendMessage : bool) (id : bytes) : CM unit :=
  if negb (bool_decide (content = [])) && sendMessage then
    let! from := gets c_uid in
    let! to := in_index (si_rand from) in
    if decide (to = []) then ret tt
    else
      c_write (Sprintf messageTemplate [from; to; id; content] ++ [END_FLAG]) >>>
      in_index (si_counter (§"W"))
  else ret tt.

(** [close(_stop)]. *)
Definition close_stop : CM unit := λ c,
  if c_stopped c then (Panic (§"close of closed channel"), c)
  else (Ret tt, mkClient (c_index c) (c_uid c) (c_state c) (c_written c) (c_closed c) true).

(** One packet of the callback given to [ReadPacket]. *)
Definition receive_one (packet : bytes) : CM unit :=
  match NewPacket packet with
  | inl _ => ret tt
  | inr p =>
      let '(id, fm, to, tp) := EnvelopeIdFromToType p in
      if negb (tp =? MSG_TYPE_STATE) then
        c_write (Sprintf messageAck [to; id] ++ [END_FLAG]) >>> in_index (si_counter (§"R"))
      else ret tt
  end.

Definition receive (r : ReadPacketResult) : CM unit :=
  match r with
  | RErr _ => let! uid := gets c_uid in in_index (si_del uid) >>> close_stop
  | RPackets packets => for_range packets receive_one
  end.
End Index.

(** ** The set-up of [MakeConn] *)

(** The local ports that are handed out. *)
Definition local_ports (total : nat) : list Z := map (λ k, 65535 - Z.of_nat k) (seq 0 (total + 100)).

(** The size of the channel they are put into, before anybody takes one. *)
Definition port_pool_size : Z := 65535.

(** The message text, [messageSize] letters. *)
Definition init_content (messageSize : nat) : bytes := repeat "a"%char messageSize.

(** How [newClient] connects: [localAddr] is the list given on the command line, [laddr]
    one element of it. *)
Inductive dial_request := DialTimeout (addr : bytes) | DialTCP (local remote : bytes).

Definition dial_of (localAddr addr laddr : bytes) (lport : Z) : dial_request :=
  if decide (laddr = []) then DialTimeout addr
  else DialTCP (localAddr ++ §":" ++ fmt_d lport) addr.

(** [newClient]: [dial] answers the request; on a new connection a client with the fresh name
    [uid] starts ([id], [werr] and [reply] as for [client_start]). *)
Definition newClient `{Rand} `{GoLib} (dial : dial_request → error) (localAddr addr laddr : bytes) (lport : Z)
    (uid id : bytes) (werr : error) (reply : result bytes) : M sessionIndex (result Client) := λ si,
  match dial (dial_of localAddr addr laddr lport) with
  | Some err => (Ret (ERR err), si)
  | None =>
      let '(o, c) := client_start id werr reply (mkClient si uid [] [] false false) in
      (match o with Ret _ => Ret (OK c) | Panic p => Panic p end, c_index c)
  end.

(** The connections of one round of [genTcp]. *)
Definition genTcp (localAddr addr : bytes) (lport : Z) : list dial_request :=
  if decide (localAddr = []) then [dial_of localAddr addr [] 0]
  else map (λ laddr, dial_of localAddr addr laddr lport) (Split localAddr ","%char).

(** ** The index *)

Section IndexProps.
Context `{Rand}.

(** The array and the map agree, deleted entries are empty. *)
Definition index_ok (si : sessionIndex) : Prop :=
  (∀ uid i, uidMap si !! uid = Some i → uidArr si !! i = Some uid) ∧
  (∀ uid i, uidArr si !! i = Some uid → uid ≠ [] → uidMap si !! uid = Some i).

Inductive index_step : sessionIndex → sessionIndex → Prop :=
| is_add uid si : uid ≠ [] → index_step si (si_add uid si).2
| is_del uid si : index_step si (si_del uid si).2
| is_rand uid si : index_step si (si_rand uid si).2
| is_counter a si : index_step si (si_counter a si).2.

Lemma si_rand_keeps uid si : uidMap (si_rand uid si).2 = uidMap si ∧ uidArr (si_rand uid si).2 = uidArr si.
Proof.
  unfold si_rand, recover, bind, gets, Intn, ret, panic. repeat (case_match; simplify_eq/=); done.
Qed.

Lemma index_step_ok si si' : index_step si si' → index_ok si → index_ok si'.
Proof.
  intros Hs [H1 H2]. destruct Hs as [uid si Hne|uid si|uid si|a si].
  - cbn. destruct (uidMap si !! uid) as [i|] eqn:E; [done|]. rewrite length_app. cbn [length].
    replace (length (uidArr si) + 1 - 1)%nat with (length (uidArr si)) by lia. split; cbn.
    + intros u i [[<- <-]|[Hu Hi]]%lookup_insert_Some; [by apply list_lookup_middle|].
      by apply lookup_app_l_Some, H1.
    + intros u i [Hi|[Hl Hi]]%lookup_app_Some Hu.
      * rewrite lookup_insert_ne; [by apply H2|]. intros ->. by rewrite (H2 _ _ Hi Hu) in E.
      * apply list_lookup_singleton_Some in Hi as [Hi <-]. rewrite lookup_insert_eq. f_equal. lia.
  - unfold si_del. destruct (uidMap si !! uid) as [idx|] eqn:E; [|done]. case_decide; [|done]. split; cbn.
    + intros u i [Hne Hi]%lookup_delete_Some. rewrite list_lookup_insert_ne; [by apply H1|].
      intros ->. apply H1 in Hi, E. congruence.
    + intros u i Hi Hu. apply list_lookup_insert_Some in Hi as [(<- & <- & _)|[Hne Hi]]; [done|].
      rewrite lookup_delete_ne; [by apply H2|]. intros ->. rewrite (H2 _ _ Hi Hu) in E. congruence.
  - destruct (si_rand_keeps uid si) as [Em Ea]. split; rewrite Em, Ea; done.
  - cbn. repeat case_decide; done.
Qed.

Lemma index_reachable_ok si : rtc index_step newSessionIndex si → index_ok si.
Proof.
  intros Hr. assert (index_ok newSessionIndex) as H0 by by split. revert H0.
  induction Hr as [|a b c Hab _ IH]; [done|]. intros Ha. by eapply IH, index_step_ok.
Qed.

(** The target of a message: whatever clients have come and gone, [rand] is empty or names
    another user who is logged in; the user who came last is never picked, and with one
    user nobody is. *)
Theorem rand_picks_another_user uid si :
  rtc index_step newSessionIndex si →
  ∃ to, (si_rand uid si).1 = Ret to ∧
    (to = [] ∨ to ≠ uid ∧ ∃ i, uidMap si !! to = Some i ∧ (S i < length (uidArr si))%nat).
Proof.
  intros [_ H2]%index_reachable_ok.
  unfold si_rand, recover, bind, gets. destruct (Z.leb_spec (Z.of_nat (length (uidArr si))) 0); [by eauto|].
  unfold Intn. destruct (Z.ltb_spec 0 (Z.of_nat (length (uidArr si)) - 1)) as [Hn|Hn]; [|by eauto].
  pose proof (Intn_range (n_rand si) _ Hn) as Hr. destruct (uidArr si !! _) as [to|] eqn:E; [|by eauto].
  cbn. eexists. split; [done|]. case_decide; [by left|]. destruct (decide (to = [])) as [->|Hto]; [by left|].
  right. split; [by apply not_eq_sym|]. eexists. split; [by apply H2|]. lia.
Qed.

(** A client that leaves is never picked afterwards, and its departure does not panic. *)
Lemma si_del_runs uid si : index_ok si → (si_del uid si).1 = Ret tt ∧ uidMap (si_del uid si).2 !! uid = None.
Proof.
  intros [H1 _]. unfold si_del. destruct (uidMap si !! uid) as [i|] eqn:E; [|done].
  rewrite decide_True by by apply H1, lookup_lt_Some in E. split; [done|]. cbn. apply lookup_delete_eq.
Qed.
End IndexProps.

(** ** The protocol *)

Lemma json_string_plain s : plain_key s → json_string s = dq :: s ++ [dq].
Proof. intros Hs. unfold json_string. by rewrite enc_body_plain. Qed.

Lemma plain_app a b : plain_key a → plain_key b → plain_key (a ++ b).
Proof. intros Ha Hb. by apply Forall_app. Qed.

(** A text all of whose bytes are written as they are. *)
Definition plain_text (s : bytes) : bool := forallb (λ c, html_safe (zob c)) s.

Lemma plain_text_ok s : plain_text s = true → plain_key s.
Proof. unfold plain_text. rewrite forallb_forall. intros Hs. apply List.Forall_forall. exact Hs. Qed.

(** Texts with holes, as lists of bytes. *)
Ltac text_eq := cbv -[app]; repeat progress (cbn [app]; rewrite <-?app_assoc); reflexivity.
Ltac plain := first [eassumption|apply plain_text_ok; vm_compute; reflexivity|apply plain_app; plain].
Ltac wf_text :=
  repeat first [apply (number_ok_fmt_u 0); lia|apply (number_ok_fmt_u 1); lia|apply (number_ok_fmt_u 3); lia
               |apply plain_key_utf8; plain|constructor].

(** The JSON documents the client writes. *)
Definition login_envelope (uid id : bytes) : json :=
  JObj [(§"pwd", JStr (§"123")); (§"jid", JStr (uid ++ §"@a.a")); (§"type", JNum (§"0")); (§"id", JStr id)].
Definition message_envelope (from to id : bytes) : json :=
  JObj [(§"from", JStr (from ++ §"@a.a")); (§"to", JStr (to ++ §"@a.a")); (§"type", JNum (§"1")); (§"id", JStr id)].
Definition ack_envelope (to id : bytes) : json :=
  JObj [(§"type", JNum (§"3")); (§"from", JStr to); (§"to", JStr (§"server_ack")); (§"id", JStr id)].
Definition client_doc (envelope : json) (more : list (bytes * json)) : json :=
  JObj ((§"envelope", envelope) :: (§"vsn", JStr (§"0.0.1")) :: more).

Lemma login_text_json uid id :
  plain_key uid → plain_key id → Sprintf sfpacket [uid; id] = print (client_doc (login_envelope uid id) []).
Proof.
  intros Hu Hi. unfold login_envelope, client_doc. cbn [print map fst snd].
  rewrite (json_string_plain (uid ++ §"@a.a")) by plain. rewrite (json_string_plain id) by done. text_eq.
Qed.

Lemma message_text_json from to id content :
  plain_key from → plain_key to → plain_key id → plain_key content →
  Sprintf messageTemplate [from; to; id; content] =
  print (client_doc (message_envelope from to id) [(§"payload", JObj [(§"content", JStr content)])]).
Proof.
  intros Hf Ht Hi Hc. unfold message_envelope, client_doc. cbn [print map fst snd].
  rewrite (json_string_plain (from ++ §"@a.a")), (json_string_plain (to ++ §"@a.a")) by plain.
  rewrite (json_string_plain id), (json_string_plain content) by done. text_eq.
Qed.

Lemma ack_text_json to id :
  plain_key to → plain_key id → Sprintf messageAck [to; id] = print (client_doc (ack_envelope to id) []).
Proof.
  intros Ht Hi. unfold ack_envelope, client_doc. cbn [print map fst snd].
  rewrite (json_string_plain to), (json_string_plain id) by done. text_eq.
Qed.

Section Protocol.
Context `{GoLib}.

(** The server reads them as the client means them. *)
Lemma login_text_packet uid id :
  plain_key uid → plain_key id →
  ∃ pk, NewPacket (Sprintf sfpacket [uid; id]) = OK pk ∧
    envelope_of pk = mkEnvelope id (uid ++ §"@a.a") [] [] MSG_TYPE_OPEN_SESSION 0 [] (§"123") [].
Proof.
  intros Hu Hi. rewrite login_text_json by done. eexists.
  split; [apply NewPacket_print; [unfold login_envelope; wf_text|reflexivity]|reflexivity].
Qed.

Lemma message_text_packet from to id content :
  plain_key from → plain_key to → plain_key id → plain_key content →
  ∃ pk, NewPacket (Sprintf messageTemplate [from; to; id; content]) = OK pk ∧
    envelope_of pk = mkEnvelope id [] (from ++ §"@a.a") (to ++ §"@a.a") MSG_TYPE_CHAT 0 [] [] [].
Proof.
  intros Hf Ht Hi Hc. rewrite message_text_json by done. eexists.
  split; [apply NewPacket_print; [unfold message_envelope; wf_text|reflexivity]|reflexivity].
Qed.

Lemma ack_text_packet to id :
  plain_key to → plain_key id →
  ∃ pk, NewPacket (Sprintf messageAck [to; id]) = OK pk ∧
    envelope_of pk = mkEnvelope id [] to SERVER_ACK MSG_TYPE_STATE 0 [] [] [].
Proof.
  intros Ht Hi. rewrite ack_text_json by done. eexists.
  split; [apply NewPacket_print; [unfold ack_envelope; wf_text|reflexivity]|reflexivity].
Qed.

(** The client finds the result in the answer to its login. *)
Lemma answer_result pks id :
  plain_key id →
  String_ (Gjson.Get (ToJson (AddDelay pks (NewPacketAuthSuccess id))) (§"entity.result")) = §"ok".
Proof.
  intros Hi. set (e := mkEnvelope id [] [] [] MSG_TYPE_OPEN_SESSION 0 [] [] []).
  assert (wf_json (envelope_json e)) as He.
  { apply envelope_json_wf. split_and!; first [apply plain_key_utf8; plain|split; vm_compute; congruence]. }
  assert (∃ d, ToJson (AddDelay pks (NewPacketAuthSuccess id)) =
    print (JObj [(§"envelope", envelope_json e); (§"entity", JObj [(§"result", JStr (§"ok"))]); (§"delay", d)])) as [d ->]
    by by eexists.
  cbn [print]. unfold Gjson.Get. cbn [app span]. rewrite ceq_refl. cbn [orb snd]. rewrite ceq_refl.
  match goal with |- context [map ?f ?l] => change (map f l) with (map member_text l) end.
  cbn [map]. rewrite !Join_cons. cbn [Join]. change (Split (§"entity.result") "."%char) with [§"entity"; §"result"].
  match goal with |- context [parseObject (S ?m) _ ?t] => destruct m as [|[|fuel]] eqn:Em; [done| |] end.
  { cbn [length] in Em. rewrite !length_app in Em. cbn [length app] in Em. lia. }
  rewrite <-app_assoc. cbn [app]. rewrite parseObject_pass; [|plain|done|by left|done|by vm_compute].
  rewrite parseObject_comma, <-app_assoc. cbn [app]. rewrite parseObject_enter; [|plain|wf_text].
  cbn [map Join].
  rewrite (parseObject_hit _ _ _ _ (mkResult GString (json_string (§"ok")) (§"ok"))); [done|plain|wf_text|reflexivity].
Qed.
End Protocol.

(** ** The handshake and the acknowledgement *)

Section Session.
Context `{Rand} `{GoLib} `{Oracles} {D Q : Type} `{DatabaseLaws D} `{RouterLaws Q}.
Implicit Types (x : SState D Q) (cl : Client).

(** A client id: letters and digits, no [@]. *)
Definition client_name (uid : bytes) : Prop := plain_key uid ∧ "@"%char ∉ uid.

Lemma client_jid uid : client_name uid → NewJID (uid ++ §"@a.a") = OK (mkJID uid (§"a.a") []).
Proof.
  intros [_ Hu]. apply (NewJID_bare uid (§"a.a")); [done|..]; apply (bool_decide_unpack _); vm_compute; exact I.
Qed.

Lemma client_login_good uid id :
  client_name uid → plain_key id →
  ∃ pk, good_login (Sprintf sfpacket [uid; id]) pk (mkJID uid (§"a.a") []) ∧
    envelope_of pk = mkEnvelope id (uid ++ §"@a.a") [] [] MSG_TYPE_OPEN_SESSION 0 [] (§"123") [].
Proof.
  intros Hu Hi. destruct (login_text_packet uid id) as (pk & E & Ee); [apply Hu|done|].
  exists pk. split; [|done]. split; [done|by rewrite Ee|]. rewrite Ee. by apply client_jid.
Qed.

(** What [start] does with an answer of the server that fits into its buffer. *)
Lemma client_start_answered id text cl :
  c_closed cl = false → (length text < 256)%nat →
  String_ (Gjson.Get text (§"entity.result")) = §"ok" →
  ∃ cl', client_start id None (OK (text ++ [END_FLAG])) cl = (Ret tt, cl') ∧ c_state cl' = §"ok" ∧ c_closed cl' = false ∧
    c_written cl' = c_written cl ++ [Sprintf sfpacket [c_uid cl; id] ++ [END_FLAG]] ∧
    is_Some (uidMap (c_index cl') !! c_uid cl).
Proof.
  intros Hc Hl Hr. unfold client_start. erewrite bind_Ret by reflexivity.
  generalize (Sprintf sfpacket [c_uid cl; id]). intros login. erewrite bind_Ret by reflexivity.
  rewrite take_ge by (rewrite length_app; cbn; lia). rewrite decide_False by by destruct text.
  rewrite length_app, take_app_length' by (cbn; lia). rewrite Hr. erewrite bind_Ret by reflexivity.
  rewrite decide_True by done. eexists. split; [reflexivity|]. cbn. rewrite Hc. split_and!; try done.
  destruct (uidMap (c_index cl) !! c_uid cl) eqn:E; cbn; [by rewrite E|by rewrite lookup_insert_eq].
Qed.

(** C21: the login of a client succeeds on both sides: the server reads the text that a
    benchmark client writes as the login of its user; when it accepts the fixed password it
    logs the session in and answers, and [newClient], given a connection and what the server
    wrote on it, returns a client in state ok that is registered as a target for messages, when
    the answer with the offline messages of the user fits into the 256 bytes of its one read. *)
Theorem client_login_succeeds dial localAddr addr laddr lport (si : sessionIndex) uid id x c h :
  client_name uid → plain_key id → dial (dial_of localAddr addr laddr lport) = None →
  sc (ses x) = Some c → is_open c = true → is_ws c = false → out c = [] →
  ready (w_db (wld x)) → indexable (w_db (wld x)) (ss_Nodeid (Status (ses x))) →
  authenticates (D := D) (Q := Q) (w_conf (wld x)) (mkJID uid (§"a.a") []) (§"123") true →
  index (w_db (wld x)) (ToOfflineKey (mkJID uid (§"a.a") [])) = Some h →
  (∀ vals, vals ≡ₚ (map_to_list h).*2 →
     length (ToJson (AddDelay (decode_offline vals) (NewPacketAuthSuccess id))) < 256)%nat →
  ∃ x' c' answer cl', openSession (Sprintf sfpacket [uid; id]) x = (Ret tt, x') ∧
    logged_in x' (mkJID uid (§"a.a") []) ∧ sc (ses x') = Some c' ∧ out c' = [answer] ∧
    newClient dial localAddr addr laddr lport uid id None (OK answer) si = (Ret (OK cl'), c_index cl') ∧
    c_state cl' = §"ok" ∧ c_written cl' = [Sprintf sfpacket [uid; id] ++ [END_FLAG]] ∧
    is_Some (uidMap (c_index cl') !! uid).
Proof.
  intros Hu Hi Hdial Hc Ho Hws Hout Hr Hix Ha Hh Hfit.
  destruct (client_login_good uid id Hu Hi) as (pk & Hg & Ee).
  assert (Pwd (envelope_of pk) = §"123") as Hp by by rewrite Ee. rewrite <-Hp in Ha.
  destruct (openSession_runs _ pk _ x c Hg Hc Ho Hr Hix Ha) as (x' & pks & E & Hst & Hj & _ & _ & _ & _ & Hsc & Hoff).
  assert (Id (envelope_of pk) = id) as Hid by by rewrite Ee. rewrite Hid in Hsc.
  destruct (Hoff h Hh) as (vals & Hv & -> & _). specialize (Hfit vals Hv).
  set (text := ToJson (AddDelay (decode_offline vals) (NewPacketAuthSuccess id))) in *.
  destruct (client_start_answered id text (mkClient si uid [] [] false false) eq_refl Hfit) as (cl' & Es & Hok & _ & Hw & Hreg);
    [by apply answer_result|].
  exists x', (add_out c text), (text ++ [END_FLAG]), cl'. split; [done|]. split; [|split; [done|]].
  - split; [done|]. rewrite Hj, Ee. by apply client_jid.
  - unfold add_out, sent, newClient. cbn [out]. rewrite Hout, Hws, Hdial, Es. done.
Qed.

(** A message that is not a state packet is acknowledged and counted. *)
Lemma receive_acks text pk cl :
  NewPacket text = OK pk → Type__ (envelope_of pk) ≠ MSG_TYPE_STATE → c_closed cl = false →
  ∃ cl', receive (RPackets [text]) cl = (Ret tt, cl') ∧
    c_written cl' = c_written cl ++ [Sprintf messageAck [To (envelope_of pk); Id (envelope_of pk)] ++ [END_FLAG]] ∧
    si_recv (c_index cl') = wrap_s 32 (si_recv (c_index cl) + 1).
Proof.
  intros Hp Hty Hcl. unfold receive, for_range, receive_one. rewrite Hp. unfold EnvelopeIdFromToType.
  rewrite (proj2 (Z.eqb_neq _ _) Hty). cbn [negb]. generalize (Sprintf messageAck [To (envelope_of pk); Id (envelope_of pk)]).
  intros ack. eexists. split; [reflexivity|]. cbn. by rewrite Hcl.
Qed.

(** The server takes a text that is an acknowledgement of [id] to remove that message. *)
Lemma handle_ack x j ack ap id :
  logged_in x j → NewPacket ack = OK ap → Type__ (envelope_of ap) = MSG_TYPE_STATE → To (envelope_of ap) = SERVER_ACK →
  Id (envelope_of ap) = id → w_ofl (wld x) !! id = None →
  ∃ x', handle_packet ack x = (Ret tt, x') ∧ Status (ses x') = Status (ses x) ∧
    pkgBuff (ses x') = delete id (pkgBuff (ses x)).
Proof.
  intros [Hl Hj] Ha Hty Hto Hid Hofl. unfold handle_packet, get_Status. erewrite bind_Ret by reflexivity.
  rewrite decide_False by (rewrite Hl; done).
  rewrite decide_False by (intros ->; vm_compute in Ha; discriminate Ha).
  rewrite Ha. erewrite bind_Ret by (apply world_runs; reflexivity). cbv zeta.
  match goal with |- context [set_Ct ?t ap] => set (ct := t) end. unfold EnvelopeIdFromToType.
  change (Type__ (envelope_of (set_Ct ct ap))) with (Type__ (envelope_of ap)).
  change (To (envelope_of (set_Ct ct ap))) with (To (envelope_of ap)).
  rewrite Hty, Hto, bool_decide_true by done. cbn [MSG_TYPE_STATE Z.eqb Pos.eqb andb].
  unfold serverAck, get_Status. erewrite bind_Ret by reflexivity. cbn [ses set_wld].
  rewrite (NewJID_OK_ _ _ Hj). cbn [deref]. erewrite bind_Ret by reflexivity.
  change (Id (envelope_of (set_Ct ct ap))) with (Id (envelope_of ap)). rewrite Hid.
  erewrite bind_Ret by (apply world_runs; unfold ofl_get, gets; cbn; rewrite Hofl; reflexivity).
  eexists. split; [reflexivity|]. split; reflexivity.
Qed.

(** C22: the acknowledgement of a client is understood: for a message that the server has
    delivered and keeps, that is no state packet and whose id and recipient need no escaping,
    the client writes an acknowledgement, and that text makes the server drop the message. *)
Theorem client_ack_clears_buffer cl x j pk q :
  c_closed cl = false → logged_in x j →
  NewPacket (ToJson pk) = OK q → Id (envelope_of q) = Id (envelope_of pk) →
  plain_key (To (envelope_of q)) → plain_key (Id (envelope_of q)) → Type__ (envelope_of q) ≠ MSG_TYPE_STATE →
  w_ofl (wld x) !! Id (envelope_of pk) = None →
  ∃ cl' ack x', receive (RPackets [ToJson pk]) cl = (Ret tt, cl') ∧
    c_written cl' = c_written cl ++ [ack ++ [END_FLAG]] ∧
    handle_packet ack x = (Ret tt, x') ∧ Status (ses x') = Status (ses x) ∧
    pkgBuff (ses x') = delete (Id (envelope_of pk)) (pkgBuff (ses x)).
Proof.
  intros Hcl Hl Hp Heq Hto Hid Hty Hofl. destruct (receive_acks _ q cl Hp Hty Hcl) as (cl' & Er & Ew & _).
  destruct (ack_text_packet (To (envelope_of q)) (Id (envelope_of q)) Hto Hid) as (ap & Ea & Ee).
  destruct (handle_ack x j _ ap (Id (envelope_of pk)) Hl Ea) as (x' & Eh & Es & Eb); [by rewrite Ee, ?Heq..|done|].
  eexists cl', _, x'. by split_and!.
Qed.

(** A message of a client to a user with a session is routed to that session. *)
Theorem client_message_is_routed x c from to id content st :
  client_name from → client_name to → from ≠ to → plain_key id → plain_key content →
  logged_in x (mkJID from (§"a.a") []) → sc (ses x) = Some c → is_open c = true → ready (w_db (wld x)) →
  seen (w_db (wld x)) (ToSessionid (mkJID to (§"a.a") [])) = Some (SessionStatus_ToJson st) → wf_status st →
  ∃ x' pk, packetHandler (RPackets [Sprintf messageTemplate [from; to; id; content]]) x = (Ret tt, x') ∧
    Id (envelope_of pk) = id ∧ ToJson pk = Sprintf messageTemplate [from; to; id; content] ∧
    w_router (wld x') = (Route (ss_Channel st) (ss_Sid st) (Some pk) 0 (w_router (wld x))).2.
Proof.
  intros Hf Ht Hne Hi Hco Hl Hc Ho Hr Hs Hst.
  rewrite message_text_json by (done || apply Hf || apply Ht).
  set (text := print _).
  assert (NewPacket text = OK (mkPacket (mkBasePacket
    (mkEnvelope id [] (from ++ §"@a.a") (to ++ §"@a.a") MSG_TYPE_CHAT 0 [] [] []) None None []) None (Some text))) as Hp.
  { destruct Hf, Ht. apply NewPacket_print; [unfold message_envelope; wf_text|reflexivity]. }
  destruct (packetHandler_chat x (mkJID from (§"a.a") []) c text _ (mkJID from (§"a.a") []) (mkJID to (§"a.a") []) st Hl Hc Ho Hp)
    as (x' & ct & E & Hq & _); try done.
  - split; by apply client_jid.
  - unfold same_user, StringWithoutResource. cbn [user domain]. by intros E%app_inv_tail.
  - eexists x', _. split; [done|]. split; [|split; [|exact Hq]]; done.
Qed.
End Session.

(** ** The set-up *)

(** As long as the pool has room the ports are distinct valid port numbers; with more
    connections the first loop of [MakeConn] never ends, since nobody takes a port yet. *)
Theorem local_ports_spec total :
  NoDup (local_ports total) ∧ length (local_ports total) = (total + 100)%nat ∧
  (Z.of_nat (length (local_ports total)) ≤ port_pool_size ↔ Forall (λ p, 0 < p ≤ 65535) (local_ports total)).
Proof.
  assert (length (local_ports total) = (total + 100)%nat) as Hl by (unfold local_ports; by rewrite length_map, length_seq).
  split_and!; [|done|].
  - apply (NoDup_fmap_2_strong (λ k, 65535 - Z.of_nat k)); [intros; lia|apply NoDup_seq].
  - rewrite Hl. unfold port_pool_size. split.
    + intros Hle. apply List.Forall_forall. intros p (k & <- & [_ Hk]%in_seq)%in_map_iff. lia.
    + intros Hf. assert (In (65535 - Z.of_nat (total + 99)) (local_ports total)) as Hin.
      { apply in_map_iff. exists (total + 99)%nat. split; [done|]. apply in_seq. lia. }
      rewrite List.Forall_forall in Hf. apply Hf in Hin. lia.
Qed.

(** Every connection of a round asks for the same local address, the whole list given on
    the command line, instead of its own element of the list. *)
Theorem local_address_is_the_list localAddr addr lport :
  localAddr ≠ [] → Forall (λ laddr, laddr ≠ []) (Split localAddr ","%char) →
  genTcp localAddr addr lport =
  repeat (DialTCP (localAddr ++ §":" ++ fmt_d lport) addr) (length (Split localAddr ","%char)).
Proof.
  intros Hne Hs. unfold genTcp. rewrite decide_False by done. induction Hs as [|l ls Hl _ IH]; [done|].
  cbn [map length repeat]. rewrite <-IH. unfold dial_of at 1. by rewrite decide_False.
Qed.
