(* ===== verification/Bench.v ===== *)
(** * Bench: [MakeConn] and [genTcp] of [benchmark/makeconn.go], the workers that open the connections.

    [MakeConn] queues the address of the server once per connection and waits for the
    wait group; [cpu * 2] goroutines [genTcp] take the addresses, with a local address also a
    local port, and dial.  One step is one operation on a channel or on the wait group, one
    dial, whose result the environment chooses, or the return of [start] of a new client, which
    waits for the server to answer its login without a deadline. *)

From S2P Require Import Prelude GoBytes Types Config Redis Database World External Session SessionProps Client.

(** ** The state *)

(** A goroutine [genTcp]: at the receive from [addrQueue], at the receive of a port, in the
    loop over the local addresses, in the read of [start] of a new client, ended. *)
Inductive gentcp :=
| Ready
| NeedsPort (addr : bytes)
| Dialing (addr : bytes) (laddrs : list bytes) (lport : Z)
| Starting (addr : bytes) (laddrs : list bytes) (lport : Z)
| Gone.

(** [MakeConn]: queueing the addresses and waiting, or past [wg.Wait]. *)
Inductive phase := Queueing | Connected.

Record Bench := mkBench {
  localAddr : bytes;
  addrQueue : list bytes;
  addr_closed : bool;
  localPortPoolCh : list Z;
  wg : Z;
  fail : Z;
  dialled : list dial_request;
  to_queue : list bytes;
  main_at : phase;
  gens : list gentcp }.

Definition ADDR_QUEUE_SIZE : nat := 100.
Definition negative_wg : bytes := §"sync: negative WaitGroup counter".

Definition set_gen (i : nat) (g : gentcp) (b : Bench) : Bench :=
  mkBench (localAddr b) (addrQueue b) (addr_closed b) (localPortPoolCh b) (wg b) (fail b) (dialled b) (to_queue b)
    (main_at b) (<[i := g]> (gens b)).

(** ** [MakeConn] up to the goroutines *)

(** The loop that fills the pool of ports blocks when there are more ports than room;
    [wg.Add] of a negative number panics, which [MakeConn] recovers and returns. *)
Inductive setup := Blocked | Failed | Running (b : Bench).

Definition MakeConn (laddr addr : bytes) (total cpu : Z) : setup :=
  if negb (bool_decide (laddr = [])) && (port_pool_size <? total + 100) then Blocked
  else if total <? 0 then Failed
  else Running (mkBench laddr [] false (if decide (laddr = []) then [] else local_ports (Z.to_nat total)) total 0 []
                  (replicate (Z.to_nat total) addr) Queueing (replicate (Z.to_nat (cpu * 2)) Ready)).

(** ** The steps *)

(** [MakeConn] sends an address, or passes [wg.Wait] and closes the queue; goroutine [i] takes an
    address or sees the closed queue, takes a port, returns from the dial of [newClient] with or
    without an error, returns from its [start] with what the read of the server's answer gave,
    calls [wg.Done]. *)
Inductive bevent :=
| MSend | MWait | GTake (i : nat) | GPort (i : nat) | GDial (i : nat) (ok : bool)
| GStarted (i : nat) (reply : result bytes) | GDone (i : nat).

(** The steps that wait for the server; a read without an error gives at least one byte. *)
Definition of_server (e : bevent) : bool := match e with GStarted _ _ => true | _ => false end.
Definition read_ok (e : bevent) : Prop := match e with GStarted _ (inr buf) => buf ≠ [] | _ => True end.

(** The local addresses of one round. *)
Definition laddrs_of (local : bytes) : list bytes := if decide (local = []) then [[]] else Split local ","%char.

(** [MakeConn] from the first address on. *)
Definition main_do (e : bevent) (b : Bench) : option (outcome unit * Bench) :=
  match e with
  | MSend =>
      match main_at b, to_queue b with
      | Queueing, addr :: rest =>
          if decide (length (addrQueue b) < ADDR_QUEUE_SIZE)%nat then
            Some (Ret tt, mkBench (localAddr b) (addrQueue b ++ [addr]) (addr_closed b) (localPortPoolCh b) (wg b) (fail b)
                            (dialled b) rest (main_at b) (gens b))
          else None
      | _, _ => None
      end
  | MWait =>
      match main_at b, to_queue b with
      | Queueing, [] =>
          if decide (wg b = 0) then
            Some (Ret tt, mkBench (localAddr b) (addrQueue b) true (localPortPoolCh b) (wg b) (fail b) (dialled b) []
                            Connected (gens b))
          else None
      | _, _ => None
      end
  | _ => None
  end.

(** [genTcp]. *)
Definition gentcp_do (e : bevent) (b : Bench) : option (outcome unit * Bench) :=
  match e with
  | GTake i =>
      match gens b !! i, addrQueue b with
      | Some Ready, addr :: q =>
          let g := if decide (localAddr b = []) then Dialing addr [[]] 0 else NeedsPort addr in
          Some (Ret tt, set_gen i g (mkBench (localAddr b) q (addr_closed b) (localPortPoolCh b) (wg b) (fail b) (dialled b)
                                       (to_queue b) (main_at b) (gens b)))
      | Some Ready, [] => if addr_closed b then Some (Ret tt, set_gen i Gone b) else None
      | _, _ => None
      end
  | GPort i =>
      match gens b !! i, localPortPoolCh b with
      | Some (NeedsPort addr), lport :: ports =>
          Some (Ret tt, set_gen i (Dialing addr (laddrs_of (localAddr b)) lport)
                          (mkBench (localAddr b) (addrQueue b) (addr_closed b) ports (wg b) (fail b) (dialled b)
                             (to_queue b) (main_at b) (gens b)))
      | _, _ => None
      end
  | GDial i ok =>
      match gens b !! i with
      | Some (Dialing addr (laddr :: rest) lport) =>
          Some (Ret tt, set_gen i (if ok then Starting addr rest lport else Dialing addr rest lport)
                          (mkBench (localAddr b) (addrQueue b) (addr_closed b) (localPortPoolCh b) (wg b)
                             (if ok then fail b else fail b + 1)
                             (dialled b ++ [dial_of (localAddr b) addr laddr lport])
                             (to_queue b) (main_at b) (gens b)))
      | _ => None
      end
  | GStarted i reply =>
      match gens b !! i with
      | Some (Starting addr rest lport) =>
          if decide (reply = OK []) then Some (Panic (§"slice bounds out of range"), b)
          else Some (Ret tt, set_gen i (Dialing addr rest lport) b)
      | _ => None
      end
  | GDone i =>
      match gens b !! i with
      | Some (Dialing addr [] lport) =>
          if wg b - 1 <? 0 then Some (Panic negative_wg, b)
          else Some (Ret tt, set_gen i Ready (mkBench (localAddr b) (addrQueue b) (addr_closed b) (localPortPoolCh b) (wg b - 1)
                                                (fail b) (dialled b) (to_queue b) (main_at b) (gens b)))
      | _ => None
      end
  | _ => None
  end.

Definition bench_do (e : bevent) (b : Bench) : option (outcome unit * Bench) :=
  match e with MSend | MWait => main_do e b | _ => gentcp_do e b end.

Definition bench_step (b b' : Bench) : Prop := ∃ e o, read_ok e ∧ bench_do e b = Some (o, b').

(** Some steps in a row. *)
Fixpoint bench_events (es : list bevent) (b : Bench) : option Bench :=
  match es with
  | [] => Some b
  | e :: es => match bench_do e b with Some (Ret tt, b') => bench_events es b' | _ => None end
  end.

(** Everything has been dialled, [MakeConn] is past its wait and the goroutines have ended. *)
Record all_connected (b : Bench) : Prop := {
  ac_main : main_at b = Connected;
  ac_gens : Forall (λ g, g = Gone) (gens b);
  ac_wg : wg b = 0;
  ac_queue : addrQueue b = [] ∧ to_queue b = [] }.

(** ** Showing the rates *)

(** One round of [showStatus] once something was sent and received: the line it prints, [ts] the
    time of the start and [now] the present in seconds; a division by zero panics. *)
Definition show_round (ts now : Z) (si : sessionIndex) : outcome (Z * Z * Z * Z * Z) :=
  let _ts := wrap_s 64 (now - ts) in
  if _ts =? 0 then Panic (§"integer divide by zero")
  else Ret (si_send si, si_recv si, Z.quot (si_send si) _ts, Z.quot (si_recv si) _ts, now).

Definition showStatus (ts now : Z) (si : sessionIndex) : outcome (option (Z * Z * Z * Z * Z)) :=
  if (0 <? si_recv si) && (0 <? si_send si) then
    match show_round ts now si with Ret l => Ret (Some l) | Panic e => Panic e end
  else Ret None.

(** ** Every run ends with everything dialled *)

(** What a goroutine holds: an address of the wait group, a claim on a port, connections to
    dial, steps to make; [k] is the number of local addresses. *)
Definition busy (g : gentcp) : nat := match g with NeedsPort _ | Dialing _ _ _ | Starting _ _ _ => 1 | _ => 0 end.
Definition claims (g : gentcp) : nat := match g with NeedsPort _ => 1 | _ => 0 end.
Definition undialled (k : nat) (g : gentcp) : nat :=
  match g with NeedsPort _ => k | Dialing _ ls _ | Starting _ ls _ => length ls | _ => 0 end.
Definition gen_work (k : nat) (g : gentcp) : nat :=
  match g with
  | Ready => 1
  | NeedsPort _ => 2 * k + 3
  | Dialing _ ls _ => 2 * length ls + 2
  | Starting _ ls _ => 2 * length ls + 3
  | Gone => 0
  end.

Definition over (f : gentcp → nat) (b : Bench) : nat := sum_list_with f (gens b).
Definition waiting (b : Bench) : nat := length (to_queue b) + length (addrQueue b).

(** The steps that are left. *)
Definition bench_work (k : nat) (b : Bench) : nat :=
  match main_at b with Queueing => 1 | Connected => 0 end +
  length (to_queue b) * (2 * k + 4) + length (addrQueue b) * (2 * k + 3) + over (gen_work k) b.

Record bench_inv (k total : nat) (b : Bench) : Prop := {
  bi_local : k = length (laddrs_of (localAddr b));
  bi_wg : wg b = Z.of_nat (waiting b + over busy b);
  bi_ports : localAddr b ≠ [] → (waiting b + over claims b ≤ length (localPortPoolCh b))%nat;
  bi_claims : localAddr b = [] → over claims b = 0%nat;
  bi_dialled : (length (dialled b) + k * waiting b + over (undialled k) b = total * k)%nat;
  bi_fail : 0 ≤ fail b ≤ Z.of_nat (length (dialled b));
  bi_queue : (length (addrQueue b) ≤ ADDR_QUEUE_SIZE)%nat;
  bi_open : main_at b = Queueing → addr_closed b = false ∧ Forall (λ g, g ≠ Gone) (gens b);
  bi_done : main_at b = Connected → addr_closed b = true ∧ to_queue b = [] ∧ addrQueue b = [] ∧ over busy b = 0%nat }.

Lemma sum_insert f (l : list gentcp) i g g' :
  l !! i = Some g → (sum_list_with f (<[i := g']> l) + f g = sum_list_with f l + f g')%nat.
Proof.
  revert i. induction l as [|x l IH]; intros [|i] Hi; simpl in *; simplify_eq; [lia|]. specialize (IH i Hi). lia.
Qed.

Lemma sum_lookup f (l : list gentcp) i g : l !! i = Some g → (f g ≤ sum_list_with f l)%nat.
Proof. intros Hi%list_elem_of_lookup_2. by apply (sum_list_with_in g f). Qed.

(** The sums after a goroutine has moved. *)
Ltac moved Hi g' :=
  pose proof (sum_insert busy _ _ _ g' Hi); pose proof (sum_insert claims _ _ _ g' Hi);
  pose proof (λ k, sum_insert (undialled k) _ _ _ g' Hi); pose proof (λ k, sum_insert (gen_work k) _ _ _ g' Hi).

(** A goroutine that moves and does not end leaves no goroutine ended. *)
Lemma still_open (gs : list gentcp) i g : Forall (λ g, g ≠ Gone) gs → g ≠ Gone → Forall (λ g, g ≠ Gone) (<[i := g]> gs).
Proof. intros. by apply Forall_insert. Qed.
#[local] Hint Resolve still_open : core.

Lemma bench_start_inv laddr addr total cpu b :
  MakeConn laddr addr total cpu = Running b → bench_inv (length (laddrs_of laddr)) (Z.to_nat total) b.
Proof.
  unfold MakeConn. destruct (negb _ && _) eqn:Ep; [done|]. destruct (Z.ltb_spec total 0); [done|]. intros [= <-].
  assert (∀ f n, f Ready = 0%nat → sum_list_with f (replicate n Ready) = 0%nat) as Hz.
  { intros f n Hf. induction n as [|n IH]; [done|]. cbn. by rewrite Hf. }
  split; unfold waiting, over; cbn [localAddr wg localPortPoolCh dialled fail addrQueue main_at addr_closed gens to_queue length];
    rewrite ?length_replicate, ?Hz by done; try lia; try done.
  - intros Hl. rewrite decide_False by done. unfold local_ports. rewrite length_map, length_seq. lia.
  - intros _. split; [done|]. by apply Forall_replicate.
Qed.

(** What every step has to do: keep the invariant and make the work less, without a panic. *)
Definition good_step (k total : nat) (b : Bench) (e : bevent) : Prop :=
  ∀ o b', read_ok e → bench_do e b = Some (o, b') → o = Ret tt ∧ bench_inv k total b' ∧ (bench_work k b' < bench_work k b)%nat.

Ltac fields := cbn [localAddr wg localPortPoolCh dialled fail addrQueue main_at addr_closed gens to_queue bench_do main_do gentcp_do set_gen] in *.
Ltac start_step b :=
  intros [Hk Hwg Hp Hc Hd Hf Hq Hop Hdn] o b' Hread He;
  destruct b as [la q cl ports w fl ds tq ph gs]; unfold waiting, over, bench_work in *; fields.
Ltac split_inv := split; [split; unfold waiting, over; cbn in *; rewrite ?length_app; cbn; try done; try lia; eauto|cbn; rewrite ?length_app; cbn; try lia].

Lemma good_MSend k total b : bench_inv k total b → good_step k total b MSend.
Proof.
  start_step b. destruct ph, tq as [|a tq]; try done. case_decide; [|done]. injection He as <- <-.
  split; [done|]. split_inv. intros Hl. specialize (Hp Hl). cbn in Hp. lia.
Qed.

Lemma good_MWait k total b : bench_inv k total b → good_step k total b MWait.
Proof.
  start_step b. destruct ph, tq as [|a tq]; try done. case_decide; [|done]. injection He as <- <-.
  split; [done|]. split_inv. intros _. destruct q; cbn in *; [|lia]. split_and!; try done. lia.
Qed.

Lemma good_GTake k total b i : bench_inv k total b → good_step k total b (GTake i).
Proof.
  start_step b. destruct (gs !! i) as [[| | | |]|] eqn:Hi; try done. destruct q as [|a q].
  - destruct cl; [|done]. injection He as <- <-. moved Hi Gone. specialize (H1 k). specialize (H2 k). split; [done|].
    destruct ph; [by destruct Hop|]. destruct Hdn as (_ & -> & _ & Hb); [done|]. cbn in *. split_inv.
    + intros Hl. specialize (Hp Hl). lia.
    + intros Hl. specialize (Hc Hl). lia.
    + intros _. split_and!; try done. lia.
  - injection He as <- <-. split; [done|].
    destruct ph; [|by destruct Hdn as (_ & _ & ? & _)]. destruct (Hop eq_refl) as [-> Hg].
    destruct (decide (la = [])) as [->|Hl]; [moved Hi (Dialing a [[]] 0)|moved Hi (NeedsPort a)]; specialize (H1 k); specialize (H2 k);
      cbn in *; split_inv.
    + intros Hl. specialize (Hc Hl). lia.
    + change (length (laddrs_of [])) with 1%nat in Hk. subst k. lia.
    + change (length (laddrs_of [])) with 1%nat in Hk. subst k. lia.
    + intros _. specialize (Hp Hl). lia.
Qed.

Lemma good_GPort k total b i : bench_inv k total b → good_step k total b (GPort i).
Proof.
  start_step b. destruct (gs !! i) as [[|a| | |]|] eqn:Hi; try done. destruct ports as [|p ports]; [done|].
  injection He as <- <-. split; [done|]. moved Hi (Dialing a (laddrs_of la) p). specialize (H1 k). specialize (H2 k).
  pose proof (sum_lookup busy _ _ _ Hi). pose proof (sum_lookup claims _ _ _ Hi).
  destruct ph; [|destruct Hdn as (_ & _ & _ & ?); [done|]; cbn in *; lia]. destruct (Hop eq_refl) as [-> Hg].
  cbn in *. rewrite <-Hk in H1, H2. split_inv.
  - intros Hl. specialize (Hp Hl). lia.
  - intros Hl. specialize (Hc Hl). lia.
Qed.

Lemma good_GDial k total b i ok : bench_inv k total b → good_step k total b (GDial i ok).
Proof.
  start_step b. destruct (gs !! i) as [[| |a [|l ls] p| |]|] eqn:Hi; try done.
  injection He as <- <-. split; [done|]. pose proof (sum_lookup busy _ _ _ Hi).
  destruct ph; [|destruct Hdn as (_ & _ & _ & ?); [done|]; cbn in *; lia]. destruct (Hop eq_refl) as [-> Hg].
  destruct ok; [moved Hi (Starting a ls p)|moved Hi (Dialing a ls p)]; specialize (H2 k); specialize (H3 k); cbn in *; split_inv;
    intros Hl; first [specialize (Hp Hl); lia|specialize (Hc Hl); lia].
Qed.

Lemma good_GStarted k total b i reply : bench_inv k total b → good_step k total b (GStarted i reply).
Proof.
  start_step b. destruct (gs !! i) as [[| | |a ls p|]|] eqn:Hi; try done. rewrite decide_False in He by (by intros ->).
  injection He as <- <-. split; [done|]. pose proof (sum_lookup busy _ _ _ Hi).
  destruct ph; [|destruct Hdn as (_ & _ & _ & ?); [done|]; cbn in *; lia]. destruct (Hop eq_refl) as [-> Hg].
  moved Hi (Dialing a ls p). specialize (H2 k). specialize (H3 k). cbn in *. split_inv;
    intros Hl; first [specialize (Hp Hl); lia|specialize (Hc Hl); lia].
Qed.

Lemma good_GDone k total b i : bench_inv k total b → good_step k total b (GDone i).
Proof.
  start_step b. destruct (gs !! i) as [[| |a [|l ls] p| |]|] eqn:Hi; try done. moved Hi Ready. specialize (H1 k). specialize (H2 k).
  pose proof (sum_lookup busy _ _ _ Hi). cbn in *.
  destruct (Z.ltb_spec (w - 1) 0); [lia|]. injection He as <- <-. split; [done|].
  destruct ph; [|destruct Hdn as (_ & _ & _ & ?); [done|]; cbn in *; lia]. destruct (Hop eq_refl) as [-> Hg]. split_inv.
  - intros Hl. specialize (Hp Hl). lia.
  - intros Hl. specialize (Hc Hl). lia.
Qed.

Lemma bench_do_good k total b e : bench_inv k total b → good_step k total b e.
Proof. destruct e; [apply good_MSend|apply good_MWait|apply good_GTake|apply good_GPort|apply good_GDial|apply good_GStarted|apply good_GDone]. Qed.

(** A step that needs no answer of the server. *)
Definition own_step (b b' : Bench) : Prop := ∃ e o, of_server e = false ∧ bench_do e b = Some (o, b').

Definition starting (g : gentcp) : Prop := match g with Starting _ _ _ => True | _ => False end.
#[local] Instance starting_dec g : Decision (starting g).
Proof. destruct g; apply _. Defined.

(** A goroutine that is neither waiting for an address or the server nor ended can move. *)
Lemma busy_moves k total b i g :
  bench_inv k total b → gens b !! i = Some g → busy g = 1%nat → ¬ starting g → ∃ b', own_step b b'.
Proof.
  intros Hb Hi Hg Hs. unfold own_step. destruct g as [|a|a [|l ls] p| |]; try done.
  - assert (localPortPoolCh b ≠ []) as Hne.
    { intros E. pose proof (bi_ports _ _ _ Hb) as Hp. pose proof (bi_claims _ _ _ Hb) as Hc.
      pose proof (sum_lookup claims _ _ _ Hi) as Hl. unfold over in *. cbn in Hl. rewrite E in Hp. cbn in Hp.
      destruct (decide (localAddr b = [])) as [En|Hn]; [specialize (Hc En)|specialize (Hp Hn)]; lia. }
    destruct (localPortPoolCh b) as [|p ps] eqn:Ep; [done|]. eexists. exists (GPort i), (Ret tt). split; [done|]. cbn. by rewrite Hi, Ep.
  - destruct (bench_do (GDone i) b) as [[o b']|] eqn:E; [by exists b', (GDone i), o|].
    cbn in E. rewrite Hi in E. by destruct (_ <? _).
  - eexists. exists (GDial i true), (Ret tt). split; [done|]. cbn. by rewrite Hi.
Qed.

Lemma sum_zero f (gs : list gentcp) : (∀ i g, gs !! i = Some g → f g = 0%nat) → sum_list_with f gs = 0%nat.
Proof.
  induction gs as [|g gs IH]; intros Hz; [done|]. cbn. rewrite (Hz 0%nat g eq_refl), IH; [done|]. intros i. apply (Hz (S i)).
Qed.

(** A state without a step of its own waits for the server or is the final one. *)
Lemma stuck_connected k total b :
  bench_inv k total b → gens b ≠ [] → (∀ b', ¬ own_step b b') →
  (∃ i g, gens b !! i = Some g ∧ starting g) ∨ all_connected b.
Proof.
  intros Hb Hne Hst. destruct (decide (Exists starting (gens b))) as [Hex|Hno].
  { left. apply list.Exists_exists in Hex as (g & Hin & Hg). apply list_elem_of_lookup in Hin as [i Hi]. eauto. }
  right. assert (∀ i g, gens b !! i = Some g → busy g = 0%nat) as Hidle.
  { intros i g Hi. destruct (busy g) as [|[|n]] eqn:E; [done| |by destruct g].
    destruct (busy_moves k total b i g Hb Hi E) as [b' Hs]; [|by destruct (Hst b')].
    intros Hg. apply Hno, list.Exists_exists. exists g. split; [by eapply list_elem_of_lookup_2|done]. }
  pose proof (sum_zero busy _ Hidle) as Hz. pose proof (bi_wg _ _ _ Hb) as Hwg. unfold over in Hwg. rewrite Hz in Hwg.
  assert (∀ i a q, gens b !! i = Some Ready → addrQueue b = a :: q → False) as Htake.
  { intros i a q Hi Hq. eapply (Hst _). exists (GTake i), (Ret tt). split; [done|]. cbn. by rewrite Hi, Hq. }
  destruct (main_at b) eqn:Em.
  - destruct (bi_open _ _ _ Hb Em) as [Hcl Hg]. exfalso.
    assert (∃ g, gens b !! 0%nat = Some g ∧ g = Ready) as (g & Hg0 & ->).
    { destruct (gens b) as [|g gs] eqn:Eg; [done|]. exists g. split; [done|]. inversion Hg; subst.
      specialize (Hidle 0%nat g eq_refl). by destruct g. }
    destruct (addrQueue b) as [|a q] eqn:Eq; [|by eapply Htake].
    destruct (to_queue b) as [|a tq] eqn:Et.
    + eapply (Hst _). exists MWait, (Ret tt). split; [done|]. cbn. rewrite Em, Et. unfold waiting in Hwg. rewrite Et, Eq in Hwg.
      by rewrite decide_True.
    + eapply (Hst _). exists MSend, (Ret tt). split; [done|]. cbn. rewrite Em, Et, Eq, decide_True; [done|]. cbn. unfold ADDR_QUEUE_SIZE. lia.
  - destruct (bi_done _ _ _ Hb Em) as (Hcl & Ht & Hq & _). split; [done| | |done].
    + apply Forall_lookup. intros i g Hi. specialize (Hidle i g Hi). destruct g; try done.
      exfalso. eapply (Hst _). exists (GTake i), (Ret tt). split; [done|]. cbn. by rewrite Hi, Hq, Hcl.
    + rewrite Hwg. unfold waiting. by rewrite Ht, Hq.
Qed.

Lemma gens_length e b o b' : bench_do e b = Some (o, b') → length (gens b') = length (gens b).
Proof.
  destruct e as [| |i|i|i ok|i r|i]; cbn; repeat case_match; intros; simplify_eq/=; by rewrite ?length_insert.
Qed.

Lemma bench_run k total n b b' :
  bench_inv k total b → nsteps bench_step n b b' →
  bench_inv k total b' ∧ length (gens b') = length (gens b) ∧ (n + bench_work k b' ≤ bench_work k b)%nat.
Proof.
  intros Hb Hr. induction Hr as [|n x y z (e & o & Hok & He) _ IH]; [split_and!; [done..|lia]|].
  destruct (bench_do_good k total x e Hb o y Hok He) as (_ & Hy & Hw). destruct (IH Hy) as (Hz & Hg & Hn).
  split; [done|]. split; [by rewrite Hg; eapply gens_length|lia].
Qed.

(** The connections of all rounds. *)
Definition connections (laddr : bytes) (total : Z) : nat := Z.to_nat total * length (laddrs_of laddr).

(** C32: the connecting phase of the benchmark ends unless the server keeps a client waiting.
    Once the set-up has passed (it blocks when there are more ports than room), whatever the
    order of the goroutines, whichever connections fail and whatever the server answers: no run
    has more steps than the work it starts with, no step panics, and a run that cannot go on
    without the server either has a goroutine that waits for the answer to a login, for which
    there is no deadline, or has dialled every connection exactly once, has counted at most that
    many failures, and has ended every goroutine with [MakeConn] past its wait. *)
Theorem MakeConn_terminates laddr addr total cpu b0 n b :
  MakeConn laddr addr total cpu = Running b0 → 0 < cpu → nsteps bench_step n b0 b →
  (n ≤ bench_work (length (laddrs_of laddr)) b0)%nat ∧
  (∀ e o b', read_ok e → bench_do e b = Some (o, b') → o = Ret tt) ∧
  ((∀ b', ¬ own_step b b') →
     (∃ i g, gens b !! i = Some g ∧ starting g) ∨
     all_connected b ∧ length (dialled b) = connections laddr total ∧ 0 ≤ fail b ≤ Z.of_nat (length (dialled b))).
Proof.
  intros Hm Hcpu Hr. pose proof (bench_start_inv _ _ _ _ _ Hm) as H0.
  destruct (bench_run _ _ _ _ _ H0 Hr) as (Hb & Hg & Hn). split_and!; [lia| |].
  - intros e o b' Hok He. by destruct (bench_do_good _ _ b e Hb o b' Hok He).
  - intros Hst. assert (gens b ≠ []) as Hne.
    { unfold MakeConn in Hm. destruct (_ && _); [done|]. destruct (_ <? _); [done|]. injection Hm as <-.
      cbn [gens] in Hg. rewrite length_replicate in Hg. intros E. rewrite E in Hg. cbn in Hg. lia. }
    destruct (stuck_connected _ _ b Hb Hne Hst) as [Hw|Hc]; [by left|]. right. split; [done|]. split; [|apply Hb].
    destruct Hc as [Hma Hgo _ [Hq Ht]]. pose proof (bi_dialled _ _ _ Hb) as Hd. unfold waiting, over in Hd. rewrite Hq, Ht in Hd.
    rewrite sum_zero in Hd; [unfold connections; cbn in Hd; lia|]. intros i g Hi. by rewrite (Forall_lookup_1 _ _ _ _ Hgo Hi).
Qed.

Lemma bench_events_run es b b' : Forall read_ok es → bench_events es b = Some b' → nsteps bench_step (length es) b b'.
Proof.
  intros Hes. revert b. induction Hes as [|e es Hok _ IH]; intros b E; cbn in *; [injection E as <-; constructor|].
  destruct (bench_do e b) as [[[[]|p] b1]|] eqn:Eb; try done. econstructor; [by exists e, (Ret tt)|by apply IH].
Qed.

(** The rates are printed as long as the clock moves on. *)
Lemma showStatus_prints ts now si :
  in_int64 (now - ts) → ts < now → ∃ l, showStatus ts now si = Ret l.
Proof.
  intros Hi Hlt. unfold showStatus, show_round. destruct (_ && _); [|by eexists].
  rewrite wrap_s_id by done. destruct (Z.eqb_spec (now - ts) 0); [lia|by eexists].
Qed.
