(* ===== verification/ClientThreads.v ===== *)
(** * ClientThreads: the goroutines of one benchmark client, [benchmark/makeconn.go].

    After its login a client keeps its session alive in one goroutine, sends messages in a
    second one when there is a text to send, and acknowledges what it reads in the callback
    of [ReadPacket].  The first read error ends the reading, takes the user out of the index
    and closes the channel on which the two goroutines listen. *)

From S2P Require Import Prelude GoBytes Utf8 Json Gjson Types Conn Config Redis Database World External Session SessionProps Client.

Section Threads.
Context `{Rand} `{GoLib}.

(** The client, and which of its goroutines run. *)
Record Threads := mkThreads { th_client : Client; th_beat : bool; th_send : bool; th_read : bool }.

(** The threads that [start] leaves behind when the login succeeded. *)
Definition start_threads (content : bytes) (c : Client) : Threads :=
  mkThreads c true (negb (bool_decide (content = []))) true.

(** A timer of a goroutine fires, a goroutine sees the closed channel, a read returns. *)
Inductive cevent := Beat | BeatEnd | Send (id : bytes) | SendEnd | Read (r : ReadPacketResult).

Definition in_client {A} (m : M Client A) : M Threads A :=
  zoom th_client (λ c t, mkThreads c (th_beat t) (th_send t) (th_read t)) m.

Definition client_do (content : bytes) (sendMessage : bool) (e : cevent) (t : Threads) : option (outcome unit * Threads) :=
  match e with
  | Beat => if th_beat t then Some (in_client heartbeat_round t) else None
  | BeatEnd =>
      if th_beat t && c_stopped (th_client t) then Some (Ret tt, mkThreads (th_client t) false (th_send t) (th_read t)) else None
  | Send id => if th_send t then Some (in_client (write_round content sendMessage id) t) else None
  | SendEnd =>
      if th_send t && c_stopped (th_client t) then Some (Ret tt, mkThreads (th_client t) (th_beat t) false (th_read t)) else None
  | Read r =>
      if th_read t then
        let '(o, t) := in_client (receive r) t in
        Some (o, match r with RErr _ => mkThreads (th_client t) (th_beat t) (th_send t) false | RPackets _ => t end)
      else None
  end.

(** The goroutines of the client, and the other clients, which change the index for other users. *)
Inductive thread_step (content : bytes) : Threads → Threads → Prop :=
| ts_own sendMessage e t t' : client_do content sendMessage e t = Some (Ret tt, t') → thread_step content t t'
| ts_others si t :
    index_step (c_index (th_client t)) si → uidMap si !! c_uid (th_client t) = uidMap (c_index (th_client t)) !! c_uid (th_client t) →
    thread_step content t (in_client (modify (set_index si)) t).2.

(** ** The goroutines end with the connection *)

Record threads_ok (uid : bytes) (t : Threads) : Prop := {
  to_uid : c_uid (th_client t) = uid;
  to_index : index_ok (c_index (th_client t));
  to_stop : c_stopped (th_client t) = negb (th_read t);
  to_gone : th_read t = false → uidMap (c_index (th_client t)) !! uid = None }.

(** What the rounds leave alone. *)
Record calm_round (c c' : Client) : Prop := {
  cr_uid : c_uid c' = c_uid c;
  cr_stopped : c_stopped c' = c_stopped c;
  cr_map : uidMap (c_index c') = uidMap (c_index c);
  cr_arr : uidArr (c_index c') = uidArr (c_index c) }.

#[local] Instance calm_round_preorder : PreOrder calm_round.
Proof. split; [by split|]. intros a b c [] []. split; congruence. Qed.

Lemma calm_ok uid t c : calm_round (th_client t) c → threads_ok uid t → threads_ok uid (mkThreads c (th_beat t) (th_send t) (th_read t)).
Proof.
  intros [E1 E2 E3 E4] [T1 T2 T3 T4]. split; cbn; rewrite ?E1, ?E2, ?E3; try done.
  split; rewrite ?E3, ?E4; apply T2.
Qed.

(** A computation that returns and is calm. *)
Definition returns_calm {A} (m : M Client A) : Prop := ∀ c, ∃ a c', m c = (Ret a, c') ∧ calm_round c c'.

Lemma returns_calm_bind {A B} (m : M Client A) (k : A → M Client B) :
  returns_calm m → (∀ a, returns_calm (k a)) → returns_calm (bind m k).
Proof.
  intros Hm Hk c. destruct (Hm c) as (a & c1 & E1 & C1). destruct (Hk a c1) as (b & c2 & E2 & C2).
  exists b, c2. split; [by erewrite bind_Ret by exact E1|by etrans].
Qed.
Lemma returns_calm_write data : returns_calm (c_write data).
Proof. intros c. by do 2 eexists. Qed.
Lemma returns_calm_counter a : returns_calm (in_index (si_counter a)).
Proof. intros c. do 2 eexists. split; [reflexivity|]. cbn. unfold set_index. repeat case_decide; done. Qed.
Lemma returns_calm_rand uid : returns_calm (in_index (si_rand uid)).
Proof.
  intros c. unfold in_index, zoom. destruct (si_rand_keeps uid (c_index c)) as [Em Ea].
  assert (∃ to, (si_rand uid (c_index c)).1 = Ret to) as [to Et].
  { unfold si_rand, recover. destruct (bind _ _ _) as [[a|p] s]; by eexists. }
  destruct (si_rand uid (c_index c)) as [o s]. cbn in *. subst o. do 2 eexists. split; [reflexivity|]. by split.
Qed.
Lemma returns_calm_ret {A} (a : A) : returns_calm (ret a).
Proof. intros c. by exists a, c. Qed.

Lemma returns_calm_send content b id : returns_calm (write_round content b id).
Proof.
  unfold write_round. destruct (_ && b); [|apply returns_calm_ret].
  apply returns_calm_bind; [intros c; exists (c_uid c), c; split; reflexivity|].
  intros from. apply returns_calm_bind; [apply returns_calm_rand|]. intros to. case_decide; [apply returns_calm_ret|].
  apply returns_calm_bind; [apply returns_calm_write|intros _; apply returns_calm_counter].
Qed.

Lemma returns_calm_packets packets : returns_calm (for_range packets receive_one).
Proof.
  induction packets as [|p ps IH]; cbn [for_range]; [apply returns_calm_ret|]. apply returns_calm_bind; [|intros _; exact IH].
  unfold receive_one, EnvelopeIdFromToType. destruct (NewPacket p) as [e|pk]; [apply returns_calm_ret|].
  destruct (negb _); [|apply returns_calm_ret].
  apply returns_calm_bind; [apply returns_calm_write|intros _; apply returns_calm_counter].
Qed.

Lemma in_client_calm uid (m : M Client unit) t :
  returns_calm m → threads_ok uid t → ∃ t', in_client m t = (Ret tt, t') ∧ threads_ok uid t'.
Proof.
  intros Hm Ht. destruct (Hm (th_client t)) as ([] & c & E & C). unfold in_client, zoom. rewrite E.
  eexists. split; [reflexivity|]. by apply calm_ok.
Qed.

Lemma client_do_ok uid content b e t o t' :
  threads_ok uid t → client_do content b e t = Some (o, t') → o = Ret tt ∧ threads_ok uid t'.
Proof.
  intros Ht. destruct e as [| |id| |r]; cbn [client_do].
  - destruct (th_beat t); [|done]. destruct (in_client_calm uid heartbeat_round t) as (t1 & -> & H1); [apply returns_calm_write|done|].
    by intros [= <- <-].
  - destruct (_ && _); [|done]. intros [= <- <-]. by destruct Ht.
  - destruct (th_send t); [|done].
    destruct (in_client_calm uid (write_round content b id) t) as (t1 & -> & H1); [apply returns_calm_send|done|].
    by intros [= <- <-].
  - destruct (_ && _); [|done]. intros [= <- <-]. by destruct Ht.
  - destruct (th_read t) eqn:Er; [|done]. destruct r as [ps|e].
    + destruct (in_client_calm uid (receive (RPackets ps)) t) as (t1 & E1 & H1); [apply returns_calm_packets|done|].
      rewrite E1. by intros [= <- <-].
    + destruct Ht as [Hu Hi Hs _]. rewrite Er in Hs. destruct (si_del_runs uid (c_index (th_client t)) Hi) as [Ed Hd].
      pose proof (index_step_ok _ _ (is_del uid (c_index (th_client t))) Hi) as Hi'.
      unfold in_client, receive, close_stop, zoom, in_index, bind, gets. cbn. rewrite Hu. unfold zoom.
      destruct (si_del uid (c_index (th_client t))) as [od si]. cbn in *. subst od. rewrite Hs. cbn.
      intros [= <- <-]. split; [done|]. by split.
Qed.

Lemma thread_step_ok uid content t t' : thread_step content t t' → threads_ok uid t → threads_ok uid t'.
Proof.
  intros [b e t1 t2 E|si t1 Hs Hu] Ht; [by eapply client_do_ok|].
  destruct Ht as [H1 H2 H3 H4]. split; cbn; try done; [by eapply index_step_ok|]. intros Hr. rewrite <-H1, Hu, H1. by apply H4.
Qed.

(** A client of the benchmark ends with its connection: whatever its goroutines, the server
    and the other clients do, no step of the client panics; after the first read error it is no
    longer in the index, never reads again, and both its goroutines can end. *)
Theorem client_ends_with_connection content c t :
  index_ok (c_index c) → c_stopped c = false → rtc (thread_step content) (start_threads content c) t →
  (∀ b e o t', client_do content b e t = Some (o, t') → o = Ret tt) ∧
  (th_read t = false →
     uidMap (c_index (th_client t)) !! c_uid c = None ∧
     ∃ t', rtc (thread_step content) t t' ∧ th_client t' = th_client t ∧ th_beat t' = false ∧ th_send t' = false).
Proof.
  intros Hi Hs Hr. assert (threads_ok (c_uid c) (start_threads content c)) as Hok by by split.
  assert (threads_ok (c_uid c) t) as Ht by (clear Hi Hs; induction Hr as [|x y z Hxy _ IH]; [done|by eapply IH, thread_step_ok]).
  split; [intros b e o t' E; by eapply client_do_ok|]. intros Er. split; [by apply Ht|].
  pose proof (to_stop _ _ Ht) as Hst. rewrite Er in Hst. cbn in Hst.
  set (t1 := mkThreads (th_client t) false (th_send t) (th_read t)). exists (mkThreads (th_client t) false false (th_read t)).
  split; [|done]. transitivity t1.
  - destruct (th_beat t) eqn:Eb; [|subst t1; rewrite <-Eb; by destruct t].
    apply rtc_once, (ts_own _ true BeatEnd). cbn. by rewrite Eb, Hst.
  - destruct (th_send t) eqn:Eb; [|done].
    apply rtc_once, (ts_own _ true SendEnd). cbn. by rewrite Hst.
Qed.
End Threads.
