(* ===== verification/Witnesses.v ===== *)
(** * Witnesses: the properties of sessions, nodes and services at concrete inputs.

    One node [n01] on channel [h:4281] with a redis that behaves as its reference
    function, a callback server that refuses everyone, and two users. *)

From S2P Require Import Prelude GoBytes Utf8 Json Gjson Types Conn Config Redis Database SaraDb World External Session SessionProps Login Offline Rpc Node Service Ghost.

(** ** The scenario *)

#[local] Instance lib : GoLib := {|
  fmt_float64 t := Some t; float_f t := t; float_int t := ParseInt_n t; float_nonzero _ := true;
  json_error t := t |}.

#[local] Instance outside : Oracles.
Proof.
  refine {| uuid_hex n := §"u" ++ fmt_u (Z.of_nat n); clock_ns n := 1700000000000000000 + Z.of_nat n;
            url_ok _ := true; http_do _ _ _ := OK (reply (§"1") (JBool false)); range_order _ l := l;
            slice_cap n := if decide (n ≤ 8)%nat then 8%nat else (16 * ((n + 15) `div` 16))%nat; reads_late := true |}.
  done.
Defined.

#[local] Instance thrift : Thrift := {|
  dial _ _ := None; call_process _ _ _ _ _ := OK (§"success"); rpc_uuid n := fmt_u (Z.of_nat n) |}.

Abbreviation DB := (SaraDatabase keyspace).
Abbreviation Q_ := (list routerItem).

(** Users are not authenticated, or by the callback server. *)
Definition conf_open : confmap := SetBool (§"enable_auth") false init_conf.
Definition conf_auth : confmap :=
  SetString (§"callback") (§"http://cb/") (SetBool (§"enable_auth") true init_conf).
Definition conf_quiet : confmap := SetBool (§"enable_offline_callback") false conf_open.

Definition start (m : keyspace) (conf : confmap) : World DB Q_ :=
  mkWorld (NewDatabase 10 m) [] conf ∅ [] 0 0 0 0 0 0.

Definition tcp : conn := mkConn false [] true None.
Definition fresh_session : Session :=
  mkSession (mkStatus (§"s1") [] STATUS_CONN (§"n01") (§"h:4281") 0) (Some tcp) ∅.

Definition of_text (s : bytes) : Packet :=
  match NewPacket s with inr p => p | inl _ => mkPacket empty_base None None end.

Definition jid_bob : JID := mkJID (§"bob") (§"d") [].
Definition jid_amy : JID := mkJID (§"amy") (§"d") [].

Definition login_text : bytes := quoted "{'envelope':{'id':'1','type':0,'jid':'bob@d','pwd':'x'}}".
Definition chat_text : bytes := quoted "{'envelope':{'id':'m1','type':1,'from':'amy@d','to':'bob@d'},'payload':{'c':'hi'}}".
Definition group_text : bytes := quoted "{'envelope':{'id':'g1','type':2,'from':'amy@d','gid':'9'},'payload':{'c':'hi'}}".
Definition lost_text : bytes := quoted "{'envelope':{'id':'m2','type':1,'from':'bob@d','to':'nobody'}}".
Definition evil_text : bytes := quoted "{'envelope':{'id':'session_bob@d','type':1,'from':'amy@d','to':'eve@d'}}".

Definition bob_record : SessionStatus :=
  mkStatus (§"s1") (§"bob@d") STATUS_LOGIN (§"n01") (§"h:4281") 1700000000.
Definition bob_elsewhere : SessionStatus :=
  mkStatus (§"s9") (§"bob@d") STATUS_LOGIN (§"n02") (§"h2:4281") 1700000000.

Definition with_record (st : SessionStatus) : keyspace :=
  {[ ToSessionid jid_bob := mkEntry (VStr (SessionStatus_ToJson st)) None ]}.

(** The session of a logged in user. *)
Definition session_of (sid jid : bytes) : Session :=
  mkSession (mkStatus sid jid STATUS_LOGIN (§"n01") (§"h:4281") 1700000000) (Some tcp) ∅.

(** ** Facts about the scenario *)

Lemma bob_login : good_login login_text (of_text login_text) jid_bob.
Proof. split; vm_compute; reflexivity. Qed.

Lemma open_accepts j pwd : authenticates (D := DB) (Q := Q_) conf_open j pwd true.
Proof. intros w Hw. unfold Auth, bind, lift_outcome. by rewrite Hw. Qed.

Lemma auth_refuses j pwd : authenticates (D := DB) (Q := Q_) conf_auth j pwd false.
Proof.
  intros w Hw. rewrite (Auth_asks w _ _ (§"http://cb/")).
  - vm_compute. reflexivity.
  - rewrite Hw. repeat split; vm_compute; congruence.
Qed.

Lemma bob_record_wf : wf_status bob_record.
Proof. split_and!; first [apply (utf8_check_sound 20); vm_compute; reflexivity|split; vm_compute; congruence]. Qed.

Lemma bob_elsewhere_wf : wf_status bob_elsewhere.
Proof. split_and!; first [apply (utf8_check_sound 20); vm_compute; reflexivity|split; vm_compute; congruence]. Qed.

Lemma chat_from_to : from_to (of_text chat_text) jid_amy jid_bob.
Proof. split; vm_compute; reflexivity. Qed.

(** ** The life of a session *)

Definition x0 : SState DB Q_ := mkS fresh_session (start ∅ conf_open).
Definition x1 : SState DB Q_ := (packetHandler (RPackets [login_text]) x0).2.

(** Bob's session is closed by the node, and then a packet arrives. *)
Definition xc : SState DB Q_ := (CloseSession (§"node_stop") x1).2.
Definition xc' : SState DB Q_ := (packetHandler (RPackets [chat_text]) xc).2.

Lemma xc_run : rtc life_step (x1, None) (xc', None).
Proof.
  eapply (rtc_l _ _ (xc, None)); [apply ls_other, (os_close (§"node_stop"))|]. apply rtc_once, ls_read.
Qed.

Lemma session_lifecycle_witness :
  ss_Status (Status (ses x1)) = STATUS_LOGIN ∧ ss_Jid (Status (ses x1)) = §"bob@d" ∧
  ss_Status (Status (ses xc')) ∈ [STATUS_LOGIN; STATUS_CLOSE] ∧ ss_Jid (Status (ses xc')) = §"bob@d".
Proof.
  split; [vm_compute; reflexivity|]. split; [vm_compute; reflexivity|].
  destruct (session_lifecycle x1 xc' None None xc_run) as (_ & _ & _ & _ & _ & Hl & _).
  destruct (Hl eq_refl) as [Hs Hj]; [vm_compute; reflexivity|]. split; [exact Hs|]. rewrite Hj. vm_compute. reflexivity.
Defined.

Lemma closed_session_is_silent_witness :
  ∃ c c', sc (ses x1) = Some c ∧ is_open c = true ∧ length (out c) = 1%nat ∧
    sc (ses xc') = Some c' ∧ out c' = out c ∧ is_open c' = false.
Proof.
  destruct (sc (ses x1)) as [c|] eqn:Ec; [|vm_compute in Ec; discriminate Ec].
  destruct (closed_session_is_silent (§"node_stop") x1 xc c xc' None None) as (c' & Hc & Ho & Hcl).
  - vm_compute. discriminate.
  - exact Ec.
  - vm_compute. reflexivity.
  - apply rtc_once, ls_read.
  - exists c, c'. split; [reflexivity|]. vm_compute in Ec. injection Ec as <-. split; [reflexivity|]. split; [reflexivity|].
    split; [exact Hc|]. split; [exact Ho|exact Hcl].
Defined.

Lemma session_record_roundtrip_witness : NewSessionStatusFromJson (SessionStatus_ToJson bob_record) = bob_record.
Proof. apply (session_record_roundtrip bob_record). exact bob_record_wf. Defined.

(** ** Login *)

Lemma ready_start m conf : ready (w_db (start m conf)).
Proof. exact I. Qed.

Lemma index_free conf i : indexable (w_db (start ∅ conf)) i.
Proof. exists ∅. reflexivity. Qed.

(** The login of bob waits when the node stops. *)
Lemma close_during_login_reopens_witness :
  ∃ x1 x2, CloseSession (§"node_stop") x0 = (Ret tt, x1) ∧ ss_Status (Status (ses x1)) = STATUS_CLOSE ∧
    life_step (x1, Some (of_text login_text, [])) (x2, None) ∧ ss_Status (Status (ses x2)) = STATUS_LOGIN ∧
    seen (w_db (wld x2)) (ToSessionid jid_bob) = Some (SessionStatus_ToJson (Status (ses x2))).
Proof.
  destruct (close_during_login_reopens x0 tcp (of_text login_text) jid_bob (§"node_stop"))
    as (x1 & x2 & E & _ & Hcl & _ & Hs & Hl & _ & _ & Hr).
  - reflexivity.
  - reflexivity.
  - reflexivity.
  - vm_compute. reflexivity.
  - apply ready_start.
  - apply index_free.
  - exists x1, x2. split; [exact E|]. split; [exact Hcl|]. split; [exact Hs|]. split; [exact Hl|exact Hr].
Defined.

Lemma login_records_session_witness :
  ∃ x' pks, openSession login_text x0 = (Ret tt, x') ∧
    ss_Status (Status (ses x')) = STATUS_LOGIN ∧ ss_Jid (Status (ses x')) = Jid (envelope_of (of_text login_text)) ∧
    ss_Sid (Status (ses x')) = §"s1" ∧ ss_Channel (Status (ses x')) = §"h:4281" ∧
    seen (w_db (wld x')) (ToSessionid jid_bob) = Some (SessionStatus_ToJson (Status (ses x'))) ∧
    sc (ses x') = Some (add_out tcp (ToJson (AddDelay pks (NewPacketAuthSuccess (Id (envelope_of (of_text login_text))))))) ∧
    offline_answer x0 x' jid_bob (of_text login_text) pks.
Proof.
  apply (login_records_session login_text (of_text login_text) jid_bob x0 tcp).
  - exact bob_login.
  - reflexivity.
  - reflexivity.
  - apply ready_start.
  - apply index_free.
  - apply open_accepts.
Defined.

Definition x_auth : SState DB Q_ := mkS fresh_session (start (with_record bob_record) conf_auth).

Lemma bob_seen st conf : seen (w_db (start (with_record st) conf)) (ToSessionid jid_bob) = Some (SessionStatus_ToJson st).
Proof.
  cbn [seen SaraDatabase_laws]. unfold str_at, keys, with_record. cbn [w_db start redis NewDatabase keys_of spec_laws].
  by rewrite lookup_singleton_eq.
Qed.

Lemma refused_login_kills_recorded_session_witness :
  w_router (wld (openSession login_text x_auth).2) =
    (Route (§"h:4281") (§"s1") None (zob KILL) (w_router (wld x_auth))).2.
Proof.
  apply (refused_login_kills_recorded_session login_text (of_text login_text) jid_bob x_auth bob_record).
  - exact bob_login.
  - apply ready_start.
  - apply bob_seen.
  - exact bob_record_wf.
  - apply auth_refuses.
Defined.

(** ** Routing *)

Definition x_amy : SState DB Q_ := mkS (session_of (§"s2") (§"amy@d")) (start (with_record bob_record) conf_quiet).
Definition x_amy_alone : SState DB Q_ := mkS (session_of (§"s2") (§"amy@d")) (start ∅ conf_quiet).
Definition x_bob : SState DB Q_ := mkS (session_of (§"s1") (§"bob@d")) (start ∅ conf_quiet).

Lemma amy_logged_in w : logged_in (mkS (session_of (§"s2") (§"amy@d")) w : SState DB Q_) jid_amy.
Proof. split; vm_compute; reflexivity. Qed.
Lemma bob_logged_in w : logged_in (mkS (session_of (§"s1") (§"bob@d")) w : SState DB Q_) jid_bob.
Proof. split; vm_compute; reflexivity. Qed.
Lemma not_same : ¬ same_user jid_amy jid_bob.
Proof. vm_compute. discriminate. Qed.

(** The state after bob has logged in, seen from amy's session. *)
Definition x_login : SState DB Q_ := (openSession login_text x0).2.
Definition x_amy_after : SState DB Q_ := mkS (session_of (§"s2") (§"amy@d")) (wld x_login).

Lemma login_makes_user_reachable_witness :
  ∃ y', RoutePacket (of_text chat_text) x_amy_after = (Ret tt, y') ∧
    w_router (wld y') = (Route (§"h:4281") (§"s1") (Some (of_text chat_text)) 0 (w_router (wld x_login))).2.
Proof.
  apply (login_makes_user_reachable login_text (of_text login_text) jid_bob x0 tcp x_amy_after jid_amy
           (of_text chat_text) jid_amy jid_bob).
  - exact bob_login.
  - reflexivity.
  - reflexivity.
  - apply ready_start.
  - apply index_free.
  - apply open_accepts.
  - split_and!; first [apply (utf8_check_sound 20); vm_compute; reflexivity|split; vm_compute; congruence].
  - apply amy_logged_in.
  - reflexivity.
  - exact chat_from_to.
  - reflexivity.
  - reflexivity.
  - exact not_same.
Defined.

Lemma message_to_absent_user_is_stored_witness :
  let d := (db_Get (ToSessionid jid_bob) (w_db (wld x_amy_alone))).2 in
  let x' := (RoutePacket (of_text chat_text) x_amy_alone).2 in
  w_db (wld x') = (db_PutExWithIdx (ToOfflineKey jid_bob) (Id (envelope_of (of_text chat_text)))
                     (ToJson (of_text chat_text)) OFFLINE_EXPIRED d).2 ∧
  w_router (wld x') = w_router (wld x_amy_alone) ∧ ses x' = ses x_amy_alone.
Proof.
  apply (message_to_absent_user_is_stored x_amy_alone jid_amy (of_text chat_text) jid_amy jid_bob).
  - apply amy_logged_in.
  - exact chat_from_to.
  - reflexivity.
  - exact not_same.
  - apply ready_start.
  - reflexivity.
Defined.

Lemma malformed_recipient_panics_witness : RoutePacket (of_text lost_text) x_bob = (Panic nil_deref, x_bob).
Proof.
  apply (malformed_recipient_panics x_bob jid_bob (of_text lost_text) (§"fail format of jid :nobody")).
  - apply bob_logged_in.
  - vm_compute. reflexivity.
Defined.

Lemma delivered_packet_kept_until_ack_witness :
  ∃ x1, RoutePacket (of_text chat_text) x_bob = (Ret tt, x1) ∧
    sc (ses x1) = Some (add_out tcp (ToJson (of_text chat_text))) ∧ Status (ses x1) = Status (ses x_bob) ∧
    pkgBuff (ses x1) = <[Id (envelope_of (of_text chat_text)) := of_text chat_text]> (pkgBuff (ses x_bob)) ∧
    (Id (envelope_of (of_text chat_text)) = Id (envelope_of (of_text chat_text)) →
     w_ofl (start ∅ conf_quiet) !! Id (envelope_of (of_text chat_text)) = None →
     ∃ x2, serverAck (of_text chat_text) (set_wld (start ∅ conf_quiet) x1) = (Ret tt, x2) ∧
       pkgBuff (ses x2) = delete (Id (envelope_of (of_text chat_text))) (pkgBuff (ses x_bob))).
Proof.
  apply (delivered_packet_kept_until_ack x_bob jid_bob (of_text chat_text) jid_amy jid_bob tcp (of_text chat_text)
           (start ∅ conf_quiet)).
  - apply bob_logged_in.
  - exact chat_from_to.
  - reflexivity.
  - reflexivity.
  - reflexivity.
Defined.

(** ** Offline messages *)

(** Amy's message for bob is stored, two workers carry the writes out in the other order,
    and bob logs in. *)
Definition db_sent : DB := w_db (wld (RoutePacket (of_text chat_text) x_amy_alone).2).
Definition stored_events : list event := [Take 0; Take 1; Exec 1; Exec 0].
Definition db_stored : DB := default db_sent (run_events stored_events db_sent).
Definition x_back : SState DB Q_ := mkS fresh_session (set_db db_stored (start ∅ conf_open)).
Definition chat_base : BasePacket := default empty_base (NewBasePacket chat_text).

Lemma offline_message_delivered_at_login_witness :
  ∃ y' pks, openSession login_text x_back = (Ret tt, y') ∧ chat_base ∈ pks ∧
    sc (ses y') = Some (add_out tcp (ToJson (AddDelay pks (NewPacketAuthSuccess (Id (envelope_of (of_text login_text))))))) ∧
    w_ofl (wld y') !! Id (envelope_of (of_text login_text)) = Some (map (λ b, Id (Envelope_ b)) pks).
Proof.
  apply (offline_message_delivered_at_login x_amy_alone jid_amy (of_text chat_text) jid_amy jid_bob ∅ stored_events
           db_stored x_back login_text (of_text login_text) jid_bob tcp chat_base).
  - apply amy_logged_in.
  - exact chat_from_to.
  - reflexivity.
  - exact not_same.
  - exact I.
  - reflexivity.
  - vm_compute. reflexivity.
  - reflexivity.
  - reflexivity.
  - apply not_session_dec. vm_compute. reflexivity.
  - vm_compute. discriminate.
  - unfold db_stored. apply run_events_default. vm_compute. reflexivity.
  - vm_compute. reflexivity.
  - reflexivity.
  - exact bob_login.
  - reflexivity.
  - reflexivity.
  - reflexivity.
  - exists ∅. vm_compute. reflexivity.
  - apply open_accepts.
  - vm_compute. reflexivity.
Defined.

(** Bob's session after that login, and its acknowledgement of the answer. *)
Definition x_read : SState DB Q_ := (openSession login_text x_back).2.
Definition ack_text : bytes := quoted "{'envelope':{'id':'1','type':3,'from':'bob@d','to':'server_ack'}}".
Definition bob_index : gmap bytes bytes := {[ §"m1" := chat_text ]}.

Lemma ack_deletes_offline_messages_witness :
  ∃ x', serverAck (of_text ack_text) x_read = (Ret tt, x') ∧
    ∀ es db2, db_run (w_db (wld x')) es (Ret tt) db2 → drained db2 →
      ∃ h', hash_at (keys db2) (offline_index jid_bob) = OK h' ∧
        ∀ i, (i ∈ [§"m1"] → h' !! i = None) ∧ (i ∉ [§"m1"] → h' !! i = bob_index !! i).
Proof.
  apply (ack_deletes_offline_messages x_read jid_bob (of_text ack_text) [§"m1"] bob_index).
  - split; vm_compute; reflexivity.
  - vm_compute. reflexivity.
  - exact I.
  - reflexivity.
  - vm_compute. reflexivity.
  - vm_compute. reflexivity.
  - constructor; [|constructor]. split; [apply not_session_dec; vm_compute; reflexivity|discriminate].
Defined.

(** ** Closing *)

Definition bob_unacked : Session :=
  mkSession (mkStatus (§"s1") (§"bob@d") STATUS_LOGIN (§"n01") (§"h:4281") 1700000000) (Some tcp)
    {[ §"m1" := of_text chat_text ]}.
Definition x_unacked : SState DB Q_ := mkS bob_unacked (start ∅ conf_quiet).

Lemma close_stores_unacknowledged_witness :
  ∃ x' l, CloseSession (§"bye") x_unacked = (Ret tt, x') ∧
    l ≡ₚ (map_to_list (pkgBuff (ses x_unacked))).*2 ∧
    w_db (wld x') = foldl store_one (db_DeleteByIdxKey (§"n01") (ToSessionid jid_bob) (w_db (wld x_unacked))).2 l ∧
    w_clean (wld x') = w_clean (wld x_unacked) ++ [§"s1"] ∧
    ss_Status (Status (ses x')) = STATUS_CLOSE ∧ sc (ses x') = Some (mkConn false [] false None).
Proof.
  apply (close_stores_unacknowledged x_unacked jid_bob tcp (§"bye")).
  - split; vm_compute; reflexivity.
  - reflexivity.
  - apply ready_start.
  - apply map_Forall_singleton. exists jid_bob. vm_compute. reflexivity.
Defined.

Lemma message_id_overwrites_session_record_witness :
  seen (w_db (StorePacket (of_text evil_text) (start ∅ conf_quiet)).2) (ToSessionid jid_bob) =
  Some (ToJson (of_text evil_text)).
Proof.
  apply (message_id_overwrites_session_record (of_text evil_text) (mkJID (§"eve") (§"d") []) jid_bob (start ∅ conf_quiet)).
  - vm_compute. reflexivity.
  - vm_compute. reflexivity.
  - apply ready_start.
  - apply index_free.
Defined.

(** ** Groups *)

Definition members : bytes := §"amy,bob,carol".

Lemma members_plain : Forall (λ u, "@"%char ∉ u) (Split members ","%char).
Proof. apply (bool_decide_unpack _). vm_compute. exact I. Qed.

Lemma group_message_to_every_other_member_witness :
  ∃ l w', genGroupPackets members (of_text group_text) (start ∅ conf_quiet) = (Ret l, w') ∧
    asked (start ∅ conf_quiet) w' ∧
    Forall2 (group_copy (of_text group_text) (§"d")) (other_members members (§"amy")) l.
Proof.
  apply (group_message_to_every_other_member (of_text group_text) jid_amy members (start ∅ conf_quiet)).
  - vm_compute. reflexivity.
  - exact members_plain.
Defined.

Lemma group_copies_have_no_payload_witness :
  ∃ l w', genGroupPackets members (of_text group_text) (start ∅ conf_quiet) = (Ret l, w') ∧
    length l = length (other_members members (§"amy")) ∧
    Forall (λ q, Payload (base q) = None ∧ Vsn (base q) = [] ∧ raw q = None) l.
Proof.
  apply (group_copies_have_no_payload group_text (of_text group_text) jid_amy members (start ∅ conf_quiet)).
  - vm_compute. reflexivity.
  - vm_compute. reflexivity.
  - exact members_plain.
Defined.

(** The user [ob] is no member, but his name is part of a member's. *)
Definition ob_text : bytes := quoted "{'envelope':{'id':'g2','type':2,'from':'ob@d','gid':'9'}}".
Definition cached : keyspace := {[ group_key (§"9") (§"d") := mkEntry (VStr members) (Some 3600) ]}.

Lemma group_permission_by_substring_witness :
  ∃ l w', GenerateGroupPackets (of_text ob_text) (start cached conf_quiet) = (Ret (OK l), w') ∧
    length l = length (other_members members (§"ob")).
Proof.
  apply (group_permission_by_substring (of_text ob_text) (mkJID (§"ob") (§"d") []) members (start cached conf_quiet)).
  - vm_compute. reflexivity.
  - apply ready_start.
  - vm_compute. reflexivity.
  - exact members_plain.
  - exists (§"amy,b"), (§",carol"). reflexivity.
Defined.

(** ** Nodes *)

Lemma Call_keeps_pools_witness :
  ∃ res r', Call (§"h2:4281") LICENCE (§"1") (§"hello") (NewRPCDataChannel (§"h:4281")) = (Ret res, r') ∧ pools_ok r'.
Proof.
  apply (Call_keeps_pools (§"h2:4281") LICENCE (§"1") (§"hello") (NewRPCDataChannel (§"h:4281"))).
  split; [apply map_Forall_empty|vm_compute; constructor|vm_compute; constructor].
Defined.

Definition node0 : Node DB := mkNode ∅ ∅ (§"n01") (NewRPCDataChannel (§"h:4281")) (start ∅ conf_quiet).

Lemma node0_ok : node_ok node0.
Proof.
  split; [apply map_Forall_empty|intros sid Hs; by apply not_elem_of_empty in Hs|].
  vm_compute. discriminate.
Qed.

Definition node1 : Node DB := (in_rpc (Process LICENCE (§"1") (§"x")) node0).2.

Lemma node_invariant_witness : node_ok node1.
Proof.
  apply (node_invariant node0 node1); [exact node0_ok|].
  apply rtc_once. apply (ns_remote LICENCE (§"1") (§"x") _ _ (§"success")). reflexivity.
Defined.

Definition node_login : Node DB :=
  mkNode {[ §"s1" := fresh_session ]} {[ §"s1" ]} (§"n01") (NewRPCDataChannel (§"h:4281"))
    (start (with_record bob_elsewhere) conf_open).

Lemma login_elsewhere_crashes_node_witness :
  ∃ n', in_session (§"s1") (packetHandler (RPackets [login_text])) node_login = (Ret tt, n') ∧ crashes n' nil_deref.
Proof.
  apply (login_elsewhere_crashes_node node_login (§"s1") fresh_session tcp login_text (of_text login_text) jid_bob
           bob_elsewhere true).
  - apply lookup_singleton_eq.
  - reflexivity.
  - reflexivity.
  - exact bob_login.
  - reflexivity.
  - apply ready_start.
  - apply bob_seen.
  - exact bob_elsewhere_wf.
  - discriminate.
  - vm_compute. discriminate.
  - apply open_accepts.
Defined.

Definition node_bob : Node DB :=
  mkNode {[ §"s1" := session_of (§"s1") (§"bob@d") ]} {[ §"s1" ]} (§"n01") (NewRPCDataChannel (§"h:4281"))
    (start ∅ conf_quiet).

Lemma routed_packet_is_delivered_witness :
  ∃ n' s', worker (mkItem (§"h:4281") (§"s1") (Some (of_text chat_text)) 0) node_bob = (Ret tt, n') ∧
    heap n' !! §"s1" = Some s' ∧ sc s' = Some (add_out tcp (ToJson (of_text chat_text))) ∧
    pkgBuff s' !! Id (envelope_of (of_text chat_text)) = Some (of_text chat_text).
Proof.
  apply (routed_packet_is_delivered node_bob (§"s1") (session_of (§"s1") (§"bob@d")) tcp jid_bob (of_text chat_text)
           jid_amy jid_bob).
  - by apply elem_of_singleton.
  - apply lookup_singleton_eq.
  - apply bob_logged_in.
  - reflexivity.
  - reflexivity.
  - exact chat_from_to.
  - reflexivity.
Defined.

(** ** Services *)

Definition conf_token : confmap := SetString (§"accesstoken") (§"secret") conf_quiet.
Definition reload_text : bytes :=
  quoted "{'sn':'1','service':'emsg_group','method':'reload','token':'guess','params':{'gid':'9','domain':'d'}}".

Definition rpc_http : http_server := mkHttp (§":4280") (§"/api/") [§"POST"; §"GET"].

(** The request reaches the handler and is refused. *)
Lemma wrong_token_runs_nothing_witness :
  ∃ s, ServeHTTP (D := DB) (Q := Q_) print rpc_http (§"POST") (§"/api/") reload_text (start ∅ conf_token) =
    (Ret (Reply (ResponseAsJson s)), start ∅ conf_token) ∧ s_Success s = false.
Proof.
  destruct (wrong_token_runs_nothing print rpc_http (§"POST") (§"/api/") reload_text (§"secret") (start ∅ conf_token))
    as (r & E & Hr).
  - vm_compute. reflexivity.
  - discriminate.
  - vm_compute. discriminate.
  - destruct r as [| |p| | |t].
    + discriminate Hr.
    + discriminate Hr.
    + exfalso. revert E. vm_compute. discriminate.
    + exfalso. revert Hr. vm_compute. discriminate.
    + exfalso. revert E. vm_compute. discriminate.
    + destruct Hr as (_ & s & -> & Hs). exists s. split; [exact E|exact Hs].
Defined.

Example http_routes :
  map (λ mp, (ServeHTTP (D := DB) (Q := Q_) print rpc_http mp.1 mp.2 [] (start ∅ conf_token)).1)
      [(§"OPTIONS", §"/api/"); (§"GET", §"/api"); (§"GET", §"/api//x/../y/"); (§"GET", §"/"); (§"GET", §""); (§"GET", §"*")] =
  [Ret Preflight; Ret (Redirect (§"/api/")); Ret (Redirect (§"/api/y/")); Ret NotFound; Ret (Redirect (§"/")); Ret BadRequest].
Proof. vm_compute. reflexivity. Qed.

Lemma Isonline_spec_witness :
  ∃ b w', Isonline [(§"jid", JStr (§"bob@d"))] (start (with_record bob_record) conf_quiet) = (Ret (mkSuccess [] b None), w') ∧
    (b = true ↔ ∃ j v, NewJID (§"bob@d") = OK j ∧
       seen (w_db (start (with_record bob_record) conf_quiet)) (ToSessionid j) = Some v).
Proof. apply (Isonline_spec (§"bob@d") (start (with_record bob_record) conf_quiet)). apply ready_start. Defined.

(** ** A restarted node *)

(** The keys that an earlier run of [n01] has left: bob's record, named by its index, and
    the two nodes. *)
Definition ghost_index : gmap bytes bytes := {[ ToSessionid jid_bob := SessionStatus_ToJson bob_record ]}.
Definition known_nodes : gmap bytes bytes := {[ §"n02" := §"n021700000000000" ]}.
Definition left_behind : keyspace :=
  <[node_index (§"n01") := mkEntry (VHash ghost_index) None]>
  (<[sara_index := mkEntry (VHash known_nodes) None]> (with_record bob_record)).
Definition node_again : Node DB := mkNode ∅ ∅ (§"n01") (NewRPCDataChannel (§"h:4281")) (start left_behind conf_quiet).

Lemma n01_name : node_name (§"n01").
Proof. split; [apply not_session_dec; vm_compute; reflexivity..| |]; vm_compute; discriminate. Qed.

Lemma restart_forgets_ghost_sessions_witness :
  ∃ w, cleanGhostSession node_again = (Ret tt, set_world w node_again) ∧
    ∀ es db2, db_run (w_db w) es (Ret tt) db2 → drained db2 →
      hash_at (keys db2) sara_index = OK (<[§"n01" := §"n011700000000000"]> known_nodes) ∧
      ∀ k, (is_Some (ghost_index !! k) ∨ k = node_index (§"n01") → keys db2 !! k = None) ∧
        (k ≠ §"n01" → k ≠ sara_index → k ≠ node_index (§"n01") → ghost_index !! k = None →
         keys db2 !! k = keys (w_db (world node_again)) !! k).
Proof.
  destruct (restart_forgets_ghost_sessions node_again ghost_index known_nodes) as (w & E & Hrun).
  - exact I.
  - reflexivity.
  - reflexivity.
  - exact n01_name.
  - vm_compute. reflexivity.
  - apply map_Forall_singleton. by eexists.
  - vm_compute. reflexivity.
  - exists w. split; [exact E|]. intros es db2 Hr Hd. destruct (Hrun es db2 Hr Hd) as [(ts & Hs & Hts) Hk].
    split; [|exact Hk]. destruct Hts as [->|[_ Hsh]]; [|vm_compute in Hsh; discriminate Hsh]. exact Hs.
Defined.

(** A node id of 35 bytes, which Go puts into an array of 48. *)
Example long_id_loses_start_time :
  registration (§"node-35-0123456789-0123456789-01234") (§"1700000000000") =
  §"node-35-0123456789-0123456789-01234_idx000000000".
Proof. vm_compute. reflexivity. Qed.

Lemma Counter_counts_nodes_witness :
  ∃ cs w', Counter [] (start left_behind conf_quiet) = (Ret (mkSuccess [] true (Some (JObj [(§"counters", JArr cs)]))), w') ∧
    cs ≡ₚ omap (counter_of (keys (w_db (start left_behind conf_quiet)))) (map_to_list known_nodes).*1.
Proof.
  apply (Counter_counts_nodes known_nodes [] (start left_behind conf_quiet)).
  - exact I.
  - vm_compute. reflexivity.
  - apply (bool_decide_unpack _). vm_compute. exact I.
  - apply map_Forall_singleton. exists (§"1700000000000"). split; reflexivity.
Defined.
