(* ===== verification/Cluster.v ===== *)
(** * Cluster: several nodes on one redis.

    Every node has its own sessions, router and write-behind queues; redis is shared,
    and a successful rpc call of one node is a call of [Process] on the node of that
    address ([sararpc/server.go]).  A call that fails may have been carried out all
    the same.  The composition of [Session], [Node], [Rpc] and [SaraDb]: the invariant
    of every node, and a message that travels from a client of one node to a client of
    another. *)

From S2P Require Import Prelude GoBytes Utf8 Json Gjson Types Conn Config Redis Database SaraDb World External Session SessionProps Rpc Node Sound.

(** ** One step of one node *)

(** A connection is accepted, a read of a session's connection is handled, a worker of
    the router or the subscriber of the data channel takes its next item, a closed
    session is cleaned up, a worker of the database makes a step. *)
Inductive nevent := NAccept (ws : bool) | NRead (sid : bytes) (r : ReadPacketResult) | NWork | NData | NClean | NDb (e : event).

Section Cluster.
Context `{GoLib} `{Oracles} `{Thrift} {R : Type} `{RedisServer R}.
Abbreviation D := (SaraDatabase R).
Implicit Types n : Node D.

Definition node_do (e : nevent) n : option (outcome unit * Node D) :=
  match e with
  | NAccept ws => Some (dispatcher ws n)
  | NRead sid r => Some (in_session sid (packetHandler r) n)
  | NWork =>
      match w_router (world n) with
      | item :: q => Some (worker item (set_world (set_router q (world n)) n))
      | [] => None
      end
  | NData =>
      match dataCh (rpc n) with
      | msg :: q => Some (in_world (dataChannelHandler msg) (set_rpc (set_dataCh q (rpc n)) n))
      | [] => None
      end
  | NClean =>
      match w_clean (world n) with
      | sid :: q => Some (clean sid (set_world (set_clean q (world n)) n))
      | [] => None
      end
  | NDb e =>
      match worker_event e (w_db (world n)) with
      | Some (o, d) => Some (o, set_world (set_db d (world n)) n)
      | None => None
      end
  end.

(** The call to another node a step makes: the address, the text, and whether the call
    succeeds. *)
Definition published (e : nevent) n : option (bytes * bytes * bool) :=
  match e, w_router (world n) with
  | NWork, mkItem channel _ (Some p) _ :: _ =>
      if bool_decide (channel = []) || bool_decide (GetChannel (rpc n) = channel) then None
      else Some (channel, ToJson p, match (Publish channel (ToJson p) (rpc n)).1 with Ret None => true | _ => false end)
  | _, _ => None
  end.

(** ** The cluster *)

Record Cluster := mkCluster { c_redis : R; c_nodes : gmap bytes (Node D) }.

(** A node works on the shared redis. *)
Definition attach (r : R) n : Node D := set_world (set_db (set_redis r (w_db (world n))) (world n)) n.

Definition put (a : bytes) n (c : Cluster) : Cluster :=
  mkCluster (redis (w_db (world n))) (<[a := n]> (c_nodes c)).

(** [Process] on the node of an address. *)
Definition receive (a sn text : bytes) (c : Cluster) : option Cluster :=
  n ← c_nodes c !! a;
  match in_rpc (Process LICENCE sn text) n with
  | (Ret _, n') => Some (mkCluster (c_redis c) (<[a := n']> (c_nodes c)))
  | (Panic _, _) => None
  end.

Inductive cluster_step : Cluster → Cluster → Prop :=
| cs_local a e c n n' :
    c_nodes c !! a = Some n → node_do e (attach (c_redis c) n) = Some (Ret tt, n') →
    published e (attach (c_redis c) n) = None → cluster_step c (put a n' c)
| cs_call a e c n n' dst text ok sn c' :
    c_nodes c !! a = Some n → node_do e (attach (c_redis c) n) = Some (Ret tt, n') →
    published e (attach (c_redis c) n) = Some (dst, text, ok) →
    receive dst sn text (put a n' c) = Some c' → cluster_step c c'
| cs_fail a e c n n' dst text :
    c_nodes c !! a = Some n → node_do e (attach (c_redis c) n) = Some (Ret tt, n') →
    published e (attach (c_redis c) n) = Some (dst, text, false) → cluster_step c (put a n' c).

(** ** Every node keeps its invariant *)

Lemma node_do_step e n n' : node_do e n = Some (Ret tt, n') → node_step n n'.
Proof.
  destruct e as [ws|sid r| | | |e]; cbn [node_do].
  - intros [= E]. by eapply ns_accept.
  - intros [= E]. by eapply ns_read.
  - destruct (w_router (world n)) as [|item q] eqn:E; [done|]. intros [= Ew]. eapply ns_worker; [exact E|exact Ew].
  - destruct (dataCh (rpc n)) as [|msg q] eqn:E; [done|]. intros [= Ew]. eapply ns_data; [exact E|exact Ew].
  - destruct (w_clean (world n)) as [|sid q] eqn:E; [done|]. intros [= <-]. by eapply ns_clean.
  - destruct (worker_event e (w_db (world n))) as [[o d]|]; [|done]. intros [= -> <-]. apply ns_env.
Qed.

Definition cluster_ok (c : Cluster) : Prop := map_Forall (λ _, sane) (c_nodes c).

Lemma attach_ok r n : sane n → sane (attach r n).
Proof. by intros [[] ?]. Qed.

Lemma put_ok a e c n n' :
  cluster_ok c → c_nodes c !! a = Some n → node_do e (attach (c_redis c) n) = Some (Ret tt, n') → cluster_ok (put a n' c).
Proof.
  intros Hc Hn He. apply map_Forall_insert_2; [|exact Hc]. eapply sane_step; [by eapply node_do_step|].
  apply attach_ok. by apply (Hc a).
Qed.

Lemma receive_ok a sn text c c' : cluster_ok c → receive a sn text c = Some c' → cluster_ok c'.
Proof.
  intros Hc Hr. unfold receive in Hr. destruct (c_nodes c !! a) as [n|] eqn:Hn; [|done]. unfold mbind, option_bind in Hr.
  destruct (in_rpc (Process LICENCE sn text) n) as [[res|p] n'] eqn:E; [|done]. injection Hr as <-.
  apply map_Forall_insert_2; [|exact Hc]. eapply sane_step; [by eapply ns_remote|by apply (Hc a)].
Qed.

(** C12: whatever the nodes of a cluster do to each other, every one of them keeps its
    invariant: sessions are filed under their ids, the session map has no dangling id,
    the router queue stays within its size; every session has its connection, a well
    formed user once it is logged in, and only deliverable packets in its buffer, each
    filed under its id. *)
Theorem cluster_invariant c c' : cluster_ok c → rtc cluster_step c c' → cluster_ok c'.
Proof.
  intros Hok Hs. induction Hs as [|c1 c2 c3 Hab _ IH]; [done|]. apply IH. clear IH.
  destruct Hab as [a e c n n' Hn He _|a e c n n' dst text ok sn c' Hn He _ Hr|a e c n n' dst text Hn He _].
  - by eapply put_ok.
  - by eapply receive_ok, Hr; eapply put_ok.
  - by eapply put_ok.
Qed.
End Cluster.

(** ** A message from one node to another *)

Section Delivery.
Context `{GoLib} `{Oracles} `{Thrift} {R : Type} `{RedisLaws R}.
Abbreviation D := (SaraDatabase R).
Implicit Types (n : Node D) (c : Cluster (R := R)).

(** A client of node [a], logged in as [ja] on session [sid]. *)
Record client n (sid : bytes) (j : JID) (s : Session) (k : conn) : Prop := {
  cl_heap : heap n !! sid = Some s;
  cl_login : logged_in (mkS s (world n)) j;
  cl_conn : sc s = Some k;
  cl_open : is_open k = true }.

(** A chat text from [jf] to [jt]. *)
Definition chat (text : bytes) (pk : Packet) (jf jt : JID) : Prop :=
  NewPacket text = OK pk ∧ Type__ (envelope_of pk) = MSG_TYPE_CHAT ∧ from_to pk jf jt.

Lemma chat_not_heartbeat text pk jf jt : chat text pk jf jt → text ≠ [HEART_BEAT].
Proof. intros [Hp _] ->. vm_compute in Hp. discriminate Hp. Qed.

(** Reading the text on the sender's node queues it for the recipient's channel. *)
Lemma send_routes c a n sid j s k text pk jf jt st :
  c_nodes c !! a = Some n → client n sid j s k → w_router (world n) = [] →
  chat text pk jf jt → same_user j jf → ¬ same_user j jt →
  up (c_redis c) → str_at (keys_of (c_redis c)) (ToSessionid jt) = Some (SessionStatus_ToJson st) → wf_status st →
  ∃ n' ct, cluster_step c (put a n' c) ∧ rpc n' = rpc n ∧ up (redis (w_db (world n'))) ∧
    w_router (world n') = [mkItem (ss_Channel st) (ss_Sid st) (Some (set_Ct ct pk)) 0] ∧
    ∀ key, str_at (keys_of (redis (w_db (world n')))) key = str_at (keys_of (c_redis c)) key.
Proof.
  intros Hn [Hh Hl Hk Ho] Hq Hc Hf Hnt Hu Hs Hst. pose proof (chat_not_heartbeat _ _ _ _ Hc) as Hb.
  destruct Hc as (Hp & Hty & Hft). set (w := world (attach (c_redis c) n)).
  destruct (packetHandler_chat (mkS s w) j k text pk jf jt st) as (x' & ct & E & Er & Hr & Hseen); try done.
  set (n' := set_heap (<[sid := ses x']> (heap n)) (set_world (wld x') (attach (c_redis c) n))).
  exists n', ct. split; [|split_and!; try done].
  - eapply (cs_local a (NRead sid (RPackets [text])) c n n'); [done| |done]. cbn [node_do]. unfold in_session.
    change (heap (attach (c_redis c) n)) with (heap n). rewrite Hh. fold w. by rewrite E.
  - change (w_router (world n')) with (w_router (wld x')). rewrite Er. cbn [w_router wld].
    change (w_router w) with (w_router (world n)). rewrite Hq. by apply Router_Route_room.
Qed.

(** The worker of the sender's node hands the text to the other node. *)
Lemma publish_receives c a n b m sid pk sg rp :
  c_nodes c !! a = Some n → c_nodes c !! b = Some m → a ≠ b → b ≠ [] → GetChannel (rpc n) = a → GetChannel (rpc m) = b →
  w_router (world n) = [mkItem b sid (Some pk) sg] → Publish b (ToJson pk) (rpc n) = (Ret None, rp) →
  ∃ c', cluster_step c c' ∧ c_redis c' = c_redis c ∧
    c_nodes c' !! b = Some (set_rpc (set_dataCh (dataCh (rpc m) ++ [ToJson pk]) (rpc m)) m).
Proof.
  intros Hn Hm Hab Hb Ha Hcb Hq Hp.
  set (n0 := attach (c_redis c) n).
  assert (bool_decide (b = []) || bool_decide (GetChannel (rpc n0) = b) = false) as Hre.
  { rewrite !bool_decide_false; [done| |done]. change (rpc n0) with (rpc n). by rewrite Ha. }
  assert (∃ n', node_do NWork n0 = Some (Ret tt, n') ∧ redis (w_db (world n')) = c_redis c) as (n' & En & Er).
  { unfold node_do. change (w_router (world n0)) with (w_router (world n)). rewrite Hq.
    eexists. split; [f_equal; unfold worker; erewrite bind_Ret by reflexivity; cbn [rpc set_world];
      rewrite Hre; erewrite bind_Ret by reflexivity;
      erewrite bind_Ret by (unfold in_rpc; apply zoom_run; exact Hp); reflexivity|done]. }
  eexists. split; [eapply (cs_call a NWork c n n' b (ToJson pk) true [])|].
  - done.
  - done.
  - fold n0. unfold published. change (w_router (world n0)) with (w_router (world n)). rewrite Hq, Hre.
    change (rpc n0) with (rpc n). by rewrite Hp.
  - unfold receive, put. cbn [c_nodes]. rewrite lookup_insert_ne, Hm by done. cbn [mbind option_bind].
    unfold Process, in_rpc, zoom. erewrite bind_Ret by reflexivity. unfold Publish, bind.
    rewrite decide_True by done. reflexivity.
  - cbn. split; [done|]. by rewrite lookup_insert_eq.
Qed.

(** The subscriber of the data channel routes the text to the recipient's session. *)
Lemma data_routes c b m text pk jf jt st :
  c_nodes c !! b = Some m → dataCh (rpc m) = [text] → w_router (world m) = [] → chat text pk jf jt →
  up (c_redis c) → str_at (keys_of (c_redis c)) (ToSessionid jt) = Some (SessionStatus_ToJson st) → wf_status st →
  ∃ m', cluster_step c (put b m' c) ∧ heap m' = heap m ∧ sessionMap m' = sessionMap m ∧
    rpc m' = set_dataCh [] (rpc m) ∧ w_router (world m') = [mkItem (ss_Channel st) (ss_Sid st) (Some pk) 0].
Proof.
  intros Hm Hd Hq (Hp & Hty & Hft) Hu Hs Hst. set (m0 := attach (c_redis c) m).
  destruct (remote_message_routed text pk jt st (world m0)) as (w' & E & Er & _); [done|by rewrite Hty|apply Hft|done|done|done|].
  eexists. split; [eapply (cs_local b NData c m)|].
  - done.
  - fold m0. cbn [node_do]. change (rpc m0) with (rpc m). rewrite Hd. unfold in_world. f_equal.
    apply zoom_run. exact E.
  - done.
  - cbn. split_and!; try done. rewrite Er. change (w_router (world m0)) with (w_router (world m)). rewrite Hq.
    by apply Router_Route_room.
Qed.

(** C3: a message crosses nodes: a client on node [a] sends a chat text to a user whose
    session record names a session of node [b], and the rpc call between the nodes
    succeeds.  Then the steps of the two nodes deliver it: the client of that session
    receives the very text that was sent, and the session keeps the packet until it is
    acknowledged. *)
Theorem message_crosses_nodes c a n sid ja s k b m sidb jb sb kb text pk jf jt st :
  c_nodes c !! a = Some n → c_nodes c !! b = Some m → a ≠ b → b ≠ [] → GetChannel (rpc n) = a → GetChannel (rpc m) = b →
  client n sid ja s k → client m sidb jb sb kb → sidb ∈ sessionMap m →
  w_router (world n) = [] → w_router (world m) = [] → dataCh (rpc m) = [] →
  chat text pk jf jt → same_user ja jf → ¬ same_user ja jt → same_user jb jt →
  up (c_redis c) → str_at (keys_of (c_redis c)) (ToSessionid jt) = Some (SessionStatus_ToJson st) →
  wf_status st → ss_Channel st = b → ss_Sid st = sidb →
  (Publish b text (rpc n)).1 = Ret None →
  ∃ c' m' sb', rtc cluster_step c c' ∧ c_nodes c' !! b = Some m' ∧ heap m' !! sidb = Some sb' ∧
    sc sb' = Some (add_out kb text) ∧ pkgBuff sb' !! Id (envelope_of pk) = Some pk.
Proof.
  intros Hn Hm Hab Hb Ha Hcb Hcl Hclb Hin Hq Hqb Hd Hc Hf Hnt Hjt Hu Hs Hst <- <- Hpub.
  destruct (send_routes c a n sid ja s k text pk jf jt st) as (n1 & ct & S1 & Er1 & Hu1 & Hq1 & Hk1); try done.
  assert (raw pk = Some text) as Hraw.
  { destruct Hc as [Hp _]. unfold NewPacket in Hp. destruct (negb _); [done|].
    destruct (unmarshal _ _ _ _) as [e [|]]; [done|]. by injection Hp as <-. }
  assert (∀ ct, ToJson (set_Ct ct pk) = text) as Ht by (intros ?; unfold ToJson; cbn; by rewrite Hraw).
  destruct (publish_receives (put a n1 c) a n1 (ss_Channel st) m (ss_Sid st) (set_Ct ct pk) 0
              (Publish (ss_Channel st) text (rpc n)).2) as (c2 & S2 & R2 & N2); try done.
  { apply lookup_insert_eq. }
  { unfold put. cbn. by rewrite lookup_insert_ne. }
  { by rewrite Er1. }
  { rewrite Ht, Er1. by apply pair_fst. }
  rewrite Hd, Ht in N2. cbn [app] in N2.
  destruct (data_routes c2 (ss_Channel st) _ text pk jf jt st N2) as (m3 & S3 & Hh3 & Hsm3 & Hr3 & Hq3); try done.
  { by rewrite R2. }
  { rewrite R2. cbn. by rewrite Hk1. }
  destruct Hclb as [Hhb Hlb Hkb Hob]. set (m4 := attach (c_redis (put (ss_Channel st) m3 c2)) m3).
  destruct (worker_delivers (set_world (set_router [] (world m4)) m4) (ss_Sid st) sb kb jb pk jf jt)
    as (m5 & s5 & E5 & Hh5 & Hs5 & Hb5).
  { change (sessionMap (set_world _ m4)) with (sessionMap m3). by rewrite Hsm3. }
  { change (heap (set_world _ m4)) with (heap m3). by rewrite Hh3. }
  { done. } { done. } { done. } { apply Hc. } { done. }
  change (rpc (set_world _ m4)) with (rpc m3) in E5. rewrite Hr3 in E5.
  change (GetChannel (set_dataCh [] _)) with (GetChannel (rpc m)) in E5.
  exists (put (ss_Channel st) m5 (put (ss_Channel st) m3 c2)), m5, s5.
  assert (ToJson pk = text) as Htp by (unfold ToJson; by rewrite Hraw). rewrite Htp in Hs5.
  split; [|split_and!; [apply lookup_insert_eq|done|done|done]].
  eapply rtc_l; [exact S1|]. eapply rtc_l; [exact S2|]. eapply rtc_l; [exact S3|]. apply rtc_once.
  eapply (cs_local (ss_Channel st) NWork _ m3); [apply lookup_insert_eq| |].
  - fold m4. cbn [node_do]. change (w_router (world m4)) with (w_router (world m3)). rewrite Hq3. f_equal.
    rewrite Hcb in E5. exact E5.
  - fold m4. unfold published. change (w_router (world m4)) with (w_router (world m3)). rewrite Hq3.
    change (rpc m4) with (rpc m3). rewrite Hr3. change (GetChannel (set_dataCh [] _)) with (GetChannel (rpc m)).
    by rewrite (bool_decide_true (GetChannel (rpc m) = ss_Channel st)), orb_true_r by done.
Qed.

(** C19: a message for a node that cannot be called is not lost: when the rpc call fails
    the worker queues it for the recipient's offline index, under its id and with the
    offline expiry.  Nothing else changes but the client pools of the call: the sessions, the
    map, the queue of the router, the data channel and everything else of the shared state
    are as before. *)
Theorem unreachable_node_stores_message n b sid pk jt e :
  b ≠ [] → GetChannel (rpc n) ≠ b → NewJID (To (envelope_of pk)) = OK jt →
  ¬ session_key (Id (envelope_of pk)) → wbCh_closed (w_db (world n)) = false →
  (Publish b (ToJson pk) (rpc n)).1 = Ret (Some e) →
  let d := set_wbCh (wbCh (w_db (world n)) ++
             [WB (HSET (ToOfflineKey jt ++ IDX_SUFFIX) (Id (envelope_of pk)) (ToJson pk));
              WB (SETEX (Id (envelope_of pk)) OFFLINE_EXPIRED (ToJson pk))]) (w_db (world n)) in
  ∃ r, worker (mkItem b sid (Some pk) 0) n = (Ret tt, set_world (set_db d (world n)) (set_rpc r n)) ∧
    rpc_id r = rpc_id (rpc n) ∧ dataCh r = dataCh (rpc n).
Proof.
  intros Hb Hc Ht Hid Ho Hp d.
  destruct (Publish_elsewhere b (ToJson pk) (rpc n)) as (e' & r & E & Hr); [by apply not_eq_sym|].
  rewrite E in Hp. injection Hp as ->. exists r. split; [|done]. unfold worker. erewrite bind_Ret by reflexivity.
  rewrite !bool_decide_false by done. cbn [orb]. erewrite bind_Ret by reflexivity.
  erewrite bind_Ret by (unfold in_rpc; apply zoom_run; exact E). cbv beta iota.
  unfold in_world. erewrite (zoom_run _ _ (StorePacket pk)); [|apply StorePacket_runs; by exists jt].
  unfold store_one. rewrite Ht. cbn [db_PutExWithIdx SaraDatabase_Database world set_rpc]. by rewrite PutExWithIdx_other.
Qed.
End Delivery.
