(* ===== verification/Bounce.v ===== *)
(** * Bounce: a group message between two nodes that does not come to rest.

    A copy of a group message that reaches another node is expanded to the whole group again
    ([Group]).  With one member besides the sender on each of two nodes, every copy for the
    other node comes back: a run of the cluster, with the subscribers, the router workers and
    the rpc calls of both nodes, that can be continued for ever and delivers one more copy to
    both members in every round. *)

From S2P Require Import Prelude GoBytes Utf8 Json Gjson Types Conn Config Redis Database SaraDb World External Session SessionProps Rpc Node Sound Group Cluster.

Section Bounce.
Context `{GoLib} `{Oracles} `{Thrift} {R : Type} `{RedisLaws R}.
Abbreviation D := (SaraDatabase R).
Implicit Types (n m : Node D) (c : Cluster (R := R)).

(** ** The steps of a node on its router queue *)

(** The network between the nodes works. *)
Definition reliable : Prop :=
  (∀ k addr, dial k addr = None) ∧ (∀ k cl li sn text, ∃ v, call_process k cl li sn text = OK v).

Lemma Publish_reliable ch text r :
  reliable → ch ≠ GetChannel r →
  ∃ r', Publish ch text r = (Ret None, r') ∧ rpc_id r' = rpc_id r ∧ dataCh r' = dataCh r.
Proof.
  intros [Hd Hc] Hne. destruct (Publish_elsewhere ch text r Hne) as (e & r' & E & Hi & Hq). exists r'.
  split; [|done]. rewrite E. f_equal. f_equal. revert E. unfold Publish. rewrite decide_False by done.
  unfold Call, getClient, pool_of, newClient, client_Process, bind, ret, modify.
  repeat (case_match; simplify_eq/=); try done; intros; simplify_eq; try done;
    repeat match goal with
    | H : dial ?k ?a = Some _ |- _ => by rewrite Hd in H
    | H : call_process ?k ?a ?b ?c ?d = inl _ |- _ => destruct (Hc k a b c d) as [? Hv]; by rewrite Hv in H
    end.
Qed.

(** A client whose node may have other items in its queues. *)
Record member n (a sid : bytes) (j : JID) (k : conn) : Prop := {
  me_chan : GetChannel (rpc n) = a;
  me_map : sid ∈ sessionMap n;
  me_client : ∃ s, client n sid j s k }.

(** A worker delivers an item of its own node. *)
Lemma local_step c a n sid j k q rest jf jt :
  c_nodes c !! a = Some n → member n a sid j k → w_router (world n) = mkItem a sid (Some q) 0 :: rest →
  from_to q jf jt → same_user j jt →
  ∃ n', cluster_step c (put a n' c) ∧ member n' a sid j (add_out k (ToJson q)) ∧ rpc n' = rpc n ∧
    w_router (world n') = rest ∧ redis (w_db (world n')) = c_redis c.
Proof.
  intros Hn [Ha Hm (s & [Hh Hl Hk Ho])] Hq Hft Hj.
  set (n0 := attach (c_redis c) n). set (n1 := set_world (set_router rest (world n0)) n0).
  destruct (RoutePacket_to_me (mkS s (world n1)) j q jf jt k Hl Hft Hj Hk Ho) as (w & E & [K1 K2 _ _ _]).
  eexists (set_heap _ (set_world w n1)). split_and!; [|split|done|by cbn; rewrite K2|by cbn; rewrite K1].
  - eapply (cs_local a NWork c n); [done| |].
    + fold n0. cbn [node_do]. change (w_router (world n0)) with (w_router (world n)). rewrite Hq. f_equal. fold n1.
      unfold worker. erewrite bind_Ret by reflexivity. change (rpc n1) with (rpc n).
      rewrite (bool_decide_true (GetChannel (rpc n) = a)), orb_true_r by done. erewrite bind_Ret by reflexivity.
      change (sessionMap n1) with (sessionMap n). rewrite bool_decide_true by done. cbn [Z.eqb negb deref].
      erewrite bind_Ret by reflexivity. unfold in_session. change (heap n1) with (heap n). rewrite Hh, E. reflexivity.
    + fold n0. unfold published. change (w_router (world n0)) with (w_router (world n)). rewrite Hq.
      change (rpc n0) with (rpc n). by rewrite (bool_decide_true (GetChannel (rpc n) = a)), orb_true_r.
  - done.
  - done.
  - eexists. split; [apply lookup_insert_eq|exact Hl|done|done].
Qed.

(** A worker hands an item for another node over to it. *)
Lemma remote_step c a n b m sid q rest :
  reliable → c_nodes c !! a = Some n → c_nodes c !! b = Some m → a ≠ b → b ≠ [] →
  GetChannel (rpc n) = a → GetChannel (rpc m) = b → w_router (world n) = mkItem b sid (Some q) 0 :: rest →
  ∃ c' r, cluster_step c c' ∧ c_redis c' = c_redis c ∧ rpc_id r = rpc_id (rpc n) ∧ dataCh r = dataCh (rpc n) ∧
    c_nodes c' !! a = Some (set_rpc r (set_world (set_router rest (world (attach (c_redis c) n))) (attach (c_redis c) n))) ∧
    c_nodes c' !! b = Some (set_rpc (set_dataCh (dataCh (rpc m) ++ [ToJson q]) (rpc m)) m).
Proof.
  intros Hrel Hn Hm Hab Hb Ha Hcb Hq.
  destruct (Publish_reliable b (ToJson q) (rpc n) Hrel) as (r & Hp & Hi & Hd); [by rewrite Ha; apply not_eq_sym|].
  set (n0 := attach (c_redis c) n). set (n' := set_rpc r (set_world (set_router rest (world n0)) n0)).
  assert (bool_decide (b = []) || bool_decide (GetChannel (rpc n0) = b) = false) as Hre.
  { rewrite !bool_decide_false; [done| |done]. change (rpc n0) with (rpc n). by rewrite Ha. }
  eexists _, r. split_and!; [eapply (cs_call a NWork c n n' b (ToJson q) true []); [done|..]| | | | |].
  - fold n0. cbn [node_do]. change (w_router (world n0)) with (w_router (world n)). rewrite Hq. f_equal.
    unfold worker. erewrite bind_Ret by reflexivity. cbn [rpc set_world]. rewrite Hre. erewrite bind_Ret by reflexivity.
    erewrite bind_Ret by (unfold in_rpc; apply zoom_run; exact Hp). reflexivity.
  - fold n0. unfold published. change (w_router (world n0)) with (w_router (world n)). rewrite Hq, Hre.
    change (rpc n0) with (rpc n). by rewrite Hp.
  - unfold receive, put. cbn [c_nodes]. rewrite lookup_insert_ne, Hm by done. cbn [mbind option_bind].
    unfold Process, in_rpc, zoom. erewrite bind_Ret by reflexivity. unfold Publish, bind.
    rewrite decide_True by done. reflexivity.
  - done.
  - done.
  - done.
  - cbn. rewrite lookup_insert_ne by by apply not_eq_sym. by rewrite lookup_insert_eq.
  - cbn. by rewrite lookup_insert_eq.
Qed.

(** A worker is done with one item for its own node and one for the other, in either order. *)
Lemma work_off c x y n m sidx sidy jx kx ql qr jf jt (first : bool) :
  reliable → c_nodes c !! x = Some n → c_nodes c !! y = Some m → x ≠ y → y ≠ [] →
  member n x sidx jx kx → GetChannel (rpc m) = y → from_to ql jf jt → same_user jx jt →
  w_router (world n) =
    (let l := mkItem x sidx (Some ql) 0 in let r := mkItem y sidy (Some qr) 0 in if first then [l; r] else [r; l]) →
  ∃ c' n', rtc cluster_step c c' ∧ c_redis c' = c_redis c ∧ c_nodes c' !! x = Some n' ∧
    member n' x sidx jx (add_out kx (ToJson ql)) ∧ w_router (world n') = [] ∧ dataCh (rpc n') = dataCh (rpc n) ∧
    c_nodes c' !! y = Some (set_rpc (set_dataCh (dataCh (rpc m) ++ [ToJson qr]) (rpc m)) m).
Proof.
  intros Hrel Hn Hm Hxy Hy Hme Hcy Hft Hj Hq. destruct first.
  - destruct (local_step c x n sidx jx kx ql _ jf jt Hn Hme Hq Hft Hj) as (n1 & S1 & Hme1 & Er1 & Hq1 & Hr1).
    destruct (remote_step (put x n1 c) x n1 y m sidy qr [] Hrel) as (c2 & r & S2 & Hr2 & Hi & Hd & Hx2 & Hy2); try done.
    { apply lookup_insert_eq. } { cbn. by rewrite lookup_insert_ne. } { by destruct Hme1. }
    eexists c2, _. split; [eapply rtc_l; [exact S1|by apply rtc_once]|]. split; [rewrite Hr2; exact Hr1|].
    split; [exact Hx2|]. destruct Hme1 as [Hc1 Hm1 (s1 & [? ? ? ?])]. split_and!; try done.
    + split; [unfold GetChannel; cbn; rewrite Hi; exact Hc1|done|]. by exists s1.
    + cbn. by rewrite Hd, Er1.
  - destruct (remote_step c x n y m sidy qr [mkItem x sidx (Some ql) 0] Hrel Hn Hm Hxy Hy) as (c1 & r & S1 & Hr1 & Hi & Hd & Hx1 & Hy1); try done.
    { by destruct Hme. }
    match type of Hx1 with _ = Some ?z => set (n1 := z) in Hx1 end.
    assert (member n1 x sidx jx kx) as Hme1.
    { destruct Hme as [Hc1 Hm1 (s1 & [? ? ? ?])]. split; [unfold GetChannel; cbn; rewrite Hi; exact Hc1|done|]. by exists s1. }
    destruct (local_step c1 x n1 sidx jx kx ql [] jf jt Hx1 Hme1 eq_refl Hft Hj) as (n2 & S2 & Hme2 & Er2 & Hq2 & Hr2).
    exists (put x n2 c1), n2. split; [eapply rtc_l; [exact S1|by apply rtc_once]|]. split; [cbn; by rewrite Hr2|].
    split; [apply lookup_insert_eq|]. split_and!; try done.
    + by rewrite Er2.
    + cbn. by rewrite lookup_insert_ne.
Qed.

(** ** One hop *)

Context (gid from users : bytes) (j : JID) (ua ub : bytes) (sta stb : SessionStatus) (a b : bytes) (ja jb : JID).
Let ta : JID := mkJID ua (domain j) [].
Let tb : JID := mkJID ub (domain j) [].

(** The group: its sender [from], [ua] with a session on node [a] and [ub] with one on [b]. *)
Record two_members : Prop := {
  tm_from : NewJID from = OK j;
  tm_others : other_members users (user j) = [ua; ub];
  tm_plain : Forall (λ u, "@"%char ∉ u) (Split users ","%char);
  tm_sender : ∃ l r, users = l ++ user j ++ r;
  tm_text : (∀ k, utf8_valid (uuid_hex k)) ∧ utf8_valid from ∧ utf8_valid gid ∧
    utf8_valid (ua ++ §"@" ++ domain j) ∧ utf8_valid (ub ++ §"@" ++ domain j);
  tm_nodes : a ≠ b ∧ a ≠ [] ∧ b ≠ [];
  tm_sta : wf_status sta ∧ ss_Channel sta = a ∧ same_user ja ta;
  tm_stb : wf_status stb ∧ ss_Channel stb = b ∧ same_user jb tb }.

(** What redis says: the members of the group, and the sessions of the two. *)
Record recorded (r : R) : Prop := {
  rc_up : up r;
  rc_group : str_at (keys_of r) (group_key gid (domain j)) = Some users;
  rc_a : str_at (keys_of r) (ToSessionid ta) = Some (SessionStatus_ToJson sta);
  rc_b : str_at (keys_of r) (ToSessionid tb) = Some (SessionStatus_ToJson stb) }.

(** A copy for the member [u]. *)
Definition copy_for (u : bytes) (q : Packet) : Prop :=
  from_to q j (mkJID u (domain j) []) ∧ group_text gid from (ToJson q).

Hypothesis Htm : two_members.

Lemma data_step c x n t :
  recorded (c_redis c) → c_nodes c !! x = Some n → dataCh (rpc n) = [t] → w_router (world n) = [] → group_text gid from t →
  ∃ n' qa qb, cluster_step c (put x n' c) ∧ recorded (redis (w_db (world n'))) ∧
    heap n' = heap n ∧ sessionMap n' = sessionMap n ∧ rpc n' = set_dataCh [] (rpc n) ∧
    w_router (world n') = [item_for qa sta; item_for qb stb] ∧ copy_for ua qa ∧ copy_for ub qb.
Proof.
  intros [Hu Hg Hra Hrb] Hn Hd Hq (pk & Hp & Hty & Eg & Ef).
  destruct Htm as [Hj Hoth Hpl Hse (Hid & Hvf & Hvg & Hva & Hvb) _ (Hwa & _ & _) (Hwb & _ & _)].
  set (n0 := attach (c_redis c) n). rewrite <-Ef in Hj, Hvf. rewrite <-Eg in Hvg.
  assert (group_online (world n0) (Gid (envelope_of pk)) j users [sta; stb]) as Hgo.
  { split; try done; [by rewrite Eg|rewrite Hoth|rewrite Hoth; cbn; by rewrite Hq].
    constructor; [by split|]. constructor; [by split|constructor]. }
  destruct (data_group_runs t pk j users [sta; stb] (world n0) Hp Hty Hj Hgo) as (l & w & E & Hl & Hqw & Hrw & Hsw).
  rewrite Hoth in Hl. inversion Hl as [|? qa ? l1 Hca Hl1]; subst. inversion Hl1 as [|? qb ? l2 Hcb Hl2]; subst.
  inversion Hl2; subst. pose proof (other_members_plain users (user j) Hpl) as Hop. rewrite Hoth in Hop.
  apply list.Forall_cons in Hop as [Hpa Hop]. apply list.Forall_cons in Hop as [Hpb _].
  destruct (NewJID_wf _ _ Hj) as (_ & Hd1 & Hd2 & _).
  eexists (set_world w (set_rpc (set_dataCh [] (rpc n)) n0)), qa, qb. split_and!; try done.
  - eapply (cs_local x NData c n); [done| |done]. fold n0. cbn [node_do]. change (rpc n0) with (rpc n). rewrite Hd.
    unfold in_world. f_equal. apply zoom_run. exact E.
  - split; [exact Hrw|by rewrite <-Hg; apply Hsw|by rewrite <-Hra; apply Hsw|by rewrite <-Hrb; apply Hsw].
  - cbn. rewrite Hqw. change (w_router (world n0)) with (w_router (world n)). by rewrite Hq.
  - split; [|rewrite <-Eg, <-Ef; exact (copy_is_group_text pk (domain j) ua qa Hid Hvf Hvg Hva Hca)].
    destruct Hca as (Efa & Eta & _). split; [by rewrite Efa|rewrite Eta; by apply NewJID_bare].
  - split; [|rewrite <-Eg, <-Ef; exact (copy_is_group_text pk (domain j) ub qb Hid Hvf Hvg Hvb Hcb)].
    destruct Hcb as (Efb & Etb & _). split; [by rewrite Efb|rewrite Etb; by apply NewJID_bare].
Qed.

(** The node of one member: the member is connected, the router is empty, and [q] waits in the
    data channel. *)
Definition node_at c (x sid : bytes) (jx : JID) (k : conn) (q : list bytes) : Prop :=
  ∃ n, c_nodes c !! x = Some n ∧ member n x sid jx k ∧ w_router (world n) = [] ∧ dataCh (rpc n) = q.

(** The two nodes, with what waits in their data channels. *)
Record between c (ka kb : conn) (qa qb : list bytes) : Prop := {
  be_redis : recorded (c_redis c);
  be_a : node_at c a (ss_Sid sta) ja ka qa;
  be_b : node_at c b (ss_Sid stb) jb kb qb }.

Lemma member_same n n' x sid jx k :
  heap n' = heap n → sessionMap n' = sessionMap n → rpc_id (rpc n') = rpc_id (rpc n) → member n x sid jx k → member n' x sid jx k.
Proof.
  intros Hh Hm Hr [Hc Hin (s & [? ? ? ?])]. split; [unfold GetChannel; by rewrite Hr|by rewrite Hm|].
  exists s. split; try done. by rewrite Hh.
Qed.

Hypothesis Hrel : reliable.

(** From [a] to [b]: [ua] gets a copy, and a copy waits at [b]. *)
Lemma hop_from_a c ka kb t :
  between c ka kb [t] [] → group_text gid from t →
  ∃ c' q t', rtc cluster_step c c' ∧ between c' (add_out ka (ToJson q)) kb [] [t'] ∧ copy_for ua q ∧ group_text gid from t'.
Proof.
  intros [Hrc (n & Hn & Hme & Hq & Hd) (m & Hm & Hmb & Hqm & Hdm)] Ht.
  destruct Htm as [_ _ _ _ _ (Hab & Ha & Hb) (_ & Eca & Hja) (_ & Ecb & _)].
  destruct (data_step c a n t Hrc Hn Hd Hq Ht) as (n1 & qa & qb & S1 & Hr1 & Hh1 & Hm1 & Er1 & Hq1 & [Hfa Hga] & [_ Hgb]).
  destruct (work_off (put a n1 c) a b n1 m (ss_Sid sta) (ss_Sid stb) ja ka qa qb j ta true) as (c2 & n2 & S2 & Hr2 & Hx2 & Hme2 & Hq2 & Hd2 & Hy2);
    try done; [apply lookup_insert_eq|cbn; by rewrite lookup_insert_ne|eapply member_same, Hme; by rewrite ?Er1|by destruct Hmb
              |by rewrite Hq1; unfold item_for; rewrite Eca, Ecb|].
  exists c2, qa, (ToJson qb). split; [by eapply rtc_l|]. split; [split|done].
  - rewrite Hr2. exact Hr1.
  - exists n2. split_and!; try done. by rewrite Hd2, Er1.
  - eexists. split; [exact Hy2|]. split_and!; try done; [by eapply member_same, Hmb|]. cbn. by rewrite Hdm.
Qed.

(** And back. *)
Lemma hop_from_b c ka kb t :
  between c ka kb [] [t] → group_text gid from t →
  ∃ c' q t', rtc cluster_step c c' ∧ between c' ka (add_out kb (ToJson q)) [t'] [] ∧ copy_for ub q ∧ group_text gid from t'.
Proof.
  intros [Hrc (m & Hm & Hma & Hqm & Hdm) (n & Hn & Hme & Hq & Hd)] Ht.
  destruct Htm as [_ _ _ _ _ (Hab & Ha & Hb) (_ & Eca & _) (_ & Ecb & Hjb)].
  destruct (data_step c b n t Hrc Hn Hd Hq Ht) as (n1 & qa & qb & S1 & Hr1 & Hh1 & Hm1 & Er1 & Hq1 & [_ Hga] & [Hfb Hgb]).
  destruct (work_off (put b n1 c) b a n1 m (ss_Sid stb) (ss_Sid sta) jb kb qb qa j tb false) as (c2 & n2 & S2 & Hr2 & Hx2 & Hme2 & Hq2 & Hd2 & Hy2);
    try done; [apply lookup_insert_eq|cbn; by rewrite lookup_insert_ne|eapply member_same, Hme; by rewrite ?Er1
              |by destruct Hma|by rewrite Hq1; unfold item_for; rewrite Eca, Ecb|].
  exists c2, qb, (ToJson qa). split; [by eapply rtc_l|]. split; [split|done].
  - rewrite Hr2. exact Hr1.
  - eexists. split; [exact Hy2|]. split_and!; try done; [by eapply member_same, Hma|]. cbn. by rewrite Hdm.
  - exists n2. split_and!; try done. by rewrite Hd2, Er1.
Qed.

(** C40: one message to a group whose other members are logged in on two nodes never comes to
    rest: once a copy has reached one of the nodes, for every number of rounds there is a run of
    the cluster, through the subscribers, the routers and the rpc calls of both nodes, after
    which that many further copies have been written to each of the two clients, each of them
    for that member and with the group's message in it, and a copy waits at the first node
    again. *)
Theorem group_message_bounces c ka kb t rounds :
  between c ka kb [t] [] → group_text gid from t →
  ∃ c' ka' kb' t' la lb, rtc cluster_step c c' ∧ between c' ka' kb' [t'] [] ∧ group_text gid from t' ∧
    out ka' = out ka ++ map (λ q, sent ka (ToJson q)) la ∧ out kb' = out kb ++ map (λ q, sent kb (ToJson q)) lb ∧
    length la = rounds ∧ length lb = rounds ∧ Forall (copy_for ua) la ∧ Forall (copy_for ub) lb.
Proof.
  revert c ka kb t. induction rounds as [|rounds IH]; intros c ka kb t Hbe Ht.
  { exists c, ka, kb, t, [], []. cbn. rewrite !app_nil_r. by split_and!. }
  destruct (hop_from_a c ka kb t Hbe Ht) as (c1 & q1 & t1 & S1 & Hbe1 & Hq1 & Ht1).
  destruct (hop_from_b c1 _ kb t1 Hbe1 Ht1) as (c2 & q2 & t2 & S2 & Hbe2 & Hq2 & Ht2).
  destruct (IH c2 _ _ t2 Hbe2 Ht2) as (c3 & ka3 & kb3 & t3 & la & lb & S3 & Hbe3 & Ht3 & Ea & Eb & Hla & Hlb & Fa & Fb).
  exists c3, ka3, kb3, t3, (q1 :: la), (q2 :: lb). split; [transitivity c1; [exact S1|transitivity c2; [exact S2|exact S3]]|].
  rewrite Ea, Eb. cbn. rewrite <-!app_assoc, Hla, Hlb. split_and!; try done; by constructor.
Qed.
End Bounce.
