(* ===== verification/Server.v ===== *)
(** * Server: the start of a node and its listening side, [node/node.go].

    [New] wires a node from the configuration; [StartTCP], [StartTLS], [StartWS] and
    [StartWSS] open its ports; [acceptTCP], [acceptTLS] and [acceptWs] put connections on
    [acceptCh], from which the goroutines of [Wait] take them; [closeListener] ends
    accepting.  What the network, the certificate files and the thrift socket answer is
    the class [Host]. *)

From S2P Require Import Prelude GoBytes Utf8 Json Gjson Types Conn Config Redis Database SaraDb DbLife World External Session SessionProps Rpc Node.

(** The host: the error of listening on a port, of loading a key pair, of resolving the
    address of the rpc server; [None] is success. *)
Class Host := {
  listen_tcp : Z → error;
  listen_tls : Z → error;
  load_key_pair : bytes → bytes → error;
  server_socket : bytes → error }.

(** Where a connection was accepted. *)
Inductive port_kind := TCP | TLS | WS | WSS.
Definition websocket (k : port_kind) : bool := match k with WS | WSS => true | _ => false end.

Section Server.
Context `{GoLib} `{Oracles} `{Thrift} `{Host} {R : Type} `{RedisServer R}.
Abbreviation D := (SaraDatabase R).

(** The node object: the ports; the listeners, [None] for nil, else whether they are open;
    [acceptCh]; the connections that an accept loop has got but not sent yet. *)
Record Server := mkServer {
  sv_node : Node D;
  sv_model : DBMODEL;
  Port : Z; TLSPort : Z; WSPort : Z; WSSPort : Z;
  listeners : port_kind → option bool;
  acceptCh : list port_kind; acceptCh_closed : bool;
  accepting : list port_kind }.
Implicit Types sv : Server.

Definition set_node (n : Node D) sv : Server :=
  mkServer n (sv_model sv) (Port sv) (TLSPort sv) (WSPort sv) (WSSPort sv) (listeners sv)
    (acceptCh sv) (acceptCh_closed sv) (accepting sv).
Definition set_listeners (l : port_kind → option bool) sv : Server :=
  mkServer (sv_node sv) (sv_model sv) (Port sv) (TLSPort sv) (WSPort sv) (WSSPort sv) l
    (acceptCh sv) (acceptCh_closed sv) (accepting sv).
Definition set_accept (q : list port_kind) (cl : bool) (a : list port_kind) sv : Server :=
  mkServer (sv_node sv) (sv_model sv) (Port sv) (TLSPort sv) (WSPort sv) (WSSPort sv) (listeners sv) q cl a.

#[global] Instance port_kind_eq_dec : EqDecision port_kind.
Proof. solve_decision. Defined.

Definition set_listener (k : port_kind) (o : option bool) sv : Server :=
  set_listeners (λ k', if decide (k' = k) then o else listeners sv k') sv.

Abbreviation VM := (M Server).

Definition in_node {A} (m : M (Node D) A) : VM A := zoom sv_node set_node m.

(** [config.GetX] at run time. *)
Definition conf_of {A} (f : confmap → outcome A) : VM A := λ sv, (f (w_conf (world (sv_node sv))), sv).

(** ** Opening the ports *)

Definition StartTCP : VM error :=
  let! p := gets Port in
  match listen_tcp p with
  | Some err => ret (Some err)
  | None => modify (set_listener TCP (Some true)) >>> ret None
  end.

Definition StartWS : VM error :=
  let! p := gets WSPort in
  match listen_tcp p with
  | Some err => ret (Some err)
  | None => modify (set_listener WS (Some true)) >>> ret None
  end.

Definition StartTLS : VM error :=
  let! certfile := conf_of (λ c, GetString c (§"certfile") (§"/etc/sara/server.pem")) in
  let! keyfile := conf_of (λ c, GetString c (§"keyfile") (§"/etc/sara/server.key")) in
  match load_key_pair certfile keyfile with
  | Some err => ret (Some err)
  | None =>
      let! p := gets TLSPort in
      match listen_tls p with
      | Some err => ret (Some err)
      | None => modify (set_listener TLS (Some true)) >>> ret None
      end
  end.

Definition StartWSS : VM error :=
  let! certfile := conf_of (λ c, GetString c (§"certfile") (§"/etc/sara/server.pem")) in
  let! keyfile := conf_of (λ c, GetString c (§"keyfile") (§"/etc/sara/server.key")) in
  match load_key_pair certfile keyfile with
  | Some err => ret (Some err)
  | None =>
      let! p := gets WSSPort in
      match listen_tls p with
      | Some err => ret (Some err)
      | None => modify (set_listener WSS (Some true)) >>> ret None
      end
  end.

(** Closing the listeners that are not nil. *)
Definition closeListener : VM unit :=
  modify (λ sv, set_listeners (λ k, match listeners sv k with Some _ => Some false | None => None end) sv).

(** ** Accepting *)

(** An accept loop or the http server gets a connection of an open listener. *)
Definition accept_conn (k : port_kind) : VM unit := λ sv,
  match listeners sv k with
  | Some true => (Ret tt, set_accept (acceptCh sv) (acceptCh_closed sv) (accepting sv ++ [k]) sv)
  | _ => (Ret tt, sv)
  end.

(** [self.acceptCh <- conn] of [acceptTCP], [acceptTLS] and [acceptWs]; the http server
    recovers the panics of [acceptWs]. *)
Definition accept_send : VM unit := λ sv,
  match accepting sv with
  | [] => (Ret tt, sv)
  | k :: l =>
      if acceptCh_closed sv then
        (if websocket k then Ret tt else Panic closed_channel, set_accept (acceptCh sv) true l sv)
      else (Ret tt, set_accept (acceptCh sv ++ [k]) false l sv)
  end.

(** One round of an accept goroutine of [Wait]; the deferred [recover] is not called in a
    deferred function, so it recovers nothing. *)
Definition accept_round : VM unit := λ sv,
  match acceptCh sv with
  | [] => (Ret tt, sv)
  | k :: q => in_node (dispatcher (websocket k)) (set_accept q (acceptCh_closed sv) (accepting sv) sv)
  end.

(** ** [Wait] and [Stop] *)

(** What [Wait] does once [Stop] has been called, up to [self.db.Close()] ([Wait_close] of
    [Stop.v] adds it): the channel and the listeners are closed, and every session that is in
    the map now.  The goroutines of [Wait] still take what is queued in the channel.  The wait
    group of the sessions is never increased, so waiting for it returns at once. *)
Definition Wait_sessions : VM unit :=
  modify (λ sv, set_accept (acceptCh sv) true (accepting sv) sv) >>>
  closeListener >>>
  in_node stop_sessions.

(** ** [New] *)

(** What [New] gives: nil when there is no database; otherwise a node, and whether the
    deferred [os.Exit] ends the process when [New] returns. *)
Inductive created := NoNode | Created (sv : Server) (exit : bool).

Context `{Radix R}.

(** The database of a node: a cluster, or else a single redis. *)
Definition open_database (addr : bytes) (poolSize : Z) : result (SaraHandle R) :=
  match initClusterDb addr poolSize with
  | inr h => OK h
  | inl _ => initDb addr poolSize
  end.

(** Numbers of questions asked to the outside before the start. *)
Record asked_before := mkAsked { a_uuid : nat; a_clock : nat; a_http : nat; a_range : nat }.

Definition new_world (h : SaraHandle R) (conf : confmap) (a : asked_before) : World D (list routerItem) :=
  mkWorld (h_db h) (routerItemCh newRouter) conf ofl_cache [] 0 0 (a_uuid a) (a_clock a) (a_http a) (a_range a).

Definition New {St : Type} (conf : confmap) (a : asked_before) : M St created :=
  let! port := of_outcome (GetInt conf (§"port") 4222) in
  let! wsport := of_outcome (GetInt conf (§"wsport") 4224) in
  let! tlsport := of_outcome (GetInt conf (§"tlsport") 4333) in
  let! wssport := of_outcome (GetInt conf (§"wssport") 4334) in
  let! dbaddr := of_outcome (GetString conf (§"dbaddr") (§"localhost:6379")) in
  let! dbpool := of_outcome (GetInt conf (§"dbpool") 100) in
  let! rpcserverAddr := of_outcome (GetString conf (§"nodeaddr") (§"localhost:4281")) in
  match open_database dbaddr dbpool with
  | inl _ => ret NoNode
  | inr h =>
      let dataChannel := NewRPCDataChannel rpcserverAddr in
      let exit := match NewRPCServer (server_socket rpcserverAddr) rpcserverAddr with inl _ => true | inr _ => false end in
      let! nodeid := of_outcome (GetString conf (§"nodeid") []) in
      match cleanGhostSession (mkNode ∅ ∅ nodeid dataChannel (new_world h conf a)) with
      | (Panic p, _) => panic p
      | (Ret _, n) =>
          ret (Created (mkServer n (model h) port tlsport wsport wssport (λ _, None) [] false []) exit)
      end
  end.
End Server.
Arguments Server : clear implicits.
Arguments created : clear implicits.

(** ** [New] does not panic *)

Section Ghosts.
Context `{GoLib} `{Oracles} `{Thrift} `{Host} {R : Type} `{RedisLaws R}.
Implicit Types n : Node (SaraDatabase R).

Lemma PutExWithIdx_open idx key v ex (db : SaraDatabase R) :
  wbCh_closed db = false → wbCh_closed (PutExWithIdx idx key v ex db).2 = false.
Proof.
  intros Ho. destruct (is4s key) eqn:E4.
  - unfold PutExWithIdx. rewrite E4. unfold bind at 1. cbn [executeDirect]. destruct (Resp_Err _); [done|].
    destruct (0 <? ex); done.
  - rewrite PutExWithIdx_other; [done| |done]. by apply not_session_dec.
Qed.

Lemma DeleteByIdx_returns idx (db : SaraDatabase R) :
  wbCh_closed db = false → ∃ e db', DeleteByIdx idx db = (Ret e, db') ∧ wbCh_closed db' = false.
Proof.
  intros Ho. unfold DeleteByIdx. unfold bind at 1. cbn [executeDirect]. set (db1 := set_redis _ db).
  destruct (Resp_ListBytes _) as [e|ids]; [do 2 eexists; split; [reflexivity|exact Ho]|].
  destruct (delete_all_pending ids db1 Ho) as (db2 & E2 & _ & _ & O2).
  destruct (Delete_pending (idx ++ IDX_SUFFIX) db2 O2) as (db3 & E3 & _ & _ & O3).
  erewrite bind_Ret by exact E2. erewrite bind_Ret by exact E3. do 2 eexists. split; [reflexivity|exact O3].
Qed.

(** Registering a node and deleting its old records changes the database only. *)
Lemma cleanGhostSession_runs n :
  wbCh_closed (w_db (world n)) = false →
  ∃ w, cleanGhostSession n = (Ret tt, set_world w n) ∧ wbCh_closed (w_db w) = false ∧ w_conf w = w_conf (world n) ∧
    w_router w = w_router (world n).
Proof.
  intros Ho. unfold cleanGhostSession. erewrite bind_Ret by reflexivity.
  set (w1 := (Timestamp13 (world n)).2).
  erewrite bind_Ret by (unfold in_world; apply zoom_run; reflexivity). fold w1.
  set (ts := clock_ns _ ÷ _).
  destruct (PutExWithIdx_returns (w_db (world n)) (§"sara") (Nodeid n) (registration (Nodeid n) (fmt_d ts)) 0) as [e1 E1].
  pose proof (PutExWithIdx_open (§"sara") (Nodeid n) (registration (Nodeid n) (fmt_d ts)) 0 (w_db (world n)) Ho) as O1.
  destruct (PutExWithIdx (§"sara") (Nodeid n) (registration (Nodeid n) (fmt_d ts)) 0 (w_db (world n))) as [o1 d1] eqn:Ed1.
  cbn [fst snd] in E1, O1. subst o1.
  erewrite bind_Ret by (unfold in_world; apply zoom_run; unfold on_db; apply zoom_run; exact Ed1).
  destruct (DeleteByIdx_returns (Nodeid n) d1 O1) as (e2 & d2 & Ed2 & O2).
  erewrite bind_Ret by (unfold in_world; apply zoom_run; unfold on_db; apply zoom_run; exact Ed2).
  eexists. split; [reflexivity|]. done.
Qed.
End Ghosts.
