(* ===== verification/Main.v ===== *)
(** * Main: [main.go], the commands of the program.

    [sara] starts a node, [setup] writes the default configuration, [stop] and [pprof]
    signal the process whose id is in the pid file.  The operating system is a map of
    files and the signals that were sent; what it refuses is the class [Machine]. *)

From S2P Require Import Prelude GoBytes Utf8 Json Gjson Types Conn Config Redis Database SaraDb DbLife World External Session SessionProps Rpc Node Server Flags.

Definition pidf : bytes := §"/tmp/sara.pid".
Definition cpu_log : bytes := §"/tmp/sara_cpu.out".
Definition mem_log : bytes := §"/tmp/sara_mem.out".
Definition blk_log : bytes := §"/tmp/sara_blk.out".

Definition SIGINT : Z := 2.
Definition SIGUSR1 : Z := 10.
Definition SIGTSTP : Z := 20.

Inductive Level := ERROR | WARNING | INFO | DEBUG.
Definition logLevel : list Level := [ERROR; WARNING; INFO; DEBUG].

(** Creating or writing a file, finding a process, sending it a signal; [None] is
    success. *)
Class Machine := {
  getpid : Z;
  create_file : bytes → error;
  write_file : bytes → error;
  find_process : Z → error;
  send_signal : Z → Z → error }.

Record Os := mkOs { files : gmap bytes bytes; signalled : list (Z * Z) }.

Section Commands.
Context `{Machine}.
Abbreviation OM := (M Os).

Definition file_put (path content : bytes) : OM unit :=
  modify (λ os, mkOs (<[path := content]> (files os)) (signalled os)).

Definition ReadFile (path : bytes) : OM (option bytes) := gets (λ os, files os !! path).

Definition Signal_ (pid sig : Z) : OM error :=
  match send_signal pid sig with
  | Some e => ret (Some e)
  | None => modify (λ os, mkOs (files os) (signalled os ++ [(pid, sig)])) >>> ret None
  end.

Definition savePid : OM unit :=
  match create_file pidf with
  | None => file_put pidf (fmt_d getpid)
  | Some _ => ret tt
  end.

(** [stop]: no pid file is not an error. *)
Definition stop : OM error :=
  let! b := ReadFile pidf in
  match b with
  | None => ret None
  | Some b =>
      let pid := ParseInt_n b in
      match find_process pid with
      | Some e => ret (Some e)
      | None => Signal_ pid SIGINT
      end
  end.

Definition no_file : bytes := §"no such file or directory".

(** [pprofForDebug]. *)
Definition pprofForDebug : OM error :=
  let! b := ReadFile pidf in
  match b with
  | None => ret (Some no_file)
  | Some b =>
      let pid := ParseInt_n b in
      match find_process pid with
      | Some e => ret (Some e)
      | None => Signal_ pid SIGUSR1
      end
  end.

Definition setupConf (outpath : bytes) : OM error :=
  match write_file outpath with
  | Some err => ret (Some err)
  | None => file_put outpath Template >>> ret None
  end.
End Commands.

(** The commands of the application, by name; without a command it runs [sara]. *)
Inductive action := AVsn | AStop | ASetup | AMakeconn | APprof.

Definition commands : list (bytes * action) :=
  [ (§"version", AVsn); (§"stop", AStop); (§"setup", ASetup); (§"makeconn", AMakeconn); (§"pprof", APprof) ].

(** ** Starting the server *)

Section Start.
Context `{GoLib} `{Oracles} `{Thrift} `{Host} `{Machine} {R : Type} `{RedisServer R} `{Radix R}.
Abbreviation OM := (M Os).

(** Where [sara] has got: the process has exited, or a node waits for [Stop]. *)
Inductive boot := Exited | Waiting (sv : Server R).

(** Running a method of the current node. *)
Definition on_current {A} (m : M (Server R) A) (sv : Server R) : OM (Server R) := λ os,
  let '(o, sv') := m sv in (match o with Ret _ => Ret sv' | Panic p => Panic p end, os).

Definition when {St A} (o : outcome bool) (m : A → M St A) (a : A) : M St A :=
  let! b := of_outcome o in if b : bool then m a else ret a.

(** [service.StartRPC]: reads its port; the http server runs in its own goroutine. *)
Definition StartRPC (conf : confmap) : OM unit := of_outcome (GetInt conf (§"rpcport") 4280) >>> ret tt.

(** The same calls on a nil node: the certificates are loaded before the node is used. *)
Definition nil_tls (conf : confmap) (_ : unit) : OM unit :=
  let! certfile := of_outcome (GetString conf (§"certfile") (§"/etc/sara/server.pem")) in
  let! keyfile := of_outcome (GetString conf (§"keyfile") (§"/etc/sara/server.key")) in
  match load_key_pair certfile keyfile with Some _ => ret tt | None => panic nil_deref end.

Definition start_nil (conf : confmap) : OM boot :=
  when (GetBool conf (§"enable_tcp") true) (λ _, panic nil_deref) tt >>>
  when (GetBool conf (§"enable_ws") true) (λ _, panic nil_deref) tt >>>
  when (GetBool conf (§"enable_tls") true) (nil_tls conf) tt >>>
  when (GetBool conf (§"enable_wss") true) (nil_tls conf) tt >>>
  savePid >>>
  panic nil_deref.

(** [sara] with the path of the [config] flag, up to the receive in [Wait]. *)
Definition sara (path : bytes) (a : asked_before) : OM boot :=
  let! file := ReadFile path in
  let! l := of_outcome (Load file init_conf) in
  match l with
  | Exit => ret Exited
  | Loaded conf =>
      let! filepath := of_outcome (GetString conf (§"logfile") []) in
      let! idx := of_outcome (GetInt conf (§"loglevel") 3) in
      let! level := (match (if 0 <=? idx then logLevel !! Z.to_nat idx else None) with
                     | Some l => ret l
                     | None => panic index_out_of_range
                     end) in
      let! c := New conf a in
      match c with
      | NoNode => StartRPC conf >>> start_nil conf
      | Created _ true => ret Exited
      | Created sv false =>
          StartRPC conf >>>
          let! sv := when (GetBool conf (§"enable_tcp") true) (on_current StartTCP) sv in
          let! sv := when (GetBool conf (§"enable_ws") true) (on_current StartWS) sv in
          let! sv := when (GetBool conf (§"enable_tls") true) (on_current StartTLS) sv in
          let! sv := when (GetBool conf (§"enable_wss") true) (on_current StartWSS) sv in
          savePid >>>
          ret (Waiting sv)
      end
  end.

(** ** Signals *)

Inductive reaction := Nothing | FlushProfiles | StopNode.

(** [signalHandler], for one signal, with the current node; [Stop] on a nil node
    dereferences it. *)
Definition signalHandler (debug : bool) (node : option (Server R)) (sig : Z) : outcome reaction :=
  if sig =? SIGUSR1 then Ret (if debug then FlushProfiles else Nothing)
  else if sig =? SIGTSTP then Ret Nothing
  else if sig =? SIGINT then match node with Some _ => Ret StopNode | None => Panic nil_deref end
  else Ret Nothing.
End Start.
Arguments boot : clear implicits.

(** ** The configuration of the template *)

(** Integers of few digits are exact as [float64]: what [int64(f)] gives for the decimal
    text of a small number is the number. *)
Definition small_ints_exact `{GoLib} : Prop := ∀ z, 0 ≤ z < 2 ^ 53 → float_int (fmt_d z) = z.

Record template_conf `{GoLib} (conf : confmap) : Prop := {
  tc_port : GetInt conf (§"port") 4222 = Ret (float_int (§"4222"));
  tc_wsport : GetInt conf (§"wsport") 4224 = Ret (float_int (§"4224"));
  tc_tlsport : GetInt conf (§"tlsport") 4333 = Ret (float_int (§"4333"));
  tc_wssport : GetInt conf (§"wssport") 4334 = Ret (float_int (§"4334"));
  tc_rpcport : GetInt conf (§"rpcport") 4280 = Ret (float_int (§"4280"));
  tc_dbaddr : GetString conf (§"dbaddr") (§"localhost:6379") = Ret (§"localhost:6379");
  tc_dbpool : GetInt conf (§"dbpool") 100 = Ret (float_int (§"100"));
  tc_nodeaddr : GetString conf (§"nodeaddr") (§"localhost:4281") = Ret (§"localhost:4281");
  tc_nodeid : GetString conf (§"nodeid") [] = Ret (§"n01");
  tc_logfile : GetString conf (§"logfile") [] = Ret (§"/tmp/sara.log");
  tc_loglevel : GetInt conf (§"loglevel") 3 = Ret (float_int (§"3"));
  tc_tcp : GetBool conf (§"enable_tcp") true = Ret true;
  tc_ws : GetBool conf (§"enable_ws") true = Ret true;
  tc_tls : GetBool conf (§"enable_tls") true = Ret false;
  tc_wss : GetBool conf (§"enable_wss") true = Ret false }.

Lemma template_loads `{GoLib} : ∃ conf, Load (Some Template) init_conf = Ret (Loaded conf) ∧ template_conf conf.
Proof.
  unfold Load, LoadFromConf. rewrite template_nodeid. eexists. split; [reflexivity|].
  split; vm_compute; reflexivity.
Qed.

Lemma template_ints `{GoLib} : small_ints_exact →
  float_int (§"3") = 3 ∧ float_int (§"100") = 100 ∧ float_int (§"4222") = 4222 ∧ float_int (§"4224") = 4224 ∧
  float_int (§"4333") = 4333 ∧ float_int (§"4334") = 4334.
Proof.
  intros Hf.
  assert (∀ t z, bool_decide (fmt_d z = t) && (0 <=? z) && (z <? 2 ^ 53) = true → float_int t = z) as Hi.
  { intros t z [[Ht%bool_decide_eq_true H1%Z.leb_le]%andb_true_iff H2%Z.ltb_lt]%andb_true_iff. rewrite <-Ht. by apply Hf. }
  split_and!; apply Hi; vm_compute; reflexivity.
Qed.

(** ** Properties *)

Section Properties.
Context `{GoLib} `{Oracles} `{Thrift} `{Host} `{Machine} {R : Type} `{RedisLaws R} `{Radix R}.
Implicit Types os : Os.

Lemma open_database_open addr size (h : SaraHandle R) :
  open_database addr size = OK h → wbCh_closed (h_db h) = false.
Proof.
  unfold open_database, initClusterDb, initDb.
  destruct (cluster_NewWithOpts addr size); [destruct (pool_New addr size); [done|]|]; by intros [= <-].
Qed.

(** [New] on the configuration of the template. *)
Lemma New_template {St} conf a (h : SaraHandle R) (s : St) :
  template_conf conf → open_database (§"localhost:6379") (float_int (§"100")) = OK h →
  ∃ w, wbCh_closed (w_db w) = false ∧ w_conf w = conf ∧ w_router w = [] ∧
  New conf a s =
    (Ret (Created (mkServer (mkNode ∅ ∅ (§"n01") (NewRPCDataChannel (§"localhost:4281")) w) (model h)
                     (float_int (§"4222")) (float_int (§"4333")) (float_int (§"4224")) (float_int (§"4334"))
                     (λ _, None) [] false [])
            match NewRPCServer (server_socket (§"localhost:4281")) (§"localhost:4281") with inl _ => true | inr _ => false end), s).
Proof.
  intros [] Hdb. unfold New, of_outcome, bind.
  rewrite tc_port0, tc_wsport0, tc_tlsport0, tc_wssport0, tc_dbaddr0, tc_dbpool0, tc_nodeaddr0, Hdb, tc_nodeid0.
  set (n := mkNode _ _ _ _ _).
  destruct (cleanGhostSession_runs n) as (w & E & Ho & Hc & Hq); [by apply open_database_open in Hdb|].
  rewrite E. exists w. by split_and!.
Qed.

(** C33: the file [sara setup] writes starts a server: when redis answers at the default
    address and the ports are free, [sara] comes up as node [n01], listening for TCP and
    websocket connections on the ports of the file, with no TLS port and no session,
    and its process id is in the pid file. *)
Theorem setup_then_start out a (h : SaraHandle R) os :
  small_ints_exact → write_file out = None → create_file pidf = None →
  open_database (§"localhost:6379") 100 = OK h → server_socket (§"localhost:4281") = None →
  listen_tcp 4222 = None → listen_tcp 4224 = None →
  ∃ os1 os2 sv, setupConf out os = (Ret None, os1) ∧ sara out a os1 = (Ret (Waiting sv), os2) ∧
    files os2 !! pidf = Some (fmt_d getpid) ∧
    (Port sv, WSPort sv, TLSPort sv, WSSPort sv) = (4222, 4224, 4333, 4334) ∧
    (listeners sv TCP, listeners sv WS, listeners sv TLS, listeners sv WSS) = (Some true, Some true, None, None) ∧
    Nodeid (sv_node sv) = §"n01" ∧ GetChannel (rpc (sv_node sv)) = §"localhost:4281" ∧
    sessionMap (sv_node sv) = ∅ ∧ w_router (world (sv_node sv)) = [].
Proof.
  intros Hf Hw Hcr Hdb Hs H1' H2'. destruct template_loads as (conf & El & Ht).
  destruct (template_ints Hf) as (I3 & I100 & Itcp & Iws & Itls & Iwss).
  destruct (New_template conf a h (mkOs (<[out := Template]> (files os)) (signalled os)) Ht) as (w & _ & _ & Hq & En).
  { by rewrite I100. }
  rewrite Hs in En. cbn [NewRPCServer] in En. destruct Ht.
  unfold setupConf. rewrite Hw. do 3 eexists. split; [reflexivity|].
  unfold sara. erewrite bind_Ret by reflexivity. cbn [files]. rewrite lookup_insert_eq.
  unfold of_outcome, bind at 1. rewrite El. unfold bind at 1. rewrite tc_logfile0. unfold bind at 1.
  rewrite tc_loglevel0, I3. erewrite bind_Ret by reflexivity.
  erewrite bind_Ret by exact En. cbv beta iota. unfold StartRPC, of_outcome.
  erewrite bind_Ret by (unfold bind; rewrite tc_rpcport0; reflexivity).
  unfold when, of_outcome. rewrite tc_tcp0, tc_ws0, tc_tls0, tc_wss0.
  set (sv := mkServer _ _ _ _ _ _ _ _ _ _).
  assert (on_current StartTCP sv (mkOs (<[out:=Template]> (files os)) (signalled os)) =
    (Ret (set_listener TCP (Some true) sv), mkOs (<[out:=Template]> (files os)) (signalled os))) as E1.
  { unfold on_current, StartTCP. erewrite bind_Ret by reflexivity. cbn [Port sv].
    by rewrite Itcp, H1'. }
  erewrite bind_Ret by (erewrite bind_Ret by reflexivity; exact E1).
  set (sv1 := set_listener TCP _ sv).
  assert (on_current StartWS sv1 (mkOs (<[out:=Template]> (files os)) (signalled os)) =
    (Ret (set_listener WS (Some true) sv1), mkOs (<[out:=Template]> (files os)) (signalled os))) as E2.
  { unfold on_current, StartWS. erewrite bind_Ret by reflexivity. cbn [WSPort sv1 set_listener set_listeners sv].
    by rewrite Iws, H2'. }
  erewrite bind_Ret by (erewrite bind_Ret by reflexivity; exact E2).
  erewrite bind_Ret by reflexivity. erewrite bind_Ret by reflexivity.
  unfold savePid. rewrite Hcr. erewrite bind_Ret by reflexivity. split; [reflexivity|].
  split; [apply lookup_insert_eq|]. cbn [Port WSPort TLSPort WSSPort set_listener set_listeners sv sv1].
  rewrite Itcp, Iws, Itls, Iwss. split_and!; [reflexivity..|exact Hq].
Qed.

(** A server without a database does not report it: when neither a cluster nor a
    single redis answers, [New] returns nil, and [sara] with the file of [setup] ends in
    a nil dereference before it writes its pid. *)
Theorem no_database_panics out a os :
  small_ints_exact → files os !! out = Some Template →
  (∃ e, cluster_NewWithOpts (R := R) (§"localhost:6379") 100 = ERR e) →
  (∃ e, pool_New (R := R) (§"localhost:6379") 100 = ERR e) →
  sara out a os = (Panic nil_deref, os).
Proof.
  intros Hf Hfile [e1 He1] [e2 He2]. destruct template_loads as (conf & El & []).
  destruct (template_ints Hf) as (I3 & I100 & Itcp & Iws & Itls & Iwss).
  unfold sara. erewrite bind_Ret by reflexivity. rewrite Hfile.
  unfold of_outcome, bind at 1. rewrite El. unfold bind at 1. rewrite tc_logfile0. unfold bind at 1.
  rewrite tc_loglevel0, I3. erewrite bind_Ret by reflexivity.
  assert (New conf a os = (Ret (NoNode (R := R)), os)) as En.
  { unfold New, of_outcome, bind.
    rewrite tc_port0, tc_wsport0, tc_tlsport0, tc_wssport0, tc_dbaddr0, tc_dbpool0, tc_nodeaddr0.
    rewrite I100. unfold open_database, initClusterDb, initDb. by rewrite He1, He2. }
  erewrite bind_Ret by exact En. cbv beta iota. unfold StartRPC, of_outcome.
  erewrite bind_Ret by (unfold bind; rewrite tc_rpcport0; reflexivity).
  unfold start_nil, when, of_outcome. by rewrite tc_tcp0.
Qed.
End Properties.

(** [sara stop] finds the server: the process id a server saves is the one [stop] and
    [pprof] read back, so [stop] sends the interrupt to exactly that process and [pprof]
    the flush signal. *)
Theorem stop_signals_saved_process `{Machine} os :
  in_int64 getpid → create_file pidf = None → find_process getpid = None →
  send_signal getpid SIGINT = None → send_signal getpid SIGUSR1 = None →
  let os1 := (savePid os).2 in
  stop os1 = (Ret None, mkOs (files os1) (signalled os ++ [(getpid, SIGINT)])) ∧
  pprofForDebug os1 = (Ret None, mkOs (files os1) (signalled os ++ [(getpid, SIGUSR1)])).
Proof.
  intros Hp Hc Hf Hs1 Hs2 os1. subst os1. unfold savePid. rewrite Hc. cbn [snd file_put modify].
  assert (ParseInt_n (fmt_d getpid) = getpid) as Ep by (unfold ParseInt_n; by rewrite ParseInt_fmt).
  unfold stop, pprofForDebug, ReadFile, Signal_. split; (erewrite bind_Ret by reflexivity);
    cbn [files signalled]; rewrite lookup_insert_eq, Ep, Hf, ?Hs1, ?Hs2; reflexivity.
Qed.
