(* ===== verification/App.v ===== *)
(** * App: [main.go], the application around the commands, and its profiles.

    [init] registers the commands and what happens before and after each of them; with the
    global flag [debug] the runtime is profiled from the start of any command, and the
    signal of [sara pprof] makes the server write the profiles.  What the profilers have
    collected is the class [Profiler]; the command line library calls [Before], the action
    and [After] in this order, as documented. *)

From S2P Require Import Prelude GoBytes Utf8 Json Gjson Types Conn Config Redis Database SaraDb DbLife World External Session SessionProps Rpc Node Server Flags Main.

(** What the profilers write: the samples of a CPU profile, the heap, the blocking events;
    [block_error created] is the error of writing the last one to a file that could or
    could not be created. *)
Class Profiler := {
  cpu_samples : bytes;
  heap_profile : bytes;
  block_profile : bytes;
  block_error : bool → error }.

(** The process: the machine, the file that receives the CPU profile while one runs ([Some
    None]: a profile runs into a file that could not be created), the two rates, what was
    printed, and whether the log is open. *)
Record Proc := mkProc {
  p_os : Os;
  p_cpu : option (option bytes);
  MemProfileRate : Z;
  BlockProfileRate : Z;
  p_out : list bytes;
  p_log : bool }.

Definition version : bytes := §"0.0.2".
Definition app_Author : bytes := §"liangc".
Definition app_Email : bytes := §"cc14514@icloud.com".

Section Profiles.
Context `{Machine} `{Profiler}.
Abbreviation PM := (M Proc).

Definition in_os {A} (m : M Os A) : PM A :=
  zoom p_os (λ os p, mkProc os (p_cpu p) (MemProfileRate p) (BlockProfileRate p) (p_out p) (p_log p)) m.

(** [os.Create]: the file is made or emptied; the result is its name, nil on an error. *)
Definition Create (path : bytes) : PM (option bytes) :=
  match create_file path with
  | None => in_os (file_put path []) >>> ret (Some path)
  | Some _ => ret None
  end.

(** Writing to a file that may be nil. *)
Definition write_to (f : option bytes) (data : bytes) : PM unit :=
  match f with
  | None => ret tt
  | Some path => in_os (modify (λ os, mkOs (<[path := default [] (files os !! path) ++ data]> (files os)) (signalled os)))
  end.

Definition set_cpu (c : option (option bytes)) (p : Proc) : Proc :=
  mkProc (p_os p) c (MemProfileRate p) (BlockProfileRate p) (p_out p) (p_log p).

(** [pprof.StartCPUProfile] refuses when a profile is running. *)
Definition startCpuProfiles : PM unit :=
  let! f := Create cpu_log in
  let! running := gets p_cpu in
  match running with
  | Some _ => ret tt
  | None => modify (set_cpu (Some f))
  end.

Definition startBlockProfile : PM unit := modify (λ p,
  mkProc (p_os p) (p_cpu p) (MemProfileRate p) 1 (p_out p) (p_log p)).
Definition startMemProfiles : PM unit := modify (λ p,
  mkProc (p_os p) (p_cpu p) (1 * 1024) (BlockProfileRate p) (p_out p) (p_log p)).

Definition stopCpuProfiles : PM unit :=
  let! running := gets p_cpu in
  match running with
  | None => ret tt
  | Some f => write_to f cpu_samples >>> modify (set_cpu None)
  end.

(** [stopBlockProfile]: the error message dereferences the file. *)
Definition stopBlockProfile : PM unit :=
  let! f := Create blk_log in
  match block_error (match f with Some _ => true | None => false end) with
  | Some _ => match f with Some _ => ret tt | None => panic nil_deref end
  | None => write_to f block_profile
  end.

Definition stopMemProfiles : PM unit :=
  let! f := Create mem_log in write_to f heap_profile.

(** The reaction to SIGUSR1. *)
Definition flush_profiles (debug : bool) : PM unit :=
  if debug then stopCpuProfiles >>> stopMemProfiles >>> stopBlockProfile else ret tt.

(** ** The application *)

(** [app.Before] and [app.After]. *)
Definition Before (debug : bool) : PM error :=
  (if debug then startCpuProfiles >>> startMemProfiles >>> startBlockProfile else ret tt) >>> ret None.
Definition After : PM error :=
  modify (λ p, mkProc (p_os p) (p_cpu p) (MemProfileRate p) (BlockProfileRate p) (p_out p) false) >>> ret None.

Definition Println (l : bytes) : PM unit := modify (λ p,
  mkProc (p_os p) (p_cpu p) (MemProfileRate p) (BlockProfileRate p) (p_out p ++ [l]) (p_log p)).

(** A tabulator, as in the labels of [vsn]. *)
Definition tab : bytes := ["009"%char].

Definition vsn : PM error :=
  Println (§"version" ++ tab ++ §": " ++ version) >>>
  Println (§"auth" ++ tab ++ §": " ++ app_Author) >>>
  Println (§"email" ++ tab ++ §": " ++ app_Email) >>>
  Println (§"source" ++ tab ++ §": https://github.com/emsg/sara") >>>
  ret None.

(** The arguments [makeconnForTest] gives to [benchmark.MakeConn], from the getters of the
    context. *)
Record MakeConnArgs := mkArgs { a_laddr : bytes; a_addr : bytes; a_total : Z; a_hb : Z; a_mg : Z; a_ms : Z }.

Definition makeconnForTest (ctx_String : bytes → bytes) (ctx_Int : bytes → Z) : MakeConnArgs :=
  mkArgs (ctx_String (§"laddr")) (ctx_String (§"raddr")) (ctx_Int (§"total")) (ctx_Int (§"heartbeat"))
    (ctx_Int (§"messagegap")) (ctx_Int (§"messagesize")).

(** The action of a command; [bench] is the benchmark and [serve] is [sara], which runs
    without a command. *)
Definition run_action (bench serve : PM error) (out : bytes) (cmd : option action) : PM error :=
  match cmd with
  | None => serve
  | Some AVsn => vsn
  | Some AStop => in_os stop
  | Some ASetup => in_os (setupConf out)
  | Some AMakeconn => bench
  | Some APprof => in_os pprofForDebug
  end.

(** [main]: the error of [app.Run] is printed. *)
Definition main (bench serve : PM error) (debug : bool) (out : bytes) (cmd : option action) : PM unit :=
  let! e := Before debug in
  let! err := match e with
              | Some e => ret (Some e)
              | None => let! r := run_action bench serve out cmd in After >>> ret r
              end in
  match err with Some e => Println e | None => ret tt end.
End Profiles.

(** ** Properties *)

Section Properties.
Context `{Machine} `{Profiler}.
Implicit Types p : Proc.

(** The three files of the profiles. *)
Definition profile_files : list bytes := [cpu_log; mem_log; blk_log].

(** The profiles of a server: when the files can be made, the flag [debug] starts the
    profiles, and the first flush afterwards writes each of the three files with what was
    collected and stops the CPU profile. *)
Theorem first_flush_writes_profiles p :
  p_cpu p = None → Forall (λ f, create_file f = None) profile_files → block_error true = None →
  ∃ p1 p2, Before true p = (Ret None, p1) ∧ MemProfileRate p1 = 1024 ∧ BlockProfileRate p1 = 1 ∧
    flush_profiles true p1 = (Ret tt, p2) ∧ p_cpu p2 = None ∧
    files (p_os p2) !! cpu_log = Some cpu_samples ∧ files (p_os p2) !! mem_log = Some heap_profile ∧
    files (p_os p2) !! blk_log = Some block_profile ∧
    ∀ f, f ∉ profile_files → files (p_os p2) !! f = files (p_os p) !! f.
Proof.
  intros Hn Hf Hb. apply list.Forall_cons in Hf as [Hc Hf]. apply list.Forall_cons in Hf as [Hm Hf]. apply list.Forall_cons in Hf as [Hk _].
  destruct p as [os cpu mr br o l]. cbn in Hn. subst cpu. unfold Before, startCpuProfiles, Create. rewrite Hc.
  do 2 eexists. split; [reflexivity|]. split; [done|]. split; [done|].
  unfold flush_profiles, stopCpuProfiles, stopMemProfiles, stopBlockProfile, Create. rewrite Hm, Hk. split.
  { unfold bind at 1. cbn. unfold bind. cbn. rewrite Hb. reflexivity. }
  cbn. split; [done|]. split_and!.
  - by do 4 rewrite lookup_insert_ne by discriminate; rewrite !lookup_insert_eq.
  - by do 2 rewrite lookup_insert_ne by discriminate; rewrite !lookup_insert_eq.
  - by rewrite !lookup_insert_eq.
  - intros f Hf'. unfold profile_files in Hf'. rewrite !not_elem_of_cons in Hf'. destruct Hf' as (? & ? & ? & _).
    by repeat rewrite lookup_insert_ne by by apply not_eq_sym.
Qed.

(** A second flush does not touch the CPU profile: nothing has been collected since the
    first one, which ended the profile. *)
Theorem second_flush_keeps_cpu_file p p' :
  p_cpu p = None → flush_profiles true p = (Ret tt, p') → files (p_os p') !! cpu_log = files (p_os p) !! cpu_log.
Proof.
  destruct p as [os cpu mr br o l]. intros Hn. cbn in Hn. subst cpu.
  unfold flush_profiles, stopCpuProfiles, stopMemProfiles, stopBlockProfile, Create, bind, write_to.
  destruct (create_file mem_log), (create_file blk_log); cbn;
    match goal with |- context [block_error ?b] => destruct (block_error b) end; cbn; intros [= <-]; cbn; repeat rewrite lookup_insert_ne by discriminate; done.
Qed.

(** Any command with the flag [debug], [stop] and [pprof] included, empties the file that
    the server writes its CPU profile to. *)
Theorem debug_command_empties_cpu_file p :
  create_file cpu_log = None → ∃ p', Before true p = (Ret None, p') ∧ files (p_os p') !! cpu_log = Some [].
Proof.
  intros Hc. destruct p as [os cpu mr br o l]. unfold Before, startCpuProfiles, Create, bind. rewrite Hc. cbn.
  destruct cpu; cbn; eexists; (split; [reflexivity|]); apply lookup_insert_eq.
Qed.

(** A file for the blocking events that cannot be made ends the process. *)
Theorem flush_without_file_panics p e :
  create_file blk_log = Some e → block_error false = Some e → (flush_profiles true p).1 = Panic nil_deref.
Proof.
  intros Hk Hb. destruct p as [os cpu mr br o l].
  unfold flush_profiles, stopCpuProfiles, stopMemProfiles, stopBlockProfile, Create, bind, write_to. rewrite Hk.
  destruct cpu as [[f|]|], (create_file mem_log); cbn; by rewrite Hb.
Qed.

(** Without the flag no command starts a profile and a flush does nothing. *)
Theorem no_debug_no_profile p :
  Before false p = (Ret None, p) ∧ flush_profiles false p = (Ret tt, p).
Proof. by destruct p. Qed.

(** A command that fails prints its error, after the log has been closed. *)
Lemma main_prints_error bench serve out cmd p p1 e :
  run_action bench serve out cmd p = (Ret (Some e), p1) →
  ∃ p2, main bench serve false out cmd p = (Ret tt, p2) ∧ p_out p2 = p_out p1 ++ [e] ∧ p_log p2 = false.
Proof.
  intros E. unfold main. erewrite bind_Ret by (apply no_debug_no_profile).
  erewrite bind_Ret by (erewrite bind_Ret by exact E; reflexivity). eexists. split; [reflexivity|done].
Qed.
End Properties.

(** ** The flags of the benchmark *)

(** The getters of a context with only default values. *)
Definition default_String (fs : list flag) (name : bytes) : bytes :=
  match list_find (λ f, long_name f = name) fs with Some (_, StringFlag _ _ v) => v | _ => [] end.
Definition default_Int (fs : list flag) (name : bytes) : Z :=
  match list_find (λ f, long_name f = name) fs with Some (_, IntFlag _ _ v) => v | _ => 0 end.

Local Ltac declared f :=
  exists f; split; [unfold InitFlagsForTestOfMakeConn; set_solver|split; [vm_compute; reflexivity|by do 3 eexists]].

(** Every flag that [makeconnForTest] reads is declared with the type it is read with. *)
Theorem makeconn_reads_declared_flags :
  Forall (λ n, ∃ f, f ∈ InitFlagsForTestOfMakeConn ∧ long_name f = n ∧ ∃ a b v, f = StringFlag a b v) [§"laddr"; §"raddr"] ∧
  Forall (λ n, ∃ f, f ∈ InitFlagsForTestOfMakeConn ∧ long_name f = n ∧ ∃ a b v, f = IntFlag a b v)
    [§"total"; §"heartbeat"; §"messagegap"; §"messagesize"] ∧
  makeconnForTest (default_String InitFlagsForTestOfMakeConn) (default_Int InitFlagsForTestOfMakeConn) =
    mkArgs [] (§"localhost:4222") 1024 50 5 0.
Proof.
  split_and!; [| |vm_compute; reflexivity].
  - constructor; [declared Laddr|]. constructor; [declared Addr_|constructor].
  - constructor; [declared Total|]. constructor; [declared HbType|]. constructor; [declared Mg|].
    constructor; [declared Ms|constructor].
Qed.
