(* ===== verification/Stop.v ===== *)
(** * Stop: the end of a node.

    [Wait] closes the sessions, which queue the deletions of their records and the packets
    that were not acknowledged; then [Close] ends the database.  The composition of
    [Session], [Node], [Server], [SaraDb] and [DbLife]: which messages survive, and how
    the end can go wrong. *)

From S2P Require Import Prelude GoBytes Utf8 Json Gjson Types Conn Config Redis Database SaraDb DbLife World External Session SessionProps Rpc Node Sound Server.

(** ** What closing a session queues *)

Definition packet_cmds (pk : Packet) : list rcmd :=
  match NewJID (To (envelope_of pk)) with
  | inr jt => store_cmds (ToOfflineKey jt) OFFLINE_EXPIRED (Id (envelope_of pk), ToJson pk)
  | inl _ => []
  end.

Definition logout_cmds (st : SessionStatus) : list rcmd :=
  if login st then
    match NewJID (ss_Jid st) with
    | inr j => [HDEL (ss_Nodeid st ++ IDX_SUFFIX) (ToSessionid j); DEL (ToSessionid j)]
    | inl _ => []
    end
  else [].

Definition unacked (s : Session) : list Packet := (map_to_list (pkgBuff s)).*2.

Definition session_cmds (s : Session) : list rcmd :=
  if decide (ss_Status (Status s) = STATUS_CLOSE) then []
  else logout_cmds (Status s) ++ (unacked s ≫= packet_cmds).

(** The ids of the packets an open session stores are no session keys. *)
Definition plain_ids (s : Session) : Prop :=
  ss_Status (Status s) ≠ STATUS_CLOSE → map_Forall (λ _ p, ¬ session_key (Id (envelope_of p))) (pkgBuff s).

Section Stop.
Context `{GoLib} `{Oracles} `{Thrift} {R : Type} `{RedisLaws R}.
Abbreviation D := (SaraDatabase R).
Implicit Types (d : D) (n : Node D).

(** Not the deletion of a key. *)
Definition no_del (c : rcmd) : Prop := match c with DEL _ => False | _ => True end.

(** The commands were queued, deletions of keys for the session workers, and nothing else
    happened. *)
Definition queued d d' (cs : list rcmd) : Prop :=
  ∃ q q4, d' = mkDb (redis d) (wbCh d ++ map WB q) (wbCh_closed d) (wbCh4s d ++ map WB q4) (workers d) ∧
    q ++ q4 ≡ₚ cs ∧ Forall no_del q.

Lemma queued_nil d : queued d d [].
Proof. exists [], []. cbn. rewrite !app_nil_r. by destruct d. Qed.

Lemma queued_app d1 d2 d3 cs1 cs2 : queued d1 d2 cs1 → queued d2 d3 cs2 → queued d1 d3 (cs1 ++ cs2).
Proof.
  intros (q & q4 & -> & Hp & Hq) (r & r4 & -> & Hr & Hr'). exists (q ++ r), (q4 ++ r4). cbn.
  rewrite !map_app, <-!app_assoc. split; [done|]. split; [|by apply Forall_app].
  rewrite <-Hp, <-Hr. solve_Permutation.
Qed.

Lemma queued_perm d d' cs cs' : cs ≡ₚ cs' → queued d d' cs → queued d d' cs'.
Proof. intros Hp (q & q4 & E & Hq). exists q, q4. by rewrite <-Hp. Qed.

Lemma queued_pending d d' cs : queued d d' cs → pending d' ≡ₚ pending d ++ cs.
Proof.
  intros (q & q4 & -> & Hp & _). unfold pending. cbn. rewrite !cmds_app, <-Hp.
  assert (∀ l, cmds (map WB l) = l) as Hc by (induction l as [|? ? IH]; [done|]; cbn; by f_equal).
  rewrite !Hc. solve_Permutation.
Qed.

Lemma queued_running d d' cs : queued d d' cs → running d → running d'.
Proof.
  intros (q & q4 & -> & _) []. assert (∀ l, Forall is_cmd (map WB l)) as Hl by (intros l; by apply Forall_map, Forall_true).
  split; cbn; try done; by apply Forall_app.
Qed.

Lemma store_one_queued d pk :
  wbCh_closed d = false → addressed pk → ¬ session_key (Id (envelope_of pk)) → queued d (store_one d pk) (packet_cmds pk).
Proof.
  intros Ho [jt Ht] Hs. unfold store_one, packet_cmds. rewrite Ht. cbn [db_PutExWithIdx SaraDatabase_Database].
  rewrite PutExWithIdx_other by done. cbn [snd]. exists (store_cmds (ToOfflineKey jt) OFFLINE_EXPIRED (Id (envelope_of pk), ToJson pk)), [].
  rewrite !app_nil_r. split; [destruct d; reflexivity|]. split; [done|]. by repeat constructor.
Qed.

Lemma store_all_queued d l :
  wbCh_closed d = false → Forall (λ p, addressed p ∧ ¬ session_key (Id (envelope_of p))) l →
  queued d (foldl store_one d l) (l ≫= packet_cmds).
Proof.
  intros Ho Hl. revert d Ho. induction Hl as [|p l [Ha Hs] Hl IH]; intros d Ho; [apply queued_nil|].
  cbn [foldl]. pose proof (store_one_queued d p Ho Ha Hs) as Hq. change ((p :: l) ≫= packet_cmds) with (packet_cmds p ++ (l ≫= packet_cmds)).
  eapply queued_app; [exact Hq|]. apply IH. by destruct Hq as (? & ? & -> & _).
Qed.

Lemma logout_queued d st : queued d (logout_db st d) (logout_cmds st).
Proof.
  unfold logout_db, logout_cmds. destruct (login st); [|apply queued_nil].
  destruct (NewJID (ss_Jid st)) as [e|j]; [apply queued_nil|]. cbn [db_DeleteByIdxKey SaraDatabase_Database].
  rewrite DeleteByIdxKey_session by apply session_key_ToSessionid. eexists [], [_; _]. cbn [map snd].
  rewrite app_nil_r. done.
Qed.

(** Storing and deleting keep the service up. *)
Lemma PutExWithIdx_up idx key v ex d : up (redis d) → up (redis (PutExWithIdx idx key v ex d).2).
Proof.
  intros Hu. unfold PutExWithIdx. destruct (is4s key).
  - unfold bind at 1. cbn [executeDirect]. pose proof (redis_up _ (HSET (idx ++ IDX_SUFFIX) key v) Hu) as Hu1.
    destruct (Resp_Err _); [exact Hu1|]. unfold bind. destruct (0 <? ex); cbn [executeDirect ret snd];
      by apply redis_up.
  - unfold recover, bind, execute, send_wbCh. destruct (0 <? ex); unfold bind; (destruct (wbCh_closed d) eqn:Ec; cbn; by rewrite ?Ec).
Qed.

Lemma logout_up d st : up (redis d) → up (redis (logout_db st d)).
Proof. destruct (logout_queued d st) as (? & ? & -> & _). done. Qed.

Lemma store_all_up d l : up (redis d) → up (redis (foldl store_one d l)).
Proof.
  revert d. induction l as [|p l IH]; intros d Hu; [done|]. cbn [foldl]. apply IH. unfold store_one.
  destruct (NewJID _); [done|]. by apply PutExWithIdx_up.
Qed.

(** ** Closing the sessions *)

Lemma close_one n sid s msg :
  heap n !! sid = Some s → session_sound s → up (redis (w_db (world n))) →
  ∃ n' s', in_session sid (CloseSession msg) n = (Ret tt, n') ∧ heap n' = <[sid := s']> (heap n) ∧
    ss_Status (Status s') = STATUS_CLOSE ∧ up (redis (w_db (world n'))) ∧
    (wbCh_closed (w_db (world n)) = false → plain_ids s → queued (w_db (world n)) (w_db (world n')) (session_cmds s)).
Proof.
  intros Hs [Hc Hj Hb] Hu. unfold in_session, session_cmds. rewrite Hs. destruct (sc s) as [c|] eqn:Ec; [|done].
  destruct (decide (ss_Status (Status s) = STATUS_CLOSE)) as [Ecl|Hcl].
  - assert (CloseSession msg (mkS s (world n)) = (Ret tt, mkS s (world n))) as ->.
    { unfold CloseSession, get_Status. erewrite bind_Ret by reflexivity. by rewrite decide_True. }
    do 2 eexists. do 3 (split; [done|]). split; [done|]. intros. apply queued_nil.
  - destruct (CloseSession_runs (mkS s (world n)) c msg) as (x' & l & E & Hp & Hd & _ & Hcl' & _); try done.
    { intros i p Hip. by apply (Hb i p). }
    rewrite E. do 2 eexists. do 3 (split; [done|]). cbn [world w_db set_heap set_world].
    rewrite Hd. cbn [wld ses] in *. split; [by apply store_all_up, logout_up|]. intros Ho Hi.
    eapply queued_app; [apply logout_queued|].
    assert (l ≫= packet_cmds ≡ₚ unacked s ≫= packet_cmds) as Hl by (unfold unacked; by rewrite Hp).
    eapply queued_perm; [exact Hl|].
    pose proof (logout_queued (w_db (world n)) (Status s)) as (? & ? & Eq & _).
    apply store_all_queued; [by rewrite Eq|]. rewrite Hp. apply list.Forall_forall.
    intros p ([i p'] & -> & Hip%elem_of_map_to_list)%list_elem_of_fmap.
    split; [by apply (Hb i p')|by apply (Hi Hcl i p')].
Qed.

Lemma bind_ext_in {A B} (f g : A → list B) l : (∀ x, x ∈ l → f x = g x) → l ≫= f = l ≫= g.
Proof.
  induction l as [|x l IH]; intros Hfg; [done|]. cbn. rewrite Hfg by set_solver. f_equal. apply IH. set_solver.
Qed.

(** What the sessions of a list of ids queue. *)
Definition sessions_cmds n (sids : list bytes) : list rcmd :=
  sids ≫= λ sid, match heap n !! sid with Some s => session_cmds s | None => [] end.

Lemma close_all sids n msg :
  NoDup sids → (∀ sid, sid ∈ sids → ∃ s, heap n !! sid = Some s ∧ session_sound s) → up (redis (w_db (world n))) →
  ∃ n', for_range sids (λ sid, in_session sid (CloseSession msg)) n = (Ret tt, n') ∧
    (∀ sid, sid ∈ sids → ∃ s, heap n' !! sid = Some s ∧ ss_Status (Status s) = STATUS_CLOSE) ∧
    (∀ sid, sid ∉ sids → heap n' !! sid = heap n !! sid) ∧
    (wbCh_closed (w_db (world n)) = false → (∀ sid s, sid ∈ sids → heap n !! sid = Some s → plain_ids s) →
     queued (w_db (world n)) (w_db (world n')) (sessions_cmds n sids)).
Proof.
  revert n. induction sids as [|sid sids IH]; intros n Hnd Hin Hu; cbn [for_range].
  { exists n. split; [done|]. split_and!; [set_solver|done|]. intros. apply queued_nil. }
  apply list.NoDup_cons in Hnd as [Hni Hnd]. destruct (Hin sid ltac:(set_solver)) as (s & Hs & Hc).
  destruct (close_one n sid s msg Hs Hc Hu) as (n1 & s1 & E1 & Hh1 & Hs1 & Hu1 & Hq1).
  assert (∀ sid', sid' ∈ sids → heap n1 !! sid' = heap n !! sid') as Hsame.
  { intros sid' Hs'. rewrite Hh1, lookup_insert_ne; [done|]. by intros ->. }
  destruct (IH n1 Hnd) as (n2 & E2 & Hc2 & Hk2 & Hq2); [|done|].
  { intros sid' Hs'. rewrite Hsame by done. apply Hin. set_solver. }
  exists n2. erewrite bind_Ret by exact E1. split; [done|]. split_and!.
  - intros sid' [->|Hs']%elem_of_cons; [|by apply Hc2].
    exists s1. rewrite Hk2, Hh1, lookup_insert_eq by done. done.
  - intros sid' [Hne Hn']%not_elem_of_cons. rewrite Hk2, Hh1 by done. by rewrite lookup_insert_ne.
  - intros Ho Hp. unfold sessions_cmds in *. cbn [mbind list_bind]. rewrite Hs.
    specialize (Hq1 Ho (Hp sid s ltac:(set_solver) Hs)). eapply queued_app; [exact Hq1|].
    assert (sids ≫= (λ sid, match heap n1 !! sid with Some s => session_cmds s | None => [] end) =
            sids ≫= (λ sid, match heap n !! sid with Some s => session_cmds s | None => [] end)) as <-.
    { apply bind_ext_in. intros sid' Hs'. by rewrite Hsame. }
    apply Hq2; [by destruct Hq1 as (? & ? & -> & _)|]. intros sid' s' Hs' Hh. rewrite Hsame in Hh by done.
    apply (Hp sid'); [set_solver|done].
Qed.

(** The open sessions of a node store nothing under a session key. *)
Definition node_plain n : Prop := ∀ sid s, sid ∈ sessionMap n → heap n !! sid = Some s → plain_ids s.

Lemma stop_sessions_runs n :
  reachable n → up (redis (w_db (world n))) →
  ∃ n' sids, stop_sessions n = (Ret tt, n') ∧ sids ≡ₚ elements (sessionMap n) ∧
    (∀ sid, sid ∈ sessionMap n → ∃ s, heap n' !! sid = Some s ∧ ss_Status (Status s) = STATUS_CLOSE) ∧
    (wbCh_closed (w_db (world n)) = false → node_plain n →
     queued (w_db (world n)) (w_db (world n')) (sessions_cmds n sids)).
Proof.
  intros [Hok Hc]%reachable_sane Hu. unfold stop_sessions. erewrite bind_Ret by reflexivity.
  set (sids := range_order (n_range (world n)) (elements (sessionMap n))).
  assert (sids ≡ₚ elements (sessionMap n)) as Hp by apply range_order_perm.
  erewrite bind_Ret by (unfold in_world; apply zoom_run; reflexivity). fold sids.
  match goal with |- context [for_range _ _ ?y] => set (n1 := y) end.
  destruct (close_all sids n1 (§"node_stop")) as (n2 & E & Hcl & _ & Hq).
  - rewrite Hp. apply NoDup_elements.
  - intros sid Hs. rewrite Hp, elem_of_elements in Hs. destruct (ok_map n Hok sid Hs) as [s Hh].
    exists s. split; [done|]. by apply (Hc sid).
  - done.
  - exists n2, sids. split_and!; try done.
    + intros sid Hs. apply Hcl. by rewrite Hp, elem_of_elements.
    + intros Ho Hpl. apply Hq; [done|]. intros sid s Hs. rewrite Hp, elem_of_elements in Hs. by apply Hpl.
Qed.

(** ** Properties *)

(** The packets that wait for an acknowledgement on a node. *)
Definition waiting n (pk : Packet) : Prop :=
  ∃ sid s i, sid ∈ sessionMap n ∧ heap n !! sid = Some s ∧ ss_Status (Status s) ≠ STATUS_CLOSE ∧ pkgBuff s !! i = Some pk.

(** Nothing that is written when the node stops, with the keepalive key [k], collides with
    the entry of [pk] in the index [h]: no key or node index is named [h], and another
    packet under the same id for the same user has the same text. *)
Record no_clash n (k h : bytes) (pk : Packet) : Prop := {
  nc_keep : k ≠ h;
  nc_node : ∀ sid s, sid ∈ sessionMap n → heap n !! sid = Some s → ss_Nodeid (Status s) ++ IDX_SUFFIX ≠ h;
  nc_id : ∀ p, waiting n p → Id (envelope_of p) ≠ h;
  nc_text : ∀ p j, waiting n p → NewJID (To (envelope_of p)) = OK j → ToOfflineKey j ++ IDX_SUFFIX = h →
    Id (envelope_of p) = Id (envelope_of pk) → ToJson p = ToJson pk }.

Lemma session_not_offline j jt : ToSessionid j ≠ ToOfflineKey jt ++ IDX_SUFFIX.
Proof. unfold ToSessionid, ToOfflineKey. cbn. discriminate. Qed.

(** What the stopping sessions do to the index of a waiting packet. *)
Lemma stop_cmds_index n sids k pk jt c :
  no_clash n k (ToOfflineKey jt ++ IDX_SUFFIX) pk → (∀ sid, sid ∈ sids → sid ∈ sessionMap n) →
  c ∈ sessions_cmds n sids → rkey c = ToOfflineKey jt ++ IDX_SUFFIX →
  ∃ g u, c = HSET (ToOfflineKey jt ++ IDX_SUFFIX) g u ∧ (g = Id (envelope_of pk) → u = ToJson pk).
Proof.
  intros Hnc Hsids (sid & Hc & Hsid)%list_elem_of_bind Hk. apply Hsids in Hsid.
  destruct (heap n !! sid) as [s|] eqn:Hs; [|set_solver]. unfold session_cmds in Hc.
  destruct (decide (ss_Status (Status s) = STATUS_CLOSE)) as [|Hst]; [set_solver|].
  apply elem_of_app in Hc as [Hc|(p & Hc & Hp)%list_elem_of_bind].
  - unfold logout_cmds in Hc. destruct (login (Status s)); [|set_solver].
    destruct (NewJID (ss_Jid (Status s))) as [e|j]; [set_solver|].
    apply elem_of_cons in Hc as [->|Hc%list_elem_of_singleton]; [|subst c; by apply session_not_offline in Hk].
    by apply (nc_node _ _ _ _ Hnc sid s) in Hk.
  - apply list_elem_of_fmap in Hp as ([i p'] & -> & Hip%elem_of_map_to_list). cbn [snd] in *.
    assert (waiting n p') as Hw by (by exists sid, s, i). unfold packet_cmds in Hc.
    destruct (NewJID (To (envelope_of p'))) as [e|j] eqn:Ej; [set_solver|].
    unfold store_cmds in Hc. cbn [fst snd] in Hc.
    apply elem_of_cons in Hc as [->|Hc%list_elem_of_singleton].
    + cbn [rkey] in Hk. exists (Id (envelope_of p')), (ToJson p'). split; [by rewrite Hk|].
      intros Hid. by apply (nc_text _ _ _ _ Hnc p' j).
    + subst c. destruct (nc_id _ _ _ _ Hnc p' Hw Hk).
Qed.

Lemma waiting_stored n sids pk jt :
  waiting n pk → sids ≡ₚ elements (sessionMap n) → NewJID (To (envelope_of pk)) = OK jt →
  HSET (ToOfflineKey jt ++ IDX_SUFFIX) (Id (envelope_of pk)) (ToJson pk) ∈ sessions_cmds n sids.
Proof.
  intros (sid & s & i & Hin & Hs & Hst & Hi) Hp Hj. apply list_elem_of_bind. exists sid.
  split; [|by rewrite Hp, elem_of_elements]. rewrite Hs. unfold session_cmds. rewrite decide_False by done.
  apply elem_of_app. right. apply list_elem_of_bind. exists pk. split.
  - unfold packet_cmds. rewrite Hj. apply list_elem_of_here.
  - apply list_elem_of_fmap. exists (i, pk). split; [done|]. by apply elem_of_map_to_list.
Qed.
End Stop.

Section Properties.
Context `{GoLib} `{Oracles} `{Thrift} `{Host} {R : Type} `{RedisLaws R}.
Implicit Types (n : Node (SaraDatabase R)) (sv : Server R).

Lemma Wait_runs sv :
  reachable (sv_node sv) → up (redis (w_db (world (sv_node sv)))) →
  ∃ n' sids, sids ≡ₚ elements (sessionMap (sv_node sv)) ∧
    (∀ sid, sid ∈ sessionMap (sv_node sv) → ∃ s, heap n' !! sid = Some s ∧ ss_Status (Status s) = STATUS_CLOSE) ∧
    (wbCh_closed (w_db (world (sv_node sv))) = false → node_plain (sv_node sv) →
     queued (w_db (world (sv_node sv))) (w_db (world n')) (sessions_cmds (sv_node sv) sids)) ∧
    Wait_sessions sv = (Ret tt, set_node n' (closeListener (set_accept (acceptCh sv) true (accepting sv) sv)).2).
Proof.
  intros Hr Hu. destruct (stop_sessions_runs _ Hr Hu) as (n' & sids & E & Hp & Hcl & Hq).
  exists n', sids. split_and!; try done. unfold Wait_sessions. do 2 erewrite bind_Ret by reflexivity.
  unfold in_node. by apply zoom_run.
Qed.

(** The whole of [Wait] after [Stop]: the sessions are closed, the workers of the database make
    some steps, and [self.db.Close()], with the keepalive key [k], has come to [c]. *)
Definition Wait_close (k : bytes) sv sv' (c : closing (R := R)) : Prop :=
  Wait_sessions sv = (Ret tt, sv') ∧
  ∃ es db2, db_run (w_db (world (sv_node sv'))) es (Ret tt) db2 ∧ sessions_idle db2 ∧ close_reach k db2 c.

(** C18: stopping a node ends the sessions of its map: whatever the node has done since its
    start, [Wait] comes to [self.db.Close()] without a panic and has then closed every session
    that was in the map, the channel and every listener; the connections in the channel are left
    as they are.  When the deletions of the session records have been carried out before the
    database is closed, [Close] does not panic either, can always go on until it is done, and
    cannot go on for ever. *)
Theorem stop_closes_every_session sv :
  reachable (sv_node sv) → up (redis (w_db (world (sv_node sv)))) →
  ∃ sv', Wait_sessions sv = (Ret tt, sv') ∧ acceptCh_closed sv' = true ∧ (∀ k, listeners sv' k ≠ Some true) ∧
    acceptCh sv' = acceptCh sv ∧
    (∀ sid, sid ∈ sessionMap (sv_node sv) →
      ∃ s, heap (sv_node sv') !! sid = Some s ∧ ss_Status (Status s) = STATUS_CLOSE) ∧
    (running (w_db (world (sv_node sv))) → node_plain (sv_node sv) → ∀ k c, Wait_close k sv sv' c →
      Acc (advances k) c ∧ (∀ e p c', close_do k e c ≠ Some (Panic p, c')) ∧
      (c_phase c = PDone ∨ ∃ c', advances k c' c)).
Proof.
  intros Hr Hu. destruct (Wait_runs sv Hr Hu) as (n' & sids & _ & Hcl & Hq & E).
  eexists. split; [exact E|]. split; [done|]. split; [intros k; cbn; by destruct (listeners sv k)|].
  split; [done|]. split; [done|]. intros Hrun Hpl k c (_ & es & db2 & Hdb & Hi & Hc).
  specialize (Hq (run_open _ Hrun) Hpl). pose proof (queued_running _ _ _ Hq Hrun) as Hrun'.
  cbn [sv_node set_node] in Hdb. apply running_run in Hdb as [_ Hrun2]; [|exact Hrun']. by apply (close_will_return k db2 c).
Qed.


(** C9: a graceful stop keeps the messages: a packet that still waits for its
    acknowledgement when the node stops is in its recipient's offline index in redis when
    the database has been closed, provided the queued deletions of session records are
    carried out before [Close] begins. *)
Theorem graceful_stop_keeps_messages sv sv' es db2 k c pk jt x :
  let n := sv_node sv in
  reachable n → node_plain n → up (redis (w_db (world n))) → running (w_db (world n)) → drained (w_db (world n)) →
  Wait_sessions sv = (Ret tt, sv') →
  db_run (w_db (world (sv_node sv'))) es (Ret tt) db2 → sessions_idle db2 →
  close_reach k db2 c → c_phase c = PDone →
  waiting n pk → NewJID (To (envelope_of pk)) = OK jt →
  hash_at (keys (w_db (world n))) (ToOfflineKey jt ++ IDX_SUFFIX) = OK x →
  no_clash n k (ToOfflineKey jt ++ IDX_SUFFIX) pk →
  ∃ y, hash_at (keys (c_db c)) (ToOfflineKey jt ++ IDX_SUFFIX) = OK y ∧ y !! Id (envelope_of pk) = Some (ToJson pk).
Proof.
  intros n Hrc Hpl Hu Hrun Hd HW Hr Hi Hcl Hph Hw Hj Hx Hnc.
  destruct (Wait_runs sv Hrc Hu) as (n' & sids & Hp & _ & Hq & E). specialize (Hq (run_open _ Hrun) Hpl).
  rewrite HW in E. injection E as ->. cbn [sv_node set_node] in Hr.
  assert (running (w_db (world n'))) as Hrun' by by eapply queued_running.
  assert (redis (w_db (world n')) = redis (w_db (world n))) as Er by by destruct Hq as (? & ? & -> & _).
  apply queued_pending in Hq. fold n in Hq. rewrite Hd in Hq. cbn [app] in Hq.
  assert (keys (w_db (world n')) = keys (w_db (world n))) as Ek by (unfold keys; by rewrite Er).
  destruct (db_run_executes _ es db2 ltac:(by rewrite Er) Hr) as (Hu2 & cs1 & Hp1 & Hk1).
  apply running_run in Hr as [_ Hrun2]; [|done].
  destruct (close_reach_pending k db2 c Hu2 Hcl) as (_ & m & cs2 & Hp2 & Hk2).
  assert (drained (c_db c)) as Hd2.
  { apply quiet_done. destruct c as [d p]. cbn in Hph |- *. subst p. eapply quiet_reach, Hcl. by apply quiet_start. }
  rewrite Hd2, app_nil_r in Hp2. rewrite Hk2, Hk1, Ek, <-run_cmds_app.
  assert (cs1 ++ cs2 ≡ₚ sessions_cmds n sids ++ replicate m (keep_cmd k)) as Hall
    by (by rewrite Hp2, app_assoc, <-Hp1, Hq).
  apply (run_cmds_hset _ _ _ _ _ x Hx).
  - intros c' Hin Hkey. rewrite Hall in Hin. apply elem_of_app in Hin as [Hin|[-> _]%elem_of_replicate].
    + eapply stop_cmds_index; try done. intros sid Hs. by rewrite Hp, elem_of_elements in Hs.
    + by destruct (nc_keep _ _ _ _ Hnc).
  - left. rewrite Hall. apply elem_of_app. left. by apply waiting_stored.
Qed.

(** C37: stopping a node with a logged in session can crash it: the deletion of the
    session's record is still queued when [Close] signals the session workers, and the
    first of them that takes it sends [KILL] on the closed channel. *)
Theorem stop_with_session_can_crash sv sv' k sid s :
  let n := sv_node sv in
  reachable n → node_plain n → up (redis (w_db (world n))) → running (w_db (world n)) → drained (w_db (world n)) →
  Forall (λ w, send_kill w = false) (workers (w_db (world n))) →
  sid ∈ sessionMap n → heap n !! sid = Some s → ss_Status (Status s) = STATUS_LOGIN →
  Wait_sessions sv = (Ret tt, sv') →
  ∃ c e c', close_reach k (w_db (world (sv_node sv'))) c ∧ close_do k e c = Some (Panic closed_channel, c').
Proof.
  intros n Hrc Hpl Hu Hrun Hd Hsk Hin Hs Hst HW.
  destruct (Wait_runs sv Hrc Hu) as (n' & sids & Hp & _ & Hq & E). specialize (Hq (run_open _ Hrun) Hpl).
  rewrite HW in E. injection E as ->. cbn [sv_node set_node].
  pose proof (queued_running _ _ _ Hq Hrun) as Hrun'. destruct Hq as (q & q4 & Ed & Hqq & Hnd). fold n in Ed, Hqq.
  destruct (drained_parts _ Hd) as (_ & _ & Hh). apply close_backlog_crash; [done|by rewrite Ed..|].
  destruct (so_jid s (proj2 (reachable_sane n Hrc) sid s Hs) Hst) as [j Hj].
  assert (DEL (ToSessionid j) ∈ q ++ q4) as Hdel.
  { rewrite Hqq. apply list_elem_of_bind. exists sid. fold n. rewrite Hs.
    split; [|by rewrite Hp, elem_of_elements]. unfold session_cmds. rewrite decide_False by by rewrite Hst.
    apply elem_of_app. left. unfold logout_cmds, login. rewrite Hst, bool_decide_true, Hj by done. set_solver. }
  apply elem_of_app in Hdel as [Hdel|Hdel]; [by destruct (proj1 (list.Forall_forall _ _) Hnd _ Hdel)|].
  rewrite Ed. cbn. destruct q4; [set_solver|]. by destruct (wbCh4s _).
Qed.

(** Stopping a node while a connection is being accepted can crash it: [Wait] closes
    [acceptCh] before the listeners, and an accept loop that already has its connection
    sends it on the closed channel, where nothing recovers the panic. *)
Theorem stop_while_accepting_can_crash sv sv' k :
  listeners sv k = Some true → websocket k = false → accepting sv = [] →
  Wait_sessions (accept_conn k sv).2 = (Ret tt, sv') → (accept_send sv').1 = Panic closed_channel.
Proof.
  intros Hl Hk Ha HW. unfold accept_conn in HW. rewrite Hl, Ha in HW. cbn [app snd] in HW.
  unfold Wait_sessions in HW. do 2 erewrite bind_Ret in HW by reflexivity. unfold in_node, zoom in HW.
  match type of HW with context [stop_sessions ?m] => destruct (stop_sessions m) as [o m'] end.
  injection HW as _ <-. unfold accept_send. cbn. by rewrite Hk.
Qed.
End Properties.
