(* ===== verification/Scenarios.v ===== *)
(** * Scenarios: the properties of clusters, of starting and of stopping at concrete inputs.

    Two nodes on one redis, amy on the first and bob on the second; a server started from
    the file of [sara setup]; a node that stops with one message that bob has not
    acknowledged. *)

From S2P Require Import Prelude GoBytes Utf8 Json Gjson Types Conn Config Redis Database SaraDb DbLife World External Session SessionProps Rpc Node Service Witnesses Sound Ghost Relogin Clean Deadline Cluster Server Flags Main Stop.

#[local] Existing Instances lib outside thrift.

(** ** Two nodes *)

Definition addr_a : bytes := §"h:4281".
Definition addr_b : bytes := §"h2:4281".

Definition node_amy : Node DB :=
  mkNode {[ §"s2" := session_of (§"s2") (§"amy@d") ]} {[ §"s2" ]} (§"n01") (NewRPCDataChannel addr_a) (start ∅ conf_quiet).

Definition bob_there : Session := mkSession bob_elsewhere (Some tcp) ∅.
Definition node_bob_there : Node DB :=
  mkNode {[ §"s9" := bob_there ]} {[ §"s9" ]} (§"n02") (NewRPCDataChannel addr_b) (start ∅ conf_quiet).

Definition cluster0 : Cluster :=
  mkCluster (with_record bob_elsewhere) (<[addr_a := node_amy]> {[ addr_b := node_bob_there ]}).

Lemma single_sane sid s nid r : ss_Sid (Status s) = sid → session_sound s →
  sane (mkNode {[ sid := s ]} {[ sid ]} nid r (start ∅ conf_quiet) : Node DB).
Proof.
  intros Hs Hsound. split; [split; cbn|by apply map_Forall_singleton].
  - by apply map_Forall_singleton.
  - intros i ->%elem_of_singleton. by rewrite lookup_singleton_eq.
  - vm_compute. discriminate.
Qed.

Lemma amy_sound : session_sound (session_of (§"s2") (§"amy@d")).
Proof. split; [done| |apply map_Forall_empty]. exists jid_amy. vm_compute. reflexivity. Qed.
Lemma bob_there_sound : session_sound bob_there.
Proof. split; [done| |apply map_Forall_empty]. exists jid_bob. vm_compute. reflexivity. Qed.

(** A worker of the first node's database times out. *)
Definition node_amy1 : Node DB :=
  match node_do (NDb (Waited 0)) (attach (c_redis cluster0) node_amy) with Some (_, n) => n | None => node_amy end.

Lemma cluster_invariant_witness : cluster_ok (put addr_a node_amy1 cluster0).
Proof.
  apply (cluster_invariant cluster0).
  - apply map_Forall_insert_2; [by apply single_sane, amy_sound|]. apply map_Forall_singleton. by apply single_sane, bob_there_sound.
  - apply rtc_once. apply (cs_local addr_a (NDb (Waited 0)) cluster0 node_amy).
    + apply lookup_insert_eq.
    + reflexivity.
    + reflexivity.
Defined.

Lemma message_crosses_nodes_witness :
  ∃ c' m' sb', rtc cluster_step cluster0 c' ∧ c_nodes c' !! addr_b = Some m' ∧ heap m' !! §"s9" = Some sb' ∧
    sc sb' = Some (add_out tcp chat_text) ∧ pkgBuff sb' !! §"m1" = Some (of_text chat_text).
Proof.
  apply (message_crosses_nodes cluster0 addr_a node_amy (§"s2") jid_amy (session_of (§"s2") (§"amy@d")) tcp
           addr_b node_bob_there (§"s9") jid_bob bob_there tcp chat_text (of_text chat_text) jid_amy jid_bob bob_elsewhere).
  - apply lookup_insert_eq.
  - cbn [cluster0 c_nodes]. rewrite lookup_insert_ne by discriminate. apply lookup_singleton_eq.
  - discriminate.
  - discriminate.
  - reflexivity.
  - reflexivity.
  - split; [apply lookup_singleton_eq|apply amy_logged_in|reflexivity|reflexivity].
  - split; [apply lookup_singleton_eq|split; vm_compute; reflexivity|reflexivity|reflexivity].
  - by apply elem_of_singleton.
  - reflexivity.
  - reflexivity.
  - reflexivity.
  - split; [vm_compute; reflexivity|split; [vm_compute; reflexivity|exact chat_from_to]].
  - reflexivity.
  - exact not_same.
  - reflexivity.
  - exact I.
  - exact (bob_seen bob_elsewhere conf_quiet).
  - exact bob_elsewhere_wf.
  - reflexivity.
  - reflexivity.
  - vm_compute. reflexivity.
Defined.

(** Nobody can be called. *)
Definition no_thrift : Thrift := {|
  dial _ _ := Some (§"refused"); call_process _ _ _ _ _ := ERR (§"refused"); rpc_uuid n := fmt_u (Z.of_nat n) |}.

Lemma unreachable_node_stores_message_witness :
  let d := set_wbCh (wbCh (w_db (world node_amy)) ++
             [WB (HSET (ToOfflineKey jid_bob ++ IDX_SUFFIX) (§"m1") chat_text);
              WB (SETEX (§"m1") OFFLINE_EXPIRED chat_text)]) (w_db (world node_amy)) in
  ∃ r, worker (H1 := no_thrift) (mkItem addr_b (§"s9") (Some (of_text chat_text)) 0) node_amy =
         (Ret tt, set_world (set_db d (world node_amy)) (set_rpc r node_amy)) ∧
    rpc_id r = rpc_id (rpc node_amy) ∧ dataCh r = dataCh (rpc node_amy).
Proof.
  apply (unreachable_node_stores_message (H1 := no_thrift) node_amy addr_b (§"s9") (of_text chat_text) jid_bob (§"refused")).
  - discriminate.
  - discriminate.
  - vm_compute. reflexivity.
  - apply not_session_dec. vm_compute. reflexivity.
  - reflexivity.
  - vm_compute. reflexivity.
Defined.

(** ** Starting *)

#[local] Instance host : Host := {|
  listen_tcp _ := None; listen_tls _ := None; load_key_pair _ _ := Some (§"no certificate"); server_socket _ := None |}.

#[local] Instance machine : Machine := {|
  getpid := 4711; create_file _ := None; write_file _ := None; find_process _ := None; send_signal _ _ := None |}.

(** A single redis, or none. *)
Definition one_redis : Radix keyspace := {|
  pool_New _ _ := OK ∅; cluster_NewWithOpts _ _ := ERR (§"not a cluster") |}.
Definition no_redis : Radix keyspace := {|
  pool_New _ _ := ERR (§"refused"); cluster_NewWithOpts _ _ := ERR (§"refused") |}.

Definition asked0 : asked_before := mkAsked 0 0 0 0.
Definition os0 : Os := mkOs ∅ [].
Definition conf_path : bytes := §"/etc/sara/conf.json".

Lemma lib_small_ints : small_ints_exact.
Proof. intros z Hz. cbn. unfold ParseInt_n. rewrite ParseInt_fmt; [done|]. unfold in_int64. lia. Qed.

Lemma setup_then_start_witness :
  ∃ os1 os2 sv, setupConf conf_path os0 = (Ret None, os1) ∧
    sara (H5 := one_redis) conf_path asked0 os1 = (Ret (Waiting sv), os2) ∧
    files os2 !! pidf = Some (fmt_d getpid) ∧
    (Port sv, WSPort sv, TLSPort sv, WSSPort sv) = (4222, 4224, 4333, 4334) ∧
    (listeners sv TCP, listeners sv WS, listeners sv TLS, listeners sv WSS) = (Some true, Some true, None, None) ∧
    Nodeid (sv_node sv) = §"n01" ∧ GetChannel (rpc (sv_node sv)) = §"localhost:4281" ∧
    sessionMap (sv_node sv) = ∅ ∧ w_router (world (sv_node sv)) = [].
Proof.
  eapply (setup_then_start conf_path asked0 _ os0).
  - exact lib_small_ints.
  - reflexivity.
  - reflexivity.
  - reflexivity.
  - reflexivity.
  - reflexivity.
  - reflexivity.
Defined.

Lemma no_database_panics_witness :
  sara (H5 := no_redis) conf_path asked0 (setupConf conf_path os0).2 = (Panic nil_deref, (setupConf conf_path os0).2).
Proof.
  apply (no_database_panics conf_path asked0).
  - exact lib_small_ints.
  - apply lookup_insert_eq.
  - by eexists.
  - by eexists.
Defined.

Lemma stop_signals_saved_process_witness :
  stop (savePid os0).2 = (Ret None, mkOs (files (savePid os0).2) (signalled os0 ++ [(getpid, SIGINT)])) ∧
  pprofForDebug (savePid os0).2 = (Ret None, mkOs (files (savePid os0).2) (signalled os0 ++ [(getpid, SIGUSR1)])).
Proof.
  apply (stop_signals_saved_process os0).
  - split; vm_compute; congruence.
  - reflexivity.
  - reflexivity.
  - reflexivity.
  - reflexivity.
Defined.

(** ** Stopping *)

(** A node from its start: it accepts a connection, bob logs in on it, another node hands
    over a message for bob, which is routed and sent; bob does not acknowledge it. *)
Definition conf_node : confmap := SetString (§"nodeid") (§"n01") conf_quiet.

Definition node_start : Node DB := mkNode ∅ ∅ (§"n01") (NewRPCDataChannel addr_a) (start ∅ conf_node).
Definition bob_sid : bytes := §"u0".

Definition bob_events : list nevent := [NAccept false; NRead bob_sid (RPackets [login_text])].
Definition run_node (es : list nevent) (n : Node DB) : Node DB :=
  foldl (λ n e, match node_do e n with Some (_, n') => n' | None => n end) n es.

Definition node_asked : Node DB := (in_rpc (Process LICENCE (§"1") chat_text) (run_node bob_events node_start)).2.
Definition node_waiting : Node DB := run_node [NData; NWork] node_asked.

(** A run whose events all return is a sequence of steps. *)
Fixpoint all_return (es : list nevent) (n : Node DB) : bool :=
  match es with
  | [] => true
  | e :: es => match node_do e n with Some (Ret tt, n') => all_return es n' | _ => false end
  end.

Lemma run_node_steps es n : all_return es n = true → rtc node_step n (run_node es n).
Proof.
  revert n. induction es as [|e es IH]; intros n Ha; [apply rtc_refl|]. cbn in Ha |- *.
  destruct (node_do e n) as [[[[]|p] n']|] eqn:E; [|done..]. eapply rtc_l; [by eapply node_do_step|]. by apply IH.
Qed.

Lemma node_waiting_reachable : reachable node_waiting.
Proof.
  exists node_start. split; [by split|]. transitivity (run_node bob_events node_start).
  { apply (run_node_steps bob_events node_start). vm_compute. reflexivity. }
  transitivity node_asked; [|apply (run_node_steps [NData; NWork] node_asked); vm_compute; reflexivity].
  apply rtc_once. apply (ns_remote LICENCE (§"1") chat_text _ _ (§"success")). unfold node_asked.
  apply pair_fst. vm_compute. reflexivity.
Qed.

Definition server_waiting : Server keyspace :=
  mkServer node_waiting MODEL_SINGLE 4222 4333 4224 4334
    (λ k, if decide (k = TCP) then Some true else None) [] false [].

Definition server_stopped : Server keyspace := (Wait_sessions server_waiting).2.

(** Bob's session. *)
Definition bob_waiting : Session := default fresh_session (heap node_waiting !! bob_sid).

Lemma bob_heap : heap node_waiting = {[ bob_sid := bob_waiting ]}.
Proof. vm_compute. reflexivity. Qed.
Lemma bob_buff : pkgBuff bob_waiting = {[ §"m1" := of_text chat_text ]}.
Proof. vm_compute. reflexivity. Qed.

Lemma bob_at : heap node_waiting !! bob_sid = Some bob_waiting.
Proof. rewrite bob_heap. apply lookup_singleton_eq. Qed.

Lemma node_waiting_only sid s : heap node_waiting !! sid = Some s → sid = bob_sid ∧ s = bob_waiting.
Proof. rewrite bob_heap. by intros [<- <-]%lookup_singleton_Some. Qed.

Lemma node_waiting_plain : node_plain node_waiting.
Proof.
  intros sid s _ [-> ->]%node_waiting_only _. rewrite bob_buff. apply map_Forall_singleton.
  apply not_session_dec. vm_compute. reflexivity.
Qed.

Lemma bob_in_map : bob_sid ∈ sessionMap node_waiting.
Proof. apply (bool_decide_unpack _). vm_compute. exact I. Qed.

(** Until now only reads and direct writes: the workers have not moved. *)
Lemma started_running (d : DB) :
  wbCh_closed d = false → wbCh d = [] → wbCh4s d = [] → workers d = workers (NewDatabase 10 (∅ : keyspace)) → running d.
Proof. intros E1 E2 E3 E4. destruct (NewDatabase_running 10 (∅ : keyspace)). split; by rewrite ?E1, ?E2, ?E3, ?E4. Qed.

Lemma node_waiting_running : running (w_db (world node_waiting)).
Proof. apply started_running; vm_compute; reflexivity. Qed.

Lemma wait_returns : Wait_sessions server_waiting = (Ret tt, server_stopped).
Proof. unfold server_stopped. apply pair_fst. vm_compute. reflexivity. Qed.

(** The session workers delete bob's record, then the database is closed. *)
Definition db_stopped : DB := w_db (world (sv_node server_stopped)).
Definition stop_events : list event := [Take 20; Exec 20; Take 20; Exec 20].
Definition db_idle : DB := default db_stopped (run_events stop_events db_stopped).

Definition stop_close : list cevent :=
  CStop :: replicate 20 CSignal ++ map CWorker [Take 0; Exec 0; Take 1; Exec 1] ++
  map (λ i, CWorker (Take i)) (seq 0 20) ++ map (λ i, CWorker (Waited i)) (seq 20 20) ++ [CWait].

Lemma stop_close_done : c_phase <$> close_events ex_keep stop_close (mkClosing db_idle PStop) = Some PDone.
Proof. vm_compute. reflexivity. Qed.

Lemma db_idle_idle : sessions_idle db_idle.
Proof.
  split; [vm_compute; reflexivity|]. assert (Forall (λ w, hand w = None) (workers db_idle)) as Hf.
  { vm_compute. repeat (constructor; [reflexivity|]). constructor. }
  intros i w Hi _. by apply (Forall_lookup_1 _ _ _ _ Hf Hi).
Qed.

Lemma wait_close_idle : Wait_close ex_keep server_waiting server_stopped (mkClosing db_idle PStop).
Proof.
  split; [exact wait_returns|]. exists stop_events, db_idle. split; [apply run_events_default; vm_compute; reflexivity|].
  split; [exact db_idle_idle|apply reach_start].
Qed.

Lemma stop_closes_every_session_witness :
  ∃ sv', Wait_sessions server_waiting = (Ret tt, sv') ∧ acceptCh_closed sv' = true ∧ (∀ k, listeners sv' k ≠ Some true) ∧
    (∀ sid, sid ∈ sessionMap (sv_node server_waiting) →
      ∃ s, heap (sv_node sv') !! sid = Some s ∧ ss_Status (Status s) = STATUS_CLOSE) ∧
    ∀ e p c', close_do ex_keep e (mkClosing db_idle PStop) ≠ Some (Panic p, c').
Proof.
  destruct (stop_closes_every_session server_waiting) as (sv' & E & Ha & Hl & _ & Hs & Hw).
  - exact node_waiting_reachable.
  - exact I.
  - exists sv'. split; [exact E|]. split; [exact Ha|]. split; [exact Hl|]. split; [exact Hs|].
    rewrite (pair_det _ _ _ _ E wait_returns) in Hw.
    destruct (Hw node_waiting_running node_waiting_plain ex_keep _ wait_close_idle) as (_ & Hp & _). exact Hp.
Defined.

Lemma only_waiting p : waiting node_waiting p → p = of_text chat_text.
Proof.
  intros (sid & s & i & _ & [-> ->]%node_waiting_only & _ & Hi). rewrite bob_buff in Hi. by apply lookup_singleton_Some in Hi as [_ <-].
Qed.

Lemma graceful_stop_keeps_messages_witness :
  ∃ c y, close_events ex_keep stop_close (mkClosing db_idle PStop) = Some c ∧
    hash_at (keys (c_db c)) (ToOfflineKey jid_bob ++ IDX_SUFFIX) = OK y ∧ y !! §"m1" = Some chat_text.
Proof.
  pose proof stop_close_done as Hd.
  destruct (close_events ex_keep stop_close (mkClosing db_idle PStop)) as [c|] eqn:E; [|discriminate Hd].
  destruct (graceful_stop_keeps_messages server_waiting server_stopped stop_events db_idle ex_keep c
              (of_text chat_text) jid_bob ∅) as (y & Hy & Ht).
  - exact node_waiting_reachable.
  - exact node_waiting_plain.
  - exact I.
  - exact node_waiting_running.
  - vm_compute. reflexivity.
  - exact wait_returns.
  - apply run_events_default. vm_compute. reflexivity.
  - exact db_idle_idle.
  - eapply close_events_sound; [apply reach_start|exact E].
  - injection Hd as Hd. exact Hd.
  - exists bob_sid, bob_waiting, (§"m1"). split_and!; [exact bob_in_map|exact bob_at| |
      rewrite bob_buff; apply lookup_singleton_eq]. vm_compute. discriminate.
  - vm_compute. reflexivity.
  - vm_compute. reflexivity.
  - split.
    + vm_compute. discriminate.
    + intros sid s _ [-> ->]%node_waiting_only. vm_compute. discriminate.
    + intros p ->%only_waiting. vm_compute. discriminate.
    + intros p j ->%only_waiting _ _ _. reflexivity.
  - exists c, y. split; [reflexivity|]. split; [exact Hy|exact Ht].
Defined.

Lemma stop_with_session_can_crash_witness :
  ∃ c e c', close_reach ex_keep (w_db (world (sv_node server_stopped))) c ∧
    close_do ex_keep e c = Some (Panic closed_channel, c').
Proof.
  apply (stop_with_session_can_crash server_waiting server_stopped ex_keep bob_sid bob_waiting).
  - exact node_waiting_reachable.
  - exact node_waiting_plain.
  - exact I.
  - exact node_waiting_running.
  - vm_compute. reflexivity.
  - vm_compute. repeat (constructor; [reflexivity|]). constructor.
  - exact bob_in_map.
  - exact bob_at.
  - vm_compute. reflexivity.
  - exact wait_returns.
Defined.

Lemma stop_while_accepting_can_crash_witness :
  (accept_send (Wait_sessions (accept_conn TCP server_waiting).2).2).1 = Panic closed_channel.
Proof.
  apply (stop_while_accepting_can_crash server_waiting _ TCP).
  - reflexivity.
  - reflexivity.
  - reflexivity.
  - apply pair_fst. vm_compute. reflexivity.
Defined.




(** ** Two logins on one node *)

Definition bob_first : Session := session_of (§"s0") (§"bob@d").
Definition node_twice : Node DB :=
  mkNode (<[ §"s1" := fresh_session ]> {[ §"s0" := bob_first ]}) {[ §"s0" ]} (§"n01") (NewRPCDataChannel addr_a)
    (start (with_record (Status bob_first)) conf_open).

Lemma bob_first_logged_in : logged_in (mkS bob_first (world node_twice)) jid_bob.
Proof. split; vm_compute; reflexivity. Qed.
Lemma bob_first_wf : wf_status (Status bob_first).
Proof. split_and!; first [apply (utf8_check_sound 20); vm_compute; reflexivity|split; vm_compute; congruence]. Qed.
Lemma node_twice_index : index_name (keys (w_db (world node_twice))) (§"n01").
Proof. eexists. vm_compute. reflexivity. Qed.

Lemma relogin_replaces_session_witness :
  ∃ n1 n2 s2 item, in_session (§"s1") (packetHandler (RPackets [login_text])) node_twice = (Ret tt, n1) ∧
    worker item (set_world (set_router [] (world n1)) n1) = (Ret tt, n2) ∧ heap n2 !! §"s0" = Some s2 ∧
    ss_Status (Status s2) = STATUS_CLOSE ∧ sc s2 = Some (mkConn false [sent tcp [KILL]] false None).
Proof.
  destruct (relogin_replaces_session node_twice (§"s1") fresh_session tcp (§"s0") bob_first tcp login_text (of_text login_text) jid_bob)
    as (n1 & n2 & s1 & s2 & c1 & item & l & pks & E1 & _ & _ & E2 & _ & _ & _ & _ & _ & Hh & Hc & Hs & _).
  - reflexivity.
  - reflexivity.
  - reflexivity.
  - reflexivity.
  - reflexivity.
  - discriminate.
  - by apply elem_of_singleton.
  - reflexivity.
  - reflexivity.
  - exact bob_first_logged_in.
  - reflexivity.
  - reflexivity.
  - exact bob_first_wf.
  - apply map_Forall_empty.
  - exact bob_login.
  - exact I.
  - exact node_twice_index.
  - apply bob_seen.
  - reflexivity.
  - apply open_accepts.
  - exists n1, n2, s2, item. split_and!; done.
Defined.




(** A session is created, registered, and its connection fails. *)
Definition new_session : Session :=
  match (NewSessionOn false addr_a (world node0)).1 with Ret s => s | Panic _ => fresh_session end.
Definition new_world : World DB Q_ := (NewSessionOn false addr_a (world node0)).2.
Definition node_created : Node DB := set_heap (<[ss_Sid (Status new_session) := new_session]> (heap node0)) (set_world new_world node0).
Definition node_accepted : Node DB := (registerSession new_session node_created).2.
Definition node_failed : Node DB := (in_session (§"u0") (packetHandler (RErr (§"EOF"))) node_accepted).2.

Lemma closed_sessions_leave_the_map_witness :
  sessionMap node_failed = {[ §"u0" ]} ∧
  ∃ n', rtc node_step node_failed n' ∧ heap n' = heap node_failed ∧ sessionMap n' = ∅.
Proof.
  split; [vm_compute; reflexivity|].
  destruct (closed_sessions_leave_the_map node0 node_failed []) as (n' & Hr & _ & Hh & Hm & _).
  - by split.
  - apply (rtc_l _ _ (node_created, [§"u0"])); [|apply (rtc_l _ _ (node_accepted, []))].
    + apply (fs_create false). vm_compute. reflexivity.
    + apply (fs_register (§"u0") new_session node_created node_accepted [] []).
      * vm_compute. reflexivity.
      * vm_compute. discriminate.
      * apply pair_fst. vm_compute. reflexivity.
    + apply rtc_once, fs_node, (ns_read (§"u0") (RErr (§"EOF"))). unfold node_failed. apply pair_fst. vm_compute. reflexivity.
  - exists n'. split; [exact Hr|]. split; [exact Hh|]. rewrite Hm. vm_compute. reflexivity.
Defined.

Lemma early_close_leaks_session_witness :
  ∃ s' w', CloseSession (§"EOF") (mkS new_session new_world) = (Ret tt, mkS s' w') ∧ w_clean w' = [§"u0"].
Proof.
  destruct (early_close_leaks_session false (§"EOF") node0 new_session new_world) as (s' & w' & E & Hc & _).
  - vm_compute. reflexivity.
  - vm_compute. discriminate.
  - vm_compute. reflexivity.
  - vm_compute. discriminate.
  - vm_compute. reflexivity.
  - exists s', w'. split; [exact E|exact Hc].
Defined.

Definition accepted_session : Session := default fresh_session (heap node_accepted !! §"u0").

(** The client sends something that is no login: the session is closed, its deadline is that of a
    session past its login. *)
Lemma every_session_has_a_deadline_witness :
  is_Some (session_deadline accepted_session) ∧
  ∃ x', packetHandler (RPackets [§"x"]) (mkS accepted_session (world node_accepted)) = (Ret tt, x').
Proof.
  destruct (every_session_has_a_deadline node_accepted (§"u0") accepted_session (RPackets [§"x"])) as (Hd & x1 & x' & _ & E & _).
  - exists node0. split; [by split|]. apply rtc_once, (ns_accept false). unfold node_accepted. apply pair_fst. vm_compute. reflexivity.
  - vm_compute. reflexivity.
  - split; [exact Hd|]. exists x'. exact E.
Defined.
