(* ===== verification/ClientRun.v ===== *)
(** * ClientRun: a benchmark client against a node, messages that are lost, and a group.

    The client [u1] on a server that does not authenticate its users, a message of amy
    that is acknowledged while the queue of the router is full, and a group of amy, bob and
    carol on two nodes. *)

From S2P Require Import Prelude GoBytes Utf8 Json Gjson Types Wire Conn Config Redis Database SaraDb World External Session SessionProps Rpc Node Witnesses Loss Cluster Bounce Client Bench ClientThreads Group.

#[local] Existing Instances lib outside thrift.

#[local] Instance dice : Rand.
Proof. refine {| Intn_ k n := Z.of_nat k mod n |}. intros k n Hn. by apply Z.mod_pos_bound. Defined.

(** ** The handshake *)

Definition u1 : Client := mkClient newSessionIndex (§"u1") [] [] false false.

Lemma u1_name : client_name (§"u1").
Proof. split; [plain|apply (bool_decide_unpack _); vm_compute; exact I]. Qed.

Lemma client_login_succeeds_witness :
  ∃ x' c' answer cl', openSession (Sprintf sfpacket [§"u1"; §"7f"]) x0 = (Ret tt, x') ∧
    logged_in x' (mkJID (§"u1") (§"a.a") []) ∧ sc (ses x') = Some c' ∧ out c' = [answer] ∧
    newClient (λ _, None) [] (§"h:4222") [] 0 (§"u1") (§"7f") None (OK answer) newSessionIndex = (Ret (OK cl'), c_index cl') ∧
    c_state cl' = §"ok" ∧ c_written cl' = [Sprintf sfpacket [§"u1"; §"7f"] ++ [END_FLAG]] ∧
    is_Some (uidMap (c_index cl') !! §"u1").
Proof.
  apply (client_login_succeeds (λ _, None) [] (§"h:4222") [] 0 newSessionIndex (§"u1") (§"7f") x0 tcp ∅).
  - exact u1_name.
  - plain.
  - reflexivity.
  - reflexivity.
  - reflexivity.
  - reflexivity.
  - reflexivity.
  - apply ready_start.
  - apply index_free.
  - apply open_accepts.
  - vm_compute. reflexivity.
  - intros vals Hv. rewrite map_to_list_empty in Hv. apply Permutation_nil_r in Hv as ->. vm_compute. lia.
Defined.

(** ** The acknowledgement *)

Lemma client_ack_clears_buffer_witness :
  ∃ cl' ack x', receive (RPackets [ToJson (of_text chat_text)]) u1 = (Ret tt, cl') ∧
    c_written cl' = c_written u1 ++ [ack ++ [END_FLAG]] ∧
    handle_packet ack x_unacked = (Ret tt, x') ∧ Status (ses x') = Status (ses x_unacked) ∧
    pkgBuff (ses x') = delete (Id (envelope_of (of_text chat_text))) (pkgBuff (ses x_unacked)).
Proof.
  apply (client_ack_clears_buffer u1 x_unacked jid_bob (of_text chat_text) (of_text chat_text)).
  - reflexivity.
  - split; vm_compute; reflexivity.
  - vm_compute. reflexivity.
  - reflexivity.
  - plain.
  - plain.
  - vm_compute. discriminate.
  - reflexivity.
Defined.

(** ** The index of the users *)

Lemma rand_picks_another_user_witness :
  ∃ to, (si_rand (§"u1") (si_add (§"u2") newSessionIndex).2).1 = Ret to ∧
    (to = [] ∨ to ≠ §"u1" ∧ ∃ i, uidMap (si_add (§"u2") newSessionIndex).2 !! to = Some i ∧
       (S i < length (uidArr (si_add (§"u2") newSessionIndex).2))%nat).
Proof.
  apply (rand_picks_another_user (§"u1") (si_add (§"u2") newSessionIndex).2).
  apply rtc_once. by apply is_add.
Defined.

(** With two users the first is picked; with one user nobody is. *)
Example two_users :
  (si_rand (§"u2") (si_add (§"u2") (si_add (§"u1") newSessionIndex).2).2).1 = Ret (§"u1") ∧
  (si_rand (§"u1") (si_add (§"u2") (si_add (§"u1") newSessionIndex).2).2).1 = Ret [] ∧
  (si_rand (§"u2") (si_add (§"u1") newSessionIndex).2).1 = Ret [].
Proof. vm_compute. split_and!; reflexivity. Qed.

(** ** A client that loses its connection *)

Definition u1_in : Client := mkClient (si_add (§"u1") newSessionIndex).2 (§"u1") (§"ok") [] false false.
Definition u1_lost : Threads :=
  match client_do (§"a") true (Read (RErr (§"EOF"))) (start_threads (§"a") u1_in) with
  | Some (_, t) => t
  | None => start_threads (§"a") u1_in
  end.

Lemma u1_in_ok : index_ok (c_index u1_in).
Proof. apply index_reachable_ok. apply rtc_once. by apply is_add. Qed.

Lemma client_ends_with_connection_witness :
  uidMap (c_index (th_client u1_lost)) !! §"u1" = None ∧
  ∃ t, rtc (thread_step (§"a")) u1_lost t ∧ th_client t = th_client u1_lost ∧ th_beat t = false ∧ th_send t = false.
Proof.
  destruct (client_ends_with_connection (§"a") u1_in u1_lost) as [_ Hend].
  - exact u1_in_ok.
  - reflexivity.
  - apply rtc_once, (ts_own _ true (Read (RErr (§"EOF")))). vm_compute. reflexivity.
  - apply Hend. vm_compute. reflexivity.
Defined.

(** ** Two connections: one fails, one is answered *)

Definition bench_start : Bench :=
  match MakeConn [] (§"h:4222") 2 1 with Running b => b | _ => mkBench [] [] false [] 0 0 [] [] Queueing [] end.
Definition bench_run_events : list bevent :=
  [MSend; MSend; GTake 0; GTake 1; GDial 0 false; GDial 1 true; GDone 0; GStarted 1 (OK (§"no")); GDone 1; MWait; GTake 0; GTake 1].
Definition bench_end : Bench := default bench_start (bench_events bench_run_events bench_start).

Lemma bench_end_run : nsteps bench_step 12 bench_start bench_end.
Proof.
  apply (bench_events_run bench_run_events); [|vm_compute; reflexivity].
  repeat constructor. discriminate.
Qed.

Lemma bench_end_stuck b : ¬ own_step bench_end b.
Proof.
  intros (e & o & _ & He). destruct e as [| |[|[|i]]|[|[|i]]|[|[|i]] ok|[|[|i]] r|[|[|i]]]; vm_compute in He; discriminate He.
Qed.

Lemma MakeConn_terminates_witness :
  all_connected bench_end ∧ length (dialled bench_end) = 2%nat ∧ fail bench_end = 1.
Proof.
  destruct (MakeConn_terminates [] (§"h:4222") 2 1 bench_start 12 bench_end) as (_ & _ & Hst).
  - vm_compute. reflexivity.
  - lia.
  - exact bench_end_run.
  - destruct (Hst bench_end_stuck) as [([|[|i]] & g & Hi & Hg)|(Hc & Hl & _)].
    + vm_compute in Hi. injection Hi as <-. destruct Hg.
    + vm_compute in Hi. injection Hi as <-. destruct Hg.
    + vm_compute in Hi. discriminate Hi.
    + split; [exact Hc|]. split; [exact Hl|vm_compute; reflexivity].
Defined.

(** A server that does not answer keeps the benchmark in its connecting phase. *)
Example silent_server :
  ∃ b, bench_events [MSend; MSend; GTake 0; GDial 0 true] bench_start = Some b ∧
    gens b !! 0%nat = Some (Starting (§"h:4222") [] 0) ∧ wg b = 2.
Proof. eexists. split; [vm_compute; reflexivity|]. split; reflexivity. Qed.

(** ** A lost message *)

Definition busy (w : World DB Q_) : World DB Q_ :=
  set_router (repeat (mkItem [] [] None 0) (Z.to_nat ROUTER_QUEUE_SIZE)) w.
Definition ack_wanted_text : bytes := quoted "{'envelope':{'id':'m1','type':1,'ack':1,'from':'amy@d','to':'bob@d'}}".
Definition x_busy : SState DB Q_ := mkS (session_of (§"s2") (§"amy@d")) (busy (Witnesses.start (with_record bob_record) conf_quiet)).

Lemma acknowledged_message_can_vanish_witness :
  ∃ now x', handle_packet ack_wanted_text x_busy = (Ret tt, x') ∧
    ses x' = mkSession (Status (ses x_busy)) (Some (add_out tcp (ToJson (NewPacketAck now (Id (envelope_of (of_text ack_wanted_text)))))))
      (pkgBuff (ses x_busy)) ∧
    nothing_kept (wld x_busy) (wld x').
Proof.
  apply (acknowledged_message_can_vanish x_busy jid_amy tcp ack_wanted_text (of_text ack_wanted_text) jid_amy jid_bob
           (SessionStatus_ToJson bob_record)).
  - split; vm_compute; reflexivity.
  - reflexivity.
  - reflexivity.
  - vm_compute. reflexivity.
  - vm_compute. discriminate.
  - reflexivity.
  - vm_compute. discriminate.
  - split; vm_compute; reflexivity.
  - reflexivity.
  - exact not_same.
  - exact I.
  - apply (bob_seen bob_record conf_quiet).
  - unfold x_busy, busy. cbn [wld w_router set_router]. rewrite repeat_length. vm_compute. discriminate.
Defined.

Lemma delivery_during_close_is_lost_witness :
  ∃ x1 x2, CloseSession (§"eof") x_bob = (Ret tt, x1) ∧ deliver (of_text chat_text) x1 = (Ret tt, x2) ∧
    pkgBuff (ses x2) !! §"m1" = Some (of_text chat_text) ∧
    w_db (wld x2) = (db_DeleteByIdxKey (§"n01") (ToSessionid jid_bob) (w_db (wld x_bob))).2.
Proof.
  destruct (delivery_during_close_is_lost x_bob jid_bob (of_text chat_text) jid_amy jid_bob tcp (§"eof"))
    as (_ & x1 & x2 & l & E1 & E2 & Hb & _ & Hl & Hd & _).
  - apply bob_logged_in.
  - exact chat_from_to.
  - reflexivity.
  - reflexivity.
  - exact I.
  - apply map_Forall_empty.
  - exists x1, x2. split; [exact E1|]. split; [exact E2|]. split; [exact Hb|]. rewrite Hd.
    apply Permutation_nil_r in Hl as ->. reflexivity.
Defined.

(** ** A group on two nodes *)

Definition carol_record : SessionStatus :=
  mkStatus (§"s3") (§"carol@d") STATUS_LOGIN (§"n02") (§"h2:4281") 1700000000.
Definition jid_carol : JID := mkJID (§"carol") (§"d") [].
Definition group_keys : keyspace :=
  <[group_key (§"9") (§"d") := mkEntry (VStr members) (Some 3600)]>
  (<[ToSessionid jid_carol := mkEntry (VStr (SessionStatus_ToJson carol_record)) None]> (with_record bob_record)).
Lemma carol_record_wf : wf_status carol_record.
Proof. split_and!; first [apply (utf8_check_sound 20); vm_compute; reflexivity|split; vm_compute; congruence]. Qed.

Lemma uuid_is_text n : utf8_valid (uuid_hex n).
Proof. cbn. apply utf8_valid_ascii; [done|]. apply (utf8_fmt_u (Z.of_nat n)). lia. Qed.

(** Bob's node has received a copy for bob; nothing else is under way. *)
Definition node_bob_copy : Node DB :=
  mkNode {[ §"s1" := session_of (§"s1") (§"bob@d") ]} {[ §"s1" ]} (§"n01")
    (set_dataCh [Witnesses.group_text] (NewRPCDataChannel (§"h:4281"))) (Witnesses.start ∅ conf_quiet).
Definition node_carol : Node DB :=
  mkNode {[ §"s3" := mkSession carol_record (Some tcp) ∅ ]} {[ §"s3" ]} (§"n02")
    (NewRPCDataChannel (§"h2:4281")) (Witnesses.start ∅ conf_quiet).
Definition group_cluster : Cluster :=
  mkCluster group_keys (<[§"h:4281" := node_bob_copy]> {[ §"h2:4281" := node_carol ]}).

Lemma group_two_members :
  two_members (§"9") (§"amy@d") members jid_amy (§"bob") (§"carol") bob_record carol_record (§"h:4281") (§"h2:4281")
    jid_bob jid_carol.
Proof.
  split.
  - vm_compute. reflexivity.
  - reflexivity.
  - exact members_plain.
  - exists [], (§",bob,carol"). reflexivity.
  - split; [exact uuid_is_text|]. split_and!; text_ok.
  - split_and!; discriminate.
  - split; [exact bob_record_wf|]. split; reflexivity.
  - split; [exact carol_record_wf|]. split; reflexivity.
Qed.

Lemma group_between :
  between (§"9") members jid_amy (§"bob") (§"carol") bob_record carol_record (§"h:4281") (§"h2:4281")
    jid_bob jid_carol group_cluster tcp tcp [Witnesses.group_text] [].
Proof.
  split.
  - split; [exact I|vm_compute; reflexivity..].
  - exists node_bob_copy. split_and!; [apply lookup_insert_eq|split|reflexivity|reflexivity]; [reflexivity|by apply elem_of_singleton|].
    exists (session_of (§"s1") (§"bob@d")). split; [apply lookup_singleton_eq|apply bob_logged_in|reflexivity|reflexivity].
  - exists node_carol. split_and!; [|split|reflexivity|reflexivity]; [|reflexivity|by apply elem_of_singleton|].
    + cbn [group_cluster c_nodes]. rewrite lookup_insert_ne by discriminate. apply lookup_singleton_eq.
    + exists (mkSession carol_record (Some tcp) ∅).
      split; [apply lookup_singleton_eq|split; vm_compute; reflexivity|reflexivity|reflexivity].
Qed.

(** After seven rounds bob has seven copies of amy's one message more, and so has carol. *)
Lemma group_message_bounces_witness :
  ∃ c' ka' kb' t' la lb, rtc cluster_step group_cluster c' ∧
    between (§"9") members jid_amy (§"bob") (§"carol") bob_record carol_record (§"h:4281") (§"h2:4281")
      jid_bob jid_carol c' ka' kb' [t'] [] ∧ Group.group_text (§"9") (§"amy@d") t' ∧
    out ka' = out tcp ++ map (λ q, sent tcp (ToJson q)) la ∧ out kb' = out tcp ++ map (λ q, sent tcp (ToJson q)) lb ∧
    length la = 7%nat ∧ length lb = 7%nat ∧
    Forall (copy_for (§"9") (§"amy@d") jid_amy (§"bob")) la ∧ Forall (copy_for (§"9") (§"amy@d") jid_amy (§"carol")) lb.
Proof.
  apply (group_message_bounces (§"9") (§"amy@d") members jid_amy (§"bob") (§"carol") bob_record carol_record
           (§"h:4281") (§"h2:4281") jid_bob jid_carol) with (t := Witnesses.group_text).
  - exact group_two_members.
  - split; [reflexivity|]. intros. by eexists.
  - exact group_between.
  - exists (of_text Witnesses.group_text). split_and!; vm_compute; reflexivity.
Defined.
